(* ===== verification/_CoqProject ===== *)
-Q . S2P
Prelude.v
GoFloat.v
GoStrings.v
Model.v
Tracker.v
Scorer.v
Detectors.v
Crawler.v
GoNet.v
GoFmt.v
Whitelist.v
GoValues.v
GoTime.v
GoJSON.v
GoTimeJSON.v
GoHTTP.v
GoFlag.v
ChainCheck.v
Blocklist.v
ConfigTypes.v
ConfigEnv.v
ConfigLoad.v
ExecCommon.v
NginxExec.v
MikrotikExec.v
OpenwrtExec.v
OpnsenseExec.v
CloudflareExec.v
MockOpnsense.v
MockUbus.v
MockRouterOS.v
MockCloudflare.v
Waf.v
Format.v
Pipeline.v
EndToEnd.v
Factory.v
Stream.v
Logging.v
Wiring.v
Daemon.v
Lifecycle.v
Metrics.v
Startup.v
Tickers.v
Entry.v
GenPlugins.v
Registration.v
