(* ===== verification/Prelude.v ===== *)
(** * arxsentinel: a verification library

    arxsentinel reads access-log lines, keeps a state per client address,
    scores the behaviour with detectors and hands the addresses that cross a
    threshold to executors, which ban them on a firewall or proxy.  This
    library models that core, its configuration, its start-up and reload and its
    outputs in Gallina, definition by definition from the Go sources under src/,
    and proves the properties that make it correct.

    ** The program and the files

    A line goes through [Pipeline.Process] (securityProcessor.Process in
    cmd/arxsentinel/processor_security.go): chain check, custom whitelist, WAF
    gate, bot verification, tracker update, fake-bot penalty, scoring, threat
    event.  The parts it calls, and the executors that consume its events:

    - [Prelude]: machine integers ([wrap64]), [Time] and [Duration] in
      nanoseconds, list lemmas, tactics, hint databases.
    - [GoFloat], [GoStrings], [GoNet], [GoValues], [GoFmt], [GoTime]: what the
      sources use of Go's float64, strings/strconv/path, net, dynamic values and
      durations, quoting and decimal printing with UTF-8, and calendar time.
      Floats are the IEEE binary64 operations of the Standard Library's SpecFloat.
    - [GoJSON], [GoHTTP]: encoding/json (documents, Marshal, Decoder and Unmarshal,
      storing into structs and slices, with the round trips) and what clients and
      servers use of net/http and net/url (escaping, basic authentication, the
      routing of ServeMux with its redirects, and [Net], a server behind a network
      that may lose requests).
    - [GoTimeJSON]: the RFC 3339 form of times in JSON documents, its parser, and
      maps of times, with the round trip.
    - [GoFlag]: the flag package; the scanner accepts exactly its grammar.
    - [Model]: log entries, detector results, and the interfaces [IPView],
      [ScoreAccess] (with [ScoreAccessLaws]) and [MapRange], the iteration over
      a Go map in an unspecified order.
    - [Tracker]: internal/core/state/tracker.go.  [IPState] instantiates the
      interfaces of [Model]; [exec_op] is one method call, [abs_op] the same
      call on the abstract specification, a recency list of request histories.
    - [Scorer]: internal/core/scorer/scorer.go, over any [ScoreAccess].
    - [Detectors], [Crawler]: pkg/detectorplugins/*, over any [IPView].
    - [Whitelist]: internal/core/whitelist and the whitelist processor plugin.
    - [ChainCheck]: internal/core/chaincheck and its processor plugin.
    - [Blocklist]: internal/core/blocklist (parsers, manager, persistence).
    - [Waf]: pkg/processorplugins/waf.
    - [Pipeline]: the security processor.
    - [ConfigTypes], [ConfigEnv], [ConfigLoad]: internal/sys/config.  The records
      and defaults; the environment overrides, with the table [env_table] as their
      specification; migration, validation with the well-formedness predicate
      [config_wf] it decides, and [LoadConfig].
    - [Format]: internal/threat/format, internal/core/output/logger.go and
      cmd/arxsentinel/queue_event_source.go.
    - [Factory]: cmd/arxsentinel/processor_factory.go and the detector part of
      builders.go; [exec_call] is one Build or Reload of a factory.
    - [Stream]: [Factory] and [Pipeline] composed, a stream under the calls of its
      engine, reloads that fail included.
    - [Logging]: internal/sys/utils/logging.go and internal/core/output/warnings.go
      over a file system of names, descriptors and inodes; [logging_step] is one
      critical section of one of any number of threads.
    - [Wiring]: builders.go, runtime_adapter.go, executors.go, validate.go,
      transport_bootstrap.go and helpers.go of cmd/arxsentinel.
    - [Daemon]: the SIGHUP handler of cmd/arxsentinel/main.go; [daemon_step] is one
      step of the handler, of main, of a stream or of the operating system.
    - [Lifecycle]: the goroutines of main from the launch of the streams to the
      exit, with their wait groups, and each executor with its queue, the goroutine
      that pops it and the channel between the two; [life_step] is one step of any
      of them.
    - [Startup]: the subcommands (validate, cleanup) and main from its flags to
      the running streams, composed of [LoadConfig], the validation, the flags, the
      logger with its start-up lines, the PID file, the queues and the adapted
      streams; [comes_up] adds the panics of start-up.
    - [Tickers]: the periods of the background loops (lists, Cloudflare ranges,
      garbage collectors), over [LoadConfig], [Startup] and [Factory]: which loaded
      configurations start every loop without the panic of time.NewTicker.
    - [Metrics]: internal/sys/metrics, its callbacks in main.go, and the decision of
      cmd/healthcheck.
    - [Entry]: the command line of main and of the cleanup command, the choice of
      the command, the metrics server and the probe of cmd/healthcheck against it.
    - [GenPlugins]: tools/gen-plugins and the plugin files it generates.
    - [Registration]: the manifests and init functions of the plugins and
      plugins_full.go, composed with [GenPlugins] and [Factory].
    - [EndToEnd]: [Pipeline], [Format] and [NginxExec] composed, from the lines of a
      stream to the deny file.
    - [ExecCommon]: threat events, level order, dedup window, statistics,
      configuration decoding and [run_turns], the select loop of an executor;
      [lossy], what a call to a remote set may do when its answer is lost.
    - [NginxExec], [MikrotikExec], [OpenwrtExec], [OpnsenseExec],
      [CloudflareExec]: pkg/executorplugins/*; the last one also holds
      cmd/arxsentinel/cleanup.go.
    - [MockOpnsense], [MockUbus], [MockRouterOS], [MockCloudflare]: the servers
      under tests/integration, each composed with the client of its executor.

    Code that is not in the repository is a class or a section variable: the
    rule engine of the WAF ([RuleEngine]), the Aho-Corasick automaton
    ([AhoCorasick]), bbolt ([KVStore]), the dedup window ([DedupWindow]), the
    typed getters of detector parameters ([DetectorParams]), the error texts of the
    JSON decoder ([JSONErrors]), HTTP round trips, DNS ([Resolver]), the
    printable runes beyond ASCII ([UnicodePrint]), lower-casing beyond ASCII
    ([UnicodeLower]), terminal colours ([Colors]), the registries of detectors,
    parsers, sources and sinks ([DetectorRegistry], [Parsers], [IORegistry]), the
    Named Channel Switch ([ChannelSwitch]), the pipeline validator ([Validator])
    and the queue modes ([QueueMode]); the YAML decoder is an argument.  Classes with
    laws have concrete instances ([ex_window], [ex_aho], [ex_kv],
    [ex_rule_engine], [map_range_canonical]), used by the witnesses.  Each
    executor is written against the client interface of its source
    ([MikrotikClient], [OpenwrtClient], [OpnsenseClient], [CFClient]); the HTTP
    client is modelled too and is an instance of it.  [LossyRouter] and
    [LossyFirewall] state what the managed device promises to a client whose answers
    can be lost: a call that reports success was applied, one that reports an error
    may have been.  [OpenwrtSet], [OpenwrtRouter] and [OpnsenseFirewall] promise
    that such a call had no effect; the clients connected to the mock servers over a
    network that loses requests are instances of them.

    ** What the theorems show

    - Tracker: every sequence of method calls refines the abstract list
      ([tracker_execution_refinement]); the eviction, the garbage collection,
      the ring buffer and the rate window are exact.
    - Scorer: the verdict is the decayed score plus the positive results of the
      detectors that are not exempt; decay in float64 stays between 0 and the
      old score; exempting is the same as not configuring.
    - Detectors, crawler, whitelist, DNS cache, verifier, chain check,
      blocklist, WAF: each routine decides exactly its declarative condition
      (segment boundaries, label boundaries, address ranges, sets of patterns,
      consecutive numbers), including the error branches.
    - Pipeline: one line is appended to exactly one history or to none
      ([Process_refines]); an emitted threat agrees with the tracker.  Through every
      interleaving of builds, lines, reloads and collectors the trackers of a stream
      hold the histories of the lines that passed ([stream_histories_exact]).
    - Executors: the file mirrors the ban map through every sequence of turns and
      failures (nginx); the map holds exactly the changes that were confirmed, and
      agrees with the device on every address whose last call was (OpenWrt,
      OPNsense); a flush or sweep
      records exactly the calls that succeeded (MikroTik); retries are bounded
      (Cloudflare); writing the nginx files is atomic and reading them back
      restores the bans.
    - Wire: through the real clients (URLs, headers, JSON bodies, sessions) and the
      handlers of the servers, over a network that loses requests, the ban map is
      the alias or the set on the server ([opnsense_wire_refinement],
      [openwrt_wire_refinement]); a restarted executor recovers the map
      ([mikrotik_restart_recovers]); what a Cloudflare batch leaves behind
      ([cloudflare_wire_flush]).
    - End to end: the deny file lists exactly the addresses with a line that reached
      the scorer and left them a score at or above the minimum level
      ([log_to_deny_file]).
    - Configuration: what loads is well-formed, whatever the file, the decoder and
      the environment hold ([load_config_wf]); the environment overrides are their
      table, no more and no less; migration keeps the streams and is idempotent;
      the defaults load.
    - Factory: pipelines share a tracker exactly when their groups coincide; a
      reload takes all tunables and keeps all tracked state, a failed one changes
      exactly what [failed_reload_effects] says for the step that failed; the
      configured detector
      sections that the build profile links are the detectors that run
      ([profile_detectors_exact]).
    - Outputs and logging: a Fail2Ban line cannot be forged by the bytes of a
      request; an event that passes a queue keeps exactly the fields the wire
      record shares with it; no interleaving of logging, reload, close and
      rotation writes to a closed file or loses an accepted line.
    - Start-up and signals: the flags mean what their spelling says
      ([command_line_exact]); what the validate command accepts is what the daemon
      starts ([validated_config_starts]), queues are registered all or none, every
      start-up failure or panic has its exit status and leaves the files it says; the
      health
      probe succeeds exactly when the daemon's server answers, and the metrics page
      needs its credentials ([health_probe_exact]); a SIGHUP handled after start-up reaches
      every stream, and its handler never waits for one; after a signal the daemon
      exits ([shutdown_completes]), and [return_is_clean] says what it leaves behind.  Metrics count exactly; the generated
      plugin files link exactly their profile and are current.
    - Some theorems state behaviour that contradicts the comments of the
      sources: [nginx_sweep_last_ban_stays], [cloudflare_accepted_is_final],
      [cloudflare_cleanup_deletes_nothing], [mikrotik_sweep_no_content],
      [openwrt_commit_failure_recorded], [waf_drop_untracked_unscored],
      [cloudflare_refresh_can_empty], [verify_cache_shared_between_bots],
      [toplevel_io_ignored], [misused_format_rejected], [shadowed_stream_build],
      [failed_reload_effects], [queue_hop_event], [early_sighup_lost],
      [sighup_updates_shared], [startup_exit_status], [mikrotik_sweep_stale],
      [ubus_mutex_stuck], [cloudflare_wire_flush], [short_run_loses_bans],
      [signal_loses_queue], [full_profile_differs], [state_file_local_zone],
      [validate_ignores_single_dash], [doc_v6_unreported], [unnamed_sink_queue_panics],
      [mixed_channel_fails], [late_refresh_reaches_store], [garbage_ends_executor].

    ** Conventions

    State is passed explicitly; an operation returns the new state with its
    result, [None] for an error whose text does not matter.  The clock is an
    argument: one reading per method call or turn, and [LineClock] for the several
    readings of one line of the pipeline.  Methods that hold one mutex
    throughout are atomic steps; [IPCache.Get], which releases its lock in
    between, is modelled in its two phases.  An executor's Run is a fold over a
    list of turns, each the case the select statement took with its clock
    reading and the faults of the environment, so theorems hold for every
    interleaving of events, ticks and failures.

    Recursion is structural except where fuel is used: the removal of wildcards
    and the scan for quoted patterns of a blocklist use the length of the text
    (each round consumes at least a byte, and the removal is proved to reach
    its fixed point), the IPv6 parser the number of groups an address has, the
    batches of the cleanup the number of items, the JSON parser the length of the
    document (proved enough, [parse_fuel_enough]), the HTTP client the ten
    redirects of net/http; the polls and retries of the
    Cloudflare executor are bounded by the source's own constants.

    ** What is not modelled

    The calls to logging and metrics inside the other components (the logger and
    the counters are modelled on their own); TLS settings and request time-outs
    (a time-out is a failed call, and a request the network loses is one that did
    not reach the server); goroutine scheduling inside one method other than the
    logger's; the YAML decoder, the engine, the transport, the registries and the
    rule engine, which are third-party packages (so is the loop that calls
    [Factory] and [Pipeline] for each line); what the commands print on the terminal
    outside the logger; the text format of the metrics; HTTP response headers, which
    no client reads. *)

From Stdlib Require Import ZArith Lia.
From stdpp Require Import base numbers option list strings.

(** ** Notation scope and hint database of the development *)

Declare Scope arx_scope.
Delimit Scope arx_scope with arx.
Open Scope arx_scope.

Create HintDb arx discriminated.
Create HintDb arx_rw.

(** ** Tactics *)

(** Destruct the scrutinee of the innermost [match] or [if] of the goal. *)
Ltac case_match_goal :=
  match goal with
  | |- context [match ?x with _ => _ end] =>
      lazymatch x with
      | context [match _ with _ => _ end] => fail
      | _ => destruct x eqn:?
      end
  end.

(** The same for the hypotheses. *)
Ltac case_match_hyp H :=
  match type of H with
  | context [match ?x with _ => _ end] =>
      lazymatch x with
      | context [match _ with _ => _ end] => fail
      | _ => destruct x eqn:?
      end
  end.

Ltac inv_clear H := inversion H; clear H; subst.

(** Turn boolean comparisons on [Z] and [nat] in the context into propositions. *)
Ltac b2p :=
  repeat match goal with
  | H : (_ <=? _)%Z = true |- _ => apply Z.leb_le in H
  | H : (_ <=? _)%Z = false |- _ => apply Z.leb_gt in H
  | H : (_ <? _)%Z = true |- _ => apply Z.ltb_lt in H
  | H : (_ <? _)%Z = false |- _ => apply Z.ltb_ge in H
  | H : (_ =? _)%Z = true |- _ => apply Z.eqb_eq in H
  | H : (_ =? _)%Z = false |- _ => apply Z.eqb_neq in H
  | H : (_ <=? _)%nat = true |- _ => apply Nat.leb_le in H
  | H : (_ <=? _)%nat = false |- _ => apply Nat.leb_gt in H
  | H : (_ <? _)%nat = true |- _ => apply Nat.ltb_lt in H
  | H : (_ <? _)%nat = false |- _ => apply Nat.ltb_ge in H
  | H : (_ =? _)%nat = true |- _ => apply Nat.eqb_eq in H
  | H : (_ =? _)%nat = false |- _ => apply Nat.eqb_neq in H
  | H : (_ && _)%bool = true |- _ => apply andb_prop in H; destruct H
  | H : (_ || _)%bool = false |- _ => apply orb_false_elim in H; destruct H
  | H : negb _ = true |- _ => apply negb_true_iff in H
  | H : negb _ = false |- _ => apply negb_false_iff in H
  end.

(** ** Machine integers

    A Go [int] on the supported 64-bit targets is an [int64]; arithmetic wraps
    around.  Values are kept as [Z] and every addition of the code that can
    overflow goes through [wrap64]. *)

Definition int64_min : Z := (- 2 ^ 63)%Z.
Definition int64_max : Z := (2 ^ 63 - 1)%Z.

Definition in_int64 (z : Z) : Prop := (int64_min <= z <= int64_max)%Z.

Definition wrap64 (z : Z) : Z := ((z + 2 ^ 63) mod 2 ^ 64 - 2 ^ 63)%Z.

Lemma wrap64_id z : in_int64 z -> wrap64 z = z.
Proof.
  unfold in_int64, int64_min, int64_max, wrap64. intros H.
  rewrite Z.mod_small by lia. lia.
Qed.

Lemma wrap64_range z : in_int64 (wrap64 z).
Proof.
  unfold in_int64, int64_min, int64_max, wrap64.
  pose proof (Z.mod_pos_bound (z + 2 ^ 63) (2 ^ 64)). lia.
Qed.

#[export] Hint Resolve wrap64_range : arx.

Lemma wrap64_add_l a b : wrap64 (wrap64 a + b) = wrap64 (a + b).
Proof.
  unfold wrap64. f_equal.
  replace ((a + 2 ^ 63) mod 2 ^ 64 - 2 ^ 63 + b + 2 ^ 63)%Z
    with ((a + 2 ^ 63) mod 2 ^ 64 + b)%Z by lia.
  rewrite Zplus_mod_idemp_l. f_equal. lia.
Qed.

(** ** Time

    [time.Time] is the number of nanoseconds since the zero time (January 1,
    year 1, UTC), so [IsZero] is the test against 0; [time.Duration] is an
    [int64] number of nanoseconds. *)

Abbreviation Time := Z (only parsing).
Abbreviation Duration := Z (only parsing).

Definition time_IsZero (t : Time) : bool := (t =? 0)%Z.

(** [Time.Sub] saturates at the bounds of [Duration]. *)
Definition time_Sub (t u : Time) : Duration :=
  Z.max int64_min (Z.min int64_max (t - u))%Z.

Definition time_Add (t : Time) (d : Duration) : Time := (t + d)%Z.
Definition time_Before (t u : Time) : bool := (t <? u)%Z.
Definition time_After (t u : Time) : bool := (u <? t)%Z.

Definition nanosecond : Duration := 1%Z.
Definition second : Duration := 1000000000%Z.
Definition minute : Duration := (60 * second)%Z.
Definition hour : Duration := (60 * minute)%Z.

Lemma time_Sub_exact t u : in_int64 (t - u) -> time_Sub t u = (t - u)%Z.
Proof. unfold in_int64, time_Sub. lia. Qed.

Lemma time_Sub_range t u : in_int64 (time_Sub t u).
Proof. unfold in_int64, time_Sub, int64_min, int64_max. lia. Qed.

#[export] Hint Resolve time_Sub_range : arx.

(** Saturation does not change comparisons with a threshold of the type. *)
Lemma time_Sub_ge t u d :
  (int64_min < d <= int64_max)%Z -> (d <= time_Sub t u <-> d <= t - u)%Z.
Proof. unfold time_Sub. lia. Qed.

(** ** Lists *)

Lemma filter_all {A} (P : A -> Prop) `{!forall x, Decision (P x)} (l : list A) :
  Forall P l -> filter P l = l.
Proof.
  induction 1 as [|x l Hx _ IH]; [done|].
  rewrite filter_cons_True by done. by rewrite IH.
Qed.

Lemma filter_none {A} (P : A -> Prop) `{!forall x, Decision (P x)} (l : list A) :
  Forall (fun x => ~ P x) l -> filter P l = [].
Proof.
  induction 1 as [|x l Hx _ IH]; [done|].
  by rewrite filter_cons_False.
Qed.

Lemma NoDup_filter_neq `{EqDecision A} (x : A) (l : list A) :
  NoDup l -> NoDup (x :: filter (fun y => y <> x) l).
Proof.
  intros Hl. constructor; [|by apply NoDup_filter].
  rewrite list_elem_of_filter. naive_solver.
Qed.

(** The last [n] elements of a list. *)
Definition lastn {A} (n : nat) (l : list A) : list A := drop (length l - n) l.

Lemma lastn_all {A} n (l : list A) : length l <= n -> lastn n l = l.
Proof. intros. unfold lastn. by replace (length l - n) with 0 by lia. Qed.

Lemma length_lastn {A} n (l : list A) : length (lastn n l) = Nat.min n (length l).
Proof. unfold lastn. rewrite length_drop. lia. Qed.

(** A bounded history only needs its last [n] elements. *)
Lemma lastn_snoc {A} n (l : list A) x :
  0 < n -> lastn n (lastn n l ++ [x]) = lastn n (l ++ [x]).
Proof.
  intros Hn. unfold lastn. rewrite !length_app, length_drop. simpl.
  destruct (decide (length l <= n)) as [Hle|Hgt].
  - replace (length l - n) with 0 by lia. simpl. f_equal; lia.
  - rewrite !drop_app_le by (rewrite ?length_drop; lia).
    rewrite drop_drop. do 2 f_equal. lia.
Qed.

(** A sublist and its complement. *)
Lemma length_complement `{EqDecision A} (l d : list A) :
  NoDup l -> NoDup d -> (forall x, x ∈ d -> x ∈ l) ->
  length d + length (filter (fun x => x ∉ d) l) = length l.
Proof.
  intros Hl Hd Hsub. rewrite <- length_app. apply Permutation_length.
  apply NoDup_Permutation; [|done|].
  - apply NoDup_app. split; [done|]. split; [|by apply NoDup_filter].
    intros x Hx Hf. apply list_elem_of_filter in Hf. tauto.
  - intros x. rewrite elem_of_app, list_elem_of_filter.
    destruct (decide (x ∈ d)); naive_solver.
Qed.
