(* ===== verification/GoFloat.v ===== *)
(** * Go's float64

    [float64] arithmetic as the IEEE 754 binary64 operations of the Standard
    Library's executable [SpecFloat], round to nearest even; conversions
    between [int] and [float64]; and the bounds on rounding that the scoring
    decay relies on. *)

From Stdlib Require Import ZArith Lia Floats.SpecFloat.
From stdpp Require Import base numbers.
From S2P Require Import Prelude.

Local Open Scope Z_scope.

Abbreviation float64 := spec_float (only parsing).

Definition f_add : float64 -> float64 -> float64 := SFadd 53 1024.
Definition f_sub : float64 -> float64 -> float64 := SFsub 53 1024.
Definition f_mul : float64 -> float64 -> float64 := SFmul 53 1024.
Definition f_div : float64 -> float64 -> float64 := SFdiv 53 1024.
Definition f_leb : float64 -> float64 -> bool := SFleb.
Definition f_ltb : float64 -> float64 -> bool := SFltb.
Definition f_zero : float64 := S754_zero false.

(** [float64(z)] of an integer. *)
Definition f_of_Z (z : Z) : float64 := binary_normalize 53 1024 z 0 false.
Definition f_one : float64 := f_of_Z 1.

(** [int(f)]: truncation towards zero.  A value out of range gives the
    smallest [int64], as the amd64 conversion instruction does. *)
Definition f_to_int (f : float64) : Z :=
  match f with
  | S754_zero _ => 0
  | S754_finite s m e =>
      let v := if 0 <=? e then Z.pos m * 2 ^ e else Z.pos m / 2 ^ (- e) in
      let v := if s then - v else v in
      if (int64_min <=? v) && (v <=? int64_max) then v else int64_min
  | _ => int64_min
  end.

(** [Duration.Seconds]: whole seconds plus the fraction, both converted. *)
Definition duration_Seconds (d : Duration) : float64 :=
  f_add (f_of_Z (Z.quot d second)) (f_div (f_of_Z (Z.rem d second)) (f_of_Z second)).

(** ** Scaled values

    All exponents met are at least [-4000]; [sc m e] is [m * 2^e] in units of
    [2^-4000], so that bounds on floats are bounds on integers. *)

Definition sc (m e : Z) : Z := m * 2 ^ (e + 4000).

Lemma sc_shift m e n : 0 <= n -> -4000 <= e -> sc m (e + n) = sc (m * 2 ^ n) e.
Proof.
  intros. unfold sc. replace (e + n + 4000) with (n + (e + 4000)) by lia.
  rewrite Z.pow_add_r by lia. ring.
Qed.

Lemma sc_le m m' e : -4000 <= e -> (sc m e <= sc m' e <-> m <= m').
Proof.
  intros. unfold sc. assert (0 < 2 ^ (e + 4000)) by (apply Z.pow_pos_nonneg; lia).
  split; nia.
Qed.

Lemma sc_lt m m' e : -4000 <= e -> (sc m e < sc m' e <-> m < m').
Proof. intros. pose proof (sc_le m' m e). lia. Qed.

Lemma pow2_pos n : 0 <= n -> 0 < 2 ^ n.
Proof. intros. apply Z.pow_pos_nonneg; lia. Qed.

#[export] Hint Resolve pow2_pos : arx.

(** ** Binary digits *)

Lemma digits2_pos_bounds p :
  2 ^ (Z.pos (digits2_pos p) - 1) <= Z.pos p < 2 ^ Z.pos (digits2_pos p).
Proof.
  induction p as [p IH|p IH|]; simpl digits2_pos.
  - rewrite Pos2Z.inj_succ, Z.pow_succ_r by lia.
    replace (Z.succ (Z.pos (digits2_pos p)) - 1) with (Z.succ (Z.pos (digits2_pos p) - 1)) by lia.
    rewrite Z.pow_succ_r by lia. lia.
  - rewrite Pos2Z.inj_succ, Z.pow_succ_r by lia.
    replace (Z.succ (Z.pos (digits2_pos p)) - 1) with (Z.succ (Z.pos (digits2_pos p) - 1)) by lia.
    rewrite Z.pow_succ_r by lia. lia.
  - simpl. lia.
Qed.

Lemma Zdigits2_bounds m : 0 < m ->
  0 < Zdigits2 m /\ 2 ^ (Zdigits2 m - 1) <= m < 2 ^ Zdigits2 m.
Proof. destruct m; try lia. intros _. split; [simpl; lia|apply digits2_pos_bounds]. Qed.

Lemma Zdigits2_le m n : 0 <= n -> 0 <= m < 2 ^ n -> Zdigits2 m <= n.
Proof.
  intros Hn Hm. destruct (Z.eq_dec m 0) as [->|]; [simpl; lia|].
  destruct (Zdigits2_bounds m) as [? Hb]; [lia|].
  assert (2 ^ (Zdigits2 m - 1) < 2 ^ n) as Hlt by lia.
  apply Z.pow_lt_mono_r_iff in Hlt; lia.
Qed.

Lemma Zdigits2_ge m n : 0 <= n -> 2 ^ n <= m -> n < Zdigits2 m.
Proof.
  intros Hn Hm. assert (0 < 2 ^ n) by auto with arx.
  destruct (Zdigits2_bounds m) as [? Hb]; [lia|].
  assert (2 ^ n < 2 ^ (Zdigits2 m)) as Hlt by lia.
  apply Z.pow_lt_mono_r_iff in Hlt; lia.
Qed.

(** ** Shifting right *)

(** The mantissa rounded up when any discarded bit is set. *)
Definition up (r : shr_record) : Z :=
  shr_m r + (if (shr_r r || shr_s r)%bool then 1 else 0).

Lemma shr_1_spec r : 0 <= shr_m r ->
  shr_m (shr_1 r) = shr_m r / 2 /\ (forall K, up r <= K * 2 -> up (shr_1 r) <= K).
Proof.
  destruct r as [m b s]; unfold up; simpl; intros Hm.
  destruct m as [|[p|p|]|p]; try lia; simpl; split;
    try (intros K; destruct b, s; simpl; lia).
  - reflexivity.
  - apply (Z.div_unique (Z.pos (2*p+1)) 2 (Z.pos p) 1); lia.
  - apply (Z.div_unique (Z.pos (2*p)) 2 (Z.pos p) 0); lia.
  - reflexivity.
Qed.

Definition shr_sound (n : Z) (r r' : shr_record) : Prop :=
  0 <= shr_m r ->
  shr_m r' = shr_m r / 2 ^ n /\ (forall K, up r <= K * 2 ^ n -> up r' <= K).

Lemma shr_sound_trans n n' r r' r'' : 0 <= n -> 0 <= n' ->
  shr_sound n r r' -> shr_sound n' r' r'' -> shr_sound (n + n') r r''.
Proof.
  intros Hn Hn' H1 H2 Hm. destruct (H1 Hm) as [E1 U1].
  assert (0 < 2 ^ n) by auto with arx. assert (0 < 2 ^ n') by auto with arx.
  destruct H2 as [E2 U2]; [rewrite E1; apply Z.div_pos; lia|].
  rewrite Z.pow_add_r by lia. split.
  - rewrite E2, E1, Z.div_div by lia. done.
  - intros K HK. apply U2, U1. nia.
Qed.

Lemma iter_shr_sound p r : shr_sound (Z.pos p) r (SpecFloat.iter_pos shr_1 p r).
Proof.
  revert r. induction p as [p IH|p IH|]; intros r; simpl.
  - replace (Z.pos p~1) with (1 + (Z.pos p + Z.pos p)) by lia.
    eapply shr_sound_trans; [lia|lia| |eapply shr_sound_trans; [lia|lia|apply IH|apply IH]].
    intros Hm. apply (shr_1_spec r Hm).
  - replace (Z.pos p~0) with (Z.pos p + Z.pos p) by lia.
    eapply shr_sound_trans; [lia|lia|apply IH|apply IH].
  - intros Hm. apply (shr_1_spec r Hm).
Qed.

(** The shift performed by [shr_fexp]: [n] is its (non-negative) amount. *)
Lemma shr_fexp_spec m e l : 0 <= m ->
  exists n r', shr_fexp 53 1024 m e l = (r', e + n) /\
    n = Z.max 0 (fexp 53 1024 (Zdigits2 m + e) - e) /\
    shr_sound n (shr_record_of_loc m l) r' /\ shr_m r' = m / 2 ^ n /\
    (n = 0 -> r' = shr_record_of_loc m l).
Proof.
  intros Hm. unfold shr_fexp, shr.
  assert (Hrm : shr_m (shr_record_of_loc m l) = m) by (destruct l as [|[]]; reflexivity).
  destruct (fexp 53 1024 (Zdigits2 m + e) - e) as [|p|p] eqn:E.
  - exists 0, (shr_record_of_loc m l). rewrite Z.add_0_r. repeat split.
    + rewrite Z.div_1_r. done.
    + intros K; rewrite Z.mul_1_r; done.
    + rewrite Z.div_1_r. done.
  - exists (Z.pos p), (SpecFloat.iter_pos shr_1 p (shr_record_of_loc m l)).
    pose proof (iter_shr_sound p (shr_record_of_loc m l)) as HS.
    split; [done|]. split; [lia|]. split; [done|]. split; [|done].
    destruct HS as [-> _]; [lia|]. by rewrite Hrm.
  - exists 0, (shr_record_of_loc m l). rewrite Z.add_0_r. repeat split.
    + rewrite Z.div_1_r. done.
    + intros K; rewrite Z.mul_1_r; done.
    + rewrite Z.div_1_r. done.
Qed.

(** The location as an upper bound: [1] when bits are missing. *)
Definition loc_up (m : Z) (l : location) : Z := up (shr_record_of_loc m l).

Lemma loc_up_exact m : loc_up m loc_Exact = m.
Proof. unfold loc_up, up. simpl. lia. Qed.

Lemma round_between r : 0 <= shr_m r ->
  shr_m r <= round_nearest_even (shr_m r) (loc_of_shr_record r) <= up r.
Proof.
  destruct r as [m b s]; unfold up; simpl. intros.
  destruct b, s; simpl; try destruct (Z.even m); lia.
Qed.

(** ** Bounds of a rounded value *)

Lemma fexp_eq d : fexp 53 1024 d = Z.max (d - 53) (-1074).
Proof. reflexivity. Qed.

(** One rounding step never passes a representable bound [bm * 2^be]. *)
Lemma round_step_le m e l bm be : 0 <= m -> -4000 <= e ->
  0 <= bm < 2 ^ 53 -> -1074 <= be ->
  sc (loc_up m l) e <= sc bm be ->
  exists r', shr_fexp 53 1024 m e l =
      (r', e + Z.max 0 (fexp 53 1024 (Zdigits2 m + e) - e)) /\
    0 <= shr_m r' /\
    sc (up r') (e + Z.max 0 (fexp 53 1024 (Zdigits2 m + e) - e)) <= sc bm be.
Proof.
  intros Hm He Hbm Hbe Hle.
  destruct (shr_fexp_spec m e l Hm) as (n & r' & -> & -> & HS & HM & H0).
  set (n := Z.max 0 _) in *. exists r'. split; [done|].
  assert (Hmr : shr_m (shr_record_of_loc m l) = m) by (destruct l as [|[]]; reflexivity).
  assert (Hlo : m <= loc_up m l) by (unfold loc_up, up; rewrite Hmr; case_match_goal; lia).
  assert (0 < 2 ^ n) by (apply pow2_pos; lia).
  split; [rewrite HM; apply Z.div_pos; lia|].
  destruct (Z.eq_dec n 0) as [Hn|Hn].
  { rewrite (H0 Hn). rewrite Hn, Z.add_0_r. exact Hle. }
  destruct (Z.le_gt_cases (e + n) be) as [Hc|Hc].
  - (* the bound is a multiple of the new unit *)
    replace be with (e + n + (be - (e + n))) in Hle |- * by lia.
    rewrite (sc_shift bm (e + n)) in Hle |- * by lia.
    apply sc_le; [lia|]. apply HS; [lia|].
    rewrite (sc_shift _ e n) in Hle by lia. apply sc_le in Hle; [exact Hle|lia].
  - (* the bound would be below the leading digit *)
    exfalso. assert (Hmp : 0 < m).
    { destruct (Z.eq_dec m 0) as [->|]; [|lia]. unfold n in *. rewrite fexp_eq in *. simpl in *. lia. }
    destruct (Zdigits2_bounds m Hmp) as [Hd [Hd1 _]].
    assert (Hnv : e + n = Zdigits2 m + e - 53).
    { unfold n in *. rewrite fexp_eq in *. lia. }
    assert (Hs1 : sc (2 ^ (Zdigits2 m - 1)) e <= sc bm be).
    { etrans; [|exact Hle]. apply sc_le; lia. }
    assert (Hs2 : sc bm be < sc (2 ^ 53) be) by (apply sc_lt; lia).
    revert Hs1 Hs2. unfold sc. rewrite <- !Z.pow_add_r by lia. intros Hs1 Hs2.
    assert (2 ^ (Zdigits2 m - 1 + (e + 4000)) < 2 ^ (53 + (be + 4000))) as Hp by lia.
    apply Z.pow_lt_mono_r_iff in Hp; lia.
Qed.

(** A non-negative float of the binary64 range, and its scaled value. *)
Definition nonneg (f : float64) : Prop :=
  match f with
  | S754_zero s => s = false
  | S754_finite s m e => s = false /\ Z.pos m < 2 ^ 53 /\ -1074 <= e <= 971
  | _ => False
  end.

Definition fval (f : float64) : Z :=
  match f with S754_finite _ m e => sc (Z.pos m) e | _ => 0 end.

(** The exponent after rounding stays below [emax] when the bound does. *)
Lemma exp_bound m e bm be : 0 < m -> -4000 <= e ->
  0 <= bm < 2 ^ 53 -> -1074 <= be <= 971 ->
  sc m e <= sc bm be -> Zdigits2 m + e <= 1024.
Proof.
  intros Hm He Hbm Hbe Hle. destruct (Zdigits2_bounds m Hm) as [Hd [Hd1 _]].
  assert (Hs1 : sc (2 ^ (Zdigits2 m - 1)) e <= sc bm be).
  { etrans; [|exact Hle]. apply sc_le; lia. }
  assert (Hs2 : sc bm be < sc (2 ^ 53) be) by (apply sc_lt; lia).
  revert Hs1 Hs2. unfold sc. rewrite <- !Z.pow_add_r by lia. intros Hs1 Hs2.
  assert (2 ^ (Zdigits2 m - 1 + (e + 4000)) < 2 ^ (53 + (be + 4000))) as Hp by lia.
  apply Z.pow_lt_mono_r_iff in Hp; lia.
Qed.

Lemma round_aux_le m e l bm be : 0 <= m -> -4000 <= e <= 971 ->
  0 <= bm < 2 ^ 53 -> -1074 <= be <= 971 ->
  sc (loc_up m l) e <= sc bm be ->
  nonneg (binary_round_aux 53 1024 false m e l) /\
  fval (binary_round_aux 53 1024 false m e l) <= sc bm be.
Proof.
  intros Hm He Hbm Hbe Hle.
  destruct (round_step_le m e l bm be) as (r1 & E1 & P1 & U1); [lia..|done|].
  set (e1 := e + _) in *.
  assert (He1 : -4000 <= e1 /\ -1074 <= e1) by (unfold e1; rewrite fexp_eq; lia).
  unfold binary_round_aux. rewrite E1.
  set (m1 := round_nearest_even _ _).
  pose proof (round_between r1 P1) as Hr. fold m1 in Hr.
  assert (U1' : sc (loc_up m1 loc_Exact) e1 <= sc bm be).
  { rewrite loc_up_exact. etrans; [|exact U1]. apply sc_le; lia. }
  destruct (round_step_le m1 e1 loc_Exact bm be) as (r2 & E2 & P2 & U2); [lia..|done|].
  destruct (shr_fexp_spec m1 e1 loc_Exact) as (n & r2' & E2' & Hn & _ & HM2 & _); [lia|].
  rewrite E2 in E2'. injection E2' as <- _. rewrite E2, <- Hn. rewrite <- Hn in U2.
  assert (Hup : shr_m r2 <= up r2) by (unfold up; case_match_goal; lia).
  destruct (shr_m r2) as [|p|p] eqn:Ep; [simpl; split; [done|]; unfold sc; assert (0 < 2 ^ (be + 4000)) by (apply pow2_pos; lia); nia| |lia].
  assert (Hfin : sc (Z.pos p) (e1 + n) <= sc bm be).
  { etrans; [|exact U2]. apply sc_le; lia. }
  assert (0 < 2 ^ n) by (apply pow2_pos; lia).
  assert (Hm1 : 0 < m1).
  { destruct (Z.eq_dec m1 0) as [Hz|]; [|lia]. rewrite Hz, Z.div_0_l in HM2 by lia. lia. }
  destruct (Zdigits2_bounds m1 Hm1) as (Hd & Hd1 & Hd2).
  assert (He2 : e1 + n <= 971).
  { pose proof (exp_bound m1 e1 bm be Hm1) as Hx. rewrite loc_up_exact in U1'.
    specialize (Hx ltac:(lia) ltac:(lia) ltac:(lia) U1').
    assert (e1 <= 971); [|rewrite Hn, fexp_eq; lia].
    unfold e1. rewrite fexp_eq. destruct (Z.eq_dec m 0) as [->|]; [simpl; lia|].
    assert (sc m e <= sc bm be).
    { etrans; [|exact Hle]. apply sc_le; [lia|]. unfold loc_up, up. destruct l as [|[]]; simpl; lia. }
    pose proof (exp_bound m e bm be). lia. }
  change (1024 - 53) with 971. rewrite (proj2 (Z.leb_le _ _) He2). simpl.
  split; [|done]. split; [done|]. split; [|lia].
  rewrite HM2. apply Z.div_lt_upper_bound; [lia|].
  clear -Hn Hd Hd2. assert (0 <= n) by lia. rewrite <- Z.pow_add_r by lia.
  eapply Z.lt_le_trans; [exact Hd2|]. apply Z.pow_le_mono_r; [lia|].
  rewrite Hn, fexp_eq. lia.
Qed.

(** ** Conversion and arithmetic on the range the scorer uses *)

Lemma round_aux_canonical m e :
  fexp 53 1024 (Zdigits2 (Z.pos m) + e) = e -> e <= 971 ->
  binary_round_aux 53 1024 false (Z.pos m) e loc_Exact = S754_finite false m e.
Proof.
  intros Hc He. unfold binary_round_aux, shr_fexp. rewrite Hc, Z.sub_diag. simpl.
  change (Z.pos (digits2_pos m)) with (Zdigits2 (Z.pos m)).
  rewrite Hc, Z.sub_diag. cbn -[Z.leb]. change (1024 - 53) with 971.
  by rewrite (proj2 (Z.leb_le e 971) He).
Qed.

Lemma iter_xO m d : Z.pos (Pos.iter xO m d) = Z.pos m * 2 ^ Z.pos d.
Proof.
  induction d as [|d IH] using Pos.peano_ind; [simpl; lia|].
  rewrite Pos.iter_succ, Pos2Z.inj_succ, Z.pow_succ_r by lia.
  rewrite Pos2Z.inj_xO, IH. ring.
Qed.

Lemma shl_align_spec m e e' m1 e1 : -4000 <= e' -> -4000 <= e ->
  shl_align m e e' = (m1, e1) ->
  e1 = Z.min e e' /\ sc (Z.pos m1) e1 = sc (Z.pos m) e.
Proof.
  intros He He'. unfold shl_align. destruct (e' - e) as [|p|p] eqn:E; intros [= <- <-].
  - split; [lia|done].
  - split; [lia|done].
  - split; [lia|]. rewrite iter_xO.
    rewrite <- sc_shift by lia. f_equal; lia.
Qed.

(** Conversion of an integer below [2^53] is exact, with a full mantissa. *)
Lemma f_of_Z_full z : 0 < z < 2 ^ 53 ->
  exists m e, f_of_Z z = S754_finite false m e /\ Zdigits2 (Z.pos m) = 53 /\
    -52 <= e <= 0 /\ sc (Z.pos m) e = sc z 0.
Proof.
  intros Hz. destruct z as [|p|p]; [lia| |lia].
  destruct (Zdigits2_bounds (Z.pos p)) as (Hd & Hd1 & Hd2); [lia|].
  assert (Hd53 : Zdigits2 (Z.pos p) <= 53) by (apply Zdigits2_le; lia).
  unfold f_of_Z, binary_normalize, binary_round.
  change (Z.pos (digits2_pos p)) with (Zdigits2 (Z.pos p)).
  destruct (shl_align p 0 _) as [m e] eqn:E.
  apply shl_align_spec in E as [He Hv]; [|rewrite fexp_eq; lia|lia].
  rewrite fexp_eq in He.
  assert (Hm : Z.pos m = Z.pos p * 2 ^ (- e)).
  { replace 0 with (e + - e) in Hv by lia. rewrite sc_shift in Hv by lia.
    unfold sc in Hv. assert (0 < 2 ^ (e + 4000)) by (apply pow2_pos; lia). nia. }
  assert (Hdm : Zdigits2 (Z.pos m) = 53).
  { assert (0 < 2 ^ (- e)) by (apply pow2_pos; lia). apply Z.le_antisymm.
    - apply Zdigits2_le; [lia|]. split; [lia|]. rewrite Hm.
      replace 53 with (Zdigits2 (Z.pos p) + - e) by lia. rewrite Z.pow_add_r by lia. nia.
    - assert (52 < Zdigits2 (Z.pos m)); [|lia]. apply Zdigits2_ge; [lia|]. rewrite Hm.
      replace 52 with (Zdigits2 (Z.pos p) - 1 + - e) by lia. rewrite Z.pow_add_r by lia. nia. }
  exists m, e. split; [apply round_aux_canonical; [rewrite fexp_eq|]; lia|].
  split; [done|split; [lia|done]].
Qed.

Lemma f_of_Z_exact z : 0 < z < 2 ^ 53 ->
  exists m e, f_of_Z z = S754_finite false m e /\ Z.pos m < 2 ^ 53 /\
    -52 <= e <= 0 /\ sc (Z.pos m) e = sc z 0.
Proof.
  intros Hz. destruct (f_of_Z_full z Hz) as (m & e & E & Hd & He & Hv).
  exists m, e. split; [done|]. split; [|done].
  destruct (Zdigits2_bounds (Z.pos m)) as (_ & _ & H); [lia|]. rewrite Hd in H. exact H.
Qed.

(** The location of a division never exceeds the rounded-up quotient. *)
Lemma div_loc_up a b : 0 <= a -> 0 < b ->
  loc_up (a / b) (new_location b (a mod b)) =
  a / b + (if a mod b =? 0 then 0 else 1).
Proof.
  intros Ha Hb. unfold loc_up, up, new_location, new_location_even, new_location_odd.
  destruct (Z.even b); cbv beta; destruct (a mod b =? 0); try (simpl; lia);
    match goal with |- context [?x ?= b] => destruct (x ?= b) end; simpl; lia.
Qed.

Lemma div_le_one m1 e1 m2 e2 :
  Z.pos m1 < 2 ^ 53 -> Z.pos m2 < 2 ^ 53 -> -52 <= e1 <= 0 -> -52 <= e2 <= 0 ->
  sc (Z.pos m1) e1 <= sc (Z.pos m2) e2 ->
  let q := f_div (S754_finite false m1 e1) (S754_finite false m2 e2) in
  nonneg q /\ fval q <= sc 1 0.
Proof.
  intros H1 H2 He1 He2 Hle. unfold f_div, SFdiv, SFdiv_core_binary.
  set (a := Z.pos m1) in *. set (b := Z.pos m2) in *.
  set (e' := Z.min _ _). set (s := e1 - e2 - e').
  assert (Ha : 0 < a) by (unfold a; lia). assert (Hb : 0 < b) by (unfold b; lia).
  destruct (Zdigits2_bounds a Ha) as (Da & Da1 & Da2).
  destruct (Zdigits2_bounds b Hb) as (Db & Db1 & Db2).
  assert (Hda : Zdigits2 a <= 53) by (apply Zdigits2_le; lia).
  assert (Hdb : Zdigits2 b <= 53) by (apply Zdigits2_le; lia).
  assert (Hdd : Zdigits2 a + e1 <= Zdigits2 b + e2).
  { assert (sc (2 ^ (Zdigits2 a - 1)) e1 < sc (2 ^ Zdigits2 b) e2) as Hlt.
    { eapply Z.le_lt_trans; [|eapply Z.le_lt_trans; [exact Hle|]].
      - apply sc_le; lia. - apply sc_lt; lia. }
    revert Hlt. unfold sc. rewrite <- !Z.pow_add_r by lia. intros Hlt.
    apply Z.pow_lt_mono_r_iff in Hlt; lia. }
  assert (He' : -1074 <= e' <= -52).
  { unfold e'. rewrite fexp_eq. lia. }
  assert (Hs : 0 <= s) by (unfold s, e'; lia).
  assert (Hm : match s with 0 => a | Z.pos _ => Z.shiftl a s | Z.neg _ => 0 end = a * 2 ^ s).
  { destruct s as [|p|p] eqn:Es; [lia| |lia]. rewrite Z.shiftl_mul_pow2; lia. }
  rewrite Hm. set (n := a * 2 ^ s).
  assert (Hn : 0 <= n) by (unfold n; assert (0 < 2 ^ s) by auto with arx; nia).
  pose proof (Z.div_mod n b) as Hdm. pose proof (Z.mod_pos_bound n b Hb) as Hmb.
  unfold Z.div, Z.modulo in Hdm, Hmb. destruct (Z.div_eucl n b) as [q r] eqn:Eq.
  assert (Hq : q = n / b) by (unfold Z.div; by rewrite Eq).
  assert (Hr : r = n mod b) by (unfold Z.modulo; by rewrite Eq).
  simpl xorb. cbv beta iota.
  assert (Hnb : n <= b * 2 ^ (- e')).
  { apply (proj1 (sc_le _ _ (e' + e2) ltac:(lia))). unfold n.
    rewrite <- !sc_shift by lia. replace (e' + e2 + s) with e1 by (unfold s; lia).
    replace (e' + e2 + - e') with e2 by lia. exact Hle. }
  apply round_aux_le; try lia. { subst q. apply Z.div_pos; lia. }
  rewrite Hq, Hr, div_loc_up by lia. rewrite <- Hr.
  assert (H10 : sc 1 0 = sc (2 ^ (- e')) e').
  { rewrite <- (Z.mul_1_l (2 ^ _)), <- sc_shift by lia. f_equal; lia. }
  rewrite H10. apply sc_le; [lia|]. rewrite <- Hq. specialize (Hdm ltac:(lia)).
  destruct (Z.eqb_spec r 0); nia.
Qed.

Lemma nonneg_round d e bm be : -1074 <= e <= 971 ->
  0 <= bm < 2 ^ 53 -> -1074 <= be <= 971 -> 0 <= d -> sc d e <= sc bm be ->
  nonneg (binary_normalize 53 1024 d e false) /\
  fval (binary_normalize 53 1024 d e false) <= sc bm be.
Proof.
  intros He Hbm Hbe Hd Hle. destruct d as [|p|p]; [|unfold binary_normalize, binary_round|lia].
  - split; [done|]. simpl. unfold sc. assert (0 < 2 ^ (be + 4000)) by (apply pow2_pos; lia). nia.
  - destruct (shl_align p e _) as [m e'] eqn:E.
    apply shl_align_spec in E as [He' Hv]; [|rewrite fexp_eq; lia|lia].
    rewrite fexp_eq in He'. apply round_aux_le; try lia.
    rewrite loc_up_exact, Hv. exact Hle.
Qed.

(** [1 - f] for a fraction [f]. *)
Lemma one_minus_le f : nonneg f -> fval f <= sc 1 0 ->
  nonneg (f_sub f_one f) /\ fval (f_sub f_one f) <= sc 1 0.
Proof.
  intros Hf Hle. destruct (f_of_Z_exact 1 ltac:(lia)) as (m1 & e1 & E1 & Hm1 & He1 & Hv1).
  unfold f_one. rewrite E1. destruct f as [s| | |s m e]; simpl in Hf; try done.
  - simpl. subst s. lia.
  - destruct Hf as (-> & Hm & He). unfold f_sub, SFsub.
    destruct (shl_align m1 e1 _) as [a ea] eqn:Ea. destruct (shl_align m e _) as [b eb] eqn:Eb.
    apply shl_align_spec in Ea as [Hea Hva]; [|lia|lia].
    apply shl_align_spec in Eb as [Heb Hvb]; [|lia|lia].
    simpl fst. simpl cond_Zopp. assert (eb = ea) as -> by lia.
    set (ez := IntDef.Z.min e1 e) in *. assert (Hz : ez = Z.min e1 e) by reflexivity.
    assert (ez = ea) as -> by (clear -Hea Heb Hz; lia).
    assert (Z.pos b <= Z.pos a).
    { apply (proj1 (sc_le _ _ ea ltac:(lia))). rewrite Hva, Hvb, Hv1. exact Hle. }
    apply nonneg_round; try lia. rewrite <- Hv1, <- Hva. apply sc_le; lia.
Qed.

(** The product with a fraction does not exceed the integer. *)
Lemma mul_frac_le z f : 0 < z < 2 ^ 53 -> nonneg f -> fval f <= sc 1 0 ->
  nonneg (f_mul (f_of_Z z) f) /\ fval (f_mul (f_of_Z z) f) <= sc z 0.
Proof.
  intros Hz Hf Hle. destruct (f_of_Z_exact z Hz) as (m1 & e1 & E1 & Hm1 & He1 & Hv1).
  rewrite E1. destruct f as [s| | |s m e]; simpl in Hf; try done.
  - subst s. simpl. split; [done|]. unfold sc. apply Z.mul_nonneg_nonneg; lia.
  - destruct Hf as (-> & Hm & He). unfold f_mul, SFmul. simpl xorb.
    assert (e <= 0).
    { simpl in Hle. destruct (Z.le_gt_cases e 0); [done|exfalso].
      replace e with (0 + e) in Hle by lia. rewrite sc_shift in Hle by lia.
      apply sc_le in Hle; [|lia]. assert (2 ^ 1 <= 2 ^ e) by (apply Z.pow_le_mono_r; lia). nia. }
    rewrite <- Hv1. apply round_aux_le; try lia. rewrite loc_up_exact, Pos2Z.inj_mul.
    simpl in Hle. replace 0 with (e + - e) in Hle by lia. rewrite sc_shift in Hle by lia.
    apply sc_le in Hle; [|lia]. replace e1 with (e1 + e + - e) at 2 by lia.
    rewrite (sc_shift _ (e1 + e) (- e)) by lia. apply sc_le; [lia|]. nia.
Qed.

Lemma f_to_int_le f z : 0 <= z < 2 ^ 53 -> nonneg f -> fval f <= sc z 0 ->
  0 <= f_to_int f <= z.
Proof.
  intros Hz Hf Hle. destruct f as [s| | |s m e]; simpl in Hf; try done; [simpl; lia|].
  destruct Hf as (-> & Hm & He). unfold f_to_int. simpl in Hle.
  set (v := if 0 <=? e then _ else _).
  assert (0 <= v <= z).
  { unfold v. destruct (0 <=? e) eqn:E; b2p.
    - replace e with (0 + e) in Hle by lia. rewrite sc_shift in Hle by lia.
      apply sc_le in Hle; [|lia]. assert (0 < 2 ^ e) by auto with arx. nia.
    - replace 0 with (e + - e) in Hle by lia. rewrite sc_shift in Hle by lia.
      apply sc_le in Hle; [|lia]. assert (0 < 2 ^ (- e)) by (apply pow2_pos; lia). split.
      + apply Z.div_pos; lia.
      + apply Z.div_le_upper_bound; lia. }
  unfold int64_min, int64_max.
  destruct (_ && _)%bool eqn:E; [lia|]. apply andb_false_iff in E as [E|E]; b2p; lia.
Qed.

(** Multiplication by one is exact. *)
Lemma mul_one z : 0 < z < 2 ^ 53 -> f_mul (f_of_Z z) f_one = f_of_Z z.
Proof.
  intros Hz. destruct (f_of_Z_full z Hz) as (m & e & E & Hd & He & _).
  rewrite E. change f_one with (S754_finite false 4503599627370496 (-52)).
  unfold f_mul, SFmul. simpl xorb. unfold binary_round_aux.
  assert (Hdm : Zdigits2 (Z.pos (m * 4503599627370496)) = 105).
  { destruct (Zdigits2_bounds (Z.pos m)) as (_ & H1 & H2); [lia|]. rewrite Hd in H1, H2.
    apply Z.le_antisymm; [apply Zdigits2_le|]; [lia|rewrite Pos2Z.inj_mul; lia|].
    assert (104 < Zdigits2 (Z.pos (m * 4503599627370496))); [|lia].
    apply Zdigits2_ge; [lia|]. rewrite Pos2Z.inj_mul. lia. }
  destruct (shr_fexp_spec (Z.pos (m * 4503599627370496)) (e + -52) loc_Exact)
    as (n & r & -> & Hn & HS & HM & _); [lia|].
  rewrite Hdm, fexp_eq in Hn. assert (Hn52 : n = 52) by lia. rewrite Hn52 in *.
  rewrite Pos2Z.inj_mul in HM. change (Z.pos 4503599627370496) with (2 ^ 52) in HM.
  rewrite Z.div_mul in HM by lia.
  destruct HS as [_ HU]; [simpl; lia|]. specialize (HU (Z.pos m)).
  assert (Hr : r = Build_shr_record (Z.pos m) false false).
  { assert (up r <= Z.pos m) as Hu.
    { apply HU. unfold up. simpl. rewrite Pos2Z.inj_mul. lia. }
    destruct r as [rm [] []]; unfold up in Hu; simpl in *; subst rm; try lia; reflexivity. }
  rewrite Hr. simpl shr_m. simpl round_nearest_even.
  replace (e + -52 + 52) with e by lia.
  assert (Hc : fexp 53 1024 (Zdigits2 (Z.pos m) + e) = e) by (rewrite Hd, fexp_eq; lia).
  unfold shr_fexp. rewrite Hc, Z.sub_diag. cbn -[Z.leb]. change (1024 - 53) with 971.
  by rewrite (proj2 (Z.leb_le e 971)) by lia.
Qed.

Lemma f_to_int_of_Z z : 0 < z < 2 ^ 53 -> f_to_int (f_of_Z z) = z.
Proof.
  intros Hz. destruct (f_of_Z_full z Hz) as (m & e & -> & _ & He & Hv). unfold f_to_int.
  assert (Hm : Z.pos m = z * 2 ^ (- e)).
  { replace 0 with (e + - e) in Hv by lia. rewrite sc_shift in Hv by lia.
    unfold sc in Hv. assert (0 < 2 ^ (e + 4000)) by (apply pow2_pos; lia). nia. }
  assert (Hx : (if 0 <=? e then Z.pos m * 2 ^ e else Z.pos m / 2 ^ (- e)) = z).
  { destruct (0 <=? e) eqn:E; b2p.
    - assert (e = 0) as -> by lia. rewrite Hm. lia.
    - rewrite Hm, Z.div_mul; [done|]. assert (0 < 2 ^ (- e)) by (apply pow2_pos; lia). lia. }
  cbv zeta. rewrite Hx. unfold int64_min, int64_max.
  destruct (_ && _)%bool eqn:E; [done|]. apply andb_false_iff in E as [E|E]; b2p; lia.
Qed.
