(* ===== verification/GoStrings.v ===== *)
(** * Go's strings package

    Go strings are byte strings: Stdlib [string].  The functions of [strings],
    [strconv] and [path] that the sources call, executable, with their
    declarative characterisations. *)

From Stdlib Require Import ZArith Lia Ascii String.
From stdpp Require Import base numbers option list strings pretty.
From S2P Require Import Prelude.

Local Open Scope string_scope.

#[global] Arguments String.append !_ _ : simpl nomatch.

(** ** Bytes *)

Definition byte (c : ascii) : N := N_of_ascii c.
Definition is_ascii (c : ascii) : bool := (byte c <? 128)%N.
Definition is_upper (c : ascii) : bool := ((65 <=? byte c) && (byte c <=? 90))%N.
Definition is_digit (c : ascii) : bool := ((48 <=? byte c) && (byte c <=? 57))%N.

Fixpoint string_forallb (f : ascii -> bool) (s : string) : bool :=
  match s with
  | EmptyString => true
  | String c s' => f c && string_forallb f s'
  end.

Fixpoint string_map (f : ascii -> ascii) (s : string) : string :=
  match s with
  | EmptyString => EmptyString
  | String c s' => String (f c) (string_map f s')
  end.

Fixpoint string_rev_app (s acc : string) : string :=
  match s with
  | EmptyString => acc
  | String c s' => string_rev_app s' (String c acc)
  end.
Definition string_rev (s : string) : string := string_rev_app s EmptyString.

(** ** Prefixes, suffixes, substrings *)

Fixpoint HasPrefix (s p : string) {struct p} : bool :=
  match p with
  | EmptyString => true
  | String c p' =>
      match s with
      | EmptyString => false
      | String d s' => Ascii.eqb c d && HasPrefix s' p'
      end
  end.

Fixpoint HasSuffix (s p : string) : bool :=
  String.eqb s p || match s with
                    | EmptyString => false
                    | String _ s' => HasSuffix s' p
                    end.

Fixpoint Contains (s p : string) : bool :=
  HasPrefix s p || match s with
                   | EmptyString => false
                   | String _ s' => Contains s' p
                   end.

(** [strings.IndexByte]; [None] is Go's -1. *)
Fixpoint IndexByte (s : string) (c : ascii) : option nat :=
  match s with
  | EmptyString => None
  | String d s' => if Ascii.eqb d c then Some 0 else S <$> IndexByte s' c
  end.

Fixpoint string_take (n : nat) (s : string) : string :=
  match n, s with
  | S n', String c s' => String c (string_take n' s')
  | _, _ => EmptyString
  end.

Fixpoint string_drop (n : nat) (s : string) : string :=
  match n, s with
  | S n', String _ s' => string_drop n' s'
  | _, _ => s
  end.

(** The first [n] bytes, with a binary counter (size limits). *)
Fixpoint string_limit (n : Z) (s : string) : string :=
  match s with
  | EmptyString => EmptyString
  | String c s' => if (n <=? 0)%Z then EmptyString else String c (string_limit (n - 1) s')
  end.

(** [strings.TrimPrefix] and [strings.TrimSuffix]. *)
Definition TrimPrefix (s p : string) : string :=
  if HasPrefix s p then string_drop (String.length p) s else s.
Definition TrimSuffix (s p : string) : string :=
  if HasSuffix s p then string_take (String.length s - String.length p) s else s.

(** [strings.Join]. *)
Fixpoint Join (l : list string) (sep : string) : string :=
  match l with
  | [] => EmptyString
  | [x] => x
  | x :: l' => x ++ sep ++ Join l' sep
  end.

(** [strings.Split] on a one-byte separator; never empty. *)
Fixpoint Split (s : string) (sep : ascii) : list string :=
  match s with
  | EmptyString => [EmptyString]
  | String c s' =>
      if Ascii.eqb c sep then EmptyString :: Split s' sep
      else match Split s' sep with
           | [] => [String c EmptyString]
           | w :: ws => String c w :: ws
           end
  end.

(** ** Case folding

    [strings.ToLower] maps bytes when the string is ASCII; otherwise it maps
    runes through the Unicode tables, which are a parameter. *)

Class UnicodeLower := { unicode_lower : string -> string }.

Definition lower_byte (c : ascii) : ascii :=
  if is_upper c then ascii_of_N (byte c + 32) else c.

Definition ToLower `{UnicodeLower} (s : string) : string :=
  if string_forallb is_ascii s then string_map lower_byte s else unicode_lower s.

(** ** White space *)

Definition ascii_space (c : ascii) : bool :=
  ((9 <=? byte c) && (byte c <=? 13) || (byte c =? 32))%N.

(** The two- and three-byte encodings of the [unicode.IsSpace] runes. *)
Definition space2 (a b : N) : bool :=
  ((a =? 0xC2) && ((b =? 0x85) || (b =? 0xA0)))%N.
Definition space3 (a b c : N) : bool :=
  (((a =? 0xE1) && (b =? 0x9A) && (c =? 0x80)) ||
   ((a =? 0xE2) && (b =? 0x80) &&
      (((0x80 <=? c) && (c <=? 0x8A)) || (c =? 0xA8) || (c =? 0xA9) || (c =? 0xAF))) ||
   ((a =? 0xE2) && (b =? 0x81) && (c =? 0x9F)) ||
   ((a =? 0xE3) && (b =? 0x80) && (c =? 0x80)))%N.

Fixpoint trim_left (s : string) : string :=
  match s with
  | EmptyString => EmptyString
  | String a s1 =>
      if ascii_space a then trim_left s1
      else match s1 with
           | EmptyString => s
           | String b s2 =>
               if space2 (byte a) (byte b) then trim_left s2
               else match s2 with
                    | EmptyString => s
                    | String c s3 =>
                        if space3 (byte a) (byte b) (byte c) then trim_left s3 else s
                    end
           end
  end.

(** The same on a reversed string. *)
Fixpoint trim_left_rev (s : string) : string :=
  match s with
  | EmptyString => EmptyString
  | String a s1 =>
      if ascii_space a then trim_left_rev s1
      else match s1 with
           | EmptyString => s
           | String b s2 =>
               if space2 (byte b) (byte a) then trim_left_rev s2
               else match s2 with
                    | EmptyString => s
                    | String c s3 =>
                        if space3 (byte c) (byte b) (byte a) then trim_left_rev s3 else s
                    end
           end
  end.

Definition TrimSpace (s : string) : string :=
  string_rev (trim_left_rev (string_rev (trim_left s))).

(** [strings.TrimLeft] and [strings.TrimRight] with a set of ASCII bytes. *)
Fixpoint TrimLeft (f : ascii -> bool) (s : string) : string :=
  match s with
  | EmptyString => EmptyString
  | String c s' => if f c then TrimLeft f s' else s
  end.
Definition TrimRight (f : ascii -> bool) (s : string) : string :=
  string_rev (TrimLeft f (string_rev s)).
Definition Trim (f : ascii -> bool) (s : string) : string := TrimRight f (TrimLeft f s).

(** [strings.ReplaceAll(s, ab, EmptyString)] for a two-byte [ab]. *)
Fixpoint Remove2 (a b : ascii) (s : string) : string :=
  match s with
  | EmptyString => EmptyString
  | String c s1 =>
      match s1 with
      | EmptyString => s
      | String d s2 =>
          if (Ascii.eqb c a && Ascii.eqb d b)%bool then Remove2 a b s2
          else String c (Remove2 a b s1)
      end
  end.

(** ** Numbers *)

Definition Itoa (z : Z) : string := pretty z.

Fixpoint digits_val (acc : Z) (s : string) : Z :=
  match s with
  | EmptyString => acc
  | String c s' => digits_val (acc * 10 + Z.of_N (byte c - 48))%Z s'
  end.

Definition atoi_digits (neg : bool) (ds : string) : option Z :=
  if (String.eqb ds EmptyString || negb (string_forallb is_digit ds))%bool then None
  else let v := digits_val 0 ds in
       let v := if neg then (- v)%Z else v in
       if ((int64_min <=? v) && (v <=? int64_max))%Z then Some v else None.

(** [strconv.Atoi]: an optional sign and decimal digits, in range of [int]. *)
Definition Atoi (s : string) : option Z :=
  if HasPrefix s "-" then atoi_digits true (string_drop 1 s)
  else if HasPrefix s "+" then atoi_digits false (string_drop 1 s)
  else atoi_digits false s.

(** [path.Ext]: the suffix from the last dot of the last path element. *)
Fixpoint path_ext_from (s cur : string) : string :=
  match s with
  | EmptyString => cur
  | String c s' =>
      if Ascii.eqb c "/" then path_ext_from s' EmptyString
      else if Ascii.eqb c "." then path_ext_from s' s
      else path_ext_from s' cur
  end.
Definition path_Ext (s : string) : string := path_ext_from s EmptyString.

(** ** Characterisations *)

Lemma HasPrefix_spec s p : HasPrefix s p = true <-> exists r, s = p ++ r.
Proof.
  revert s. induction p as [|c p IH]; intros s; simpl.
  - split; [by exists s|done].
  - destruct s as [|d s]; [split; [done|by intros [r [=]]]|].
    rewrite andb_true_iff, IH, Ascii.eqb_eq. split.
    + intros [-> [r ->]]. by exists r.
    + intros [r [= -> ->]]. split; [done|by exists r].
Qed.

Lemma string_app_nil_r s : s ++ EmptyString = s.
Proof. induction s as [|c s IH]; simpl; [done|by rewrite IH]. Qed.

Lemma string_app_assoc a b c : (a ++ b) ++ c = a ++ (b ++ c).
Proof. induction a as [|d a IH]; simpl; [done|by rewrite IH]. Qed.

Lemma string_length_app a b :
  String.length (a ++ b) = String.length a + String.length b.
Proof. induction a as [|c a IH]; simpl; [done|by rewrite IH]. Qed.

Lemma HasSuffix_spec s p : HasSuffix s p = true <-> exists r, s = r ++ p.
Proof.
  induction s as [|c s IH]; cbn [HasSuffix].
  - rewrite orb_false_r, String.eqb_eq. split.
    + intros <-. by exists EmptyString.
    + intros [[|] E]; simpl in E; [done|discriminate].
  - rewrite orb_true_iff, IH, String.eqb_eq. split.
    + intros [<-|[r ->]]; [by exists EmptyString|by exists (String c r)].
    + intros [[|d r] E]; simpl in E; [by left|]. injection E as -> ->. right. by exists r.
Qed.

Lemma Contains_spec s p : Contains s p = true <-> exists a b, s = a ++ p ++ b.
Proof.
  induction s as [|c s IH]; cbn [Contains].
  - rewrite orb_false_r, HasPrefix_spec. split.
    + intros [r ->]. by exists EmptyString, r.
    + intros ([|] & b & E); simpl in E; [by exists b|discriminate].
  - rewrite orb_true_iff, IH, HasPrefix_spec. split.
    + intros [[r ->]|(a & b & ->)]; [by exists EmptyString, r|by exists (String c a), b].
    + intros ([|d a] & b & E); simpl in E; [left; by exists b|].
      injection E as -> ->. right. by exists a, b.
Qed.

Lemma string_take_app a b : string_take (String.length a) (a ++ b) = a.
Proof. induction a as [|c a IH]; simpl; [by destruct b|by rewrite IH]. Qed.

Lemma string_drop_app a b : string_drop (String.length a) (a ++ b) = b.
Proof. induction a as [|c a IH]; simpl; [done|by rewrite IH]. Qed.

Lemma TrimSuffix_app a p : TrimSuffix (a ++ p) p = a.
Proof.
  unfold TrimSuffix. assert (H : HasSuffix (a ++ p) p = true) by (apply HasSuffix_spec; by exists a).
  rewrite H, string_length_app.
  replace (String.length a + String.length p - String.length p) with (String.length a) by lia.
  apply string_take_app.
Qed.

Lemma TrimPrefix_app p a : TrimPrefix (p ++ a) p = a.
Proof.
  unfold TrimPrefix. assert (H : HasPrefix (p ++ a) p = true) by (apply HasPrefix_spec; by exists a).
  by rewrite H, string_drop_app.
Qed.

Lemma string_app_inv_head a b c : a ++ b = a ++ c -> b = c.
Proof. induction a as [|d a IH]; simpl; [done|intros [= E]; by apply IH]. Qed.

Lemma string_snoc_inj x y c d :
  x ++ String c EmptyString = y ++ String d EmptyString -> x = y /\ c = d.
Proof.
  revert y. induction x as [|a x IH]; intros [|b y]; simpl.
  - intros [= ->]. done.
  - intros [= -> H]. by destruct y.
  - intros [= -> H]. by destruct x.
  - intros [= -> H]. apply IH in H as [-> ->]. done.
Qed.

Lemma string_snoc_cases s : s = EmptyString \/ exists s' c, s = s' ++ String c EmptyString.
Proof.
  induction s as [|c s IH]; [by left|right]. destruct IH as [->|(s' & d & ->)].
  - by exists EmptyString, c.
  - by exists (String c s'), d.
Qed.

Lemma string_forallb_app f a b :
  string_forallb f (a ++ b) = string_forallb f a && string_forallb f b.
Proof. induction a as [|c a IH]; [done|]. cbn. by rewrite IH, andb_assoc. Qed.

Lemma string_forallb_impl (f g : ascii -> bool) s :
  (forall c, f c = true -> g c = true) -> string_forallb f s = true -> string_forallb g s = true.
Proof.
  intros Hfg. induction s as [|c s IH]; [done|]. cbn.
  rewrite !andb_true_iff. intros [H1 H2]. split; auto.
Qed.

Lemma Atoi_range s n : Atoi s = Some n -> in_int64 n.
Proof.
  assert (Hg : forall neg ds, atoi_digits neg ds = Some n -> in_int64 n).
  { intros neg ds. unfold atoi_digits, in_int64. destruct (_ || _)%bool; [done|]. cbv zeta.
    destruct (_ && _)%bool eqn:E; [|done]. intros [= <-]. b2p. lia. }
  unfold Atoi. intros H. repeat case_match_hyp H; eauto.
Qed.

(** ** Lines

    [bufio.Scanner] with [ScanLines]: the lines without their terminators
    (a final empty line is not reported). A line that does not fit the
    64 KiB buffer is an error. *)

Definition newline : ascii := ascii_of_N 10.
Definition carriage : ascii := ascii_of_N 13.

Definition drop_cr (s : string) : string := TrimSuffix s (String carriage EmptyString).

Definition scan_lines (s : string) : list string :=
  let ls := Split s newline in
  drop_cr <$> match last ls with
              | Some l => if String.eqb l EmptyString then take (List.length ls - 1) ls else ls
              | None => ls
              end.

Definition scan_too_long (s : string) : bool :=
  existsb (fun l => (65536 <=? Z.of_nat (String.length l))%Z) (Split s newline).

(** ** Infixes and trimming *)

Lemma string_rev_app_spec s acc : string_rev_app s acc = string_rev s ++ acc.
Proof.
  unfold string_rev. revert acc. induction s as [|c s IH]; intros acc; [done|]. cbn [string_rev_app].
  rewrite (IH (String c acc)), (IH (String c EmptyString)), string_app_assoc. done.
Qed.

Lemma string_rev_app_distr a b : string_rev (a ++ b) = string_rev b ++ string_rev a.
Proof.
  induction a as [|c a IH]; simpl; [by rewrite string_app_nil_r|].
  change (string_rev (String c (a ++ b))) with (string_rev_app (a ++ b) (String c EmptyString)).
  change (string_rev (String c a)) with (string_rev_app a (String c EmptyString)).
  rewrite !string_rev_app_spec, IH, string_app_assoc. done.
Qed.

Lemma string_rev_involutive s : string_rev (string_rev s) = s.
Proof.
  induction s as [|c s IH]; [done|].
  change (string_rev (String c s)) with (string_rev_app s (String c EmptyString)).
  rewrite string_rev_app_spec, string_rev_app_distr, IH. done.
Qed.

(** [t] occurs in [s]. *)
Definition infix (t s : string) : Prop := exists a b, s = a ++ t ++ b.

Lemma infix_refl s : infix s s.
Proof. exists EmptyString, EmptyString. by rewrite string_app_nil_r. Qed.

Lemma infix_trans a b c : infix a b -> infix b c -> infix a c.
Proof.
  intros (x & y & ->) (u & v & ->). exists (u ++ x), (y ++ v). by rewrite !string_app_assoc.
Qed.

Lemma infix_Contains t s p : infix t s -> Contains s p = false -> Contains t p = false.
Proof.
  intros Hi Hs. apply not_true_iff_false. intros (a & b & ->)%Contains_spec.
  apply not_true_iff_false in Hs. apply Hs, Contains_spec.
  destruct Hi as (u & v & ->). exists (u ++ a), (b ++ v). by rewrite !string_app_assoc.
Qed.

Lemma infix_forallb f t s : infix t s -> string_forallb f s = true -> string_forallb f t = true.
Proof.
  intros (u & v & ->). rewrite !string_forallb_app, !andb_true_iff. tauto.
Qed.

Lemma rev_suffix_infix (g : string -> string) :
  (forall s, exists a, s = a ++ g s) -> forall s, infix (string_rev (g (string_rev s))) s.
Proof.
  intros Hg s. destruct (Hg (string_rev s)) as [a Ha]. exists EmptyString, (string_rev a).
  apply (f_equal string_rev) in Ha. by rewrite string_rev_app_distr, string_rev_involutive in Ha.
Qed.

Lemma suffix_infix (g : string -> string) :
  (forall s, exists a, s = a ++ g s) -> forall s, infix (g s) s.
Proof.
  intros Hg s. destruct (Hg s) as [a Ha]. exists a, EmptyString. by rewrite string_app_nil_r.
Qed.

(** Strong induction on the length. *)
Lemma string_length_ind (P : string -> Prop) :
  (forall s, (forall t, String.length t < String.length s -> P t) -> P s) -> forall s, P s.
Proof.
  intros IH s. remember (String.length s) as n eqn:Hn. revert s Hn.
  induction (lt_wf n) as [n _ IHn]. intros s ->. apply IH. intros t Ht. by eapply IHn.
Qed.

Lemma trim_left_suffix s : exists a, s = a ++ trim_left s.
Proof.
  induction s as [s IH] using string_length_ind. destruct s as [|a s1]; [by exists EmptyString|].
  cbn [trim_left]. destruct (ascii_space a).
  { destruct (IH s1) as [x Hx]; [simpl; lia|]. exists (String a x). simpl. by f_equal. }
  destruct s1 as [|b s2]; [by exists EmptyString|]. destruct (space2 _ _).
  { destruct (IH s2) as [x Hx]; [simpl; lia|]. exists (String a (String b x)). simpl. by do 2 f_equal. }
  destruct s2 as [|c s3]; [by exists EmptyString|]. destruct (space3 _ _ _).
  { destruct (IH s3) as [x Hx]; [simpl; lia|]. exists (String a (String b (String c x))).
    simpl. by do 3 f_equal. }
  by exists EmptyString.
Qed.

Lemma trim_left_rev_suffix s : exists a, s = a ++ trim_left_rev s.
Proof.
  induction s as [s IH] using string_length_ind. destruct s as [|a s1]; [by exists EmptyString|].
  cbn [trim_left_rev]. destruct (ascii_space a).
  { destruct (IH s1) as [x Hx]; [simpl; lia|]. exists (String a x). simpl. by f_equal. }
  destruct s1 as [|b s2]; [by exists EmptyString|]. destruct (space2 _ _).
  { destruct (IH s2) as [x Hx]; [simpl; lia|]. exists (String a (String b x)). simpl. by do 2 f_equal. }
  destruct s2 as [|c s3]; [by exists EmptyString|]. destruct (space3 _ _ _).
  { destruct (IH s3) as [x Hx]; [simpl; lia|]. exists (String a (String b (String c x))).
    simpl. by do 3 f_equal. }
  by exists EmptyString.
Qed.

Lemma TrimSpace_infix s : infix (TrimSpace s) s.
Proof.
  eapply infix_trans; [apply (rev_suffix_infix _ trim_left_rev_suffix)|].
  apply (suffix_infix _ trim_left_suffix).
Qed.

Lemma TrimLeft_suffix f s : exists a, s = a ++ TrimLeft f s.
Proof.
  induction s as [|c s [a Ha]]; [by exists EmptyString|]. cbn [TrimLeft].
  destruct (f c); [|by exists EmptyString]. exists (String c a). simpl. by f_equal.
Qed.

Lemma Trim_infix f s : infix (Trim f s) s.
Proof.
  eapply infix_trans; [apply (rev_suffix_infix _ (TrimLeft_suffix f))|].
  apply (suffix_infix _ (TrimLeft_suffix f)).
Qed.

Lemma TrimLeft_head f s c r : TrimLeft f s = String c r -> f c = false.
Proof.
  induction s as [|d s IH]; [done|]. cbn [TrimLeft]. destruct (f d) eqn:E; [done|].
  intros [= <- <-]. done.
Qed.

(** Trimming the right end keeps a head that is not trimmed. *)
Lemma Trim_ends f s :
  (forall c r, Trim f s = String c r -> f c = false) /\
  (forall r c, Trim f s = r ++ String c EmptyString -> f c = false).
Proof.
  unfold Trim, TrimRight. set (t := TrimLeft f s). split.
  - intros c r Hc. destruct (rev_suffix_infix _ (TrimLeft_suffix f) t) as (a & b & Ht).
    destruct (TrimLeft_suffix f (string_rev t)) as [x Hx].
    apply (f_equal string_rev) in Hx. rewrite string_rev_app_distr, string_rev_involutive, Hc in Hx.
    apply (TrimLeft_head f s c (r ++ string_rev x)). exact Hx.
  - intros r c Hc. apply (f_equal string_rev) in Hc.
    rewrite string_rev_involutive, string_rev_app_distr in Hc. simpl in Hc.
    eapply TrimLeft_head, Hc.
Qed.

(** ** Removing a two-byte sequence *)

Lemma Remove2_cases a b s :
  Remove2 a b s = s /\ Contains s (String a (String b EmptyString)) = false \/
  String.length (Remove2 a b s) < String.length s.
Proof.
  induction s as [s IH] using string_length_ind. destruct s as [|c s1]; [by left|].
  cbn [Remove2]. destruct s1 as [|d s2].
  { left. split; [done|]. simpl. by rewrite !andb_false_r. }
  destruct (Ascii.eqb_spec c a) as [->|Hc]; [destruct (Ascii.eqb_spec d b) as [->|Hd]|]; cbn [andb].
  - right. destruct (IH s2) as [[-> _]|Hl]; simpl in *; lia.
  - destruct (IH (String d s2)) as [[-> Hn]|Hl]; [simpl; lia| |right; simpl in *; lia].
    left. split; [done|]. cbn [Contains] in Hn |- *. rewrite Hn, orb_false_r.
    simpl. apply Ascii.eqb_neq in Hd. rewrite (Ascii.eqb_sym b d), Hd. by rewrite andb_false_r.
  - destruct (IH (String d s2)) as [[-> Hn]|Hl]; [simpl; lia| |right; simpl in *; lia].
    left. split; [done|]. cbn [Contains] in Hn |- *. rewrite Hn, orb_false_r.
    simpl. apply Ascii.eqb_neq in Hc. by rewrite (Ascii.eqb_sym a c), Hc.
Qed.

(** ** Splitting and joining *)

Definition free_of (c : ascii) (s : string) : bool :=
  string_forallb (fun d => negb (Ascii.eqb d c)) s.

Lemma Split_free s sep : Forall (fun w => free_of sep w = true) (Split s sep).
Proof.
  induction s as [|c s IH]; cbn [Split]; [by constructor|].
  destruct (Ascii.eqb c sep) eqn:E; [by constructor|].
  destruct (Split s sep) as [|w ws]; [constructor; [|done]|inversion IH; subst; constructor; [|done]];
    unfold free_of; cbn [string_forallb]; rewrite E; done.
Qed.

Lemma Split_app_sep w s sep : free_of sep w = true ->
  Split (w ++ String sep s) sep = w :: Split s sep.
Proof.
  unfold free_of. induction w as [|c w IH]; cbn [string_forallb]; intros Hw; simpl.
  - by rewrite Ascii.eqb_refl.
  - apply andb_true_iff in Hw as [Hc Hw]. apply negb_true_iff in Hc. rewrite Hc, IH by done. done.
Qed.

Lemma Split_free_id w sep : free_of sep w = true -> Split w sep = [w].
Proof.
  unfold free_of. induction w as [|c w IH]; cbn [string_forallb]; intros Hw; [done|]. cbn [Split].
  apply andb_true_iff in Hw as [Hc Hw]. apply negb_true_iff in Hc. by rewrite Hc, IH.
Qed.

(** Joining and splitting on a byte that no element contains. *)
Lemma Split_Join ws sep : ws <> [] -> Forall (fun w => free_of sep w = true) ws ->
  Split (Join ws (String sep EmptyString)) sep = ws.
Proof.
  intros Hne Hw. induction Hw as [|w ws Hw Hws IH]; [done|]. destruct ws as [|w' ws].
  - simpl. by apply Split_free_id.
  - etrans; [apply (Split_app_sep w (Join (w' :: ws) (String sep EmptyString)) sep Hw)|].
    f_equal. by apply IH.
Qed.

(** ** Fields

    [strings.Fields]: the maximal runs without white space. *)

Fixpoint word_span (s : string) : string * string :=
  match s with
  | EmptyString => (EmptyString, EmptyString)
  | String a s1 =>
      let stop := match s1 with
                  | EmptyString => ascii_space a
                  | String b s2 =>
                      ascii_space a || space2 (byte a) (byte b) ||
                      match s2 with
                      | EmptyString => false
                      | String c _ => space3 (byte a) (byte b) (byte c)
                      end
                  end in
      if stop : bool then (EmptyString, s)
      else let '(w, r) := word_span s1 in (String a w, r)
  end.

Fixpoint fields_fuel (fuel : nat) (s : string) : list string :=
  match fuel with
  | O => []
  | S fuel' =>
      let s' := trim_left s in
      if String.eqb s' EmptyString then []
      else let '(w, r) := word_span s' in w :: fields_fuel fuel' r
  end.

Definition Fields (s : string) : list string := fields_fuel (S (String.length s)) s.

(** Visible ASCII bytes. *)
Definition is_graph (c : ascii) : bool := ((33 <=? byte c) && (byte c <=? 126))%N.

Lemma graph_not_space c : is_graph c = true ->
  ascii_space c = false /\ (forall b, space2 (byte c) b = false) /\
  (forall b d, space3 (byte c) b d = false) /\ Ascii.eqb c newline = false.
Proof.
  unfold is_graph. rewrite andb_true_iff, N.leb_le, N.leb_le. intros [H1 H2]. repeat split.
  - unfold ascii_space. destruct (N.leb_spec 9 (byte c)), (N.leb_spec (byte c) 13), (N.eqb_spec (byte c) 32);
      simpl; try done; lia.
  - intros b. unfold space2. destruct (N.eqb_spec (byte c) 0xC2); [lia|done].
  - intros b d. unfold space3. destruct (N.eqb_spec (byte c) 0xE1), (N.eqb_spec (byte c) 0xE2),
      (N.eqb_spec (byte c) 0xE3); try lia; done.
  - apply Ascii.eqb_neq. intros ->. vm_compute in H1. by apply H1.
Qed.

Lemma trim_left_graph c s : is_graph c = true -> trim_left (String c s) = String c s.
Proof.
  intros (H1 & H2 & H3 & _)%graph_not_space. cbn [trim_left]. rewrite H1.
  destruct s as [|b s]; [done|]. rewrite H2. destruct s as [|d s]; [done|]. by rewrite H3.
Qed.

(** A visible last byte is not part of a trailing space. *)
Lemma trim_left_rev_graph c s : is_graph c = true -> trim_left_rev (String c s) = String c s.
Proof.
  intros Hc. pose proof Hc as Hg. apply graph_not_space in Hc as (H1 & _).
  unfold is_graph in Hg. rewrite andb_true_iff, N.leb_le, N.leb_le in Hg.
  cbn [trim_left_rev]. rewrite H1. destruct s as [|b s]; [done|].
  assert (space2 (byte b) (byte c) = false) as ->.
  { unfold space2. destruct (N.eqb_spec (byte c) 0x85), (N.eqb_spec (byte c) 0xA0); lia. }
  destruct s as [|d s]; [done|].
  assert (space3 (byte d) (byte b) (byte c) = false) as ->; [|done].
  unfold space3. destruct (N.eqb_spec (byte c) 0x80), (N.leb_spec 0x80 (byte c)),
    (N.eqb_spec (byte c) 0xA8), (N.eqb_spec (byte c) 0xA9), (N.eqb_spec (byte c) 0xAF),
    (N.eqb_spec (byte c) 0x9F); lia.
Qed.

(** A string that starts and ends with visible bytes is already trimmed. *)
Lemma TrimSpace_graph_ends a m z : is_graph a = true -> is_graph z = true ->
  TrimSpace (String a (m ++ String z EmptyString)) = String a (m ++ String z EmptyString).
Proof.
  intros Ha Hz. unfold TrimSpace. rewrite trim_left_graph by done.
  change (String a (m ++ String z EmptyString)) with ((String a m) ++ String z EmptyString).
  rewrite string_rev_app_distr.
  change (string_rev (String z EmptyString) ++ string_rev (String a m))
    with (String z (string_rev (String a m))).
  rewrite trim_left_rev_graph by done.
  change (String z (string_rev (String a m)))
    with (string_rev (String z EmptyString) ++ string_rev (String a m)).
  by rewrite <- string_rev_app_distr, string_rev_involutive.
Qed.

Lemma TrimSpace_graph s : string_forallb is_graph s = true -> TrimSpace s = s.
Proof.
  destruct s as [|a s]; [done|]. cbn [string_forallb]. rewrite andb_true_iff. intros [Ha Hs].
  destruct (string_snoc_cases s) as [->|(m & z & ->)].
  - unfold TrimSpace. rewrite trim_left_graph by done.
    change (string_rev (String a EmptyString)) with (String a EmptyString).
    by rewrite trim_left_rev_graph.
  - apply TrimSpace_graph_ends; [done|].
    rewrite string_forallb_app, andb_true_iff in Hs. destruct Hs as [_ Hs]. cbn in Hs.
    by rewrite andb_true_r in Hs.
Qed.

Lemma word_span_graph w r : string_forallb is_graph w = true ->
  (r = EmptyString \/ exists c r', r = String c r' /\ ascii_space c = true) ->
  word_span (w ++ r) = (w, r).
Proof.
  intros Hw Hr. induction w as [|a w IH]; simpl.
  - destruct Hr as [->|(c & r' & -> & Hc)]; [done|]. cbn [word_span]. rewrite Hc.
    by destruct r' as [|? [|]].
  - cbn [string_forallb] in Hw. apply andb_true_iff in Hw as [Ha Hw].
    destruct (graph_not_space a Ha) as (H1 & H2 & H3 & _). cbn [word_span]. rewrite H1.
    rewrite IH by done. destruct (w ++ r) as [|b s]; [done|]. rewrite H2.
    destruct s as [|d s]; [done|]. by rewrite H3.
Qed.
