(* ===== verification/Model.v ===== *)
(** * Shared data types and interfaces

    The record of a parsed log line, the result of a detector, the views of an
    IP's state that the detectors and the scorer are written against, and the
    unspecified iteration order of Go maps. *)

From Stdlib Require Import ZArith Lia Floats.SpecFloat.
From stdpp Require Import base numbers option list strings gmap fin_maps.
From S2P Require Import Prelude GoFloat.

(** The fields of a log entry that the sources read. *)
Record LogEntry := mkLogEntry {
  le_RemoteAddr : string;
  le_RemoteUser : string;
  le_Time : Time;
  le_Method : string;
  le_RawURI : string;
  le_Path : string;
  le_Query : string;
  le_Protocol : string;
  le_Status : Z;
  le_BytesSent : Z;
  le_Referer : string;
  le_UserAgent : string;
  le_RealIP : string;
  le_ChainIssue : string
}.

(** [plugin.DetectResult]; the zero value is "nothing found". *)
Record DetectResult := mkDetectResult {
  dr_Score : Z;
  dr_Module : string;
  dr_Reason : string
}.

Definition DetectResult_zero : DetectResult :=
  mkDetectResult 0 EmptyString EmptyString.

(** ** Views of an IP's state

    [plugin.IPView] and [detector.ScoreAccess] as classes.  [RecentPaths]
    returns the state because the implementation fills a cache. [ApproxRate]
    reads the wall clock, its first argument. *)

Class IPView (T : Type) := {
  GetIP : T -> string;
  GetTotalRequests : T -> Z;
  GetRequests404 : T -> Z;
  RecentPaths : T -> list string * T;
  ApproxRate : Time -> T -> Duration -> float64
}.

Class ScoreAccess (T : Type) := {
  sa_view :: IPView T;
  GetScore : T -> Z;
  GetScoreUpdatedAt : T -> Time;
  SetScore : Z -> Time -> T -> T
}.

(** What the scorer relies on: reading paths does not touch the score, and a
    score that was set is read back. *)
Class ScoreAccessLaws (T : Type) `{!ScoreAccess T} := {
  GetScore_SetScore z at_ t : GetScore (SetScore z at_ t) = z;
  GetScoreUpdatedAt_SetScore z at_ t : GetScoreUpdatedAt (SetScore z at_ t) = at_;
  GetIP_SetScore z at_ t : GetIP (SetScore z at_ t) = GetIP t;
  GetScore_RecentPaths t : GetScore (snd (RecentPaths t)) = GetScore t;
  GetScoreUpdatedAt_RecentPaths t :
    GetScoreUpdatedAt (snd (RecentPaths t)) = GetScoreUpdatedAt t;
  GetIP_RecentPaths t : GetIP (snd (RecentPaths t)) = GetIP t;
  GetTotalRequests_RecentPaths t :
    GetTotalRequests (snd (RecentPaths t)) = GetTotalRequests t;
  GetRequests404_RecentPaths t :
    GetRequests404 (snd (RecentPaths t)) = GetRequests404 t;
  ApproxRate_RecentPaths now t w :
    ApproxRate now (snd (RecentPaths t)) w = ApproxRate now t w;
  RecentPaths_idem t : fst (RecentPaths (snd (RecentPaths t))) = fst (RecentPaths t)
}.

(** [plugin.Detector]: [Detect] sees the view of the IP and the log entry
    wrapped in the event; the wall clock is explicit. *)
Record Detector (T : Type) := mkDetector {
  d_Name : string;
  d_Detect : Time -> T -> LogEntry -> DetectResult * T
}.
Arguments mkDetector {T}.
Arguments d_Name {T}.
Arguments d_Detect {T}.

(** ** Iteration over a Go map

    [range] over a map visits every entry once in an unspecified order. *)

Class MapRange := {
  map_range {K A} `{Countable K} : gmap K A -> list (K * A);
  map_range_perm {K A} `{Countable K} (m : gmap K A) : map_range m ≡ₚ map_to_list m
}.

Lemma elem_of_map_range `{MapRange} {K A} `{Countable K} (m : gmap K A) k x :
  (k, x) ∈ map_range m <-> m !! k = Some x.
Proof. rewrite map_range_perm. apply elem_of_map_to_list. Qed.

Lemma NoDup_map_range `{MapRange} {K A} `{Countable K} (m : gmap K A) :
  NoDup (map_range m).*1.
Proof. rewrite map_range_perm. apply NoDup_fst_map_to_list. Qed.

(** One possible order, for concrete evaluations. *)
Definition map_range_canonical : MapRange :=
  {| map_range := fun K A _ _ m => map_to_list m;
     map_range_perm := fun K A _ _ m => Permutation_refl _ |}.

(** ** HTTP *)

(** A response of a server; [None] at its uses is a transport error. *)
Record HttpResponse := mkHttpResponse {
  hr_StatusCode : Z;
  hr_Body : string
}.
