(* ===== verification/Tracker.v ===== *)
(** * The IP state tracker (internal/core/state/tracker.go)

    [IPState] with its path ring buffer and two-counter rate window, and
    [Tracker], the LRU-bounded map of states with its garbage collector.  The
    tracker refines an abstract recency-ordered list of per-IP request
    histories.

    A pointer to a state is the IP it is stored under, and the container/list
    is the list of those IPs, front first; [lruElem] is then the position of
    the IP in the list. Locking is not modelled: each method runs under one
    lock and is one atomic step. *)

From Stdlib Require Import ZArith Lia Floats.SpecFloat.
From stdpp Require Import base numbers option list sorting strings gmap fin_maps.
From S2P Require Import Prelude GoFloat Model.

Definition pathBufSize : nat := 64.

Record IPState := mkIPState {
  IP : string;
  FirstSeen : Time;
  LastSeen : Time;
  TotalRequests : Z;
  Requests404 : Z;
  pathBuf : list string;
  pathPos : nat;
  pathFull : bool;
  pathCache : list string;
  pathDirty : bool;
  rateWindowStart : Time;
  rateCurrCount : Z;
  ratePrevCount : Z;
  score : Z;
  scoreUpdatedAt : Time
}.

(** [&IPState{IP: ..., FirstSeen: ...}]: every other field is its zero value. *)
Definition newIPState (ip : string) (first : Time) : IPState :=
  mkIPState ip first 0 0 0 (replicate pathBufSize EmptyString) 0 false [] false 0 0 0 0 0.

(** ** Reading a state *)

Definition ring_contents (s : IPState) : list string :=
  if pathFull s then drop (pathPos s) (pathBuf s) ++ take (pathPos s) (pathBuf s)
  else take (pathPos s) (pathBuf s).

Definition set_pathCache (s : IPState) (c : list string) : IPState :=
  mkIPState (IP s) (FirstSeen s) (LastSeen s) (TotalRequests s) (Requests404 s)
    (pathBuf s) (pathPos s) (pathFull s) c false
    (rateWindowStart s) (rateCurrCount s) (ratePrevCount s) (score s) (scoreUpdatedAt s).

Definition IPState_RecentPaths (s : IPState) : list string * IPState :=
  if negb (pathDirty s) then (pathCache s, s)
  else let result := ring_contents s in (result, set_pathCache s result).

Definition IPState_ApproxRate (now : Time) (s : IPState) (window : Duration) : float64 :=
  if ((window <=? 0) || time_IsZero (rateWindowStart s))%Z%bool then f_zero
  else
    let elapsed := time_Sub now (rateWindowStart s) in
    let windowSec := duration_Seconds window in
    if (wrap64 (2 * window) <=? elapsed)%Z then f_zero
    else if (window <=? elapsed)%Z then
      let overshot := wrap64 (elapsed - window) in
      let fraction := f_div (f_of_Z overshot) (f_of_Z window) in
      let approx := f_mul (f_of_Z (rateCurrCount s)) (f_sub f_one fraction) in
      f_div approx windowSec
    else
      let fraction := f_div (f_of_Z elapsed) (f_of_Z window) in
      let approx := f_add (f_mul (f_of_Z (ratePrevCount s)) (f_sub f_one fraction))
                          (f_of_Z (rateCurrCount s)) in
      f_div approx windowSec.

Definition IPState_SetScore (z : Z) (at_ : Time) (s : IPState) : IPState :=
  mkIPState (IP s) (FirstSeen s) (LastSeen s) (TotalRequests s) (Requests404 s)
    (pathBuf s) (pathPos s) (pathFull s) (pathCache s) (pathDirty s)
    (rateWindowStart s) (rateCurrCount s) (ratePrevCount s) z at_.

#[export] Instance IPState_view : IPView IPState := {|
  GetIP := IP;
  GetTotalRequests := TotalRequests;
  GetRequests404 := Requests404;
  RecentPaths := IPState_RecentPaths;
  ApproxRate := IPState_ApproxRate
|}.

#[export] Instance IPState_score : ScoreAccess IPState := {|
  sa_view := IPState_view;
  GetScore := score;
  GetScoreUpdatedAt := scoreUpdatedAt;
  SetScore := IPState_SetScore
|}.

(** ** Updating a state from a log entry *)

Definition set_rate (s : IPState) (start : Time) (curr prev : Z) : IPState :=
  mkIPState (IP s) (FirstSeen s) (LastSeen s) (TotalRequests s) (Requests404 s)
    (pathBuf s) (pathPos s) (pathFull s) (pathCache s) (pathDirty s)
    start curr prev (score s) (scoreUpdatedAt s).

Definition updateRateLocked (w : Duration) (s : IPState) (reqTime : Time) : IPState :=
  if time_IsZero (rateWindowStart s) then set_rate s reqTime 1 (ratePrevCount s)
  else
    let elapsed := time_Sub reqTime (rateWindowStart s) in
    if (wrap64 (2 * w) <=? elapsed)%Z then set_rate s reqTime 1 0
    else if (w <=? elapsed)%Z then
      set_rate s (time_Add (rateWindowStart s) w) 1 (rateCurrCount s)
    else set_rate s (rateWindowStart s) (wrap64 (rateCurrCount s + 1)) (ratePrevCount s).

(** The counters and the ring buffer, the part of [Update] between the lookup
    and the rate window. *)
Definition record_request (s : IPState) (e : LogEntry) : IPState :=
  let pos := Nat.modulo (pathPos s + 1) pathBufSize in
  mkIPState (IP s) (FirstSeen s) (le_Time e)
    (wrap64 (TotalRequests s + 1))
    (if (le_Status e =? 404)%Z then wrap64 (Requests404 s + 1) else Requests404 s)
    (<[pathPos s := le_Path e]> (pathBuf s)) pos
    (pathFull s || (pos =? 0)%nat) (pathCache s) true
    (rateWindowStart s) (rateCurrCount s) (ratePrevCount s) (score s) (scoreUpdatedAt s).

(** ** The tracker *)

Record Tracker := mkTracker {
  states : gmap string IPState;
  lru : list string;
  maxIPs : Z;
  rateWindow : Duration;
  retention : Duration
}.

(** [state.max_tracked_ips], [detectors.rate.window], [scoring.observation_window]. *)
Record TrackerConfig := mkTrackerConfig {
  tc_MaxTrackedIPs : Z;
  tc_RateWindow : Duration;
  tc_ObservationWindow : Duration
}.

Definition rate_window_or_default (w : Duration) : Duration :=
  if (w <=? 0)%Z then (60 * second)%Z else w.

Definition NewTracker (cfg : TrackerConfig) : Tracker :=
  mkTracker ∅ [] (tc_MaxTrackedIPs cfg) (rate_window_or_default (tc_RateWindow cfg))
    (tc_ObservationWindow cfg).

Definition set_states (t : Tracker) (m : gmap string IPState) (l : list string) : Tracker :=
  mkTracker m l (maxIPs t) (rateWindow t) (retention t).

Definition evictLRULocked (t : Tracker) : Tracker :=
  match last (lru t) with
  | None => t
  | Some ip => set_states t (delete ip (states t)) (filter (fun x => x <> ip) (lru t))
  end.

Definition Len (t : Tracker) : Z := Z.of_nat (size (states t)).
Definition Has (t : Tracker) (ip : string) : bool :=
  match states t !! ip with Some _ => true | None => false end.
Definition GetState (t : Tracker) (ip : string) : option IPState := states t !! ip.

Definition Update (e : LogEntry) (t : Tracker) : IPState * Tracker :=
  let ip := le_RealIP e in
  let '(st, t1) :=
    match states t !! ip with
    | None =>
        let t0 := if (maxIPs t <=? Len t)%Z then evictLRULocked t else t in
        let st := newIPState ip (le_Time e) in
        (st, set_states t0 (states t0) (ip :: lru t0))
    | Some st => (st, set_states t (states t) (ip :: filter (fun x => x <> ip) (lru t)))
    end in
  let st' := updateRateLocked (rateWindow t) (record_request st e) (le_Time e) in
  (st', set_states t1 (<[ip := st']> (states t1)) (lru t1)).

(** A write through the pointer that [Update] or [GetState] returned: visible in
    the map as long as the state has not been removed from it. *)
Definition write_state (ip : string) (st : IPState) (t : Tracker) : Tracker :=
  set_states t (alter (fun _ => st) ip (states t)) (lru t).

Definition Reconfigure (cfg : TrackerConfig) (t : Tracker) : Tracker :=
  mkTracker (states t) (lru t) (maxIPs t) (rate_window_or_default (tc_RateWindow cfg))
    (tc_ObservationWindow cfg).

Record Stats := mkStats {
  st_TrackedIPs : Z;
  st_TotalRequests : Z;
  st_Suspicious : Z
}.

Definition GetStats `{MapRange} (t : Tracker) : Stats :=
  let s0 := mkStats (Len t) 0 0 in
  foldl (fun s '(_, st) =>
           mkStats (st_TrackedIPs s) (wrap64 (st_TotalRequests s + TotalRequests st))
             (if (0 <? score st)%Z then wrap64 (st_Suspicious s + 1) else st_Suspicious s))
        s0 (map_range (states t)).

Definition gc_stale (threshold : Time) (st : IPState) : bool :=
  time_Before (LastSeen st) threshold.

Definition gc_step (threshold : Time) (acc : Tracker * Z) (kv : string * IPState)
  : Tracker * Z :=
  let '(t, deleted) := acc in
  let '(ip, st) := kv in
  if gc_stale threshold st then
    (set_states t (delete ip (states t)) (filter (fun x => x <> ip) (lru t)),
     (deleted + 1)%Z)
  else acc.

Definition runGC `{MapRange} (now : Time) (t : Tracker) : Tracker * Z * Z :=
  let threshold := time_Add now (wrap64 (- retention t)) in
  let '(t', deleted) := foldl (gc_step threshold) (t, 0%Z) (map_range (states t)) in
  (t', deleted, Len t').

(** ** Laws of the views *)

#[export] Instance IPState_laws : ScoreAccessLaws IPState.
Proof.
  split; intros; simpl; try done; unfold IPState_RecentPaths;
    destruct (pathDirty t) eqn:E; simpl; by rewrite ?E.
Qed.

(** ** The path ring buffer *)

Definition ring_wf (s : IPState) : Prop :=
  length (pathBuf s) = pathBufSize /\ pathPos s < pathBufSize /\
  (pathDirty s = false -> pathCache s = ring_contents s).

Lemma newIPState_ring ip first : ring_wf (newIPState ip first) /\
  ring_contents (newIPState ip first) = [].
Proof. split; [split; [done|split; [|done]]|done]. unfold pathBufSize. simpl. lia. Qed.

(** Writing at the position and advancing it appends to the history and
    forgets what no longer fits. *)
Lemma record_request_ring s e : ring_wf s ->
  ring_wf (record_request s e) /\
  ring_contents (record_request s e) = lastn pathBufSize (ring_contents s ++ [le_Path e]).
Proof.
  intros (Hlen & Hpos & _). split.
  { unfold ring_wf. cbn [record_request pathBuf pathPos pathDirty].
    split; [by rewrite length_insert|split; [|done]].
    apply Nat.mod_upper_bound. done. }
  unfold ring_contents. cbn [record_request pathFull pathPos pathBuf].
  destruct (decide (pathPos s + 1 = pathBufSize)) as [Hw|Hw].
  - rewrite Hw, Nat.Div0.mod_same. rewrite orb_true_r. cbn [drop take].
    rewrite app_nil_r, insert_take_drop by lia.
    rewrite (drop_ge (pathBuf s) (S (pathPos s))) by lia.
    destruct (pathFull s); unfold lastn;
      rewrite !length_app, ?length_drop, !length_take, Hlen, Nat.min_l by lia; simpl length.
    + rewrite <- app_assoc. symmetry. apply drop_app_length'. rewrite length_drop. lia.
    + replace (pathPos s + 1 - pathBufSize) with 0 by lia. done.
  - rewrite Nat.mod_small by lia.
    assert ((pathPos s + 1 =? 0)%nat = false) as -> by (apply Nat.eqb_neq; lia).
    rewrite orb_false_r. rewrite insert_take_drop by lia.
    assert (Hlt : length (take (pathPos s) (pathBuf s)) = pathPos s) by (rewrite length_take; lia).
    destruct (pathFull s); unfold lastn.
    + rewrite !length_app, length_drop, length_take, Hlen, Nat.min_l by lia. simpl length.
      replace (pathBufSize - pathPos s + pathPos s + 1 - pathBufSize) with 1 by lia.
      rewrite (drop_app_ge _ _ (pathPos s + 1)), Hlt, take_app_ge, Hlt by lia.
      replace (pathPos s + 1 - pathPos s) with 1 by lia. cbn [drop take].
      rewrite <- app_assoc, !drop_app_le by (rewrite length_drop; lia).
      rewrite !drop_drop, take_0, Nat.add_0_r. by replace (pathPos s + 1) with (S (pathPos s)) by lia.
    + rewrite length_app, Hlt. simpl length.
      replace (pathPos s + 1 - pathBufSize) with 0 by lia. cbn [drop].
      rewrite take_app_ge, Hlt by lia. by replace (pathPos s + 1 - pathPos s) with 1 by lia.
Qed.

Lemma RecentPaths_contents s : ring_wf s ->
  fst (IPState_RecentPaths s) = ring_contents s /\ ring_wf (snd (IPState_RecentPaths s)) /\
  ring_contents (snd (IPState_RecentPaths s)) = ring_contents s.
Proof.
  intros (H1 & H2 & H3). unfold IPState_RecentPaths, ring_wf.
  destruct (pathDirty s) eqn:E; simpl; rewrite ?E; naive_solver.
Qed.

(** ** Abstract specification

    The tracker promises, for every tracked IP, the history of the requests
    since the IP was (last) inserted; the IPs are kept in order of recency,
    most recent first, and at most [max 1 maxIPs] of them. *)

Abbreviation abs_state := (list (string * list LogEntry)%type) (only parsing).

Fixpoint abs_lookup (ip : string) (a : abs_state) : option (list LogEntry) :=
  match a with
  | [] => None
  | (ip', h) :: a' => if String.eqb ip ip' then Some h else abs_lookup ip a'
  end.

Definition abs_remove (ip : string) (a : abs_state) : abs_state :=
  filter (fun kh => kh.1 <> ip) a.

Definition abs_update (maxn : Z) (e : LogEntry) (a : abs_state) : abs_state :=
  let ip := le_RealIP e in
  match abs_lookup ip a with
  | Some h => (ip, h ++ [e]) :: abs_remove ip a
  | None =>
      (ip, [e]) :: (if (maxn <=? Z.of_nat (length a))%Z then take (length a - 1) a else a)
  end.

Definition last_time (h : list LogEntry) : Time :=
  match last h with Some e => le_Time e | None => 0%Z end.

Definition abs_gc (threshold : Time) (a : abs_state) : abs_state :=
  filter (fun kh => time_Before (last_time kh.2) threshold = false) a.

Definition count_404 (h : list LogEntry) : nat :=
  length (filter (fun e => le_Status e = 404%Z) h).

(** One state against the history of its IP. *)
Record state_refines (ip : string) (h : list LogEntry) (s : IPState) : Prop := {
  sr_IP : IP s = ip;
  sr_First : exists e, head h = Some e /\ FirstSeen s = le_Time e;
  sr_Last : LastSeen s = last_time h;
  sr_Total : TotalRequests s = wrap64 (Z.of_nat (length h));
  sr_404 : Requests404 s = wrap64 (Z.of_nat (count_404 h));
  sr_ring : ring_wf s;
  sr_paths : ring_contents s = lastn pathBufSize (le_Path <$> h)
}.

(** The tracker against the abstract list. *)
Record tracker_refines (t : Tracker) (a : abs_state) : Prop := {
  tr_lru : lru t = a.*1;
  tr_nodup : NoDup a.*1;
  tr_bound : (Z.of_nat (length a) <= Z.max 1 (maxIPs t))%Z;
  tr_dom : forall ip, is_Some (states t !! ip) -> ip ∈ a.*1;
  tr_states : forall ip h, (ip, h) ∈ a ->
    exists s, states t !! ip = Some s /\ state_refines ip h s
}.

(** *** Facts on the abstract list *)

Lemma abs_lookup_Some ip h a : abs_lookup ip a = Some h -> (ip, h) ∈ a.
Proof.
  induction a as [|[ip' h'] a IH]; simpl; [done|].
  destruct (String.eqb_spec ip ip') as [->|]; [intros [= ->]; left|].
  intros H. right. auto.
Qed.

Lemma abs_lookup_None ip a : abs_lookup ip a = None -> ip ∉ a.*1.
Proof.
  induction a as [|[ip' h'] a IH]; simpl; [intros _ H; inversion H|].
  destruct (String.eqb_spec ip ip'); [done|]. intros H%IH.
  rewrite elem_of_cons. naive_solver.
Qed.

Lemma elem_of_fst (ip : string) (a : abs_state) : ip ∈ a.*1 <-> exists h, (ip, h) ∈ a.
Proof.
  rewrite list_elem_of_fmap. split.
  - intros ([ip' h] & -> & H). by exists h.
  - intros [h H]. by exists (ip, h).
Qed.

Lemma abs_filter_fst (P : string -> Prop) `{!forall x, Decision (P x)} (a : abs_state) :
  (filter (fun kh => P kh.1) a).*1 = filter P a.*1.
Proof.
  induction a as [|[ip h] a IH]; [done|]. rewrite fmap_cons. cbn [fst].
  destruct (decide (P ip)).
  - do 2 rewrite filter_cons_True by done. rewrite fmap_cons. cbn [fst]. by f_equal.
  - do 2 rewrite filter_cons_False by done. exact IH.
Qed.

Lemma abs_remove_fst ip a : (abs_remove ip a).*1 = filter (fun x => x <> ip) a.*1.
Proof. exact (abs_filter_fst (fun x => x <> ip) a). Qed.

Lemma take_pred_filter (l : list string) x :
  NoDup l -> last l = Some x -> filter (fun y => y <> x) l = take (length l - 1) l.
Proof.
  intros Hnd Hl. apply last_Some in Hl as [l' ->].
  apply NoDup_app in Hnd as (_ & Hx & _).
  rewrite length_app. simpl. replace (length l' + 1 - 1) with (length l') by lia.
  rewrite take_app_length, filter_app, filter_cons_False, filter_nil, app_nil_r by naive_solver.
  apply filter_all, Forall_forall. intros y Hy ->. apply (Hx x Hy). by left.
Qed.

(** *** One request *)

Lemma updateRateLocked_refines w ip h s t :
  state_refines ip h s -> state_refines ip h (updateRateLocked w s t).
Proof.
  intros [? ? ? ? ? Hr ?]. unfold updateRateLocked.
  repeat case_match_goal; split; try done; exact Hr.
Qed.

Lemma record_request_fresh e :
  state_refines (le_RealIP e) [e] (record_request (newIPState (le_RealIP e) (le_Time e)) e).
Proof.
  destruct (newIPState_ring (le_RealIP e) (le_Time e)) as [Hw Hc].
  destruct (record_request_ring _ e Hw) as [Hw' Hc'].
  split; try done; [by exists e|].
  cbn [record_request Requests404 newIPState]. unfold count_404. rewrite filter_cons.
  destruct (Z.eqb_spec (le_Status e) 404);
    [rewrite decide_True by done|rewrite decide_False by done]; reflexivity.
Qed.

Lemma record_request_more ip h s e :
  state_refines ip h s -> state_refines ip (h ++ [e]) (record_request s e).
Proof.
  intros [H1 H2 H3 H4 H5 H6 H7]. destruct (record_request_ring s e H6) as [Hw' Hc'].
  split; try done.
  - destruct H2 as (x & Hh & ?). exists x. destruct h; [done|]. by injection Hh as ->.
  - simpl. unfold last_time. by rewrite last_snoc.
  - simpl. rewrite H4, wrap64_add_l, length_app. f_equal. simpl. lia.
  - simpl. unfold count_404. rewrite filter_app, filter_cons, length_app, H5.
    destruct (Z.eqb_spec (le_Status e) 404);
      [rewrite decide_True by done|rewrite decide_False by done];
      rewrite ?wrap64_add_l; f_equal; simpl; unfold count_404; lia.
  - rewrite Hc', H7, fmap_app. apply lastn_snoc. unfold pathBufSize. lia.
Qed.

(** *** Simulation of the operations *)

Lemma new_refines cfg : tracker_refines (NewTracker cfg) [].
Proof.
  split; simpl; try done; [constructor|lia| |].
  - intros ip [s Hs]. by rewrite lookup_empty in Hs.
  - intros ip h H. inversion H.
Qed.

Lemma refines_len t a : tracker_refines t a -> size (states t) = length a.
Proof.
  intros [Hl Hn _ Hd Hs].
  assert (Hdom : dom (states t) = list_to_set (C := gset string) a.*1).
  { apply set_eq. intros ip. rewrite elem_of_dom, elem_of_list_to_set. split; [apply Hd|].
    intros [h (s & ? & _)%Hs]%elem_of_fst. by exists s. }
  rewrite <- size_dom, Hdom, size_list_to_set, length_fmap by done. done.
Qed.

Lemma lru_last_tracked t a old : tracker_refines t a -> last (lru t) = Some old ->
  is_Some (states t !! old).
Proof.
  intros HR Hlast. assert (old ∈ a.*1) as Hi.
  { rewrite <- (tr_lru _ _ HR). apply last_Some in Hlast as [l ->]. apply elem_of_app; right; left. }
  apply elem_of_fst in Hi as [h Hi]. destruct (tr_states _ _ HR _ _ Hi) as (s & ? & _). by exists s.
Qed.

Lemma evict_refines t a : tracker_refines t a ->
  tracker_refines (evictLRULocked t) (take (length a - 1) a).
Proof.
  intros HR. destruct HR as [Hl Hn Hb Hd Hs]. unfold evictLRULocked.
  destruct (last (lru t)) as [ip|] eqn:El.
  2: { apply last_None in El. rewrite Hl in El. apply fmap_nil_inv in El. subst a. by split. }
  assert (Hf : filter (fun x => x <> ip) (lru t) = (take (length a - 1) a).*1).
  { rewrite Hl in El |- *. rewrite (take_pred_filter _ ip) by done.
    by rewrite length_fmap, fmap_take. }
  split; simpl.
  - exact Hf.
  - rewrite <- Hf, Hl. by apply NoDup_filter.
  - rewrite length_take. lia.
  - intros ip' [s' [Hne Hs']%lookup_delete_Some]. rewrite <- Hf, Hl.
    apply list_elem_of_filter. split; [done|]. apply Hd. by exists s'.
  - intros ip' h' Hin. assert (Hne : ip' <> ip).
    { assert (Hi : ip' ∈ (take (length a - 1) a).*1) by (apply elem_of_fst; by exists h').
      rewrite <- Hf in Hi. apply list_elem_of_filter in Hi. tauto. }
    rewrite lookup_delete_ne by done. apply Hs.
    apply (list_elem_of_lookup_1) in Hin as [i Hi].
    apply lookup_take_Some in Hi as [Hi _]. by eapply list_elem_of_lookup_2.
Qed.

(** Putting a fresh or moved state at the front. *)
Lemma push_refines t a ip h s :
  NoDup a.*1 -> lru t = a.*1 -> ip ∉ a.*1 ->
  (Z.of_nat (length a) < Z.max 1 (maxIPs t))%Z ->
  (forall ip', ip' <> ip -> is_Some (states t !! ip') -> ip' ∈ a.*1) ->
  (forall ip' h', (ip', h') ∈ a -> exists s', states t !! ip' = Some s' /\ state_refines ip' h' s') ->
  state_refines ip h s ->
  tracker_refines (set_states t (<[ip := s]> (states t)) (ip :: lru t)) ((ip, h) :: a).
Proof.
  intros Hn Hl Hip Hb Hd Hs Hr. split; simpl; [by rewrite Hl|by constructor|lia| |].
  - intros ip' Hi. apply elem_of_cons. destruct (decide (ip' = ip)); [by left|right].
    apply Hd; [done|]. by rewrite lookup_insert_ne in Hi.
  - intros ip' h' [[= -> ->]|Hin]%elem_of_cons.
    + exists s. by rewrite lookup_insert_eq.
    + destruct (Hs _ _ Hin) as (s' & Hs' & Hr'). exists s'. split; [|done].
      rewrite lookup_insert_ne; [done|]. intros ->. apply Hip, elem_of_fst. by exists h'.
Qed.

Lemma Update_refines t a e : tracker_refines t a ->
  tracker_refines (snd (Update e t)) (abs_update (maxIPs t) e a) /\
  exists h, state_refines (le_RealIP e) h (fst (Update e t)) /\
    abs_lookup (le_RealIP e) (abs_update (maxIPs t) e a) = Some h.
Proof.
  intros HR. unfold Update, abs_update. set (ip := le_RealIP e).
  destruct (abs_lookup ip a) as [h|] eqn:Ea.
  - pose proof (abs_lookup_Some _ _ _ Ea) as Hin.
    destruct HR as [Hl Hn Hb Hd Hs]. destruct (Hs _ _ Hin) as (s & Hss & Hr).
    rewrite Hss. simpl.
    assert (Hr' := updateRateLocked_refines (rateWindow t) _ _ _ (le_Time e)
                     (record_request_more _ _ _ e Hr)).
    split; [|exists (h ++ [e]); by rewrite String.eqb_refl].
    assert (Hlen : S (length (abs_remove ip a)) <= length a).
    { assert (ip ∈ a.*1) as Hi by (apply elem_of_fst; by exists h).
      rewrite <- (length_fmap fst (abs_remove ip a)), abs_remove_fst, <- (length_fmap fst a). apply length_filter_lt with ip; [done|tauto]. }
    apply (push_refines (set_states t (states t) (filter (fun x => x <> ip) (lru t)))); simpl.
    + rewrite abs_remove_fst. by apply NoDup_filter.
    + by rewrite Hl, abs_remove_fst.
    + rewrite abs_remove_fst, list_elem_of_filter. tauto.
    + lia.
    + intros ip' Hne Hi%Hd. by rewrite abs_remove_fst, list_elem_of_filter.
    + intros ip' h' [_ Hi]%list_elem_of_filter. by apply Hs.
    + exact Hr'.
  - pose proof (abs_lookup_None _ _ Ea) as Hnin.
    assert (Hnone : states t !! ip = None).
    { destruct (states t !! ip) eqn:E; [|done]. exfalso. apply Hnin, (tr_dom _ _ HR). by rewrite E. }
    rewrite Hnone. unfold Len. rewrite (refines_len _ _ HR).
    assert (Hr' := updateRateLocked_refines (rateWindow t) _ _ _ (le_Time e) (record_request_fresh e)).
    split; [|exists [e]; simpl; by rewrite String.eqb_refl].
    set (t0 := if (_ <=? _)%Z then evictLRULocked t else t).
    set (a0 := if (_ <=? _)%Z then _ else a).
    assert (HR0 : tracker_refines t0 a0).
    { unfold t0, a0. destruct (_ <=? _)%Z; [by apply evict_refines|done]. }
    assert (Hmax : maxIPs t0 = maxIPs t).
    { unfold t0, evictLRULocked. by repeat case_match_goal. }
    assert (Hsub : a0.*1 ⊆ a.*1).
    { unfold a0. destruct (_ <=? _)%Z; [|done]. rewrite fmap_take. intros x.
      intros [i [Hi _]%lookup_take_Some]%list_elem_of_lookup_1. by eapply list_elem_of_lookup_2. }
    assert (Hb : (Z.of_nat (length a0) < Z.max 1 (maxIPs t0))%Z).
    { rewrite Hmax. unfold a0. pose proof (tr_bound _ _ HR).
      destruct (_ <=? _)%Z eqn:E; b2p; [rewrite length_take; lia|lia]. }
    simpl. destruct HR0 as [Hl Hn _ Hd Hs].
    apply (push_refines t0); try done; [|intros; by apply Hd].
    intros Hi%Hsub. done.
Qed.

(** *** Garbage collection *)

(** The loop of [runGC] over any list of distinct entries of the map. *)
Lemma gc_loop_spec threshold (l : list (string * IPState)) t d :
  let '(t', d') := foldl (gc_step threshold) (t, d) l in
  let dead := (filter (fun kv => gc_stale threshold kv.2 = true) l).*1 in
  maxIPs t' = maxIPs t /\ rateWindow t' = rateWindow t /\ retention t' = retention t /\
  d' = (d + Z.of_nat (length dead))%Z /\
  lru t' = filter (fun x => x ∉ dead) (lru t) /\
  (forall ip, states t' !! ip = if decide (ip ∈ dead) then None else states t !! ip).
Proof.
  revert t d. induction l as [|[ip s] l IH]; intros t d; simpl foldl.
  - simpl. repeat split; [lia|]. symmetry. apply filter_all, Forall_forall.
    intros x _ Hx. inversion Hx.
  - rewrite filter_cons. cbn [snd gc_step].
    destruct (gc_stale threshold s) eqn:Es;
      match goal with |- context [foldl _ ?acc l] =>
        specialize (IH (fst acc) (snd acc)); simpl fst in IH; simpl snd in IH;
        destruct (foldl _ acc l) as [t' d'] end;
      destruct IH as (H1 & H2 & H3 & H4 & H5 & H6).
    + rewrite decide_True by done. rewrite fmap_cons. cbn [fst].
      simpl in *. repeat split; try done; [lia| |].
      * rewrite H5, list_filter_filter. apply list_filter_iff. intros x.
        rewrite elem_of_cons. tauto.
      * intros ip'. rewrite H6. destruct (decide (ip' = ip)) as [->|Hne].
        -- rewrite lookup_delete_eq. rewrite (decide_True (P := ip ∈ ip :: _)) by left.
           by destruct (decide _).
        -- rewrite lookup_delete_ne by done. apply decide_ext. rewrite elem_of_cons. tauto.
    + rewrite decide_False by done. done.
Qed.

Lemma last_time_stale ip h s threshold : state_refines ip h s ->
  gc_stale threshold s = time_Before (last_time h) threshold.
Proof. intros Hr. unfold gc_stale. by rewrite (sr_Last _ _ _ Hr). Qed.

Section executions.
Context `{MapRange}.

(** The set of removed IPs, for a tracker that refines an abstract list. *)
Lemma gc_dead t a threshold ip h : tracker_refines t a -> (ip, h) ∈ a ->
  ip ∈ (filter (fun kv => gc_stale threshold kv.2 = true) (map_range (states t))).*1 <->
  time_Before (last_time h) threshold = true.
Proof.
  intros HR Hin. destruct (tr_states _ _ HR _ _ Hin) as (s & Hs & Hr).
  rewrite <- (last_time_stale _ _ _ threshold Hr), list_elem_of_fmap. split.
  - intros ([ip' s'] & -> & [Hst Hin']%list_elem_of_filter). simpl in *.
    apply elem_of_map_range in Hin'. congruence.
  - intros Hst. exists (ip, s). split; [done|]. apply list_elem_of_filter.
    split; [done|]. by apply elem_of_map_range.
Qed.

Lemma runGC_refines now t a : tracker_refines t a ->
  let '(t', deleted, remaining) := runGC now t in
  let a' := abs_gc (now - retention t) a in
  retention t <> int64_min -> in_int64 (retention t) ->
  tracker_refines t' a' /\
  deleted = (Z.of_nat (length a) - Z.of_nat (length a'))%Z /\
  remaining = Z.of_nat (length a').
Proof.
  intros HR. unfold runGC. set (th := time_Add now (wrap64 (- retention t))).
  pose proof (gc_loop_spec th (map_range (states t)) t 0) as HG.
  destruct (foldl _ _ _) as [t' d'].
  intros Hm1 Hm2.
  assert (Hth : th = (now - retention t)%Z).
  { unfold th, time_Add. rewrite wrap64_id; [lia|].
    unfold in_int64, int64_min, int64_max in *. lia. }
  rewrite <- Hth. clearbody th. clear Hth.
  set (dead := (filter _ (map_range (states t))).*1) in HG.
  destruct HG as (Hmx & Hrw & Hret & Hd & Hlru & Hst).
  assert (Hf : filter (fun x => x ∉ dead) a.*1 = (abs_gc th a).*1).
  { unfold abs_gc. assert (Hsub : forall x, x ∈ a -> x ∈ a) by done. revert Hsub.
    generalize a at 1 3 4 as l. induction l as [|[ip h] l IH]; intros Hsub; [done|].
    rewrite fmap_cons, !filter_cons. cbn [fst snd].
    pose proof (gc_dead t a th ip h HR (Hsub _ ltac:(left))) as Hdd. fold dead in Hdd.
    assert (IH' := IH ltac:(intros x Hx; apply Hsub; by right)).
    destruct (time_Before (last_time h) th).
    - rewrite decide_False by tauto. rewrite (decide_False (P := true = false)) by done. done.
    - rewrite decide_True by (intros ?%Hdd; done).
      rewrite (decide_True (P := false = false)) by done. rewrite fmap_cons. cbn [fst]. by f_equal. }
  assert (HR' : tracker_refines t' (abs_gc th a)).
  { split.
    - rewrite Hlru, (tr_lru _ _ HR). exact Hf.
    - rewrite <- Hf. apply NoDup_filter, HR.
    - rewrite Hmx. pose proof (tr_bound _ _ HR). unfold abs_gc.
      pose proof (length_filter (fun kh => time_Before (last_time kh.2) th = false) a). lia.
    - intros ip Hi. rewrite Hst in Hi. destruct (decide _) as [|Hnd]; [by destruct Hi|].
      rewrite <- Hf. apply list_elem_of_filter. split; [done|]. by apply (tr_dom _ _ HR).
    - intros ip h [Hb Hin]%list_elem_of_filter. destruct (tr_states _ _ HR _ _ Hin) as (s & Hs & Hr).
      exists s. split; [|done]. rewrite Hst, decide_False; [done|].
      intros Hdd%(gc_dead t a th ip h HR Hin). simpl in Hb. congruence. }
  split; [done|]. unfold Len. rewrite (refines_len _ _ HR'). split; [|done].
  rewrite Hd. pose proof (length_complement a.*1 dead) as Hc.
  rewrite Hf, !length_fmap in Hc. rewrite <- Hc; [lia|apply HR| |].
  - unfold dead. eapply sublist_NoDup; [apply (NoDup_map_range (states t))|].
    apply fmap_sublist, sublist_filter.
  - intros ip [[ip' s'] [-> [_ Hin]%list_elem_of_filter]]%list_elem_of_fmap.
    apply (tr_dom _ _ HR). apply elem_of_map_range in Hin. by exists s'.
Qed.

(** ** Executions

    What the goroutines of the program do to a tracker, in any order. *)

Inductive tracker_op :=
  | OpUpdate (e : LogEntry)
  | OpGC (now : Time)
  | OpReconfigure (cfg : TrackerConfig)
  | OpRecentPaths (ip : string)
  | OpSetScore (ip : string) (z : Z) (at_ : Time).

Definition exec_op (t : Tracker) (o : tracker_op) : Tracker :=
  match o with
  | OpUpdate e => snd (Update e t)
  | OpGC now => fst (fst (runGC now t))
  | OpReconfigure cfg => Reconfigure cfg t
  | OpRecentPaths ip =>
      match GetState t ip with
      | Some st => write_state ip (snd (IPState_RecentPaths st)) t
      | None => t
      end
  | OpSetScore ip z at_ =>
      match GetState t ip with
      | Some st => write_state ip (IPState_SetScore z at_ st) t
      | None => t
      end
  end.

(** The abstract list only needs the current limits. *)
Definition abs_op (maxn : Z) (acc : abs_state * Duration) (o : tracker_op)
  : abs_state * Duration :=
  let '(a, ret) := acc in
  match o with
  | OpUpdate e => (abs_update maxn e a, ret)
  | OpGC now => (abs_gc (now - ret) a, ret)
  | OpReconfigure cfg => (a, tc_ObservationWindow cfg)
  | _ => (a, ret)
  end.

Definition cfg_ok (cfg : TrackerConfig) : Prop :=
  (int64_min < tc_ObservationWindow cfg <= int64_max)%Z.

Definition op_ok (o : tracker_op) : Prop :=
  match o with OpReconfigure cfg => cfg_ok cfg | _ => True end.

Lemma write_refines t a ip f s : tracker_refines t a -> states t !! ip = Some s ->
  (forall h, state_refines ip h s -> state_refines ip h (f s)) ->
  tracker_refines (write_state ip (f s) t) a.
Proof.
  intros [Hl Hn Hb Hd Hs] Hip Hf. split; simpl; try done.
  - intros ip' Hi. apply Hd. by rewrite lookup_alter_is_Some in Hi.
  - intros ip' h Hin. destruct (Hs _ _ Hin) as (s' & Hs' & Hr').
    destruct (decide (ip' = ip)) as [->|Hne].
    + rewrite lookup_alter_eq, Hs'. eexists. split; [done|]. apply Hf. congruence.
    + rewrite lookup_alter_ne by done. by exists s'.
Qed.

Lemma RecentPaths_refines ip h s :
  state_refines ip h s -> state_refines ip h (snd (IPState_RecentPaths s)).
Proof.
  intros [H1 H2 H3 H4 H5 H6 H7]. destruct (RecentPaths_contents s H6) as (_ & Hw & Hc).
  split; rewrite ?Hc; try done; unfold IPState_RecentPaths; by destruct (pathDirty s).
Qed.

Lemma exec_op_refines t a o : tracker_refines t a ->
  (int64_min < retention t <= int64_max)%Z -> op_ok o ->
  let '(a', ret') := abs_op (maxIPs t) (a, retention t) o in
  tracker_refines (exec_op t o) a' /\ maxIPs (exec_op t o) = maxIPs t /\
  retention (exec_op t o) = ret' /\ (int64_min < ret' <= int64_max)%Z.
Proof.
  intros HR Hret Ho. destruct o as [e|now|cfg|ip|ip z at_]; simpl.
  - split; [by apply Update_refines|]. unfold Update, evictLRULocked.
    by repeat case_match_goal.
  - pose proof (runGC_refines now t a HR) as HG. unfold runGC in *.
    pose proof (gc_loop_spec (time_Add now (wrap64 (- retention t))) (map_range (states t)) t 0) as HL.
    destruct (foldl _ _ _) as [t' d']. simpl in *. destruct HL as (H1 & _ & H3 & _).
    rewrite H1, H3. split; [|done]. apply HG; unfold in_int64; lia.
  - split; [|done]. destruct HR. by split.
  - unfold GetState. destruct (states t !! ip) as [s|] eqn:E; [|done]. split; [|done].
    apply (write_refines t a ip (fun s => snd (IPState_RecentPaths s)) s HR E).
    intros h. apply RecentPaths_refines.
  - unfold GetState. destruct (states t !! ip) as [s|] eqn:E; [|done]. split; [|done].
    apply (write_refines t a ip (IPState_SetScore z at_) s HR E).
    intros h [? ? ? ? ? Hr ?]. split; try done; exact Hr.
Qed.

Lemma exec_refines cfg ops : cfg_ok cfg -> Forall op_ok ops ->
  tracker_refines (foldl exec_op (NewTracker cfg) ops)
    (fst (foldl (abs_op (tc_MaxTrackedIPs cfg)) ([], tc_ObservationWindow cfg) ops)) .
Proof.
  intros Hc Hok.
  assert (H0 : tracker_refines (NewTracker cfg) []) by apply new_refines.
  change (tc_MaxTrackedIPs cfg) with (maxIPs (NewTracker cfg)).
  assert (Hr0 : retention (NewTracker cfg) = tc_ObservationWindow cfg) by done.
  unfold cfg_ok in Hc. rewrite <- Hr0 in Hc |- *. clear Hr0.
  generalize dependent (NewTracker cfg). clear cfg. generalize (@nil (string * list LogEntry)).
  induction Hok as [|o ops Ho _ IH]; intros a t Hret HR; [done|].
  cbn [foldl]. pose proof (exec_op_refines t a o HR Hret Ho) as HS.
  destruct (abs_op (maxIPs t) (a, retention t) o) as [a' ret'].
  destruct HS as (HR' & Hm & <- & Hret'). rewrite <- Hm. by apply IH.
Qed.
End executions.

(** ** The sliding window

    With requests in order of time, the two counters are the exact numbers of
    requests in the current and in the previous window. *)

Definition in_window (lo hi t : Z) : bool := ((lo <=? t) && (t <? hi))%Z.
Definition count_in (lo hi : Z) (ts : list Time) : Z :=
  Z.of_nat (length (filter (fun t => in_window lo hi t = true) ts)).

Lemma count_in_snoc lo hi ts t :
  count_in lo hi (ts ++ [t]) = (count_in lo hi ts + if in_window lo hi t then 1 else 0)%Z.
Proof.
  unfold count_in. rewrite filter_app, filter_cons, length_app.
  destruct (in_window lo hi t);
    [rewrite decide_True by done|rewrite decide_False by done]; simpl; lia.
Qed.

Lemma count_in_0 lo hi ts : Forall (fun t => t < lo \/ hi <= t)%Z ts -> count_in lo hi ts = 0%Z.
Proof.
  intros H. unfold count_in. rewrite filter_none; [done|].
  eapply Forall_impl; [exact H|]. unfold in_window. intros t Ht.
  destruct (Z.leb_spec lo t), (Z.ltb_spec t hi); simpl; try done; lia.
Qed.

Lemma count_in_le lo hi ts : (0 <= count_in lo hi ts <= Z.of_nat (length ts))%Z.
Proof.
  unfold count_in. pose proof (length_filter (fun t => in_window lo hi t = true) ts). lia.
Qed.

(** The counters of [s] describe the request times [ts]. *)
Record rate_exact (w : Duration) (ts : list Time) (s : IPState) : Prop := {
  re_pos : (0 < rateWindowStart s)%Z;
  re_upper : Forall (fun t => t < rateWindowStart s + w)%Z ts;
  re_last : exists t, last ts = Some t /\ (rateWindowStart s <= t)%Z;
  re_curr : rateCurrCount s =
    count_in (rateWindowStart s) (rateWindowStart s + w) ts;
  re_prev : ratePrevCount s =
    count_in (rateWindowStart s - w) (rateWindowStart s) ts
}.

Definition window_ok (w : Duration) : Prop := (0 < w /\ 2 * w <= int64_max)%Z.

Lemma window_ok_wrap w : window_ok w -> wrap64 (2 * w) = (2 * w)%Z.
Proof. intros [? ?]. apply wrap64_id. unfold in_int64, int64_min, int64_max in *. lia. Qed.

Lemma rate_first w s t : (0 < t)%Z -> (0 < w)%Z ->
  rateWindowStart s = 0%Z -> ratePrevCount s = 0%Z ->
  rate_exact w [t] (updateRateLocked w s t).
Proof.
  intros Ht Hw Hz Hp. unfold updateRateLocked, time_IsZero. rewrite Hz. simpl.
  split; simpl; try done.
  - constructor; [lia|done].
  - exists t. split; [done|lia].
  - change [t] with ([] ++ [t]). rewrite count_in_snoc. unfold in_window.
    rewrite Z.leb_refl. by rewrite (proj2 (Z.ltb_lt t (t + w)) ltac:(lia)).
  - rewrite Hp, count_in_0; [done|]. constructor; [lia|done].
Qed.

Lemma rate_next w ts s t : window_ok w -> (Z.of_nat (length ts) < int64_max)%Z ->
  rate_exact w ts s -> Forall (fun t' => t' <= t)%Z ts ->
  rate_exact w (ts ++ [t]) (updateRateLocked w s t).
Proof.
  intros Hw Hlen [Hpos Hup (tl & Hl & Htl) Hc Hp] Hsorted.
  assert (Htlt : (tl <= t)%Z).
  { apply last_Some in Hl as [l' ->]. apply Forall_app in Hsorted as [_ Hs].
    by inversion Hs. }
  destruct Hw as [Hw0 Hw1] eqn:Hww. clear Hww.
  unfold updateRateLocked, time_IsZero. rewrite (proj2 (Z.eqb_neq _ 0)) by lia.
  rewrite window_ok_wrap by done. set (st := rateWindowStart s) in *.
  assert (Hs2 := time_Sub_ge t st (2 * w)). assert (Hs1 := time_Sub_ge t st w).
  unfold int64_min, int64_max in *.
  destruct (2 * w <=? time_Sub t st)%Z eqn:E2; b2p; [|destruct (w <=? time_Sub t st)%Z eqn:E1; b2p].
  - (* both windows stale *)
    assert (2 * w <= t - st)%Z by (apply Hs2; lia).
    split; simpl.
    + lia.
    + apply Forall_app. split; [|by constructor; [lia|]].
      eapply Forall_impl; [exact Hup|]. simpl. lia.
    + exists t. rewrite last_snoc. split; [done|lia].
    + rewrite count_in_snoc, count_in_0.
      * unfold in_window. rewrite Z.leb_refl, (proj2 (Z.ltb_lt t (t + w))) by lia. done.
      * eapply Forall_impl; [exact Hup|]. simpl. lia.
    + rewrite count_in_snoc, count_in_0.
      * unfold in_window. rewrite Z.ltb_irrefl, andb_false_r. done.
      * eapply Forall_impl; [exact Hup|]. simpl. lia.
  - (* shift by one window *)
    assert (w <= t - st)%Z by (apply Hs1; lia).
    assert (~ 2 * w <= t - st)%Z by (rewrite <- Hs2; lia).
    unfold time_Add. split; simpl.
    + lia.
    + apply Forall_app. split; [|by constructor; [lia|]].
      eapply Forall_impl; [exact Hup|]. simpl. lia.
    + exists t. rewrite last_snoc. split; [done|lia].
    + rewrite count_in_snoc, count_in_0.
      * unfold in_window. rewrite (proj2 (Z.leb_le (st + w) t)), (proj2 (Z.ltb_lt t (st + w + w))) by lia. done.
      * eapply Forall_impl; [exact Hup|]. simpl. lia.
    + rewrite count_in_snoc, Hc. replace (st + w - w)%Z with st by lia.
      unfold in_window. rewrite (proj2 (Z.ltb_ge t (st + w))) by lia. rewrite andb_false_r. lia.
  - (* same window *)
    assert (~ w <= t - st)%Z by (rewrite <- Hs1; lia).
    split; simpl; fold st.
    + lia.
    + apply Forall_app. split; [done|by constructor; [lia|]].
    + exists t. rewrite last_snoc. split; [done|lia].
    + rewrite count_in_snoc, Hc. pose proof (count_in_le st (st + w) ts).
      unfold in_window. rewrite (proj2 (Z.leb_le st t)), (proj2 (Z.ltb_lt t (st + w))) by lia.
      apply wrap64_id. unfold in_int64, int64_min, int64_max. simpl. lia.
    + rewrite count_in_snoc, Hp. unfold in_window. rewrite (proj2 (Z.ltb_ge t st)) by lia.
      rewrite andb_false_r. lia.
Qed.

(** ** Properties *)

Section properties.
Context `{MapRange}.

(** C1: Every execution of the tracker (updates, garbage collections, reloads,
    score writes and path reads in any order) refines the abstract recency
    list: the LRU list and the map hold the same IPs without duplicates, never
    more than max(1, max_tracked_ips) of them, and every state's counters,
    timestamps and path buffer are those of the IP's request history. *)
Theorem tracker_execution_refinement cfg ops :
  cfg_ok cfg -> Forall op_ok ops ->
  tracker_refines (foldl exec_op (NewTracker cfg) ops)
    (fst (foldl (abs_op (tc_MaxTrackedIPs cfg)) ([], tc_ObservationWindow cfg) ops)).
Proof. apply exec_refines. Qed.

(** In every reachable tracker, RecentPaths of a tracked IP returns the last
    64 requested paths of its history, oldest first, whether or not the cache
    was valid. *)
Theorem recent_paths_last64 cfg ops ip st :
  cfg_ok cfg -> Forall op_ok ops ->
  GetState (foldl exec_op (NewTracker cfg) ops) ip = Some st ->
  exists h,
    (ip, h) ∈ fst (foldl (abs_op (tc_MaxTrackedIPs cfg)) ([], tc_ObservationWindow cfg) ops) /\
    fst (RecentPaths st) = lastn 64 (le_Path <$> h).
Proof.
  intros Hc Ho Hst. pose proof (exec_refines cfg ops Hc Ho) as HR.
  assert (Hin : is_Some (states (foldl exec_op (NewTracker cfg) ops) !! ip)) by by exists st.
  apply (tr_dom _ _ HR), elem_of_fst in Hin as [h Hin]. exists h. split; [done|].
  destruct (tr_states _ _ HR _ _ Hin) as (s & Hs & Hr).
  unfold GetState in Hst. assert (st = s) as -> by congruence.
  destruct (RecentPaths_contents s (sr_ring _ _ _ Hr)) as [Hp _].
  cbn [RecentPaths IPState_view]. rewrite Hp. apply Hr.
Qed.

(** A garbage collection removes exactly the states whose last request is
    older than the retention, keeps every other state as it is, keeps the order
    of the LRU list, and reports the numbers removed and remaining. *)
Theorem gc_removes_exactly_stale now t a :
  tracker_refines t a -> (int64_min < retention t <= int64_max)%Z ->
  let '(t', deleted, remaining) := runGC now t in
  (forall ip, GetState t' ip =
     match GetState t ip with
     | Some st => if (LastSeen st <? now - retention t)%Z then None else Some st
     | None => None
     end) /\
  lru t' `sublist_of` lru t /\
  (deleted + remaining = Len t)%Z /\ remaining = Len t'.
Proof.
  intros HR Hret. pose proof (runGC_refines now t a HR) as HG. unfold runGC in *.
  assert (Hw : time_Add now (wrap64 (- retention t)) = (now - retention t)%Z).
  { unfold time_Add. rewrite wrap64_id; [lia|]. unfold in_int64, int64_min, int64_max in *. lia. }
  rewrite Hw in *. set (th := (now - retention t)%Z) in *.
  pose proof (gc_loop_spec th (map_range (states t)) t 0) as HL.
  destruct (foldl _ _ _) as [t' d'].
  destruct HG as (HR' & Hdel & Hrem); [lia|unfold in_int64; lia|].
  destruct HL as (_ & _ & _ & _ & Hlru & Hst). split; [|split; [|split; [|done]]].
  - intros ip. unfold GetState. rewrite Hst.
    destruct (states t !! ip) as [st|] eqn:E; [|by destruct (decide _)].
    assert (Hiff : ip ∈ (filter (fun kv => gc_stale th kv.2 = true) (map_range (states t))).*1
              <-> gc_stale th st = true).
    { rewrite list_elem_of_fmap. split.
      - intros ([ip' s'] & -> & [Hx Hin]%list_elem_of_filter).
        apply elem_of_map_range in Hin. simpl in *. congruence.
      - intros Hx. exists (ip, st). split; [done|]. apply list_elem_of_filter.
        split; [done|]. by apply elem_of_map_range. }
    unfold gc_stale, time_Before in Hiff. destruct (LastSeen st <? th)%Z.
    + rewrite decide_True by tauto. done.
    + rewrite decide_False; [done|]. intros ?%Hiff. done.
  - rewrite Hlru. apply sublist_filter.
  - unfold Len in *. rewrite (refines_len _ _ HR). lia.
Qed.
End properties.

(** On a full tracker, a request from an untracked IP evicts exactly the IP
    whose last request is the oldest (the back of the LRU list): the new IP is
    tracked at the front, every other state is unchanged and the number of
    tracked IPs stays the same. *)
Theorem update_evicts_lru t a e old :
  tracker_refines t a -> Has t (le_RealIP e) = false ->
  (maxIPs t <= Len t)%Z -> last (lru t) = Some old ->
  let t' := snd (Update e t) in
  Has t' (le_RealIP e) = true /\ Has t' old = false /\ Len t' = Len t /\
  (forall ip, ip <> old -> ip <> le_RealIP e -> GetState t' ip = GetState t ip) /\
  lru t' = le_RealIP e :: take (length (lru t) - 1) (lru t).
Proof.
  intros HR Hnew Hfull Hlast. cbn zeta.
  pose proof (proj1 (Update_refines t a e HR)) as HR'. revert HR'.
  unfold Update, Has, GetState in *. destruct (states t !! le_RealIP e) as [|] eqn:E; [done|].
  rewrite (proj2 (Z.leb_le _ _) Hfull). unfold evictLRULocked. rewrite Hlast. simpl.
  intros HR'. pose proof (lru_last_tracked t a old HR Hlast) as Hold.
  assert (Hne : le_RealIP e <> old) by (intros <-; rewrite E in Hold; by destruct Hold).
  split; [by rewrite lookup_insert_eq|]. split; [by rewrite lookup_insert_ne, lookup_delete_eq|].
  split; [|split].
  - unfold Len. simpl. rewrite map_size_insert_None by (by rewrite lookup_delete_ne).
    rewrite map_size_delete_Some by done. destruct Hold as [s Hs].
    assert (size (states t) <> 0) by (apply (map_size_ne_0_lookup_2 _ old); by rewrite Hs). lia.
  - intros ip H1 H2. by rewrite lookup_insert_ne, lookup_delete_ne.
  - f_equal. apply take_pred_filter; [|done]. rewrite (tr_lru _ _ HR). apply HR.
Qed.

(** For requests in order of time, the two rate counters of an IP are the
    exact numbers of its requests in the current and in the previous window,
    and the last request lies in the current window. *)
Theorem rate_counters_exact w ip t ts :
  window_ok w -> (0 < t)%Z -> StronglySorted Z.le (t :: ts) ->
  (Z.of_nat (length (t :: ts)) <= int64_max)%Z ->
  rate_exact w (t :: ts) (foldl (updateRateLocked w) (newIPState ip t) (t :: ts)).
Proof.
  intros Hw Ht Hs Hlen. cbn [foldl].
  assert (H0 : rate_exact w [t] (updateRateLocked w (newIPState ip t) t)).
  { apply rate_first; try done. apply Hw. }
  revert H0. generalize (updateRateLocked w (newIPState ip t) t) as s.
  change (t :: ts) with ([t] ++ ts) in *. generalize dependent [t].
  induction ts as [|x ts IH]; intros l Hs Hlen s Hre; [by rewrite app_nil_r|].
  cbn [foldl]. change (x :: ts) with ([x] ++ ts) in *. rewrite app_assoc in Hs, Hlen |- *.
  apply IH; [done|done|]. apply rate_next; [done| |done|].
  - rewrite !length_app in Hlen. simpl in Hlen. lia.
  - rewrite <- app_assoc in Hs. apply Forall_forall. intros y Hy.
    eapply StronglySorted_app_1_elem_of; [exact Hs|done|]. by left.
Qed.

(** ** Witnesses *)

Definition ex_cfg : TrackerConfig := mkTrackerConfig 2 (60 * second) (5 * minute).

Definition ex_entry (ip path : string) (t : Time) (status : Z) : LogEntry :=
  mkLogEntry ip EmptyString t "GET" path path EmptyString "HTTP/1.1" status 100
    EmptyString "curl/8.0" ip EmptyString.

Definition ex_ops : list tracker_op :=
  [OpUpdate (ex_entry "1.1.1.1" "/a" 1000 200);
   OpUpdate (ex_entry "2.2.2.2" "/b" 2000 404);
   OpRecentPaths "2.2.2.2"; OpSetScore "1.1.1.1" 7 2500;
   OpUpdate (ex_entry "2.2.2.2" "/c" 3000 404);
   OpReconfigure ex_cfg].

Definition ex_tracker : Tracker :=
  foldl (exec_op (H := map_range_canonical)) (NewTracker ex_cfg) ex_ops.

Definition ex_abs : abs_state :=
  fst (foldl (abs_op 2) ([], (5 * minute)%Z) ex_ops).

Lemma ex_cfg_ok : cfg_ok ex_cfg.
Proof. unfold cfg_ok, int64_min, int64_max, ex_cfg, minute, second. simpl. lia. Qed.

Lemma ex_ops_ok : Forall op_ok ex_ops.
Proof. repeat constructor; apply ex_cfg_ok. Qed.

Lemma ex_tracker_refines : tracker_refines ex_tracker ex_abs.
Proof. exact (exec_refines (H := map_range_canonical) ex_cfg ex_ops ex_cfg_ok ex_ops_ok). Qed.

Lemma tracker_execution_refinement_witness :
  tracker_refines ex_tracker ex_abs /\ lru ex_tracker = ["2.2.2.2"; "1.1.1.1"].
Proof.
  split; [|vm_compute; reflexivity].
  exact (tracker_execution_refinement (H := map_range_canonical) ex_cfg ex_ops ex_cfg_ok ex_ops_ok).
Defined.

Lemma recent_paths_last64_witness : exists st h,
  GetState ex_tracker "2.2.2.2" = Some st /\ ("2.2.2.2", h) ∈ ex_abs /\
  fst (RecentPaths st) = lastn 64 (le_Path <$> h).
Proof.
  destruct (GetState ex_tracker "2.2.2.2") as [st|] eqn:E; [|vm_compute in E; discriminate E].
  destruct (recent_paths_last64 (H := map_range_canonical) ex_cfg ex_ops "2.2.2.2" st
              ex_cfg_ok ex_ops_ok E) as (h & Hin & Hp).
  exists st, h. split; [reflexivity|]. split; [exact Hin|exact Hp].
Defined.

Lemma gc_removes_exactly_stale_witness :
  let '(t', deleted, remaining) :=
    runGC (H := map_range_canonical) (5 * minute + 2000) ex_tracker in
  Has ex_tracker "1.1.1.1" = true /\ GetState t' "1.1.1.1" = None /\
  (deleted + remaining = Len ex_tracker)%Z.
Proof.
  pose proof (gc_removes_exactly_stale (H := map_range_canonical) (5 * minute + 2000)
                ex_tracker ex_abs ex_tracker_refines) as HG.
  destruct (runGC _ _) as [[t' d] r]. destruct HG as (Hs & _ & Hd & _).
  { split; vm_compute; [reflexivity|discriminate]. }
  split; [vm_compute; reflexivity|]. split; [|exact Hd].
  rewrite Hs. vm_compute. reflexivity.
Defined.

Lemma update_evicts_lru_witness :
  let t' := snd (Update (ex_entry "3.3.3.3" "/d" 4000 200) ex_tracker) in
  Has t' "3.3.3.3" = true /\ Has t' "1.1.1.1" = false /\ Len t' = 2%Z.
Proof.
  destruct (update_evicts_lru ex_tracker ex_abs (ex_entry "3.3.3.3" "/d" 4000 200) "1.1.1.1"
              ex_tracker_refines) as (H1 & H2 & H3 & _).
  - vm_compute. reflexivity.
  - vm_compute. discriminate.
  - vm_compute. reflexivity.
  - cbn zeta. split; [exact H1|]. split; [exact H2|]. rewrite H3. vm_compute. reflexivity.
Defined.

Lemma rate_counters_exact_witness :
  rate_exact 10 [1; 5; 12; 13]%Z
    (foldl (updateRateLocked 10) (newIPState "1.1.1.1" 1) [1; 5; 12; 13]%Z) /\
  ratePrevCount (foldl (updateRateLocked 10) (newIPState "1.1.1.1" 1) [1; 5; 12; 13]%Z) = 2%Z.
Proof.
  split; [|vm_compute; reflexivity]. apply rate_counters_exact.
  - split; vm_compute; [reflexivity|discriminate].
  - vm_compute. reflexivity.
  - repeat constructor; vm_compute; discriminate.
  - vm_compute. discriminate.
Defined.
