(* ===== verification/Scorer.v ===== *)
(** * The scorer (internal/core/scorer/scorer.go)

    Linear decay of the accumulated score, aggregation of the detectors'
    results and the verdict.  Everything is stated over any implementation of
    [ScoreAccess]. *)

From Stdlib Require Import ZArith Lia Floats.SpecFloat.
From stdpp Require Import base numbers option list strings gmap.
From S2P Require Import Prelude GoFloat GoStrings Model Tracker.

Definition applyDecay (current : Z) (lastUpdate : Time) (window : Duration) (now : Time) : Z :=
  if ((current <=? 0)%Z || time_IsZero lastUpdate || (window <=? 0)%Z)%bool then 0%Z
  else
    let elapsed := time_Sub now lastUpdate in
    if (window <=? elapsed)%Z then 0%Z
    else
      let fraction := f_div (f_of_Z elapsed) (f_of_Z window) in
      let decayed := f_mul (f_of_Z current) (f_sub f_one fraction) in
      f_to_int decayed.

Definition level_none : string := EmptyString.
Definition level_warn : string := "WARN".
Definition level_threat : string := "THREAT".

Section scorer.
Context {T : Type} `{!ScoreAccess T}.

Record Scorer := mkScorer {
  alertThreshold : Z;
  banThreshold : Z;
  window : Duration;
  detectors : list (Detector T)
}.

(** [scoring.alert_threshold], [scoring.ban_threshold], [scoring.observation_window]. *)
Definition NewScorer (alert ban : Z) (obs : Duration) (ds : list (Detector T)) : Scorer :=
  mkScorer alert ban obs ds.

Definition levelFor (s : Scorer) (score : Z) : string :=
  if (banThreshold s <=? score)%Z then level_threat
  else if (alertThreshold s <=? score)%Z then level_warn
  else level_none.

(** A nil exempt set exempts nothing. *)
Definition exempted (exemptSet : option (gset string)) (name : string) : bool :=
  match exemptSet with
  | Some ex => bool_decide (name ∈ ex)
  | None => false
  end.

(** Accumulator of the detector loop: delta, modulesHit, reasons, view. *)
Record LoopAcc := mkLoopAcc {
  la_delta : Z;
  la_modules : list string;
  la_reasons : list string;
  la_view : T
}.

Definition detect_step (clk : string -> Time) (entry : LogEntry) (exemptSet : option (gset string))
    (acc : LoopAcc) (d : Detector T) : LoopAcc :=
  if exempted exemptSet (d_Name d) then acc
  else
    let '(res, sv') := d_Detect d (clk (d_Name d)) (la_view acc) entry in
    if (dr_Score res <=? 0)%Z then
      mkLoopAcc (la_delta acc) (la_modules acc) (la_reasons acc) sv'
    else
      mkLoopAcc (wrap64 (la_delta acc + dr_Score res))
        (la_modules acc ++ [dr_Module res])
        (if String.eqb (dr_Reason res) EmptyString then la_reasons acc
         else la_reasons acc ++ [(dr_Module res +:+ ":" +:+ dr_Reason res)])
        sv'.

Record Verdict := mkVerdict {
  v_level : string;
  v_score : Z;
  v_modules : list string;
  v_reason : string
}.

(** [now] is the one reading of the clock for decay and store; a detector that reads
    the clock itself gets its own reading, [clk] of its name. *)
Definition Evaluate (now : Time) (clk : string -> Time) (s : Scorer) (sv : T) (entry : LogEntry)
    (exemptSet : option (gset string)) : Verdict * T :=
  let existing := GetScore sv in
  let lastUpdate := GetScoreUpdatedAt sv in
  let decayed := applyDecay existing lastUpdate (window s) now in
  let acc := foldl (detect_step clk entry exemptSet) (mkLoopAcc 0 [] [] sv) (detectors s) in
  let newScore := wrap64 (decayed + la_delta acc) in
  let sv' := SetScore newScore now (la_view acc) in
  (mkVerdict (levelFor s newScore) newScore (la_modules acc) (Join (la_reasons acc) ","), sv').

(** ** Reference definition of the detector loop

    First collect the results of the detectors that are not exempt, in order;
    then keep the positive ones. *)

Fixpoint collect (clk : string -> Time) (entry : LogEntry) (ds : list (Detector T)) (sv : T)
  : list DetectResult * T :=
  match ds with
  | [] => ([], sv)
  | d :: ds' =>
      let '(r, sv1) := d_Detect d (clk (d_Name d)) sv entry in
      let '(rs, sv2) := collect clk entry ds' sv1 in
      (r :: rs, sv2)
  end.

Definition hits (rs : list DetectResult) : list DetectResult :=
  filter (fun r => (0 < dr_Score r)%Z) rs.

Definition hit_sum (rs : list DetectResult) : Z :=
  foldr (fun r acc => (dr_Score r + acc)%Z) 0%Z rs.

Definition hit_reasons (rs : list DetectResult) : list string :=
  (fun r => dr_Module r +:+ ":" +:+ dr_Reason r) <$>
    filter (fun r => dr_Reason r <> EmptyString) rs.

Definition active (exemptSet : option (gset string)) (ds : list (Detector T)) : list (Detector T) :=
  filter (fun d => exempted exemptSet (d_Name d) = false) ds.

Lemma detect_loop_spec clk entry ex ds acc :
  foldl (detect_step clk entry ex) acc ds =
  let '(rs, sv') := collect clk entry (active ex ds) (la_view acc) in
  let hs := hits rs in
  mkLoopAcc (foldl (fun z r => wrap64 (z + dr_Score r)) (la_delta acc) hs)
    (la_modules acc ++ (dr_Module <$> hs))
    (la_reasons acc ++ hit_reasons hs) sv'.
Proof.
  revert acc. induction ds as [|d ds IH]; intros acc; cbn [foldl].
  - destruct acc. simpl. by rewrite !app_nil_r.
  - rewrite IH. unfold active. rewrite filter_cons. unfold detect_step.
    destruct (exempted ex (d_Name d)).
    + by rewrite decide_False by done.
    + rewrite decide_True by done. cbn [collect].
      destruct (d_Detect d (clk (d_Name d)) (la_view acc) entry) as [r sv1].
      unfold hits. destruct (Z.leb_spec (dr_Score r) 0); cbn [la_view la_delta la_modules la_reasons];
        destruct (collect clk entry _ sv1) as [rs sv2];
        [rewrite filter_cons_False by lia; done|].
      rewrite filter_cons_True by lia. cbn [foldl]. rewrite fmap_cons.
      unfold hit_reasons. rewrite filter_cons.
      destruct (String.eqb_spec (dr_Reason r) EmptyString);
        [rewrite decide_False by tauto|rewrite decide_True by done];
        by rewrite <- ?app_assoc.
Qed.

Lemma hit_sum_nonneg rs : Forall (fun r => (0 < dr_Score r)%Z) rs -> (0 <= hit_sum rs)%Z.
Proof. induction 1; simpl in *; lia. Qed.

Lemma wrap_sum_exact rs z :
  Forall (fun r => (0 < dr_Score r)%Z) rs -> (0 <= z)%Z ->
  (z + hit_sum rs <= int64_max)%Z ->
  foldl (fun z r => wrap64 (z + dr_Score r)) z rs = (z + hit_sum rs)%Z.
Proof.
  intros Hp. revert z. induction Hp as [|r rs Hr Hrs IH]; intros z Hz Hle; simpl in *; [lia|].
  pose proof (hit_sum_nonneg rs Hrs).
  rewrite wrap64_id by (unfold in_int64, int64_min, int64_max in *; lia).
  rewrite IH; lia.
Qed.

Lemma hits_positive rs : Forall (fun r => (0 < dr_Score r)%Z) (hits rs).
Proof. apply Forall_forall. intros r. unfold hits. rewrite list_elem_of_filter. tauto. Qed.

Lemma collect_quiet clk entry ds sv :
  Forall (fun d : Detector T => forall sv', (dr_Score (fst (d_Detect d (clk (d_Name d)) sv' entry)) <= 0)%Z) ds ->
  hits (fst (collect clk entry ds sv)) = [].
Proof.
  intros Hq. revert sv. induction Hq as [|d ds Hd _ IH]; intros sv; [done|]. cbn [collect].
  specialize (Hd sv). destruct (d_Detect d (clk (d_Name d)) sv entry) as [r sv1]. cbn [fst] in Hd.
  specialize (IH sv1). destruct (collect clk entry ds sv1) as [rs sv2]. cbn [fst] in *.
  unfold hits. by rewrite filter_cons_False by lia.
Qed.

End scorer.
Arguments Scorer T : clear implicits.
Arguments LoopAcc T : clear implicits.

(** ** Decay *)

Lemma fraction_le_one elapsed w : (0 <= elapsed < w)%Z -> (w < 2 ^ 53)%Z ->
  let q := f_div (f_of_Z elapsed) (f_of_Z w) in nonneg q /\ (fval q <= sc 1 0)%Z.
Proof.
  intros He Hw. destruct (f_of_Z_exact w) as (m2 & e2 & E2 & Hm2 & He2 & Hv2); [lia|].
  rewrite E2. destruct (Z.eq_dec elapsed 0%Z) as [->|Hne].
  - cbn zeta. change (f_of_Z 0%Z) with (S754_zero false). simpl. split; [done|].
    unfold sc. apply Z.mul_nonneg_nonneg; lia.
  - destruct (f_of_Z_exact elapsed) as (m1 & e1 & E1 & Hm1 & He1 & Hv1); [lia|].
    rewrite E1. apply div_le_one; try done. rewrite Hv1, Hv2. apply sc_le; lia.
Qed.

Lemma applyDecay_bounds current lastUpdate w now :
  (current < 2 ^ 53)%Z -> (w < 2 ^ 53)%Z -> (lastUpdate <= now)%Z ->
  (0 <= applyDecay current lastUpdate w now <= Z.max 0 current)%Z.
Proof.
  intros Hc Hw Ht. unfold applyDecay.
  destruct (_ || _)%bool eqn:E; [lia|]. b2p.
  destruct (w <=? time_Sub now lastUpdate)%Z eqn:Ee; [lia|]. b2p.
  assert (He : (0 <= time_Sub now lastUpdate)%Z).
  { unfold time_Sub, int64_min, int64_max. lia. }
  destruct (fraction_le_one (time_Sub now lastUpdate) w) as [Hq1 Hq2]; [lia|done|].
  destruct (one_minus_le _ Hq1 Hq2) as [Hs1 Hs2].
  destruct (mul_frac_le current _ ltac:(lia) Hs1 Hs2) as [Hm1 Hm2].
  pose proof (f_to_int_le _ current ltac:(lia) Hm1 Hm2). lia.
Qed.

(** C34: Decay never yields a negative score and never increases it, in the IEEE
    double arithmetic the code uses, as long as the clock has not gone back
    since the last update (scores and windows below 2^53). *)
Theorem decay_bounds current lastUpdate w now :
  (current < 2 ^ 53)%Z -> (w < 2 ^ 53)%Z -> (lastUpdate <= now)%Z ->
  (0 <= applyDecay current lastUpdate w now <= Z.max 0 current)%Z.
Proof. apply applyDecay_bounds. Qed.

(** The fixed points of the decay: at the moment of the last update the
    score is unchanged; once a full window has passed (or without a positive
    score, a first update or a positive window) it is zero. *)
Theorem decay_endpoints current lastUpdate w now :
  (0 < current < 2 ^ 53)%Z -> lastUpdate <> 0%Z -> (0 < w < 2 ^ 53)%Z ->
  applyDecay current lastUpdate w lastUpdate = current /\
  ((w <= now - lastUpdate)%Z -> applyDecay current lastUpdate w now = 0%Z).
Proof.
  intros Hc Hl Hw. unfold applyDecay, time_IsZero.
  rewrite (proj2 (Z.leb_gt current 0%Z)), (proj2 (Z.eqb_neq lastUpdate 0%Z)), (proj2 (Z.leb_gt w 0%Z)) by lia.
  cbn [orb]. split.
  - assert (time_Sub lastUpdate lastUpdate = 0%Z) as ->.
    { rewrite time_Sub_exact; unfold in_int64, int64_min, int64_max; lia. }
    rewrite (proj2 (Z.leb_gt w 0%Z)) by lia. cbv zeta.
    destruct (f_of_Z_exact w) as (m & e & -> & _); [lia|].
    change (f_sub f_one (f_div (f_of_Z 0%Z) (S754_finite false m e))) with f_one.
    rewrite mul_one by lia. apply f_to_int_of_Z. lia.
  - intros Hd. rewrite (proj2 (Z.leb_le w _)); [done|].
    apply time_Sub_ge; [unfold int64_min, int64_max|]; lia.
Qed.

(** ** Evaluate *)

Section properties.
Context {T : Type} `{!ScoreAccess T} `{!ScoreAccessLaws T}.

(** C5: Evaluate adds to the decayed score exactly the positive results of the
    detectors that are not exempt, lists their modules and their non-empty
    reasons in detector order, stores the new score with the same clock reading
    used for the decay, and its level is THREAT from the ban threshold on, WARN
    from the alert threshold to below the ban threshold, and empty below both;
    for a decayed score that is not negative and a sum that fits an int. *)
Theorem evaluate_functional now clk (s : Scorer T) sv entry ex rs sv1 :
  collect clk entry (active ex (detectors s)) sv = (rs, sv1) ->
  let decayed := applyDecay (GetScore sv) (GetScoreUpdatedAt sv) (window s) now in
  (0 <= decayed)%Z -> (decayed + hit_sum (hits rs) <= int64_max)%Z ->
  let '(v, sv') := Evaluate now clk s sv entry ex in
  v_score v = (decayed + hit_sum (hits rs))%Z /\
  v_modules v = dr_Module <$> hits rs /\
  v_reason v = Join (hit_reasons (hits rs)) "," /\
  GetScore sv' = v_score v /\ GetScoreUpdatedAt sv' = now /\ GetIP sv' = GetIP sv1 /\
  (v_level v = "THREAT"%string <-> (banThreshold s <= v_score v)%Z) /\
  (v_level v = "WARN"%string <-> (alertThreshold s <= v_score v < banThreshold s)%Z) /\
  (v_level v = EmptyString <-> (v_score v < alertThreshold s)%Z /\ (v_score v < banThreshold s)%Z).
Proof.
  intros Hc decayed Hd Hs. unfold Evaluate. rewrite detect_loop_spec. cbn [la_view]. rewrite Hc.
  cbn [la_delta la_modules la_reasons la_view v_score v_modules v_reason v_level].
  rewrite wrap_sum_exact by (try apply hits_positive; lia). fold decayed.
  rewrite Z.add_0_l, wrap64_id by
    (pose proof (hit_sum_nonneg (hits rs) (hits_positive rs));
     unfold in_int64, int64_min, int64_max in *; lia).
  rewrite GetScore_SetScore, GetScoreUpdatedAt_SetScore, GetIP_SetScore.
  unfold levelFor. repeat (split; [done|]).
  split_and!; destruct (Z.leb_spec (banThreshold s) (decayed + hit_sum (hits rs)));
    try destruct (Z.leb_spec (alertThreshold s) (decayed + hit_sum (hits rs)));
    (split; [intros Hx; try discriminate Hx; lia|intros Hx; try lia; reflexivity]).
Qed.

(** Exempting detectors is the same as not configuring them: Evaluate with an
    exempt set equals Evaluate of the scorer whose detector list leaves the
    exempt names out. *)
Theorem evaluate_exempt_equiv now clk (s : Scorer T) sv entry ex :
  Evaluate now clk s sv entry ex =
  Evaluate now clk
    (NewScorer (alertThreshold s) (banThreshold s) (window s) (active ex (detectors s)))
    sv entry None.
Proof.
  unfold Evaluate, NewScorer. cbn [detectors window alertThreshold banThreshold levelFor].
  rewrite !detect_loop_spec. cbn [la_view].
  assert (active None (active ex (detectors s)) = active ex (detectors s)) as ->; [|reflexivity].
  unfold active at 1. apply filter_all, Forall_forall. done.
Qed.

(** A request on which no detector fires cannot raise the score or the
    verdict: the score written is between zero and the previous one. *)
Theorem evaluate_quiet_request now clk (s : Scorer T) sv entry ex :
  Forall (fun d => forall sv', (dr_Score (fst (d_Detect d (clk (d_Name d)) sv' entry)) <= 0)%Z) (detectors s) ->
  (0 <= GetScore sv < 2 ^ 53)%Z -> (window s < 2 ^ 53)%Z -> (GetScoreUpdatedAt sv <= now)%Z ->
  let '(v, sv') := Evaluate now clk s sv entry ex in
  (0 <= GetScore sv' <= GetScore sv)%Z /\ v_modules v = [] /\ v_reason v = EmptyString.
Proof.
  intros Hq Hs Hw Ht. unfold Evaluate. rewrite detect_loop_spec. cbn [la_view].
  assert (Hqa : Forall (fun d => forall sv', (dr_Score (fst (d_Detect d (clk (d_Name d)) sv' entry)) <= 0)%Z)
                  (active ex (detectors s))).
  { unfold active. apply Forall_forall. intros d Hd%list_elem_of_filter.
    apply (proj1 (Forall_forall _ _) Hq), Hd. }
  pose proof (collect_quiet clk entry _ sv Hqa) as Hh.
  destruct (collect _ _ _ _) as [rs sv1]. cbn [fst] in Hh. rewrite Hh.
  cbn [la_delta la_modules la_reasons la_view foldl].
  rewrite GetScore_SetScore, Z.add_0_r.
  pose proof (applyDecay_bounds (GetScore sv) (GetScoreUpdatedAt sv) (window s) now
                (proj2 Hs) Hw Ht) as Hb. rewrite Z.max_r in Hb by lia.
  rewrite wrap64_id by (unfold in_int64, int64_min, int64_max in *; lia).
  split; [lia|done].
Qed.
End properties.

(** ** Witnesses *)

Definition ex_fixed (name : string) (z : Z) : Detector IPState :=
  mkDetector name (fun _ sv _ => (mkDetectResult z name "hit", sv)).

Definition ex_scorer (ds : list (Detector IPState)) : Scorer IPState :=
  NewScorer 50 80 (5 * minute) ds.

Definition ex_sv : IPState := IPState_SetScore 40 1000 (newIPState "1.1.1.1" 1000).

Lemma decay_bounds_witness :
  (0 <= applyDecay 100 1000 (300 * second) (1000 + 100 * second) <= 100)%Z /\
  applyDecay 100 1000 (300 * second) (1000 + 150 * second) = 50%Z.
Proof.
  split; [|vm_compute; reflexivity].
  apply (decay_bounds 100 1000 (300 * second) (1000 + 100 * second)); vm_compute; congruence.
Defined.

Lemma decay_endpoints_witness : applyDecay 100 1000 (300 * second) 1000 = 100%Z.
Proof.
  apply (decay_endpoints 100 1000 (300 * second) 1000).
  - split; vm_compute; reflexivity.
  - discriminate.
  - split; vm_compute; reflexivity.
Defined.

Lemma evaluate_functional_witness :
  let s := ex_scorer [ex_fixed "a" 30; ex_fixed "b" 0; ex_fixed "c" 20] in
  let '(v, sv') := Evaluate 1000 (fun _ => 1001%Z) s ex_sv (ex_entry "1.1.1.1" "/" 1000 200) None in
  v_score v = 90%Z /\ v_modules v = ["a"; "c"] /\ v_level v = level_threat.
Proof.
  pose proof (evaluate_functional 1000 (fun _ => 1001%Z) (ex_scorer [ex_fixed "a" 30; ex_fixed "b" 0; ex_fixed "c" 20])
                ex_sv (ex_entry "1.1.1.1" "/" 1000 200) None _ _ eq_refl) as HE.
  cbn zeta in HE |- *.
  destruct (Evaluate _ _ _ _ _ _) as [v sv']. destruct HE as (H1 & H2 & _ & _ & _ & _ & H7 & _).
  - vm_compute. discriminate.
  - vm_compute. discriminate.
  - split; [rewrite H1; vm_compute; reflexivity|]. split; [rewrite H2; vm_compute; reflexivity|].
    apply H7. rewrite H1. vm_compute. discriminate.
Defined.

Lemma evaluate_quiet_request_witness :
  let '(v, sv') := Evaluate 2000 (fun _ => 2001%Z) (ex_scorer [ex_fixed "b" 0]) ex_sv
                     (ex_entry "1.1.1.1" "/" 1000 200) None in
  (0 <= GetScore sv' <= 40)%Z.
Proof.
  pose proof (evaluate_quiet_request 2000 (fun _ => 2001%Z) (ex_scorer [ex_fixed "b" 0]) ex_sv
                (ex_entry "1.1.1.1" "/" 1000 200) None) as HE.
  destruct (Evaluate _ _ _ _ _ _) as [v sv']. apply HE.
  - constructor; [|constructor]. intros sv0. vm_compute. discriminate.
  - split; vm_compute; [discriminate|reflexivity].
  - vm_compute. reflexivity.
  - vm_compute. discriminate.
Defined.
