(* ===== verification/Detectors.v ===== *)
(** * The detectors (pkg/detectorplugins)

    Factories and [Detect] methods of the rate, probe, bruteforce, noasset,
    overflow, badbot and useragent detectors; the crawler has its own file.
    The typed getters of the detector configuration belong to the core module
    and are parameters. *)

From Stdlib Require Import ZArith Lia Ascii Floats.SpecFloat.
From stdpp Require Import base numbers option list strings gmap.
From S2P Require Import Prelude GoFloat GoStrings Model Tracker Scorer.

(** ** Detector configuration (core module)

    [GetInt(cfg, key, default)] and its siblings. *)
Class DetectorParams := {
  DetectorConfig : Type;
  GetInt : DetectorConfig -> string -> Z -> Z;
  GetFloat64 : DetectorConfig -> string -> float64 -> float64;
  GetBool : DetectorConfig -> string -> bool -> bool;
  GetDuration : DetectorConfig -> string -> Duration -> Duration;
  GetStrings : DetectorConfig -> string -> list string -> list string
}.

(** [detector.Matcher], the view of the blocklist the badbot detector has:
    [MatchResult list value] is the matching pattern. *)
Record BlocklistMatcher := mkBlocklistMatcher {
  MatchResult : string -> string -> option string
}.

Definition noopMatcher : BlocklistMatcher := mkBlocklistMatcher (fun _ _ => None).

(** [fmt.Sprintf("%.0f", f)]: the nearest integer, ties to even. *)
Definition f_fmt0 (f : float64) : string :=
  match f with
  | S754_nan => "NaN"
  | S754_infinity s => if s then "-Inf" else "+Inf"
  | S754_zero s => if s then "-0" else "0"
  | S754_finite s m e =>
      let v := if (0 <=? e)%Z then (Z.pos m * 2 ^ e)%Z
               else let d := (2 ^ (- e))%Z in
                    let q := (Z.pos m / d)%Z in
                    let r2 := (2 * (Z.pos m mod d))%Z in
                    if (r2 <? d)%Z then q
                    else if (d <? r2)%Z then (q + 1)%Z
                    else if Z.even q then q else (q + 1)%Z in
      (if s then "-" else EmptyString) +:+ Itoa v
  end.

Section detectors.
Context {T : Type} `{!IPView T} `{!UnicodeLower}.

(** ** rate *)

Record rateDetector := mkRateDetector {
  rd_thresholdRPS : float64;
  rd_window : Duration;
  rd_score : Z
}.

Definition newRateFactory `{!DetectorParams} (cfg : DetectorConfig) : string + rateDetector :=
  let threshold := GetInt cfg "threshold" 100 in
  let window := GetDuration cfg "window" (60 * second) in
  let score := GetInt cfg "score" 25 in
  if (window <=? 0)%Z then inl "rate: window must be positive"
  else if (threshold <=? 0)%Z then inl "rate: threshold must be positive"
  else inr (mkRateDetector (f_div (f_of_Z threshold) (duration_Seconds window)) window score).

Definition rate_Detect (d : rateDetector) (now : Time) (sv : T) (_ : LogEntry)
  : DetectResult * T :=
  if f_leb (ApproxRate now sv (rd_window d)) (rd_thresholdRPS d) then (DetectResult_zero, sv)
  else (mkDetectResult (rd_score d) "rate" "rate:threshold_exceeded", sv).

(** ** probe *)

Record probeDetector := mkProbeDetector {
  pd_score : Z;
  pd_pathSet : gset string;
  pd_prefixes : list string
}.

Definition defaultProbePaths : list string := [
  "/.env"; "/.env.backup"; "/.env.local"; "/.env.production"; "/.env.staging";
  "/config.yml"; "/config.yaml"; "/config.json"; "/application.properties";
  "/settings.py"; "/local_settings.py"; "/database.yml"; "/database.yaml";
  "/web.config"; "/app.config";
  "/.git/config"; "/.git/HEAD"; "/.gitignore";
  "/.svn/entries"; "/.hg/"; "/.bzr/";
  "/.aws/credentials"; "/.docker/config.json";
  "/aws-exports.json"; "/.gcloud/credentials";
  "/wp-config.php"; "/wp-config.php.bak"; "/wp-config.php.old";
  "/wp-login.php"; "/xmlrpc.php"; "/wp-admin/";
  "/administrator/"; "/admin/"; "/phpmyadmin/"; "/pma/";
  "/joomla/"; "/drupal/"; "/typo3/";
  "/backup.zip"; "/backup.tar.gz"; "/backup.sql"; "/backup.sql.gz";
  "/db.dump"; "/database.sql"; "/dump.sql"; "/site.sql";
  "/server-status"; "/server-info";
  "/phpinfo.php"; "/info.php"; "/php.php";
  "/actuator/"; "/.well-known/"; "/docker-compose.yml"; "/Dockerfile";
  "/id_rsa"; "/id_dsa"; "/id_ecdsa"; "/id_ed25519";
  "/.ssh/"; "/.bash_history"; "/.bashrc"].

Definition probe_classify (acc : gset string * list string) (p : string)
  : gset string * list string :=
  if HasSuffix p "/" then (acc.1, acc.2 ++ [p]) else ({[p]} ∪ acc.1, acc.2).

Definition newProbeFactory `{!DetectorParams} (cfg : DetectorConfig) : probeDetector :=
  let score := GetInt cfg "score" 25 in
  let paths := GetStrings cfg "paths" defaultProbePaths in
  let '(pathSet, prefixes) := foldl probe_classify (∅, []) paths in
  mkProbeDetector score pathSet prefixes.

Definition probe_hit (d : probeDetector) (path : string) : DetectResult :=
  mkDetectResult (pd_score d) "probe" ("probe:" +:+ path).

Definition probe_Detect (d : probeDetector) (_ : Time) (sv : T) (entry : LogEntry)
  : DetectResult * T :=
  let path := le_Path entry in
  if bool_decide (path ∈ pd_pathSet d) then (probe_hit d path, sv)
  else if existsb (fun prefix => HasPrefix path prefix) (pd_prefixes d) then (probe_hit d path, sv)
  else (DetectResult_zero, sv).

(** ** bruteforce *)

Record bruteforceDetector := mkBruteforceDetector {
  bd_minRequests : Z;
  bd_ratioThreshold : float64;
  bd_score : Z
}.

Definition newBruteforceFactory `{!DetectorParams} (cfg : DetectorConfig) : bruteforceDetector :=
  mkBruteforceDetector (GetInt cfg "min_requests" 10)
    (GetFloat64 cfg "ratio_threshold" (f_div (f_of_Z 6) (f_of_Z 10)))
    (GetInt cfg "score" 30).

Definition bruteforce_Detect (d : bruteforceDetector) (_ : Time) (sv : T) (_ : LogEntry)
  : DetectResult * T :=
  let total := GetTotalRequests sv in
  if (total <? bd_minRequests d)%Z then (DetectResult_zero, sv)
  else
    let ratio := f_div (f_of_Z (GetRequests404 sv)) (f_of_Z total) in
    if f_ltb ratio (bd_ratioThreshold d) then (DetectResult_zero, sv)
    else (mkDetectResult (bd_score d) "bruteforce"
            ("bruteforce:404=" +:+ f_fmt0 (f_mul ratio (f_of_Z 100)) +:+ "%(" +:+
             Itoa (GetRequests404 sv) +:+ "/" +:+ Itoa total +:+ ")"), sv).

(** ** noasset *)

Definition defaultAssetExtensions : list string :=
  [".css"; ".js"; ".png"; ".jpg"; ".jpeg"; ".gif"; ".svg";
   ".woff"; ".woff2"; ".ttf"; ".ico"; ".webp"].

Record noAssetDetector := mkNoAssetDetector {
  nd_minPageRequests : Z;
  nd_assetRatioThreshold : float64;
  nd_score : Z;
  nd_assetExts : gset string
}.

Definition newNoAssetFactory `{!DetectorParams} (cfg : DetectorConfig) : noAssetDetector :=
  let minPageRequests := GetInt cfg "min_page_requests" 3 in
  let assetRatioThreshold := GetFloat64 cfg "asset_ratio_threshold" (f_div (f_of_Z 1) (f_of_Z 10)) in
  let score := GetInt cfg "score" 20 in
  let exts := GetStrings cfg "asset_extensions" defaultAssetExtensions in
  mkNoAssetDetector minPageRequests assetRatioThreshold score
    (foldl (fun s ext => {[ToLower ext]} ∪ s) ∅ exts).

Definition isAsset (d : noAssetDetector) (urlPath : string) : bool :=
  let urlPath := match IndexByte urlPath "?" with
                 | Some idx => string_take idx urlPath
                 | None => urlPath
                 end in
  bool_decide (ToLower (path_Ext urlPath) ∈ nd_assetExts d).

Definition noasset_count (d : noAssetDetector) (acc : Z * Z) (p : string) : Z * Z :=
  if isAsset d p then (acc.1, (acc.2 + 1)%Z) else ((acc.1 + 1)%Z, acc.2).

Definition noasset_Detect (d : noAssetDetector) (_ : Time) (sv : T) (_ : LogEntry)
  : DetectResult * T :=
  let '(paths, sv') := RecentPaths sv in
  let '(pageCount, assetCount) := foldl (noasset_count d) (0, 0)%Z paths in
  if (pageCount <? nd_minPageRequests d)%Z then (DetectResult_zero, sv')
  else
    let total := (pageCount + assetCount)%Z in
    let assetRatio := f_div (f_of_Z assetCount) (f_of_Z total) in
    if f_leb (nd_assetRatioThreshold d) assetRatio then (DetectResult_zero, sv')
    else (mkDetectResult (nd_score d) "noasset"
            ("noasset:pages=" +:+ Itoa pageCount +:+ ",assets=" +:+ Itoa assetCount +:+
             ",ratio=" +:+ f_fmt0 (f_mul assetRatio (f_of_Z 100)) +:+ "%"), sv').

(** ** overflow *)

Definition defaultSuspiciousParams : list string :=
  ["bypass"; "shell"; "cmd"; "exec"; "eval"; "system"; "passthru"].

Record overflowDetector := mkOverflowDetector {
  od_maxURLLength : Z;
  od_suspiciousParams : list string;
  od_score : Z
}.

Definition newOverflowFactory `{!DetectorParams} (cfg : DetectorConfig) : overflowDetector :=
  let maxURLLength := GetInt cfg "max_url_length" 2048 in
  let rawParams := GetStrings cfg "suspicious_params" defaultSuspiciousParams in
  let score := GetInt cfg "score" 30 in
  mkOverflowDetector maxURLLength (ToLower <$> rawParams) score.

Definition full_url (entry : LogEntry) : string :=
  if String.eqb (le_Query entry) EmptyString then le_Path entry
  else le_Path entry +:+ "?" +:+ le_Query entry.

Definition overflow_Detect (d : overflowDetector) (_ : Time) (sv : T) (entry : LogEntry)
  : DetectResult * T :=
  let fullURL := full_url entry in
  let n := Z.of_nat (String.length fullURL) in
  if (od_maxURLLength d <? n)%Z then
    (mkDetectResult (od_score d) "overflow" ("overflow:url_len=" +:+ Itoa n), sv)
  else
    let lowerURL := ToLower fullURL in
    match List.find (fun param => Contains lowerURL param) (od_suspiciousParams d) with
    | Some param =>
        (mkDetectResult (od_score d) "overflow" ("overflow:waf_bypass=" +:+ param), sv)
    | None => (DetectResult_zero, sv)
    end.

(** ** badbot *)

Record badBotDetector := mkBadBotDetector {
  bb_mgr : BlocklistMatcher;
  bb_score : Z;
  bb_checkUA : bool;
  bb_checkReferrer : bool
}.

(** [shared] is [None] for a nil resource set, [Some None] for a nil blocklist. *)
Definition newBadBotFactory `{!DetectorParams} (cfg : DetectorConfig)
    (shared : option (option BlocklistMatcher)) : badBotDetector :=
  let mgr := match shared with
             | Some (Some bl) => bl
             | _ => noopMatcher
             end in
  mkBadBotDetector mgr (GetInt cfg "score" 60) (GetBool cfg "check_ua" true)
    (GetBool cfg "check_referrer" false).

(** One lookup of a lower-cased header, skipped when empty or a dash. *)
Definition badbot_lookup (d : badBotDetector) (list_name header : string) : option string :=
  let h := ToLower header in
  if (String.eqb h EmptyString || String.eqb h "-")%bool then None
  else MatchResult (bb_mgr d) list_name h.

Definition badbot_Detect (d : badBotDetector) (_ : Time) (sv : T) (entry : LogEntry)
  : DetectResult * T :=
  match (if bb_checkUA d then badbot_lookup d "badbot-ua" (le_UserAgent entry) else None) with
  | Some pattern => (mkDetectResult (bb_score d) "badbot" ("ua=" +:+ pattern), sv)
  | None =>
      match (if bb_checkReferrer d then badbot_lookup d "badbot-ref" (le_Referer entry) else None) with
      | Some pattern => (mkDetectResult (bb_score d) "badbot" ("ref=" +:+ pattern), sv)
      | None => (DetectResult_zero, sv)
      end
  end.

(** ** useragent *)

Definition builtinScannerPatterns : list string :=
  ["nuclei"; "sqlmap"; "nikto"; "nmap"; "masscan"; "zgrab";
   "dirbuster"; "gobuster"; "feroxbuster"; "wfuzz"; "ffuf"; "hydra"; "medusa";
   "nessus"; "openvas"; "acunetix"; "w3af"; "havij"; "burpsuite"].

Definition builtinGrabberPatterns : list string :=
  ["wget/"; "curl/"; "python-requests"; "libwww-perl"; "scrapy"; "httrack"; "webcopier";
   "sitesnagger"; "webreaper"; "teleport pro"].

Definition builtinAutomationPatterns : list string :=
  ["python-urllib"; "aiohttp"; "go-http-client"; "java/"; "okhttp"; "axios/"; "node-fetch";
   "got ("; "superagent"; "restsharp"; "httpclient"].

Record uaDetector := mkUaDetector {
  ua_scannerPatterns : list string;
  ua_grabberPatterns : list string;
  ua_automationPatterns : list string;
  ua_scannerScore : Z;
  ua_grabberScore : Z;
  ua_automationScore : Z;
  ua_emptyUAScore : Z
}.

Definition normalizePatterns (builtin extra : list string) : list string :=
  (ToLower <$> builtin) ++ (ToLower <$> extra).

Definition newUAFactory `{!DetectorParams} (cfg : DetectorConfig) : uaDetector :=
  mkUaDetector
    (normalizePatterns builtinScannerPatterns (GetStrings cfg "extra_scanner_patterns" []))
    (normalizePatterns builtinGrabberPatterns (GetStrings cfg "extra_grabber_patterns" []))
    (normalizePatterns builtinAutomationPatterns (GetStrings cfg "extra_automation_patterns" []))
    (GetInt cfg "scanner_score" 40) (GetInt cfg "grabber_score" 20)
    (GetInt cfg "automation_score" 15) (GetInt cfg "empty_ua_score" 30).

Definition ua_Detect (d : uaDetector) (_ : Time) (sv : T) (entry : LogEntry)
  : DetectResult * T :=
  let ua := le_UserAgent entry in
  if (String.eqb ua EmptyString || String.eqb ua "-")%bool then
    (mkDetectResult (ua_emptyUAScore d) "ua" "ua:empty", sv)
  else
    let uaLower := ToLower ua in
    let first := List.find (fun p => Contains uaLower p) in
    match first (ua_scannerPatterns d) with
    | Some p => (mkDetectResult (ua_scannerScore d) "ua" ("ua:scanner:" +:+ p), sv)
    | None =>
        match first (ua_grabberPatterns d) with
        | Some p => (mkDetectResult (ua_grabberScore d) "ua" ("ua:grabber:" +:+ p), sv)
        | None =>
            match first (ua_automationPatterns d) with
            | Some p => (mkDetectResult (ua_automationScore d) "ua" ("ua:automation:" +:+ p), sv)
            | None => (DetectResult_zero, sv)
            end
        end
    end.

End detectors.

(** ** Lemmas *)

Lemma probe_classify_spec paths ps pr :
  let '(s, l) := foldl probe_classify (ps, pr) paths in
  (forall x, x ∈ s <-> x ∈ ps \/ (x ∈ paths /\ HasSuffix x "/" = false)) /\
  l = pr ++ filter (fun x => HasSuffix x "/" = true) paths.
Proof.
  revert ps pr. induction paths as [|p paths IH]; intros ps pr; cbn [foldl].
  - split; [|by rewrite app_nil_r]. intros x. split; [by left|].
    intros [|[Hx _]]; [done|inversion Hx].
  - rewrite filter_cons. unfold probe_classify at 2. cbn [fst snd].
    destruct (HasSuffix p "/") eqn:E.
    + specialize (IH ps (pr ++ [p])). destruct (foldl _ _ _) as [s l]. destruct IH as [Hs ->].
      rewrite decide_True by done. rewrite <- app_assoc. split; [|done].
      intros x. rewrite Hs, elem_of_cons. split; [tauto|]. intros [|[[->|] ?]]; [tauto|congruence|tauto].
    + specialize (IH ({[p]} ∪ ps) pr). destruct (foldl _ _ _) as [s l]. destruct IH as [Hs ->].
      rewrite decide_False by done. split; [|done].
      intros x. rewrite Hs, elem_of_cons, elem_of_union, elem_of_singleton.
      split; [|tauto]. intros [[->|]|]; tauto.
Qed.

Lemma find_Some_first {A} (f : A -> bool) l x :
  List.find f l = Some x <->
  exists l1 l2, l = l1 ++ x :: l2 /\ f x = true /\ Forall (fun y => f y = false) l1.
Proof.
  induction l as [|y l IH]; simpl.
  - split; [done|]. intros (l1 & l2 & H & _). by destruct l1.
  - destruct (f y) eqn:E.
    + split.
      * intros [= ->]. exists [], l. done.
      * intros ([|z l1] & l2 & [= -> ->] & Hx & Hl1); [done|].
        inversion Hl1; congruence.
    + rewrite IH. split.
      * intros (l1 & l2 & -> & Hx & Hl1). exists (y :: l1), l2. auto.
      * intros ([|z l1] & l2 & [= -> ->] & Hx & Hl1); [congruence|].
        exists l1, l2. inversion Hl1; auto.
Qed.

Lemma find_None_iff {A} (f : A -> bool) l :
  List.find f l = None <-> Forall (fun y => f y = false) l.
Proof.
  induction l as [|y l IH]; simpl; [by split|].
  destruct (f y) eqn:E; rewrite ?IH, Forall_cons; [|tauto].
  split; [done|]. intros [? _]; congruence.
Qed.

Lemma noasset_count_total `{!UnicodeLower} d paths a b :
  let '(p, q) := foldl (noasset_count d) (a, b) paths in
  (p + q = a + b + Z.of_nat (length paths))%Z /\
  q = (b + Z.of_nat (length (filter (fun x => isAsset d x = true) paths)))%Z.
Proof.
  revert a b. induction paths as [|x paths IH]; intros a b; cbn [foldl].
  - simpl. lia.
  - unfold noasset_count at 2. rewrite filter_cons. cbn [fst snd]. destruct (isAsset d x);
      [specialize (IH a (b + 1)%Z); rewrite decide_True by done
      |specialize (IH (a + 1)%Z b); rewrite decide_False by done];
      destruct (foldl _ _ _) as [p q]; simpl length; lia.
Qed.

(** ** Properties *)

Section properties.
Context {T : Type} `{!IPView T} `{!UnicodeLower} `{!DetectorParams}.

(** The probe detector built from a path list fires, with its score and the
    path as reason, exactly on the requests whose path is a listed path without
    trailing slash or starts with a listed path that ends in a slash. *)
Theorem probe_detects_exactly cfg now (sv : T) entry :
  let paths := GetStrings cfg "paths" defaultProbePaths in
  let path := le_Path entry in
  (path ∈ paths /\ HasSuffix path "/" = false) \/
    (exists p, p ∈ paths /\ HasSuffix p "/" = true /\ HasPrefix path p = true) <->
  probe_Detect (newProbeFactory cfg) now sv entry =
    (mkDetectResult (GetInt cfg "score" 25) "probe" ("probe:" +:+ path), sv).
Proof.
  cbn zeta. unfold newProbeFactory, probe_Detect, probe_hit.
  pose proof (probe_classify_spec (GetStrings cfg "paths" defaultProbePaths) ∅ []) as Hc.
  destruct (foldl _ _ _) as [s l]. destruct Hc as [Hs ->]. cbn [pd_pathSet pd_prefixes pd_score app].
  set (path := le_Path entry). set (paths := GetStrings cfg "paths" defaultProbePaths) in *.
  assert (Hne : DetectResult_zero <> mkDetectResult (GetInt cfg "score" 25) "probe" ("probe:" +:+ path))
    by (intros [=]).
  destruct (existsb _ _) eqn:E.
  - split; [intros _; by destruct (bool_decide _)|intros _].
    apply existsb_exists in E as (p & Hp & Hpre). right. exists p.
    apply list_elem_of_In, list_elem_of_filter in Hp. tauto.
  - assert (Hno : ~ exists p, p ∈ paths /\ HasSuffix p "/" = true /\ HasPrefix path p = true).
    { intros (p & Hp & Hsuf & Hpre). apply not_true_iff_false in E. apply E, existsb_exists.
      exists p. split; [|done]. apply list_elem_of_In, list_elem_of_filter. done. }
    destruct (bool_decide _) eqn:Eb; [apply bool_decide_eq_true in Eb|apply bool_decide_eq_false in Eb];
      rewrite Hs in Eb.
    + split; [done|]. intros _. destruct Eb as [Hx|Hx]; [by apply elem_of_empty in Hx|by left].
    + split; [intros [Hx|Hx]; exfalso; [apply Eb; tauto|by apply Hno]|]. congruence.
Qed.

(** User-agent classification: an empty or dash user agent gets the empty
    score; otherwise the first category in the order scanner, grabber,
    automation that has a pattern inside the lower-cased user agent decides the
    score, its first such pattern is the reason, and a user agent with no
    pattern of any category scores nothing. *)
Theorem ua_classification (d : uaDetector) now (sv : T) entry :
  let ua := le_UserAgent entry in
  let matches ps := Exists (fun p => Contains (ToLower ua) p = true) ps in
  let res := fst (ua_Detect d now sv entry) in
  if decide (ua = EmptyString \/ ua = "-") then res = mkDetectResult (ua_emptyUAScore d) "ua" "ua:empty"
  else
    (matches (ua_scannerPatterns d) -> dr_Score res = ua_scannerScore d) /\
    (~ matches (ua_scannerPatterns d) -> matches (ua_grabberPatterns d) ->
       dr_Score res = ua_grabberScore d) /\
    (~ matches (ua_scannerPatterns d) -> ~ matches (ua_grabberPatterns d) ->
       matches (ua_automationPatterns d) -> dr_Score res = ua_automationScore d) /\
    (~ matches (ua_scannerPatterns d) -> ~ matches (ua_grabberPatterns d) ->
       ~ matches (ua_automationPatterns d) -> res = DetectResult_zero).
Proof.
  cbn zeta. unfold ua_Detect. set (ua := le_UserAgent entry).
  destruct (decide _) as [Hd|Hd].
  - destruct Hd as [-> | ->]; reflexivity.
  - assert ((String.eqb ua EmptyString || String.eqb ua "-")%bool = false) as ->.
    { apply orb_false_iff. rewrite !String.eqb_neq. tauto. }
    assert (HF : forall ps, match List.find (fun p => Contains (ToLower ua) p) ps with
                 | Some _ => Exists (fun p => Contains (ToLower ua) p = true) ps
                 | None => ~ Exists (fun p => Contains (ToLower ua) p = true) ps end).
    { intros ps. destruct (List.find _ ps) as [x|] eqn:E.
      - apply List.find_some in E as [H1 H2]. apply Exists_exists. exists x.
        by rewrite list_elem_of_In.
      - apply find_None_iff in E. rewrite Exists_exists. intros (x & Hx & Hc).
        apply (proj1 (Forall_forall _ _) E) in Hx. congruence. }
    pose proof (HF (ua_scannerPatterns d)). pose proof (HF (ua_grabberPatterns d)).
    pose proof (HF (ua_automationPatterns d)).
    destruct (List.find _ (ua_scannerPatterns d)), (List.find _ (ua_grabberPatterns d)),
      (List.find _ (ua_automationPatterns d)); simpl; tauto.
Qed.

(** The overflow detector fires exactly when the URL (path and query) is
    longer than the limit or its lower-cased form contains a suspicious
    keyword, and the length test takes precedence in the reason. *)
Theorem overflow_detects_exactly (d : overflowDetector) now (sv : T) entry :
  let url := full_url entry in
  let res := fst (overflow_Detect d now sv entry) in
  let too_long := (od_maxURLLength d < Z.of_nat (String.length url))%Z in
  let bypass := Exists (fun p => exists a b, ToLower url = a +:+ p +:+ b) (od_suspiciousParams d) in
  (too_long \/ bypass <-> dr_Module res = "overflow") /\
  (dr_Module res = "overflow" -> dr_Score res = od_score d) /\
  (too_long -> dr_Reason res = "overflow:url_len=" +:+ Itoa (Z.of_nat (String.length url))) /\
  (~ too_long -> ~ bypass -> res = DetectResult_zero).
Proof.
  cbn zeta. unfold overflow_Detect. set (url := full_url entry).
  destruct (Z.ltb_spec (od_maxURLLength d) (Z.of_nat (String.length url))) as [Hl|Hl].
  - simpl. split; [tauto|]. split; [done|]. split; [done|]. lia.
  - destruct (List.find _ _) as [p|] eqn:E; simpl.
    + apply List.find_some in E as [H1 H2]. apply Contains_spec in H2.
      assert (Exists (fun p => exists a b, ToLower url = a +:+ p +:+ b) (od_suspiciousParams d)).
      { apply Exists_exists. exists p. by rewrite list_elem_of_In. }
      split; [tauto|]. split; [done|]. split; [lia|tauto].
    + apply find_None_iff in E.
      assert (~ Exists (fun p => exists a b, ToLower url = a +:+ p +:+ b) (od_suspiciousParams d)).
      { rewrite Exists_exists. intros (p & Hp & Hc%Contains_spec).
        apply (proj1 (Forall_forall _ _) E) in Hp. congruence. }
      split; [split; [intros [?|?]; [lia|done]|done]|]. split; [done|]. split; [lia|done].
Qed.
End properties.
