(* ===== verification/Crawler.v ===== *)
(** * The crawler detector (pkg/detectorplugins/crawler/crawler.go)

    Numeric path suffixes, grouped by prefix, and the search for runs of
    consecutive numbers.  The regular expression is modelled by an executable
    matcher proved equivalent to its declarative meaning. *)

From Stdlib Require Import ZArith Lia Ascii String.
From stdpp Require Import base numbers option list sorting strings gmap fin_maps.
From S2P Require Import Prelude GoFloat GoStrings Model Tracker Scorer Detectors.

(** ** The regular expression ^(.*/|/)(\d+)/?$ *)

(** Split after the last slash. *)
Fixpoint split_last_slash (s : string) : option (string * string) :=
  match s with
  | EmptyString => None
  | String c s' =>
      match split_last_slash s' with
      | Some (p, r) => Some (String c p, r)
      | None => if Ascii.eqb c "/" then Some ("/", s') else None
      end
  end.


Definition no_newline (s : string) : bool :=
  string_forallb (fun c => negb (Ascii.eqb c newline)) s.

(** The two groups of a match; [.] does not match a newline. *)
Definition numericSuffixRE (path : string) : option (string * string) :=
  match split_last_slash (TrimSuffix path "/") with
  | Some (prefix, digits) =>
      if (negb (String.eqb digits EmptyString) && string_forallb is_digit digits
          && no_newline prefix)%bool
      then Some (prefix, digits) else None
  | None => None
  end.

Definition parseNumericPath (path : string) : option (string * Z) :=
  match numericSuffixRE path with
  | None => None
  | Some (prefix, ds) =>
      match Atoi ds with
      | None => None
      | Some n => Some (prefix, n)
      end
  end.

(** ** Runs of consecutive numbers *)

(** The deduplication loop; [lastu] is the last element kept. *)
Fixpoint uniq_from (lastu : Z) (nums : list Z) : list Z :=
  match nums with
  | [] => []
  | n :: rest => if (n =? lastu)%Z then uniq_from lastu rest else n :: uniq_from n rest
  end.

Definition uniq (nums : list Z) : list Z :=
  match nums with [] => [] | n :: rest => n :: uniq_from n rest end.

(** The counting loop over [uniq[1:]]; [prev] is [uniq[i-1]]. *)
Fixpoint consec_loop (minLen prev consec : Z) (rest : list Z) : bool :=
  match rest with
  | [] => (minLen <=? consec)%Z
  | x :: rest' =>
      if (x =? wrap64 (prev + 1))%Z then
        let consec' := (consec + 1)%Z in
        if (minLen <=? consec')%Z then true else consec_loop minLen x consec' rest'
      else consec_loop minLen x 1 rest'
  end.

Definition hasConsecutiveSequence (nums : list Z) (minLen : Z) : bool :=
  if ((Z.of_nat (length nums) =? 0) || (minLen <=? 0))%Z%bool then false
  else if (Z.of_nat (length nums) <? minLen)%Z then false
  else
    let us := uniq (merge_sort Z.le nums) in
    if (Z.of_nat (length us) <? minLen)%Z then false
    else match us with
         | [] => (minLen <=? 1)%Z
         | u :: rest => consec_loop minLen u 1 rest
         end.

(** ** Detection *)

Record crawlerDetector := mkCrawlerDetector {
  cd_minSequential : Z;
  cd_score : Z
}.

Definition newCrawlerFactory `{!DetectorParams} (cfg : DetectorConfig) : crawlerDetector :=
  mkCrawlerDetector (GetInt cfg "min_sequential" 5) (GetInt cfg "score" 20).

(** [groups[prefix] = append(groups[prefix], num)] for the paths that parse. *)
Definition group_path (groups : gmap string (list Z)) (p : string) : gmap string (list Z) :=
  match parseNumericPath p with
  | None => groups
  | Some (prefix, num) => <[prefix := default [] (groups !! prefix) ++ [num]]> groups
  end.

Section detect.
Context {T : Type} `{!IPView T} `{!MapRange}.

Definition crawler_Detect (d : crawlerDetector) (_ : Time) (sv : T) (_ : LogEntry)
  : DetectResult * T :=
  let '(paths, sv') := RecentPaths sv in
  if (Z.of_nat (length paths) <? cd_minSequential d)%Z then (DetectResult_zero, sv')
  else
    let groups := foldl group_path ∅ paths in
    match List.find (fun kv => hasConsecutiveSequence kv.2 (cd_minSequential d)) (map_range groups) with
    | Some (prefix, _) =>
        (mkDetectResult (cd_score d) "crawler"
           ("crawler:seq=" +:+ prefix +:+ "*" +:+ Itoa (cd_minSequential d)), sv')
    | None => (DetectResult_zero, sv')
    end.
End detect.

(** ** The matcher is the regular expression *)

(** Declarative meaning of a match with groups [pre] and [ds]. *)
Definition numeric_path (p pre ds : string) : Prop :=
  exists tail, p = pre +:+ ds +:+ tail /\ (tail = EmptyString \/ tail = "/") /\
    (exists q, pre = q +:+ "/" /\ no_newline q = true) /\
    ds <> EmptyString /\ string_forallb is_digit ds = true.

Definition no_slash (s : string) : bool := string_forallb (fun c => negb (Ascii.eqb c "/")) s.

Lemma split_last_slash_None s : split_last_slash s = None <-> no_slash s = true.
Proof.
  induction s as [|c s IH]; [done|]. cbn [split_last_slash no_slash string_forallb].
  destruct (split_last_slash s) as [[p r]|].
  - split; [done|]. intros [_ H]%andb_true_iff. apply IH in H. done.
  - destruct (Ascii.eqb c "/"); [done|]. simpl. tauto.
Qed.

Lemma no_slash_mid q r : no_slash ((q +:+ "/") +:+ r) = false.
Proof.
  unfold no_slash. rewrite !string_forallb_app. simpl. by rewrite andb_false_r.
Qed.

Lemma split_last_slash_spec s pre r :
  split_last_slash s = Some (pre, r) <->
  s = pre +:+ r /\ (exists q, pre = q +:+ "/") /\ no_slash r = true.
Proof.
  revert pre r. induction s as [|c s IH]; intros pre r; cbn [split_last_slash].
  - split; [done|]. intros (H & [q ->] & _). by destruct q.
  - destruct (split_last_slash s) as [[p1 r1]|] eqn:E.
    + destruct (proj1 (IH p1 r1) eq_refl) as (-> & [q ->] & Hr1). split.
      * intros [= <- <-]. split; [done|]. split; [by exists (String c q)|done].
      * intros (H & [q2 ->] & Hr). destruct q2 as [|c2 q2].
        -- exfalso. injection H as -> H. simpl in H. rewrite <- H in Hr.
           by rewrite no_slash_mid in Hr.
        -- injection H as -> H. assert (Some (q +:+ "/", r1) = Some (q2 +:+ "/", r)) as [= -> ->]; [|done].
           apply IH. split; [exact H|]. split; [by exists q2|done].
    + apply split_last_slash_None in E. destruct (Ascii.eqb_spec c "/") as [->|Hc].
      * split.
        -- intros [= <- <-]. split; [done|]. split; [by exists EmptyString|done].
        -- intros (H & [q ->] & Hr). destruct q as [|c2 q]; [by injection H as ->|].
           exfalso. injection H as _ ->. by rewrite no_slash_mid in E.
      * split; [done|]. intros (H & [q ->] & Hr). destruct q as [|c2 q].
        -- injection H as -> _. done.
        -- exfalso. injection H as -> ->. by rewrite no_slash_mid in E.
Qed.

Lemma digits_no_slash s : string_forallb is_digit s = true -> no_slash s = true.
Proof.
  apply string_forallb_impl. intros c Hc. apply negb_true_iff, Ascii.eqb_neq. intros ->. done.
Qed.

Lemma no_trailing_slash a ds :
  ds <> EmptyString -> no_slash ds = true -> HasSuffix (a +:+ ds) "/" = false.
Proof.
  intros Hne Hns. apply not_true_iff_false. intros [r Hr]%HasSuffix_spec.
  destruct (string_snoc_cases ds) as [|(d & c & ->)]; [done|].
  rewrite <- string_app_assoc in Hr. apply string_snoc_inj in Hr as [_ ->].
  unfold no_slash in Hns. by rewrite string_forallb_app, andb_false_r in Hns.
Qed.

Lemma numericSuffixRE_spec p pre ds :
  numericSuffixRE p = Some (pre, ds) <-> numeric_path p pre ds.
Proof.
  unfold numericSuffixRE, numeric_path. split.
  - destruct (split_last_slash _) as [[p1 d1]|] eqn:E; [|done].
    apply split_last_slash_spec in E as (Ht & [q ->] & Hd).
    destruct (_ && _)%bool eqn:Ec; [|done]. intros [= <- <-]. b2p.
    unfold TrimSuffix in Ht. destruct (HasSuffix p "/") eqn:Es.
    + apply HasSuffix_spec in Es as [r ->]. exists "/".
      assert (Hr : r = (q +:+ "/") +:+ d1).
      { rewrite <- Ht, string_length_app. simpl String.length.
        replace (String.length r + 1 - 1) with (String.length r) by lia.
        by rewrite string_take_app. }
      rewrite Hr, string_app_assoc. split; [done|]. split; [by right|].
      unfold no_newline in *. rewrite string_forallb_app, andb_true_iff in *.
      split; [by exists q; naive_solver|]. split; [by apply String.eqb_neq|done].
    + exists EmptyString. rewrite string_app_nil_r. split; [done|]. split; [by left|].
      unfold no_newline in *. rewrite string_forallb_app, andb_true_iff in *.
      split; [by exists q; naive_solver|]. split; [by apply String.eqb_neq|done].
  - intros (tail & -> & Htail & (q & -> & Hq) & Hne & Hd).
    assert (Hns := digits_no_slash _ Hd).
    assert (Ht : TrimSuffix ((q +:+ "/") +:+ ds +:+ tail) "/" = (q +:+ "/") +:+ ds).
    { destruct Htail as [->| ->].
      - rewrite string_app_nil_r. unfold TrimSuffix. by rewrite no_trailing_slash.
      - rewrite <- string_app_assoc. apply TrimSuffix_app. }
    rewrite Ht, (proj2 (split_last_slash_spec _ (q +:+ "/") ds)); [|split; [done|split; [by exists q|done]]].
    rewrite (proj2 (String.eqb_neq ds EmptyString) Hne), Hd.
    unfold no_newline in *. by rewrite string_forallb_app, Hq.
Qed.

(** ** Runs *)

Definition has_run (k : Z) (l : list Z) : Prop :=
  exists a, forall i, (0 <= i < k)%Z -> (a + i)%Z ∈ l.

Lemma has_run_ext k l l' : (forall x, x ∈ l <-> x ∈ l') -> has_run k l <-> has_run k l'.
Proof. intros H. split; intros [a Ha]; exists a; intros i Hi; by apply H, Ha. Qed.

Lemma has_run_length k l : has_run k l -> (k <= Z.of_nat (length l))%Z.
Proof.
  intros [a Ha]. destruct (Z.le_gt_cases k 0); [lia|].
  assert (Hsub : seqZ a k ⊆+ l).
  { apply NoDup_submseteq; [apply NoDup_seqZ|]. intros x Hx%elem_of_seqZ.
    replace x with (a + (x - a))%Z by lia. apply Ha. lia. }
  apply submseteq_length in Hsub. rewrite length_seqZ in Hsub. lia.
Qed.

Lemma uniq_from_elem x lastu l :
  x ∈ lastu :: uniq_from lastu l <-> x ∈ lastu :: l.
Proof.
  revert lastu. induction l as [|n l IH]; intros lastu; cbn [uniq_from]; [done|].
  destruct (Z.eqb_spec n lastu) as [->|Hne].
  - rewrite IH, !elem_of_cons. tauto.
  - rewrite (elem_of_cons (n :: uniq_from n l)), IH, !elem_of_cons. tauto.
Qed.

Lemma uniq_elem x l : x ∈ uniq l <-> x ∈ l.
Proof. destruct l; [done|]. apply uniq_from_elem. Qed.

Lemma uniq_from_sorted lastu l :
  StronglySorted Z.le (lastu :: l) -> StronglySorted Z.lt (lastu :: uniq_from lastu l).
Proof.
  revert lastu. induction l as [|n l IH]; intros lastu Hs; cbn [uniq_from].
  - repeat constructor.
  - inversion Hs as [|? ? Hs' Hf]; subst. inversion Hf as [|? ? Hle Hf']; subst.
    inversion Hs' as [|? ? Hs'' Hn]; subst.
    destruct (Z.eqb_spec n lastu) as [->|Hne].
    + apply IH. by constructor.
    + specialize (IH n Hs'). constructor; [done|]. apply Forall_forall. intros x Hx.
      rewrite uniq_from_elem in Hx. apply elem_of_cons in Hx as [->|Hx]; [lia|].
      apply (proj1 (Forall_forall _ _) Hn) in Hx. lia.
Qed.

(** The loop searches the block [prev - consec + 1 .. prev] followed by [rest]. *)
Lemma consec_loop_spec k prev consec rest :
  (1 <= consec)%Z -> (consec < k \/ k = 1)%Z -> (1 <= k)%Z ->
  StronglySorted Z.lt (prev :: rest) -> Forall in_int64 (prev :: rest) ->
  consec_loop k prev consec rest = true <->
  has_run k (seqZ (prev - consec + 1) consec ++ rest).
Proof.
  revert prev consec. induction rest as [|x rest IH]; intros prev consec Hc Hk Hk1 Hs Hr; cbn [consec_loop].
  - rewrite app_nil_r, Z.leb_le. split.
    + intros Hle. exists (prev - consec + 1)%Z. intros i Hi. apply elem_of_seqZ. lia.
    + intros H%has_run_length. rewrite length_seqZ in H. lia.
  - inversion Hs as [|? ? Hs' Hf]; subst. inversion Hf as [|? ? Hlt Hf']; subst.
    inversion Hr as [|? ? Hp Hr']; subst. inversion Hr' as [|? ? Hx _]; subst.
    rewrite wrap64_id by (unfold in_int64 in *; lia).
    destruct (Z.eqb_spec x (prev + 1)) as [->|Hne].
    + assert (Hset : has_run k (seqZ (prev - consec + 1) consec ++ (prev + 1)%Z :: rest) <->
                     has_run k (seqZ (prev + 1 - (consec + 1) + 1) (consec + 1) ++ rest)).
      { apply has_run_ext. intros y. rewrite !elem_of_app, elem_of_cons, !elem_of_seqZ.
        split; [intros [?|[->|?]]|intros [?|?]]; [left; lia|left; lia|by right| |by right; right].
        destruct (decide (y = prev + 1)%Z); [by right; left|left; lia]. }
      rewrite Hset. destruct (Z.leb_spec k (consec + 1)) as [Hle|Hgt].
      * split; [|done]. intros _. exists (prev + 1 - (consec + 1) + 1)%Z. intros i Hi.
        apply elem_of_app. left. apply elem_of_seqZ. lia.
      * apply IH; try done; lia.
    + rewrite IH; [|lia|lia|lia|done|done]. replace (x - 1 + 1)%Z with x by lia. split.
      * intros [a Ha]. exists a. intros i Hi. specialize (Ha i Hi). revert Ha.
        rewrite !elem_of_app, elem_of_cons, !elem_of_seqZ. intros [?|?]; [right; left; lia|tauto].
      * intros [a Ha]. destruct (Z.le_gt_cases a prev) as [Hap|Hap].
        -- (* a run starting in the block would need prev + 1 *)
           destruct Hk as [Hk| ->].
           ++ exfalso. specialize (Ha 0%Z ltac:(lia)) as H0.
              assert (Hb : (prev - consec + 1 <= a)%Z).
              { revert H0. rewrite elem_of_app, elem_of_seqZ, elem_of_cons. intros [?|[?|Hin]]; [lia|lia|].
                apply (proj1 (Forall_forall _ _) Hf') in Hin. lia. }
              specialize (Ha (prev + 1 - a)%Z ltac:(lia)). replace (a + (prev + 1 - a))%Z with (prev + 1)%Z in Ha by lia.
              revert Ha. rewrite elem_of_app, elem_of_seqZ, elem_of_cons. intros [?|[?|Hin]]; [lia|lia|].
              inversion Hs' as [|? ? _ Hx']; subst. apply (proj1 (Forall_forall _ _) Hx') in Hin. lia.
           ++ exists x. intros i Hi. replace (x + i)%Z with x by lia.
              apply elem_of_app. left. apply elem_of_seqZ. lia.
        -- exists a. intros i Hi. specialize (Ha i Hi). revert Ha.
           rewrite !elem_of_app, elem_of_cons, !elem_of_seqZ. intros [?|[->|?]]; [lia|left; lia|tauto].
Qed.

Lemma hasConsecutiveSequence_spec nums k : Forall in_int64 nums ->
  hasConsecutiveSequence nums k = true <-> (0 < k)%Z /\ has_run k nums.
Proof.
  intros Hr. unfold hasConsecutiveSequence.
  destruct (Z.eqb_spec (Z.of_nat (length nums)) 0) as [Hz|Hz]; cbn [orb].
  { split; [done|]. intros [Hk H%has_run_length]. lia. }
  destruct (Z.leb_spec k 0) as [Hk|Hk]; [split; [done|lia]|].
  destruct (Z.ltb_spec (Z.of_nat (length nums)) k) as [Hl|Hl].
  { split; [done|]. intros [_ H%has_run_length]. lia. }
  assert (Hp : merge_sort Z.le nums ≡ₚ nums) by apply merge_sort_Permutation.
  assert (He : forall x, x ∈ uniq (merge_sort Z.le nums) <-> x ∈ nums).
  { intros x. by rewrite uniq_elem, Hp. }
  rewrite <- (has_run_ext k _ _ He).
  destruct (Z.ltb_spec (Z.of_nat (length (uniq (merge_sort Z.le nums)))) k) as [Hu|Hu].
  { split; [done|]. intros [_ H%has_run_length]. lia. }
  assert (Hs : StronglySorted Z.le (merge_sort Z.le nums)).
  { apply StronglySorted_merge_sort; apply _. }
  assert (Hr' : Forall in_int64 (uniq (merge_sort Z.le nums))).
  { apply Forall_forall. intros x Hx%He. by apply (proj1 (Forall_forall _ _) Hr). }
  destruct (merge_sort Z.le nums) as [|u l] eqn:Em.
  { apply Permutation_nil_l in Hp. subst. done. }
  cbn [uniq] in *. rewrite consec_loop_spec; [|lia|lia|lia|by apply uniq_from_sorted|done].
  replace (u - 1 + 1)%Z with u by lia. change (seqZ u 1) with [u].
  cbn [app]. tauto.
Qed.

(** ** Groups *)

Definition nums_of (pre : string) (paths : list string) : list Z :=
  omap (fun p => match parseNumericPath p with
                 | Some (pre', n) => if String.eqb pre' pre then Some n else None
                 | None => None
                 end) paths.

Lemma group_paths_lookup pre paths g :
  default [] (foldl group_path g paths !! pre) = default [] (g !! pre) ++ nums_of pre paths.
Proof.
  revert g. induction paths as [|p paths IH]; intros g; cbn [foldl].
  - by rewrite app_nil_r.
  - rewrite IH. unfold group_path, nums_of. cbn [omap list_omap].
    destruct (parseNumericPath p) as [[pre' n]|]; [|done].
    destruct (String.eqb_spec pre' pre) as [->|Hne].
    + rewrite lookup_insert_eq. simpl. by rewrite <- app_assoc.
    + by rewrite lookup_insert_ne.
Qed.

Lemma length_nums_of pre paths : length (nums_of pre paths) <= length paths.
Proof.
  unfold nums_of. generalize (fun p => match parseNumericPath p with
    | Some (pre', n) => if String.eqb pre' pre then Some n else None | None => None end) as f.
  intros f. induction paths as [|p paths IH]; [done|]. cbn [omap list_omap] in *.
  unfold omap in *. cbn. destruct (f p); simpl in *; lia.
Qed.

Lemma nums_of_spec pre paths n :
  n ∈ nums_of pre paths <->
  exists p ds, p ∈ paths /\ numeric_path p pre ds /\ Atoi ds = Some n.
Proof.
  unfold nums_of. rewrite list_elem_of_omap. split.
  - intros (p & Hp & Hn). unfold parseNumericPath in Hn.
    destruct (numericSuffixRE p) as [[pre' ds]|] eqn:E; [|done].
    apply numericSuffixRE_spec in E. destruct (Atoi ds) as [m|] eqn:Ea; [|done].
    destruct (String.eqb_spec pre' pre) as [->|]; [|done]. injection Hn as ->.
    by exists p, ds.
  - intros (p & ds & Hp & Hnp & Ha). exists p. split; [done|].
    apply numericSuffixRE_spec in Hnp. unfold parseNumericPath. by rewrite Hnp, Ha, String.eqb_refl.
Qed.

Lemma nums_of_range pre paths : Forall in_int64 (nums_of pre paths).
Proof.
  apply Forall_forall. intros n (p & ds & _ & _ & Ha)%nums_of_spec. by eapply Atoi_range.
Qed.

(** A numeric traversal: [k] consecutive numbers requested under one prefix. *)
Definition traversal (k : Z) (paths : list string) : Prop :=
  exists pre a, forall i, (0 <= i < k)%Z ->
    exists p ds, p ∈ paths /\ numeric_path p pre ds /\ Atoi ds = Some (a + i)%Z.

(** ** Properties *)

Section properties.
Context {T : Type} `{!IPView T} `{!MapRange}.

(** C25: The crawler detector fires exactly when the recent paths contain, under
    one prefix, min_sequential consecutive numbers as last path segments (the
    regular expression's matches), whatever the order of requests, repeated
    requests and the iteration order of the map of groups. *)
Theorem crawler_detects_exactly (d : crawlerDetector) now (sv : T) entry :
  let res := fst (crawler_Detect d now sv entry) in
  (dr_Module res = "crawler" <->
     (0 < cd_minSequential d)%Z /\ traversal (cd_minSequential d) (fst (RecentPaths sv))) /\
  (dr_Module res = "crawler" -> dr_Score res = cd_score d) /\
  (dr_Module res <> "crawler" -> res = DetectResult_zero).
Proof.
  cbn zeta. unfold crawler_Detect. destruct (RecentPaths sv) as [paths sv'] eqn:Ep. cbn [fst].
  set (k := cd_minSequential d).
  assert (Htr : traversal k paths <-> exists pre, has_run k (nums_of pre paths)).
  { unfold traversal, has_run. split; intros [pre [a Ha]]; exists pre, a; intros i Hi;
      apply (nums_of_spec pre), Ha, Hi. }
  set (groups := foldl group_path ∅ paths).
  assert (Hg : forall pre, default [] (groups !! pre) = nums_of pre paths).
  { intros pre. unfold groups. by rewrite group_paths_lookup, lookup_empty. }
  destruct (Z.ltb_spec (Z.of_nat (length paths)) k) as [Hl|Hl].
  { simpl. split; [|done]. split; [done|]. intros [Hk [pre Hr]%Htr].
    exfalso. apply has_run_length in Hr. pose proof (length_nums_of pre paths). lia. }
  destruct (List.find _ _) as [[pre ns]|] eqn:E; simpl.
  - split; [|done]. split; [|done]. intros _. apply List.find_some in E as [Hin Hh].
    apply list_elem_of_In, elem_of_map_range in Hin. specialize (Hg pre). rewrite Hin in Hg.
    simpl in Hg. subst ns. apply hasConsecutiveSequence_spec in Hh as [Hk Hr]; [|apply nums_of_range].
    split; [done|]. apply Htr. by exists pre.
  - split; [|done]. split; [done|]. intros [Hk [pre Hr]%Htr]. exfalso.
    assert (Hne : groups !! pre = Some (nums_of pre paths)).
    { specialize (Hg pre). destruct (groups !! pre) as [ns|]; simpl in Hg; [by subst|].
      rewrite <- Hg in Hr. apply has_run_length in Hr. simpl in Hr. lia. }
    apply find_None_iff in E. apply elem_of_map_range in Hne.
    apply (proj1 (Forall_forall _ _) E) in Hne. simpl in Hne.
    rewrite (proj2 (hasConsecutiveSequence_spec _ k (nums_of_range pre paths))) in Hne; done.
Qed.
End properties.

Example crawler_ex :
  parseNumericPath "/page/5/" = Some ("/page/", 5%Z) /\ parseNumericPath "/api/v2" = None /\
  hasConsecutiveSequence [7; 5; 6; 5]%Z 3 = true /\ hasConsecutiveSequence [5; 5; 6]%Z 3 = false.
Proof. repeat split; vm_compute; reflexivity. Qed.

Definition ex_crawled : IPState :=
  foldl (fun st p => record_request st (ex_entry "1.1.1.1" p 1000 200)) (newIPState "1.1.1.1" 1000)
    ["/item/7"; "/item/5/"; "/about"; "/item/6"].

Lemma crawler_detects_exactly_witness :
  fst (RecentPaths ex_crawled) = ["/item/7"; "/item/5/"; "/about"; "/item/6"] /\
  traversal 3 (fst (RecentPaths ex_crawled)).
Proof.
  split; [by vm_compute|].
  apply (proj1 (@crawler_detects_exactly IPState _ map_range_canonical (mkCrawlerDetector 3 20) 2000
    ex_crawled (ex_entry "1.1.1.1" "/item/6" 2000 200))).
  by vm_compute.
Defined.
