(* ===== verification/GoNet.v ===== *)
(** * Go's net package: addresses and networks

    [net.ParseIP], [net.ParseCIDR], [IPNet.Contains] and their [String]
    methods, executable.  An address is its 128-bit value; an IPv4 address is
    the IPv4-mapped one, as in the 16-byte form of [net.IP]. *)

From Stdlib Require Import ZArith Lia Ascii String.
From stdpp Require Import base numbers option list strings pretty.
From S2P Require Import Prelude GoStrings.

Local Open Scope string_scope.

(** ** Addresses *)

Definition v4_prefix : Z := 0xffff.

Definition ip_of_v4 (a : Z) : Z := (v4_prefix * 2 ^ 32 + a)%Z.

(** [IP.To4]. *)
Definition To4 (ip : Z) : option Z :=
  if (ip / 2 ^ 32 =? v4_prefix)%Z then Some (ip mod 2 ^ 32)%Z else None.

(** One decimal field: no leading zero, at most 255. *)
Definition parse_v4_field (s : string) : option Z :=
  if (String.eqb s EmptyString || negb (string_forallb is_digit s))%bool then None
  else if (HasPrefix s "0" && negb (String.eqb s "0"))%bool then None
  else let v := digits_val 0 s in if (v <=? 255)%Z then Some v else None.

Definition parse_v4 (s : string) : option Z :=
  match Split s "." with
  | [a; b; c; d] =>
      a ← parse_v4_field a; b ← parse_v4_field b; c ← parse_v4_field c; d ← parse_v4_field d;
      Some (((a * 256 + b) * 256 + c) * 256 + d)%Z
  | _ => None
  end.

Definition hex_val (c : ascii) : option Z :=
  let n := byte c in
  if ((48 <=? n) && (n <=? 57))%N then Some (Z.of_N (n - 48))
  else if ((97 <=? n) && (n <=? 102))%N then Some (Z.of_N (n - 87))
  else if ((65 <=? n) && (n <=? 70))%N then Some (Z.of_N (n - 55))
  else None.

(** Hexadecimal digits at the head: their number, their value and the rest. *)
Fixpoint hex_run (s : string) : nat * Z * string :=
  match s with
  | EmptyString => (0, 0%Z, s)
  | String c s' =>
      match hex_val c with
      | None => (0, 0%Z, s)
      | Some d => let '(n, v, r) := hex_run s' in (S n, (d * 16 ^ Z.of_nat n + v)%Z, r)
      end
  end.

(** The 16-bit groups read so far ([acc], reversed), the position of the
    ellipsis among them; [fuel] is the number of groups that still fit. *)
Fixpoint parse_v6_groups (fuel : nat) (s : string) (acc : list Z) (ell : option nat)
  : option (list Z * option nat) :=
  match fuel with
  | O => if String.eqb s EmptyString then Some (acc, ell) else None
  | S fuel' =>
      let '(off, v, rest) := hex_run s in
      if ((off =? 0)%nat || (4 <? off)%nat)%bool then None
      else if HasPrefix rest "." then
        (* an embedded IPv4 address takes the rest *)
        if ((match ell with None => negb (fuel =? 2)%nat | Some _ => false end)
            || (fuel <? 2)%nat)%bool then None
        else a ← parse_v4 s;
             Some ((a mod 65536)%Z :: (a / 65536)%Z :: acc, ell)
      else match rest with
           | EmptyString => Some (v :: acc, ell)
           | String c rest1 =>
               if negb (Ascii.eqb c ":") then None
               else match rest1 with
                    | EmptyString => None
                    | String c2 rest2 =>
                        if Ascii.eqb c2 ":" then
                          match ell with
                          | Some _ => None
                          | None =>
                              let ell' := Some (S (length acc)) in
                              if String.eqb rest2 EmptyString then Some (v :: acc, ell')
                              else parse_v6_groups fuel' rest2 (v :: acc) ell'
                          end
                        else parse_v6_groups fuel' rest1 (v :: acc) ell
                    end
           end
  end.

Definition groups_val (gs : list Z) : Z := foldl (fun z g => z * 65536 + g)%Z 0%Z gs.

Definition parse_v6 (s : string) : option Z :=
  let '(s0, ell0) :=
    if HasPrefix s "::" then (string_drop 2 s, Some 0) else (s, None) in
  if (String.eqb s0 EmptyString && match ell0 with Some _ => true | None => false end)%bool
  then Some 0%Z
  else
    r ← parse_v6_groups 8 s0 [] ell0;
    let '(racc, ell) := r in
    let gs := reverse racc in
    let n := length gs in
    match ell with
    | None => if (n =? 8)%nat then Some (groups_val gs) else None
    | Some k =>
        if (n <? 8)%nat then
          Some (groups_val (take k gs ++ replicate (8 - n) 0%Z ++ drop k gs))
        else None
    end.

(** The first of the bytes [.], [:] and [%] decides the syntax. *)
Fixpoint addr_syntax (s : string) : option ascii :=
  match s with
  | EmptyString => None
  | String c s' =>
      if (Ascii.eqb c "." || Ascii.eqb c ":" || Ascii.eqb c "%")%bool then Some c
      else addr_syntax s'
  end.

(** An address and whether it was written as IPv4; zones are refused. *)
Definition parse_addr (s : string) : option (bool * Z) :=
  match addr_syntax s with
  | Some "."%char => a ← parse_v4 s; Some (true, ip_of_v4 a)
  | Some ":"%char => a ← parse_v6 s; Some (false, a)
  | _ => None
  end.

Definition ParseIP (s : string) : option Z := snd <$> parse_addr s.

(** ** Networks *)

(** [net_v4]: the mask has four bytes; [net_ip] is then the 32-bit value. *)
Record IPNet := mkIPNet {
  net_v4 : bool;
  net_ip : Z;
  net_ones : Z
}.

Definition mask_value (bits ones a : Z) : Z := (a / 2 ^ (bits - ones) * 2 ^ (bits - ones))%Z.

Definition dtoi (s : string) : option Z :=
  if (String.eqb s EmptyString || negb (string_forallb is_digit s))%bool then None
  else let v := digits_val 0 s in if (v <? 0xFFFFFF)%Z then Some v else None.

Definition ParseCIDR (s : string) : option IPNet :=
  match IndexByte s "/" with
  | None => None
  | Some i =>
      r ← parse_addr (string_take i s);
      n ← dtoi (string_drop (S i) s);
      let '(is4, a) := r in
      if is4 : bool then
        if (n <=? 32)%Z then Some (mkIPNet true (mask_value 32 n (a mod 2 ^ 32)) n) else None
      else if (n <=? 128)%Z then Some (mkIPNet false (mask_value 128 n a) n) else None
  end.

(** [networkNumberAndMask]: width, number and mask length. *)
Definition net_number (n : IPNet) : Z * Z * Z :=
  if net_v4 n then (32, net_ip n, net_ones n)%Z
  else match To4 (net_ip n) with
       | Some a => (32, a, Z.max 0 (net_ones n - 96))%Z
       | None => (128, net_ip n, net_ones n)%Z
       end.

Definition IPNet_Contains (n : IPNet) (ip : Z) : bool :=
  let '(bits, nn, ones) := net_number n in
  let '(bits', a) := match To4 ip with Some x => (32, x)%Z | None => (128, ip)%Z end in
  (bits =? bits')%Z && (nn / 2 ^ (bits - ones) =? a / 2 ^ (bits - ones))%Z.

(** ** Printing *)

Definition v4_string (a : Z) : string :=
  Join (Itoa <$> [(a / 16777216) mod 256; (a / 65536) mod 256; (a / 256) mod 256; a mod 256]%Z) ".".

Definition hex_digit (n : Z) : ascii :=
  ascii_of_N (Z.to_N (if (n <? 10)%Z then n + 48 else n + 87)%Z).

Fixpoint hex_string (fuel : nat) (n : Z) (acc : string) : string :=
  match fuel with
  | O => acc
  | S f => let acc' := String (hex_digit (n mod 16)) acc in
           if (n / 16 =? 0)%Z then acc' else hex_string f (n / 16)%Z acc'
  end.

Definition v6_groups (ip : Z) : list Z :=
  (fun i => (ip / 65536 ^ (7 - i)) mod 65536)%Z <$> [0; 1; 2; 3; 4; 5; 6; 7]%Z.

Fixpoint zero_run (gs : list Z) : nat :=
  match gs with
  | 0%Z :: gs' => S (zero_run gs')
  | _ => 0
  end.

(** The first longest run of zero groups: position and length. *)
Definition longest_zero_run (gs : list Z) : nat * nat :=
  foldl (fun best i => let n := zero_run (drop i gs) in
                       if (best.2 <? n)%nat then (i, n) else best)
        (0, 0) (seq 0 8).

Definition v6_string (ip : Z) : string :=
  let gs := v6_groups ip in
  let '(p, n) := longest_zero_run gs in
  let show l := Join ((fun g => hex_string 4 g EmptyString) <$> l) ":" in
  if (2 <=? n)%nat then show (take p gs) ++ "::" ++ show (drop (p + n) gs) else show gs.

Definition IPNet_String (n : IPNet) : string :=
  let '(bits, nn, ones) := net_number n in
  (if (bits =? 32)%Z then v4_string nn else v6_string nn) ++ "/" ++ Itoa ones.

(** ** Examples against the documentation of the package *)

Example parse_examples :
  ParseIP "192.0.2.1" = Some (ip_of_v4 0xC0000201) /\ ParseIP "192.0.2.01" = None /\
  ParseIP "::1" = Some 1%Z /\ ParseIP "2001:db8::68" = Some 0x20010db8000000000000000000000068%Z /\
  ParseIP "::ffff:192.0.2.1" = Some (ip_of_v4 0xC0000201) /\ ParseIP "fe80::1%eth0" = None /\
  ParseIP "1::2::3" = None /\ ParseIP "1:2:3:4:5:6:7:8:9" = None /\ ParseIP "" = None.
Proof. repeat split; vm_compute; reflexivity. Qed.

Example cidr_examples :
  (IPNet_String <$> ParseCIDR "10.1.2.3/8") = Some "10.0.0.0/8" /\
  (IPNet_String <$> ParseCIDR "2001:db8:0:1::7/64") = Some "2001:db8:0:1::/64" /\
  (IPNet_String <$> ParseCIDR "fe80::/10") = Some "fe80::/10" /\
  ParseCIDR "10.0.0.0/33" = None /\ ParseCIDR "10.0.0.0" = None.
Proof. repeat split; vm_compute; reflexivity. Qed.

(** ** Membership *)

Lemma To4_mapped a : (0 <= a < 2 ^ 32)%Z -> To4 (ip_of_v4 a) = Some a.
Proof.
  intros Ha. unfold To4, ip_of_v4.
  rewrite (Z.add_comm _ a), Z.div_add, Z.div_small by lia.
  rewrite Z.add_0_l, Z.eqb_refl, Z.mod_add, Z.mod_small by lia. done.
Qed.

Lemma div_block_range k n a : (0 < k)%Z -> (n mod k = 0)%Z ->
  (n / k = a / k <-> n <= a < n + k)%Z.
Proof.
  intros Hk Hn. pose proof (Z.div_mod n k ltac:(lia)) as H1.
  pose proof (Z.div_mod a k ltac:(lia)) as H2.
  pose proof (Z.mod_pos_bound a k ltac:(lia)) as H3. rewrite Hn in H1.
  split; [intros E; rewrite <- E in H2; lia|]. intros Hr.
  apply (Z.div_unique_pos a k _ (a - n)); lia.
Qed.

(** Membership of an IPv4 address in an IPv4 network is a range test. *)
Lemma Contains_v4_range net_addr ones a :
  (0 <= ones <= 32)%Z -> (0 <= a < 2 ^ 32)%Z -> (net_addr mod 2 ^ (32 - ones) = 0)%Z ->
  IPNet_Contains (mkIPNet true net_addr ones) (ip_of_v4 a) = true <->
  (net_addr <= a < net_addr + 2 ^ (32 - ones))%Z.
Proof.
  intros Ho Ha Hn. unfold IPNet_Contains, net_number. cbn [net_v4 net_ip net_ones].
  rewrite To4_mapped by done. rewrite Z.eqb_refl. cbn [andb]. rewrite Z.eqb_eq.
  apply div_block_range; [apply Z.pow_pos_nonneg; lia|done].
Qed.

(** An IPv6 network whose number is not IPv4-mapped holds no IPv4 address, and
    membership of an IPv6 address is a range test. *)
Lemma Contains_v6_v4 net_addr ones a :
  To4 net_addr = None -> (0 <= a < 2 ^ 32)%Z ->
  IPNet_Contains (mkIPNet false net_addr ones) (ip_of_v4 a) = false.
Proof.
  intros Hn Ha. unfold IPNet_Contains, net_number. cbn [net_v4 net_ip net_ones].
  by rewrite Hn, To4_mapped.
Qed.

Lemma Contains_v6_range net_addr ones ip :
  To4 net_addr = None -> To4 ip = None -> (0 <= ones <= 128)%Z ->
  (net_addr mod 2 ^ (128 - ones) = 0)%Z ->
  IPNet_Contains (mkIPNet false net_addr ones) ip = true <->
  (net_addr <= ip < net_addr + 2 ^ (128 - ones))%Z.
Proof.
  intros Hn Hi Ho Hm. unfold IPNet_Contains, net_number. cbn [net_v4 net_ip net_ones].
  rewrite Hn, Hi, Z.eqb_refl. cbn [andb]. rewrite Z.eqb_eq.
  apply div_block_range; [apply Z.pow_pos_nonneg; lia|done].
Qed.

Lemma Contains_v4_v6 net_addr ones ip :
  To4 ip = None -> IPNet_Contains (mkIPNet true net_addr ones) ip = false.
Proof.
  intros Hi. unfold IPNet_Contains, net_number. cbn [net_v4 net_ip net_ones]. by rewrite Hi.
Qed.
