(* ===== verification/GoFmt.v ===== *)
(** * Errors, quoting and number syntax of the Go library

    The error monad of fallible code (an error is its message), [strconv.Quote]
    (the [%q] verb), [strconv.ParseBool] and [strconv.ParseFloat]. *)

From Stdlib Require Import ZArith Lia Ascii String Floats.SpecFloat.
From stdpp Require Import base numbers option list strings pretty.
From S2P Require Import Prelude GoFloat GoStrings GoNet.

(** ** Errors *)

Abbreviation Res := (sum string) (only parsing).

#[export] Instance res_ret : MRet (sum string) := fun A x => inr x.
#[export] Instance res_bind : MBind (sum string) := fun A B f m =>
  match m with inl e => inl e | inr x => f x end.

(** [if cond { return fmt.Errorf(msg) }]. *)
Definition fail_if (cond : bool) (msg : string) : string + unit :=
  if cond then inl msg else inr tt.

(** [fmt.Errorf(pre + "%w", err)]. *)
Definition wrap_err {A} (pre : string) (m : string + A) : string + A :=
  match m with inl e => inl (pre +:+ e) | inr x => inr x end.

(** [for i, x := range l { if err := f(i, x); err != nil { return err } }]. *)
Fixpoint check_range {A} (f : nat -> A -> string + unit) (i : nat) (l : list A) : string + unit :=
  match l with
  | [] => inr tt
  | x :: l' => f i x ;; check_range f (S i) l'
  end.

(** The same with a state threaded through the iterations. *)
Fixpoint check_fold {A S_} (f : nat -> A -> S_ -> string + S_) (i : nat) (l : list A) (s : S_)
  : string + S_ :=
  match l with
  | [] => inr s
  | x :: l' => s' ← f i x s; check_fold f (S i) l' s'
  end.

Definition is_ok {A} (m : string + A) : bool := match m with inr _ => true | inl _ => false end.

(** *** What success says *)

Lemma bind_ok {A B} (m : string + A) (f : A -> string + B) y :
  m ≫= f = inr y <-> exists x, m = inr x /\ f x = inr y.
Proof. destruct m; split; [done|by intros (? & ? & ?)|eauto|by intros (? & [= ->] & ?)]. Qed.

Lemma fail_if_ok c msg u : fail_if c msg = inr u <-> c = false.
Proof. destruct u. by destruct c. Qed.

Lemma fail_if_pass c msg : fail_if c msg = inr tt <-> c = false.
Proof. by destruct c. Qed.

Lemma wrap_err_ok {A} pre (m : string + A) x : wrap_err pre m = inr x <-> m = inr x.
Proof. by destruct m. Qed.

Lemma check_range_ok {A} (f : nat -> A -> string + unit) i l :
  check_range f i l = inr tt <-> forall k x, l !! k = Some x -> f (i + k) x = inr tt.
Proof.
  revert i. induction l as [|x l IH]; intros i; [done|]. cbn [check_range].
  rewrite bind_ok. split.
  - intros ([] & Hx & Hl) [|k] y Hy; [injection Hy as <-; by rewrite Nat.add_0_r|].
    rewrite <- Nat.add_succ_comm. by apply IH.
  - intros H. exists tt. split; [rewrite <- (Nat.add_0_r i); by apply H|].
    apply IH. intros k y Hy. rewrite Nat.add_succ_comm. by apply (H (S k)).
Qed.

(** Split a successful sequence of checks into its steps. *)
Ltac res_inv H :=
  repeat (apply bind_ok in H as ([] & ? & H)).

(** ** UTF-8

    [utf8.DecodeRuneInString] on a non-empty string: the rune and its width; an
    invalid encoding gives [RuneError] with width 1. *)

Definition RuneError : N := 0xFFFD.

Definition cont (b : N) : bool := ((0x80 <=? b) && (b <=? 0xBF))%N.

Definition DecodeRune (s : string) : N * nat :=
  match s with
  | EmptyString => (RuneError, 0)
  | String a s1 =>
      let a := byte a in
      if (a <? 0x80)%N then (a, 1)
      else match s1 with
      | EmptyString => (RuneError, 1)
      | String b s2 =>
          let b := byte b in
          if ((0xC2 <=? a) && (a <=? 0xDF) && cont b)%N then ((a - 0xC0) * 64 + (b - 0x80), 2%nat)%N
          else match s2 with
          | EmptyString => (RuneError, 1)
          | String c s3 =>
              let c := byte c in
              let lo := if (a =? 0xE0)%N then 0xA0%N else 0x80%N in
              let hi := if (a =? 0xED)%N then 0x9F%N else 0xBF%N in
              if ((0xE0 <=? a) && (a <=? 0xEF) && (lo <=? b) && (b <=? hi) && cont c)%N
              then (((a - 0xE0) * 64 + (b - 0x80)) * 64 + (c - 0x80), 3%nat)%N
              else match s3 with
              | EmptyString => (RuneError, 1)
              | String d _ =>
                  let d := byte d in
                  let lo := if (a =? 0xF0)%N then 0x90%N else 0x80%N in
                  let hi := if (a =? 0xF4)%N then 0x8F%N else 0xBF%N in
                  if ((0xF0 <=? a) && (a <=? 0xF4) && (lo <=? b) && (b <=? hi) && cont c && cont d)%N
                  then ((((a - 0xF0) * 64 + (b - 0x80)) * 64 + (c - 0x80)) * 64 + (d - 0x80), 4%nat)%N
                  else (RuneError, 1)
              end
          end
      end
  end.

(** ** strconv.Quote

    [strconv.IsPrint] of a rune outside ASCII is a Unicode table, a parameter. *)

Class UnicodePrint := { unicode_print : N -> bool }.

Definition IsPrint `{UnicodePrint} (r : N) : bool :=
  if (r <? 0x80)%N then ((0x20 <=? r) && (r <=? 0x7E))%N else unicode_print r.

(** [width] lower-case hexadecimal digits. *)
Fixpoint hex_pad (width : nat) (n : N) : string :=
  match width with
  | O => EmptyString
  | S w => hex_pad w (n / 16)%N +:+ String (hex_digit (Z.of_N (n mod 16)%N)) EmptyString
  end.

Definition backslash : ascii := ascii_of_N 92.
Definition dquote : ascii := ascii_of_N 34.

Definition escape (c : ascii) : string := String backslash (String c EmptyString).

(** [appendEscapedRune]; [raw] is the encoding of the rune in the string. *)
Definition escape_rune `{UnicodePrint} (r : N) (raw : string) : string :=
  if ((r =? 34) || (r =? 92))%N then String backslash raw
  else if IsPrint r then raw
  else if (r =? 7)%N then escape "a"
  else if (r =? 8)%N then escape "b"
  else if (r =? 12)%N then escape "f"
  else if (r =? 10)%N then escape "n"
  else if (r =? 13)%N then escape "r"
  else if (r =? 9)%N then escape "t"
  else if (r =? 11)%N then escape "v"
  else if ((r <? 32) || (r =? 127))%N then escape "x" +:+ hex_pad 2 r
  else if (r <? 0x10000)%N then escape "u" +:+ hex_pad 4 r
  else escape "U" +:+ hex_pad 8 r.

Fixpoint quote_fuel `{UnicodePrint} (fuel : nat) (s : string) : string :=
  match fuel, s with
  | O, _ | _, EmptyString => EmptyString
  | S fuel', String c _ =>
      let '(r, w) := DecodeRune s in
      (if ((w =? 1)%nat && (r =? RuneError)%N)%bool then escape "x" +:+ hex_pad 2 (byte c)
       else escape_rune r (string_take w s)) +:+ quote_fuel fuel' (string_drop w s)
  end.

Definition Quote `{UnicodePrint} (s : string) : string :=
  String dquote (quote_fuel (String.length s) s +:+ String dquote EmptyString).

(** ** strconv.ParseBool *)

Definition ParseBool (s : string) : option bool :=
  if existsb (String.eqb s) ["1"; "t"; "T"; "true"; "TRUE"; "True"] then Some true
  else if existsb (String.eqb s) ["0"; "f"; "F"; "false"; "FALSE"; "False"] then Some false
  else None.

(** ** strconv.ParseFloat (bitSize 64) *)

(** Only ASCII matters: a special name in any case. *)
Definition parse_special (s : string) : option float64 :=
  let '(neg, sign, t) :=
    if HasPrefix s "-" then (true, true, string_drop 1 s)
    else if HasPrefix s "+" then (false, true, string_drop 1 s)
    else (false, false, s) in
  let t := string_map lower_byte t in
  if (String.eqb t "inf" || String.eqb t "infinity")%bool then Some (S754_infinity neg)
  else if (String.eqb t "nan" && negb sign)%bool then Some S754_nan
  else None.

Definition lower_is (c : ascii) (l : string) : bool :=
  String.eqb (String (lower_byte c) EmptyString) l.

(** [underscoreOK]: underscores separate digits; [saw] is the class of the
    previous character ([None] at the start, digit, underscore, other). *)
Inductive Saw := SawStart | SawDigit | SawUnder | SawOther.

Fixpoint underscore_loop (hex : bool) (saw : Saw) (s : string) : bool :=
  match s with
  | EmptyString => match saw with SawUnder => false | _ => true end
  | String c s' =>
      if (is_digit c || hex && bool_decide (is_Some (hex_val c)))%bool
      then underscore_loop hex SawDigit s'
      else if Ascii.eqb c "_"
      then match saw with SawDigit => underscore_loop hex SawUnder s' | _ => false end
      else match saw with SawUnder => false | _ => underscore_loop hex SawOther s' end
  end.

Definition drop_sign (s : string) : string :=
  if (HasPrefix s "-" || HasPrefix s "+")%bool then string_drop 1 s else s.

Definition underscoreOK (s : string) : bool :=
  match drop_sign s with
  | String z (String x r) =>
      if (Ascii.eqb z "0" && (lower_is x "b" || lower_is x "o" || lower_is x "x"))%bool
      then underscore_loop (lower_is x "x") SawDigit r
      else underscore_loop false SawStart (drop_sign s)
  | t => underscore_loop false SawStart t
  end.

(** The digits of the mantissa: value, number of digits after leading zeros,
    position of the point, whether a point and a digit were seen, and the rest. *)
Fixpoint mantissa_loop (base : Z) (m nd dp : Z) (sawdot sawdigits : bool) (s : string)
  : Z * Z * Z * bool * bool * string :=
  match s with
  | EmptyString => (m, nd, dp, sawdot, sawdigits, s)
  | String c s' =>
      if Ascii.eqb c "_" then mantissa_loop base m nd dp sawdot sawdigits s'
      else if Ascii.eqb c "." then
        if sawdot then (m, nd, dp, sawdot, sawdigits, s)
        else mantissa_loop base m nd nd true sawdigits s'
      else match (if is_digit c then Some (Z.of_N (byte c - 48))
                  else if (base =? 16)%Z then hex_val c else None) with
           | None => (m, nd, dp, sawdot, sawdigits, s)
           | Some v =>
               if (Ascii.eqb c "0" && (nd =? 0)%Z)%bool
               then mantissa_loop base m nd (dp - 1) sawdot true s'
               else mantissa_loop base (m * base + v) (nd + 1) dp sawdot true s'
           end
  end.

(** The digits of the exponent, saturating as the code does. *)
Fixpoint exponent_loop (e : Z) (s : string) : Z * string :=
  match s with
  | EmptyString => (e, s)
  | String c s' =>
      if Ascii.eqb c "_" then exponent_loop e s'
      else if is_digit c
      then exponent_loop (if (e <? 10000)%Z then e * 10 + Z.of_N (byte c - 48) else e) s'
      else (e, s)
  end.

(** The optional exponent: [None] is a syntax error. *)
Definition read_exponent (base : Z) (s : string) : option (Z * string) :=
  match s with
  | String c s' =>
      if lower_is c (if (base =? 16)%Z then "p" else "e") then
        let neg := HasPrefix s' "-" in
        match drop_sign s' with
        | String d r =>
            if is_digit d then
              let '(e, rest) := exponent_loop 0 (String d r) in
              Some ((if neg then - e else e)%Z, rest)
            else None
        | EmptyString => None
        end
      else if (base =? 16)%Z then None else Some (0%Z, s)
  | EmptyString => if (base =? 16)%Z then None else Some (0%Z, s)
  end.

(** [m * b^k] rounded to the nearest binary64, ties to even. *)
Definition round_rational (neg : bool) (m : Z) (b k : Z) : float64 :=
  match m with
  | Z.pos p =>
      match k with
      | Z.neg _ =>
          let '(q, e, l) := SFdiv_core_binary 53 1024 m 0 (b ^ (- k)) 0 in
          binary_round_aux 53 1024 neg q e l
      | _ => binary_normalize 53 1024 ((if neg then - m else m) * b ^ k) 0 neg
      end
  | _ => S754_zero neg
  end.

(** [readFloat] and the rounding; [None] is a syntax or range error. *)
Definition ParseFloat (s : string) : option float64 :=
  match parse_special s with
  | Some f => Some f
  | None =>
      let neg := HasPrefix s "-" in
      let t := drop_sign s in
      let '(base, t) :=
        match t with
        | String z (String x (String y r)) =>
            if (Ascii.eqb z "0" && lower_is x "x")%bool then (16%Z, String y r) else (10%Z, t)
        | _ => (10%Z, t)
        end in
      let '(m, nd, dp, sawdot, sawdigits, rest) := mantissa_loop base 0 0 0 false false t in
      if negb sawdigits then None
      else
        let dp := if sawdot then dp else nd in
        '(e, rest) ← read_exponent base rest;
        if negb (String.eqb rest EmptyString) then None
        else if (bool_decide (is_Some (IndexByte s "_")) && negb (underscoreOK s))%bool then None
        else
          let f := if (base =? 16)%Z
                   then round_rational neg m 2 (4 * (dp - nd) + e)
                   else round_rational neg m 10 (dp - nd + e) in
          match f with S754_infinity _ => None | _ => Some f end
  end.

(** *** A quoted string is one field

    Reading up to the closing quote, skipping escaped characters. *)
Fixpoint scan_quoted (escaped : bool) (s : string) : option string :=
  match s with
  | EmptyString => None
  | String c s' =>
      if escaped then scan_quoted false s'
      else if Ascii.eqb c dquote then Some s'
      else if Ascii.eqb c backslash then scan_quoted true s'
      else scan_quoted false s'
  end.

Definition read_quoted (s : string) : option string :=
  match s with
  | String c s' => if Ascii.eqb c dquote then scan_quoted false s' else None
  | EmptyString => None
  end.

(** Not a control character. *)
Definition no_ctl (c : ascii) : bool := ((32 <=? byte c) && negb (byte c =? 127))%N.

(** A piece that does not end the field. *)
Definition quote_piece (p : string) : Prop :=
  string_forallb no_ctl p = true /\ forall t, scan_quoted false (p ++ t) = scan_quoted false t.

(** Bytes that stand for themselves. *)
Definition plain (c : ascii) : bool :=
  (no_ctl c && negb (Ascii.eqb c dquote) && negb (Ascii.eqb c backslash))%bool.

Lemma plain_piece p : string_forallb plain p = true -> quote_piece p.
Proof.
  induction p as [|c p IH]; intros Hp; [done|]. cbn in Hp. apply andb_prop in Hp as [Hc Hp].
  destruct (IH Hp) as [H1 H2]. unfold plain in Hc. apply andb_prop in Hc as [Hc Hb].
  apply andb_prop in Hc as [Hc Hq]. apply negb_true_iff in Hb, Hq. split; [cbn; by rewrite Hc, H1|].
  intros t. cbn [String.append scan_quoted]. rewrite Hq, Hb. apply H2.
Qed.

Lemma quote_piece_app p q : quote_piece p -> quote_piece q -> quote_piece (p ++ q).
Proof.
  intros [H1 H2] [H3 H4]. split; [by rewrite string_forallb_app, H1, H3|].
  intros t. by rewrite string_app_assoc, H2, H4.
Qed.

Lemma escape_piece c p : no_ctl c = true -> quote_piece p -> quote_piece (String backslash (String c p)).
Proof. intros Hc [H1 H2]. split; [cbn; by rewrite Hc, H1|]. intros t. cbn. apply H2. Qed.

Lemma hex_digit_plain n : (0 <= n < 16)%Z -> plain (hex_digit n) = true.
Proof.
  intros Hn. assert (Hall : Forall (fun k => plain (hex_digit k) = true) (seqZ 0 16)).
  { apply (bool_decide_unpack _). vm_compute. exact I. }
  rewrite Forall_forall in Hall. apply Hall, elem_of_seqZ. lia.
Qed.

Lemma hex_pad_plain w n : string_forallb plain (hex_pad w n) = true.
Proof.
  revert n. induction w as [|w IH]; intros n; [done|]. cbn [hex_pad]. rewrite string_forallb_app, IH.
  cbn [string_forallb]. rewrite hex_digit_plain; [done|].
  assert (Hm : (n mod 16 < 16)%N) by (apply N.mod_lt; done).
  revert Hm. generalize (n mod 16)%N. intros k Hk. lia.
Qed.

Lemma escape_hex_piece c w n : no_ctl c = true -> quote_piece (escape c +:+ hex_pad w n).
Proof. intros Hc. apply escape_piece; [done|]. apply plain_piece, hex_pad_plain. Qed.

(** A byte outside ASCII is plain. *)
Lemma high_plain c : (128 <= byte c)%N -> plain c = true.
Proof. destruct c as [[] [] [] [] [] [] [] []]; vm_compute; intuition congruence. Qed.

(** The encoding of a rune: one byte of ASCII, or bytes outside it. *)
Lemma DecodeRune_raw c s r w : DecodeRune (String c s) = (r, w) ->
  (w = 1 /\ (r = byte c /\ (byte c < 128)%N \/ r = RuneError)) \/
  (2 <= w /\ string_forallb plain (string_take w (String c s)) = true /\ (128 <= r)%N).
Proof.
  unfold DecodeRune. destruct (N.ltb_spec (byte c) 0x80) as [Hc|Hc].
  { intros [= <- <-]. left. auto. }
  destruct s as [|b s]; [intros [= <- <-]; left; auto|].
  assert (Hcont : forall x, cont (byte x) = true -> plain x = true).
  { intros x Hx. apply high_plain. unfold cont in Hx. apply andb_prop in Hx as [Hx%N.leb_le _]. done. }
  destruct ((0xC2 <=? byte c) && (byte c <=? 0xDF) && cont (byte b))%N eqn:E2.
  { intros [= <- <-]. right. repeat (apply andb_prop in E2 as [E2 ?]). split; [lia|]. cbn.
    rewrite (high_plain c) by done. rewrite (Hcont b) by done. split; [done|].
    apply N.leb_le in E2. unfold cont in *. apply andb_prop in H as [Hb _]. apply N.leb_le in Hb. lia. }
  destruct s as [|d s]; [intros [= <- <-]; left; auto|].
  assert (Hlo : forall x lo, (128 <= lo)%N -> (lo <=? byte x)%N = true -> plain x = true).
  { intros x lo Hl Hx. apply high_plain. apply N.leb_le in Hx. lia. }
  match goal with |- context [if ?b then (_, 3) else _] => destruct b eqn:E3 end.
  { intros [= <- <-]. right. repeat (apply andb_prop in E3 as [E3 ?]). split; [lia|]. cbn.
    rewrite (high_plain c) by done. rewrite (Hcont d) by done.
    rewrite (fun H => Hlo b _ H H1) by (destruct (byte c =? 0xE0)%N; lia). split; [done|].
    apply N.leb_le in E3. destruct (N.eqb_spec (byte c) 0xE0) as [He|He].
    - apply N.leb_le in H1. lia.
    - apply N.leb_le in H1. lia. }
  destruct s as [|e s]; [intros [= <- <-]; left; auto|].
  match goal with |- context [if ?b then (_, 4) else _] => destruct b eqn:E4 end.
  { intros [= <- <-]. right. repeat (apply andb_prop in E4 as [E4 ?]). split; [lia|]. cbn.
    rewrite (high_plain c) by done. rewrite (Hcont d), (Hcont e) by done.
    rewrite (fun H => Hlo b _ H H2) by (destruct (byte c =? 0xF0)%N; lia). split; [done|].
    apply N.leb_le in E4. destruct (N.eqb_spec (byte c) 0xF0) as [He|He].
    - apply N.leb_le in H2. lia.
    - apply N.leb_le in H2. lia. }
  intros [= <- <-]. left. auto.
Qed.

Section quote.
Context `{UnicodePrint}.

Lemma escape_rune_piece c s r w : DecodeRune (String c s) = (r, w) -> ~ (w = 1 /\ r = RuneError) ->
  quote_piece (escape_rune r (string_take w (String c s))).
Proof.
  intros Hd Hne. apply DecodeRune_raw in Hd as [[-> [[-> Hc]| ->]]|(Hw & Hp & Hr)]; [| |].
  - unfold escape_rune, IsPrint. cbn [string_take].
    destruct (N.ltb_spec (byte c) 0x80); [|lia]. clear Hne. clear H.
    destruct c as [[] [] [] [] [] [] [] []]; vm_compute in Hc; try discriminate Hc; vm_compute; split; done.
  - destruct Hne. done.
  - unfold escape_rune, IsPrint.
    destruct (N.eqb_spec r 34), (N.eqb_spec r 92), (N.ltb_spec r 0x80); try lia. cbn [orb].
    destruct (unicode_print r); [by apply plain_piece|].
    destruct (N.eqb_spec r 7), (N.eqb_spec r 8), (N.eqb_spec r 12), (N.eqb_spec r 10), (N.eqb_spec r 13),
      (N.eqb_spec r 9), (N.eqb_spec r 11), (N.ltb_spec r 32), (N.eqb_spec r 127); try lia. cbn [orb].
    destruct (r <? 0x10000)%N; by apply escape_hex_piece.
Qed.

Lemma quote_fuel_piece fuel s : quote_piece (quote_fuel fuel s).
Proof.
  revert s. induction fuel as [|fuel IH]; intros s; [by apply plain_piece|].
  cbn [quote_fuel]. destruct s as [|c s]; [by apply plain_piece|].
  destruct (DecodeRune (String c s)) as [r w] eqn:E. apply quote_piece_app; [|apply IH].
  destruct ((w =? 1)%nat && (r =? RuneError)%N)%bool eqn:Eb; [by apply escape_hex_piece|].
  eapply escape_rune_piece; [done|]. intros [-> ->]. discriminate Eb.
Qed.

(** Whatever the content, the quoted form is read back as one field and has no
    control character. *)
Lemma read_quoted_Quote s rest : read_quoted (Quote s ++ rest) = Some rest.
Proof.
  unfold Quote, read_quoted. cbn. rewrite string_app_assoc.
  destruct (quote_fuel_piece (String.length s) s) as [_ ->]. done.
Qed.

Lemma Quote_no_ctl s : string_forallb no_ctl (Quote s) = true.
Proof.
  unfold Quote. cbn. rewrite string_forallb_app.
  by destruct (quote_fuel_piece (String.length s) s) as [-> _].
Qed.
End quote.

(** ** utf8.ValidString *)

(** No invalid UTF-8 encoding. *)
Fixpoint utf8_fuel (fuel : nat) (s : string) : bool :=
  match fuel, s with
  | _, EmptyString => true
  | O, _ => false
  | S fuel', _ =>
      let '(r, w) := DecodeRune s in
      if ((w =? 1)%nat && (r =? RuneError)%N)%bool then false else utf8_fuel fuel' (string_drop w s)
  end.
Definition valid_utf8 (s : string) : bool := utf8_fuel (String.length s) s.

Lemma ascii_utf8 s : string_forallb is_ascii s = true -> valid_utf8 s = true.
Proof.
  unfold valid_utf8. induction s as [|c s IH]; [done|]. cbn [string_forallb]. intros [Hc Hs]%andb_prop.
  cbn [String.length utf8_fuel]. unfold DecodeRune. unfold is_ascii in Hc. apply N.ltb_lt in Hc.
  destruct (N.ltb_spec (byte c) 0x80); [|lia].
  cbn [string_drop]. destruct (N.eqb_spec (byte c) RuneError) as [He|_]; [|by apply IH].
  unfold RuneError in He. lia.
Qed.

Lemma graph_ascii s : string_forallb is_graph s = true -> string_forallb is_ascii s = true.
Proof.
  apply string_forallb_impl. intros c. unfold is_graph, is_ascii. rewrite andb_true_iff, !N.leb_le, N.ltb_lt. lia.
Qed.

Lemma graph_utf8 s : string_forallb is_graph s = true -> valid_utf8 s = true.
Proof. intros Hs. by apply ascii_utf8, graph_ascii. Qed.

Lemma Join_forallb f l sep : string_forallb f sep = true -> Forall (fun s => string_forallb f s = true) l ->
  string_forallb f (Join l sep) = true.
Proof.
  intros Hsep. induction 1 as [|x l Hx Hl IH]; [done|]. destruct l as [|y l]; [done|].
  change (Join (x :: y :: l) sep) with (x +:+ sep +:+ Join (y :: l) sep).
  by rewrite !string_forallb_app, Hx, Hsep, IH.
Qed.

(** A valid encoding is recognised by itself, whatever follows it. *)
Lemma DecodeRune_stable c s r w : DecodeRune (String c s) = (r, w) -> ~ (w = 1 /\ r = RuneError) ->
  String.length (string_take w (String c s)) = w /\
  string_take w (String c s) +:+ string_drop w (String c s) = String c s /\
  forall t, DecodeRune (string_take w (String c s) +:+ t) = (r, w).
Proof.
  intros Hd Hne. unfold DecodeRune in Hd. destruct (byte c <? 0x80)%N eqn:E1.
  { injection Hd as <- <-. split; [done|]. split; [done|]. intros t. cbn. by rewrite E1. }
  destruct s as [|b s]; [by injection Hd as <- <-; destruct Hne|].
  destruct ((0xC2 <=? byte c) && (byte c <=? 0xDF) && cont (byte b))%N eqn:E2.
  { injection Hd as <- <-. split; [done|]. split; [done|]. intros t. unfold DecodeRune; cbn [string_take String.append].
    by rewrite E1, E2. }
  destruct s as [|d s]; [by injection Hd as <- <-; destruct Hne|].
  match type of Hd with context [if ?b then (_, 3) else _] => destruct b eqn:E3 end.
  { injection Hd as <- <-. split; [done|]. split; [done|]. intros t. unfold DecodeRune; cbn [string_take String.append].
    by rewrite E1, E2, E3. }
  destruct s as [|e s]; [by injection Hd as <- <-; destruct Hne|].
  match type of Hd with context [if ?b then (_, 4) else _] => destruct b eqn:E4 end.
  { injection Hd as <- <-. split; [done|]. split; [done|]. intros t. unfold DecodeRune; cbn [string_take String.append].
    by rewrite E1, E2, E3, E4. }
  by injection Hd as <- <-; destruct Hne.
Qed.
