(* ===== verification/Whitelist.v ===== *)
(** * The whitelist (internal/core/whitelist)

    [Matcher] (user agents, addresses, networks and paths of the
    configuration), [IPCache] (verification results with two TTLs) and
    [Verifier] (reverse and forward DNS).  DNS answers come from an injected
    resolver, a parameter. *)

From Stdlib Require Import ZArith Lia Ascii String.
From stdpp Require Import base numbers option list strings gmap fin_maps.
From S2P Require Import Prelude GoStrings GoNet Model.

(** ** Configuration *)

Record BotConfig := mkBotConfig {
  bot_Name : string;
  bot_UAPatterns : list string;
  bot_RDNSDomains : list string;
  bot_VerifyMethod : string;
  bot_ExemptDetectors : list string
}.

Record CustomWhitelist := mkCustomWhitelist {
  cw_IPs : list string;
  cw_CIDRs : list string;
  cw_UASubstrings : list string;
  cw_Paths : list string
}.

(** ** Matcher *)

Record Matcher := mkMatcher {
  m_bots : list BotConfig;
  m_customIPs : gset string;
  m_customCIDRs : list IPNet;
  m_customUASubs : list string;
  m_customPaths : list string
}.

(** [inl cidr]: the first invalid CIDR. *)
Fixpoint parse_cidrs (cidrs : list string) : string + list IPNet :=
  match cidrs with
  | [] => inr []
  | c :: rest =>
      match ParseCIDR c with
      | None => inl c
      | Some n => match parse_cidrs rest with
                  | inl e => inl e
                  | inr ns => inr (n :: ns)
                  end
      end
  end.

Definition NewMatcher (bots : list BotConfig) (custom : CustomWhitelist) : string + Matcher :=
  match parse_cidrs (cw_CIDRs custom) with
  | inl bad => inl bad
  | inr nets =>
      inr (mkMatcher bots (list_to_set (cw_IPs custom)) nets (cw_UASubstrings custom)
             (cw_Paths custom))
  end.

Definition bot_matches (ua : string) (bot : BotConfig) : bool :=
  existsb (fun pattern => Contains ua pattern) (bot_UAPatterns bot).

Definition MatchBot (m : Matcher) (ua : string) : option BotConfig :=
  if String.eqb ua EmptyString then None
  else List.find (bot_matches ua) (m_bots m).

Definition IsWhitelistedIP (m : Matcher) (ip : string) : bool :=
  if bool_decide (ip ∈ m_customIPs m) then true
  else if (length (m_customCIDRs m) =? 0)%nat then false
  else match ParseIP ip with
       | None => false
       | Some parsed => existsb (fun cidr => IPNet_Contains cidr parsed) (m_customCIDRs m)
       end.

Definition IsWhitelistedUA (m : Matcher) (ua : string) : bool :=
  if String.eqb ua EmptyString then false
  else existsb (fun sub => Contains ua sub) (m_customUASubs m).

Definition path_entry_matches (path p : string) : bool :=
  if String.eqb p EmptyString then false
  else (String.eqb path p || HasPrefix path (p +:+ "/") || HasPrefix path (p +:+ "?"))%bool.

Definition IsWhitelistedPath (m : Matcher) (path : string) : bool :=
  if String.eqb path EmptyString then false
  else existsb (path_entry_matches path) (m_customPaths m).

(** ** IPCache *)

Record cacheEntry := mkCacheEntry {
  ce_verified : bool;
  ce_isFakeBot : bool;
  ce_expiresAt : Time
}.

Record IPCache := mkIPCache {
  entries : gmap string cacheEntry;
  positiveTTL : Duration;
  negativeTTL : Duration
}.

Definition NewIPCache (pos neg : Duration) : IPCache := mkIPCache ∅ pos neg.

Definition set_entries (c : IPCache) (m : gmap string cacheEntry) : IPCache :=
  mkIPCache m (positiveTTL c) (negativeTTL c).

(** First phase of [Get], under the read lock: a miss, a live entry, or an
    expired one that the second phase has to look at again. *)
Inductive GetPhase :=
  | PhaseMiss
  | PhaseHit (verified isFakeBot : bool)
  | PhaseExpired.

Definition Get_read (now : Time) (c : IPCache) (ip : string) : GetPhase :=
  match entries c !! ip with
  | None => PhaseMiss
  | Some e =>
      if negb (time_After now (ce_expiresAt e)) then PhaseHit (ce_verified e) (ce_isFakeBot e)
      else PhaseExpired
  end.

(** Second phase, under the write lock. *)
Definition Get_recheck (now : Time) (c : IPCache) (ip : string)
  : option (bool * bool) * IPCache :=
  match entries c !! ip with
  | Some e =>
      if negb (time_After now (ce_expiresAt e)) then (Some (ce_verified e, ce_isFakeBot e), c)
      else (None, set_entries c (delete ip (entries c)))
  | None => (None, c)
  end.

(** [Get] with no other goroutine between the phases. *)
Definition Get (now : Time) (c : IPCache) (ip : string) : option (bool * bool) * IPCache :=
  match Get_read now c ip with
  | PhaseMiss => (None, c)
  | PhaseHit v f => (Some (v, f), c)
  | PhaseExpired => Get_recheck now c ip
  end.

Definition Set_ (now : Time) (c : IPCache) (ip : string) (verified isFakeBot : bool) : IPCache :=
  let ttl := if verified then positiveTTL c else negativeTTL c in
  set_entries c (<[ip := mkCacheEntry verified isFakeBot (time_Add now ttl)]> (entries c)).

(** ** Verifier *)

(** The injected resolver; [None] is an error. *)
Record Resolver := mkResolver {
  LookupAddr : string -> option (list string);
  LookupHost : string -> option (list string)
}.

Definition with_dot (domain : string) : string :=
  if HasPrefix domain "." then domain else "." +:+ domain.

Definition matchesRDNSDomain (hostname : string) (domains : list string) : bool :=
  existsb (fun domain => HasSuffix hostname (with_dot domain)) domains.

(** One PTR record: domain check, then forward confirmation. *)
Definition ptr_confirms (r : Resolver) (ip : string) (bot : BotConfig) (hostname : string) : bool :=
  let hostname := TrimSuffix hostname "." in
  if negb (matchesRDNSDomain hostname (bot_RDNSDomains bot)) then false
  else match LookupHost r hostname with
       | None => false
       | Some addrs => existsb (fun addr => String.eqb addr ip) addrs
       end.

Definition verifyRDNS (r : Resolver) (ip : string) (bot : BotConfig) : bool :=
  match LookupAddr r ip with
  | None => false
  | Some hostnames =>
      if (length hostnames =? 0)%nat then false
      else existsb (ptr_confirms r ip bot) hostnames
  end.

(** (verified, isFakeBot) and the cache afterwards. The clock is read for the cache
    lookup and again, after the DNS queries, for the store ([done_at]). *)
Definition Verify (now done_at : Time) (r : Resolver) (c : IPCache) (ip : string) (bot : BotConfig)
  : bool * bool * IPCache :=
  match Get now c ip with
  | (Some (v, f), c1) => (v, f, c1)
  | (None, c1) =>
      let method := bot_VerifyMethod bot in
      if (String.eqb method "rdns" || String.eqb method "rdns_ipjson")%bool then
        let verified := verifyRDNS r ip bot in
        let isFakeBot := negb verified in
        (verified, isFakeBot, Set_ done_at c1 ip verified isFakeBot)
      else if String.eqb method "ua_only" then (false, false, c1)
      else if String.eqb method "ip_ranges" then (false, false, c1)
      else (false, false, c1)
  end.

(** ** The whitelist processor plugin (pkg/processorplugins/whitelist) *)

Record WhitelistProcessor := mkWhitelistProcessor {
  wl_matcher : Matcher;
  wl_cache : IPCache
}.

Definition NewWhitelistProcessor (bots : list BotConfig) (custom : CustomWhitelist)
    (positiveTTL negativeTTL : Duration) : string + WhitelistProcessor :=
  match NewMatcher bots custom with
  | inl e => inl ("whitelist: create matcher: " ++ e)%string
  | inr m => inr (mkWhitelistProcessor m (NewIPCache positiveTTL negativeTTL))
  end.

(** What happens to the event: an error of a cancelled context, a drop, or a
    pass; the result of a verification only ends up in the cache. *)
Inductive WhitelistVerdict := WLCancelled | WLDrop | WLPass.

Definition whitelist_Process (now done_at : Time) (cancelled : bool) (r : Resolver) (p : WhitelistProcessor)
    (entry : LogEntry) : WhitelistVerdict * WhitelistProcessor :=
  if cancelled then (WLCancelled, p)
  else if IsWhitelistedIP (wl_matcher p) (le_RealIP entry) then (WLDrop, p)
  else if IsWhitelistedUA (wl_matcher p) (le_UserAgent entry) then (WLDrop, p)
  else match MatchBot (wl_matcher p) (le_UserAgent entry) with
       | None => (WLPass, p)
       | Some bot =>
           let '(_, _, c) := Verify now done_at r (wl_cache p) (le_RealIP entry) bot in
           (WLPass, mkWhitelistProcessor (wl_matcher p) c)
       end.

(** ** Lemmas *)

Lemma parse_cidrs_spec cidrs :
  match parse_cidrs cidrs with
  | inr ns => ParseCIDR <$> cidrs = Some <$> ns
  | inl bad => bad ∈ cidrs /\ ParseCIDR bad = None
  end.
Proof.
  induction cidrs as [|c cidrs IH]; cbn [parse_cidrs]; [done|].
  destruct (ParseCIDR c) as [n|] eqn:E.
  - destruct (parse_cidrs cidrs) as [bad|ns].
    + destruct IH. split; [by right|done].
    + rewrite !fmap_cons, IH. by rewrite E.
  - split; [by left|done].
Qed.

Lemma ptr_confirms_spec r ip bot hostname :
  ptr_confirms r ip bot hostname = true <->
  let h := TrimSuffix hostname "." in
  (exists d q, d ∈ bot_RDNSDomains bot /\ h = q +:+ with_dot d) /\
  exists addrs, LookupHost r h = Some addrs /\ ip ∈ addrs.
Proof.
  unfold ptr_confirms, matchesRDNSDomain. cbn zeta. set (h := TrimSuffix hostname ".").
  assert (Hm : existsb (fun domain => HasSuffix h (with_dot domain)) (bot_RDNSDomains bot) = true <->
               exists d q, d ∈ bot_RDNSDomains bot /\ h = q +:+ with_dot d).
  { rewrite existsb_exists. split.
    - intros (d & Hd & [q Hq]%HasSuffix_spec). exists d, q. by rewrite list_elem_of_In.
    - intros (d & q & Hd & Hq). exists d. rewrite <- list_elem_of_In. split; [done|].
      apply HasSuffix_spec. by exists q. }
  destruct (existsb _ (bot_RDNSDomains bot)); cbn [negb].
  2: { split; [done|]. intros [Hx _]. by apply Hm in Hx. }
  destruct (LookupHost r h) as [addrs|].
  - rewrite existsb_exists. split.
    + intros (a & Ha & ->%String.eqb_eq). split; [by apply Hm|]. exists addrs.
      by rewrite list_elem_of_In.
    + intros [_ (addrs' & [= <-] & Ha)]. exists ip. rewrite String.eqb_refl.
      by rewrite <- list_elem_of_In.
  - split; [done|]. by intros [_ (? & ? & _)].
Qed.

Lemma verifyRDNS_spec r ip bot :
  verifyRDNS r ip bot = true <->
  exists hs hostname, LookupAddr r ip = Some hs /\ hostname ∈ hs /\
    ptr_confirms r ip bot hostname = true.
Proof.
  unfold verifyRDNS. destruct (LookupAddr r ip) as [hs|].
  - destruct (Nat.eqb_spec (length hs) 0) as [Hz|Hz].
    + destruct hs; [|done]. split; [done|]. intros (? & ? & [= <-] & Hx & _). inversion Hx.
    + rewrite existsb_exists. split.
      * intros (h & Hh & Hp). exists hs, h. by rewrite list_elem_of_In.
      * intros (? & h & [= <-] & Hh & Hp). exists h. by rewrite <- list_elem_of_In.
  - split; [done|]. by intros (? & ? & ? & _).
Qed.

Lemma Get_Set now now' c ip v f :
  let c' := Set_ now c ip v f in
  let ttl := if v then positiveTTL c else negativeTTL c in
  Get now' c' ip =
    if (now' <=? now + ttl)%Z then (Some (v, f), c')
    else (None, set_entries c' (delete ip (entries c'))).
Proof.
  cbn zeta. unfold Get, Get_read, Get_recheck, Set_, time_After, time_Add.
  cbn [entries set_entries]. rewrite lookup_insert_eq. cbn [ce_expiresAt ce_verified ce_isFakeBot].
  rewrite <- Z.leb_antisym. by destruct (now' <=? _)%Z.
Qed.

Lemma Get_ttl now c ip :
  positiveTTL (snd (Get now c ip)) = positiveTTL c /\
  negativeTTL (snd (Get now c ip)) = negativeTTL c.
Proof. unfold Get, Get_read, Get_recheck. by repeat case_match_goal. Qed.

Lemma Verify_miss_rdns now done_at r c ip bot :
  fst (Get now c ip) = None ->
  bot_VerifyMethod bot = "rdns" \/ bot_VerifyMethod bot = "rdns_ipjson" ->
  Verify now done_at r c ip bot =
    (verifyRDNS r ip bot, negb (verifyRDNS r ip bot),
     Set_ done_at (snd (Get now c ip)) ip (verifyRDNS r ip bot) (negb (verifyRDNS r ip bot))).
Proof.
  intros Hm Hmeth. unfold Verify. destruct (Get now c ip) as [o c1]. simpl in Hm. subst o.
  by destruct Hmeth as [-> | ->].
Qed.

(** ** Properties *)

(** C26: Verification of an rDNS bot on a cache miss: it succeeds exactly when a
    PTR record of the address lies under an allowed domain (ends with a dot and
    the domain) and the forward lookup of that host returns the address; a
    failure marks a fake bot; and the outcome is what every later request of
    that address gets, without any DNS lookup, until the TTL of the outcome,
    counted from its store, expires. *)
Theorem verify_rdns_exact now done_at r c ip bot :
  fst (Get now c ip) = None ->
  bot_VerifyMethod bot = "rdns" \/ bot_VerifyMethod bot = "rdns_ipjson" ->
  let '(v, f, c') := Verify now done_at r c ip bot in
  (v = true <->
   exists hs hostname, LookupAddr r ip = Some hs /\ hostname ∈ hs /\
     (exists d q, d ∈ bot_RDNSDomains bot /\ TrimSuffix hostname "." = q +:+ with_dot d) /\
     exists addrs, LookupHost r (TrimSuffix hostname ".") = Some addrs /\ ip ∈ addrs) /\
  f = negb v /\
  (forall now' done_at' r' bot', (now' <= done_at + (if v then positiveTTL c else negativeTTL c))%Z ->
     Verify now' done_at' r' c' ip bot' = (v, f, c')).
Proof.
  intros Hm Hmeth. rewrite (Verify_miss_rdns now done_at r c ip bot Hm Hmeth).
  split; [|split; [done|]].
  - rewrite verifyRDNS_spec. split; intros (hs & h & H1 & H2 & H3); exists hs, h;
      (split; [done|]); (split; [done|]); by apply ptr_confirms_spec.
  - intros now' done_at' r' bot' Hle. destruct (Get_ttl now c ip) as [Hp Hn].
    unfold Verify. rewrite Get_Set, Hp, Hn. by rewrite (proj2 (Z.leb_le _ _) Hle).
Qed.

(** A host name matches an allowed domain only at a label boundary: it ends
    with a dot followed by the domain (without its optional leading dot), so a
    host such as evilgooglebot.com never matches googlebot.com. *)
Theorem rdns_domain_label_boundary hostname domains :
  matchesRDNSDomain hostname domains = true <->
  exists d q, d ∈ domains /\ hostname = q +:+ "." +:+ TrimPrefix d ".".
Proof.
  assert (Hd : forall d, with_dot d = "." +:+ TrimPrefix d ".").
  { intros d. unfold with_dot, TrimPrefix. destruct (HasPrefix d ".") eqn:E; [|done].
    apply HasPrefix_spec in E as [q ->]. done. }
  unfold matchesRDNSDomain. rewrite existsb_exists. split.
  - intros (d & Hin & [q Hq]%HasSuffix_spec). exists d, q. rewrite list_elem_of_In, <- Hd. done.
  - intros (d & q & Hin & Hq). exists d. rewrite <- list_elem_of_In. split; [done|].
    apply HasSuffix_spec. exists q. by rewrite Hd.
Qed.

(** The DNS cache: an entry is returned up to and including its expiry with
    the TTL of its outcome, later reads miss and remove it, no read ever returns
    an expired entry, and a store that happens between the two phases of a
    read is neither removed nor missed. *)
Theorem dns_cache_ttl now now' c ip v f :
  let c' := Set_ now c ip v f in
  let expiry := (now + if v then positiveTTL c else negativeTTL c)%Z in
  ((now' <= expiry)%Z -> Get now' c' ip = (Some (v, f), c') /\
                         Get_recheck now' c' ip = (Some (v, f), c')) /\
  ((expiry < now')%Z -> fst (Get now' c' ip) = None /\
                        entries (snd (Get now' c' ip)) = delete ip (entries c)) /\
  (forall ip', ip' <> ip -> Get_read now' c' ip' = Get_read now' c ip') /\
  (forall r, fst (Get now' c ip) = Some r ->
     exists e, entries c !! ip = Some e /\ (now' <= ce_expiresAt e)%Z /\
               r = (ce_verified e, ce_isFakeBot e)).
Proof.
  cbn zeta. rewrite Get_Set. repeat split.
  - by rewrite (proj2 (Z.leb_le _ _)).
  - unfold Get_recheck, Set_, time_After, time_Add. cbn [entries set_entries].
    rewrite lookup_insert_eq. cbn [ce_expiresAt ce_verified ce_isFakeBot].
    by rewrite <- Z.leb_antisym, (proj2 (Z.leb_le _ _)).
  - by rewrite (proj2 (Z.leb_gt _ _)).
  - rewrite (proj2 (Z.leb_gt _ _)) by done. simpl. by rewrite delete_insert_eq.
  - intros ip' Hne. unfold Get_read, Set_. cbn [entries set_entries].
    by rewrite lookup_insert_ne.
  - unfold Get, Get_read, Get_recheck, time_After. intros r.
    destruct (entries c !! ip) as [e|]; [|done]. rewrite <- Z.leb_antisym.
    destruct (Z.leb_spec now' (ce_expiresAt e)); simpl; [|done].
    intros [= <-]. by exists e.
Qed.

(** Custom address whitelist: an address is whitelisted exactly when it is
    listed verbatim or parses and lies in one of the configured networks, and
    building the matcher fails exactly when some configured network is
    malformed. *)
Theorem whitelist_ip_exact bots custom :
  match NewMatcher bots custom with
  | inl bad => bad ∈ cw_CIDRs custom /\ ParseCIDR bad = None
  | inr m =>
      Forall (fun c => is_Some (ParseCIDR c)) (cw_CIDRs custom) /\
      forall ip, IsWhitelistedIP m ip = true <->
        ip ∈ cw_IPs custom \/
        exists c net a, c ∈ cw_CIDRs custom /\ ParseCIDR c = Some net /\
          ParseIP ip = Some a /\ IPNet_Contains net a = true
  end.
Proof.
  unfold NewMatcher. pose proof (parse_cidrs_spec (cw_CIDRs custom)) as Hp.
  destruct (parse_cidrs (cw_CIDRs custom)) as [bad|ns]; [done|].
  assert (Hin : forall net, net ∈ ns <-> exists c, c ∈ cw_CIDRs custom /\ ParseCIDR c = Some net).
  { intros net. assert (Some net ∈ Some <$> ns <-> net ∈ ns) as <-.
    { rewrite list_elem_of_fmap. split; [by intros (? & [= ->] & ?)|by exists net]. }
    rewrite <- Hp, list_elem_of_fmap. split; intros (c & H1 & H2); exists c; auto. }
  split.
  - apply Forall_forall. intros c Hc. assert (H : ParseCIDR c ∈ ParseCIDR <$> cw_CIDRs custom)
      by by apply list_elem_of_fmap_2.
    rewrite Hp in H. apply list_elem_of_fmap in H as (n & -> & _). by exists n.
  - intros ip. unfold IsWhitelistedIP. cbn [m_customIPs m_customCIDRs].
    destruct (bool_decide _) eqn:Eb; [apply bool_decide_eq_true in Eb|apply bool_decide_eq_false in Eb];
      rewrite elem_of_list_to_set in Eb; [tauto|].
    destruct (Nat.eqb_spec (length ns) 0) as [Hz|Hz].
    { destruct ns; [|done]. split; [done|]. intros [?|(c & net & a & Hc & Hn & _)]; [done|].
      exfalso. assert (net ∈ @nil IPNet) as Hx by (apply Hin; by exists c). inversion Hx. }
    destruct (ParseIP ip) as [a|].
    + rewrite existsb_exists. split.
      * intros (net & Hn & Hc). apply list_elem_of_In, Hin in Hn as (c & Hc1 & Hc2).
        right. by exists c, net, a.
      * intros [?|(c & net & a' & Hc & Hn & [= <-] & Hcont)]; [done|]. exists net.
        rewrite <- list_elem_of_In, Hin. split; [by exists c|done].
    + split; [done|]. intros [?|(? & ? & ? & _ & _ & ? & _)]; done.
Qed.

(** Path whitelist entries match at segment boundaries only: a path is
    whitelisted exactly when it equals an entry or continues it with a slash or
    a question mark, so /adminX is not covered by the entry /admin. *)
Theorem whitelist_path_boundary m path :
  IsWhitelistedPath m path = true <->
  path <> EmptyString /\
  exists p, p ∈ m_customPaths m /\ p <> EmptyString /\
    (path = p \/ exists c rest, path = p +:+ String c rest /\ (c = "/" \/ c = "?")%char).
Proof.
  unfold IsWhitelistedPath. destruct (String.eqb_spec path EmptyString) as [He|He].
  { split; [done|]. by intros [? _]. }
  rewrite existsb_exists.
  assert (Hm : forall p, path_entry_matches path p = true <-> p <> EmptyString /\
    (path = p \/ exists c rest, path = p +:+ String c rest /\ (c = "/" \/ c = "?")%char)).
  { intros p. unfold path_entry_matches. destruct (String.eqb_spec p EmptyString) as [Hp|Hp].
    { split; [done|]. by intros [? _]. }
    rewrite !orb_true_iff, String.eqb_eq, !HasPrefix_spec. split.
    - intros [[?|[r ->]]|[r ->]]; (split; [done|]); [by left|right..].
      + exists "/"%char, r. rewrite string_app_assoc. split; [done|by left].
      + exists "?"%char, r. rewrite string_app_assoc. split; [done|by right].
    - intros [_ [?|(c & r & Heq & [-> | ->])]]; [by left; left|left; right|right];
        exists r; by rewrite string_app_assoc. }
  split.
  - intros (p & Hin & Hp%Hm). split; [done|]. exists p. rewrite list_elem_of_In. tauto.
  - intros [_ (p & Hin & Hp)]. exists p. rewrite <- list_elem_of_In. split; [done|]. by apply Hm.
Qed.

(** The verification cache is keyed by address only: once an address has
    been verified or refused for one bot, any other bot name it announces gets
    the same answer until the entry expires, whatever that bot's method and
    domains. In particular a bot whose method never penalises is reported as a
    fake bot after a failed rDNS check for another bot. *)
Theorem verify_cache_shared_between_bots now done_at now' done_at' r r' c ip botA botB :
  fst (Get now c ip) = None -> bot_VerifyMethod botA = "rdns" ->
  verifyRDNS r ip botA = false -> bot_VerifyMethod botB = "ip_ranges" ->
  (now' <= done_at + negativeTTL c)%Z ->
  fst (Verify now' done_at' r' (snd (Verify now done_at r c ip botA)) ip botB) = (false, true).
Proof.
  intros Hm HA Hf HB Hle. rewrite (Verify_miss_rdns now done_at r c ip botA Hm (or_introl HA)), Hf.
  cbn [snd negb]. unfold Verify. rewrite Get_Set, (proj2 (Get_ttl now c ip)).
  by rewrite (proj2 (Z.leb_le _ _) Hle).
Qed.

(** ** Witnesses *)

Definition ex_google : BotConfig :=
  mkBotConfig "Googlebot" ["Googlebot"] [".googlebot.com"; "google.com"] "rdns" [].
Definition ex_facebook : BotConfig :=
  mkBotConfig "Facebook" ["facebookexternalhit"] [] "ip_ranges" [].
Definition ex_resolver : Resolver :=
  mkResolver
    (fun ip => if String.eqb ip "66.249.66.1" then Some ["crawl-1.googlebot.com."]
               else Some ["evilgooglebot.com."])
    (fun h => if String.eqb h "crawl-1.googlebot.com" then Some ["66.249.66.1"] else None).
Definition ex_cache : IPCache := NewIPCache (24 * hour) (5 * minute).

Lemma verify_rdns_exact_witness :
  let '(v, f, c') := Verify 1000 1500 ex_resolver ex_cache "66.249.66.1" ex_google in
  v = true /\ f = false /\
  Verify 2000 2500 (mkResolver (fun _ => None) (fun _ => None)) c' "66.249.66.1" ex_google = (v, f, c').
Proof.
  pose proof (verify_rdns_exact 1000 1500 ex_resolver ex_cache "66.249.66.1" ex_google eq_refl
                (or_introl eq_refl)) as HV.
  assert (Hv : fst (fst (Verify 1000 1500 ex_resolver ex_cache "66.249.66.1" ex_google)) = true)
    by (vm_compute; reflexivity).
  destruct (Verify 1000 1500 _ _ _ _) as [[v f] c']. simpl in Hv. subst v.
  destruct HV as (_ & Hf & Hc). split; [reflexivity|]. split; [exact Hf|].
  apply Hc. vm_compute. discriminate.
Defined.

Lemma verify_cache_shared_between_bots_witness :
  fst (Verify 2000 2500 ex_resolver (snd (Verify 1000 1500 ex_resolver ex_cache "9.9.9.9" ex_google))
         "9.9.9.9" ex_facebook) = (false, true) /\
  fst (Verify 2000 2500 ex_resolver ex_cache "9.9.9.9" ex_facebook) = (false, false).
Proof.
  split; [|vm_compute; reflexivity].
  apply (verify_cache_shared_between_bots 1000 1500 2000 2500 ex_resolver ex_resolver ex_cache "9.9.9.9"
           ex_google ex_facebook); vm_compute; congruence.
Defined.

Example rdns_boundary_ex :
  matchesRDNSDomain "evilgooglebot.com" ["googlebot.com"] = false /\
  matchesRDNSDomain "crawl.googlebot.com" ["googlebot.com"] = true.
Proof. split; vm_compute; reflexivity. Qed.
