(* ===== verification/GoValues.v ===== *)
(** * Dynamic values and durations

    The [map\[string\]any] parameters of a plugin, as decoded from YAML, with
    the type assertions the sources make on them; and [time.ParseDuration]. *)

From Stdlib Require Import ZArith Lia Ascii String Floats.SpecFloat.
From stdpp Require Import base numbers option list strings gmap.
From S2P Require Import Prelude GoFloat GoStrings.

(** The dynamic types that occur. *)
Inductive GoAny :=
  | AnyBool (b : bool)
  | AnyInt (z : Z)
  | AnyInt64 (z : Z)
  | AnyFloat (f : float64)
  | AnyString (s : string)
  | AnyDuration (d : Duration)
  | AnyStrings (l : list string)
  | AnyList (l : list GoAny)
  | AnyMap (m : list (string * GoAny))
  | AnyNil.

Abbreviation Params := (gmap string GoAny) (only parsing).

(** ** time.ParseDuration *)

(** [leadingInt]: digits, [None] on overflow of 2^63. *)
Fixpoint leadingInt (x : Z) (s : string) : option (Z * string) :=
  match s with
  | EmptyString => Some (x, s)
  | String c s' =>
      if negb (is_digit c) then Some (x, s)
      else if (2 ^ 63 / 10 <? x)%Z then None
      else let x' := (x * 10 + Z.of_N (byte c - 48))%Z in
           if (2 ^ 63 <? x')%Z then None else leadingInt x' s'
  end.

(** [leadingFraction]: value, scale and rest; digits past overflow are dropped. *)
Fixpoint leadingFraction (x : Z) (scale : float64) (overflow : bool) (s : string)
  : Z * float64 * string :=
  match s with
  | EmptyString => (x, scale, s)
  | String c s' =>
      if negb (is_digit c) then (x, scale, s)
      else if overflow then leadingFraction x scale overflow s'
      else if ((2 ^ 63 - 1) / 10 <? x)%Z then leadingFraction x scale true s'
      else let y := (x * 10 + Z.of_N (byte c - 48))%Z in
           if (2 ^ 63 <? y)%Z then leadingFraction x scale true s'
           else leadingFraction y (f_mul scale (f_of_Z 10)) overflow s'
  end.

(** The unit name: up to a dot or a digit. *)
Fixpoint unit_span (s : string) : string * string :=
  match s with
  | EmptyString => (EmptyString, EmptyString)
  | String c s' =>
      if (Ascii.eqb c "." || is_digit c)%bool then (EmptyString, s)
      else let '(u, r) := unit_span s' in (String c u, r)
  end.

(** U+00B5 and U+03BC, both accepted as micro. *)
Definition micro1 : string := String (ascii_of_N 0xC2) (String (ascii_of_N 0xB5) "s").
Definition micro2 : string := String (ascii_of_N 0xCE) (String (ascii_of_N 0xBC) "s").

Definition unit_of (u : string) : option Z :=
  if String.eqb u "ns" then Some 1%Z
  else if (String.eqb u "us" || String.eqb u micro1 || String.eqb u micro2)%bool then Some 1000%Z
  else if String.eqb u "ms" then Some 1000000%Z
  else if String.eqb u "s" then Some second
  else if String.eqb u "m" then Some minute
  else if String.eqb u "h" then Some hour
  else None.

(** The loop over number-unit pairs; [fuel] bounds it by the length, each round
    consumes at least one byte. *)
Fixpoint parse_duration_loop (fuel : nat) (s : string) (d : Z) : option Z :=
  match fuel with
  | O => None
  | S fuel' =>
      if String.eqb s EmptyString then Some d
      else
        if negb (HasPrefix s "." || match s with String c _ => is_digit c | _ => false end) then None
        else
          '(v, s1) ← leadingInt 0 s;
          let pre := negb (String.length s1 =? String.length s)%nat in
          let '(f, scale, s2, post) :=
            if HasPrefix s1 "." then
              let s1' := string_drop 1 s1 in
              let '(f, scale, s2) := leadingFraction 0 f_one false s1' in
              (f, scale, s2, negb (String.length s2 =? String.length s1')%nat)
            else (0%Z, f_one, s1, false) in
          if negb (pre || post) then None
          else
            let '(u, s3) := unit_span s2 in
            if String.eqb u EmptyString then None
            else
              unit ← unit_of u;
              if (2 ^ 63 / unit <? v)%Z then None
              else
                let v1 := (v * unit)%Z in
                let v2 := if (0 <? f)%Z
                          then (v1 + f_to_int (f_mul (f_of_Z f) (f_div (f_of_Z unit) scale)))%Z
                          else v1 in
                if (2 ^ 63 <? v2)%Z then None
                else
                  let d' := (d + v2)%Z in
                  if (2 ^ 63 <? d')%Z then None else parse_duration_loop fuel' s3 d'
  end.

Definition ParseDuration (s : string) : option Duration :=
  if String.eqb s EmptyString then None
  else
    let neg := HasPrefix s "-" in
    let s1 := if (HasPrefix s "-" || HasPrefix s "+")%bool then string_drop 1 s else s in
    if String.eqb s1 "0" then Some 0%Z
    else if String.eqb s1 EmptyString then None
    else
      d ← parse_duration_loop (S (String.length s1)) s1 0;
      if neg then Some (- d)%Z
      else if (int64_max <? d)%Z then None else Some d.

Example duration_examples :
  ParseDuration "1h30m" = Some (90 * minute)%Z /\ ParseDuration "1.5s" = Some 1500000000%Z /\
  ParseDuration "300ms" = Some 300000000%Z /\ ParseDuration "-2m" = Some (-120 * second)%Z /\
  ParseDuration "10" = None /\ ParseDuration "" = None /\ ParseDuration "0" = Some 0%Z /\
  ParseDuration "s" = None.
Proof. repeat split; vm_compute; reflexivity. Qed.

(** ** Parameter getters of the chaincheck processor
    (pkg/processorplugins/chaincheck/register.go); [None] is a nil map. *)

Definition boolParam (params : option Params) (key : string) (fallback : bool) : bool :=
  match params with
  | None => fallback
  | Some m => match m !! key with
              | Some (AnyBool b) => b
              | _ => fallback
              end
  end.

Definition durationParam (params : option Params) (key : string) (fallback : Duration) : Duration :=
  match params with
  | None => fallback
  | Some m => match m !! key with
              | Some (AnyString s) => match ParseDuration s with
                                      | Some d => d
                                      | None => fallback
                                      end
              | _ => fallback
              end
  end.

Definition any_string (a : GoAny) : option string :=
  match a with AnyString s => Some s | _ => None end.

Definition stringSliceParam (params : option Params) (key : string) (fallback : list string)
  : list string :=
  match params with
  | None => fallback
  | Some m => match m !! key with
              | Some (AnyList raw) =>
                  let out := omap any_string raw in
                  if (length out =? 0)%nat then fallback else out
              | _ => fallback
              end
  end.
