(* ===== verification/GoTime.v ===== *)
(** * Printing numbers, durations and times

    [strconv.Itoa] against its parsers, [time.Duration.String], and
    [time.Time.Format] with the RFC 3339 layouts for UTC times. *)

From Stdlib Require Import ZArith Lia Ascii String Floats.SpecFloat.
From stdpp Require Import base numbers option list strings pretty.
From S2P Require Import Prelude GoFloat GoStrings GoValues.

Local Open Scope Z_scope.

(** ** Decimal digits *)

Lemma pretty_char_digit x : (x < 10)%N ->
  is_digit (pretty_N_char x) = true /\ Z.of_N (byte (pretty_N_char x) - 48) = Z.of_N x.
Proof.
  intros Hx. assert (x = 0 \/ x = 1 \/ x = 2 \/ x = 3 \/ x = 4 \/ x = 5 \/ x = 6 \/ x = 7 \/ x = 8 \/ x = 9)%N
    as Hc by lia.
  by repeat (destruct Hc as [->|Hc]; [done|]); subst.
Qed.

Lemma digits_val_app acc a b : digits_val acc (a ++ b)%string = digits_val (digits_val acc a) b.
Proof. revert acc. induction a as [|c a IH]; intros acc; [done|]. cbn. apply IH. Qed.

Lemma digits_val_ge acc ds : 0 <= acc -> acc <= digits_val acc ds.
Proof.
  revert acc. induction ds as [|c ds IH]; intros acc Ha; cbn [digits_val]; [lia|].
  etransitivity; [|apply IH]; lia.
Qed.

Lemma pretty_go_digits x s : exists ds, pretty_N_go x s = (ds ++ s)%string /\
  string_forallb is_digit ds = true /\ digits_val 0 ds = Z.of_N x /\ ((0 < x)%N -> ds <> EmptyString).
Proof.
  revert s. induction (N.lt_wf_0 x) as [x _ IH]. intros s.
  destruct (decide (x = 0)%N) as [->|Hx]; [exists EmptyString; by rewrite pretty_N_go_0|].
  rewrite pretty_N_go_step by lia.
  assert (Hlt : (x `div` 10 < x)%N) by (apply N.div_lt; lia).
  destruct (IH _ Hlt (String (pretty_N_char (x `mod` 10)) s)) as (ds & -> & Hd & Hv & _).
  assert (Hm : (x `mod` 10 < 10)%N) by (apply N.mod_lt; lia).
  destruct (pretty_char_digit _ Hm) as [Hc Hz].
  exists (ds ++ String (pretty_N_char (x `mod` 10)) EmptyString)%string.
  split; [by rewrite string_app_assoc|]. split; [by rewrite string_forallb_app, Hd; cbn; rewrite Hc|].
  split; [|intros _; by destruct ds].
  rewrite digits_val_app, Hv. cbn [digits_val]. rewrite Hz.
  rewrite N2Z.inj_div, N2Z.inj_mod. pose proof (Z.div_mod (Z.of_N x) (Z.of_N 10)). lia.
Qed.

Lemma Itoa_nonneg n : 0 <= n -> string_forallb is_digit (Itoa n) = true /\
  digits_val 0 (Itoa n) = n /\ Itoa n <> EmptyString.
Proof.
  intros Hn. destruct n as [|p|p]; [done| |lia].
  change (Itoa (Z.pos p)) with (pretty_N_go (N.pos p) EmptyString).
  destruct (pretty_go_digits (N.pos p) EmptyString) as (ds & -> & Hd & Hv & Hne).
  rewrite string_app_nil_r. repeat split; [done|done|]. by apply Hne.
Qed.

(** [strconv.Atoi] reads back what [strconv.Itoa] prints. *)
Lemma Atoi_Itoa n : in_int64 n -> Atoi (Itoa n) = Some n.
Proof.
  intros Hn. unfold Atoi, atoi_digits. unfold in_int64 in Hn.
  assert (Hr : ((int64_min <=? n) && (n <=? int64_max))%Z = true)
    by (apply andb_true_iff; split; apply Z.leb_le; lia).
  destruct (decide (0 <= n)) as [Hp|Hp].
  - destruct (Itoa_nonneg n Hp) as (Hd & Hv & Hne). destruct (Itoa n) as [|c s] eqn:E; [done|].
    assert (Hc : is_digit c = true) by (cbn in Hd; by apply andb_prop in Hd as [? _]).
    assert (Hm : HasPrefix (String c s) "-" = false /\ HasPrefix (String c s) "+" = false).
    { clear -Hc. destruct c as [[] [] [] [] [] [] [] []]; first [discriminate Hc | done]. }
    destruct Hm as [-> ->]. rewrite Hd. cbn [orb negb String.eqb]. by rewrite Hv, Hr.
  - destruct n as [|p|p]; [lia|lia|].
    change (Itoa (Z.neg p)) with (String "-" (pretty_N_go (N.pos p) EmptyString)).
    destruct (pretty_go_digits (N.pos p) EmptyString) as (ds & -> & Hd & Hv & Hne).
    rewrite string_app_nil_r. cbn [HasPrefix string_drop]. rewrite Ascii.eqb_refl. cbn [andb].
    replace (String.eqb ds EmptyString) with false by (symmetry; apply String.eqb_neq; by apply Hne).
    rewrite Hd. cbn [orb negb]. cbv zeta. rewrite Hv. change (- Z.of_N (N.pos p)) with (Z.neg p). by rewrite Hr.
Qed.

(** A run of digits followed by something else is read as its value. *)
Definition no_digit_head (s : string) : bool :=
  match s with String c _ => negb (is_digit c) | EmptyString => true end.

Lemma leadingInt_digits acc ds rest : string_forallb is_digit ds = true -> no_digit_head rest = true ->
  0 <= acc -> digits_val acc ds <= 2 ^ 63 ->
  leadingInt acc (ds ++ rest)%string = Some (digits_val acc ds, rest).
Proof.
  revert acc. induction ds as [|c ds IH]; intros acc Hd Hr Ha Hv; cbn in Hd |- *.
  - destruct rest as [|c rest]; [done|]. cbn in Hr |- *. by rewrite Hr.
  - apply andb_prop in Hd as [Hc Hd]. rewrite Hc. cbn [negb].
    set (y := (acc * 10 + Z.of_N (byte c - 48))) in *.
    assert (Hy0 : 0 <= y) by (unfold y; lia).
    assert (Hy : y <= digits_val y ds) by (by apply digits_val_ge).
    change (digits_val acc (String c ds)) with (digits_val y ds) in Hv.
    change (2 ^ 63 / 10) with 922337203685477580.
    assert (Hy1 : acc * 10 <= y) by (unfold y; lia).
    destruct (Z.ltb_spec 922337203685477580 acc); [lia|].
    destruct (Z.ltb_spec (2 ^ 63) y); [lia|]. apply IH; [done..|lia|done].
Qed.

(** ** time.Duration.String *)

(** [fmtFrac]: the fraction of [v / 10^prec] without trailing zeros, and the
    integer part. *)
Fixpoint fmtFrac (prec : nat) (v : Z) (acc : string) (print : bool) : string * Z :=
  match prec with
  | O => (if print then String "." acc else acc, v)
  | S p =>
      let digit := v mod 10 in
      let print' := (print || negb (digit =? 0))%bool in
      fmtFrac p (v / 10) (if print' then String (ascii_of_N (Z.to_N (digit + 48))) acc else acc) print'
  end.

(** Micro is printed with the U+00B5 sign. *)
Definition Duration_String (d : Duration) : string :=
  let u := Z.abs d in
  let body :=
    if u <? second then
      if u =? 0 then "0s"%string
      else
        let '(prec, unit) :=
          if u <? 1000 then (0%nat, "ns"%string)
          else if u <? 1000000 then (3%nat, micro1)
          else (6%nat, "ms"%string) in
        let '(frac, v) := fmtFrac prec u unit false in (Itoa v ++ frac)%string
    else
      let '(frac, v) := fmtFrac 9 u "s" false in
      let s := (Itoa (v mod 60) ++ frac)%string in
      let m := v / 60 in
      if 0 <? m then
        let s := (Itoa (m mod 60) ++ "m" ++ s)%string in
        if 0 <? m / 60 then (Itoa (m / 60) ++ "h" ++ s)%string else s
      else s in
  if d <? 0 then String "-" body else body.

Example duration_string_examples :
  Duration_String (90 * minute) = "1h30m0s"%string /\ Duration_String (60 * second) = "1m0s"%string /\
  Duration_String 1500000000 = "1.5s"%string /\ Duration_String 300000000 = "300ms"%string /\
  Duration_String (-2 * minute) = "-2m0s"%string /\ Duration_String 0 = "0s"%string /\
  Duration_String 1500 = ("1.5" ++ micro1)%string /\ Duration_String 100000 = ("100" ++ micro1)%string /\
  Duration_String 7 = "7ns"%string /\ Duration_String int64_min = "-2562047h47m16.854775808s"%string.
Proof. repeat split; vm_compute; reflexivity. Qed.

(** *** Durations of whole seconds read back *)

Lemma fmtFrac_seconds v : 0 <= v -> fmtFrac 9 (v * second) "s" false = ("s"%string, v).
Proof.
  intros Hv. unfold second.
  assert (Hs : forall p w acc, fmtFrac (S p) (w * 10) acc false = fmtFrac p w acc false).
  { intros p w acc. cbn [fmtFrac]. rewrite Z.mod_mul, Z.div_mul by lia. done. }
  replace (v * 1000000000) with (v * 10 * 10 * 10 * 10 * 10 * 10 * 10 * 10 * 10) by lia.
  by rewrite !Hs.
Qed.

(** One number and its unit at the head of the input. *)
Lemma duration_round fuel n (c : ascii) unit rest d : 0 <= n -> unit_of (String c EmptyString) = Some unit ->
  0 < unit -> n * unit <= 2 ^ 63 -> 0 <= d -> d + n * unit <= 2 ^ 63 ->
  is_digit c = false -> Ascii.eqb c "." = false ->
  (rest = EmptyString \/ exists a r, rest = String a r /\ is_digit a = true) ->
  parse_duration_loop (S fuel) (Itoa n ++ String c rest) d = parse_duration_loop fuel rest (d + n * unit).
Proof.
  intros Hn Hu Hup Hm Hd Hdm Hcd Hcp Hrest. destruct (Itoa_nonneg n Hn) as (Hdig & Hval & Hne).
  assert (Hn63 : n <= 2 ^ 63) by nia.
  assert (Hlead : leadingInt 0 (Itoa n ++ String c rest) = Some (n, String c rest)).
  { rewrite <- Hval at 2. apply leadingInt_digits; [done|cbn; by rewrite Hcd|lia|by rewrite Hval]. }
  assert (Hlen : (String.length (String c rest) =? String.length (Itoa n ++ String c rest))%nat = false).
  { rewrite string_length_app. apply Nat.eqb_neq. destruct (Itoa n); [done|cbn; lia]. }
  assert (Hdot : HasPrefix (String c rest) "." = false).
  { cbn [HasPrefix]. rewrite Ascii.eqb_sym, Hcp. done. }
  assert (Hunit : unit_span (String c rest) = (String c EmptyString, rest)).
  { cbn [unit_span]. rewrite Hcp, Hcd. cbn [orb].
    destruct Hrest as [->|(a & r & -> & Ha)]; [done|]. cbn [unit_span]. by rewrite Ha, orb_true_r. }
  cbn [parse_duration_loop]. rewrite Hlead. cbn [mbind option_bind].
  destruct (Itoa n) as [|a s] eqn:Es; [done|]. cbn [String.append].
  change (String.eqb (String a (s ++ String c rest)) EmptyString) with false.
  assert (Ha : is_digit a = true) by (cbn in Hdig; by apply andb_prop in Hdig as [? _]).
  cbn [String.append] in Hlen. rewrite Ha, orb_true_r, Hlen, Hdot. cbn [negb orb]. rewrite Hunit.
  change (String.eqb (String c EmptyString) EmptyString) with false. cbn iota.
  rewrite Hu. cbn [mbind option_bind].
  destruct (Z.ltb_spec (2 ^ 63 / unit) n) as [Hlt|_].
  { assert (n <= 2 ^ 63 / unit) by (apply Z.div_le_lower_bound; lia). lia. }
  change (0 <? 0) with false. cbn iota.
  destruct (Z.ltb_spec (2 ^ 63) (n * unit)); [lia|].
  destruct (Z.ltb_spec (2 ^ 63) (d + n * unit)); [lia|]. done.
Qed.

Lemma Itoa_head n : 0 <= n -> exists a r, Itoa n = String a r /\ is_digit a = true.
Proof.
  intros Hn. destruct (Itoa_nonneg n Hn) as (Hd & _ & Hne). destruct (Itoa n) as [|a r]; [done|].
  exists a, r. split; [done|]. cbn in Hd. by apply andb_prop in Hd as [? _].
Qed.

Lemma string_app_head a r t : (String a r ++ t)%string = String a (r ++ t).
Proof. done. Qed.

(** The body that [Duration_String] prints for whole seconds. *)
Definition clock_string (v : Z) : string :=
  let s := (Itoa (v mod 60) ++ "s")%string in
  let m := v / 60 in
  if 0 <? m then
    let s := (Itoa (m mod 60) ++ "m" ++ s)%string in
    if 0 <? m / 60 then (Itoa (m / 60) ++ "h" ++ s)%string else s
  else s.

Lemma clock_string_parse v fuel : 0 <= v -> v * second <= 2 ^ 63 - 1 ->
  (String.length (clock_string v) < fuel)%nat ->
  parse_duration_loop fuel (clock_string v) 0 = Some (v * second).
Proof.
  intros Hv Hb Hf. unfold second in *.
  pose proof (Z.mod_pos_bound v 60). pose proof (Z.div_mod v 60).
  pose proof (Z.mod_pos_bound (v / 60) 60). pose proof (Z.div_mod (v / 60) 60).
  assert (0 <= v / 60) by (apply Z.div_pos; lia). assert (0 <= v / 60 / 60) by (apply Z.div_pos; lia).
  assert (Hs : forall k d, 0 <= d -> d + v mod 60 * 1000000000 <= 2 ^ 63 ->
    parse_duration_loop (S (S k)) (Itoa (v mod 60) ++ "s") d = Some (d + v mod 60 * 1000000000)).
  { intros k d Hd Hd2. rewrite (duration_round (S k) _ "s" 1000000000); try done; try lia. by left. }
  assert (Hm : forall k d, 0 <= d -> d + (v / 60) mod 60 * 60000000000 + v mod 60 * 1000000000 <= 2 ^ 63 ->
    parse_duration_loop (S (S (S k))) (Itoa ((v / 60) mod 60) ++ "m" ++ Itoa (v mod 60) ++ "s") d =
      Some (d + (v / 60) mod 60 * 60000000000 + v mod 60 * 1000000000)).
  { intros k d Hd Hd2. cbn [String.append]. rewrite (duration_round (S (S k)) _ "m" 60000000000); try done; try lia.
    - apply Hs; lia.
    - right. destruct (Itoa_head (v mod 60)) as (a & r & -> & Ha); [lia|]. by exists a, (r ++ "s")%string. }
  assert (Hlen : forall n, 0 <= n -> (1 <= String.length (Itoa n))%nat).
  { intros n Hn. destruct (Itoa_head n Hn) as (a & r & -> & _). cbn. lia. }
  pose proof (Hlen (v mod 60) ltac:(lia)). pose proof (Hlen ((v / 60) mod 60) ltac:(lia)).
  pose proof (Hlen (v / 60 / 60) ltac:(lia)).
  revert Hf. unfold clock_string. cbv zeta. destruct (Z.ltb_spec 0 (v / 60)).
  - destruct (Z.ltb_spec 0 (v / 60 / 60)); rewrite !string_length_app; cbn [String.length]; intros Hf;
      destruct fuel as [|[|[|[|f]]]]; try lia.
    + cbn [String.append]. rewrite (duration_round (S (S (S f))) _ "h" 3600000000000); try done; try lia.
      * etransitivity; [apply Hm; lia|]. f_equal. lia.
      * right. destruct (Itoa_head ((v / 60) mod 60)) as (a & r & -> & Ha); [lia|].
        by exists a, (r ++ "m" ++ Itoa (v mod 60) ++ "s")%string.
    + rewrite Hm by lia. f_equal. lia.
  - rewrite !string_length_app. cbn [String.length]. intros Hf.
    destruct fuel as [|[|f]]; try lia. rewrite Hs by lia. f_equal. lia.
Qed.

(** [time.ParseDuration] reads back a printed duration of whole seconds. *)
Lemma ParseDuration_String v : 0 < v -> v * second <= int64_max ->
  ParseDuration (Duration_String (v * second)) = Some (v * second).
Proof.
  intros Hv Hb. unfold int64_max in Hb.
  assert (HS : Duration_String (v * second) = clock_string v).
  { unfold Duration_String. rewrite Z.abs_eq by (unfold second; lia).
    destruct (Z.ltb_spec (v * second) second); [unfold second in *; lia|].
    rewrite fmtFrac_seconds by lia. destruct (Z.ltb_spec (v * second) 0); [unfold second in *; lia|]. done. }
  rewrite HS.
  assert (Hhead : exists a r, clock_string v = String a r /\ is_digit a = true /\ r <> EmptyString).
  { unfold clock_string. cbv zeta.
    pose proof (Z.mod_pos_bound v 60). pose proof (Z.mod_pos_bound (v / 60) 60).
    assert (0 <= v / 60 / 60) by (apply Z.div_pos; [apply Z.div_pos|]; lia).
    assert (Hh : forall n t, 0 <= n -> t <> EmptyString ->
      exists a r, (Itoa n ++ t)%string = String a r /\ is_digit a = true /\ r <> EmptyString).
    { intros n t Hn Ht. destruct (Itoa_head n Hn) as (a & r & -> & Ha). exists a, (r ++ t)%string.
      repeat split; [done|]. by destruct r. }
    destruct (0 <? v / 60); [destruct (0 <? v / 60 / 60)|]; apply Hh; done || lia. }
  destruct Hhead as (a & r & Hc & Ha & Hr). unfold ParseDuration.
  assert (Hp : parse_duration_loop (S (String.length (clock_string v))) (clock_string v) 0 = Some (v * second))
    by (apply clock_string_parse; lia).
  rewrite Hc in Hp |- *.
  assert (Hpre : HasPrefix (String a r) "-" = false /\ HasPrefix (String a r) "+" = false).
  { clear -Ha. destruct a as [[] [] [] [] [] [] [] []]; first [discriminate Ha | done]. }
  destruct Hpre as [-> ->]. cbn [orb]. change (String.eqb (String a r) EmptyString) with false.
  replace (String.eqb (String a r) "0") with false by (symmetry; apply String.eqb_neq; congruence).
  cbn iota. rewrite Hp. cbn [mbind option_bind].
  destruct (Z.ltb_spec int64_max (v * second)); [unfold int64_max in *; lia|done].
Qed.

(** ** Dates

    The proleptic Gregorian calendar; [Time] 0 is January 1 of year 1. *)

Definition is_leap (y : Z) : bool :=
  ((y mod 4 =? 0) && (negb (y mod 100 =? 0) || (y mod 400 =? 0)))%bool.

Definition month_lengths (leap : bool) : list Z :=
  [31; if leap then 29 else 28; 31; 30; 31; 30; 31; 31; 30; 31; 30; 31].

(** Month and day of a zero-based day of the year. *)
Fixpoint month_day (lengths : list Z) (m yday : Z) : Z * Z :=
  match lengths with
  | [] => (m, yday + 1)
  | n :: ls => if yday <? n then (m, yday + 1) else month_day ls (m + 1) (yday - n)
  end.

(** Year and zero-based day of the year of a day count. *)
Definition year_yday (d : Z) : Z * Z :=
  let n400 := d / 146097 in let r := d mod 146097 in
  let n100 := Z.min 3 (r / 36524) in let r1 := r - 36524 * n100 in
  let n4 := r1 / 1461 in let r2 := r1 mod 1461 in
  let n1 := Z.min 3 (r2 / 365) in
  (400 * n400 + 100 * n100 + 4 * n4 + n1 + 1, r2 - 365 * n1).

Definition date_of_days (d : Z) : Z * Z * Z :=
  let '(y, yday) := year_yday d in
  let '(m, day) := month_day (month_lengths (is_leap y)) 1 yday in (y, m, day).

(** [appendInt(x, width)] for a non-negative number: zero padded. *)
Fixpoint pad_digits (width : nat) (x : Z) : string :=
  match width with
  | O => EmptyString
  | S w => (pad_digits w (x / 10) ++ String (ascii_of_N (Z.to_N (x mod 10 + 48))) EmptyString)%string
  end.

(** Years outside four digits are printed in full. *)
Definition year_string (y : Z) : string :=
  if (0 <=? y) && (y <? 10000) then pad_digits 4 y else Itoa y.

Definition days_of_time (t : Time) : Z := t / (86400 * second).
Definition secs_of_time (t : Time) : Z := t / second mod 86400.

(** The date and the clock with the given separators. *)
Definition date_clock (sep : string) (t : Time) : string :=
  let '(y, m, d) := date_of_days (days_of_time t) in
  let s := secs_of_time t in
  (year_string y ++ "-" ++ pad_digits 2 m ++ "-" ++ pad_digits 2 d ++ sep ++
   pad_digits 2 (s / 3600) ++ ":" ++ pad_digits 2 (s / 60 mod 60) ++ ":" ++ pad_digits 2 (s mod 60))%string.

(** [t.UTC().Format(time.RFC3339)]. *)
Definition FormatRFC3339 (t : Time) : string := (date_clock "T" t ++ "Z")%string.

(** [t.Format("2006-01-02 15:04:05")]; [t] is the local wall clock. *)
Definition FormatDateTime (t : Time) : string := date_clock " " t.

(** 1970-01-01 is day 719162. *)
Definition of_unix (secs : Z) : Time := (secs + 719162 * 86400) * second.

Example rfc3339_examples :
  FormatRFC3339 0 = "0001-01-01T00:00:00Z"%string /\
  FormatRFC3339 (of_unix 0) = "1970-01-01T00:00:00Z"%string /\
  FormatRFC3339 (of_unix 1775399592) = "2026-04-05T14:33:12Z"%string /\
  FormatRFC3339 (of_unix 951782400) = "2000-02-29T00:00:00Z"%string /\
  FormatRFC3339 (of_unix 4107542399) = "2100-02-28T23:59:59Z"%string /\
  FormatDateTime (of_unix 1709251199) = "2024-02-29 23:59:59"%string.
Proof. repeat split; vm_compute; reflexivity. Qed.

(** *** The day count comes back *)

Definition days_before_year (y : Z) : Z :=
  let p := y - 1 in 365 * p + p / 4 - p / 100 + p / 400.

Lemma year_yday_spec d : let '(y, yday) := year_yday d in
  d = days_before_year y + yday /\ 0 <= yday < (if is_leap y then 366 else 365).
Proof.
  unfold year_yday. cbv zeta.
  pose proof (Z.div_mod d 146097) as E. pose proof (Z.mod_pos_bound d 146097) as B.
  set (n400 := d / 146097) in *. set (r := d mod 146097) in *.
  assert (Hn100 : 0 <= Z.min 3 (r / 36524) <= 3) by (pose proof (Z.div_pos r 36524); lia).
  set (n100 := Z.min 3 (r / 36524)) in *.
  assert (Hr1 : 0 <= r - 36524 * n100 <= 36524 /\ (n100 < 3 -> r - 36524 * n100 < 36524)).
  { pose proof (Z.div_mod r 36524). pose proof (Z.mod_pos_bound r 36524). subst n100. lia. }
  set (r1 := r - 36524 * n100) in *.
  pose proof (Z.div_mod r1 1461) as E4. pose proof (Z.mod_pos_bound r1 1461) as B4.
  set (n4 := r1 / 1461) in *. set (r2 := r1 mod 1461) in *.
  assert (Hn4 : 0 <= n4 <= 24) by lia.
  assert (Hn1 : 0 <= Z.min 3 (r2 / 365) <= 3) by (pose proof (Z.div_pos r2 365); lia).
  set (n1 := Z.min 3 (r2 / 365)) in *.
  assert (Hr2 : 0 <= r2 - 365 * n1 <= 365 /\ (n1 < 3 -> r2 - 365 * n1 < 365)).
  { pose proof (Z.div_mod r2 365). pose proof (Z.mod_pos_bound r2 365). subst n1. lia. }
  set (y := 400 * n400 + 100 * n100 + 4 * n4 + n1 + 1).
  assert (D4 : (y - 1) / 4 = 100 * n400 + 25 * n100 + n4).
  { symmetry. apply (Z.div_unique _ _ _ n1); [left|unfold y]; lia. }
  assert (D100 : (y - 1) / 100 = 4 * n400 + n100).
  { symmetry. apply (Z.div_unique _ _ _ (4 * n4 + n1)); [left|unfold y]; lia. }
  assert (D400 : (y - 1) / 400 = n400).
  { symmetry. apply (Z.div_unique _ _ _ (100 * n100 + 4 * n4 + n1)); [left|unfold y]; lia. }
  split.
  - unfold days_before_year. cbv zeta. rewrite D4, D100, D400. unfold y. lia.
  - assert (Hleap : r2 - 365 * n1 = 365 -> is_leap y = true).
    { intros Hend. assert (n1 = 3) as -> by lia.
      assert (Hy4 : y mod 4 = 0).
      { symmetry. apply (Z.mod_unique _ _ (100 * n400 + 25 * n100 + n4 + 1)); [left|unfold y]; lia. }
      unfold is_leap. rewrite Hy4. cbn [andb Z.eqb].
      destruct (Z.eqb_spec (y mod 100) 0) as [H100|]; [|done]. cbn [negb orb]. apply Z.eqb_eq.
      assert (n4 = 24).
      { pose proof (Z.div_mod y 100). assert (y - 1 = 100 * (4 * n400 + n100) + (4 * n4 + 3)) by (unfold y; lia). lia. }
      assert (n100 = 3) by lia.
      symmetry. apply (Z.mod_unique _ _ (n400 + 1)); [left|unfold y]; lia. }
    destruct (is_leap y) eqn:El; [lia|]. assert (r2 - 365 * n1 <> 365) by (intros Hx; by apply Hleap in Hx). lia.
Qed.

(** Days before a month. *)
Definition days_before_month (leap : bool) (m : Z) : Z :=
  foldl Z.add 0 (take (Z.to_nat (m - 1)) (month_lengths leap)).

Definition days_of_date (y m d : Z) : Z := days_before_year y + days_before_month (is_leap y) m + (d - 1).

Lemma month_day_spec (leap : bool) yday : 0 <= yday < (if leap then 366 else 365) ->
  let '(m, d) := month_day (month_lengths leap) 1 yday in
  days_before_month leap m + (d - 1) = yday /\ 1 <= m <= 12 /\ 1 <= d <= 31.
Proof.
  intros H. unfold month_lengths. cbn [month_day].
  destruct leap; repeat (match goal with |- context [?a <? ?b] => destruct (Z.ltb_spec a b) end;
    [match goal with |- context [days_before_month ?l ?m] =>
       let v := eval vm_compute in (days_before_month l m) in change (days_before_month l m) with v end; lia|]);
    lia.
Qed.

Lemma date_of_days_spec t : let '(y, m, d) := date_of_days t in
  days_of_date y m d = t /\ 1 <= m <= 12 /\ 1 <= d <= 31.
Proof.
  unfold date_of_days, days_of_date. pose proof (year_yday_spec t) as H. destruct (year_yday t) as [y yday].
  destruct H as [Ht Hy]. pose proof (month_day_spec (is_leap y) yday Hy) as Hm.
  destruct (month_day _ 1 yday) as [m d]. lia.
Qed.

(** *** Fixed-width fields *)

Lemma pad_digits_length w x : String.length (pad_digits w x) = w.
Proof.
  revert x. induction w as [|w IH]; intros x; [done|]. cbn [pad_digits].
  rewrite string_length_app, IH. cbn. lia.
Qed.

Lemma digit_char x : 0 <= x < 10 -> is_digit (ascii_of_N (Z.to_N (x + 48))) = true /\
  Z.of_N (byte (ascii_of_N (Z.to_N (x + 48))) - 48) = x.
Proof.
  intros Hx. assert (Hc : x = 0 \/ x = 1 \/ x = 2 \/ x = 3 \/ x = 4 \/ x = 5 \/ x = 6 \/ x = 7 \/ x = 8 \/ x = 9) by lia.
  by repeat (destruct Hc as [->|Hc]; [done|]); subst.
Qed.

Lemma pad_digits_spec w x : 0 <= x < 10 ^ Z.of_nat w ->
  string_forallb is_digit (pad_digits w x) = true /\ digits_val 0 (pad_digits w x) = x.
Proof.
  revert x. induction w as [|w IH]; intros x Hx; [cbn in *; lia|].
  rewrite Nat2Z.inj_succ, Z.pow_succ_r in Hx by lia. cbn [pad_digits].
  destruct (IH (x / 10)) as [Hd Hv].
  { split; [apply Z.div_pos; lia|apply Z.div_lt_upper_bound; lia]. }
  destruct (digit_char (x mod 10)) as [Hc Hz]; [apply Z.mod_pos_bound; lia|].
  rewrite string_forallb_app, Hd. cbn [string_forallb]. rewrite Hc. split; [done|].
  rewrite digits_val_app, Hv. cbn [digits_val]. rewrite Hz. pose proof (Z.div_mod x 10). lia.
Qed.

Definition year_of (t : Time) : Z := let '(y, _, _) := date_of_days (days_of_time t) in y.

(** *** Printed numbers and times are graphic ASCII *)

Lemma digit_graph c : is_digit c = true -> is_graph c = true.
Proof.
  unfold is_digit, is_graph. rewrite !andb_true_iff, !N.leb_le. unfold byte. lia.
Qed.

Lemma digits_graph s : string_forallb is_digit s = true -> string_forallb is_graph s = true.
Proof. apply string_forallb_impl, digit_graph. Qed.

Lemma Itoa_graph n : string_forallb is_graph (Itoa n) = true.
Proof.
  destruct (decide (0 <= n)) as [Hn|Hn]; [by apply digits_graph, Itoa_nonneg|].
  destruct n as [|p|p]; [lia|lia|].
  change (Itoa (Z.neg p)) with (String "-" (pretty_N_go (N.pos p) EmptyString)).
  destruct (pretty_go_digits (N.pos p) EmptyString) as (ds & -> & Hd & _).
  rewrite string_app_nil_r. cbn [string_forallb]. by rewrite (digits_graph ds Hd).
Qed.

Lemma pad_digits_graph w x : string_forallb is_graph (pad_digits w x) = true.
Proof.
  revert x. induction w as [|w IH]; intros x; [done|]. cbn [pad_digits].
  rewrite string_forallb_app, IH. cbn [string_forallb].
  destruct (digit_char (x mod 10)) as [Hc _]; [apply Z.mod_pos_bound; lia|].
  by rewrite (digit_graph _ Hc).
Qed.

Lemma FormatRFC3339_graph t : string_forallb is_graph (FormatRFC3339 t) = true.
Proof.
  unfold FormatRFC3339, date_clock. destruct (date_of_days _) as [[y m] d].
  rewrite !string_forallb_app, !pad_digits_graph. unfold year_string.
  destruct ((0 <=? y) && (y <? 10000)); [by rewrite pad_digits_graph|by rewrite Itoa_graph].
Qed.

(** ** Tickers *)

(** [time.NewTicker]; [None] is the panic on a period that is not positive. *)
Definition NewTicker (period : Duration) : option Duration := if (period <=? 0)%Z then None else Some period.

Lemma NewTicker_starts d : is_Some (NewTicker d) <-> (0 < d)%Z.
Proof. unfold NewTicker. destruct (Z.leb_spec d 0); split; intros H'; [by destruct H'|lia|lia|by eexists]. Qed.
