(* ===== verification/GoJSON.v ===== *)
(** * encoding/json

    Documents as trees, the text [json.Marshal] and [json.Encoder] write, the
    scanner and decoder behind [json.Unmarshal] and [json.Decoder], and the
    storing of an object into the fields of a struct.  The decoder recurses with
    fuel: one unit more than the length of the text is enough
    ([parse_fuel_enough]).  The main theorem is that a document whose strings are
    valid UTF-8 is read back as it was written. *)

From Stdlib Require Import ZArith Lia Ascii String.
From stdpp Require Import base numbers option list strings pretty sorting.
From S2P Require Import Prelude GoStrings GoNet GoFmt GoValues GoTime.

(** A number is kept as its literal, the way the decoder hands it on. *)
Inductive JSON :=
  | JNull
  | JBool (b : bool)
  | JNumber (lit : string)
  | JString (s : string)
  | JArray (l : list JSON)
  | JObject (m : list (string * JSON)).

Definition JInt (z : Z) : JSON := JNumber (Itoa z).

Section ind.
Variable P : JSON -> Prop.
Hypothesis Hnull : P JNull.
Hypothesis Hbool : forall b, P (JBool b).
Hypothesis Hnumber : forall lit, P (JNumber lit).
Hypothesis Hstring : forall s, P (JString s).
Hypothesis Harray : forall l, Forall P l -> P (JArray l).
Hypothesis Hobject : forall m, Forall (fun kv => P kv.2) m -> P (JObject m).

Fixpoint JSON_nested_ind (v : JSON) : P v :=
  match v with
  | JNull => Hnull
  | JBool b => Hbool b
  | JNumber lit => Hnumber lit
  | JString s => Hstring s
  | JArray l => Harray l ((fix go l := match l return Forall P l with
                           | [] => Forall_nil_2 _
                           | x :: l' => Forall_cons_2 _ _ _ (JSON_nested_ind x) (go l')
                           end) l)
  | JObject m => Hobject m ((fix go m := match m return Forall (fun kv => P kv.2) m with
                             | [] => Forall_nil_2 _
                             | kv :: m' => Forall_cons_2 _ _ _ (JSON_nested_ind kv.2) (go m')
                             end) m)
  end.
End ind.

(** ** Encoding *)

(** A byte of ASCII inside a string; [<], [>] and [&] are escaped too. *)
Definition json_escape (c : ascii) : string :=
  let b := byte c in
  if (Ascii.eqb c backslash || Ascii.eqb c dquote)%bool then escape c
  else if (b =? 8)%N then escape "b"
  else if (b =? 12)%N then escape "f"
  else if (b =? 10)%N then escape "n"
  else if (b =? 13)%N then escape "r"
  else if (b =? 9)%N then escape "t"
  else if ((b <? 32)%N || Ascii.eqb c "<" || Ascii.eqb c ">" || Ascii.eqb c "&")%bool
  then escape "u" +:+ hex_pad 4 b
  else String c EmptyString.

(** A rune outside ASCII: the two line separators are escaped. *)
Definition json_escape_rune (r : N) (raw : string) : string :=
  if ((r =? 0x2028) || (r =? 0x2029))%N then escape "u" +:+ hex_pad 4 r else raw.

Fixpoint json_quote_fuel (fuel : nat) (s : string) : string :=
  match fuel, s with
  | O, _ | _, EmptyString => EmptyString
  | S fuel', String c s' =>
      if (byte c <? 0x80)%N then json_escape c +:+ json_quote_fuel fuel' s'
      else
        let '(r, w) := DecodeRune s in
        (if ((w =? 1)%nat && (r =? RuneError)%N)%bool then escape "u" +:+ "fffd"
         else json_escape_rune r (string_take w s)) +:+ json_quote_fuel fuel' (string_drop w s)
  end.

Definition json_quote (s : string) : string :=
  String dquote (json_quote_fuel (String.length s) s +:+ String dquote EmptyString).

Fixpoint Marshal (v : JSON) : string :=
  match v with
  | JNull => "null"
  | JBool b => if b then "true" else "false"
  | JNumber lit => lit
  | JString s => json_quote s
  | JArray l => "[" +:+ Join (map Marshal l) "," +:+ "]"
  | JObject m => "{" +:+ Join (map (fun kv => json_quote kv.1 +:+ ":" +:+ Marshal kv.2) m) "," +:+ "}"
  end.

(** [Encoder.Encode] ends the value with a newline. *)
Definition Encode (v : JSON) : string := Marshal v +:+ String newline EmptyString.

(** ** Decoding *)

Definition json_space (c : ascii) : bool :=
  ((byte c =? 32) || (byte c =? 9) || (byte c =? 10) || (byte c =? 13))%N.

Definition skip_ws : string -> string := TrimLeft json_space.

(** *** Strings *)

Fixpoint read_hex (n : nat) (acc : N) (s : string) : option (N * string) :=
  match n, s with
  | O, _ => Some (acc, s)
  | S n', String c s' => v ← hex_val c; read_hex n' (acc * 16 + Z.to_N v) s'
  | S _, EmptyString => None
  end.

(** [utf8.AppendRune]. *)
Definition EncodeRune (r : N) : string :=
  if (r <? 0x80)%N then String (ascii_of_N r) EmptyString
  else if (r <? 0x800)%N then
    String (ascii_of_N (0xC0 + r / 64)) (String (ascii_of_N (0x80 + r mod 64)) EmptyString)
  else if ((0x110000 <=? r) || (0xD800 <=? r) && (r <? 0xE000))%N then
    String (ascii_of_N 0xEF) (String (ascii_of_N 0xBF) (String (ascii_of_N 0xBD) EmptyString))
  else if (r <? 0x10000)%N then
    String (ascii_of_N (0xE0 + r / 4096)) (String (ascii_of_N (0x80 + r / 64 mod 64))
      (String (ascii_of_N (0x80 + r mod 64)) EmptyString))
  else
    String (ascii_of_N (0xF0 + r / 262144)) (String (ascii_of_N (0x80 + r / 4096 mod 64))
      (String (ascii_of_N (0x80 + r / 64 mod 64)) (String (ascii_of_N (0x80 + r mod 64)) EmptyString))).

Definition surrogate (r : N) : bool := ((0xD800 <=? r) && (r <? 0xE000))%N.

(** After [\u]: the rune and what follows; the second half of a surrogate pair is
    taken with the first, half a pair is the replacement character. *)
Definition read_u (s : string) : option (N * string) :=
  '(r, s1) ← read_hex 4 0 s;
  if negb (surrogate r) then Some (r, s1)
  else
    match (if HasPrefix s1 (escape "u") then read_hex 4 0 (string_drop 2 s1) else None) with
    | Some (r2, s2) =>
        if ((r <? 0xDC00) && (0xDC00 <=? r2) && (r2 <? 0xE000))%N
        then Some ((r - 0xD800) * 1024 + (r2 - 0xDC00) + 0x10000, s2)%N
        else Some (RuneError, s1)
    | None => Some (RuneError, s1)
    end.

(** What follows a backslash other than [u]. *)
Definition simple_escape (c : ascii) : option ascii :=
  if existsb (Ascii.eqb c) [dquote; backslash; "/"%char] then Some c
  else if Ascii.eqb c "b" then Some (ascii_of_N 8)
  else if Ascii.eqb c "f" then Some (ascii_of_N 12)
  else if Ascii.eqb c "n" then Some newline
  else if Ascii.eqb c "r" then Some carriage
  else if Ascii.eqb c "t" then Some (ascii_of_N 9)
  else None.

(** One character of a string: its decoding and the rest. *)
Definition read_char (c : ascii) (s : string) : option (string * string) :=
  if Ascii.eqb c backslash then
    match s with
    | String e s' =>
        if Ascii.eqb e "u" then '(r, s2) ← read_u s'; Some (EncodeRune r, s2)
        else d ← simple_escape e; Some (String d EmptyString, s')
    | EmptyString => None
    end
  else if (byte c <? 32)%N then None
  else if (byte c <? 0x80)%N then Some (String c EmptyString, s)
  else
    let '(r, w) := DecodeRune (String c s) in
    if ((w =? 1)%nat && (r =? RuneError)%N)%bool then Some (EncodeRune RuneError, s)
    else Some (string_take w (String c s), string_drop w (String c s)).

(** The text up to the closing quote, and what follows it. *)
Fixpoint unquote_fuel (fuel : nat) (s : string) : option (string * string) :=
  match fuel, s with
  | O, _ | _, EmptyString => None
  | S fuel', String c s' =>
      if Ascii.eqb c dquote then Some (EmptyString, s')
      else '(p, s2) ← read_char c s'; '(t, r) ← unquote_fuel fuel' s2; Some (p +:+ t, r)
  end.

Definition unquote (s : string) : option (string * string) := unquote_fuel (String.length s) s.

(** *** Numbers *)

Fixpoint span_digits (s : string) : string * string :=
  match s with
  | String c s' => if is_digit c then let '(d, r) := span_digits s' in (String c d, r) else (EmptyString, s)
  | EmptyString => (EmptyString, s)
  end.

Definition digits1 (s : string) : option (string * string) :=
  let '(d, r) := span_digits s in if String.eqb d EmptyString then None else Some (d, r).

(** No leading zeros. *)
Definition scan_int (s : string) : option (string * string) :=
  match s with
  | String c s' => if Ascii.eqb c "0" then Some ("0", s') else digits1 s
  | EmptyString => None
  end.

Definition scan_frac (s : string) : option (string * string) :=
  match s with
  | String c s' => if Ascii.eqb c "." then '(d, r) ← digits1 s'; Some (String c d, r) else Some (EmptyString, s)
  | EmptyString => Some (EmptyString, s)
  end.

Definition scan_sign (plus : bool) (s : string) : string * string :=
  match s with
  | String c s' => if (Ascii.eqb c "-" || plus && Ascii.eqb c "+")%bool then (String c EmptyString, s')
                   else (EmptyString, s)
  | EmptyString => (EmptyString, s)
  end.

Definition scan_exp (s : string) : option (string * string) :=
  match s with
  | String c s' =>
      if (Ascii.eqb c "e" || Ascii.eqb c "E")%bool then
        let '(sg, s2) := scan_sign true s' in
        '(d, r) ← digits1 s2; Some (String c (sg +:+ d), r)
      else Some (EmptyString, s)
  | EmptyString => Some (EmptyString, s)
  end.

Definition scan_number (s : string) : option (string * string) :=
  let '(sg, s1) := scan_sign false s in
  '(i, s2) ← scan_int s1;
  '(f, s3) ← scan_frac s2;
  '(e, s4) ← scan_exp s3;
  Some (sg +:+ i +:+ f +:+ e, s4).

(** *** Values *)

Definition maxNestingDepth : N := 10000.

Definition read_literal (s : string) : option (JSON * string) :=
  if HasPrefix s "null" then Some (JNull, string_drop 4 s)
  else if HasPrefix s "true" then Some (JBool true, string_drop 4 s)
  else if HasPrefix s "false" then Some (JBool false, string_drop 5 s)
  else '(lit, r) ← scan_number s; Some (JNumber lit, r).

(** The rest after the given byte. *)
Definition expect (c : ascii) (s : string) : option string :=
  match s with
  | String d s' => if Ascii.eqb d c then Some s' else None
  | EmptyString => None
  end.

(** [parse_value] reads one value; [parse_elems] and [parse_members] read the
    elements of a non-empty array or object, the closing bracket included. *)
Fixpoint parse_value (fuel : nat) (depth : N) (s : string) {struct fuel} : option (JSON * string) :=
  match fuel, s with
  | O, _ | _, EmptyString => None
  | S fuel', String c s' =>
      if Ascii.eqb c dquote then '(t, r) ← unquote s'; Some (JString t, r)
      else if Ascii.eqb c "[" then
        if (maxNestingDepth <? depth + 1)%N then None
        else match expect "]" (skip_ws s') with
             | Some r => Some (JArray [], r)
             | None => '(l, r) ← parse_elems fuel' (depth + 1)%N (skip_ws s'); Some (JArray l, r)
             end
      else if Ascii.eqb c "{" then
        if (maxNestingDepth <? depth + 1)%N then None
        else match expect "}" (skip_ws s') with
             | Some r => Some (JObject [], r)
             | None => '(m, r) ← parse_members fuel' (depth + 1)%N (skip_ws s'); Some (JObject m, r)
             end
      else read_literal s
  end
with parse_elems (fuel : nat) (depth : N) (s : string) {struct fuel} : option (list JSON * string) :=
  match fuel with
  | O => None
  | S fuel' =>
      '(v, r) ← parse_value fuel' depth s;
      match expect "]" (skip_ws r) with
      | Some r2 => Some ([v], r2)
      | None => r2 ← expect "," (skip_ws r);
                '(l, r3) ← parse_elems fuel' depth (skip_ws r2);
                Some (v :: l, r3)
      end
  end
with parse_members (fuel : nat) (depth : N) (s : string) {struct fuel} : option (list (string * JSON) * string) :=
  match fuel with
  | O => None
  | S fuel' =>
      q ← expect dquote s;
      '(k, r0) ← unquote q;
      r1 ← expect ":" (skip_ws r0);
      '(v, r) ← parse_value fuel' depth (skip_ws r1);
      match expect "}" (skip_ws r) with
      | Some r2 => Some ([(k, v)], r2)
      | None => r2 ← expect "," (skip_ws r);
                '(l, r3) ← parse_members fuel' depth (skip_ws r2);
                Some ((k, v) :: l, r3)
      end
  end.

(** [Decoder.Decode]: the first value of a stream; what follows is left unread. *)
Definition Decode (s : string) : option JSON := fst <$> parse_value (2 * String.length s + 1) 0 (skip_ws s).

(** [json.Unmarshal]: one value and white space. *)
Definition Unmarshal (s : string) : option JSON :=
  '(v, r) ← parse_value (2 * String.length s + 1) 0 (skip_ws s);
  if String.eqb (skip_ws r) EmptyString then Some v else None.

(** ** Reading back what was written *)

(** *** Strings *)

(** A piece of a quoted string that is read as [raw]. *)
Definition reads (p raw : string) : Prop :=
  exists c p', p = String c p' /\ Ascii.eqb c dquote = false /\
    forall t, read_char c (p' +:+ t) = Some (raw, t).

Lemma json_escape_reads c : (byte c <? 0x80)%N = true -> reads (json_escape c) (String c EmptyString).
Proof.
  intros Hc. destruct c as [[] [] [] [] [] [] [] []]; try discriminate Hc;
    (eexists; eexists; split; [vm_compute; reflexivity|]; split; [reflexivity|]; intros t; reflexivity).
Qed.

Lemma byte_inj a n : byte a = n -> a = ascii_of_N n.
Proof. intros <-. symmetry. apply ascii_N_embedding. Qed.

(** The encodings of the two escaped line separators. *)
Lemma DecodeRune_separator c s r w : DecodeRune (String c s) = (r, w) -> r = 0x2028%N \/ r = 0x2029%N ->
  string_take w (String c s) = EncodeRune r.
Proof.
  intros Hd Hr. unfold DecodeRune in Hd. destruct (N.ltb_spec (byte c) 0x80).
  { injection Hd as <- <-. lia. }
  destruct s as [|b s]; [injection Hd as <- <-; unfold RuneError in Hr; lia|].
  unfold cont in Hd. destruct ((0xC2 <=? byte c) && (byte c <=? 0xDF) && _)%N eqn:E2.
  { injection Hd as <- <-. rewrite !andb_true_iff, !N.leb_le in E2. lia. }
  destruct s as [|d s]; [injection Hd as <- <-; unfold RuneError in Hr; lia|].
  match type of Hd with context [if ?b then (_, 3) else _] => destruct b eqn:E3 end.
  { injection Hd as Hrr <-. rewrite !andb_true_iff, !N.leb_le in E3.
    destruct E3 as ((((E3 & E4) & E5) & E6) & E7 & E8).
    assert (128 <= byte b <= 191)%N as Hb
      by (destruct (byte c =? 0xE0)%N, (byte c =? 0xED)%N; lia).
    assert (byte c = 0xE2 /\ byte b = 0x80 /\ byte d = 0x80 + r - 0x2000)%N as (Hc' & Hb' & Hd') by lia.
    cbn [string_take]. apply byte_inj in Hc', Hb', Hd'. rewrite Hc', Hb', Hd'. by destruct Hr as [-> | ->]. }
  destruct s as [|e s]; [injection Hd as <- <-; unfold RuneError in Hr; lia|].
  match type of Hd with context [if ?b then (_, 4) else _] => destruct b eqn:E4 end.
  { injection Hd as Hrr <-. rewrite !andb_true_iff, !N.leb_le in E4. 
    destruct (N.eqb_spec (byte c) 0xF0); lia. }
  injection Hd as <- <-. unfold RuneError in Hr. lia.
Qed.

Lemma json_escape_rune_reads c s r w : (byte c <? 0x80)%N = false ->
  DecodeRune (String c s) = (r, w) -> ~ (w = 1 /\ r = RuneError) ->
  reads (json_escape_rune r (string_take w (String c s))) (string_take w (String c s)).
Proof.
  intros Hc Hd Hne. unfold json_escape_rune. destruct ((r =? 0x2028) || (r =? 0x2029))%N eqn:Er.
  { assert (r = 0x2028 \/ r = 0x2029)%N as Hr by (apply orb_prop in Er as [->%N.eqb_eq | ->%N.eqb_eq]; auto).
    rewrite (DecodeRune_separator c s r w Hd Hr).
    destruct Hr as [-> | ->]; do 2 eexists; split; reflexivity || (split; [reflexivity|]; intros t; reflexivity). }
  destruct (DecodeRune_stable c s r w Hd Hne) as (Hlen & Happ & Hst).
  destruct w as [|w]; [by apply DecodeRune_raw in Hd as [[? _]|[? _]]; lia|].
  exists c, (string_take w s). split; [done|]. split.
  { apply Ascii.eqb_neq. intros ->. discriminate Hc. }
  intros t. unfold read_char.
  destruct (Ascii.eqb_spec c backslash) as [->|_]; [discriminate Hc|].
  apply N.ltb_ge in Hc. destruct (N.ltb_spec (byte c) 32); [lia|]. destruct (N.ltb_spec (byte c) 0x80); [lia|].
  specialize (Hst t). cbn [string_take] in Hst. change (String c (string_take w s) +:+ t) with
    (String c (string_take w s +:+ t)) in Hst. rewrite Hst.
  destruct ((S w =? 1)%nat && (r =? RuneError)%N)%bool eqn:Eb.
  { apply andb_prop in Eb as [E1%Nat.eqb_eq E2%N.eqb_eq]. by destruct Hne. }
  f_equal. cbn [string_take string_drop String.length] in Hlen |- *. injection Hlen as Hlen.
  f_equal; [f_equal|]; rewrite <- Hlen at 1; [apply string_take_app|apply string_drop_app].
Qed.

Lemma unquote_piece f p raw t : reads p raw ->
  unquote_fuel (S f) (p +:+ t) = ('(x, r) ← unquote_fuel f t; Some (raw +:+ x, r)).
Proof.
  intros (c & p' & -> & Hq & Hr). cbn [String.append unquote_fuel]. rewrite Hq, Hr. done.
Qed.

Lemma reads_length p raw : reads p raw -> 0 < String.length p.
Proof. intros (c & p' & -> & _). cbn. lia. Qed.

Lemma unquote_quote fuel s f t : utf8_fuel fuel s = true -> String.length (json_quote_fuel fuel s) < f ->
  unquote_fuel f (json_quote_fuel fuel s +:+ String dquote t) = Some (s, t).
Proof.
  revert s f. induction fuel as [|fuel IH]; intros [|c s] f Hu Hf; try discriminate Hu;
    (destruct f as [|f]; [lia|]); [done|done|]. cbn [json_quote_fuel] in Hf |- *.
  destruct (DecodeRune (String c s)) as [r w] eqn:Hd. cbn [utf8_fuel] in Hu. rewrite Hd in Hu.
  destruct ((w =? 1)%nat && (r =? RuneError)%N)%bool eqn:Eb; [done|].
  assert (exists p raw, reads p raw /\ raw +:+ string_drop w (String c s) = String c s /\
    (if (byte c <? 128)%N then json_escape c +:+ json_quote_fuel fuel s
     else json_escape_rune r (string_take w (String c s)) +:+ json_quote_fuel fuel (string_drop w (String c s))) =
      p +:+ json_quote_fuel fuel (string_drop w (String c s))) as (p & raw & Hp & Hraw & E).
  { destruct (byte c <? 128)%N eqn:Ec.
    - unfold DecodeRune in Hd. rewrite Ec in Hd. injection Hd as <- <-.
      exists (json_escape c), (String c EmptyString). split; [by apply json_escape_reads|done].
    - assert (~ (w = 1 /\ r = RuneError)) as Hne by (intros [-> ->]; discriminate Eb).
      do 2 eexists. split; [by apply json_escape_rune_reads|]. split; [|done].
      by apply (DecodeRune_stable c s r w). }
  rewrite E in Hf |- *. rewrite string_app_assoc, (unquote_piece _ _ raw) by done.
  rewrite IH; [cbn; by rewrite Hraw|done|]. rewrite string_length_app in Hf. apply reads_length in Hp. lia.
Qed.

Lemma unquote_json s t : valid_utf8 s = true ->
  unquote (json_quote_fuel (String.length s) s +:+ String dquote t) = Some (s, t).
Proof.
  intros Hs. unfold unquote. apply unquote_quote; [done|]. rewrite string_length_app. cbn. lia.
Qed.

(** *** Integers *)

(** What may follow a number. *)
Definition number_ends (s : string) : bool :=
  match s with
  | String c _ => negb (is_digit c || Ascii.eqb c "." || Ascii.eqb c "e" || Ascii.eqb c "E")
  | EmptyString => true
  end.

Lemma span_digits_app d t : string_forallb is_digit d = true -> no_digit_head t = true ->
  span_digits (d +:+ t) = (d, t).
Proof.
  intros Hd Ht. induction d as [|c d IH]; cbn in Hd.
  - destruct t as [|c t]; [done|]. cbn in Ht |- *. by destruct (is_digit c).
  - apply andb_prop in Hd as [Hc Hd]. cbn. by rewrite Hc, (IH Hd).
Qed.

Lemma number_ends_digit t : number_ends t = true -> no_digit_head t = true.
Proof. destruct t as [|c t]; [done|]. cbn. by destruct (is_digit c). Qed.

Lemma scan_ends t : number_ends t = true -> scan_frac t = Some (EmptyString, t) /\ scan_exp t = Some (EmptyString, t).
Proof.
  destruct t as [|c t]; [done|]. cbn. destruct (is_digit c), (Ascii.eqb c "."), (Ascii.eqb c "e"), (Ascii.eqb c "E"); done.
Qed.

(** Decimal digits without a leading zero. *)
Lemma pretty_go_head x s : (0 < x)%N -> exists c r, pretty_N_go x s = String c r /\ Ascii.eqb c "0" = false.
Proof.
  revert s. induction (N.lt_wf_0 x) as [x _ IH]. intros s Hx. rewrite pretty_N_go_step by lia.
  destruct (decide (x `div` 10 = 0)%N) as [E|E].
  - rewrite E, pretty_N_go_0. do 2 eexists. split; [done|].
    assert (x < 10)%N as Hlt by (apply N.div_small_iff in E; lia). rewrite N.mod_small by done.
    destruct x as [|p]; [lia|]. do 4 (destruct p as [p|p|]; try done; try lia).
  - apply IH; [apply N.div_lt; lia|]. revert E. generalize (x `div` 10)%N. lia.
Qed.

Lemma scan_int_nat p t : number_ends t = true ->
  scan_int (pretty_N_go (N.pos p) EmptyString +:+ t) = Some (pretty_N_go (N.pos p) EmptyString, t).
Proof.
  intros Ht. destruct (pretty_go_digits (N.pos p) EmptyString) as (ds & E & Hd & _ & Hne).
  rewrite string_app_nil_r in E.
  destruct (pretty_go_head (N.pos p) EmptyString) as (c & r & E2 & Hc); [done|]. rewrite E2 in E |- *.
  subst ds. cbn [String.append scan_int]. rewrite Hc. unfold digits1.
  change (String c (r ++ t)) with (String c r +:+ t). by rewrite span_digits_app by (done || by apply number_ends_digit).
Qed.

Lemma scan_number_Itoa z t : number_ends t = true -> scan_number (Itoa z +:+ t) = Some (Itoa z, t).
Proof.
  intros Ht. destruct (scan_ends t Ht) as [Hf He]. unfold scan_number.
  destruct z as [|p|p].
  - change (Itoa 0 +:+ t) with (String "0" t). cbn -[scan_frac scan_exp]. rewrite Hf. cbn -[scan_exp]. by rewrite He.
  - change (Itoa (Z.pos p)) with (pretty_N_go (N.pos p) EmptyString).
    destruct (pretty_go_digits (N.pos p) EmptyString) as (ds & E & Hd & _ & Hne).
    rewrite string_app_nil_r in E.
    assert (scan_sign false (pretty_N_go (N.pos p) EmptyString +:+ t) = (EmptyString, pretty_N_go (N.pos p) EmptyString +:+ t)) as ->.
    { rewrite E. destruct ds as [|c ds]; [by destruct Hne|]. cbn in Hd. apply andb_prop in Hd as [Hc _].
      cbn. destruct (Ascii.eqb_spec c "-") as [->|]; [discriminate Hc|done]. }
    rewrite scan_int_nat by done. cbn -[scan_frac scan_exp]. rewrite Hf. cbn -[scan_exp]. rewrite He. cbn.
    by rewrite string_app_nil_r.
  - change (Itoa (Z.neg p)) with (String "-" (pretty_N_go (N.pos p) EmptyString)).
    cbn [String.append scan_sign]. rewrite Ascii.eqb_refl. cbn [orb].
    rewrite scan_int_nat by done. cbn -[scan_frac scan_exp]. rewrite Hf. cbn -[scan_exp]. rewrite He. cbn.
    by rewrite string_app_nil_r.
Qed.

(** *** Values *)

(** The documents the program writes: valid UTF-8 and integers. *)
Definition json_int_lit (lit : string) : bool :=
  match Atoi lit with Some z => String.eqb (Itoa z) lit | None => false end.

Fixpoint json_wf (v : JSON) : bool :=
  match v with
  | JNumber lit => json_int_lit lit
  | JString s => valid_utf8 s
  | JArray l => forallb json_wf l
  | JObject m => forallb (fun kv => valid_utf8 kv.1 && json_wf kv.2) m
  | _ => true
  end.

Fixpoint json_depth (v : JSON) : N :=
  match v with
  | JArray l => 1 + foldr N.max 0 (map json_depth l)
  | JObject m => 1 + foldr N.max 0 (map (fun kv => json_depth kv.2) m)
  | _ => 0
  end%N.

Lemma json_int_lit_Itoa z : in_int64 z -> json_int_lit (Itoa z) = true.
Proof. intros Hz. unfold json_int_lit. rewrite (Atoi_Itoa z Hz). apply String.eqb_refl. Qed.

Lemma json_int_lit_inv lit : json_int_lit lit = true -> exists z, lit = Itoa z.
Proof. unfold json_int_lit. destruct (Atoi lit) as [z|]; [|done]. intros <-%String.eqb_eq. eauto. Qed.

(** How a value starts: neither white space nor a closing bracket. *)
Definition value_head (c : ascii) : bool := negb (json_space c || Ascii.eqb c "]" || Ascii.eqb c "}").

(** A number starts like none of the other values. *)
Definition number_head (c : ascii) : bool := (is_digit c || Ascii.eqb c "-")%bool.

Lemma Itoa_number_head z : exists c r, Itoa z = String c r /\ number_head c = true.
Proof.
  destruct (decide (0 <= z)%Z) as [Hz|Hz].
  - destruct (Itoa_head z Hz) as (c & r & -> & Hc). exists c, r. split; [done|]. unfold number_head. by rewrite Hc.
  - destruct z as [|p|p]; [lia|lia|]. by exists "-"%char, (pretty_N_go (N.pos p) EmptyString).
Qed.

Lemma number_head_cases c : number_head c = true ->
  value_head c = true /\ Ascii.eqb c dquote = false /\ Ascii.eqb c "[" = false /\ Ascii.eqb c "{" = false /\
  Ascii.eqb c "n" = false /\ Ascii.eqb c "t" = false /\ Ascii.eqb c "f" = false.
Proof. destruct c as [[] [] [] [] [] [] [] []]; vm_compute; intros H; try discriminate H; done. Qed.

Lemma Marshal_head v : json_wf v = true -> exists c r, Marshal v = String c r /\ value_head c = true.
Proof.
  destruct v as [|[]|lit|s|l|m]; intros Hv; [by do 2 eexists..| |by do 2 eexists|by do 2 eexists|by do 2 eexists].
  apply json_int_lit_inv in Hv as [z ->]. cbn [Marshal]. destruct (Itoa_number_head z) as (c & r & -> & Hc).
  exists c, r. split; [done|]. by apply number_head_cases.
Qed.

Lemma skip_ws_head c r : value_head c = true -> skip_ws (String c r) = String c r.
Proof. unfold value_head, skip_ws. cbn. by destruct (json_space c). Qed.

Lemma skip_ws_value v t : json_wf v = true -> skip_ws (Marshal v +:+ t) = Marshal v +:+ t.
Proof. intros (c & r & -> & Hc)%Marshal_head. by apply skip_ws_head. Qed.

Lemma expect_value (c : ascii) v t : json_wf v = true -> c = "]"%char \/ c = "}"%char ->
  expect c (Marshal v +:+ t) = None.
Proof.
  intros (d & r & -> & Hd)%Marshal_head Hc. cbn. unfold value_head in Hd.
  destruct (Ascii.eqb_spec d c) as [->|]; [|done]. destruct Hc as [-> | ->]; discriminate Hd.
Qed.

Lemma expect_comma t : expect "," (skip_ws ("," +:+ t)) = Some t.
Proof. done. Qed.

Lemma expect_close (c : ascii) t : Ascii.eqb "," c = false -> expect c (skip_ws ("," +:+ t)) = None.
Proof. intros Hc. change (skip_ws ("," +:+ t)) with (String "," t). cbn [expect]. by rewrite Hc. Qed.

(** The statement for one value, used under the elements of a list. *)
Definition value_back (v : JSON) : Prop := forall fuel depth t,
  json_wf v = true -> (depth + json_depth v <= maxNestingDepth)%N -> number_ends t = true ->
  2 * String.length (Marshal v) <= fuel -> parse_value fuel depth (Marshal v +:+ t) = Some (v, t).

(** A non-empty array starts with its first element. *)
Lemma Join_skip_ws v l t : json_wf v = true ->
  skip_ws (Join (map Marshal (v :: l)) "," +:+ t) = Join (map Marshal (v :: l)) "," +:+ t.
Proof. intros Hv. destruct l; cbn [map Join]; rewrite ?string_app_assoc; by apply skip_ws_value. Qed.

Lemma Join_expect v l t : json_wf v = true -> expect "]" (Join (map Marshal (v :: l)) "," +:+ t) = None.
Proof. intros Hv. destruct l; cbn [map Join]; rewrite ?string_app_assoc; apply expect_value; auto. Qed.

Lemma elems_back l fuel depth t : l <> [] -> Forall value_back l -> forallb json_wf l = true ->
  (depth + foldr N.max 0 (map json_depth l) <= maxNestingDepth)%N ->
  2 * String.length (Join (map Marshal l) ",") < fuel ->
  parse_elems fuel depth (Join (map Marshal l) "," +:+ "]" +:+ t) = Some (l, t).
Proof.
  revert fuel. induction l as [|v l IH]; [done|]. intros [|fuel] _ Hl Hwf Hd Hf; [lia|].
  inversion Hl as [|? ? Hv Hl']; subst. cbn in Hwf, Hd. apply andb_prop in Hwf as [Hwv Hwl].
  destruct l as [|v2 l].
  - cbn [map Join] in Hf |- *. cbn [parse_elems]. rewrite Hv by (done || lia). cbn. done.
  - change (Join (map Marshal (v :: v2 :: l)) ",") with
      (Marshal v +:+ "," +:+ Join (map Marshal (v2 :: l)) ",") in Hf |- *.
    rewrite !string_length_app in Hf. cbn [String.length] in Hf.
    rewrite !string_app_assoc. cbn [parse_elems]. rewrite Hv by (done || lia).
    assert (Hw2 : json_wf v2 = true) by (cbn in Hwl; by apply andb_prop in Hwl as [? _]).
    cbn [mbind option_bind]. rewrite expect_close, expect_comma by done. cbn [mbind option_bind]. rewrite Join_skip_ws by done.
    rewrite IH; [done|done|done|done|cbn in Hd |- *; lia|lia].
Qed.

Lemma members_back m fuel depth t : m <> [] -> Forall (fun kv => value_back kv.2) m ->
  forallb (fun kv => valid_utf8 kv.1 && json_wf kv.2)%bool m = true ->
  (depth + foldr N.max 0 (map (fun kv => json_depth kv.2) m) <= maxNestingDepth)%N ->
  let text := Join (map (fun kv => json_quote kv.1 +:+ ":" +:+ Marshal kv.2) m) "," in
  2 * String.length text < fuel ->
  parse_members fuel depth (text +:+ "}" +:+ t) = Some (m, t).
Proof.
  revert fuel. induction m as [|[k v] m IH]; [done|]. intros [|fuel] _ Hl Hwf Hd text Hf; subst text; [lia|].
  inversion Hl as [|? ? Hv Hl']; subst. cbn in Hwf, Hd, Hv. apply andb_prop in Hwf as [[Hk Hwv]%andb_prop Hwl].
  set (item := fun kv : string * JSON => json_quote kv.1 +:+ ":" +:+ Marshal kv.2) in *.
  assert (Hitem : forall r, item (k, v) +:+ r =
    String dquote (json_quote_fuel (String.length k) k +:+ String dquote (String ":" (Marshal v +:+ r)))).
  { intros r. unfold item, json_quote. cbn [fst snd]. cbn [String.append]. by rewrite !string_app_assoc. }
  assert (Hlen : String.length (Marshal v) <= String.length (item (k, v))).
  { unfold item. rewrite !string_length_app. cbn. lia. }
  destruct m as [|[k2 v2] m].
  - cbn [map Join] in Hf |- *. rewrite Hitem. cbn [parse_members expect]. rewrite Ascii.eqb_refl.
    cbn [mbind option_bind]. rewrite unquote_json by done. cbn [mbind option_bind].
    change (expect ":" (skip_ws (String ":" ?x))) with (Some x). cbn [mbind option_bind].
    rewrite skip_ws_value, Hv by (done || lia). done.
  - change (Join (map item ((k, v) :: (k2, v2) :: m)) ",") with
      (item (k, v) +:+ "," +:+ Join (map item ((k2, v2) :: m)) ",") in Hf |- *.
    rewrite !string_length_app in Hf. cbn [String.length] in Hf.
    rewrite !string_app_assoc, Hitem. cbn [parse_members expect]. rewrite Ascii.eqb_refl.
    cbn [mbind option_bind]. rewrite unquote_json by done. cbn [mbind option_bind].
    change (expect ":" (skip_ws (String ":" ?x))) with (Some x). cbn [mbind option_bind].
    rewrite skip_ws_value, Hv by (done || lia). cbn [mbind option_bind]. rewrite expect_close, expect_comma by done.
    cbn [mbind option_bind].
    assert (Hs : skip_ws (Join (map item ((k2, v2) :: m)) "," +:+ "}" +:+ t) = Join (map item ((k2, v2) :: m)) "," +:+ "}" +:+ t).
    { by destruct m. }
    rewrite Hs, IH; [done|done|done|done|cbn in Hd |- *; lia|lia].
Qed.

Lemma read_literal_number z t : number_ends t = true -> read_literal (Itoa z +:+ t) = Some (JNumber (Itoa z), t).
Proof.
  intros Ht. unfold read_literal. rewrite scan_number_Itoa by done.
  destruct (Itoa_number_head z) as (c & r & -> & Hc). apply number_head_cases in Hc as (_ & _ & _ & _ & Hn & Htr & Hf).
  cbn [String.append HasPrefix]. rewrite Ascii.eqb_sym in Hn, Htr, Hf. by rewrite Hn, Htr, Hf.
Qed.

Lemma value_back_all v : value_back v.
Proof.
  induction v as [|b|lit|s|l Hl|m Hm] using JSON_nested_ind; intros fuel depth t Hwf Hd Ht Hf;
    (destruct fuel as [|fuel];
      [exfalso; destruct (Marshal_head _ Hwf) as (c & r & E & _); rewrite E in Hf; cbn in Hf; lia|]).
  - done.
  - by destruct b.
  - cbn in Hwf. apply json_int_lit_inv in Hwf as [z ->]. cbn [Marshal].
    rewrite <- (read_literal_number z t Ht). destruct (Itoa_number_head z) as (c & r & -> & Hc).
    apply number_head_cases in Hc as (_ & H1 & H2 & H3 & _). cbn [String.append parse_value]. by rewrite H1, H2, H3.
  - cbn [Marshal]. unfold json_quote. cbn [String.append parse_value]. rewrite Ascii.eqb_refl, string_app_assoc.
    cbn in Hwf. cbn [String.append]. by rewrite unquote_json by done.
  - cbn in Hwf, Hd. cbn [Marshal] in Hf |- *. rewrite !string_app_assoc. cbn [String.append parse_value].
    change (Ascii.eqb "[" dquote) with false. change (Ascii.eqb "[" "[") with true. cbv iota.
    destruct (N.ltb_spec maxNestingDepth (depth + 1)); [lia|]. destruct l as [|v l]; [done|].
    rewrite !string_length_app in Hf. cbn [String.length] in Hf.
    assert (Hwv : json_wf v = true) by (by apply andb_prop in Hwf as [? _]).
    rewrite Join_skip_ws, Join_expect by done.
    change (String "]" t) with ("]" +:+ t). rewrite elems_back; [done|done|done|done|lia|lia].
  - cbn in Hwf, Hd. cbn [Marshal] in Hf |- *. rewrite !string_app_assoc. cbn [String.append parse_value].
    change (Ascii.eqb "{" dquote) with false. change (Ascii.eqb "{" "[") with false. change (Ascii.eqb "{" "{") with true. cbv iota.
    destruct (N.ltb_spec maxNestingDepth (depth + 1)); [lia|]. destruct m as [|kv m]; [done|].
    rewrite !string_length_app in Hf. cbn [String.length] in Hf.
    replace (skip_ws _) with (Join (map (fun kv => json_quote kv.1 +:+ ":" +:+ Marshal kv.2) (kv :: m)) "," +:+ "}" +:+ t)
      by (by destruct m).
    replace (expect "}" _) with (@None string) by (by destruct m).
    change (String "}" t) with ("}" +:+ t). rewrite members_back; [done|done|done|done|lia|lia].
Qed.

(** ** The fuel is enough

    Every reader leaves a shorter text, so two amounts of fuel that both cover the
    text agree. *)

Definition shorter {A} (n : nat) (m : option (A * string)) : Prop :=
  forall x r, m = Some (x, r) -> String.length r < n.

Lemma shorter_le {A} n n' (m : option (A * string)) : shorter n m -> n <= n' -> shorter n' m.
Proof. intros H Hn x r E. apply H in E. lia. Qed.

Lemma shorter_bind {A B} n n' (m : option (A * string)) (f : A * string -> option (B * string)) :
  shorter n m -> (forall x r, String.length r < n -> shorter n' (f (x, r))) -> shorter n' (m ≫= f).
Proof. intros Hm Hf y t E. destruct m as [[x r]|]; [|done]. eapply Hf; [|done]. by eapply Hm. Qed.

Lemma shorter_ret {A} n (x : A) r : String.length r < n -> shorter n (Some (x, r)).
Proof. intros H y t [= <- <-]. done. Qed.

Lemma shorter_none {A} n : shorter n (@None (A * string)).
Proof. done. Qed.

Lemma shorter_if {A} n (b : bool) (m1 m2 : option (A * string)) : shorter n m1 -> shorter n m2 -> shorter n (if b then m1 else m2).
Proof. by destruct b. Qed.

Create HintDb shorter.
#[export] Hint Resolve shorter_ret shorter_none shorter_if : shorter.

Lemma skip_ws_length s : String.length (skip_ws s) <= String.length s.
Proof.
  unfold skip_ws. destruct (TrimLeft_suffix json_space s) as [a E].
  rewrite E at 2. rewrite string_length_app. lia.
Qed.

Lemma expect_length c s r : expect c s = Some r -> String.length r < String.length s.
Proof. destruct s as [|d s]; [done|]. cbn. destruct (Ascii.eqb d c); [|done]. intros [= ->]. lia. Qed.

Lemma string_drop_length n s : String.length (string_drop n s) <= String.length s.
Proof. revert n. induction s as [|c s IH]; intros [|n]; cbn; try lia. specialize (IH n). lia. Qed.

Lemma string_drop_shorter n c s : String.length (string_drop (S n) (String c s)) < S (String.length s).
Proof. cbn. pose proof (string_drop_length n s). lia. Qed.

Lemma read_hex_shorter n acc s : shorter (S (String.length s)) (read_hex n acc s).
Proof.
  revert acc s. induction n as [|n IH]; intros acc s; cbn [read_hex]; [apply shorter_ret; lia|].
  destruct s as [|c s]; [done|]. destruct (hex_val c); cbn; [|done]. eapply shorter_le; [apply IH|lia].
Qed.

Lemma read_u_shorter s : shorter (S (String.length s)) (read_u s).
Proof.
  unfold read_u. eapply shorter_bind; [apply read_hex_shorter|]. intros r s1 H1. apply shorter_if; [by apply shorter_ret|].
  destruct (if HasPrefix s1 _ then _ else _) as [[r2 s2]|] eqn:E; [|by apply shorter_ret].
  destruct (HasPrefix s1 _); [|done]. apply read_hex_shorter in E. pose proof (string_drop_length 2 s1).
  apply shorter_if; apply shorter_ret; lia.
Qed.

Lemma read_char_shorter c s : shorter (S (String.length s)) (read_char c s).
Proof.
  unfold read_char. repeat apply shorter_if; auto with shorter.
  - destruct s as [|e s]; [done|]. apply shorter_if.
    + eapply shorter_bind; [apply read_u_shorter|]. intros. apply shorter_ret. cbn. lia.
    + destruct (simple_escape e); [|done]. apply shorter_ret. cbn. lia.
  - destruct (DecodeRune (String c s)) as [r w] eqn:E. apply shorter_if; [apply shorter_ret; lia|].
    apply shorter_ret. destruct w as [|w]; [apply DecodeRune_raw in E as [[? _]|[? _]]; lia|].
    apply string_drop_shorter.
Qed.

Lemma unquote_shorter fuel s : shorter (String.length s) (unquote_fuel fuel s).
Proof.
  revert s. induction fuel as [|fuel IH]; intros [|c s]; try done. cbn [unquote_fuel]. apply shorter_if; [by apply shorter_ret; cbn; lia|].
  eapply shorter_bind; [apply read_char_shorter|]. intros p s2 H2. eapply shorter_bind; [apply IH|].
  intros t r H3. apply shorter_ret. cbn. lia.
Qed.

Lemma digits1_shorter s : shorter (String.length s) (digits1 s).
Proof.
  unfold digits1. assert (H : forall s, String.length (span_digits s).1 + String.length (span_digits s).2 = String.length s).
  { clear. induction s as [|c s IH]; [done|]. cbn. destruct (is_digit c); [|done]. destruct (span_digits s). cbn in *. lia. }
  specialize (H s). destruct (span_digits s) as [[|c d] r]; [done|]. apply shorter_ret. cbn in H. lia.
Qed.

Lemma scan_sign_length b s : String.length (scan_sign b s).2 <= String.length s.
Proof. destruct s as [|c s]; [done|]. cbn. destruct (_ || _)%bool; cbn; lia. Qed.

Lemma scan_number_shorter s : shorter (String.length s) (scan_number s).
Proof.
  unfold scan_number. pose proof (scan_sign_length false s) as H0. destruct (scan_sign false s) as [sg s1]. cbn in H0.
  apply (shorter_bind (String.length s)); [|intros i s2 H2; apply (shorter_bind (String.length s)); [|intros f s3 H3;
    apply (shorter_bind (String.length s)); [|intros e s4 H4; apply shorter_ret, H4]]].
  - destruct s1 as [|c s1]; [done|]. cbn [scan_int]. apply shorter_if; [apply shorter_ret; cbn in H0; lia|].
    eapply shorter_le; [apply digits1_shorter|done].
  - destruct s2 as [|c s2]; [by apply shorter_ret|]. cbn [scan_frac]. apply shorter_if; [|by apply shorter_ret].
    eapply shorter_bind; [apply digits1_shorter|]. intros d r Hr. apply shorter_ret. cbn in H2. lia.
  - destruct s3 as [|c s3]; [by apply shorter_ret|]. cbn [scan_exp]. apply shorter_if; [|by apply shorter_ret].
    pose proof (scan_sign_length true s3) as H5. destruct (scan_sign true s3) as [sg2 s5]. cbn in H5, H3.
    eapply shorter_bind; [apply digits1_shorter|]. intros d r Hr. apply shorter_ret. lia.
Qed.

Lemma read_literal_shorter c s : shorter (S (String.length s)) (read_literal (String c s)).
Proof.
  unfold read_literal. repeat apply shorter_if; [| | |eapply shorter_bind; [apply scan_number_shorter|intros; by apply shorter_ret]];
    apply shorter_ret, string_drop_shorter.
Qed.

(** A continuation of a reader: after white space, a byte. *)
Lemma shorter_expect {B} n c r (f : string -> option (B * string)) : String.length r <= n ->
  (forall r', String.length r' < n -> shorter n (f r')) -> shorter n (expect c (skip_ws r) ≫= f).
Proof.
  intros Hr Hf. destruct (expect c (skip_ws r)) as [r'|] eqn:E; [|done]. apply Hf.
  apply expect_length in E. pose proof (skip_ws_length r). lia.
Qed.

Lemma parse_shorter fuel depth s :
  shorter (String.length s) (parse_value fuel depth s) /\ shorter (String.length s) (parse_elems fuel depth s) /\
  shorter (String.length s) (parse_members fuel depth s).
Proof.
  revert depth s. induction fuel as [|fuel IH]; intros depth s; [done|].
  assert (IHv : forall d s, shorter (String.length s) (parse_value fuel d s)) by (intros; apply IH).
  assert (IHe : forall d s, shorter (String.length s) (parse_elems fuel d s)) by (intros; apply IH).
  assert (IHm : forall d s, shorter (String.length s) (parse_members fuel d s)) by (intros; apply IH). clear IH.
  assert (Hexp : forall c r r', expect c (skip_ws r) = Some r' -> String.length r' < String.length r).
  { intros c r r' E. apply expect_length in E. pose proof (skip_ws_length r). lia. }
  repeat split.
  - destruct s as [|c s]; [done|]. cbn [parse_value String.length]. pose proof (skip_ws_length s).
    apply shorter_if; [|apply shorter_if; [apply shorter_if; [done|]|
      apply shorter_if; [apply shorter_if; [done|]|apply read_literal_shorter]]].
    + eapply shorter_bind; [apply unquote_shorter|]. intros. apply shorter_ret. lia.
    + destruct (expect _ _) eqn:E; [apply Hexp in E; apply shorter_ret; lia|].
      eapply shorter_bind; [apply IHe|]. intros. apply shorter_ret. lia.
    + destruct (expect _ _) eqn:E; [apply Hexp in E; apply shorter_ret; lia|].
      eapply shorter_bind; [apply IHm|]. intros. apply shorter_ret. lia.
  - cbn [parse_elems]. eapply shorter_bind; [apply IHv|]. intros v r Hr.
    destruct (expect "]" _) eqn:E; [apply Hexp in E; apply shorter_ret; lia|].
    apply shorter_expect; [lia|]. intros r' Hr'. pose proof (skip_ws_length r').
    eapply shorter_bind; [apply IHe|]. intros. apply shorter_ret. lia.
  - cbn [parse_members]. destruct (expect dquote s) as [q|] eqn:Eq; [|done]. apply expect_length in Eq. cbn [mbind option_bind].
    eapply shorter_bind; [apply unquote_shorter|]. intros k r0 H0. apply shorter_expect; [lia|]. intros r1 H1.
    eapply shorter_bind; [apply IHv|]. intros v r Hr. pose proof (skip_ws_length r1).
    destruct (expect "}" _) eqn:E; [apply Hexp in E; apply shorter_ret; lia|].
    apply shorter_expect; [lia|]. intros r' Hr'. pose proof (skip_ws_length r').
    eapply shorter_bind; [apply IHm|]. intros. apply shorter_ret. lia.
Qed.

Lemma bind_ext {A B} (m : option (A * string)) (f g : A * string -> option B) n : shorter n m ->
  (forall x r, String.length r < n -> f (x, r) = g (x, r)) -> m ≫= f = m ≫= g.
Proof. intros Hm Hfg. destruct m as [[x r]|]; [|done]. apply Hfg. by eapply Hm. Qed.

(** Any fuel from twice the length of the text on gives the same answer. *)
Lemma parse_fuel_enough fuel fuel' depth s :
  (2 * String.length s <= fuel -> 2 * String.length s <= fuel' ->
   parse_value fuel depth s = parse_value fuel' depth s) /\
  (2 * String.length s < fuel -> 2 * String.length s < fuel' ->
   parse_elems fuel depth s = parse_elems fuel' depth s /\
   parse_members fuel depth s = parse_members fuel' depth s).
Proof.
  revert fuel fuel' depth. induction s as [s IH] using string_length_ind.
  assert (Hv : forall fuel fuel' depth, 2 * String.length s <= fuel -> 2 * String.length s <= fuel' ->
    parse_value fuel depth s = parse_value fuel' depth s).
  { intros fuel fuel' depth H1 H2. destruct s as [|c s]; [by destruct fuel, fuel'|].
    cbn [String.length] in *. destruct fuel as [|fuel]; [lia|]. destruct fuel' as [|fuel']; [lia|].
    cbn [parse_value]. pose proof (skip_ws_length s).
    destruct (IH (skip_ws s)) with (fuel := fuel) (fuel' := fuel') (depth := (depth + 1)%N) as [_ He]; [lia|].
    destruct He as [-> ->]; [lia|lia|done]. }
  intros fuel fuel' depth. split; [apply Hv|]. intros H1 H2.
  destruct fuel as [|fuel]; [lia|]. destruct fuel' as [|fuel']; [lia|]. cbn [parse_elems parse_members]. split.
  - rewrite (Hv fuel fuel') by lia. eapply bind_ext; [apply parse_shorter|]. intros v r Hr.
    destruct (expect "]" _); [done|]. destruct (expect "," _) as [r2|] eqn:E; [|done]. cbn [mbind option_bind].
    apply expect_length in E. pose proof (skip_ws_length r). pose proof (skip_ws_length r2).
    destruct (IH (skip_ws r2)) with (fuel := fuel) (fuel' := fuel') (depth := depth) as [_ He]; [lia|].
    by destruct He as [-> _]; [lia|lia|].
  - destruct (expect dquote s) as [q|] eqn:Eq; [|done]. apply expect_length in Eq. cbn [mbind option_bind].
    eapply bind_ext; [apply unquote_shorter|]. intros k r0 H0. destruct (expect ":" _) as [r1|] eqn:E1; [|done].
    apply expect_length in E1. cbn [mbind option_bind]. pose proof (skip_ws_length r0). pose proof (skip_ws_length r1).
    destruct (IH (skip_ws r1)) with (fuel := fuel) (fuel' := fuel') (depth := depth) as [Hvr _]; [lia|].
    rewrite Hvr by lia. eapply bind_ext; [apply parse_shorter|]. intros v r Hr.
    destruct (expect "}" _); [done|]. destruct (expect "," _) as [r2|] eqn:E; [|done]. cbn [mbind option_bind].
    apply expect_length in E. pose proof (skip_ws_length r). pose proof (skip_ws_length r2).
    destruct (IH (skip_ws r2)) with (fuel := fuel) (fuel' := fuel') (depth := depth) as [_ He]; [lia|].
    by destruct He as [_ ->]; [lia|lia|].
Qed.

(** ** The round trip *)

(** A document followed by something that does not extend a number. *)
Lemma parse_text v t : json_wf v = true -> (json_depth v <= maxNestingDepth)%N -> number_ends t = true ->
  parse_value (2 * String.length (Marshal v +:+ t) + 1) 0 (skip_ws (Marshal v +:+ t)) = Some (v, t).
Proof.
  intros Hwf Hd Ht. rewrite skip_ws_value by done. apply value_back_all; [done|lia|done|].
  rewrite string_length_app. lia.
Qed.

Lemma Decode_text v t : json_wf v = true -> (json_depth v <= maxNestingDepth)%N -> number_ends t = true ->
  Decode (Marshal v +:+ t) = Some v.
Proof. intros Hwf Hd Ht. unfold Decode. by rewrite parse_text. Qed.

Lemma Decode_Marshal v : json_wf v = true -> (json_depth v <= maxNestingDepth)%N -> Decode (Marshal v) = Some v.
Proof. intros Hwf Hd. rewrite <- (string_app_nil_r (Marshal v)). by apply Decode_text. Qed.

Lemma Decode_Encode v : json_wf v = true -> (json_depth v <= maxNestingDepth)%N -> Decode (Encode v) = Some v.
Proof. intros Hwf Hd. by apply Decode_text. Qed.

Lemma Unmarshal_Marshal v : json_wf v = true -> (json_depth v <= maxNestingDepth)%N -> Unmarshal (Marshal v) = Some v.
Proof.
  intros Hwf Hd. unfold Unmarshal. rewrite <- (string_app_nil_r (Marshal v)). by rewrite parse_text.
Qed.

Lemma Unmarshal_Encode v : json_wf v = true -> (json_depth v <= maxNestingDepth)%N -> Unmarshal (Encode v) = Some v.
Proof. intros Hwf Hd. unfold Unmarshal, Encode. by rewrite parse_text. Qed.

Lemma Decode_empty : Decode EmptyString = None.
Proof. done. Qed.

(** ** Storing into a struct *)

(** Names of struct fields match JSON keys up to case folding (the Kelvin sign
    and the long s fold to ASCII). *)
Fixpoint json_fold (s : string) : string :=
  match s with
  | EmptyString => EmptyString
  | String a s1 =>
      match s1 with
      | String b s2 =>
          if ((byte a =? 0xC5) && (byte b =? 0xBF))%N then String "s" (json_fold s2)
          else match s2 with
               | String c s3 =>
                   if ((byte a =? 0xE2) && (byte b =? 0x84) && (byte c =? 0xAA))%N
                   then String "k" (json_fold s3)
                   else String (lower_byte a) (json_fold s1)
               | EmptyString => String (lower_byte a) (json_fold s1)
               end
      | EmptyString => String (lower_byte a) (json_fold s1)
      end
  end.

(** The fields of a struct by name, each with the decoder of its type.  Unmarshal
    stores each known key, an exact name first. *)
Definition fields_of (V C : Type) : Type := list (string * (V -> C -> option C)).

Definition find_field {V C} (fields : fields_of V C) (key : string) : option (V -> C -> option C) :=
  match List.find (fun f => String.eqb f.1 key) fields with
  | Some f => Some f.2
  | None => snd <$> List.find (fun f => String.eqb (json_fold f.1) (json_fold key)) fields
  end.

Definition json_store {V C} (fields : fields_of V C) (acc : option C) (kv : string * V) : option C :=
  c ← acc;
  match find_field fields kv.1 with
  | Some set => set kv.2 c
  | None => Some c
  end.

Definition int64_ok (z : Z) : option Z :=
  if ((int64_min <=? z) && (z <=? int64_max))%Z then Some z else None.

(** Decoding into a variable of the given type; [null] leaves it unchanged. *)
Definition into_struct {C} (fields : fields_of JSON C) (v : JSON) (old : C) : option C :=
  match v with
  | JObject m => foldl (json_store fields) (Some old) m
  | JNull => Some old
  | _ => None
  end.

Definition into_string (v : JSON) (old : string) : option string :=
  match v with JString s => Some s | JNull => Some old | _ => None end.

Definition into_bool (v : JSON) (old : bool) : option bool :=
  match v with JBool b => Some b | JNull => Some old | _ => None end.

Definition into_int (v : JSON) (old : Z) : option Z :=
  match v with JNumber lit => Atoi lit | JNull => Some old | _ => None end.

(** Elements start from the zero value of their type; [null] makes the slice nil. *)
Definition into_slice {A} (elem : JSON -> A -> option A) (zero : A) (v : JSON) : option (list A) :=
  match v with
  | JArray l => mapM (fun x => elem x zero) l
  | JNull => Some []
  | _ => None
  end.

Definition into_strings (v : JSON) : option (list string) := into_slice into_string EmptyString v.

(** A slice as a document; nil is [null]. *)
Definition json_slice (l : list string) : JSON :=
  match l with [] => JNull | _ => JArray (JString <$> l) end.

(** A map is written with its keys in order. *)
Definition key_before (a b : string * JSON) : Prop := String.leb a.1 b.1 = true.
#[export] Instance key_before_dec : RelDecision key_before.
Proof. intros a b. unfold key_before. apply _. Defined.

Definition json_map (m : list (string * JSON)) : JSON := JObject (merge_sort key_before m).

(** [omitempty] on a string. *)
Definition omit_empty (key v : string) : list (string * JSON) :=
  if String.eqb v EmptyString then [] else [(key, JString v)].

Lemma into_strings_list l : into_strings (JArray (JString <$> l)) = Some l.
Proof. unfold into_strings, into_slice. induction l as [|x l IH]; [done|]. cbn in IH |- *. by rewrite IH. Qed.

Lemma into_strings_slice l : into_strings (json_slice l) = Some l.
Proof. destruct l as [|x l]; [done|]. apply into_strings_list. Qed.

Lemma json_wf_strings l : forallb valid_utf8 l = true -> json_wf (JArray (JString <$> l)) = true.
Proof.
  cbn. induction l as [|x l IH]; [done|]. cbn. intros [-> Hl]%andb_prop. by apply IH.
Qed.

Lemma json_wf_slice l : forallb valid_utf8 l = true -> json_wf (json_slice l) = true.
Proof. destruct l as [|x l]; [done|]. apply json_wf_strings. Qed.

Lemma json_depth_strings l : json_depth (JArray (JString <$> l)) = 1%N.
Proof. cbn. induction l as [|x l IH]; [done|]. cbn in IH |- *. lia. Qed.

Lemma json_depth_slice l : (json_depth (json_slice l) <= 1)%N.
Proof. destruct l as [|x l]; [done|]. unfold json_slice. by rewrite json_depth_strings. Qed.

Lemma fold_max_le k l : (foldr N.max 0 l <= k)%N <-> Forall (fun x => x <= k)%N l.
Proof.
  induction l as [|x l IH]; cbn; [split; [constructor|lia]|]. rewrite Forall_cons, <- IH. lia.
Qed.

Lemma json_wf_map m : json_wf (JObject m) = true -> json_wf (json_map m) = true.
Proof.
  cbn. rewrite !forallb_forall. intros H x Hx. apply H. by apply (Permutation_in x (merge_sort_Permutation key_before m)).
Qed.

Lemma json_depth_map m k : (json_depth (JObject m) <= k)%N -> (json_depth (json_map m) <= k)%N.
Proof.
  unfold json_map. cbn [json_depth]. intros H.
  assert (foldr N.max 0 (map (fun kv => json_depth kv.2) (merge_sort key_before m)) <= k - 1)%N; [|lia].
  apply fold_max_le. rewrite (merge_sort_Permutation key_before m). apply fold_max_le. lia.
Qed.
