(* ===== verification/GoTimeJSON.v ===== *)
(** * time.Time in JSON documents

    The RFC 3339 text of [Time.MarshalJSON], with the fraction of the second and the
    offset of the time zone, and the strict parser of [Time.UnmarshalJSON]; a map of
    times as [json.Marshal] and [json.Unmarshal] treat it.  A printed time parses
    back to the same instant when the offset is a whole number of minutes. *)

From Stdlib Require Import ZArith Lia Ascii String.
From stdpp Require Import base numbers option list strings gmap fin_maps sorting.
From S2P Require Import Prelude GoFloat GoStrings GoNet GoFmt GoValues GoTime GoJSON.

Local Open Scope Z_scope.

(** ** Printing *)

Fixpoint trim_zeros (s : string) : string :=
  match s with
  | EmptyString => EmptyString
  | String c s' => let r := trim_zeros s' in
      if (String.eqb r EmptyString && Ascii.eqb c "0")%bool then EmptyString else String c r
  end.

(** [appendNano]: no fraction for a whole second, no trailing zeros. *)
Definition fraction (nsec : Z) : string :=
  if nsec =? 0 then EmptyString else String "." (trim_zeros (pad_digits 9 nsec)).

(** The offset in seconds east of UTC. *)
Definition zone_string (off : Z) : string :=
  if off =? 0 then "Z"%string
  else let zone := Z.quot off 60 in
       String (if zone <? 0 then "-" else "+")
         (pad_digits 2 (Z.abs zone / 60) ++ ":" ++ pad_digits 2 (Z.abs zone mod 60))%string.

Definition FormatRFC3339Nano (off : Z) (t : Time) : string :=
  (date_clock "T" (t + off * second) ++ fraction (t mod second) ++ zone_string off)%string.

(** [MarshalJSON] refuses years and zones that RFC 3339 cannot express. *)
Definition time_expressible (off : Z) (t : Time) : bool :=
  ((0 <=? year_of (t + off * second)) && (year_of (t + off * second) <? 10000) && (Z.abs (Z.quot off 3600) <? 24))%bool.

Definition MarshalTime (off : Z) (t : Time) : option JSON :=
  if time_expressible off t then Some (JString (FormatRFC3339Nano off t)) else None.

(** ** Parsing

    [Time.UnmarshalJSON] tries a fast parser and then [time.Parse] with the RFC 3339
    layout, whose result it takes as it is; [time.Parse] accepts all that the fast
    parser accepts, with the same value, so it alone is modelled. *)

(** [getnum]: one digit is enough unless two are required. *)
Definition getnum (fixed : bool) (s : string) : option (Z * string) :=
  match s with
  | String a (String b s2 as s1) =>
      if negb (is_digit a) then None
      else if is_digit b then Some (digits_val 0 (String a (String b EmptyString)), s2)
      else if fixed then None else Some (digits_val 0 (String a EmptyString), s1)
  | String a EmptyString => if (is_digit a && negb fixed)%bool then Some (digits_val 0 s, EmptyString) else None
  | EmptyString => None
  end.

Definition get_range (fixed : bool) (lo hi : Z) (s : string) : option (Z * string) :=
  '(x, r) ← getnum fixed s; if ((lo <=? x) && (x <=? hi))%bool then Some (x, r) else None.

Definition get_year (s : string) : option (Z * string) :=
  let p := string_take 4 s in
  if ((String.length p =? 4)%nat && string_forallb is_digit p)%bool then Some (digits_val 0 p, string_drop 4 s) else None.

Definition daysIn (m y : Z) : Z := nth (Z.to_nat (m - 1)) (month_lengths (is_leap y)) 0.

(** A fraction after the seconds that the layout does not mention, and
    [parseNanoseconds]: digits after the ninth are dropped. *)
Definition parse_fraction (s : string) : Z * string :=
  match s with
  | String c s' =>
      if (Ascii.eqb c "." || Ascii.eqb c ",")%bool then
        let '(ds, rest) := span_digits s' in
        if String.eqb ds EmptyString then (0, s)
        else let ds9 := string_take 9 ds in (digits_val 0 ds9 * 10 ^ (9 - Z.of_nat (String.length ds9)), rest)
      else (0, s)
  | EmptyString => (0, s)
  end.

(** The offset of a zone suffix and what follows it; 24 hours and 60 minutes pass. *)
Definition parse_zone (s : string) : option (Z * string) :=
  match s with
  | String c s1 =>
      if Ascii.eqb c "Z" then Some (0, s1)
      else
        '(hr, s2) ← get_range true 0 24 s1; s3 ← expect ":" s2; '(mm, s4) ← get_range true 0 60 s3;
        let off := (hr * 60 + mm) * 60 in
        if Ascii.eqb c "+" then Some (off, s4) else if Ascii.eqb c "-" then Some (- off, s4) else None
  | EmptyString => None
  end.

(** [time.Parse] with the layout 2006-01-02T15:04:05Z07:00. *)
Definition ParseRFC3339 (s : string) : option Time :=
  '(y, s) ← get_year s; s ← expect "-" s; '(mo, s) ← get_range true 1 12 s; s ← expect "-" s; '(d, s) ← getnum true s;
  s ← expect "T" s; '(h, s) ← get_range false 0 23 s; s ← expect ":" s; '(mi, s) ← get_range true 0 59 s;
  s ← expect ":" s; '(se, s) ← get_range true 0 59 s;
  let '(nsec, s) := parse_fraction s in
  '(off, s) ← parse_zone s;
  if (String.eqb s EmptyString && (1 <=? d) && (d <=? daysIn mo y))%bool then
    Some ((days_of_date y mo d * 86400 + h * 3600 + mi * 60 + se) * second + nsec - off * second)
  else None.

(** [UnmarshalJSON] leaves the time alone for [null].  It reads the text between the
    quotes as it stands; a time spelled with escapes, which the code refuses, is
    not told apart here. *)
Definition UnmarshalTime (v : JSON) (old : Time) : option Time :=
  match v with
  | JNull => Some old
  | JString s => ParseRFC3339 s
  | _ => None
  end.

Example nano_examples :
  FormatRFC3339Nano 0 (of_unix 1775399592 + 120000000) = "2026-04-05T14:33:12.12Z"%string /\
  FormatRFC3339Nano (-12600) (of_unix 1775399592) = "2026-04-05T11:03:12-03:30"%string /\
  ParseRFC3339 "2026-04-05T11:03:12-03:30" = Some (of_unix 1775399592) /\
  ParseRFC3339 "2026-04-05T4:33:12,5Z" = Some (of_unix 1775363592 + 500000000) /\
  ParseRFC3339 "2026-02-29T11:03:12Z" = None /\ ParseRFC3339 "2026-04-05 11:03:12Z" = None /\
  ParseRFC3339 "2026-04-05T11:03:12Z " = None.
Proof. repeat split; vm_compute; reflexivity. Qed.

(** ** A printed time parses back *)

Lemma trim_zeros_spec acc s : string_forallb is_digit s = true ->
  string_forallb is_digit (trim_zeros s) = true /\ (String.length (trim_zeros s) <= String.length s)%nat /\
  digits_val acc s = digits_val acc (trim_zeros s) * 10 ^ (Z.of_nat (String.length s) - Z.of_nat (String.length (trim_zeros s))).
Proof.
  revert acc. induction s as [|c s IH]; intros acc; [cbn; lia|]. cbn [string_forallb trim_zeros]. rewrite andb_true_iff. intros [Hc Hs].
  set (acc' := acc * 10 + Z.of_N (byte c - 48)). destruct (IH acc' Hs) as (Hd & Hl & Hv).
  destruct (String.eqb_spec (trim_zeros s) EmptyString) as [He|He]; cbn [andb].
  - destruct (Ascii.eqb_spec c "0") as [->|Hne].
    + split; [done|]. split; [cbn; lia|]. rewrite He in Hv. cbn [digits_val String.length] in *. fold acc'. rewrite Hv.
      cbn [digits_val]. unfold acc'. change (Z.of_N (byte "0" - 48)) with 0.
      replace (Z.of_nat (S (String.length s)) - Z.of_nat 0) with (Z.succ (Z.of_nat (String.length s) - 0)) by lia.
      rewrite Z.pow_succ_r by lia. lia.
    + cbn [string_forallb digits_val String.length]. fold acc'. rewrite Hc, Hd. split; [done|]. split; [lia|]. rewrite Hv. do 2 f_equal. lia.
  - cbn [string_forallb digits_val String.length]. fold acc'. rewrite Hc, Hd. split; [done|]. split; [lia|]. rewrite Hv. do 2 f_equal. lia.
Qed.

Lemma string_take_all n s : (String.length s <= n)%nat -> string_take n s = s.
Proof. revert n. induction s as [|c s IH]; intros [|n] Hn; cbn in *; try lia; [done|done|]. rewrite IH; [done|lia]. Qed.

(** What may follow the digits of a fraction. *)
Definition zone_head (s : string) : Prop := match s with String c _ => is_digit c = false /\ (Ascii.eqb c "." || Ascii.eqb c ",")%bool = false | EmptyString => False end.

Lemma span_digits_stop ds s : string_forallb is_digit ds = true -> zone_head s -> span_digits (ds ++ s) = (ds, s).
Proof.
  induction ds as [|c ds IH]; cbn [string_forallb].
  - intros _ Hz. destruct s as [|c s]; [done|]. destruct Hz as [Hz _]. cbn [String.append span_digits]. by rewrite Hz.
  - rewrite andb_true_iff. intros [Hc Hd] Hz. cbn. rewrite Hc. by rewrite (IH Hd Hz).
Qed.

Lemma fraction_back nsec rest : 0 <= nsec < second -> zone_head rest -> parse_fraction (fraction nsec ++ rest) = (nsec, rest).
Proof.
  intros Hn Hz. unfold fraction. destruct (Z.eqb_spec nsec 0) as [->|Hne].
  - destruct rest as [|c rest]; [done|]. destruct Hz as [_ Hz]. cbn [String.append]. unfold parse_fraction. by rewrite Hz.
  - destruct (pad_digits_spec 9 nsec) as [Hd Hv]; [unfold second in Hn; cbn; lia|].
    destruct (trim_zeros_spec 0 _ Hd) as (Hd' & Hl & Hv'). rewrite pad_digits_length in Hl, Hv'.
    cbn [String.append parse_fraction Ascii.eqb Bool.eqb orb]. rewrite (span_digits_stop _ _ Hd' Hz).
    destruct (String.eqb_spec (trim_zeros (pad_digits 9 nsec)) EmptyString) as [He|He].
    { exfalso. rewrite Hv, He in Hv'. cbn in Hv'. lia. }
    rewrite string_take_all by lia. rewrite Hv in Hv'. f_equal. exact (eq_sym Hv').
Qed.

Lemma pad_two x rest : 0 <= x < 100 -> exists a b, (pad_digits 2 x ++ rest)%string = String a (String b rest) /\
  is_digit a = true /\ is_digit b = true /\ digits_val 0 (String a (String b EmptyString)) = x.
Proof.
  intros Hx. destruct (pad_digits_spec 2 x Hx) as [Hd Hv]. pose proof (pad_digits_length 2 x) as Hl.
  destruct (pad_digits 2 x) as [|a [|b [|]]]; try discriminate. exists a, b. cbn [string_forallb] in Hd.
  rewrite !andb_true_iff in Hd. tauto.
Qed.

Lemma getnum_pad fixed x rest : 0 <= x < 100 -> getnum fixed (pad_digits 2 x ++ rest) = Some (x, rest).
Proof. intros Hx. destruct (pad_two x rest Hx) as (a & b & -> & Ha & Hb & Hv). cbn [getnum]. by rewrite Ha, Hb, Hv. Qed.

Lemma get_range_pad fixed lo hi x rest : 0 <= x < 100 -> lo <= x <= hi ->
  get_range fixed lo hi (pad_digits 2 x ++ rest) = Some (x, rest).
Proof.
  intros Hx Hr. unfold get_range. rewrite getnum_pad by done. cbn [mbind option_bind].
  destruct (Z.leb_spec lo x), (Z.leb_spec x hi); try lia; done.
Qed.

Lemma get_year_pad y rest : 0 <= y < 10000 -> get_year (pad_digits 4 y ++ rest) = Some (y, rest).
Proof.
  intros Hy. destruct (pad_digits_spec 4 y Hy) as [Hd Hv]. pose proof (pad_digits_length 4 y) as Hl.
  destruct (pad_digits 4 y) as [|a [|b [|c [|d [|]]]]]; try discriminate. unfold get_year. cbn [String.append string_take string_drop].
  by rewrite Hd, Hv.
Qed.

Lemma expect_byte c s : expect c (String c s) = Some s.
Proof. cbn. by rewrite Ascii.eqb_refl. Qed.

Lemma zone_back off : off mod 60 = 0 -> Z.abs (Z.quot off 3600) < 24 ->
  zone_head (zone_string off) /\ parse_zone (zone_string off) = Some (off, EmptyString).
Proof.
  intros Hm Ha. unfold zone_string. destruct (Z.eqb_spec off 0) as [->|Hne]; [done|]. cbv zeta.
  assert (Hz : off = 60 * Z.quot off 60) by (Z.to_euclidean_division_equations; lia).
  assert (Hq : Z.abs (Z.quot off 60) / 60 < 24) by (Z.to_euclidean_division_equations; nia).
  set (zone := Z.quot off 60) in *. clearbody zone.
  pose proof (Z.div_pos (Z.abs zone) 60). pose proof (Z.mod_pos_bound (Z.abs zone) 60). pose proof (Z.div_mod (Z.abs zone) 60).
  split; [by destruct (zone <? 0)|]. unfold parse_zone.
  replace (Ascii.eqb (if zone <? 0 then "-" else "+") "Z") with false by (by destruct (zone <? 0)).
  rewrite get_range_pad by lia. cbn [mbind option_bind String.append]. rewrite expect_byte. cbn [mbind option_bind].
  rewrite <- (string_app_nil_r (pad_digits 2 _)), get_range_pad by lia. cbn [mbind option_bind].
  destruct (Z.ltb_spec zone 0); cbn -[Z.mul Z.add Z.opp]; repeat f_equal; lia.
Qed.

Lemma month_day_bound (leap : bool) yday : 0 <= yday < (if leap then 366 else 365) ->
  let '(m, d) := month_day (month_lengths leap) 1 yday in 1 <= d <= nth (Z.to_nat (m - 1)) (month_lengths leap) 0.
Proof.
  intros H. unfold month_lengths. cbn [month_day].
  destruct leap; repeat (match goal with |- context [?a <? ?b] => destruct (Z.ltb_spec a b) end;
    [match goal with |- context [nth ?n ?l 0] => let v := eval vm_compute in (nth n l 0) in change (nth n l 0) with v end; lia|]);
    lia.
Qed.

Lemma day_bound t : let '(y, m, d) := date_of_days t in 1 <= d <= daysIn m y.
Proof.
  unfold date_of_days, daysIn. pose proof (year_yday_spec t) as H. destruct (year_yday t) as [y yday]. destruct H as [_ Hy].
  pose proof (month_day_bound (is_leap y) yday Hy) as Hm. by destruct (month_day _ 1 yday) as [m d].
Qed.

(** The instant as the parser puts it together. *)
Lemma clock_parts t : let s := secs_of_time t in
  (days_of_time t * 86400 + s / 3600 * 3600 + s / 60 mod 60 * 60 + s mod 60) * second = t / second * second.
Proof.
  cbv zeta. unfold days_of_time, secs_of_time. set (s := t / second mod 86400).
  assert (Ht : t / second = t / (86400 * second) * 86400 + s).
  { unfold s. rewrite (Z.mul_comm 86400 second), <- Z.div_div by (unfold second; lia). pose proof (Z.div_mod (t / second) 86400). lia. }
  rewrite Ht. f_equal. pose proof (Z.div_mod s 60). pose proof (Z.div_mod (s / 60) 60).
  assert (s / 60 / 60 = s / 3600) by (rewrite Z.div_div by lia; done). lia.
Qed.

(** The fields of a printed time, whatever follows. *)
Lemma parse_date_clock t rest nsec off rest' : 0 <= year_of t < 10000 -> parse_fraction rest = (nsec, rest') ->
  parse_zone rest' = Some (off, EmptyString) ->
  ParseRFC3339 (date_clock "T" t ++ rest) = Some (t / second * second + nsec - off * second).
Proof.
  unfold year_of, date_clock. pose proof (date_of_days_spec (days_of_time t)) as Hd. pose proof (day_bound (days_of_time t)) as Hdb.
  pose proof (clock_parts t) as Hparts. cbv zeta in Hparts.
  destruct (date_of_days (days_of_time t)) as [[y m] d]. destruct Hd as (Hd & Hm & Hdd). intros Hy Hf Hz.
  unfold year_string. destruct (Z.leb_spec 0 y), (Z.ltb_spec y 10000); try lia. cbn [andb].
  set (s := secs_of_time t) in *. assert (Hs : 0 <= s < 86400) by (apply Z.mod_pos_bound; lia).
  assert (H3600 : 0 <= s / 3600 < 24) by (split; [apply Z.div_pos|apply Z.div_lt_upper_bound]; lia).
  pose proof (Z.mod_pos_bound (s / 60) 60). pose proof (Z.mod_pos_bound s 60).
  rewrite !string_app_assoc. unfold ParseRFC3339. rewrite get_year_pad by lia.
  repeat first [rewrite get_range_pad by lia|rewrite getnum_pad by lia|rewrite expect_byte|progress cbn [mbind option_bind String.append]].
  rewrite Hf, Hz. cbn [mbind option_bind String.eqb andb].
  destruct (Z.leb_spec 1 d), (Z.leb_spec d (daysIn m y)); try lia. cbn [andb]. by rewrite Hd, Hparts.
Qed.

Lemma FormatRFC3339Nano_back off t : off mod 60 = 0 -> time_expressible off t = true ->
  ParseRFC3339 (FormatRFC3339Nano off t) = Some t.
Proof.
  intros Hm. unfold time_expressible. rewrite !andb_true_iff, Z.leb_le, !Z.ltb_lt. intros [[Hy1 Hy2] Ha].
  destruct (zone_back off Hm Ha) as [Hh Hz]. unfold FormatRFC3339Nano.
  rewrite (parse_date_clock _ _ (t mod second) off (zone_string off)); [|lia| |done].
  - f_equal. replace ((t + off * second) / second) with (t / second + off) by (rewrite Z.div_add; [done|by unfold second]).
    pose proof (Z.div_mod t second). unfold second in *. lia.
  - apply fraction_back; [apply Z.mod_pos_bound; by unfold second|done].
Qed.

(** A printed UTC time parses back to the second. *)
Lemma ParseRFC3339_Format t : 0 <= year_of t < 10000 -> ParseRFC3339 (FormatRFC3339 t) = Some (t / second * second).
Proof. intros Hy. unfold FormatRFC3339. rewrite (parse_date_clock _ _ 0 0 "Z") by done. f_equal. lia. Qed.

(** ** Maps of times

    [zone] gives the offset of the location each time carries. *)

Definition marshal_entry (zone : string -> Z) (kt : string * Time) : option (string * JSON) :=
  v ← MarshalTime (zone kt.1) kt.2; Some (kt.1, v).

(** [json.Marshal] of a [map[string]time.Time]. *)
Definition encode_times (zone : string -> Z) (m : gmap string Time) : option string :=
  kvs ← mapM (marshal_entry zone) (map_to_list m); Some (Marshal (json_map kvs)).

(** [json.Unmarshal] into an empty [map[string]time.Time]: an element starts as the
    zero time, and the last of two entries with the same key stays. *)
Definition unmarshal_entry (acc : option (gmap string Time)) (kv : string * JSON) : option (gmap string Time) :=
  m ← acc; t ← UnmarshalTime kv.2 0; Some (<[kv.1 := t]> m).

Definition decode_times (s : string) : option (gmap string Time) :=
  match Unmarshal s with
  | Some JNull => Some ∅
  | Some (JObject kvs) => foldl unmarshal_entry (Some ∅) kvs
  | _ => None
  end.

Example times_examples :
  encode_times (fun _ => 0) (<["10.0.0.2" := of_unix 5]> {["10.0.0.1" := of_unix 0]}) =
    Some (Marshal (JObject [("10.0.0.1", JString "1970-01-01T00:00:00Z"); ("10.0.0.2", JString "1970-01-01T00:00:05Z")])%string) /\
  decode_times "null" = Some ∅ /\ decode_times "[]" = None /\ decode_times EmptyString = None.
Proof. repeat split; vm_compute; reflexivity. Qed.

Lemma trim_zeros_graph s : string_forallb is_graph s = true -> string_forallb is_graph (trim_zeros s) = true.
Proof.
  induction s as [|c s IH]; [done|]. cbn [string_forallb trim_zeros]. rewrite andb_true_iff. intros [Hc Hs].
  case_match; [done|]. cbn [string_forallb]. by rewrite Hc, IH.
Qed.

Lemma FormatRFC3339Nano_graph off t : string_forallb is_graph (FormatRFC3339Nano off t) = true.
Proof.
  unfold FormatRFC3339Nano. pose proof (FormatRFC3339_graph (t + off * second)) as Hd. unfold FormatRFC3339 in Hd.
  rewrite string_forallb_app, andb_true_iff in Hd. rewrite !string_forallb_app, (proj1 Hd). unfold fraction, zone_string.
  destruct (t mod second =? 0), (off =? 0); cbn [string_forallb andb]; rewrite ?trim_zeros_graph by apply pad_digits_graph; try done;
    rewrite !string_forallb_app, !pad_digits_graph; by destruct (Z.quot off 60 <? 0).
Qed.

(** What one entry of the written map is. *)
Lemma marshal_entry_spec zone kt kv : marshal_entry zone kt = Some kv ->
  kv = (kt.1, JString (FormatRFC3339Nano (zone kt.1) kt.2)) /\ time_expressible (zone kt.1) kt.2 = true.
Proof. unfold marshal_entry, MarshalTime. destruct (time_expressible _ _) eqn:E; [|done]. cbn. intros [= <-]. done. Qed.

(** Reading entries whose times are those of [m]. *)
Lemma unmarshal_entries (m acc : gmap string Time) kvs :
  (forall k v, (k, v) ∈ kvs -> exists t, m !! k = Some t /\ UnmarshalTime v 0 = Some t) ->
  exists r, foldl unmarshal_entry (Some acc) kvs = Some r /\
    forall k, r !! k = if decide (k ∈ kvs.*1) then m !! k else acc !! k.
Proof.
  revert acc. induction kvs as [|[k v] kvs IH]; intros acc H; [by exists acc|]. cbn [foldl fmap list_fmap fst].
  destruct (H k v) as (t & Hm & Ht); [by left|]. unfold unmarshal_entry at 2. cbn [mbind option_bind fst snd]. rewrite Ht. cbn [mbind option_bind].
  destruct (IH (<[k := t]> acc)) as (r & -> & Hr); [intros k' v' Hin; apply H; by right|]. exists r. split; [done|].
  intros k'. rewrite Hr. destruct (decide (k' ∈ kvs.*1)) as [Hin|Hin].
  - rewrite decide_True by (by right). done.
  - destruct (decide (k' = k)) as [->|Hne].
    + rewrite decide_True by (by left). by rewrite lookup_insert_eq.
    + rewrite decide_False by (rewrite elem_of_cons; tauto). by rewrite lookup_insert_ne.
Qed.

(** The entries written are those of the map. *)
Lemma marshal_entries_in zone (m : gmap string Time) kvs : mapM (marshal_entry zone) (map_to_list m) = Some kvs ->
  (forall k v, (k, v) ∈ kvs -> exists t, m !! k = Some t /\ marshal_entry zone (k, t) = Some (k, v)) /\
  (forall k, is_Some (m !! k) -> k ∈ kvs.*1).
Proof.
  intros H%mapM_Some. split.
  - intros k v [i Hi]%list_elem_of_lookup_1. destruct (Forall2_lookup_r _ _ _ _ _ H Hi) as ([k' t] & Hk & Hs).
    destruct (marshal_entry_spec _ _ _ Hs) as [Hkv _]. cbn [fst snd] in Hkv. injection Hkv as -> ->. exists t. split; [|done].
    apply elem_of_map_to_list. by eapply list_elem_of_lookup_2.
  - intros k [t Ht]. apply elem_of_map_to_list, list_elem_of_lookup_1 in Ht as [i Hi].
    destruct (Forall2_lookup_l _ _ _ _ _ H Hi) as (kv & Hk & Hs). destruct (marshal_entry_spec _ _ _ Hs) as [-> _].
    apply list_elem_of_fmap. eexists. split; [|by eapply list_elem_of_lookup_2]. done.
Qed.

(** Zones of whole minutes and keys of valid UTF-8. *)
Definition times_ok (zone : string -> Z) (m : gmap string Time) : Prop :=
  forall k, is_Some (m !! k) -> zone k mod 60 = 0 /\ valid_utf8 k = true.

Lemma decode_encode_times zone m s : times_ok zone m -> encode_times zone m = Some s -> decode_times s = Some m.
Proof.
  intros Hok. unfold encode_times. destruct (mapM _ _) as [kvs|] eqn:E; [|done]. cbn [mbind option_bind]. intros <-%(inj Some).
  destruct (marshal_entries_in _ _ _ E) as [Hin Hkeys].
  assert (Hv : forall k v, (k, v) ∈ kvs -> exists t, m !! k = Some t /\ v = JString (FormatRFC3339Nano (zone k) t) /\ UnmarshalTime v 0 = Some t).
  { intros k v (t & Hm & Hs)%Hin. exists t. destruct (marshal_entry_spec _ _ _ Hs) as [[= ->] Hx]. split; [done|]. split; [done|].
    apply FormatRFC3339Nano_back; [|done]. apply Hok. by eexists. }
  unfold decode_times. rewrite Unmarshal_Marshal.
  - unfold json_map. assert (Hp : forall kv, kv ∈ merge_sort key_before kvs <-> kv ∈ kvs) by (intros kv; by rewrite (merge_sort_Permutation key_before kvs)).
    destruct (unmarshal_entries m ∅ (merge_sort key_before kvs)) as (r & -> & Hr).
    { intros k v (t & Hm & _ & Ht)%Hp%Hv. by exists t. }
    f_equal. apply map_eq. intros k. rewrite Hr. case_decide as Hd; [done|]. destruct (m !! k) as [t|] eqn:Em; [|done].
    exfalso. apply Hd. rewrite (merge_sort_Permutation key_before kvs). apply Hkeys. by rewrite Em.
  - apply json_wf_map. cbn [json_wf]. apply forallb_forall. intros [k v] (t & Hm & -> & _)%list_elem_of_In%Hv. cbn [fst snd json_wf].
    rewrite (graph_utf8 _ (FormatRFC3339Nano_graph _ _)), andb_true_r. apply Hok. by eexists.
  - etransitivity; [apply (json_depth_map _ 1)|done]. cbn [json_depth].
    assert (foldr N.max 0 (map (fun kv : string * JSON => json_depth kv.2) kvs) <= 0)%N; [|lia].
    apply fold_max_le, Forall_map, Forall_forall. intros [k v] (t & _ & -> & _)%Hv. done.
Qed.
