(* ===== verification/GoHTTP.v ===== *)
(** * net/url and net/http

    What a request looks like on the other side of the connection: escaping and
    unescaping, the split of a URL, basic authentication, the request multiplexer
    with its redirects to the cleaned path, and [http.Error].  A server is a
    function on its state; a panic in a handler closes the connection, which the
    client sees as a transport error. *)

From Stdlib Require Import ZArith Lia Ascii String.
From stdpp Require Import base numbers option list strings.
From S2P Require Import Prelude GoStrings GoNet GoFmt Model.

(** ** net/url *)

(** [url.PathEscape]. *)
Definition path_unreserved (c : ascii) : bool :=
  (is_digit c || is_upper c || ((97 <=? byte c) && (byte c <=? 122))%N ||
   existsb (Ascii.eqb c) ["-"; "_"; "."; "~"; "$"; "&"; "+"; "="; ":"; "@"]%char)%bool.

Definition hex_upper (n : N) : ascii := ascii_of_N (if (n <? 10)%N then 48 + n else 55 + n).

Fixpoint PathEscape (s : string) : string :=
  match s with
  | EmptyString => EmptyString
  | String c s' =>
      if path_unreserved c then String c (PathEscape s')
      else String "%" (String (hex_upper (byte c / 16)) (String (hex_upper (byte c mod 16)) (PathEscape s')))
  end.

(** [url.PathUnescape], and [url.QueryUnescape] with [plus]. *)
Fixpoint unescape (plus : bool) (s : string) : option string :=
  match s with
  | EmptyString => Some EmptyString
  | String c s' =>
      if Ascii.eqb c "%" then
        match s' with
        | String h (String l r) =>
            hv ← hex_val h; lv ← hex_val l; t ← unescape plus r;
            Some (String (ascii_of_N (Z.to_N (hv * 16 + lv))) t)
        | _ => None
        end
      else t ← unescape plus s'; Some (String (if (plus && Ascii.eqb c "+")%bool then " "%char else c) t)
  end.

Lemma unescape_escape s : unescape false (PathEscape s) = Some s.
Proof.
  induction s as [|c s IH]; [done|]. cbn [PathEscape]. destruct (path_unreserved c) eqn:Ec.
  - cbn [unescape]. destruct (Ascii.eqb_spec c "%") as [->|_]; [discriminate Ec|]. by rewrite IH.
  - cbn [unescape]. rewrite Ascii.eqb_refl, IH.
    destruct c as [[] [] [] [] [] [] [] []]; first [discriminate Ec | reflexivity].
Qed.

(** What an escaped segment is free of. *)
Lemma PathEscape_free (c : ascii) s : path_unreserved c = false -> c <> "%"%char ->
  (forall n, (n < 16)%N -> hex_upper n <> c) -> free_of c (PathEscape s) = true.
Proof.
  intros Hc Hp Hh. unfold free_of. induction s as [|d s IH]; [done|]. cbn [PathEscape].
  destruct (path_unreserved d) eqn:Ed; cbn [string_forallb]; rewrite IH, andb_true_r.
  - destruct (Ascii.eqb_spec d c) as [->|]; [congruence|done].
  - assert (Hd : (byte d < 256)%N) by apply N_ascii_bounded.
    rewrite !andb_true_iff, !negb_true_iff, !Ascii.eqb_neq. repeat split; [congruence|apply Hh..].
    + apply N.div_lt_upper_bound; lia.
    + by apply N.mod_lt.
Qed.

(** Split at the first occurrence of a byte; [None] when there is none. *)
Fixpoint Cut (c : ascii) (s : string) : option (string * string) :=
  match s with
  | EmptyString => None
  | String d s' =>
      if Ascii.eqb d c then Some (EmptyString, s')
      else '(a, b) ← Cut c s'; Some (String d a, b)
  end.

Definition before_cut (c : ascii) (s : string) : string := match Cut c s with Some (a, _) => a | None => s end.
Definition after_cut (c : ascii) (s : string) : string := match Cut c s with Some (_, b) => b | None => EmptyString end.

Lemma Cut_free c s : free_of c s = true -> Cut c s = None.
Proof.
  induction s as [|d s IH]; [done|]. unfold free_of. cbn [string_forallb]. intros [Hd Hs]%andb_prop.
  apply negb_true_iff in Hd. cbn. by rewrite Hd, IH.
Qed.

Lemma before_cut_free c s : free_of c s = true -> before_cut c s = s.
Proof. unfold before_cut. intros H%Cut_free. by rewrite H. Qed.

Lemma after_cut_free c s : free_of c s = true -> after_cut c s = EmptyString.
Proof. unfold after_cut. intros H%Cut_free. by rewrite H. Qed.

Lemma Cut_app c a b : free_of c a = true -> Cut c (a +:+ String c b) = Some (a, b).
Proof.
  induction a as [|d a IH]; cbn; [by rewrite Ascii.eqb_refl|]. unfold free_of in *. cbn. intros [Hd Ha]%andb_prop.
  apply negb_true_iff in Hd. by rewrite Hd, IH.
Qed.

(** [url.Values.Get] on a raw query: the first pair with the key; a pair that does
    not unescape or holds a semicolon is dropped. *)
Definition query_pair (kv : string) : option (string * string) :=
  if (String.eqb kv EmptyString || Contains kv ";")%bool then None
  else k ← unescape true (before_cut "=" kv); v ← unescape true (after_cut "=" kv); Some (k, v).

Definition Query_Get (rawQuery key : string) : string :=
  match List.find (fun kv => String.eqb kv.1 key) (omap query_pair (Split rawQuery "&")) with
  | Some kv => kv.2
  | None => EmptyString
  end.

(** ** Requests *)

(** [r_Auth] is the decoded user and password of the basic scheme, joined by a
    colon. *)
Record Request := mkRequest {
  r_Method : string;
  r_EscapedPath : string;
  r_Path : string;
  r_RawQuery : string;
  r_Auth : option string;
  r_Body : string
}.

(** [SetBasicAuth] on the client and [BasicAuth] on the server. *)
Definition SetBasicAuth (user password : string) : string := user +:+ ":" +:+ password.
Definition BasicAuth (r : Request) : option (string * string) := a ← r_Auth r; Cut ":" a.

(** A user name without a colon arrives as it was set. *)
Lemma BasicAuth_Set r user password : r_Auth r = Some (SetBasicAuth user password) -> free_of ":" user = true ->
  BasicAuth r = Some (user, password).
Proof. intros Hr Hu. unfold BasicAuth. rewrite Hr. by apply (Cut_app ":"). Qed.

(** The request for the part of a URL that follows the host: a fragment is not
    sent. *)
Definition request_of (method target : string) (auth : option string) (body : string) : option Request :=
  let t := before_cut "#" target in
  let esc := before_cut "?" t in
  path ← unescape false esc;
  Some (mkRequest method esc path (after_cut "?" t) auth body).

(** ** Servers *)

(** [http.Error]. *)
Definition http_Error (msg : string) (code : Z) : HttpResponse :=
  mkHttpResponse code (msg +:+ String newline EmptyString).

Definition Handler (S : Type) : Type := S -> Request -> S * option HttpResponse.
Definition ServeMux (S : Type) : Type := list (string * Handler S).

(** Paths are matched by their unescaped segments; a pattern with a trailing slash
    matches the paths below it. *)
Definition path_segments (escaped : string) : option (list string) := mapM (unescape false) (Split escaped "/").

Definition pattern_matches (segs : list string) (pattern : string) : bool :=
  let ps := Split pattern "/" in
  if HasSuffix pattern "/"
  then ((length ps <=? length segs)%nat && bool_decide (take (length ps - 1) segs = take (length ps - 1) ps))%bool
  else bool_decide (segs = ps).

(** The longest matching pattern. *)
Fixpoint mux_match {S} (mux : ServeMux S) (segs : list string) : option (string * Handler S) :=
  match mux with
  | [] => None
  | (p, h) :: mux' =>
      match pattern_matches segs p, mux_match mux' segs with
      | true, Some (p', h') => if (String.length p <? String.length p')%nat then Some (p', h') else Some (p, h)
      | true, None => Some (p, h)
      | false, r => r
      end
  end.

Definition mux_find {S} (mux : ServeMux S) (escaped : string) : option (string * Handler S) :=
  segs ← path_segments escaped; mux_match mux segs.

(** [path.Clean] on a rooted path, segment by segment; a trailing slash is kept. *)
Fixpoint clean_segments (acc : list string) (segs : list string) : list string :=
  match segs with
  | [] => rev acc
  | s :: segs' =>
      if (String.eqb s EmptyString || String.eqb s ".")%bool then clean_segments acc segs'
      else if String.eqb s ".." then clean_segments (tail acc) segs'
      else clean_segments (s :: acc) segs'
  end.

Definition cleanPath (p : string) : string :=
  let q := "/" +:+ Join (clean_segments [] (Split p "/")) "/" in
  if (HasSuffix p "/" && negb (HasSuffix q "/"))%bool then q +:+ "/" else q.

Definition registered {S} (mux : ServeMux S) (path : string) : bool :=
  existsb (fun ph => String.eqb ph.1 path) mux.

(** Where the multiplexer redirects a request, if it does: to the directory that is
    registered in the place of the path, or to the cleaned path. *)
Definition mux_redirect {S} (mux : ServeMux S) (escaped : string) : option string :=
  let p := cleanPath escaped in
  if (negb (registered mux p) && negb (HasSuffix p "/") && registered mux (p +:+ "/"))%bool then Some (p +:+ "/")
  else if String.eqb p escaped then None else Some p.

Definition NotFound : HttpResponse := http_Error "404 page not found" 404.

Definition mux_serve {S} (mux : ServeMux S) (s : S) (r : Request) : S * option HttpResponse :=
  match mux_find mux (r_EscapedPath r) with
  | Some (_, h) => h s r
  | None => (s, Some NotFound)
  end.

(** What the server sends for a request with a path (other than CONNECT, whose path
    is not cleaned): the answer of the handler, or 301 with the path to go to. *)
Inductive Reply :=
  | Answer (resp : HttpResponse)
  | MovedPermanently (path : string).

Definition server_reply {S} (mux : ServeMux S) (s : S) (r : Request) : S * option Reply :=
  match mux_redirect mux (r_EscapedPath r) with
  | Some p => (s, Some (MovedPermanently p))
  | None => let '(s', resp) := mux_serve mux s r in (s', Answer <$> resp)
  end.

(** The client follows a redirect; anything but GET and HEAD becomes a GET without
    a body.  [fuel] bounds the redirects the client follows. *)
Fixpoint exchange {S} (fuel : nat) (mux : ServeMux S) (s : S) (r : Request) : S * option HttpResponse :=
  match mux_redirect mux (r_EscapedPath r), fuel with
  | None, _ => mux_serve mux s r
  | Some _, O => (s, None)
  | Some p, S fuel' =>
      match unescape false p with
      | None => (s, None)
      | Some path =>
          let method := if existsb (String.eqb (r_Method r)) ["GET"; "HEAD"] then r_Method r else "GET" in
          exchange fuel' mux s (mkRequest method p path (r_RawQuery r) (r_Auth r) EmptyString)
      end
  end.

Definition maxRedirects : nat := 10.

(** A request of a client for a URL below [base], the address of the server: a URL
    with a control character is refused by the client, and a space in the query
    breaks the request line, which the server refuses. *)
Definition http_Do {S} (base : string) (mux : ServeMux S) (s : S) (method url : string) (auth : option string)
    (body : string) : S * option HttpResponse :=
  if (negb (HasPrefix url base) || negb (string_forallb no_ctl url))%bool then (s, None)
  else match request_of method (TrimPrefix url base) auth body with
  | None => (s, None)
  | Some r => if Contains (r_RawQuery r) " " then (s, Some (mkHttpResponse 400 "400 Bad Request"))
              else exchange maxRedirects mux s r
  end.

(** ** A network that loses requests

    Each [true] of the schedule is a request that never reaches the server. *)
Record Net (S : Type) := mkNet { net_server : S; net_lost : list bool }.
Arguments mkNet {_} _ _.
Arguments net_server {_} _.
Arguments net_lost {_} _.

Definition net_Do {S} (base : string) (mux : ServeMux S) (net : Net S) (method url : string) (auth : option string)
    (body : string) : Net S * option HttpResponse :=
  if default false (head (net_lost net)) then (mkNet (net_server net) (tail (net_lost net)), None)
  else
    let '(s', resp) := http_Do base mux (net_server net) method url auth body in
    (mkNet s' (tail (net_lost net)), resp).

(** ** Routes without a redirect *)

(** A segment that [path.Clean] keeps. *)
Definition good_segment (s : string) : bool :=
  (negb (String.eqb s EmptyString) && negb (String.eqb s ".") && negb (String.eqb s "..") && free_of "/" s)%bool.

Lemma clean_segments_good acc segs : forallb good_segment segs = true ->
  clean_segments acc segs = rev acc ++ segs.
Proof.
  revert acc. induction segs as [|s segs IH]; intros acc; [by rewrite app_nil_r|]. cbn. unfold good_segment.
  intros [[[[H1 H2]%andb_prop H3]%andb_prop _]%andb_prop Hs]%andb_prop. apply negb_true_iff in H1, H2, H3.
  rewrite H1, H2, H3. cbn. rewrite IH by done. cbn. by rewrite <- app_assoc.
Qed.

Definition rooted (segs : list string) : string := "/" +:+ Join segs "/".

Lemma Split_rooted segs : segs <> [] -> forallb good_segment segs = true -> Split (rooted segs) "/" = EmptyString :: segs.
Proof.
  intros Hne Hg. unfold rooted. change ("/" +:+ ?x) with (EmptyString +:+ String "/" x).
  rewrite Split_app_sep by done. f_equal. apply (Split_Join segs "/"); [done|].
  apply Forall_forall. intros s Hs. rewrite forallb_forall in Hg. apply list_elem_of_In, Hg in Hs.
  by apply andb_prop in Hs as [_ ?].
Qed.

Lemma cleanPath_rooted segs : segs <> [] -> forallb good_segment segs = true -> cleanPath (rooted segs) = rooted segs.
Proof.
  intros Hne Hg. unfold cleanPath. rewrite Split_rooted by done. cbn [clean_segments String.eqb orb].
  rewrite clean_segments_good by done. cbn [rev app]. fold (rooted segs). by destruct (HasSuffix (rooted segs) "/").
Qed.

Lemma path_segments_rooted segs segs' : segs <> [] -> forallb good_segment segs = true ->
  mapM (unescape false) segs = Some segs' -> path_segments (rooted segs) = Some (EmptyString :: segs').
Proof. intros Hne Hg Hu. unfold path_segments. rewrite Split_rooted by done. cbn. by rewrite Hu. Qed.

Lemma Split_rooted_slash segs : segs <> [] -> forallb good_segment segs = true ->
  Split (rooted segs +:+ "/") "/" = EmptyString :: segs ++ [EmptyString].
Proof.
  intros Hne Hg. replace (rooted segs +:+ "/") with (EmptyString +:+ String "/" (Join (segs ++ [EmptyString]) "/")).
  { rewrite Split_app_sep by done. f_equal. apply (Split_Join (segs ++ [EmptyString]) "/"); [by destruct segs|].
    apply Forall_app. split; [|by repeat constructor]. apply Forall_forall. intros s Hs.
    rewrite forallb_forall in Hg. apply list_elem_of_In, Hg in Hs. by apply andb_prop in Hs as [_ ?]. }
  unfold rooted. cbn [String.append]. f_equal. clear Hg. induction segs as [|x segs IH]; [done|].
  destruct segs as [|y segs]; [done|]. change (Join ((x :: y :: segs) ++ [EmptyString]) "/") with
    (x +:+ "/" +:+ Join ((y :: segs) ++ [EmptyString]) "/"). rewrite IH by done. cbn [Join]. by rewrite !string_app_assoc.
Qed.

Lemma unescape_app plus a b a' b' : unescape plus a = Some a' -> unescape plus b = Some b' ->
  unescape plus (a +:+ b) = Some (a' +:+ b').
Proof.
  intros Ha Hb. revert a' Ha. induction a as [a IH] using string_length_ind. intros a' Ha.
  destruct a as [|c a]; [by injection Ha as <-|]. cbn [String.append unescape] in Ha |- *.
  destruct (Ascii.eqb c "%").
  - destruct a as [|h [|l a]]; [done|done|]. cbn [String.append]. destruct (hex_val h); [|done]. destruct (hex_val l); [|done].
    cbn [mbind option_bind] in Ha |- *. destruct (unescape plus a) as [t|] eqn:E; [|done]. injection Ha as <-.
    by rewrite (IH a ltac:(cbn; lia) t E).
  - destruct (unescape plus a) as [t|] eqn:E; [|done]. injection Ha as <-. by rewrite (IH a ltac:(cbn; lia) t E).
Qed.

Lemma unescape_rooted segs segs' : mapM (unescape false) segs = Some segs' ->
  unescape false (rooted segs) = Some (rooted segs').
Proof.
  intros Hu. apply (unescape_app false "/" _ "/"); [done|]. apply mapM_Some_1 in Hu.
  induction Hu as [|x y l l' Hx Hl IH]; [done|]. destruct Hl as [|x2 y2 l l' Hx2 Hl]; [done|].
  change (Join (x :: x2 :: l) "/") with (x +:+ "/" +:+ Join (x2 :: l) "/").
  change (Join (y :: y2 :: l') "/") with (y +:+ "/" +:+ Join (y2 :: l') "/").
  by repeat apply unescape_app.
Qed.

(** A request that the multiplexer hands to the handler [h] without a redirect. *)
Lemma exchange_route {S} fuel (mux : ServeMux S) s r segs segs' pat h :
  r_EscapedPath r = rooted segs -> segs <> [] -> forallb good_segment segs = true ->
  mapM (unescape false) segs = Some segs' -> mux_match mux (EmptyString :: segs') = Some (pat, h) ->
  registered mux (rooted segs) = true \/ Forall (fun ph => Split ph.1 "/" <> EmptyString :: segs ++ [EmptyString]) mux ->
  exchange fuel mux s r = h s r.
Proof.
  intros Hr Hne Hg Hu Hm Hslash.
  assert (mux_redirect mux (r_EscapedPath r) = None) as Hred.
  { unfold mux_redirect. rewrite Hr, cleanPath_rooted by done.
    destruct Hslash as [-> | Hslash]; [by rewrite String.eqb_refl|].
    assert (registered mux (rooted segs +:+ "/") = false) as ->.
    { apply not_true_iff_false. intros (ph & Hin & Heq)%existsb_exists. apply String.eqb_eq in Heq.
      rewrite Forall_forall in Hslash. apply (Hslash ph); [by apply list_elem_of_In|].
      rewrite Heq. by apply Split_rooted_slash. }
    by rewrite andb_false_r, String.eqb_refl. }
  assert (mux_serve mux s r = h s r) as <-.
  { unfold mux_serve, mux_find. rewrite Hr, (path_segments_rooted _ segs') by done. cbn [mbind option_bind]. by rewrite Hm. }
  destruct fuel; cbn [exchange]; by rewrite Hred.
Qed.

(** A segment that stays in the path of a URL. *)
Definition url_segment (s : string) : bool :=
  (good_segment s && free_of "?" s && free_of "#" s && string_forallb no_ctl s)%bool.

(** The optional query of a URL. *)
Definition url_query (query : option string) : string :=
  match query with Some q => "?" +:+ q | None => EmptyString end.
Definition raw_query (query : option string) : string := match query with Some q => q | None => EmptyString end.

Lemma rooted_forall f segs : f "/"%char = true -> forallb (string_forallb f) segs = true ->
  string_forallb f (rooted segs) = true.
Proof.
  intros Hf Hs. unfold rooted. cbn. rewrite Hf. induction segs as [|x segs IH]; [done|].
  cbn in Hs. apply andb_prop in Hs as [Hx Hs]. destruct segs as [|y segs]; [done|].
  change (Join (x :: y :: segs) "/") with (x +:+ "/" +:+ Join (y :: segs) "/").
  rewrite !string_forallb_app, Hx. cbn [string_forallb andb]. rewrite Hf. by apply IH.
Qed.

Lemma url_segments_all segs : forallb url_segment segs = true ->
  forallb good_segment segs = true /\ free_of "?" (rooted segs) = true /\ free_of "#" (rooted segs) = true /\
  string_forallb no_ctl (rooted segs) = true.
Proof.
  intros Hs. unfold free_of.
  assert (forall f : string -> bool, (forall s, url_segment s = true -> f s = true) -> forallb f segs = true) as Hall.
  { intros f Hf. rewrite forallb_forall in Hs |- *. auto. }
  assert (forall s, url_segment s = true -> good_segment s = true /\ free_of "?" s = true /\ free_of "#" s = true /\
    string_forallb no_ctl s = true) as Hu.
  { intros s. unfold url_segment. rewrite !andb_true_iff. tauto. }
  split; [apply Hall; intros s H; by apply Hu|]. repeat split; apply rooted_forall; try done; apply Hall; intros s H; by apply Hu.
Qed.

Lemma free_of_app c a b : free_of c (a +:+ b) = (free_of c a && free_of c b)%bool.
Proof. apply string_forallb_app. Qed.

Lemma http_Do_route {S} base (mux : ServeMux S) s method segs segs' query auth body pat h :
  string_forallb no_ctl base = true -> segs <> [] -> forallb url_segment segs = true ->
  free_of "#" (raw_query query) = true -> free_of " " (raw_query query) = true ->
  string_forallb no_ctl (raw_query query) = true ->
  mapM (unescape false) segs = Some segs' -> mux_match mux (EmptyString :: segs') = Some (pat, h) ->
  registered mux (rooted segs) = true \/ Forall (fun ph => Split ph.1 "/" <> EmptyString :: segs ++ [EmptyString]) mux ->
  http_Do base mux s method (base +:+ rooted segs +:+ url_query query) auth body =
    h s (mkRequest method (rooted segs) (rooted segs') (raw_query query) auth body).
Proof.
  intros Hb Hne Hs Hq1 Hq2 Hq3 Hu Hm Hslash. destruct (url_segments_all _ Hs) as (Hg & H1 & H2 & H3). unfold http_Do.
  replace (HasPrefix (base +:+ _) base) with true by (symmetry; apply HasPrefix_spec; eauto).
  rewrite !string_forallb_app, Hb, H3, TrimPrefix_app. replace (string_forallb no_ctl (url_query query)) with true by (by destruct query).
  cbn [negb orb andb]. unfold request_of.
  assert (free_of "#" (rooted segs +:+ url_query query) = true) as Hh by (rewrite free_of_app, H2; by destruct query).
  rewrite (before_cut_free "#") by done.
  assert (before_cut "?" (rooted segs +:+ url_query query) = rooted segs /\
          after_cut "?" (rooted segs +:+ url_query query) = raw_query query) as [-> ->].
  { destruct query as [q|]; cbn [url_query raw_query].
    - unfold before_cut, after_cut. change ("?" +:+ q) with (String "?" q). by rewrite Cut_app.
    - rewrite string_app_nil_r. by rewrite before_cut_free, after_cut_free. }
  rewrite (unescape_rooted _ segs') by done. cbn [mbind option_bind r_RawQuery].
  replace (Contains (raw_query query) " ") with false.
  { apply (exchange_route _ _ _ _ segs segs' pat h); done. }
  symmetry. apply not_true_iff_false. intros (a & b & E)%Contains_spec. rewrite E in Hq2.
  unfold free_of in Hq2. rewrite !string_forallb_app in Hq2. cbn in Hq2. by rewrite andb_false_r in Hq2.
Qed.

Lemma PathEscape_segment s : s <> EmptyString -> s <> "." -> s <> ".." -> url_segment (PathEscape s) = true.
Proof.
  intros H1 H2 H3. assert (Hinj : forall t, PathEscape s = t -> unescape false t = Some s) by (intros t <-; apply unescape_escape).
  assert (Hhex : forall c, (byte c < 48)%N \/ (70 < byte c)%N \/ (57 < byte c < 65)%N -> forall n, (n < 16)%N -> hex_upper n <> c).
  { intros c Hc n Hn <-. unfold hex_upper in Hc. unfold byte in Hc. rewrite N_ascii_embedding in Hc by (destruct (n <? 10)%N; lia).
    destruct (N.ltb_spec n 10); lia. }
  unfold url_segment, good_segment. rewrite !andb_true_iff, !negb_true_iff, !String.eqb_neq. repeat split.
  - intros E%Hinj. injection E as <-. done.
  - intros E%Hinj. injection E as <-. done.
  - intros E%Hinj. injection E as <-. done.
  - apply PathEscape_free; [done|done|]. apply Hhex. left. done.
  - apply PathEscape_free; [done|done|]. apply Hhex. right. right. done.
  - apply PathEscape_free; [done|done|]. apply Hhex. left. done.
  - clear. induction s as [|c s IH]; [done|]. cbn [PathEscape]. 
    destruct c as [[] [] [] [] [] [] [] []]; cbn -[PathEscape]; exact IH.
Qed.
