(* ===== verification/GoFlag.v ===== *)
(** * The flag package

    The command-line syntax of Go's flag package: one or two dashes, values after
    an equals sign or in the next argument, booleans that need none, the end of the
    flags at the first other argument or at a double dash.  [ParseFlags] is the scanner;
    [settings_of] the grammar of the arguments it accepts, which it meets exactly. *)

From Stdlib Require Import ZArith Lia Ascii String.
From stdpp Require Import base numbers option list strings.
From S2P Require Import Prelude GoStrings GoNet GoFmt GoValues GoHTTP.

(** A defined flag and how its value is stored in the program's variables. *)
Inductive FlagValue (V : Type) :=
  | BoolFlag (set : bool -> V -> V)
  | StringFlag (set : string -> V -> V).
Arguments BoolFlag {_} _.
Arguments StringFlag {_} _.

Definition FlagSet (V : Type) : Type := list (string * FlagValue V).

Definition formal {V} (fs : FlagSet V) (name : string) : option (FlagValue V) :=
  snd <$> List.find (fun nf => String.eqb nf.1 name) fs.

Inductive FlagError := ErrHelp | ErrFlag (msg : string).

(** Both flag sets of the program exit on an error. *)
Definition exit_on_error (e : FlagError) : Z := match e with ErrHelp => 0 | ErrFlag _ => 2 end.

(** What one argument is. *)
Inductive Arg :=
  | NotFlag
  | Terminator
  | BadSyntax
  | IsFlag (name : string) (value : option string).

(** The text after the dashes; an equals sign cannot come first. *)
Definition flag_text (t : string) : Arg :=
  match t with
  | EmptyString => BadSyntax
  | String c r =>
      if (Ascii.eqb c "-" || Ascii.eqb c "=")%bool then BadSyntax
      else match Cut "=" r with
           | Some (n, v) => IsFlag (String c n) (Some v)
           | None => IsFlag t None
           end
  end.

Definition classify (s : string) : Arg :=
  match s with
  | String a (String b r as t) =>
      if negb (Ascii.eqb a "-") then NotFlag
      else if Ascii.eqb b "-" then (if String.eqb r EmptyString then Terminator else flag_text r)
      else flag_text t
  | _ => NotFlag
  end.

Section parse.
Context {UP : UnicodePrint} {V : Type} (fs : FlagSet V).

(** [FlagSet.Parse]: the variables and the remaining arguments. *)
Fixpoint ParseFlags (args : list string) (s : V) : FlagError + (V * list string) :=
  match args with
  | [] => inr (s, [])
  | a :: rest =>
      match classify a with
      | NotFlag => inr (s, args)
      | Terminator => inr (s, rest)
      | BadSyntax => inl (ErrFlag ("bad flag syntax: " +:+ a))
      | IsFlag name value =>
          match formal fs name with
          | None =>
              if (String.eqb name "help" || String.eqb name "h")%bool then inl ErrHelp
              else inl (ErrFlag ("flag provided but not defined: -" +:+ name))
          | Some (BoolFlag set) =>
              match ParseBool (default "true" value) with
              | Some b => ParseFlags rest (set b s)
              | None => inl (ErrFlag ("invalid boolean value " +:+ Quote (default "true" value) +:+ " for -" +:+ name +:+ ": parse error"))
              end
          | Some (StringFlag set) =>
              match value, rest with
              | Some v, _ => ParseFlags rest (set v s)
              | None, v :: rest' => ParseFlags rest' (set v s)
              | None, [] => inl (ErrFlag ("flag needs an argument: -" +:+ name))
              end
          end
      end
  end.

(** ** The grammar *)

(** A setting as it is written, with one dash or two. *)
Inductive Form :=
  | Bare (name : string)
  | Attached (name value : string)
  | Separate (name value : string).

Definition dashes (two : bool) : string := if two then "--" else "-".

Definition spell (sf : bool * Form) : list string :=
  match sf.2 with
  | Bare n => [dashes sf.1 +:+ n]
  | Attached n v => [dashes sf.1 +:+ n +:+ "=" +:+ v]
  | Separate n v => [dashes sf.1 +:+ n; v]
  end.

(** The forms each kind of flag has, and what they store. *)
Definition effect (f : Form) : option (V -> V) :=
  match f with
  | Bare n => match formal fs n with Some (BoolFlag set) => Some (set true) | _ => None end
  | Attached n v =>
      match formal fs n with
      | Some (BoolFlag set) => b ← ParseBool v; Some (set b)
      | Some (StringFlag set) => Some (set v)
      | None => None
      end
  | Separate n v => match formal fs n with Some (StringFlag set) => Some (set v) | _ => None end
  end.

(** How the flags end and what remains. *)
Definition ends (args rest : list string) : Prop :=
  args = "--" :: rest \/ (args = rest /\ match args with [] => True | a :: _ => classify a = NotFlag end).

Definition settings_of (args : list string) (l : list (bool * Form)) (rest : list string) : Prop :=
  exists tail, args = concat (spell <$> l) ++ tail /\ ends tail rest.

Definition good_name (n : string) : bool :=
  match n with
  | EmptyString => false
  | String c r => (negb (Ascii.eqb c "-") && negb (Ascii.eqb c "=") && free_of "=" r)%bool
  end.

Definition names_ok : Prop := Forall (fun nf => good_name nf.1 = true) fs.

(** ** The scanner meets the grammar *)

Lemma formal_good n f : names_ok -> formal fs n = Some f -> good_name n = true.
Proof.
  unfold names_ok, formal. rewrite Forall_forall. intros H. destruct (List.find _ fs) as [[m g]|] eqn:E; [|done]. intros _.
  apply List.find_some in E as [Hin He%String.eqb_eq]. cbn in He. subst m. apply (H (n, g)). by apply list_elem_of_In.
Qed.

Lemma Cut_back c s a b : Cut c s = Some (a, b) -> s = a +:+ String c b.
Proof.
  revert a b. induction s as [|d s IH]; intros a b; cbn; [done|]. destruct (Ascii.eqb_spec d c) as [->|].
  - by intros [= <- <-].
  - destruct (Cut c s) as [[a' b']|]; [|done]. intros [= <- <-]. cbn. f_equal. by apply IH.
Qed.

Lemma flag_text_inv t n v : flag_text t = IsFlag n v -> t = n +:+ match v with Some x => "=" +:+ x | None => "" end.
Proof.
  destruct t as [|c r]; [done|]. cbn. destruct (_ || _)%bool; [done|]. destruct (Cut "=" r) as [[a b]|] eqn:E; intros [= <- <-].
  - cbn. f_equal. by apply Cut_back.
  - by rewrite string_app_nil_r.
Qed.

(** An argument that is a flag is spelled with one dash or two. *)
Lemma classify_inv a n v : classify a = IsFlag n v ->
  exists two, a = dashes two +:+ n +:+ match v with Some x => "=" +:+ x | None => "" end.
Proof.
  destruct a as [|x [|y r]]; [done..|]. cbn [classify]. destruct (Ascii.eqb_spec x "-") as [->|]; [|done]. cbn [negb].
  destruct (Ascii.eqb_spec y "-") as [->|].
  - destruct (String.eqb r ""); [done|]. intros ->%flag_text_inv. by exists true.
  - intros H%flag_text_inv. exists false. cbn. by rewrite H.
Qed.

Lemma classify_terminator a : classify a = Terminator -> a = "--".
Proof.
  assert (Hf : forall t, flag_text t <> Terminator).
  { intros [|c r]; [done|]. cbn. destruct (_ || _)%bool; [done|]. by destruct (Cut "=" r) as [[? ?]|]. }
  destruct a as [|x [|y r]]; [done..|]. cbn [classify]. destruct (Ascii.eqb_spec x "-") as [->|]; [|done]. cbn [negb].
  destruct (Ascii.eqb_spec y "-") as [->|]; [|intros H; by apply Hf in H].
  destruct (String.eqb_spec r "") as [->|]; [done|]. intros H. by apply Hf in H.
Qed.

Lemma flag_text_good n v : good_name n = true ->
  flag_text (n +:+ match v with Some x => "=" +:+ x | None => "" end) = IsFlag n v.
Proof.
  destruct n as [|c r]; [done|]. cbn [good_name]. rewrite !andb_true_iff, !negb_true_iff. intros [[H1 H2] H3].
  cbn [String.append flag_text]. rewrite H1, H2. cbn [orb]. destruct v as [x|].
  - cbn [String.append]. by rewrite (Cut_app "=" r x H3).
  - rewrite string_app_nil_r. by rewrite (Cut_free _ _ H3).
Qed.

Lemma classify_spelled two n v : good_name n = true ->
  classify (dashes two +:+ n +:+ match v with Some x => "=" +:+ x | None => "" end) = IsFlag n v.
Proof.
  intros Hn. pose proof (flag_text_good n v Hn) as Ht. destruct n as [|c r]; [done|].
  assert (Hc : Ascii.eqb c "-" = false) by (cbn in Hn; by destruct (Ascii.eqb c "-")).
  destruct two; cbn [dashes String.append classify Ascii.eqb Bool.eqb negb] in *; [exact Ht|]. rewrite Hc. exact Ht.
Qed.

(** One setting is consumed and stored. *)
Lemma Parse_setting two f e args s : names_ok -> effect f = Some e ->
  ParseFlags (spell (two, f) ++ args) s = ParseFlags args (e s).
Proof.
  intros Hn He. destruct f as [n|n v|n v]; cbn [effect] in He; destruct (formal fs n) as [[set|set]|] eqn:E; try done;
    pose proof (formal_good _ _ Hn E) as Hg; cbn [spell fst snd app ParseFlags].
  - pose proof (classify_spelled two n None Hg) as Hc. rewrite string_app_nil_r in Hc. rewrite Hc, E. cbn. by injection He as <-.
  - rewrite (classify_spelled two n (Some v) Hg), E. cbn [default from_option id]. destruct (ParseBool v); [|done]. cbn in He. by injection He as <-.
  - rewrite (classify_spelled two n (Some v) Hg), E. by injection He as <-.
  - pose proof (classify_spelled two n None Hg) as Hc. rewrite string_app_nil_r in Hc. rewrite Hc, E. by injection He as <-.
Qed.

Lemma Parse_ends args rest s : ends args rest -> ParseFlags args s = inr (s, rest).
Proof. intros [->|[<- H]]; [done|]. destruct args as [|a args]; [done|]. cbn. by rewrite H. Qed.

Definition run_effects (es : list (V -> V)) (s : V) : V := foldl (fun s e => e s) s es.

Lemma Parse_grammar l es args rest s : names_ok -> mapM (fun sf => effect sf.2) l = Some es -> settings_of args l rest ->
  ParseFlags args s = inr (run_effects es s, rest).
Proof.
  intros Hn Hm (tail & -> & Ht). apply mapM_Some in Hm. revert s. induction Hm as [|[two f] e l es He _ IH]; intros s.
  - by apply Parse_ends.
  - cbn [fmap list_fmap concat]. rewrite <- app_assoc, (Parse_setting two f e _ _ Hn He). apply IH.
Qed.

(** The argument read is a setting of the flag set. *)
Lemma settings_cons sf e args l es rest : effect sf.2 = Some e ->
  mapM (fun sf => effect sf.2) l = Some es /\ settings_of args l rest ->
  mapM (fun sf => effect sf.2) (sf :: l) = Some (e :: es) /\ settings_of (spell sf ++ args) (sf :: l) rest.
Proof.
  intros He [Hm (tail & -> & Ht)]. split; [cbn; by rewrite He; cbn; rewrite Hm|]. exists tail. split; [|done].
  cbn [fmap list_fmap concat]. by rewrite <- app_assoc.
Qed.

Lemma Parse_sound n args s s' rest : length args <= n -> ParseFlags args s = inr (s', rest) ->
  exists l es, (mapM (fun sf => effect sf.2) l = Some es /\ settings_of args l rest) /\ s' = run_effects es s.
Proof.
  revert args s. induction n as [|n IH]; intros [|a args] s Hl; cbn in Hl; try lia.
  1,2: intros [= <- <-]; exists [], []; split; [|done]; split; [done|]; exists []; split; [done|]; by right.
  cbn [ParseFlags]. destruct (classify a) as [| | |name value] eqn:Ec; [| |done|].
  - intros [= <- <-]. exists [], []. split; [|done]. split; [done|]. eexists. split; [done|]. by right.
  - intros [= <- <-]. apply classify_terminator in Ec as ->. exists [], []. split; [|done]. split; [done|]. eexists. split; [done|]. by left.
  - apply classify_inv in Ec as [two Ha]. destruct (formal fs name) as [[set|set]|] eqn:Ef; [| |by destruct (_ || _)%bool].
    + destruct (ParseBool _) as [b|] eqn:Eb; [|done]. intros Hp. destruct (IH args (set b s)) as (l & es & Hs & ->); [lia|done|].
      exists ((two, match value with Some v => Attached name v | None => Bare name end) :: l), (set b :: es). split; [|done].
      replace (a :: args) with (spell (two, match value with Some v => Attached name v | None => Bare name end) ++ args)
        by (subst a; destruct value; cbn [spell fst snd app]; by rewrite ?string_app_nil_r).
      apply settings_cons; [|done]. destruct value; cbn [effect snd]; rewrite Ef; cbn in Eb |- *; [by rewrite Eb|by injection Eb as <-].
    + destruct value as [v|]; [|destruct args as [|v args]; [done|]]; intros Hp.
      * destruct (IH args (set v s)) as (l & es & Hs & ->); [lia|done|]. exists ((two, Attached name v) :: l), (set v :: es). split; [|done].
        replace (a :: args) with (spell (two, Attached name v) ++ args) by (by subst a). apply settings_cons; [|done]. cbn. by rewrite Ef.
      * destruct (IH args (set v s)) as (l & es & Hs & ->); [cbn in Hl; lia|done|]. exists ((two, Separate name v) :: l), (set v :: es). split; [|done].
        replace (a :: v :: args) with (spell (two, Separate name v) ++ args) by (subst a; cbn [spell fst snd app]; by rewrite ?string_app_nil_r).
        apply settings_cons; [|done]. cbn. by rewrite Ef.
Qed.

(** What is parsed is what the grammar says. *)
Lemma Parse_exact args s s' rest : names_ok -> ParseFlags args s = inr (s', rest) <->
  exists l es, mapM (fun sf => effect sf.2) l = Some es /\ settings_of args l rest /\ s' = run_effects es s.
Proof.
  intros Hn. split.
  - intros H. apply (Parse_sound (length args)) in H as (l & es & [Hm Hs] & He); [|done]. by exists l, es.
  - intros (l & es & Hm & Hs & ->). by apply (Parse_grammar l).
Qed.
End parse.
