(* ===== verification/ChainCheck.v ===== *)
(** * Chain integrity (internal/core/chaincheck, pkg/processorplugins/chaincheck)

    The static bogon list, the Cloudflare list with its refresh from HTTP
    sources, the checker that combines them and the processor that marks log
    entries.  HTTP responses are a parameter of a refresh. *)

From Stdlib Require Import ZArith Lia Ascii String.
From stdpp Require Import base numbers option list strings gmap fin_maps.
From S2P Require Import Prelude GoFloat GoStrings GoValues GoNet Model.

(** ** bogon.go *)

Definition bogonCIDRs : list string := [
  "10.0.0.0/8"; "172.16.0.0/12"; "192.168.0.0/16"; "100.64.0.0/10";
  "127.0.0.0/8"; "::1/128"; "169.254.0.0/16"; "fe80::/10";
  "192.0.2.0/24"; "198.51.100.0/24"; "203.0.113.0/24";
  "0.0.0.0/8"; "240.0.0.0/4"; "fc00::/7"].

Abbreviation BogonChecker := (list IPNet) (only parsing).

(** [None] is the panic on a malformed entry of the static list. *)
Definition NewBogonChecker : option BogonChecker := mapM ParseCIDR bogonCIDRs.

(** The first network that contains the address, printed. *)
Definition nets_contain (nets : list IPNet) (ip : Z) : option string :=
  IPNet_String <$> List.find (fun network => IPNet_Contains network ip) nets.

Definition Bogon_Contains (b : BogonChecker) (ip : option Z) : option string :=
  match ip with
  | None => None
  | Some ip => nets_contain b ip
  end.

(** ** cloudflare.go *)

Definition fallbackCloudflareV4 : list string := [
  "173.245.48.0/20"; "103.21.244.0/22"; "103.22.200.0/22"; "103.31.4.0/22";
  "141.101.64.0/18"; "108.162.192.0/18"; "190.93.240.0/20"; "188.114.96.0/20";
  "197.234.240.0/22"; "198.41.128.0/17"; "162.158.0.0/15"; "104.16.0.0/13";
  "104.24.0.0/14"; "172.64.0.0/13"; "131.0.72.0/22"].

Definition fallbackCloudflareV6 : list string := [
  "2400:cb00::/32"; "2606:4700::/32"; "2803:f800::/32"; "2405:b500::/32";
  "2405:8100::/32"; "2a06:98c0::/29"; "2c0f:f248::/32"].

Definition fetchLimitBytes : Z := (64 * 1024)%Z.

Record CloudflareConfig := mkCloudflareConfig {
  cf_Enabled : bool;
  cf_RefreshInterval : Duration;
  cf_Sources : list string
}.

(** [cf_running]: the refresh goroutine is alive. *)
Record CloudflareChecker := mkCloudflareChecker {
  cf_nets : list IPNet;
  cf_cfg : CloudflareConfig;
  cf_running : bool
}.

Definition parseCIDRList (cidrs : list string) : list IPNet :=
  omap (fun cidr => ParseCIDR (TrimSpace cidr)) cidrs.

Definition startRefreshLoop (c : CloudflareChecker) : CloudflareChecker :=
  mkCloudflareChecker (cf_nets c) (cf_cfg c) true.

Definition stopRefreshLoop (c : CloudflareChecker) : CloudflareChecker :=
  mkCloudflareChecker (cf_nets c) (cf_cfg c) false.

Definition NewCloudflareChecker (cfg : CloudflareConfig) : CloudflareChecker :=
  let c := mkCloudflareChecker (parseCIDRList (fallbackCloudflareV4 ++ fallbackCloudflareV6)) cfg false in
  if cf_Enabled cfg then startRefreshLoop c else c.

Definition CF_Contains (c : CloudflareChecker) (ip : option Z) : option string :=
  match ip with
  | None => None
  | Some ip => nets_contain (cf_nets c) ip
  end.

Definition IsLoaded (c : CloudflareChecker) : bool := negb (length (cf_nets c) =? 0)%nat.

Definition CF_Update (c : CloudflareChecker) (cfg : CloudflareConfig) : CloudflareChecker :=
  let c1 := stopRefreshLoop c in
  let c2 := mkCloudflareChecker (cf_nets c1) cfg (cf_running c1) in
  if cf_Enabled cfg then startRefreshLoop c2 else c2.

Definition CF_Close (c : CloudflareChecker) : CloudflareChecker := stopRefreshLoop c.

Definition keep_line (line : string) : bool :=
  negb (String.eqb line EmptyString || HasPrefix line "#").

Definition fetchSource (get : string -> option HttpResponse) (url : string)
  : option (list string) :=
  match get url with
  | None => None
  | Some resp =>
      if negb (hr_StatusCode resp =? 200)%Z then None
      else
        let body := string_limit fetchLimitBytes (hr_Body resp) in
        if scan_too_long body then None
        else Some (filter (fun l => keep_line l = true) (TrimSpace <$> scan_lines body))
  end.

Definition collect_sources (get : string -> option HttpResponse) (urls : list string) : list string :=
  concat (omap (fetchSource get) urls).

Definition fetchAll (get : string -> option HttpResponse) (c : CloudflareChecker) : CloudflareChecker :=
  let collected := collect_sources get (cf_Sources (cf_cfg c)) in
  if (length collected =? 0)%nat then c
  else mkCloudflareChecker (parseCIDRList collected) (cf_cfg c) (cf_running c).

(** ** checker.go *)

Record CheckResult := mkCheckResult {
  cr_Kind : string;
  cr_IP : string;
  cr_MatchedCIDR : string
}.

Record ChainConfig := mkChainConfig {
  cc_Cloudflare : CloudflareConfig;
  cc_BogonEnabled : bool
}.

Record Checker := mkChecker {
  ck_cf : option CloudflareChecker;
  ck_bogon : option BogonChecker
}.

(** The bogon list compiles (see [bogon_list_compiles]), so the panic of
    [NewBogonChecker] never happens and the checker is total. *)
Definition bogon_checker : BogonChecker := default [] NewBogonChecker.

Definition NewChecker (cfg : ChainConfig) : Checker :=
  mkChecker
    (if cf_Enabled (cc_Cloudflare cfg) then Some (NewCloudflareChecker (cc_Cloudflare cfg)) else None)
    (if cc_BogonEnabled cfg then Some bogon_checker else None).

(** The refresh loop of the Cloudflare ranges runs while the checker is enabled. *)
Definition chain_periods (c : Checker) : list Duration :=
  match ck_cf c with
  | Some cf => if cf_running cf then [cf_RefreshInterval (cf_cfg cf)] else []
  | None => []
  end.

Definition Check (c : Checker) (ip : string) : option CheckResult :=
  if String.eqb ip EmptyString then None
  else match ParseIP ip with
       | None => None
       | Some parsed =>
           match (match ck_cf c with Some cf => CF_Contains cf (Some parsed) | None => None end) with
           | Some cidr => Some (mkCheckResult "cloudflare" ip cidr)
           | None =>
               match (match ck_bogon c with Some b => Bogon_Contains b (Some parsed) | None => None end) with
               | Some cidr => Some (mkCheckResult "bogon" ip cidr)
               | None => None
               end
           end
       end.

Definition Checker_Update (c : Checker) (cfg : ChainConfig) : Checker :=
  mkChecker
    (if cf_Enabled (cc_Cloudflare cfg) then
       match ck_cf c with
       | Some cf => Some (CF_Update cf (cc_Cloudflare cfg))
       | None => Some (NewCloudflareChecker (cc_Cloudflare cfg))
       end
     else None)
    (if cc_BogonEnabled cfg then
       match ck_bogon c with
       | None => Some bogon_checker
       | Some b => Some b
       end
     else None).

Definition Checker_Close (c : option Checker) : option Checker :=
  match c with
  | None => None
  | Some c => Some (mkChecker (CF_Close <$> ck_cf c) (ck_bogon c))
  end.

(** ** The processor plugin *)

Definition set_ChainIssue (e : LogEntry) (issue : string) : LogEntry :=
  mkLogEntry (le_RemoteAddr e) (le_RemoteUser e) (le_Time e) (le_Method e) (le_RawURI e)
    (le_Path e) (le_Query e) (le_Protocol e) (le_Status e) (le_BytesSent e) (le_Referer e)
    (le_UserAgent e) (le_RealIP e) issue.

Definition ChainCheck_Process (c : Checker) (e : LogEntry) : LogEntry :=
  let ip := if String.eqb (le_RealIP e) EmptyString then le_RemoteAddr e else le_RealIP e in
  match Check c ip with
  | None => e
  | Some r =>
      if String.eqb (cr_Kind r) "cloudflare" then
        set_ChainIssue e (cr_Kind r +:+ ":" +:+ cr_IP r +:+ "/" +:+ cr_MatchedCIDR r)
      else if String.eqb (cr_Kind r) "bogon" then
        set_ChainIssue e (cr_Kind r +:+ ":" +:+ cr_IP r)
      else e
  end.

Definition chaincheck_factory (params : option Params) : Checker :=
  let cfEnabled := boolParam params "cloudflare_enabled" false in
  let bogonEnabled := boolParam params "bogon_enabled" true in
  let interval := durationParam params "cloudflare_refresh_interval" (24 * hour) in
  let sources := stringSliceParam params "cloudflare_sources"
                   ["https://www.cloudflare.com/ips-v4/"; "https://www.cloudflare.com/ips-v6/"] in
  NewChecker (mkChainConfig (mkCloudflareConfig cfEnabled interval sources) bogonEnabled).

(** ** Lemmas *)

Lemma nets_contain_iff nets ip :
  is_Some (nets_contain nets ip) <-> Exists (fun n => IPNet_Contains n ip = true) nets.
Proof.
  unfold nets_contain. rewrite Exists_exists. split.
  - intros [x Hx]. apply fmap_Some in Hx as (n & Hf & _). apply List.find_some in Hf as [H1 H2].
    exists n. by rewrite list_elem_of_In.
  - intros (n & Hn & Hc). destruct (List.find _ nets) as [m|] eqn:E; [by eexists|].
    exfalso. apply list_elem_of_In in Hn. pose proof (List.find_none _ _ E n Hn). simpl in *. congruence.
Qed.

(** The compiled list: the static CIDRs are well formed. *)
Lemma bogon_list_compiles : NewBogonChecker = Some bogon_checker.
Proof. vm_compute. reflexivity. Qed.

Definition mib24 (a b c : Z) : Z := ((a * 256 + b) * 256 + c)%Z.

(** The IPv4 and IPv6 ranges of the list as intervals [lo, hi). *)
Definition bogon_v4_ranges : list (Z * Z) := [
  (mib24 10 0 0 * 256, mib24 11 0 0 * 256); (mib24 172 16 0 * 256, mib24 172 32 0 * 256);
  (mib24 192 168 0 * 256, mib24 192 169 0 * 256); (mib24 100 64 0 * 256, mib24 100 128 0 * 256);
  (mib24 127 0 0 * 256, mib24 128 0 0 * 256); (mib24 169 254 0 * 256, mib24 169 255 0 * 256);
  (mib24 192 0 2 * 256, mib24 192 0 3 * 256); (mib24 198 51 100 * 256, mib24 198 51 101 * 256);
  (mib24 203 0 113 * 256, mib24 203 0 114 * 256); (mib24 0 0 0 * 256, mib24 1 0 0 * 256);
  (mib24 240 0 0 * 256, mib24 256 0 0 * 256)]%Z.

Definition bogon_v6_ranges : list (Z * Z) := [
  (1, 2); (0xfe80 * 2 ^ 112, 0xfec0 * 2 ^ 112); (0xfc00 * 2 ^ 112, 0xfe00 * 2 ^ 112)]%Z.

Definition in_ranges (rs : list (Z * Z)) (a : Z) : Prop :=
  Exists (fun r => (r.1 <= a < r.2)%Z) rs.

Lemma bogon_nets_v4 a : (0 <= a < 2 ^ 32)%Z ->
  Exists (fun n => IPNet_Contains n (ip_of_v4 a) = true) bogon_checker <->
  in_ranges bogon_v4_ranges a.
Proof.
  intros Ha. unfold in_ranges, bogon_v4_ranges, mib24. let l := eval vm_compute in bogon_checker in
    change bogon_checker with l.
  rewrite !Exists_cons, !Exists_nil. cbn [fst snd].
  rewrite !Contains_v4_range by (try (lia || reflexivity)).
  rewrite !Contains_v6_v4 by (try (lia || (vm_compute; reflexivity))).
  split; intros H; repeat match goal with
    | H : _ \/ _ |- _ => destruct H as [H|H] end; try done; lia.
Qed.

Lemma bogon_nets_v6 ip : To4 ip = None ->
  Exists (fun n => IPNet_Contains n ip = true) bogon_checker <-> in_ranges bogon_v6_ranges ip.
Proof.
  intros Hi. unfold in_ranges, bogon_v6_ranges. let l := eval vm_compute in bogon_checker in
    change bogon_checker with l.
  rewrite !Exists_cons, !Exists_nil. cbn [fst snd].
  rewrite !Contains_v4_v6 by done.
  rewrite !Contains_v6_range by (first [done|lia|vm_compute; reflexivity]).
  split; intros H; repeat match goal with
    | H : _ \/ _ |- _ => destruct H as [H|H] end; try done; lia.
Qed.

(** The documentation range of IPv6 lies outside the list. *)
Lemma doc_v6_outside addr : (0x20010db8 * 2 ^ 96 <= addr < 0x20010db9 * 2 ^ 96)%Z ->
  To4 addr = None /\ ~ in_ranges bogon_v6_ranges addr.
Proof.
  intros Ha. split.
  - unfold To4, v4_prefix. destruct (Z.eqb_spec (addr / 2 ^ 32) 0xffff) as [Hd|]; [|done].
    pose proof (Z.div_le_mono (0x20010db8 * 2 ^ 96) addr (2 ^ 32) ltac:(lia) (proj1 Ha)) as Hle. rewrite Hd in Hle. vm_compute in Hle. by destruct Hle.
  - unfold in_ranges, bogon_v6_ranges. rewrite !Exists_cons, Exists_nil. cbn [fst snd]. lia.
Qed.

Lemma doc_v6_unreported cfg ip addr : cf_Enabled (cc_Cloudflare cfg) = false -> cc_BogonEnabled cfg = true ->
  ParseIP ip = Some addr -> (0x20010db8 * 2 ^ 96 <= addr < 0x20010db9 * 2 ^ 96)%Z -> Check (NewChecker cfg) ip = None.
Proof.
  intros Hc Hb Hp [H4 Hn]%doc_v6_outside. unfold Check, NewChecker. rewrite Hc, Hb, Hp. cbn [ck_cf ck_bogon].
  destruct (String.eqb ip EmptyString); [done|]. destruct (Bogon_Contains bogon_checker (Some addr)) as [cidr|] eqn:E; [|done].
  destruct Hn. apply bogon_nets_v6; [done|]. apply nets_contain_iff. cbn [Bogon_Contains] in E. by rewrite E.
Qed.

(** ** Properties *)

(** C39: With bogon detection enabled and Cloudflare detection disabled, a log
    address is reported as bogon exactly when it parses and lies in one of the
    private, shared, loopback, link-local, documentation, unspecified, reserved
    or unique-local ranges of the list, for IPv4 (also IPv4-mapped) and IPv6;
    the documentation ranges are those of RFC 5737 only: the one of RFC 3849,
    2001:db8::/32, which the comment on the list names too, is not in it, so an
    address there is never reported; the static list compiles, so building the
    checker never panics. *)
Theorem bogon_check_exact cfg ip :
  cf_Enabled (cc_Cloudflare cfg) = false -> cc_BogonEnabled cfg = true ->
  is_Some NewBogonChecker /\
  ((exists r, Check (NewChecker cfg) ip = Some r /\ cr_Kind r = "bogon" /\ cr_IP r = ip) <->
   exists addr, ip <> EmptyString /\ ParseIP ip = Some addr /\
     match To4 addr with
     | Some a => in_ranges bogon_v4_ranges a
     | None => in_ranges bogon_v6_ranges addr
     end) /\
  (forall addr, ParseIP ip = Some addr -> (0x20010db8 * 2 ^ 96 <= addr < 0x20010db9 * 2 ^ 96)%Z ->
     Check (NewChecker cfg) ip = None).
Proof.
  intros Hc Hb. split; [rewrite bogon_list_compiles; by eexists|]. split; [|by intros addr; apply doc_v6_unreported].
  unfold Check, NewChecker. rewrite Hc, Hb. cbn [ck_cf ck_bogon].
  destruct (String.eqb_spec ip EmptyString) as [He|He].
  { split; [by intros (? & ? & _)|]. by intros (? & ? & _). }
  destruct (ParseIP ip) as [addr|]; [|split; [by intros (? & ? & _)|by intros (? & _ & ? & _)]].
  assert (Hiff : is_Some (Bogon_Contains bogon_checker (Some addr)) <->
    match To4 addr with Some a => in_ranges bogon_v4_ranges a | None => in_ranges bogon_v6_ranges addr end).
  { unfold Bogon_Contains. rewrite nets_contain_iff. destruct (To4 addr) as [a|] eqn:E4.
    - assert (Ha : (0 <= a < 2 ^ 32)%Z /\ addr = ip_of_v4 a).
      { unfold To4 in E4. destruct (Z.eqb_spec (addr / 2 ^ 32) v4_prefix) as [Hd|]; [|done].
        injection E4 as <-. split; [apply Z.mod_pos_bound; lia|]. unfold ip_of_v4. rewrite <- Hd.
        rewrite (Z.mul_comm (addr / 2 ^ 32)). apply Z.div_mod. lia. }
      destruct Ha as [Ha ->]. by apply bogon_nets_v4.
    - by apply bogon_nets_v6. }
  split.
  - intros (r & Hr & _). exists addr. split; [done|]. split; [done|]. apply Hiff.
    destruct (Bogon_Contains _ _); [by eexists|done].
  - intros (addr' & _ & [= <-] & Hx). apply Hiff in Hx as [cidr ->]. by eexists.
Qed.

(** A refresh of the Cloudflare list never touches the configuration; if no
    source delivers a line (transport errors, bad status, oversized lines, empty
    bodies) the networks stay, otherwise they become exactly the valid CIDRs of
    the lines collected from the sources that answered. *)
Theorem cloudflare_refresh_exact get c :
  let c' := fetchAll get c in
  cf_cfg c' = cf_cfg c /\ cf_running c' = cf_running c /\
  (Forall (fun u => fetchSource get u = None \/ fetchSource get u = Some []) (cf_Sources (cf_cfg c)) ->
     cf_nets c' = cf_nets c) /\
  (Exists (fun u => exists l ls, fetchSource get u = Some (l :: ls)) (cf_Sources (cf_cfg c)) ->
     forall n, n ∈ cf_nets c' <->
       exists u ls line, u ∈ cf_Sources (cf_cfg c) /\ fetchSource get u = Some ls /\
         line ∈ ls /\ ParseCIDR (TrimSpace line) = Some n).
Proof.
  cbn zeta. unfold fetchAll, collect_sources. set (us := cf_Sources (cf_cfg c)).
  assert (Hc : forall line, line ∈ concat (omap (fetchSource get) us) <->
     exists u ls, u ∈ us /\ fetchSource get u = Some ls /\ line ∈ ls).
  { intros line. rewrite list_elem_of_In, in_concat. split.
    - intros (ls & Hls & Hl). apply list_elem_of_In, list_elem_of_omap in Hls as (u & Hu & Hf).
      exists u, ls. by rewrite (list_elem_of_In ls).
    - intros (u & ls & Hu & Hf & Hl). exists ls. rewrite <- !list_elem_of_In.
      split; [|done]. apply list_elem_of_omap. by exists u. }
  destruct (Nat.eqb_spec (length (concat (omap (fetchSource get) us))) 0) as [Hz|Hz].
  - split; [done|]. split; [done|]. split; [done|]. intros (u & Hu & l & ls & Hf)%Exists_exists.
    exfalso. destruct (concat _) eqn:E; [|done].
    assert (Hx : l ∈ @nil string) by (apply Hc; exists u, (l :: ls); repeat split; [done|done|by left]).
    inversion Hx.
  - split; [done|]. split; [done|]. split.
    + intros Hall. exfalso. destruct (concat (omap (fetchSource get) us)) as [|l r] eqn:E; [done|].
      destruct (proj1 (Hc l)) as (u & ls & Hu & Hf & Hl); [by left|].
      apply (proj1 (Forall_forall _ _) Hall) in Hu as [Hu|Hu]; rewrite Hu in Hf; [done|].
      injection Hf as <-. inversion Hl.
    + intros _ n. cbn [cf_nets]. unfold parseCIDRList. rewrite list_elem_of_omap. split.
      * intros (line & Hl & Hp). apply Hc in Hl as (u & ls & Hu & Hf & Hl). by exists u, ls, line.
      * intros (u & ls & line & Hu & Hf & Hl & Hp). exists line. split; [|done]. apply Hc. by exists u, ls.
Qed.

(** A refresh can empty the Cloudflare list: when the only source that
    answers delivers text without a single valid CIDR, the fallback networks
    are discarded, nothing is recognised as Cloudflare any more and IsLoaded
    turns false. *)
Theorem cloudflare_refresh_can_empty get c u body :
  cf_Sources (cf_cfg c) = [u] -> get u = Some (mkHttpResponse 200 body) ->
  fetchSource get u = Some [body] -> ParseCIDR (TrimSpace body) = None ->
  IsLoaded (fetchAll get c) = false /\
  forall ip, CF_Contains (fetchAll get c) ip = None.
Proof.
  intros Hs Hg Hf Hp. unfold fetchAll, collect_sources. rewrite Hs. cbn [omap list_omap].
  rewrite Hf. cbn [concat app length Nat.eqb]. unfold parseCIDRList. cbn [omap list_omap].
  rewrite Hp. split; [done|]. intros [ip|]; done.
Qed.

(** ** Witnesses *)

Definition ex_chain_cfg : ChainConfig :=
  mkChainConfig (mkCloudflareConfig false (24 * hour) []) true.

Lemma bogon_check_exact_witness :
  (exists r, Check (NewChecker ex_chain_cfg) "192.168.1.7" = Some r /\ cr_Kind r = "bogon" /\
     cr_IP r = "192.168.1.7") /\ Check (NewChecker ex_chain_cfg) "8.8.8.8" = None.
Proof.
  split; [|vm_compute; reflexivity].
  apply (proj1 (proj2 (bogon_check_exact ex_chain_cfg "192.168.1.7" eq_refl eq_refl))).
  exists (ip_of_v4 0xC0A80107). split; [discriminate|]. split; [vm_compute; reflexivity|].
  rewrite To4_mapped by lia. unfold in_ranges, bogon_v4_ranges, mib24.
  right. right. left. simpl. lia.
Defined.

Definition ex_html_get (_ : string) : option HttpResponse :=
  Some (mkHttpResponse 200 "<html>maintenance</html>").

Lemma cloudflare_refresh_can_empty_witness :
  let c := NewCloudflareChecker (mkCloudflareConfig true (24 * hour) ["https://cf.example/ips"]) in
  IsLoaded c = true /\ IsLoaded (fetchAll ex_html_get c) = false.
Proof.
  split; [vm_compute; reflexivity|].
  apply (cloudflare_refresh_can_empty ex_html_get _ "https://cf.example/ips" "<html>maintenance</html>");
    vm_compute; reflexivity.
Defined.
