(* ===== verification/Blocklist.v ===== *)
(** * Blocklists (internal/core/blocklist)

    Pattern normalisation and the two list formats; the manager with its
    per-list states, refreshes from HTTP sources and the optional persistent
    store.  The Aho-Corasick automaton and the key-value store are third-party
    code: classes with the laws the manager relies on. *)

From Stdlib Require Import ZArith Lia Ascii String.
From stdpp Require Import base numbers option list strings gmap fin_maps.
From S2P Require Import Prelude GoFloat GoStrings GoValues GoNet Model Detectors ChainCheck.

(** ** parser.go: normalisation *)

Definition is_alnum (c : ascii) : bool :=
  (is_digit c || is_upper c || ((97 <=? byte c) && (byte c <=? 122))%N)%bool.

(** [unescapeRegexRe]: a backslash before a non-alphanumeric is dropped. *)
Fixpoint unescapeRegex (s : string) : string :=
  match s with
  | EmptyString => EmptyString
  | String c s1 =>
      if Ascii.eqb c "\" then
        match s1 with
        | EmptyString => s
        | String d s2 => if is_alnum d then String c (unescapeRegex s1)
                         else String d (unescapeRegex s2)
        end
      else String c (unescapeRegex s1)
  end.

Definition wildcard_pass (p : string) : string := Remove2 "." "+" (Remove2 "." "*" p).

(** The loop of step 3; a round that changes the string shortens it, so the
    length is enough fuel (see [strip_wildcards_fixpoint]). *)
Fixpoint strip_wildcards (fuel : nat) (p : string) : string :=
  match fuel with
  | O => p
  | S fuel' =>
      let p' := wildcard_pass p in
      if String.eqb p' p then p' else strip_wildcards fuel' p'
  end.

Definition is_caret (c : ascii) : bool := Ascii.eqb c "^".
Definition is_dollar (c : ascii) : bool := Ascii.eqb c "$".

Definition normalizePatternForSubstring (p : string) : string :=
  let p1 := unescapeRegex p in
  let p2 := TrimRight is_dollar (TrimLeft is_caret p1) in
  let p3 := strip_wildcards (S (String.length p2)) p2 in
  Trim (fun c => is_caret c || is_dollar c) (TrimSpace p3).

(** ** parser.go: formats *)

Inductive Parser := PlainTextParser | NginxMapParser.

Definition NewParser (format : string) : option Parser :=
  if String.eqb format "plain_text" then Some PlainTextParser
  else if String.eqb format "nginx_map" then Some NginxMapParser
  else None.

(** The delimiter of the nginx map entries. *)
Definition word_boundary : string := "(?:\b)".

(** The shortest non-empty text without a newline before the next delimiter. *)
Fixpoint lazy_group (s : string) : option (string * string) :=
  match s with
  | EmptyString => None
  | String c s' =>
      if Ascii.eqb c newline then None
      else if HasPrefix s' word_boundary then Some (String c EmptyString, string_drop 6 s')
      else match lazy_group s' with
           | Some (g, r) => Some (String c g, r)
           | None => None
           end
  end.

(** [nginxPatternRe.FindAllSubmatch]: leftmost, non-overlapping. *)
Fixpoint nginx_matches (fuel : nat) (s : string) : list string :=
  match fuel with
  | O => []
  | S fuel' =>
      match s with
      | EmptyString => []
      | String _ s' =>
          if HasPrefix s word_boundary then
            match lazy_group (string_drop 6 s) with
            | Some (g, rest) => g :: nginx_matches fuel' rest
            | None => nginx_matches fuel' s'
            end
          else nginx_matches fuel' s'
      end
  end.

Section parse.
Context `{!UnicodeLower}.

Definition plain_line (line : string) : option string :=
  let s := TrimSpace line in
  if (String.eqb s EmptyString || HasPrefix s "#")%bool then None
  else let s := normalizePatternForSubstring s in
       if String.eqb s EmptyString then None else Some (ToLower s).

Definition nginx_group (g : string) : option string :=
  let s := normalizePatternForSubstring g in
  if String.eqb s EmptyString then None else Some (ToLower s).

Definition Parse (p : Parser) (data : string) : list string :=
  match p with
  | PlainTextParser => omap plain_line (Split data newline)
  | NginxMapParser => omap nginx_group (nginx_matches (S (String.length data)) data)
  end.
End parse.

(** ** manager.go: parameters *)

(** The Aho-Corasick library: all the words of the list that occur in the text. *)
Class AhoCorasick := {
  Automaton : Type;
  CompileStrings : list string -> Automaton;
  FindAll : Automaton -> string -> list string;
  FindAll_spec ps t w :
    w ∈ FindAll (CompileStrings ps) t <-> w ∈ ps /\ Contains t w = true
}.

(** The key-value store, one value per bucket: [kv_put] may fail. *)
Class KVStore := {
  DB : Type;
  kv_path : DB -> string;
  kv_get : DB -> string -> option string;
  kv_put : DB -> string -> string -> option DB;
  kv_get_put db k v db' k' : kv_put db k v = Some db' ->
    kv_get db' k' = if String.eqb k' k then Some v else kv_get db k'
}.

(** ** manager.go: configuration and state *)

Record SourceConfig := mkSourceConfig {
  sc_URL : string;
  sc_Format : string
}.

Record ListConfig := mkListConfig {
  lc_Name : string;
  lc_Enabled : option bool;
  lc_RefreshInterval : Duration;
  lc_Sources : list SourceConfig
}.

Record BlocklistConfig := mkBlocklistConfig {
  bc_Storage : string;
  bc_Lists : list ListConfig
}.

Definition listEnabled (lc : ListConfig) : bool :=
  match lc_Enabled lc with None => true | Some b => b end.

Definition fetchSizeLimit : Z := (10 * 2 ^ 20)%Z.

Section manager.
Context `{!UnicodeLower} `{!AhoCorasick} `{!KVStore}.

(** [None] until the first load. *)
Record listState := mkListState {
  ls_matcher : option Automaton;
  ls_cancelled : bool
}.

(** The states are shared between the manager's map and the goroutines of the
    lists, so the map holds references into a store. *)
Record Manager := mkManager {
  mg_store : gmap nat listState;
  mg_next : nat;
  mg_lists : gmap string nat;
  mg_db : option DB
}.

Definition set_store (m : Manager) (st : gmap nat listState) : Manager :=
  mkManager st (mg_next m) (mg_lists m) (mg_db m).

Definition setMatcher (m : Manager) (id : nat) (a : option Automaton) : Manager :=
  set_store m (alter (fun s => mkListState a (ls_cancelled s)) id (mg_store m)).

(** Registration of a list; the goroutine's steps are [list_load] and
    [fetchAndUpdate] on the reference. *)
Definition startList (m : Manager) (lc : ListConfig) : Manager :=
  mkManager (<[mg_next m := mkListState None false]> (mg_store m)) (S (mg_next m))
    (<[lc_Name lc := mg_next m]> (mg_lists m)) (mg_db m).

Definition start_lists (m : Manager) (lcs : list ListConfig) : Manager :=
  foldl (fun m lc => if listEnabled lc then startList m lc else m) m lcs.

(** [open path] is the outcome of opening the store. *)
Definition NewManager (open : string -> option DB) (cfg : BlocklistConfig) : Manager :=
  let db := if String.eqb (bc_Storage cfg) EmptyString then None else open (bc_Storage cfg) in
  start_lists (mkManager ∅ 0 ∅ db) (bc_Lists cfg).

Definition cancel_all (m : Manager) : gmap nat listState :=
  (fun s => mkListState (ls_matcher s) true) <$> mg_store m.

Definition Manager_Update (open : string -> option DB) (m : Manager) (cfg : BlocklistConfig) : Manager :=
  let db :=
    if String.eqb (bc_Storage cfg) EmptyString then None
    else match mg_db m with
         | Some db => if String.eqb (kv_path db) (bc_Storage cfg) then Some db
                      else open (bc_Storage cfg)
         | None => open (bc_Storage cfg)
         end in
  start_lists (mkManager (cancel_all m) (mg_next m) ∅ db) (bc_Lists cfg).

Definition Manager_Close (m : Manager) : Manager :=
  mkManager (cancel_all m) (mg_next m) ∅ None.

Definition list_matcher (m : Manager) (list_ : string) : option Automaton :=
  match mg_lists m !! list_ with
  | None => None
  | Some id => match mg_store m !! id with
               | Some s => ls_matcher s
               | None => None
               end
  end.

Definition Match (m : Manager) (list_ text : string) : bool :=
  match list_matcher m list_ with
  | None => false
  | Some a => negb (length (FindAll a text) =? 0)%nat
  end.

Definition Manager_MatchResult (m : Manager) (list_ text : string) : option string :=
  match list_matcher m list_ with
  | None => None
  | Some a => head (FindAll a text)
  end.

(** ** manager.go: persistence *)

Definition loadFromBolt (m : Manager) (name : string) : list string :=
  match mg_db m with
  | None => []
  | Some db =>
      match kv_get db name with
      | None => []
      | Some raw =>
          if String.eqb raw EmptyString then []
          else filter (fun s => s <> EmptyString) (Split raw newline)
      end
  end.

Definition newline_str : string := String newline EmptyString.

Definition saveToBolt (m : Manager) (name : string) (patterns : list string) : Manager :=
  match mg_db m with
  | None => m
  | Some db =>
      if (length patterns =? 0)%nat then m
      else match kv_put db name (Join patterns newline_str) with
           | Some db' => mkManager (mg_store m) (mg_next m) (mg_lists m) (Some db')
           | None => m
           end
  end.

(** First step of a list's goroutine. *)
Definition list_load (m : Manager) (lc : ListConfig) (id : nat) : Manager :=
  let patterns := loadFromBolt m (lc_Name lc) in
  if (length patterns =? 0)%nat then m else setMatcher m id (Some (CompileStrings patterns)).

(** ** manager.go: refresh *)

Definition fetch (get : string -> option HttpResponse) (url : string) : option string :=
  match get url with
  | None => None
  | Some resp => if negb (hr_StatusCode resp =? 200)%Z then None
                 else Some (string_limit fetchSizeLimit (hr_Body resp))
  end.

(** The patterns of one source; [] when it is skipped or has none. *)
Definition source_patterns (get : string -> option HttpResponse) (src : SourceConfig) : list string :=
  if String.eqb (sc_URL src) EmptyString then []
  else match NewParser (sc_Format src) with
       | None => []
       | Some parser =>
           match fetch get (sc_URL src) with
           | None => []
           | Some data =>
               let patterns := Parse parser data in
               if (length patterns =? 0)%nat then Parse NginxMapParser data else patterns
           end
       end.

(** [seen] and [all] of the merge loop. *)
Definition merge_pattern (acc : gset string * list string) (p : string) : gset string * list string :=
  if bool_decide (p ∈ acc.1) then acc else ({[p]} ∪ acc.1, acc.2 ++ [p]).

Definition merge_source (get : string -> option HttpResponse)
    (acc : gset string * list string * bool) (src : SourceConfig) : gset string * list string * bool :=
  let '(seen, all, anyLoaded) := acc in
  let patterns := source_patterns get src in
  let '(seen', all') := foldl merge_pattern (seen, all) patterns in
  (seen', all', (anyLoaded || negb (length patterns =? 0)%nat)%bool).

Definition fetchAndUpdate (get : string -> option HttpResponse) (m : Manager) (lc : ListConfig)
    (id : nat) : Manager :=
  let '(_, all, anyLoaded) := foldl (merge_source get) (∅, [], false) (lc_Sources lc) in
  if negb anyLoaded then m
  else
    let m1 := saveToBolt m (lc_Name lc) all in
    setMatcher m1 id (if (length all =? 0)%nat then None else Some (CompileStrings all)).

End manager.

(** ** Normalisation *)

Lemma wildcard_pass_cases p :
  wildcard_pass p = p /\ Contains p ".*" = false /\ Contains p ".+" = false \/
  String.length (wildcard_pass p) < String.length p.
Proof.
  unfold wildcard_pass. destruct (Remove2_cases "." "*" p) as [[E1 H1]|H1].
  - rewrite E1. destruct (Remove2_cases "." "+" p) as [[E2 H2]|H2]; [by left|by right].
  - right. destruct (Remove2_cases "." "+" (Remove2 "." "*" p)) as [[-> _]|H2]; lia.
Qed.

(** Enough fuel reaches a string without wildcards. *)
Lemma strip_wildcards_fixpoint fuel p : String.length p < fuel ->
  Contains (strip_wildcards fuel p) ".*" = false /\ Contains (strip_wildcards fuel p) ".+" = false /\
  wildcard_pass (strip_wildcards fuel p) = strip_wildcards fuel p.
Proof.
  revert p. induction fuel as [|fuel IH]; intros p Hp; [lia|]. cbn [strip_wildcards].
  destruct (wildcard_pass_cases p) as [(E & H1 & H2)|Hl].
  - rewrite E, String.eqb_refl. done.
  - destruct (String.eqb_spec (wildcard_pass p) p) as [E|_]; [rewrite E in Hl; lia|].
    apply IH. lia.
Qed.

Lemma Remove2_forallb f a b s : string_forallb f s = true -> string_forallb f (Remove2 a b s) = true.
Proof.
  induction s as [s IH] using string_length_ind. destruct s as [|c s1]; [done|].
  cbn [Remove2 string_forallb]. rewrite andb_true_iff. intros [Hc Hs].
  destruct s1 as [|d s2]; [cbn; by rewrite Hc|].
  destruct (_ && _)%bool; [|cbn [string_forallb]; rewrite andb_true_iff; split; [done|]; apply IH; [simpl; lia|done]].
  cbn [string_forallb] in Hs. apply andb_true_iff in Hs as [_ Hs]. apply IH; [simpl; lia|done].
Qed.

Lemma strip_wildcards_forallb f fuel p :
  string_forallb f p = true -> string_forallb f (strip_wildcards fuel p) = true.
Proof.
  revert p. induction fuel as [|fuel IH]; intros p Hp; [done|]. cbn [strip_wildcards].
  assert (Hw : string_forallb f (wildcard_pass p) = true) by (by do 2 apply Remove2_forallb).
  destruct (String.eqb _ _); [done|by apply IH].
Qed.

Lemma unescapeRegex_forallb f s : string_forallb f s = true -> string_forallb f (unescapeRegex s) = true.
Proof.
  induction s as [s IH] using string_length_ind. destruct s as [|c s1]; [done|].
  cbn [unescapeRegex string_forallb]. rewrite andb_true_iff. intros [Hc Hs].
  destruct (Ascii.eqb c "\").
  - destruct s1 as [|d s2]; [cbn; by rewrite Hc|].
    destruct (is_alnum d); cbn [string_forallb]; rewrite andb_true_iff.
    + split; [done|]. apply IH; [simpl; lia|done].
    + cbn [string_forallb] in Hs. apply andb_true_iff in Hs as [Hd Hs]. split; [done|].
      apply IH; [simpl; lia|done].
  - cbn [string_forallb]. rewrite andb_true_iff. split; [done|]. apply IH; [simpl; lia|done].
Qed.

(** Every byte of a normalised pattern comes from the pattern. *)
Lemma normalize_forallb f p :
  string_forallb f p = true -> string_forallb f (normalizePatternForSubstring p) = true.
Proof.
  intros Hp. unfold normalizePatternForSubstring.
  eapply infix_forallb; [apply Trim_infix|]. eapply infix_forallb; [apply TrimSpace_infix|].
  apply strip_wildcards_forallb. eapply infix_forallb; [apply (rev_suffix_infix _ (TrimLeft_suffix is_dollar))|].
  eapply infix_forallb; [apply (suffix_infix _ (TrimLeft_suffix is_caret))|].
  by apply unescapeRegex_forallb.
Qed.

(** ** Merging the sources *)

Lemma merge_patterns_spec ps seen all :
  (forall x, x ∈ seen <-> x ∈ all) -> NoDup all ->
  let '(seen', all') := foldl merge_pattern (seen, all) ps in
  (forall x, x ∈ seen' <-> x ∈ all') /\ NoDup all' /\ (forall x, x ∈ all' <-> x ∈ all \/ x ∈ ps).
Proof.
  revert seen all. induction ps as [|p ps IH]; intros seen all Hs Hn; cbn [foldl].
  - split; [done|]. split; [done|]. intros x. split; [by left|]. intros [?|Hx]; [done|inversion Hx].
  - unfold merge_pattern at 2. cbn [fst snd]. destruct (bool_decide (p ∈ seen)) eqn:E;
      [apply bool_decide_eq_true in E|apply bool_decide_eq_false in E].
    + specialize (IH seen all Hs Hn). destruct (foldl _ _ ps) as [s' a'].
      destruct IH as (H1 & H2 & H3). split; [done|]. split; [done|]. intros x.
      rewrite H3, elem_of_cons. split; [tauto|]. intros [?|[->|?]]; [tauto|left; by apply Hs|tauto].
    + specialize (IH ({[p]} ∪ seen) (all ++ [p])).
      destruct (foldl _ _ ps) as [s' a']. destruct IH as (H1 & H2 & H3).
      * intros x. rewrite elem_of_union, elem_of_singleton, elem_of_app, list_elem_of_singleton, Hs. tauto.
      * apply NoDup_app. split; [done|]. split; [|apply NoDup_singleton].
        intros x Hx ->%list_elem_of_singleton. by apply E, Hs.
      * split; [done|]. split; [done|]. intros x.
        rewrite H3, elem_of_app, list_elem_of_singleton, elem_of_cons. tauto.
Qed.

Section manager_proofs.
Context `{!UnicodeLower} `{!AhoCorasick} `{!KVStore}.

Definition all_patterns (get : string -> option HttpResponse) (srcs : list SourceConfig) : list string :=
  concat (source_patterns get <$> srcs).

Lemma merge_sources_spec get srcs seen all b :
  (forall x, x ∈ seen <-> x ∈ all) -> NoDup all ->
  let '(seen', all', b') := foldl (merge_source get) (seen, all, b) srcs in
  NoDup all' /\ (forall x, x ∈ all' <-> x ∈ all \/ x ∈ all_patterns get srcs) /\
  b' = (b || negb (length (all_patterns get srcs) =? 0)%nat)%bool.
Proof.
  revert seen all b. induction srcs as [|src srcs IH]; intros seen all b Hs Hn; cbn [foldl].
  - split; [done|]. split; [|by rewrite orb_false_r].
    intros x. split; [by left|]. intros [?|Hx]; [done|inversion Hx].
  - unfold merge_source at 2. pose proof (merge_patterns_spec (source_patterns get src) seen all Hs Hn) as HM.
    destruct (foldl merge_pattern _ _) as [s1 a1]. destruct HM as (Hq1 & Hq2 & Hq3).
    specialize (IH s1 a1 (b || negb (length (source_patterns get src) =? 0)%nat)%bool Hq1 Hq2).
    destruct (foldl (merge_source get) _ srcs) as [[s' a'] b']. destruct IH as (Hq4 & Hq5 & ->).
    unfold all_patterns in *. rewrite fmap_cons. cbn [concat]. split; [done|]. split.
    + intros x. rewrite Hq5, Hq3, elem_of_app. tauto.
    + rewrite length_app. rewrite <- orb_assoc. f_equal.
      destruct (length (source_patterns get src)); [done|]. simpl. done.
Qed.

Lemma fetchAndUpdate_cases get m lc id :
  (all_patterns get (lc_Sources lc) = [] /\ fetchAndUpdate get m lc id = m) \/
  exists all, all <> [] /\ NoDup all /\
    (forall x, x ∈ all <-> x ∈ all_patterns get (lc_Sources lc)) /\
    fetchAndUpdate get m lc id = setMatcher (saveToBolt m (lc_Name lc) all) id (Some (CompileStrings all)).
Proof.
  unfold fetchAndUpdate. pose proof (merge_sources_spec get (lc_Sources lc) ∅ [] false) as HM.
  destruct (foldl _ _ _) as [[s a] b]. destruct HM as (Hn & Hx & ->).
  { intros x. split; intros Hy; [by apply elem_of_empty in Hy|inversion Hy]. }
  { constructor. }
  cbn [orb]. destruct (all_patterns get (lc_Sources lc)) as [|p ps] eqn:E; [by left|]. right.
  exists a. assert (Ha : a <> []).
  { intros ->. assert (Hp : p ∈ @nil string) by (apply Hx; right; left). inversion Hp. }
  split; [done|]. split; [done|]. split.
  - intros x. rewrite Hx. split; [intros [Hy|Hy]; [inversion Hy|done]|by right].
  - simpl. by destruct a.
Qed.

Lemma saveToBolt_fields m name ps :
  mg_store (saveToBolt m name ps) = mg_store m /\ mg_lists (saveToBolt m name ps) = mg_lists m /\
  mg_next (saveToBolt m name ps) = mg_next m.
Proof. unfold saveToBolt. by repeat case_match_goal. Qed.

Lemma FindAll_nonempty ps t :
  negb (length (FindAll (CompileStrings ps) t) =? 0)%nat = true <->
  exists p, p ∈ ps /\ Contains t p = true.
Proof.
  destruct (FindAll (CompileStrings ps) t) as [|w ws] eqn:E; simpl.
  - split; [done|]. intros (p & Hp). apply FindAll_spec in Hp. rewrite E in Hp. inversion Hp.
  - split; [|done]. intros _. exists w. apply FindAll_spec. rewrite E. by left.
Qed.
End manager_proofs.

(** ** Patterns contain no newline *)

Section newline_free.
Context `{!UnicodeLower}.
Variable lower_newline : forall s, free_of newline s = true -> free_of newline (unicode_lower s) = true.
Variable lower_nonempty : forall s, s <> EmptyString -> unicode_lower s <> EmptyString.

Lemma lower_byte_newline c : Ascii.eqb (lower_byte c) newline = Ascii.eqb c newline.
Proof. destruct c as [[] [] [] [] [] [] [] []]; reflexivity. Qed.

Lemma ToLower_newline s : free_of newline s = true -> free_of newline (ToLower s) = true.
Proof.
  unfold ToLower. destruct (string_forallb is_ascii s); [|apply lower_newline].
  unfold free_of. induction s as [|c s IH]; [done|]. cbn [string_map string_forallb].
  rewrite lower_byte_newline, !andb_true_iff. naive_solver.
Qed.

Lemma ToLower_nonempty s : s <> EmptyString -> ToLower s <> EmptyString.
Proof.
  unfold ToLower. destruct (string_forallb is_ascii s); [|apply lower_nonempty].
  by destruct s.
Qed.

Definition pattern_ok (p : string) : Prop := free_of newline p = true /\ p <> EmptyString.

Lemma lazy_group_newline s g r : lazy_group s = Some (g, r) -> free_of newline g = true.
Proof.
  revert g r. induction s as [|c s IH]; intros g r; cbn [lazy_group]; [done|].
  destruct (Ascii.eqb c newline) eqn:E; [done|]. destruct (HasPrefix s word_boundary).
  - intros [= <- <-]. unfold free_of. cbn [string_forallb]. by rewrite E.
  - destruct (lazy_group s) as [[g1 r1]|]; [|done]. intros [= <- <-].
    unfold free_of. cbn [string_forallb]. rewrite E. by apply (IH g1 r1).
Qed.

Lemma nginx_matches_newline fuel s : Forall (fun g => free_of newline g = true) (nginx_matches fuel s).
Proof.
  revert s. induction fuel as [|fuel IH]; intros s; cbn [nginx_matches]; [done|].
  destruct s as [|c s]; [done|]. destruct (HasPrefix _ _); [|apply IH].
  destruct (lazy_group _) as [[g r]|] eqn:E; [|apply IH].
  constructor; [by eapply lazy_group_newline|apply IH].
Qed.

Lemma normalized_ok s p :
  free_of newline s = true ->
  (if String.eqb (normalizePatternForSubstring s) EmptyString then None
   else Some (ToLower (normalizePatternForSubstring s))) = Some p -> pattern_ok p.
Proof.
  intros Hs. destruct (String.eqb_spec (normalizePatternForSubstring s) EmptyString) as [|Hne]; [done|].
  intros [= <-]. split; [|by apply ToLower_nonempty].
  apply ToLower_newline. unfold free_of in *. by apply normalize_forallb.
Qed.

Lemma Parse_ok parser data : Forall pattern_ok (Parse parser data).
Proof.
  apply Forall_forall. intros p. destruct parser; cbn [Parse]; rewrite list_elem_of_omap.
  - intros (line & Hl & Hp). unfold plain_line in Hp.
    destruct (_ || _)%bool; [done|]. eapply normalized_ok; [|exact Hp].
    eapply infix_forallb; [apply TrimSpace_infix|].
    by apply (proj1 (Forall_forall _ _) (Split_free data newline)).
  - intros (g & Hg & Hp). eapply normalized_ok; [|exact Hp].
    by apply (proj1 (Forall_forall _ _) (nginx_matches_newline _ _)) in Hg.
Qed.

Lemma source_patterns_ok get src : Forall pattern_ok (source_patterns get src).
Proof.
  unfold source_patterns. repeat case_match_goal; try constructor; apply Parse_ok.
Qed.
End newline_free.

(** ** Properties *)

(** A normalised pattern is a clean literal: it contains no wildcard .* or
    .+ (the removal loop always reaches its fixed point), does not start or end
    with an anchor ^ or $, and has no byte that was not in the original. *)
Theorem normalized_pattern_clean p :
  let q := normalizePatternForSubstring p in
  Contains q ".*" = false /\ Contains q ".+" = false /\
  (forall c r, q = String c r -> is_caret c || is_dollar c = false) /\
  (forall c r, q = r +:+ String c EmptyString -> is_caret c || is_dollar c = false) /\
  (forall f, string_forallb f p = true -> string_forallb f q = true).
Proof.
  cbn zeta. unfold normalizePatternForSubstring at 1 2 3 4.
  set (p2 := TrimRight is_dollar _). set (p3 := strip_wildcards _ p2).
  destruct (strip_wildcards_fixpoint (S (String.length p2)) p2) as (H1 & H2 & _); [lia|].
  set (f := fun c => is_caret c || is_dollar c).
  assert (Hi : infix (Trim f (TrimSpace p3)) p3) by (eapply infix_trans; [apply Trim_infix|apply TrimSpace_infix]).
  destruct (Trim_ends f (TrimSpace p3)) as [He1 He2].
  split; [by eapply infix_Contains|]. split; [by eapply infix_Contains|].
  split; [exact He1|]. split; [intros c r; apply He2|]. intros g. apply normalize_forallb.
Qed.

Section properties.
Context `{!UnicodeLower} `{!AhoCorasick} `{!KVStore}.

(** C17: A refresh of a registered list: if no source yields a pattern (fetch
    errors, unknown formats, empty results) the manager is unchanged, so the
    previous automaton stays; otherwise the list matches a text exactly when
    some pattern of some source occurs in it, the reported pattern is such a
    pattern, and all other lists are unaffected. *)
Theorem blocklist_refresh_exact get m lc id s :
  mg_lists m !! lc_Name lc = Some id -> mg_store m !! id = Some s ->
  (forall n i, mg_lists m !! n = Some i -> i = id -> n = lc_Name lc) ->
  let m' := fetchAndUpdate get m lc id in
  let patterns := all_patterns get (lc_Sources lc) in
  (patterns = [] -> m' = m) /\
  (patterns <> [] -> forall text,
     (Match m' (lc_Name lc) text = true <-> exists p, p ∈ patterns /\ Contains text p = true) /\
     (forall p, Manager_MatchResult m' (lc_Name lc) text = Some p ->
        p ∈ patterns /\ Contains text p = true)) /\
  (forall l text, l <> lc_Name lc -> Match m' l text = Match m l text).
Proof.
  intros Hl Hs Hinj. cbn zeta.
  destruct (fetchAndUpdate_cases get m lc id) as [[Hp ->]|(all & Hne & _ & Hall & ->)].
  { split; [done|]. split; [done|]. done. }
  destruct (saveToBolt_fields m (lc_Name lc) all) as (Est & Eli & _).
  assert (Hm : list_matcher (setMatcher (saveToBolt m (lc_Name lc) all) id (Some (CompileStrings all)))
                 (lc_Name lc) = Some (CompileStrings all)).
  { unfold list_matcher, setMatcher, set_store. cbn [mg_lists mg_store]. rewrite Eli, Hl, Est.
    by rewrite lookup_alter_eq, Hs. }
  split; [|split].
  - intros Hp. exfalso. destruct all as [|x all]; [done|].
    assert (Hx : x ∈ @nil string) by (rewrite <- Hp; apply Hall; left). inversion Hx.
  - intros _ text. unfold Match, Manager_MatchResult. rewrite Hm. split.
    + rewrite FindAll_nonempty. split; intros (p & Hp & Hc); exists p; (split; [by apply Hall|done]).
    + intros p Hh. apply head_Some_elem_of in Hh. apply FindAll_spec in Hh.
      rewrite <- Hall. done.
  - intros l text Hne'. unfold Match, list_matcher, setMatcher, set_store. cbn [mg_lists mg_store].
    rewrite Eli, Est. destruct (mg_lists m !! l) as [i|] eqn:E; [|done].
    destruct (decide (i = id)) as [->|Hi]; [by apply Hinj in E|].
    by rewrite lookup_alter_ne.
Qed.

(** Persistence round trip: the patterns stored by a refresh are read back
    unchanged (same list, same order) by the load at the next start, so the
    automaton is available before the first fetch; the patterns of both formats
    never contain a newline, the separator of the stored form. *)
Theorem blocklist_store_roundtrip get m lc db :
  (forall s, free_of newline s = true -> free_of newline (unicode_lower s) = true) ->
  (forall s, s <> EmptyString -> unicode_lower s <> EmptyString) ->
  mg_db m = Some db -> (forall k v, is_Some (kv_put db k v)) ->
  all_patterns get (lc_Sources lc) <> [] ->
  forall id, exists all, NoDup all /\
    (forall p, p ∈ all <-> p ∈ all_patterns get (lc_Sources lc)) /\
    loadFromBolt (fetchAndUpdate get m lc id) (lc_Name lc) = all.
Proof.
  intros Hnl Hnem Hdb Hput Hp id.
  destruct (fetchAndUpdate_cases get m lc id) as [[? _]|(all & Hne & Hnd & Hall & ->)]; [done|].
  exists all. split; [done|]. split; [done|].
  assert (Hok : Forall pattern_ok all).
  { apply Forall_forall. intros p Hin%Hall. unfold all_patterns in Hin.
    apply list_elem_of_In, in_concat in Hin as (ps & Hps & Hin).
    apply list_elem_of_In, list_elem_of_fmap in Hps as (src & -> & _).
    apply list_elem_of_In in Hin.
    by apply (proj1 (Forall_forall _ _) (source_patterns_ok Hnl Hnem get src)). }
  unfold loadFromBolt, setMatcher, set_store, saveToBolt. cbn [mg_db]. rewrite Hdb.
  assert ((length all =? 0)%nat = false) as -> by (by destruct all).
  destruct (Hput (lc_Name lc) (Join all newline_str)) as [db' Hdb']. rewrite Hdb'. cbn [mg_db].
  rewrite (kv_get_put _ _ _ _ _ Hdb'), String.eqb_refl.
  assert (Hj : Split (Join all newline_str) newline = all).
  { apply Split_Join; [done|]. eapply Forall_impl; [exact Hok|]. by intros p [? _]. }
  destruct (String.eqb_spec (Join all newline_str) EmptyString) as [E|E].
  - rewrite E in Hj. simpl in Hj. subst all. inversion Hok as [|? ? [_ Hx] _]; subst. done.
  - rewrite Hj. apply filter_all. eapply Forall_impl; [exact Hok|]. by intros p [_ ?].
Qed.

Lemma start_lists_ids lcs m n :
  n <= mg_next m -> (forall l i, mg_lists m !! l = Some i -> n <= i) ->
  forall l i, mg_lists (start_lists m lcs) !! l = Some i -> n <= i.
Proof.
  unfold start_lists. revert m. induction lcs as [|lc lcs IH]; intros m Hn Hl; cbn [foldl]; [done|].
  destruct (listEnabled lc); [|by apply IH]. apply IH; simpl; [lia|].
  intros l i. destruct (decide (l = lc_Name lc)) as [->|Hne].
  - rewrite lookup_insert_eq. intros [= <-]. done.
  - rewrite lookup_insert_ne by done. apply Hl.
Qed.

(** What the goroutine of a list can still have in flight when its list has been
    replaced: its load from the store, or a refresh. *)
Inductive LateWrite :=
  | LateLoad (lc : ListConfig) (id : nat)
  | LateRefresh (get : string -> option HttpResponse) (lc : ListConfig) (id : nat).

Definition late_id (x : LateWrite) : nat := match x with LateLoad _ id | LateRefresh _ _ id => id end.

(** The entry of the store a late write can change. *)
Definition late_key (x : LateWrite) : option string :=
  match x with LateLoad _ _ => None | LateRefresh _ lc _ => Some (lc_Name lc) end.

Definition late_write (m : Manager) (x : LateWrite) : Manager :=
  match x with
  | LateLoad lc id => list_load m lc id
  | LateRefresh get lc id => fetchAndUpdate get m lc id
  end.

(** A manager seen by the lists with numbers from [n] on. *)
Record agree_from (n : nat) (keys : list string) (m m' : Manager) : Prop := {
  ag_lists : mg_lists m' = mg_lists m;
  ag_store : forall id, n <= id -> mg_store m' !! id = mg_store m !! id;
  ag_db : mg_db m = None -> mg_db m' = None;
  ag_keys : forall name, name ∉ keys -> loadFromBolt m' name = loadFromBolt m name
}.

Lemma saveToBolt_db m name ps :
  (mg_db m = None -> mg_db (saveToBolt m name ps) = None) /\
  forall k, k <> name -> loadFromBolt (saveToBolt m name ps) k = loadFromBolt m k.
Proof.
  unfold saveToBolt, loadFromBolt. destruct (mg_db m) as [db|] eqn:Hdb; [|by rewrite Hdb]. split; [done|]. intros k Hk.
  destruct (length ps =? 0)%nat; [by rewrite Hdb|]. destruct (kv_put _ _ _) as [db'|] eqn:Hp; [|by rewrite Hdb]. cbn [mg_db].
  apply String.eqb_neq in Hk. by rewrite (kv_get_put _ _ _ _ _ Hp), Hk.
Qed.

Lemma late_write_agree n m x : late_id x < n -> agree_from n (option_list (late_key x)) m (late_write m x).
Proof.
  intros Hid. destruct x as [lc id|get lc id]; cbn in *.
  - unfold list_load. destruct (_ =? 0)%nat; [by split|]. split; [done| |done|done]. intros i Hi. cbn.
    by rewrite lookup_alter_ne by lia.
  - destruct (fetchAndUpdate_cases get m lc id) as [[_ ->]|(all & _ & _ & _ & ->)]; [by split|].
    destruct (saveToBolt_fields m (lc_Name lc) all) as (Est & Eli & _). destruct (saveToBolt_db m (lc_Name lc) all) as [Hn Hk].
    split; [done| |done|].
    + intros i Hi. cbn. rewrite Est. by rewrite lookup_alter_ne by lia.
    + intros k Hnk. change (loadFromBolt (setMatcher ?m _ _) k) with (loadFromBolt m k). apply Hk. intros ->. apply Hnk. left.
Qed.

Lemma late_writes_agree n late m : Forall (fun x => late_id x < n) late ->
  agree_from n (omap late_key late) m (foldl late_write m late).
Proof.
  intros Hl. revert m. induction Hl as [|x late Hx _ IH]; intros m; [by split|]. cbn [foldl].
  destruct (late_write_agree n m x Hx) as [Hg1 Hg2 Hg3 Hg4], (IH (late_write m x)) as [Hg5 Hg6 Hg7 Hg8]. split.
  - congruence.
  - intros i Hi. by rewrite Hg6, Hg2.
  - auto.
  - cbn. intros k Hk. destruct (late_key x) as [k'|]; cbn in *.
    + rewrite Hg8, Hg4; [done|set_solver|set_solver].
    + rewrite Hg8, Hg4; [done|set_solver|done].
Qed.

(** Lists with numbers from [n] on do not see what is written below. *)
Lemma agree_match n keys m m' : agree_from n keys m m' -> (forall l i, mg_lists m !! l = Some i -> n <= i) ->
  forall l text, Match m' l text = Match m l text /\ Manager_MatchResult m' l text = Manager_MatchResult m l text.
Proof.
  intros [Hg1 Hg2 _ _] Hn l text. assert (Hm : list_matcher m' l = list_matcher m l).
  { unfold list_matcher. rewrite Hg1. destruct (mg_lists m !! l) as [i|] eqn:E; [|done]. by rewrite Hg2 by eauto. }
  unfold Match, Manager_MatchResult. by rewrite Hm.
Qed.

(** C36: Reload isolation: after Update, the loads and refreshes that goroutines of
    the replaced lists still had in flight, in any number and order, leave the
    registered lists and their automata as they are, so nothing changes in what
    the new lists match and report; of the store only the entries of the lists
    that are refreshed late can change. After Close no list matches anything,
    also after such late writes, and nothing is stored any more. *)
Theorem blocklist_reload_isolation open_ m cfg late :
  Forall (fun x => late_id x < mg_next m) late ->
  (let m1 := Manager_Update open_ m cfg in
   let m2 := foldl late_write m1 late in
   mg_lists m2 = mg_lists m1 /\
   (forall l text, Match m2 l text = Match m1 l text /\ Manager_MatchResult m2 l text = Manager_MatchResult m1 l text) /\
   (forall name, name ∉ omap late_key late -> loadFromBolt m2 name = loadFromBolt m1 name)) /\
  (let m2 := foldl late_write (Manager_Close m) late in
   mg_db m2 = None /\ forall l text, Match (Manager_Close m) l text = false /\ Match m2 l text = false).
Proof.
  intros Hl. split.
  - pose proof (late_writes_agree _ late (Manager_Update open_ m cfg) Hl) as Ha. cbv zeta.
    split; [apply Ha|]. split; [|apply Ha]. eapply agree_match; [exact Ha|]. unfold Manager_Update.
    apply start_lists_ids; [done|]. intros l i Hx. cbn [mg_lists] in Hx. by rewrite lookup_empty in Hx.
  - pose proof (late_writes_agree _ late (Manager_Close m) Hl) as Ha. cbv zeta. split; [by apply Ha|].
    intros l text. split; [done|].
    apply (agree_match _ _ _ _ Ha). intros l' i Hx. cbn [mg_lists Manager_Close] in Hx. by rewrite lookup_empty in Hx.
Qed.
End properties.

(** ** Witnesses: concrete parameters *)

Definition ex_lower : UnicodeLower := {| unicode_lower := fun s => s |}.

Definition ex_aho : AhoCorasick.
Proof.
  refine {| Automaton := list string; CompileStrings := fun ps => ps;
            FindAll := fun ps t => filter (fun w => Contains t w = true) ps |}.
  intros ps t w. rewrite list_elem_of_filter. tauto.
Defined.

Definition ex_kv : KVStore.
Proof.
  refine {| DB := gmap string string; kv_path := fun _ => "bl.db"%string;
            kv_get := fun db k => db !! k; kv_put := fun db k v => Some (<[k := v]> db) |}.
  intros db k v db' k' [= <-]. destruct (String.eqb_spec k' k) as [->|Hne].
  - by rewrite lookup_insert_eq.
  - by rewrite lookup_insert_ne.
Defined.

Definition ex_list : ListConfig :=
  mkListConfig "badbot-ua" None (24 * hour) [mkSourceConfig "https://lists.example/ua" "plain_text"].

Definition ex_get (_ : string) : option HttpResponse :=
  Some (mkHttpResponse 200 ("AhrefsBot" +:+ newline_str +:+ "1h4x\.com" +:+ newline_str)).

Definition ex_manager : @Manager ex_aho ex_kv :=
  @NewManager ex_aho ex_kv (fun _ => Some ∅) (mkBlocklistConfig "bl.db" [ex_list]).

Lemma blocklist_refresh_exact_witness :
  let m' := @fetchAndUpdate ex_lower ex_aho ex_kv ex_get ex_manager ex_list 0 in
  @Match ex_aho ex_kv m' "badbot-ua" "mozilla 1h4x.com bot" = true.
Proof.
  destruct (@blocklist_refresh_exact ex_lower ex_aho ex_kv ex_get ex_manager ex_list 0
              (@mkListState ex_aho None false)) as (_ & Hm & _).
  - vm_compute. reflexivity.
  - vm_compute. reflexivity.
  - intros n i Hn _. change (({["badbot-ua" := 0]} : gmap string nat) !! n = Some i) in Hn.
    apply lookup_singleton_Some in Hn as [<- _]. reflexivity.
  - apply (Hm ltac:(vm_compute; discriminate)). exists "1h4x.com". split.
    + vm_compute. right. left.
    + vm_compute. reflexivity.
Defined.

Lemma blocklist_store_roundtrip_witness :
  exists all, NoDup all /\
    @loadFromBolt ex_aho ex_kv
      (@fetchAndUpdate ex_lower ex_aho ex_kv ex_get ex_manager ex_list 0) "badbot-ua" = all /\
    all = ["ahrefsbot"; "1h4x.com"].
Proof.
  destruct (@blocklist_store_roundtrip ex_lower ex_aho ex_kv ex_get ex_manager ex_list ∅) with 0
    as (all & Hn & _ & Hl).
  - intros s Hs. exact Hs.
  - intros s Hs. exact Hs.
  - vm_compute. reflexivity.
  - intros k v. eexists. reflexivity.
  - vm_compute. discriminate.
  - exists all. split; [exact Hn|]. split; [exact Hl|]. rewrite <- Hl. vm_compute. reflexivity.
Defined.

(** A list that was replaced refreshes after the reload and then loads what it stored. *)
Definition ex_late : list LateWrite := [LateRefresh ex_get ex_list 0; LateLoad ex_list 0].
Definition ex_reloaded : @Manager ex_aho ex_kv :=
  @Manager_Update ex_aho ex_kv (fun _ => None) ex_manager (mkBlocklistConfig "bl.db" [ex_list]).

Lemma blocklist_reload_isolation_witness :
  @Match ex_aho ex_kv (foldl (@late_write ex_lower ex_aho ex_kv) ex_reloaded ex_late) "badbot-ua" "ahrefsbot" = false.
Proof.
  destruct (@blocklist_reload_isolation ex_lower ex_aho ex_kv (fun _ => None) ex_manager (mkBlocklistConfig "bl.db" [ex_list]) ex_late)
    as [(_ & Hu & _) _].
  - repeat constructor.
  - unfold ex_reloaded. rewrite (proj1 (Hu "badbot-ua" "ahrefsbot")). vm_compute. reflexivity.
Defined.

(** The store is shared: what the late refresh wrote is what the new list of that name
    loads, although its own sources were never fetched. *)
Lemma late_refresh_reaches_store :
  @loadFromBolt ex_aho ex_kv ex_reloaded "badbot-ua" = [] /\
  @loadFromBolt ex_aho ex_kv (foldl (@late_write ex_lower ex_aho ex_kv) ex_reloaded ex_late) "badbot-ua" = ["ahrefsbot"; "1h4x.com"].
Proof. split; vm_compute; reflexivity. Qed.
