(* ===== verification/ConfigTypes.v ===== *)
(** * Configuration records and defaults

    The sections of the configuration file with the source's field names, and
    [defaultConfig].  A nil slice or map is told apart from an empty one where the
    code does ([option]); [time.Duration] fields are nanoseconds.  The queue and
    JSON-field records come from the core module: the fields the sources read,
    and the remaining queue options as an opaque map that is passed on. *)

From Stdlib Require Import ZArith Lia Ascii String Floats.SpecFloat.
From stdpp Require Import base numbers option list strings gmap.
From S2P Require Import Prelude GoFloat GoStrings GoValues GoFmt Whitelist ChainCheck Blocklist.

(** ** Records of the core module *)

Record QueueConfig := mkQueueConfig {
  qc_Type : string;
  qc_Mode : string;
  qc_Peer : string;
  qc_Bucket : string;
  qc_Key : string;
  qc_Options : gmap string string
}.

Record ExecutorSourceRef := mkExecutorSourceRef {
  esr_Name : string;
  esr_Queue : option QueueConfig
}.

Record JSONFieldsConfig := mkJSONFieldsConfig {
  jf_RemoteAddr : string;
  jf_Time : string;
  jf_Request : string;
  jf_Status : string;
  jf_BytesSent : string;
  jf_Referer : string;
  jf_UserAgent : string;
  jf_RealIP : string
}.

Definition QueueTypeTransport : string := "transport".
Definition QueueTypeBbolt : string := "bbolt".
Definition QueueTypeRedis : string := "redis".

(** [QueueConfig.EffectiveMode] is a method of the core module. *)
Class QueueMode := { EffectiveMode : QueueConfig -> string }.

(** ** Sections *)

Record GeneralConfig := mkGeneralConfig {
  ge_LogFile : string;
  ge_PIDFile : string;
  ge_LinesBufSize : Z;
  ge_TailRetryInterval : Duration;
  ge_StatsInterval : Duration
}.

Record LoggingConfig := mkLoggingConfig {
  lg_Debug : bool;
  lg_ConsoleColor : bool
}.

Record ParserConfig := mkParserConfig {
  pa_Profile : string;
  pa_LogFormat : string;
  pa_RegexPattern : string;
  pa_Timezone : string;
  pa_JSONFields : JSONFieldsConfig
}.

Record ScoringConfig := mkScoringConfig {
  sg_AlertThreshold : Z;
  sg_BanThreshold : Z;
  sg_ObservationWindow : Duration;
  sg_Decay : string
}.

Record StateConfig := mkStateConfig {
  se_GCInterval : Duration;
  se_MaxTrackedIPs : Z
}.

Record ProbeConfig := mkProbeConfig {
  pb_Enabled : bool;
  pb_Score : Z;
  pb_Paths : list string
}.

Record BruteforceConfig := mkBruteforceConfig {
  bf_Enabled : bool;
  bf_MinRequests : Z;
  bf_RatioThreshold : float64;
  bf_Score : Z
}.

Record CrawlerConfig := mkCrawlerConfig {
  cr_Enabled : bool;
  cr_MinSequential : Z;
  cr_Score : Z
}.

Record NoAssetConfig := mkNoAssetConfig {
  na_Enabled : bool;
  na_MinPageRequests : Z;
  na_AssetRatioThreshold : float64;
  na_AssetExtensions : list string;
  na_Score : Z
}.

Record RateConfig := mkRateConfig {
  rt_Enabled : bool;
  rt_Window : Duration;
  rt_Threshold : Z;
  rt_Score : Z
}.

Record UserAgentConfig := mkUserAgentConfig {
  ua_Enabled : bool;
  ua_ScannerScore : Z;
  ua_GrabberScore : Z;
  ua_AutomationScore : Z;
  ua_EmptyUAScore : Z;
  ua_ExtraScannerPatterns : list string;
  ua_ExtraGrabberPatterns : list string;
  ua_ExtraAutomationPatterns : list string
}.

Record OverflowConfig := mkOverflowConfig {
  ov_Enabled : bool;
  ov_MaxURLLength : Z;
  ov_SuspiciousParams : list string;
  ov_Score : Z
}.

Record BadBotConfig := mkBadBotConfig {
  bb_Enabled : bool;
  bb_Score : Z;
  bb_CheckUA : bool;
  bb_CheckReferrer : bool
}.

Record DetectorsConfig := mkDetectorsConfig {
  ds_Probe : ProbeConfig;
  ds_Bruteforce : BruteforceConfig;
  ds_Crawler : CrawlerConfig;
  ds_NoAsset : NoAssetConfig;
  ds_Rate : RateConfig;
  ds_UserAgent : UserAgentConfig;
  ds_Overflow : OverflowConfig;
  ds_BadBot : BadBotConfig
}.

Record DNSCacheConfig := mkDNSCacheConfig {
  dn_PositiveTTL : Duration;
  dn_NegativeTTL : Duration;
  dn_IPListRefresh : Duration
}.

Record WhitelistConfig := mkWhitelistConfig {
  wl_Bots : list BotConfig;
  wl_Custom : CustomWhitelist;
  wl_DNSCache : DNSCacheConfig;
  wl_FakeBotScore : Z;
  wl_DNSVerifyTimeout : Duration
}.

Record OutputConfig := mkOutputConfig {
  ou_ThreatLog : string;
  ou_OperationalLog : string
}.

Record MetricsConfig := mkMetricsConfig {
  me_Enabled : bool;
  me_ListenAddr : string;
  me_Username : string;
  me_PasswordHash : string
}.

Record CloudflareGuardConfig := mkCloudflareGuardConfig {
  cgc_Enabled : bool;
  cgc_RefreshInterval : Duration;
  cgc_Sources : list string
}.

Record BogonGuardConfig := mkBogonGuardConfig {
  bg_Enabled : bool
}.

Record ChainGuardConfig := mkChainGuardConfig {
  cg_Enabled : bool;
  cg_WarningsLog : string;
  cg_Cloudflare : CloudflareGuardConfig;
  cg_Bogon : BogonGuardConfig
}.

Record InputConfig := mkInputConfig {
  in_Type : string;
  in_Path : string;
  in_Parser : string;
  in_Exec : string;
  in_Addr : string;
  in_Mode : string;
  in_URL : string;
  in_HTTPPath : string;
  in_Token : string;
  in_TLSCert : string;
  in_TLSKey : string;
  in_Protocol : string;
  in_EnvelopeField : string;
  in_PullInterval : string;
  in_MaxBodyBytes : Z;
  in_MaxConnections : Z;
  in_Queue : option QueueConfig
}.

Record SinkConfig := mkSinkConfig {
  sk_Type : string;
  sk_Name : string;
  sk_Path : string;
  sk_Format : string;
  sk_Exec : string;
  sk_Queue : option QueueConfig;
  sk_LokiURL : string;
  sk_LokiLabels : gmap string string;
  sk_LokiBatchSize : Z;
  sk_LokiFlushInterval : string;
  sk_LokiTenantID : string;
  sk_LokiUsername : string;
  sk_LokiPassword : string;
  sk_LokiGzip : bool;
  sk_LokiTLSCert : string;
  sk_LokiTLSKey : string;
  sk_LokiCACert : string;
  sk_SplunkURL : string;
  sk_SplunkToken : string;
  sk_SplunkSourceType : string;
  sk_SplunkSource : string;
  sk_SplunkIndex : string;
  sk_SplunkHost : string;
  sk_SplunkBatchSize : Z;
  sk_SplunkFlushInterval : string;
  sk_SplunkGzip : bool;
  sk_SplunkTLSCert : string;
  sk_SplunkTLSKey : string;
  sk_SplunkCACert : string;
  sk_DatadogURL : string;
  sk_DatadogAPIKey : string;
  sk_DatadogSource : string;
  sk_DatadogTags : string;
  sk_DatadogHostname : string;
  sk_DatadogService : string;
  sk_DatadogBatchSize : Z;
  sk_DatadogFlushInterval : string;
  sk_DatadogGzip : bool;
  sk_DatadogTLSCert : string;
  sk_DatadogTLSKey : string;
  sk_DatadogCACert : string
}.

Record DetectorConfig := mkDetectorConfig {
  dc_Enabled : bool;
  dc_Exec : string;
  dc_Params : Params
}.

Record ProcessorConfig := mkProcessorConfig {
  pc_Plugin : string;
  pc_Params : Params
}.

Record PipelineRuntimeConfig := mkPipelineRuntimeConfig {
  pr_BufferSize : Z;
  pr_ShutdownTimeout : Duration
}.

Record PipelineConfig := mkPipelineConfig {
  pl_Name : string;
  pl_TrackerGroup : string;
  pl_Inputs : list InputConfig;
  pl_Outputs : list SinkConfig;
  pl_Detectors : option (gmap string DetectorConfig);
  pl_Processors : option (list ProcessorConfig);
  pl_Pipeline : PipelineRuntimeConfig;
  pl_RawForward : bool
}.

Record ExecutorItem := mkExecutorItem {
  ei_Name : string;
  ei_Type : string;
  ei_Exec : string;
  ei_Params : Params;
  ei_Config : Params
}.

Record StreamConfig := mkStreamConfig {
  st_Name : string;
  st_Pipelines : list PipelineConfig;
  st_Inputs : list InputConfig;
  st_Outputs : list SinkConfig;
  st_Executors : option (list ExecutorItem);
  st_Processors : list ProcessorConfig;
  st_Pipeline : PipelineRuntimeConfig;
  st_LogFile : string;
  st_ThreatLog : string
}.

Record ExecutorTopConfig := mkExecutorTopConfig {
  ex_Name : string;
  ex_Type : string;
  ex_Sources : list ExecutorSourceRef;
  ex_Config : Params
}.

Record TransportPeer := mkTransportPeer {
  tp_Host : string;
  tp_Fingerprint : string
}.

Record TransportConfig := mkTransportConfig {
  tr_Enabled : bool;
  tr_IdentityPath : string;
  tr_KnownNodesPath : string;
  tr_Listen : string;
  tr_Peers : list TransportPeer;
  tr_PairingSecret : string
}.

Record Config := mkConfig {
  c_General : GeneralConfig;
  c_Logging : LoggingConfig;
  c_Parser : ParserConfig;
  c_Scoring : ScoringConfig;
  c_State : StateConfig;
  c_Detectors : DetectorsConfig;
  c_Whitelist : WhitelistConfig;
  c_Output : OutputConfig;
  c_Metrics : MetricsConfig;
  c_Blocklist : BlocklistConfig;
  c_ChainGuard : ChainGuardConfig;
  c_Streams : list StreamConfig;
  c_Inputs : list InputConfig;
  c_Outputs : list SinkConfig;
  c_DeprecatedExecutors : list ExecutorItem;
  c_Executors : list ExecutorTopConfig;
  c_Pipeline : PipelineRuntimeConfig;
  c_Transport : TransportConfig
}.

(** ** Composite literals: the omitted fields are zero *)

Definition input_literal (type path parser : string) : InputConfig :=
  mkInputConfig type path parser "" "" "" "" "" "" "" "" "" "" "" 0 0 None.

Definition sink_literal (type path format : string) : SinkConfig :=
  mkSinkConfig type "" path format "" None
    "" ∅ 0 "" "" "" "" false "" "" ""
    "" "" "" "" "" "" 0 "" false "" "" ""
    "" "" "" "" "" "" 0 "" false "" "" "".

Definition pipeline_literal (name : string) (inputs : list InputConfig) (outputs : list SinkConfig)
    (runtime : PipelineRuntimeConfig) : PipelineConfig :=
  mkPipelineConfig name "" inputs outputs None None runtime false.

Definition stream_literal (name logFile threatLog : string) : StreamConfig :=
  mkStreamConfig name [] [] [] None [] (mkPipelineRuntimeConfig 0 0) logFile threatLog.

(** ** Assignments to fields of the root record *)

Definition set_General (v : GeneralConfig) (c : Config) : Config :=
  mkConfig v (c_Logging c) (c_Parser c) (c_Scoring c) (c_State c) (c_Detectors c) (c_Whitelist c)
    (c_Output c) (c_Metrics c) (c_Blocklist c) (c_ChainGuard c) (c_Streams c) (c_Inputs c)
    (c_Outputs c) (c_DeprecatedExecutors c) (c_Executors c) (c_Pipeline c) (c_Transport c).
Definition set_Parser (v : ParserConfig) (c : Config) : Config :=
  mkConfig (c_General c) (c_Logging c) v (c_Scoring c) (c_State c) (c_Detectors c) (c_Whitelist c)
    (c_Output c) (c_Metrics c) (c_Blocklist c) (c_ChainGuard c) (c_Streams c) (c_Inputs c)
    (c_Outputs c) (c_DeprecatedExecutors c) (c_Executors c) (c_Pipeline c) (c_Transport c).
Definition set_Streams (v : list StreamConfig) (c : Config) : Config :=
  mkConfig (c_General c) (c_Logging c) (c_Parser c) (c_Scoring c) (c_State c) (c_Detectors c)
    (c_Whitelist c) (c_Output c) (c_Metrics c) (c_Blocklist c) (c_ChainGuard c) v (c_Inputs c)
    (c_Outputs c) (c_DeprecatedExecutors c) (c_Executors c) (c_Pipeline c) (c_Transport c).
Definition set_Inputs (v : list InputConfig) (c : Config) : Config :=
  mkConfig (c_General c) (c_Logging c) (c_Parser c) (c_Scoring c) (c_State c) (c_Detectors c)
    (c_Whitelist c) (c_Output c) (c_Metrics c) (c_Blocklist c) (c_ChainGuard c) (c_Streams c) v
    (c_Outputs c) (c_DeprecatedExecutors c) (c_Executors c) (c_Pipeline c) (c_Transport c).
Definition set_Outputs (v : list SinkConfig) (c : Config) : Config :=
  mkConfig (c_General c) (c_Logging c) (c_Parser c) (c_Scoring c) (c_State c) (c_Detectors c)
    (c_Whitelist c) (c_Output c) (c_Metrics c) (c_Blocklist c) (c_ChainGuard c) (c_Streams c)
    (c_Inputs c) v (c_DeprecatedExecutors c) (c_Executors c) (c_Pipeline c) (c_Transport c).
Definition set_Pipeline (v : PipelineRuntimeConfig) (c : Config) : Config :=
  mkConfig (c_General c) (c_Logging c) (c_Parser c) (c_Scoring c) (c_State c) (c_Detectors c)
    (c_Whitelist c) (c_Output c) (c_Metrics c) (c_Blocklist c) (c_ChainGuard c) (c_Streams c)
    (c_Inputs c) (c_Outputs c) (c_DeprecatedExecutors c) (c_Executors c) v (c_Transport c).

Definition set_LogFile (v : string) (g : GeneralConfig) : GeneralConfig :=
  mkGeneralConfig v (ge_PIDFile g) (ge_LinesBufSize g) (ge_TailRetryInterval g) (ge_StatsInterval g).
Definition set_LogFormat (v : string) (p : ParserConfig) : ParserConfig :=
  mkParserConfig (pa_Profile p) v (pa_RegexPattern p) (pa_Timezone p) (pa_JSONFields p).
Definition set_MaxConnections (v : Z) (i : InputConfig) : InputConfig :=
  mkInputConfig (in_Type i) (in_Path i) (in_Parser i) (in_Exec i) (in_Addr i) (in_Mode i) (in_URL i)
    (in_HTTPPath i) (in_Token i) (in_TLSCert i) (in_TLSKey i) (in_Protocol i) (in_EnvelopeField i)
    (in_PullInterval i) (in_MaxBodyBytes i) v (in_Queue i).
Definition set_stream_io (ins : list InputConfig) (outs : list SinkConfig) (s : StreamConfig) : StreamConfig :=
  mkStreamConfig (st_Name s) (st_Pipelines s) ins outs (st_Executors s) (st_Processors s)
    (st_Pipeline s) (st_LogFile s) (st_ThreatLog s).
Definition set_Pipelines (ps : list PipelineConfig) (s : StreamConfig) : StreamConfig :=
  mkStreamConfig (st_Name s) ps (st_Inputs s) (st_Outputs s) (st_Executors s) (st_Processors s)
    (st_Pipeline s) (st_LogFile s) (st_ThreatLog s).
Definition set_Processors (v : option (list ProcessorConfig)) (p : PipelineConfig) : PipelineConfig :=
  mkPipelineConfig (pl_Name p) (pl_TrackerGroup p) (pl_Inputs p) (pl_Outputs p) (pl_Detectors p) v
    (pl_Pipeline p) (pl_RawForward p).

(** ** Conversion for the chain checker *)

Definition ToChainCheckConfig (c : ChainGuardConfig) : ChainConfig :=
  mkChainConfig
    (mkCloudflareConfig (cgc_Enabled (cg_Cloudflare c)) (cgc_RefreshInterval (cg_Cloudflare c))
       (cgc_Sources (cg_Cloudflare c)))
    (bg_Enabled (cg_Bogon c)).

(** ** Defaults *)

Definition defaultProbePaths : list string :=
  ["/.env"; "/.env.backup"; "/.env.local"; "/.env.production"; "/.env.staging";
   "/config.yml"; "/config.yaml"; "/config.json"; "/application.properties";
   "/settings.py"; "/local_settings.py"; "/database.yml"; "/database.yaml";
   "/web.config"; "/app.config";
   "/.git/config"; "/.git/HEAD"; "/.gitignore";
   "/.svn/entries"; "/.hg/"; "/.bzr/";
   "/.aws/credentials"; "/.docker/config.json";
   "/aws-exports.json"; "/.gcloud/credentials";
   "/wp-config.php"; "/wp-config.php.bak"; "/wp-config.php.old";
   "/wp-login.php"; "/xmlrpc.php"; "/wp-admin/";
   "/administrator/"; "/admin/"; "/phpmyadmin/"; "/pma/";
   "/joomla/"; "/drupal/"; "/typo3/";
   "/backup.zip"; "/backup.tar.gz"; "/backup.sql"; "/backup.sql.gz";
   "/db.dump"; "/database.sql"; "/dump.sql"; "/site.sql";
   "/server-status"; "/server-info";
   "/phpinfo.php"; "/info.php"; "/php.php";
   "/actuator/"; "/actuator/env"; "/actuator/health"; "/actuator/mappings";
   "/metrics"; "/health"; "/.well-known/";
   "/.debug"; "/trace"; "/console";
   "/graphql"; "/graphiql"; "/api/graphql"].

Definition VerifyMethodRDNS : string := "rdns".
Definition VerifyMethodRDNSIP : string := "rdns_ipjson".
Definition VerifyMethodIPRanges : string := "ip_ranges".
Definition VerifyMethodUAOnly : string := "ua_only".

Definition defaultBots : list BotConfig :=
  [mkBotConfig "google" ["Googlebot"; "Google-InspectionTool"; "GoogleOther"; "AdsBot-Google"] [".googlebot.com"; ".google.com"]
     "rdns_ipjson" [];
   mkBotConfig "bing" ["bingbot"; "BingPreview"; "msnbot"; "adidxbot"] [".search.msn.com"]
     "rdns" [];
   mkBotConfig "yandex" ["YandexBot"; "YandexImages"; "YandexMetrika"; "YandexDirect"] [".yandex.ru"; ".yandex.net"; ".yandex.com"]
     "rdns" [];
   mkBotConfig "duckduckgo" ["DuckDuckBot"] [".duckduckgo.com"]
     "rdns" [];
   mkBotConfig "baidu" ["Baiduspider"; "BaiduMobaider"] [".baidu.com"; ".baidu.jp"]
     "rdns" [];
   mkBotConfig "apple" ["Applebot"] [".applebot.apple.com"]
     "rdns" [];
   mkBotConfig "facebook" ["facebookexternalhit"; "Facebot"] []
     "ip_ranges" [];
   mkBotConfig "twitter" ["Twitterbot"] []
     "ip_ranges" [];
   mkBotConfig "telegram" ["TelegramBot"] []
     "ip_ranges" [];
   mkBotConfig "claudebot" ["ClaudeBot"; "Claude-Web"; "anthropic-ai"] []
     VerifyMethodUAOnly ["noasset"];
   mkBotConfig "gptbot" ["GPTBot"; "OAI-SearchBot"; "ChatGPT-User"] []
     VerifyMethodUAOnly ["noasset"];
   mkBotConfig "amazonbot" ["Amazonbot"] []
     VerifyMethodUAOnly ["noasset"];
   mkBotConfig "meta-crawler" ["meta-externalagent"; "meta-externalfetcher"] []
     VerifyMethodUAOnly ["noasset"]].

(** The decimal constants 0.6 and 0.1 as the nearest [float64]. *)
Definition f_0_6 : float64 := f_div (f_of_Z 6) (f_of_Z 10).
Definition f_0_1 : float64 := f_div (f_of_Z 1) (f_of_Z 10).

Definition defaultDetectors : DetectorsConfig :=
  mkDetectorsConfig
    (mkProbeConfig true 25 defaultProbePaths)
    (mkBruteforceConfig true 10 f_0_6 30)
    (mkCrawlerConfig true 5 20)
    (mkNoAssetConfig true 3 f_0_1
       [".css"; ".js"; ".png"; ".jpg"; ".jpeg"; ".gif"; ".svg"; ".woff"; ".woff2"; ".ttf"; ".ico"; ".webp"] 20)
    (mkRateConfig true (60 * second) 100 25)
    (mkUserAgentConfig true 40 20 15 30 [] [] [])
    (mkOverflowConfig true 2048 ["bypass"; "shell"; "cmd"; "exec"; "eval"; "system"; "passthru"] 30)
    (mkBadBotConfig true 60 true false).

Definition defaultConfig : Config :=
  mkConfig
    (mkGeneralConfig "" "/run/arxsentinel/arxsentinel.pid" 1000 (5 * second) (300 * second))
    (mkLoggingConfig false true)
    (mkParserConfig "" "combined" "" "UTC"
       (mkJSONFieldsConfig "remote_addr" "time_iso8601" "request" "status" "bytes_sent"
          "http_referer" "http_user_agent" "real_ip"))
    (mkScoringConfig 50 80 (300 * second) "linear")
    (mkStateConfig (60 * second) 100000)
    defaultDetectors
    (mkWhitelistConfig defaultBots (mkCustomWhitelist [] [] [] [])
       (mkDNSCacheConfig (24 * hour) hour (24 * hour)) 35 (2 * second))
    (mkOutputConfig "/var/log/arxsentinel/threats.log" "/var/log/arxsentinel/sentinel.log")
    (mkMetricsConfig false ":9117" "" "")
    (mkBlocklistConfig "" [])
    (mkChainGuardConfig false ""
       (mkCloudflareGuardConfig true (24 * hour)
          ["https://www.cloudflare.com/ips-v4/"; "https://www.cloudflare.com/ips-v6/"])
       (mkBogonGuardConfig true))
    [] [] [] [] []
    (mkPipelineRuntimeConfig 8192 (15 * second))
    (mkTransportConfig false "" "" "" [] "").
