(* ===== verification/ConfigEnv.v ===== *)
(** * Environment overrides

    [applyEnvOverrides] of the configuration package: every [ARXSENTINEL_*]
    variable that is set and not empty replaces one field.  [env] is
    [os.LookupEnv].  The declarative counterpart is a table of variables, each with
    its type and the field it overrides; the section functions are proved to do
    exactly what the table says, and the whole function to succeed exactly when
    every value that is set parses. *)

From Stdlib Require Import ZArith Lia Ascii String Floats.SpecFloat.
From stdpp Require Import base numbers option list strings gmap.
From S2P Require Import Prelude GoFloat GoStrings GoNet GoValues GoFmt Whitelist ChainCheck Blocklist ConfigTypes.

Section env.
Context `{UnicodePrint} (env : string -> option string).

(** ** The helpers *)

Definition envStr (key : string) (dst : string) : string :=
  match env key with
  | Some v => if String.eqb v "" then dst else v
  | None => dst
  end.

(** The scalar helpers share their shape: unset or empty keeps the value. *)
Definition env_scalar {A} (parse : string -> option A) (expected : string) (key : string) (dst : A)
  : string + A :=
  match env key with
  | None => mret dst
  | Some v =>
      if String.eqb v "" then mret dst
      else match parse v with
           | Some x => mret x
           | None => inl ("env " +:+ key +:+ "=" +:+ Quote v +:+ ": expected " +:+ expected)
           end
  end.

Definition envBool : string -> bool -> string + bool := env_scalar ParseBool "true/false/1/0".
Definition envInt : string -> Z -> string + Z := env_scalar Atoi "integer".
Definition envFloat : string -> float64 -> string + float64 := env_scalar ParseFloat "float".
Definition envDur : string -> Duration -> string + Duration :=
  env_scalar ParseDuration "duration (e.g. 30s, 2m)".

Definition csv_parts (v : string) : list string :=
  filter (fun p => p <> "") (TrimSpace <$> Split v ",").

Definition envCSV (key : string) (dst : list string) : list string :=
  match env key with
  | None => dst
  | Some v => if String.eqb v "" then dst else csv_parts v
  end.

(** The loop over the parts with a validity check. *)
Fixpoint checked_parts (valid : string -> bool) (err : string -> string) (parts : list string)
  : string + list string :=
  match parts with
  | [] => mret []
  | p :: parts' =>
      let trimmed := TrimSpace p in
      if String.eqb trimmed "" then checked_parts valid err parts'
      else if negb (valid trimmed) then inl (err trimmed)
      else result ← checked_parts valid err parts'; mret (trimmed :: result)
  end.

Definition env_list (valid : string -> bool) (what : string) (key : string) (dst : list string)
  : string + list string :=
  match env key with
  | None => mret dst
  | Some v =>
      if String.eqb v "" then mret dst
      else checked_parts valid
             (fun p => "env " +:+ key +:+ ": " +:+ Quote p +:+ " is not a valid " +:+ what) (Split v ",")
  end.

Definition valid_ip (s : string) : bool := bool_decide (is_Some (ParseIP s)).
Definition valid_cidr (s : string) : bool := bool_decide (is_Some (ParseCIDR s)).

Definition envIPList : string -> list string -> string + list string := env_list valid_ip "IP address".
Definition envCIDRList : string -> list string -> string + list string := env_list valid_cidr "CIDR block".

(** ** One function per section *)

Definition env_general (s : GeneralConfig) : string + GeneralConfig :=
  let LogFile := envStr "ARXSENTINEL_GENERAL_LOG_FILE" (ge_LogFile s) in
  let PIDFile := envStr "ARXSENTINEL_GENERAL_PID_FILE" (ge_PIDFile s) in
  LinesBufSize ← envInt "ARXSENTINEL_GENERAL_LINES_BUF_SIZE" (ge_LinesBufSize s);
  TailRetryInterval ← envDur "ARXSENTINEL_GENERAL_TAIL_RETRY_INTERVAL" (ge_TailRetryInterval s);
  StatsInterval ← envDur "ARXSENTINEL_GENERAL_STATS_INTERVAL" (ge_StatsInterval s);
  mret (mkGeneralConfig LogFile PIDFile LinesBufSize TailRetryInterval StatsInterval).

Definition env_logging (s : LoggingConfig) : string + LoggingConfig :=
  Debug ← envBool "ARXSENTINEL_LOGGING_DEBUG" (lg_Debug s);
  ConsoleColor ← envBool "ARXSENTINEL_LOGGING_CONSOLE_COLOR" (lg_ConsoleColor s);
  mret (mkLoggingConfig Debug ConsoleColor).

Definition env_parser (s : ParserConfig) : string + ParserConfig :=
  let Profile := envStr "ARXSENTINEL_PARSER_PROFILE" (pa_Profile s) in
  let LogFormat := envStr "ARXSENTINEL_PARSER_LOG_FORMAT" (pa_LogFormat s) in
  let RegexPattern := envStr "ARXSENTINEL_PARSER_REGEX_PATTERN" (pa_RegexPattern s) in
  let Timezone := envStr "ARXSENTINEL_PARSER_TIMEZONE" (pa_Timezone s) in
  let JSONFieldsRemoteAddr := envStr "ARXSENTINEL_PARSER_JSON_REMOTE_ADDR" (jf_RemoteAddr
    (pa_JSONFields s)) in
  let JSONFieldsTime := envStr "ARXSENTINEL_PARSER_JSON_TIME" (jf_Time (pa_JSONFields s)) in
  let JSONFieldsRequest := envStr "ARXSENTINEL_PARSER_JSON_REQUEST" (jf_Request (pa_JSONFields s))
    in
  let JSONFieldsStatus := envStr "ARXSENTINEL_PARSER_JSON_STATUS" (jf_Status (pa_JSONFields s)) in
  let JSONFieldsBytesSent := envStr "ARXSENTINEL_PARSER_JSON_BYTES_SENT" (jf_BytesSent
    (pa_JSONFields s)) in
  let JSONFieldsReferer := envStr "ARXSENTINEL_PARSER_JSON_REFERER" (jf_Referer (pa_JSONFields s))
    in
  let JSONFieldsUserAgent := envStr "ARXSENTINEL_PARSER_JSON_USER_AGENT" (jf_UserAgent
    (pa_JSONFields s)) in
  let JSONFieldsRealIP := envStr "ARXSENTINEL_PARSER_JSON_REAL_IP" (jf_RealIP (pa_JSONFields s)) in
  mret (mkParserConfig Profile LogFormat RegexPattern Timezone (mkJSONFieldsConfig
    JSONFieldsRemoteAddr JSONFieldsTime JSONFieldsRequest JSONFieldsStatus JSONFieldsBytesSent
    JSONFieldsReferer JSONFieldsUserAgent JSONFieldsRealIP)).

Definition env_scoring (s : ScoringConfig) : string + ScoringConfig :=
  AlertThreshold ← envInt "ARXSENTINEL_SCORING_ALERT_THRESHOLD" (sg_AlertThreshold s);
  BanThreshold ← envInt "ARXSENTINEL_SCORING_BAN_THRESHOLD" (sg_BanThreshold s);
  ObservationWindow ← envDur "ARXSENTINEL_SCORING_OBSERVATION_WINDOW" (sg_ObservationWindow s);
  let Decay := envStr "ARXSENTINEL_SCORING_DECAY" (sg_Decay s) in
  mret (mkScoringConfig AlertThreshold BanThreshold ObservationWindow Decay).

Definition env_state (s : StateConfig) : string + StateConfig :=
  GCInterval ← envDur "ARXSENTINEL_STATE_GC_INTERVAL" (se_GCInterval s);
  MaxTrackedIPs ← envInt "ARXSENTINEL_STATE_MAX_TRACKED_IPS" (se_MaxTrackedIPs s);
  mret (mkStateConfig GCInterval MaxTrackedIPs).

Definition env_probe (s : ProbeConfig) : string + ProbeConfig :=
  Enabled ← envBool "ARXSENTINEL_DETECTORS_PROBE_ENABLED" (pb_Enabled s);
  Score ← envInt "ARXSENTINEL_DETECTORS_PROBE_SCORE" (pb_Score s);
  mret (mkProbeConfig Enabled Score (pb_Paths s)).

Definition env_bruteforce (s : BruteforceConfig) : string + BruteforceConfig :=
  Enabled ← envBool "ARXSENTINEL_DETECTORS_BRUTEFORCE_ENABLED" (bf_Enabled s);
  MinRequests ← envInt "ARXSENTINEL_DETECTORS_BRUTEFORCE_MIN_REQUESTS" (bf_MinRequests s);
  RatioThreshold ← envFloat "ARXSENTINEL_DETECTORS_BRUTEFORCE_RATIO_THRESHOLD" (bf_RatioThreshold
    s);
  Score ← envInt "ARXSENTINEL_DETECTORS_BRUTEFORCE_SCORE" (bf_Score s);
  mret (mkBruteforceConfig Enabled MinRequests RatioThreshold Score).

Definition env_crawler (s : CrawlerConfig) : string + CrawlerConfig :=
  Enabled ← envBool "ARXSENTINEL_DETECTORS_CRAWLER_ENABLED" (cr_Enabled s);
  MinSequential ← envInt "ARXSENTINEL_DETECTORS_CRAWLER_MIN_SEQUENTIAL" (cr_MinSequential s);
  Score ← envInt "ARXSENTINEL_DETECTORS_CRAWLER_SCORE" (cr_Score s);
  mret (mkCrawlerConfig Enabled MinSequential Score).

Definition env_noasset (s : NoAssetConfig) : string + NoAssetConfig :=
  Enabled ← envBool "ARXSENTINEL_DETECTORS_NOASSET_ENABLED" (na_Enabled s);
  MinPageRequests ← envInt "ARXSENTINEL_DETECTORS_NOASSET_MIN_PAGE_REQUESTS" (na_MinPageRequests s);
  AssetRatioThreshold ← envFloat "ARXSENTINEL_DETECTORS_NOASSET_ASSET_RATIO_THRESHOLD"
    (na_AssetRatioThreshold s);
  Score ← envInt "ARXSENTINEL_DETECTORS_NOASSET_SCORE" (na_Score s);
  mret (mkNoAssetConfig Enabled MinPageRequests AssetRatioThreshold (na_AssetExtensions s) Score).

Definition env_rate (s : RateConfig) : string + RateConfig :=
  Enabled ← envBool "ARXSENTINEL_DETECTORS_RATE_ENABLED" (rt_Enabled s);
  Window ← envDur "ARXSENTINEL_DETECTORS_RATE_WINDOW" (rt_Window s);
  Threshold ← envInt "ARXSENTINEL_DETECTORS_RATE_THRESHOLD" (rt_Threshold s);
  Score ← envInt "ARXSENTINEL_DETECTORS_RATE_SCORE" (rt_Score s);
  mret (mkRateConfig Enabled Window Threshold Score).

Definition env_useragent (s : UserAgentConfig) : string + UserAgentConfig :=
  Enabled ← envBool "ARXSENTINEL_DETECTORS_USERAGENT_ENABLED" (ua_Enabled s);
  ScannerScore ← envInt "ARXSENTINEL_DETECTORS_USERAGENT_SCANNER_SCORE" (ua_ScannerScore s);
  GrabberScore ← envInt "ARXSENTINEL_DETECTORS_USERAGENT_GRABBER_SCORE" (ua_GrabberScore s);
  AutomationScore ← envInt "ARXSENTINEL_DETECTORS_USERAGENT_AUTOMATION_SCORE" (ua_AutomationScore
    s);
  EmptyUAScore ← envInt "ARXSENTINEL_DETECTORS_USERAGENT_EMPTY_UA_SCORE" (ua_EmptyUAScore s);
  mret (mkUserAgentConfig Enabled ScannerScore GrabberScore AutomationScore EmptyUAScore
    (ua_ExtraScannerPatterns s) (ua_ExtraGrabberPatterns s) (ua_ExtraAutomationPatterns s)).

Definition env_overflow (s : OverflowConfig) : string + OverflowConfig :=
  Enabled ← envBool "ARXSENTINEL_DETECTORS_OVERFLOW_ENABLED" (ov_Enabled s);
  MaxURLLength ← envInt "ARXSENTINEL_DETECTORS_OVERFLOW_MAX_URL_LENGTH" (ov_MaxURLLength s);
  Score ← envInt "ARXSENTINEL_DETECTORS_OVERFLOW_SCORE" (ov_Score s);
  mret (mkOverflowConfig Enabled MaxURLLength (ov_SuspiciousParams s) Score).

Definition env_badbot (s : BadBotConfig) : string + BadBotConfig :=
  Enabled ← envBool "ARXSENTINEL_DETECTORS_BADBOT_ENABLED" (bb_Enabled s);
  Score ← envInt "ARXSENTINEL_DETECTORS_BADBOT_SCORE" (bb_Score s);
  CheckUA ← envBool "ARXSENTINEL_DETECTORS_BADBOT_CHECK_UA" (bb_CheckUA s);
  CheckReferrer ← envBool "ARXSENTINEL_DETECTORS_BADBOT_CHECK_REFERRER" (bb_CheckReferrer s);
  mret (mkBadBotConfig Enabled Score CheckUA CheckReferrer).

Definition env_chain_guard (s : ChainGuardConfig) : string + ChainGuardConfig :=
  Enabled ← envBool "ARXSENTINEL_CHAIN_GUARD_ENABLED" (cg_Enabled s);
  let WarningsLog := envStr "ARXSENTINEL_CHAIN_GUARD_WARNINGS_LOG" (cg_WarningsLog s) in
  CloudflareEnabled ← envBool "ARXSENTINEL_CHAIN_GUARD_CLOUDFLARE_ENABLED" (cgc_Enabled
    (cg_Cloudflare s));
  CloudflareRefreshInterval ← envDur "ARXSENTINEL_CHAIN_GUARD_CLOUDFLARE_REFRESH_INTERVAL"
    (cgc_RefreshInterval (cg_Cloudflare s));
  BogonEnabled ← envBool "ARXSENTINEL_CHAIN_GUARD_BOGON_ENABLED" (bg_Enabled (cg_Bogon s));
  mret (mkChainGuardConfig Enabled WarningsLog (mkCloudflareGuardConfig CloudflareEnabled
    CloudflareRefreshInterval (cgc_Sources (cg_Cloudflare s))) (mkBogonGuardConfig BogonEnabled)).

Definition env_blocklist (s : BlocklistConfig) : string + BlocklistConfig :=
  let Storage := envStr "ARXSENTINEL_BLOCKLIST_STORAGE" (bc_Storage s) in
  mret (mkBlocklistConfig Storage (bc_Lists s)).

Definition env_whitelist (s : WhitelistConfig) : string + WhitelistConfig :=
  FakeBotScore ← envInt "ARXSENTINEL_WHITELIST_FAKE_BOT_SCORE" (wl_FakeBotScore s);
  DNSVerifyTimeout ← envDur "ARXSENTINEL_WHITELIST_DNS_VERIFY_TIMEOUT" (wl_DNSVerifyTimeout s);
  DNSCachePositiveTTL ← envDur "ARXSENTINEL_WHITELIST_DNS_CACHE_POSITIVE_TTL" (dn_PositiveTTL
    (wl_DNSCache s));
  DNSCacheNegativeTTL ← envDur "ARXSENTINEL_WHITELIST_DNS_CACHE_NEGATIVE_TTL" (dn_NegativeTTL
    (wl_DNSCache s));
  DNSCacheIPListRefresh ← envDur "ARXSENTINEL_WHITELIST_DNS_CACHE_IP_LIST_REFRESH"
    (dn_IPListRefresh (wl_DNSCache s));
  CustomIPs ← envIPList "ARXSENTINEL_WHITELIST_CUSTOM_IPS" (cw_IPs (wl_Custom s));
  CustomCIDRs ← envCIDRList "ARXSENTINEL_WHITELIST_CUSTOM_CIDRS" (cw_CIDRs (wl_Custom s));
  let CustomPaths := envCSV "ARXSENTINEL_WHITELIST_CUSTOM_PATHS" (cw_Paths (wl_Custom s)) in
  mret (mkWhitelistConfig (wl_Bots s) (mkCustomWhitelist CustomIPs CustomCIDRs (cw_UASubstrings
    (wl_Custom s)) CustomPaths) (mkDNSCacheConfig DNSCachePositiveTTL DNSCacheNegativeTTL
    DNSCacheIPListRefresh) FakeBotScore DNSVerifyTimeout).

Definition env_output (s : OutputConfig) : string + OutputConfig :=
  let ThreatLog := envStr "ARXSENTINEL_OUTPUT_THREAT_LOG" (ou_ThreatLog s) in
  let OperationalLog := envStr "ARXSENTINEL_OUTPUT_OPERATIONAL_LOG" (ou_OperationalLog s) in
  mret (mkOutputConfig ThreatLog OperationalLog).

Definition env_metrics (s : MetricsConfig) : string + MetricsConfig :=
  Enabled ← envBool "ARXSENTINEL_METRICS_ENABLED" (me_Enabled s);
  let ListenAddr := envStr "ARXSENTINEL_METRICS_LISTEN_ADDR" (me_ListenAddr s) in
  let Username := envStr "ARXSENTINEL_METRICS_USERNAME" (me_Username s) in
  let PasswordHash := envStr "ARXSENTINEL_METRICS_PASSWORD_HASH" (me_PasswordHash s) in
  mret (mkMetricsConfig Enabled ListenAddr Username PasswordHash).

Definition env_pipeline (s : PipelineRuntimeConfig) : string + PipelineRuntimeConfig :=
  BufferSize ← envInt "ARXSENTINEL_PIPELINE_BUFFER_SIZE" (pr_BufferSize s);
  ShutdownTimeout ← envDur "ARXSENTINEL_PIPELINE_SHUTDOWN_TIMEOUT" (pr_ShutdownTimeout s);
  mret (mkPipelineRuntimeConfig BufferSize ShutdownTimeout).

Definition syslog_key : string := "ARXSENTINEL_SYSLOG_MAX_CONNECTIONS".

(** The default for the syslog inputs that do not set a limit. *)
Definition syslog_default (val : Z) (i : InputConfig) : InputConfig :=
  if (String.eqb (in_Type i) "syslog" && (in_MaxConnections i <=? 0)%Z)%bool
  then set_MaxConnections val i else i.

Definition env_syslog (inputs : list InputConfig) : string + list InputConfig :=
  match env syslog_key with
  | None => mret inputs
  | Some v =>
      if String.eqb v "" then mret inputs
      else match Atoi v with
           | None => inl ("env ARXSENTINEL_SYSLOG_MAX_CONNECTIONS: invalid int " +:+ Quote v)
           | Some val =>
               if (val <=? 0)%Z
               then inl ("env ARXSENTINEL_SYSLOG_MAX_CONNECTIONS must be > 0, got " +:+ Itoa val)
               else mret (syslog_default val <$> inputs)
           end
  end.

Definition env_detectors (s : DetectorsConfig) : string + DetectorsConfig :=
  Probe ← env_probe (ds_Probe s);
  Bruteforce ← env_bruteforce (ds_Bruteforce s);
  Crawler ← env_crawler (ds_Crawler s);
  NoAsset ← env_noasset (ds_NoAsset s);
  Rate ← env_rate (ds_Rate s);
  UserAgent ← env_useragent (ds_UserAgent s);
  Overflow ← env_overflow (ds_Overflow s);
  BadBot ← env_badbot (ds_BadBot s);
  mret (mkDetectorsConfig Probe Bruteforce Crawler NoAsset Rate UserAgent Overflow BadBot).

Definition applyEnvOverrides (cfg : Config) : string + Config :=
  General ← env_general (c_General cfg);
  Logging ← env_logging (c_Logging cfg);
  Parser ← env_parser (c_Parser cfg);
  Scoring ← env_scoring (c_Scoring cfg);
  State ← env_state (c_State cfg);
  Inputs ← env_syslog (c_Inputs cfg);
  Detectors ← env_detectors (c_Detectors cfg);
  ChainGuard ← env_chain_guard (c_ChainGuard cfg);
  Blocklist ← env_blocklist (c_Blocklist cfg);
  Whitelist ← env_whitelist (c_Whitelist cfg);
  Output ← env_output (c_Output cfg);
  Metrics ← env_metrics (c_Metrics cfg);
  Pipeline ← env_pipeline (c_Pipeline cfg);
  mret (mkConfig General Logging Parser Scoring State Detectors Whitelist Output Metrics Blocklist
          ChainGuard (c_Streams cfg) Inputs (c_Outputs cfg) (c_DeprecatedExecutors cfg)
          (c_Executors cfg) Pipeline (c_Transport cfg)).

(** ** The table of variables

    A variable overrides the field its getter reads, with the parser of its type. *)
Inductive EnvVar (S_ : Type) : Type :=
  | EvStr (key : string) (get : S_ -> string)
  | EvBool (key : string) (get : S_ -> bool)
  | EvInt (key : string) (get : S_ -> Z)
  | EvFloat (key : string) (get : S_ -> float64)
  | EvDur (key : string) (get : S_ -> Duration)
  | EvCSV (key : string) (get : S_ -> list string)
  | EvIPs (key : string) (get : S_ -> list string)
  | EvCIDRs (key : string) (get : S_ -> list string).
#[global] Arguments EvStr {S_}. #[global] Arguments EvBool {S_}. #[global] Arguments EvInt {S_}.
#[global] Arguments EvFloat {S_}. #[global] Arguments EvDur {S_}. #[global] Arguments EvCSV {S_}.
#[global] Arguments EvIPs {S_}. #[global] Arguments EvCIDRs {S_}.

Definition general_vars : list (EnvVar GeneralConfig) :=
  [EvStr "ARXSENTINEL_GENERAL_LOG_FILE" ge_LogFile;
   EvStr "ARXSENTINEL_GENERAL_PID_FILE" ge_PIDFile;
   EvInt "ARXSENTINEL_GENERAL_LINES_BUF_SIZE" ge_LinesBufSize;
   EvDur "ARXSENTINEL_GENERAL_TAIL_RETRY_INTERVAL" ge_TailRetryInterval;
   EvDur "ARXSENTINEL_GENERAL_STATS_INTERVAL" ge_StatsInterval].

Definition logging_vars : list (EnvVar LoggingConfig) :=
  [EvBool "ARXSENTINEL_LOGGING_DEBUG" lg_Debug;
   EvBool "ARXSENTINEL_LOGGING_CONSOLE_COLOR" lg_ConsoleColor].

Definition parser_vars : list (EnvVar ParserConfig) :=
  [EvStr "ARXSENTINEL_PARSER_PROFILE" pa_Profile;
   EvStr "ARXSENTINEL_PARSER_LOG_FORMAT" pa_LogFormat;
   EvStr "ARXSENTINEL_PARSER_REGEX_PATTERN" pa_RegexPattern;
   EvStr "ARXSENTINEL_PARSER_TIMEZONE" pa_Timezone;
   EvStr "ARXSENTINEL_PARSER_JSON_REMOTE_ADDR" (fun x => jf_RemoteAddr (pa_JSONFields x));
   EvStr "ARXSENTINEL_PARSER_JSON_TIME" (fun x => jf_Time (pa_JSONFields x));
   EvStr "ARXSENTINEL_PARSER_JSON_REQUEST" (fun x => jf_Request (pa_JSONFields x));
   EvStr "ARXSENTINEL_PARSER_JSON_STATUS" (fun x => jf_Status (pa_JSONFields x));
   EvStr "ARXSENTINEL_PARSER_JSON_BYTES_SENT" (fun x => jf_BytesSent (pa_JSONFields x));
   EvStr "ARXSENTINEL_PARSER_JSON_REFERER" (fun x => jf_Referer (pa_JSONFields x));
   EvStr "ARXSENTINEL_PARSER_JSON_USER_AGENT" (fun x => jf_UserAgent (pa_JSONFields x));
   EvStr "ARXSENTINEL_PARSER_JSON_REAL_IP" (fun x => jf_RealIP (pa_JSONFields x))].

Definition scoring_vars : list (EnvVar ScoringConfig) :=
  [EvInt "ARXSENTINEL_SCORING_ALERT_THRESHOLD" sg_AlertThreshold;
   EvInt "ARXSENTINEL_SCORING_BAN_THRESHOLD" sg_BanThreshold;
   EvDur "ARXSENTINEL_SCORING_OBSERVATION_WINDOW" sg_ObservationWindow;
   EvStr "ARXSENTINEL_SCORING_DECAY" sg_Decay].

Definition state_vars : list (EnvVar StateConfig) :=
  [EvDur "ARXSENTINEL_STATE_GC_INTERVAL" se_GCInterval;
   EvInt "ARXSENTINEL_STATE_MAX_TRACKED_IPS" se_MaxTrackedIPs].

Definition probe_vars : list (EnvVar ProbeConfig) :=
  [EvBool "ARXSENTINEL_DETECTORS_PROBE_ENABLED" pb_Enabled;
   EvInt "ARXSENTINEL_DETECTORS_PROBE_SCORE" pb_Score].

Definition bruteforce_vars : list (EnvVar BruteforceConfig) :=
  [EvBool "ARXSENTINEL_DETECTORS_BRUTEFORCE_ENABLED" bf_Enabled;
   EvInt "ARXSENTINEL_DETECTORS_BRUTEFORCE_MIN_REQUESTS" bf_MinRequests;
   EvFloat "ARXSENTINEL_DETECTORS_BRUTEFORCE_RATIO_THRESHOLD" bf_RatioThreshold;
   EvInt "ARXSENTINEL_DETECTORS_BRUTEFORCE_SCORE" bf_Score].

Definition crawler_vars : list (EnvVar CrawlerConfig) :=
  [EvBool "ARXSENTINEL_DETECTORS_CRAWLER_ENABLED" cr_Enabled;
   EvInt "ARXSENTINEL_DETECTORS_CRAWLER_MIN_SEQUENTIAL" cr_MinSequential;
   EvInt "ARXSENTINEL_DETECTORS_CRAWLER_SCORE" cr_Score].

Definition noasset_vars : list (EnvVar NoAssetConfig) :=
  [EvBool "ARXSENTINEL_DETECTORS_NOASSET_ENABLED" na_Enabled;
   EvInt "ARXSENTINEL_DETECTORS_NOASSET_MIN_PAGE_REQUESTS" na_MinPageRequests;
   EvFloat "ARXSENTINEL_DETECTORS_NOASSET_ASSET_RATIO_THRESHOLD" na_AssetRatioThreshold;
   EvInt "ARXSENTINEL_DETECTORS_NOASSET_SCORE" na_Score].

Definition rate_vars : list (EnvVar RateConfig) :=
  [EvBool "ARXSENTINEL_DETECTORS_RATE_ENABLED" rt_Enabled;
   EvDur "ARXSENTINEL_DETECTORS_RATE_WINDOW" rt_Window;
   EvInt "ARXSENTINEL_DETECTORS_RATE_THRESHOLD" rt_Threshold;
   EvInt "ARXSENTINEL_DETECTORS_RATE_SCORE" rt_Score].

Definition useragent_vars : list (EnvVar UserAgentConfig) :=
  [EvBool "ARXSENTINEL_DETECTORS_USERAGENT_ENABLED" ua_Enabled;
   EvInt "ARXSENTINEL_DETECTORS_USERAGENT_SCANNER_SCORE" ua_ScannerScore;
   EvInt "ARXSENTINEL_DETECTORS_USERAGENT_GRABBER_SCORE" ua_GrabberScore;
   EvInt "ARXSENTINEL_DETECTORS_USERAGENT_AUTOMATION_SCORE" ua_AutomationScore;
   EvInt "ARXSENTINEL_DETECTORS_USERAGENT_EMPTY_UA_SCORE" ua_EmptyUAScore].

Definition overflow_vars : list (EnvVar OverflowConfig) :=
  [EvBool "ARXSENTINEL_DETECTORS_OVERFLOW_ENABLED" ov_Enabled;
   EvInt "ARXSENTINEL_DETECTORS_OVERFLOW_MAX_URL_LENGTH" ov_MaxURLLength;
   EvInt "ARXSENTINEL_DETECTORS_OVERFLOW_SCORE" ov_Score].

Definition badbot_vars : list (EnvVar BadBotConfig) :=
  [EvBool "ARXSENTINEL_DETECTORS_BADBOT_ENABLED" bb_Enabled;
   EvInt "ARXSENTINEL_DETECTORS_BADBOT_SCORE" bb_Score;
   EvBool "ARXSENTINEL_DETECTORS_BADBOT_CHECK_UA" bb_CheckUA;
   EvBool "ARXSENTINEL_DETECTORS_BADBOT_CHECK_REFERRER" bb_CheckReferrer].

Definition chain_guard_vars : list (EnvVar ChainGuardConfig) :=
  [EvBool "ARXSENTINEL_CHAIN_GUARD_ENABLED" cg_Enabled;
   EvStr "ARXSENTINEL_CHAIN_GUARD_WARNINGS_LOG" cg_WarningsLog;
   EvBool "ARXSENTINEL_CHAIN_GUARD_CLOUDFLARE_ENABLED" (fun x => cgc_Enabled (cg_Cloudflare x));
   EvDur "ARXSENTINEL_CHAIN_GUARD_CLOUDFLARE_REFRESH_INTERVAL" (fun x => cgc_RefreshInterval
     (cg_Cloudflare x));
   EvBool "ARXSENTINEL_CHAIN_GUARD_BOGON_ENABLED" (fun x => bg_Enabled (cg_Bogon x))].

Definition blocklist_vars : list (EnvVar BlocklistConfig) :=
  [EvStr "ARXSENTINEL_BLOCKLIST_STORAGE" bc_Storage].

Definition whitelist_vars : list (EnvVar WhitelistConfig) :=
  [EvInt "ARXSENTINEL_WHITELIST_FAKE_BOT_SCORE" wl_FakeBotScore;
   EvDur "ARXSENTINEL_WHITELIST_DNS_VERIFY_TIMEOUT" wl_DNSVerifyTimeout;
   EvDur "ARXSENTINEL_WHITELIST_DNS_CACHE_POSITIVE_TTL" (fun x => dn_PositiveTTL (wl_DNSCache x));
   EvDur "ARXSENTINEL_WHITELIST_DNS_CACHE_NEGATIVE_TTL" (fun x => dn_NegativeTTL (wl_DNSCache x));
   EvDur "ARXSENTINEL_WHITELIST_DNS_CACHE_IP_LIST_REFRESH" (fun x => dn_IPListRefresh (wl_DNSCache
     x));
   EvIPs "ARXSENTINEL_WHITELIST_CUSTOM_IPS" (fun x => cw_IPs (wl_Custom x));
   EvCIDRs "ARXSENTINEL_WHITELIST_CUSTOM_CIDRS" (fun x => cw_CIDRs (wl_Custom x));
   EvCSV "ARXSENTINEL_WHITELIST_CUSTOM_PATHS" (fun x => cw_Paths (wl_Custom x))].

Definition output_vars : list (EnvVar OutputConfig) :=
  [EvStr "ARXSENTINEL_OUTPUT_THREAT_LOG" ou_ThreatLog;
   EvStr "ARXSENTINEL_OUTPUT_OPERATIONAL_LOG" ou_OperationalLog].

Definition metrics_vars : list (EnvVar MetricsConfig) :=
  [EvBool "ARXSENTINEL_METRICS_ENABLED" me_Enabled;
   EvStr "ARXSENTINEL_METRICS_LISTEN_ADDR" me_ListenAddr;
   EvStr "ARXSENTINEL_METRICS_USERNAME" me_Username;
   EvStr "ARXSENTINEL_METRICS_PASSWORD_HASH" me_PasswordHash].

Definition pipeline_vars : list (EnvVar PipelineRuntimeConfig) :=
  [EvInt "ARXSENTINEL_PIPELINE_BUFFER_SIZE" pr_BufferSize;
   EvDur "ARXSENTINEL_PIPELINE_SHUTDOWN_TIMEOUT" pr_ShutdownTimeout].

(** A variable of a section as a variable of the record that holds it. *)
Definition ev_at {C S_} (f : C -> S_) (v : EnvVar S_) : EnvVar C :=
  match v with
  | EvStr k g => EvStr k (fun c => g (f c))
  | EvBool k g => EvBool k (fun c => g (f c))
  | EvInt k g => EvInt k (fun c => g (f c))
  | EvFloat k g => EvFloat k (fun c => g (f c))
  | EvDur k g => EvDur k (fun c => g (f c))
  | EvCSV k g => EvCSV k (fun c => g (f c))
  | EvIPs k g => EvIPs k (fun c => g (f c))
  | EvCIDRs k g => EvCIDRs k (fun c => g (f c))
  end.

Definition detectors_vars : list (EnvVar DetectorsConfig) :=
  (ev_at ds_Probe <$> probe_vars) ++ (ev_at ds_Bruteforce <$> bruteforce_vars) ++
  (ev_at ds_Crawler <$> crawler_vars) ++ (ev_at ds_NoAsset <$> noasset_vars) ++
  (ev_at ds_Rate <$> rate_vars) ++ (ev_at ds_UserAgent <$> useragent_vars) ++
  (ev_at ds_Overflow <$> overflow_vars) ++ (ev_at ds_BadBot <$> badbot_vars).

Definition env_table : list (EnvVar Config) :=
  (ev_at c_General <$> general_vars) ++ (ev_at c_Logging <$> logging_vars) ++
  (ev_at c_Parser <$> parser_vars) ++ (ev_at c_Scoring <$> scoring_vars) ++
  (ev_at c_State <$> state_vars) ++ (ev_at c_Detectors <$> detectors_vars) ++
  (ev_at c_ChainGuard <$> chain_guard_vars) ++ (ev_at c_Blocklist <$> blocklist_vars) ++
  (ev_at c_Whitelist <$> whitelist_vars) ++ (ev_at c_Output <$> output_vars) ++
  (ev_at c_Metrics <$> metrics_vars) ++ (ev_at c_Pipeline <$> pipeline_vars).

(** The value a variable gives to its field: [None] when it is set to
    something that does not parse. *)
Definition env_value {A} (parse : string -> option A) (key : string) (old : A) : option A :=
  match env key with
  | None => Some old
  | Some v => if String.eqb v "" then Some old else parse v
  end.

Definition valid_list (valid : string -> bool) (v : string) : option (list string) :=
  if forallb valid (csv_parts v) then Some (csv_parts v) else None.

Definition entry_ok {S_} (s s' : S_) (v : EnvVar S_) : Prop :=
  match v with
  | EvStr k g => env_value Some k (g s) = Some (g s')
  | EvBool k g => env_value ParseBool k (g s) = Some (g s')
  | EvInt k g => env_value Atoi k (g s) = Some (g s')
  | EvFloat k g => env_value ParseFloat k (g s) = Some (g s')
  | EvDur k g => env_value ParseDuration k (g s) = Some (g s')
  | EvCSV k g => env_value (fun v => Some (csv_parts v)) k (g s) = Some (g s')
  | EvIPs k g => env_value (valid_list valid_ip) k (g s) = Some (g s')
  | EvCIDRs k g => env_value (valid_list valid_cidr) k (g s) = Some (g s')
  end.

(** ** The helpers do what the table says *)

Lemma env_value_str k d x : env_value Some k d = Some x <-> x = envStr k d.
Proof. unfold env_value, envStr. destruct (env k); [destruct (String.eqb _ _)|]; split; congruence. Qed.

Lemma env_value_csv k d x :
  env_value (fun v => Some (csv_parts v)) k d = Some x <-> x = envCSV k d.
Proof. unfold env_value, envCSV. destruct (env k); [destruct (String.eqb _ _)|]; split; congruence. Qed.

Lemma env_scalar_ok {A} parse ex k (d x : A) :
  env_scalar parse ex k d = inr x <-> env_value parse k d = Some x.
Proof.
  unfold env_scalar, env_value, mret, res_ret. destruct (env k) as [v|]; [|split; congruence].
  destruct (String.eqb v ""); [split; congruence|]. destruct (parse v); split; congruence.
Qed.

Lemma checked_parts_ok valid err parts :
  let l := filter (fun p => p <> "") (TrimSpace <$> parts) in
  forall x, checked_parts valid err parts = inr x <-> (if forallb valid l then Some l else None) = Some x.
Proof.
  cbv zeta. induction parts as [|p ps IH]; intros x; [split; by intros [= <-]|].
  cbn [checked_parts fmap list_fmap]. rewrite filter_cons.
  destruct (String.eqb_spec (TrimSpace p) "") as [E|E]; rewrite ?decide_False, ?decide_True by naive_solver.
  { apply IH. }
  cbn [forallb]. destruct (valid (TrimSpace p)); cbn [negb andb]; [|done].
  rewrite bind_ok. split.
  - intros (y & Hy & Hx). apply IH in Hy. injection Hx as <-.
    destruct (forallb valid _); congruence.
  - intros Hx. destruct (forallb valid _) eqn:F; [|done]. injection Hx as <-.
    eexists. split; [|reflexivity]. by apply IH.
Qed.

Lemma env_list_ok valid what k d x :
  env_list valid what k d = inr x <-> env_value (valid_list valid) k d = Some x.
Proof.
  unfold env_list, env_value, valid_list, mret, res_ret. destruct (env k) as [v|]; [|split; congruence].
  destruct (String.eqb v ""); [split; congruence|]. apply checked_parts_ok.
Qed.

Lemma entry_ok_at {C S_} (f : C -> S_) c c' l :
  Forall (entry_ok c c') (ev_at f <$> l) <-> Forall (entry_ok (f c) (f c')) l.
Proof.
  rewrite Forall_fmap. apply Forall_iff. intros []; done.
Qed.

(** A section function against its table: split the sequence of overrides one
    way, rebuild it from the fields of the result the other way. *)
Ltac env_entry :=
  cbn [entry_ok]; first [by apply env_value_str | by apply env_value_csv
             | eapply env_scalar_ok; eassumption | eapply env_list_ok; eassumption].

Ltac env_section fn vars :=
  unfold fn, vars; split;
  [ let E := fresh "E" in
    intros E; repeat (apply bind_ok in E as (? & ? & E)); injection E as <-;
    repeat split; try done; repeat constructor; env_entry
  | let A := fresh "A" in
    intros A; destruct_and?;
    repeat match goal with Hf : Forall _ (_ :: _) |- _ => apply Forall_cons in Hf as [? Hf] end;
    cbn [entry_ok] in *;
    repeat match goal with
    | Hv : env_value Some _ _ = Some _ |- _ => apply env_value_str in Hv
    | Hv : env_value _ _ _ = Some _ |- _ => apply env_value_csv in Hv
    end;
    repeat (apply bind_ok; eexists; split;
            [first [eapply env_scalar_ok; eassumption | eapply env_list_ok; eassumption]|]);
    unfold mret, res_ret; f_equal;
    match goal with |- _ = ?r => destruct r end;
    repeat match goal with
    | r : JSONFieldsConfig |- _ => destruct r
    | r : CloudflareGuardConfig |- _ => destruct r
    | r : BogonGuardConfig |- _ => destruct r
    | r : DNSCacheConfig |- _ => destruct r
    | r : CustomWhitelist |- _ => destruct r
    end; cbn in *; subst; reflexivity ].

Lemma env_general_ok s s' : env_general s = inr s' <->
  Forall (entry_ok s s') general_vars.
Proof. env_section env_general general_vars. Qed.

Lemma env_logging_ok s s' : env_logging s = inr s' <->
  Forall (entry_ok s s') logging_vars.
Proof. env_section env_logging logging_vars. Qed.

Lemma env_parser_ok s s' : env_parser s = inr s' <->
  Forall (entry_ok s s') parser_vars.
Proof. env_section env_parser parser_vars. Qed.

Lemma env_scoring_ok s s' : env_scoring s = inr s' <->
  Forall (entry_ok s s') scoring_vars.
Proof. env_section env_scoring scoring_vars. Qed.

Lemma env_state_ok s s' : env_state s = inr s' <->
  Forall (entry_ok s s') state_vars.
Proof. env_section env_state state_vars. Qed.

Lemma env_probe_ok s s' : env_probe s = inr s' <->
  Forall (entry_ok s s') probe_vars /\
  pb_Paths s' = pb_Paths s.
Proof. env_section env_probe probe_vars. Qed.

Lemma env_bruteforce_ok s s' : env_bruteforce s = inr s' <->
  Forall (entry_ok s s') bruteforce_vars.
Proof. env_section env_bruteforce bruteforce_vars. Qed.

Lemma env_crawler_ok s s' : env_crawler s = inr s' <->
  Forall (entry_ok s s') crawler_vars.
Proof. env_section env_crawler crawler_vars. Qed.

Lemma env_noasset_ok s s' : env_noasset s = inr s' <->
  Forall (entry_ok s s') noasset_vars /\
  na_AssetExtensions s' = na_AssetExtensions s.
Proof. env_section env_noasset noasset_vars. Qed.

Lemma env_rate_ok s s' : env_rate s = inr s' <->
  Forall (entry_ok s s') rate_vars.
Proof. env_section env_rate rate_vars. Qed.

Lemma env_useragent_ok s s' : env_useragent s = inr s' <->
  Forall (entry_ok s s') useragent_vars /\
  ua_ExtraScannerPatterns s' = ua_ExtraScannerPatterns s /\
  ua_ExtraGrabberPatterns s' = ua_ExtraGrabberPatterns s /\
  ua_ExtraAutomationPatterns s' = ua_ExtraAutomationPatterns s.
Proof. env_section env_useragent useragent_vars. Qed.

Lemma env_overflow_ok s s' : env_overflow s = inr s' <->
  Forall (entry_ok s s') overflow_vars /\
  ov_SuspiciousParams s' = ov_SuspiciousParams s.
Proof. env_section env_overflow overflow_vars. Qed.

Lemma env_badbot_ok s s' : env_badbot s = inr s' <->
  Forall (entry_ok s s') badbot_vars.
Proof. env_section env_badbot badbot_vars. Qed.

Lemma env_chain_guard_ok s s' : env_chain_guard s = inr s' <->
  Forall (entry_ok s s') chain_guard_vars /\
  cgc_Sources (cg_Cloudflare s') = cgc_Sources (cg_Cloudflare s).
Proof. env_section env_chain_guard chain_guard_vars. Qed.

Lemma env_blocklist_ok s s' : env_blocklist s = inr s' <->
  Forall (entry_ok s s') blocklist_vars /\
  bc_Lists s' = bc_Lists s.
Proof. env_section env_blocklist blocklist_vars. Qed.

Lemma env_whitelist_ok s s' : env_whitelist s = inr s' <->
  Forall (entry_ok s s') whitelist_vars /\
  wl_Bots s' = wl_Bots s /\
  cw_UASubstrings (wl_Custom s') = cw_UASubstrings (wl_Custom s).
Proof. env_section env_whitelist whitelist_vars. Qed.

Lemma env_output_ok s s' : env_output s = inr s' <->
  Forall (entry_ok s s') output_vars.
Proof. env_section env_output output_vars. Qed.

Lemma env_metrics_ok s s' : env_metrics s = inr s' <->
  Forall (entry_ok s s') metrics_vars.
Proof. env_section env_metrics metrics_vars. Qed.

Lemma env_pipeline_ok s s' : env_pipeline s = inr s' <->
  Forall (entry_ok s s') pipeline_vars.
Proof. env_section env_pipeline pipeline_vars. Qed.

(** ** The whole function *)

Definition detectors_frame (s s' : DetectorsConfig) : Prop :=
  pb_Paths (ds_Probe s') = pb_Paths (ds_Probe s) /\
  na_AssetExtensions (ds_NoAsset s') = na_AssetExtensions (ds_NoAsset s) /\
  (ua_ExtraScannerPatterns (ds_UserAgent s') = ua_ExtraScannerPatterns (ds_UserAgent s) /\
   ua_ExtraGrabberPatterns (ds_UserAgent s') = ua_ExtraGrabberPatterns (ds_UserAgent s) /\
   ua_ExtraAutomationPatterns (ds_UserAgent s') = ua_ExtraAutomationPatterns (ds_UserAgent s)) /\
  ov_SuspiciousParams (ds_Overflow s') = ov_SuspiciousParams (ds_Overflow s).

Lemma env_detectors_ok s s' : env_detectors s = inr s' <->
  Forall (entry_ok s s') detectors_vars /\ detectors_frame s s'.
Proof.
  unfold detectors_vars, detectors_frame. rewrite !Forall_app, !entry_ok_at. unfold env_detectors. split.
  - intros E. repeat (apply bind_ok in E as (? & ? & E)). injection E as <-. cbn.
    repeat match goal with
    | Hs : env_probe _ = _ |- _ => apply env_probe_ok in Hs
    | Hs : env_bruteforce _ = _ |- _ => apply env_bruteforce_ok in Hs
    | Hs : env_crawler _ = _ |- _ => apply env_crawler_ok in Hs
    | Hs : env_noasset _ = _ |- _ => apply env_noasset_ok in Hs
    | Hs : env_rate _ = _ |- _ => apply env_rate_ok in Hs
    | Hs : env_useragent _ = _ |- _ => apply env_useragent_ok in Hs
    | Hs : env_overflow _ = _ |- _ => apply env_overflow_ok in Hs
    | Hs : env_badbot _ = _ |- _ => apply env_badbot_ok in Hs
    end; tauto.
  - intros A. destruct s' as [pb bf cr na rt ua ov bb]; cbn in A. destruct_and?.
    apply bind_ok; exists pb; split; [by apply env_probe_ok|].
    apply bind_ok; exists bf; split; [by apply env_bruteforce_ok|].
    apply bind_ok; exists cr; split; [by apply env_crawler_ok|].
    apply bind_ok; exists na; split; [by apply env_noasset_ok|].
    apply bind_ok; exists rt; split; [by apply env_rate_ok|].
    apply bind_ok; exists ua; split; [by apply env_useragent_ok|].
    apply bind_ok; exists ov; split; [by apply env_overflow_ok|].
    apply bind_ok; exists bb; split; [by apply env_badbot_ok|]. done.
Qed.

(** What no variable reaches. *)
Definition env_frame (c c' : Config) : Prop :=
  detectors_frame (c_Detectors c) (c_Detectors c') /\
  cgc_Sources (cg_Cloudflare (c_ChainGuard c')) = cgc_Sources (cg_Cloudflare (c_ChainGuard c)) /\
  bc_Lists (c_Blocklist c') = bc_Lists (c_Blocklist c) /\
  (wl_Bots (c_Whitelist c') = wl_Bots (c_Whitelist c) /\
   cw_UASubstrings (wl_Custom (c_Whitelist c')) = cw_UASubstrings (wl_Custom (c_Whitelist c))) /\
  c_Streams c' = c_Streams c /\ c_Outputs c' = c_Outputs c /\
  c_DeprecatedExecutors c' = c_DeprecatedExecutors c /\ c_Executors c' = c_Executors c /\
  c_Transport c' = c_Transport c.

(** The syslog default reaches the top-level inputs only. *)
Definition syslog_ok (ins ins' : list InputConfig) : Prop :=
  match env syslog_key with
  | None | Some "" => ins' = ins
  | Some v => exists val, Atoi v = Some val /\ (0 < val)%Z /\ ins' = syslog_default val <$> ins
  end.

Lemma env_syslog_ok ins ins' : env_syslog ins = inr ins' <-> syslog_ok ins ins'.
Proof.
  unfold env_syslog, syslog_ok, mret, res_ret. destruct (env syslog_key) as [v|]; [|split; congruence].
  destruct v as [|ch v]; [split; [by intros [= <-]|by intros ->]|]. cbn [String.eqb].
  destruct (Atoi _) as [val|]; [|split; [done|by intros (? & ? & _)]].
  destruct (Z.leb_spec val 0).
  - split; [done|]. intros (x & [= <-] & ? & _). lia.
  - split; [intros [= <-]; by exists val|]. by intros (x & [= <-] & _ & ->).
Qed.

Lemma env_frame_of cfg cfg' : applyEnvOverrides cfg = inr cfg' -> env_frame cfg cfg'.
Proof.
  unfold applyEnvOverrides, env_frame. intros E. repeat (apply bind_ok in E as (? & ? & E)).
  injection E as <-. cbn.
  repeat match goal with
  | Hs : env_detectors _ = _ |- _ => apply env_detectors_ok in Hs
  | Hs : env_chain_guard _ = _ |- _ => apply env_chain_guard_ok in Hs
  | Hs : env_blocklist _ = _ |- _ => apply env_blocklist_ok in Hs
  | Hs : env_whitelist _ = _ |- _ => apply env_whitelist_ok in Hs
  end. tauto.
Qed.

(** C10: The environment overrides are exactly the table: [applyEnvOverrides] returns a configuration if and only if every variable that is set to something parses for its type (and the syslog limit is positive); then each field of the table has the parsed value of its variable, or its old value when the variable is unset or empty, the syslog default is given to the top-level syslog inputs without a limit, and everything else (paths, patterns, bots, streams, outputs, executors, transport) is unchanged. *)
Theorem env_overrides_exact cfg cfg' : applyEnvOverrides cfg = inr cfg' <->
  Forall (entry_ok cfg cfg') env_table /\ syslog_ok (c_Inputs cfg) (c_Inputs cfg') /\ env_frame cfg cfg'.
Proof.
  unfold env_table, env_frame. rewrite !Forall_app, !entry_ok_at. unfold applyEnvOverrides. split.
  - intros E. repeat (apply bind_ok in E as (? & ? & E)). injection E as <-. cbn.
    repeat match goal with
    | Hs : env_general _ = _ |- _ => apply env_general_ok in Hs
    | Hs : env_logging _ = _ |- _ => apply env_logging_ok in Hs
    | Hs : env_parser _ = _ |- _ => apply env_parser_ok in Hs
    | Hs : env_scoring _ = _ |- _ => apply env_scoring_ok in Hs
    | Hs : env_state _ = _ |- _ => apply env_state_ok in Hs
    | Hs : env_syslog _ = _ |- _ => apply env_syslog_ok in Hs
    | Hs : env_detectors _ = _ |- _ => apply env_detectors_ok in Hs
    | Hs : env_chain_guard _ = _ |- _ => apply env_chain_guard_ok in Hs
    | Hs : env_blocklist _ = _ |- _ => apply env_blocklist_ok in Hs
    | Hs : env_whitelist _ = _ |- _ => apply env_whitelist_ok in Hs
    | Hs : env_output _ = _ |- _ => apply env_output_ok in Hs
    | Hs : env_metrics _ = _ |- _ => apply env_metrics_ok in Hs
    | Hs : env_pipeline _ = _ |- _ => apply env_pipeline_ok in Hs
    end. tauto.
  - intros A. destruct cfg' as [ge lg pa sg se ds wl ou me bl cg sts ins outs dex ex pr tr]; cbn in A.
    destruct A as ((A1 & A2 & A3 & A4 & A5 & A6 & A7 & A8 & A9 & A10 & A11 & A12) & As &
                   (F1 & F2 & F3 & F4 & -> & -> & -> & -> & ->)).
    apply bind_ok; exists ge; split; [by apply env_general_ok|].
    apply bind_ok; exists lg; split; [by apply env_logging_ok|].
    apply bind_ok; exists pa; split; [by apply env_parser_ok|].
    apply bind_ok; exists sg; split; [by apply env_scoring_ok|].
    apply bind_ok; exists se; split; [by apply env_state_ok|].
    apply bind_ok; exists ins; split; [by apply env_syslog_ok|].
    apply bind_ok; exists ds; split; [by apply env_detectors_ok|].
    apply bind_ok; exists cg; split; [by apply env_chain_guard_ok|].
    apply bind_ok; exists bl; split; [by apply env_blocklist_ok|].
    apply bind_ok; exists wl; split; [by apply env_whitelist_ok|].
    apply bind_ok; exists ou; split; [by apply env_output_ok|].
    apply bind_ok; exists me; split; [by apply env_metrics_ok|].
    apply bind_ok; exists pr; split; [by apply env_pipeline_ok|]. done.
Qed.
End env.
