(* ===== verification/ConfigLoad.v ===== *)
(** * Loading a configuration

    [LoadConfig] of the configuration package: defaults, the YAML overlay (the
    decoder is a parameter), environment overrides, the synthesis of a stream from
    the legacy fields, [Migrate], and [validateConfig] with its helpers.  Errors are
    the messages of the code. *)

From Stdlib Require Import ZArith Lia Ascii String Floats.SpecFloat.
From stdpp Require Import base numbers option list strings gmap.
From S2P Require Import Prelude GoFloat GoStrings GoNet GoValues GoFmt Whitelist ChainCheck Blocklist ConfigTypes ConfigEnv.

Definition is_nil {A} (l : list A) : bool := match l with [] => true | _ => false end.
Abbreviation empty s := (String.eqb s "") (only parsing).

(** [fmt.Sprintf] of an index: [prefix\[i\]]. *)
Definition indexed (prefix : string) (i : nat) : string := prefix +:+ "[" +:+ Itoa (Z.of_nat i) +:+ "]".

(** ** migrate.go *)

Section migrate.
Context `{UnicodePrint}.

Definition default_log_file : string := "/var/log/nginx/access.log".
Definition default_threat_log : string := "/var/log/arxsentinel/threats.log".

(** The legacy input and output of the root or of a stream; the warning names
    the deprecated field. *)
Definition migrate_inputs (field logFormat logFile : string) (ins : list InputConfig)
  : list InputConfig * list string :=
  if (is_nil ins && negb (empty logFile))%bool
  then ([input_literal "file" logFile logFormat],
        [field +:+ "log_file is deprecated; use inputs: [{type: file, path: " +:+ Quote logFile +:+ "}]"])
  else (ins, []).

Definition migrate_outputs (field threatLog : string) (outs : list SinkConfig)
  : list SinkConfig * list string :=
  if (is_nil outs && negb (empty threatLog))%bool
  then ([sink_literal "file" threatLog "fail2ban"],
        [field +:+ "threat_log is deprecated; use outputs: [{type: file, path: " +:+ Quote threatLog
           +:+ ", format: fail2ban}]"])
  else (outs, []).

(** Defaults when no I/O section is present at all. *)
Definition default_inputs (ins : list InputConfig) : list InputConfig :=
  if is_nil ins then [input_literal "file" default_log_file "combined"] else ins.
Definition default_outputs (outs : list SinkConfig) : list SinkConfig :=
  if is_nil outs then [sink_literal "file" default_threat_log "fail2ban"] else outs.

Definition streamID (i : nat) (s : StreamConfig) : string :=
  if empty (st_Name s) then indexed "streams" i else "stream " +:+ Quote (st_Name s).

Definition migrate_stream (logFormat : string) (i : nat) (s : StreamConfig) : StreamConfig * list string :=
  let id := streamID i s +:+ "." in
  let '(ins, w1) := migrate_inputs id logFormat (st_LogFile s) (st_Inputs s) in
  let '(outs, w2) := migrate_outputs id (st_ThreatLog s) (st_Outputs s) in
  (set_stream_io ins outs s, w1 ++ w2).

Fixpoint migrate_streams (logFormat : string) (i : nat) (ss : list StreamConfig)
  : list StreamConfig * list string :=
  match ss with
  | [] => ([], [])
  | s :: ss' =>
      let '(s1, w1) := migrate_stream logFormat i s in
      let '(ss1, w2) := migrate_streams logFormat (S i) ss' in
      (s1 :: ss1, w1 ++ w2)
  end.

(** Zero values of the pipeline tuning take a default. *)
Definition runtime_or (r dflt : PipelineRuntimeConfig) : PipelineRuntimeConfig :=
  mkPipelineRuntimeConfig
    (if (pr_BufferSize r =? 0)%Z then pr_BufferSize dflt else pr_BufferSize r)
    (if (pr_ShutdownTimeout r =? 0)%Z then pr_ShutdownTimeout dflt else pr_ShutdownTimeout r).

Definition default_runtime : PipelineRuntimeConfig := mkPipelineRuntimeConfig 8192 (15 * second).

(** Auto-wrap the inputs and outputs of a stream without pipelines. *)
Definition auto_wrap (top : PipelineRuntimeConfig) (s : StreamConfig) : StreamConfig :=
  if negb (is_nil (st_Pipelines s)) then s
  else if (is_nil (st_Inputs s) && is_nil (st_Outputs s) && bool_decide (st_Executors s = None))%bool then s
  else set_Pipelines [pipeline_literal "" (st_Inputs s) (st_Outputs s) (runtime_or (st_Pipeline s) top)] s.

(** Stream-level processors go to the pipelines that set none. *)
Definition inherit_processors (procs : list ProcessorConfig) (p : PipelineConfig) : PipelineConfig :=
  match pl_Processors p with None => set_Processors (Some procs) p | Some _ => p end.

Definition propagate_processors (s : StreamConfig) : StreamConfig :=
  if is_nil (st_Processors s) then s
  else set_Pipelines (inherit_processors (st_Processors s) <$> st_Pipelines s) s.

Definition Migrate (cfg : Config) : Config * list string :=
  let logFormat := pa_LogFormat (c_Parser cfg) in
  let '(ins, w1) := migrate_inputs "general." logFormat (ge_LogFile (c_General cfg)) (c_Inputs cfg) in
  let '(outs, w2) := migrate_outputs "output." (ou_ThreatLog (c_Output cfg)) (c_Outputs cfg) in
  let '(ss, w3) := migrate_streams logFormat 0 (c_Streams cfg) in
  let top := runtime_or (c_Pipeline cfg) default_runtime in
  (set_Streams ((fun s => propagate_processors (auto_wrap top s)) <$> ss)
     (set_Pipeline top (set_Outputs (default_outputs outs) (set_Inputs (default_inputs ins) cfg))),
   w1 ++ w2 ++ w3).
End migrate.

(** ** Validation *)

Section validate.
Context `{UnicodePrint} `{QueueMode}.

Definition isIPLike (s : string) : bool := bool_decide (is_Some (ParseIP s)).

Definition positive_or (msg : string) (v : Z) : string + unit :=
  fail_if (v <=? 0)%Z (msg +:+ " must be > 0, got " +:+ Itoa v).

Definition validate_sink_names (outs : list SinkConfig) : string + unit :=
  check_range (fun _ sink => fail_if (negb (empty (sk_Name sink)) && isIPLike (sk_Name sink))%bool
    ("outputs: sink name " +:+ Quote (sk_Name sink) +:+
     " looks like an IP address — use a descriptive name")) 0 outs.

Definition validate_executor_names (exs : list ExecutorTopConfig) : string + unit :=
  check_fold (fun _ ex seen =>
    fail_if (bool_decide (ex_Name ex ∈ seen)) ("executors: duplicate executor name " +:+ Quote (ex_Name ex)) ;;
    mret (ex_Name ex :: seen)) 0 exs [] ;;
  mret tt.

Definition validate_scoring (s : ScoringConfig) (st : StateConfig) : string + unit :=
  positive_or "scoring.alert_threshold" (sg_AlertThreshold s) ;;
  positive_or "scoring.ban_threshold" (sg_BanThreshold s) ;;
  fail_if (sg_BanThreshold s <=? sg_AlertThreshold s)%Z
    ("scoring.ban_threshold (" +:+ Itoa (sg_BanThreshold s) +:+ ") must be > alert_threshold (" +:+
     Itoa (sg_AlertThreshold s) +:+ ")") ;;
  fail_if (sg_ObservationWindow s <=? 0)%Z "scoring.observation_window must be > 0" ;;
  positive_or "state.max_tracked_ips" (se_MaxTrackedIPs st).

(** [if enabled { checks }]. *)
Definition when (enabled : bool) (checks : string + unit) : string + unit :=
  if enabled then checks else mret tt.

Definition validate_detectors (d : DetectorsConfig) : string + unit :=
  when (pb_Enabled (ds_Probe d)) (positive_or "detectors.probe.score" (pb_Score (ds_Probe d))) ;;
  when (bf_Enabled (ds_Bruteforce d))
    (positive_or "detectors.bruteforce.min_requests" (bf_MinRequests (ds_Bruteforce d)) ;;
     positive_or "detectors.bruteforce.score" (bf_Score (ds_Bruteforce d))) ;;
  when (cr_Enabled (ds_Crawler d))
    (positive_or "detectors.crawler.min_sequential" (cr_MinSequential (ds_Crawler d)) ;;
     positive_or "detectors.crawler.score" (cr_Score (ds_Crawler d))) ;;
  when (na_Enabled (ds_NoAsset d))
    (positive_or "detectors.noasset.min_page_requests" (na_MinPageRequests (ds_NoAsset d)) ;;
     positive_or "detectors.noasset.score" (na_Score (ds_NoAsset d))) ;;
  when (rt_Enabled (ds_Rate d))
    (positive_or "detectors.rate.threshold" (rt_Threshold (ds_Rate d)) ;;
     positive_or "detectors.rate.window" (rt_Window (ds_Rate d)) ;;
     positive_or "detectors.rate.score" (rt_Score (ds_Rate d))) ;;
  when (ua_Enabled (ds_UserAgent d))
    (positive_or "detectors.useragent.scanner_score" (ua_ScannerScore (ds_UserAgent d)) ;;
     positive_or "detectors.useragent.grabber_score" (ua_GrabberScore (ds_UserAgent d)) ;;
     positive_or "detectors.useragent.automation_score" (ua_AutomationScore (ds_UserAgent d)) ;;
     positive_or "detectors.useragent.empty_ua_score" (ua_EmptyUAScore (ds_UserAgent d))) ;;
  when (ov_Enabled (ds_Overflow d))
    (positive_or "detectors.overflow.max_url_length" (ov_MaxURLLength (ds_Overflow d)) ;;
     positive_or "detectors.overflow.score" (ov_Score (ds_Overflow d))) ;;
  when (bb_Enabled (ds_BadBot d)) (positive_or "detectors.badbot.score" (bb_Score (ds_BadBot d))).

Definition validate_list (i : nat) (l : ListConfig) : string + unit :=
  let at_ := indexed "blocklist.lists" i in
  let named := at_ +:+ " (" +:+ Quote (lc_Name l) +:+ ")" in
  fail_if (empty (lc_Name l)) (at_ +:+ ".name must not be empty") ;;
  fail_if (lc_RefreshInterval l <=? 0)%Z (named +:+ ": refresh_interval must be > 0") ;;
  fail_if (is_nil (lc_Sources l)) (named +:+ ": must have at least one source") ;;
  check_range (fun j src => fail_if (empty (sc_URL src))
    (named +:+ indexed " sources" j +:+ ": url must not be empty")) 0 (lc_Sources l).

Definition validate_guards (g : ChainGuardConfig) (m : MetricsConfig) : string + unit :=
  fail_if (cg_Enabled g && empty (cg_WarningsLog g))%bool
    "chain_guard.warnings_log must be set when chain_guard is enabled" ;;
  fail_if (cgc_Enabled (cg_Cloudflare g) && is_nil (cgc_Sources (cg_Cloudflare g)))%bool
    "chain_guard.cloudflare.sources must not be empty when cloudflare check is enabled" ;;
  fail_if (negb (empty (me_Username m)) && empty (me_PasswordHash m))%bool
    "metrics.password_hash must be set when metrics.username is configured".

(** *** Inputs *)

Definition input_types : list string := ["file"; "stdin"; "exec"; "syslog"; "http"; "sentinel"].

Definition validate_tls (at_ url : string) (i : InputConfig) : string + unit :=
  when (HasPrefix url "https://")
    (fail_if (empty (in_TLSCert i)) (at_ +:+ ": http https: tls_cert is required") ;;
     fail_if (empty (in_TLSKey i)) (at_ +:+ ": http https: tls_key is required")).

Definition validate_http (at_ : string) (i : InputConfig) : string + unit :=
  (if (empty (in_Mode i) || String.eqb (in_Mode i) "push")%bool then
     fail_if (empty (in_Addr i)) (at_ +:+ ": http push: addr is required") ;;
     fail_if (empty (in_Protocol i)) (at_ +:+ ": http push: protocol is required") ;;
     validate_tls at_ (in_Addr i) i
   else if String.eqb (in_Mode i) "pull" then
     fail_if (empty (in_URL i)) (at_ +:+ ": http pull: url is required") ;;
     fail_if (empty (in_Protocol i)) (at_ +:+ ": http pull: protocol is required") ;;
     fail_if (empty (in_PullInterval i)) (at_ +:+ ": http pull: pull_interval is required") ;;
     validate_tls at_ (in_URL i) i
   else inl (at_ +:+ ": http: unknown mode " +:+ Quote (in_Mode i) +:+ " (want push or pull)")) ;;
  fail_if (String.eqb (in_Protocol i) "ndjson" && empty (in_EnvelopeField i))%bool
    (at_ +:+ ": http ndjson: envelope_field is required").

Definition input_key (i : InputConfig) : string :=
  if String.eqb (in_Type i) "http" then in_Type i +:+ ":" +:+ in_Addr i +:+ ":" +:+ in_URL i
  else in_Type i +:+ ":" +:+ in_Path i.

Definition validate_input (i : nat) (inp : InputConfig) (seen : list string) : string + list string :=
  let at_ := indexed "inputs" i in
  fail_if (negb (bool_decide (in_Type inp ∈ input_types)))
    (at_ +:+ ": unknown type " +:+ Quote (in_Type inp) +:+
     " (want file, stdin, exec, syslog, http, or sentinel)") ;;
  fail_if (String.eqb (in_Type inp) "syslog" && empty (in_Addr inp))%bool
    (at_ +:+ ": type=syslog requires addr (e.g. " +:+ Quote "udp://:5514" +:+ ")") ;;
  when (String.eqb (in_Type inp) "http") (validate_http at_ inp) ;;
  fail_if (bool_decide (input_key inp ∈ seen)) (at_ +:+ ": duplicate source " +:+ Quote (input_key inp)) ;;
  fail_if (String.eqb (in_Type inp) "file" && empty (in_Path inp))%bool
    (at_ +:+ ": type=file requires path") ;;
  mret (input_key inp :: seen).

Definition validateInputs (inputs : list InputConfig) : string + unit :=
  check_fold validate_input 0 inputs [] ;; mret tt.

(** *** Sinks *)

Definition sink_formats : list string := [""; "fail2ban"; "json"; "sentinel-threat"; "raw-line"].

Definition sink_key (s : SinkConfig) : string := sk_Type s +:+ ":" +:+ sk_Path s.

Definition validate_sink (i : nat) (s : SinkConfig) (seen : list string) : string + list string :=
  let at_ := indexed "outputs" i in
  fail_if (bool_decide (sink_key s ∈ seen)) (at_ +:+ ": duplicate sink " +:+ Quote (sink_key s)) ;;
  fail_if (String.eqb (sk_Type s) "file" && empty (sk_Path s))%bool (at_ +:+ ": type=file requires path") ;;
  fail_if (String.eqb (sk_Type s) "loki" && (empty (sk_LokiURL s) || bool_decide (sk_LokiLabels s = ∅)))%bool
    (at_ +:+ ": type=loki requires loki_url and loki_labels") ;;
  fail_if (String.eqb (sk_Type s) "splunk" && (empty (sk_SplunkURL s) || empty (sk_SplunkToken s)))%bool
    (at_ +:+ ": type=splunk requires splunk_url and splunk_token") ;;
  fail_if (String.eqb (sk_Type s) "datadog" && (empty (sk_DatadogURL s) || empty (sk_DatadogAPIKey s)))%bool
    (at_ +:+ ": type=datadog requires datadog_url and datadog_api_key") ;;
  fail_if (negb (bool_decide (sk_Format s ∈ sink_formats)))
    (at_ +:+ ": unknown format " +:+ Quote (sk_Format s) +:+
     " (want fail2ban, json, sentinel-threat, or raw-line)") ;;
  fail_if (String.eqb (sk_Format s) "raw-line" && negb (String.eqb (sk_Type s) "sentinel-threat"))%bool
    (at_ +:+ ": format=raw-line is only valid for type=sentinel-threat") ;;
  mret (sink_key s :: seen).

Definition validateSinks (sinks : list SinkConfig) : string + unit :=
  check_fold validate_sink 0 sinks [] ;; mret tt.

(** *** Streams *)

Definition validate_pipeline (i j : nat) (p : PipelineConfig) (names : list string) : string + list string :=
  let at_ := indexed "streams" i +:+ indexed ".pipelines" j in
  fail_if (negb (empty (pl_Name p)) && bool_decide (pl_Name p ∈ names))%bool
    (indexed "streams" i +:+ ": duplicate pipeline name " +:+ Quote (pl_Name p)) ;;
  fail_if (is_nil (pl_Inputs p)) (at_ +:+ ": must have at least one input") ;;
  fail_if (is_nil (pl_Outputs p)) (at_ +:+ ": must have at least one output") ;;
  wrap_err (at_ +:+ ".inputs: ") (validateInputs (pl_Inputs p)) ;;
  wrap_err (at_ +:+ ".outputs: ") (validateSinks (pl_Outputs p)) ;;
  mret (if empty (pl_Name p) then names else pl_Name p :: names).

Definition validate_stream (i : nat) (s : StreamConfig) : string + unit :=
  fail_if (is_nil (st_Pipelines s)) (indexed "streams" i +:+
    ": must have at least one pipeline (Migrate() should have auto-wrapped inputs/outputs)") ;;
  check_fold (validate_pipeline i) 0 (st_Pipelines s) [] ;;
  mret tt.

(** *** Transport *)

Definition validateTransportConfig (t : TransportConfig) : string + unit :=
  when (tr_Enabled t)
    (fail_if (empty (tr_IdentityPath t)) "transport.identity must be set when transport.enabled is true" ;;
     fail_if (empty (tr_KnownNodesPath t)) "transport.known_nodes must be set when transport.enabled is true" ;;
     fail_if (empty (tr_Listen t)) "transport.listen must be set when transport.enabled is true" ;;
     check_range (fun i p => fail_if (empty (tp_Host p))
       (indexed "transport.peers" i +:+ ".host must not be empty")) 0 (tr_Peers t) ;;
     fail_if (negb (is_nil (tr_Peers t)) && empty (tr_PairingSecret t))%bool
       "transport.pairing_secret must be set when transport.peers is non-empty").

Definition checkQueue (t : TransportConfig) (location : string) (q : option QueueConfig) : string + unit :=
  match q with
  | None => mret tt
  | Some q =>
      if negb (String.eqb (qc_Type q) QueueTypeTransport) then mret tt
      else
        fail_if (negb (tr_Enabled t)) (location +:+ ": queue.type=transport requires transport.enabled: true") ;;
        when (negb (String.eqb (EffectiveMode q) "recv"))
          (fail_if (empty (qc_Peer q)) (location +:+ ": queue.peer is required for queue.type=transport (mode="
              +:+ Quote (EffectiveMode q) +:+ ")") ;;
           fail_if (negb (bool_decide (qc_Peer q ∈ tp_Host <$> tr_Peers t)))
             (location +:+ ": queue.peer " +:+ Quote (qc_Peer q) +:+
              " does not match any transport.peers[].host"))
  end.

Definition checkOutputs (t : TransportConfig) (prefix : string) (outs : list SinkConfig) : string + unit :=
  check_range (fun i o => checkQueue t (indexed prefix i) (sk_Queue o)) 0 outs.
Definition checkInputs (t : TransportConfig) (prefix : string) (ins : list InputConfig) : string + unit :=
  check_range (fun i inp => checkQueue t (indexed prefix i) (in_Queue inp)) 0 ins.

Definition validateTransportWiring (cfg : Config) : string + unit :=
  let t := c_Transport cfg in
  checkOutputs t "outputs" (c_Outputs cfg) ;;
  checkInputs t "inputs" (c_Inputs cfg) ;;
  check_range (fun i s =>
    checkOutputs t (indexed "streams" i +:+ ".outputs") (st_Outputs s) ;;
    checkInputs t (indexed "streams" i +:+ ".inputs") (st_Inputs s) ;;
    check_range (fun j p =>
      checkOutputs t (indexed "streams" i +:+ indexed ".pipelines" j +:+ ".outputs") (pl_Outputs p) ;;
      checkInputs t (indexed "streams" i +:+ indexed ".pipelines" j +:+ ".inputs") (pl_Inputs p))
      0 (st_Pipelines s)) 0 (c_Streams cfg) ;;
  check_range (fun i ex => check_range (fun j src =>
    checkQueue t (indexed "executors" i +:+ indexed ".sources" j) (esr_Queue src)) 0 (ex_Sources ex))
    0 (c_Executors cfg).

Definition validateConfig (cfg : Config) : string + unit :=
  validate_sink_names (c_Outputs cfg) ;;
  validate_executor_names (c_Executors cfg) ;;
  validate_scoring (c_Scoring cfg) (c_State cfg) ;;
  validate_detectors (c_Detectors cfg) ;;
  check_range validate_list 0 (bc_Lists (c_Blocklist cfg)) ;;
  validate_guards (c_ChainGuard cfg) (c_Metrics cfg) ;;
  check_range validate_stream 0 (c_Streams cfg) ;;
  validateInputs (c_Inputs cfg) ;;
  validateSinks (c_Outputs cfg) ;;
  fail_if (pr_BufferSize (c_Pipeline cfg) <? 0)%Z
    ("pipeline.buffer_size must be >= 0, got " +:+ Itoa (pr_BufferSize (c_Pipeline cfg))) ;;
  fail_if (pr_ShutdownTimeout (c_Pipeline cfg) <? 0)%Z "pipeline.shutdown_timeout must be >= 0" ;;
  validateTransportConfig (c_Transport cfg) ;;
  validateTransportWiring cfg.
End validate.

(** ** LoadConfig *)

(** [os.ReadFile]: the data, a missing file, or another error. *)
Inductive ReadResult := ReadData (data : string) | ReadNotExist | ReadError (err : string).

Section load.
Context `{UnicodePrint} `{UnicodeLower} `{QueueMode}.
(** [yaml.Unmarshal] over the defaults, and the environment. *)
Context (unmarshal : string -> Config -> string + Config) (env : string -> option string).

(** The stream synthesized from the legacy fields. *)
Definition synthesize_stream (cfg : Config) : Config :=
  if is_nil (c_Streams cfg) then
    let logFile := if empty (ge_LogFile (c_General cfg)) then default_log_file
                   else ge_LogFile (c_General cfg) in
    set_Streams [stream_literal "" logFile (ou_ThreatLog (c_Output cfg))]
      (set_General (set_LogFile logFile (c_General cfg)) cfg)
  else cfg.

(** From the decoded document to the checked configuration. *)
Definition finish_config (path : string) (cfg : Config) : string + (Config * list string) :=
  cfg ← applyEnvOverrides env cfg;
  let cfg := set_Parser (set_LogFormat (ToLower (pa_LogFormat (c_Parser cfg))) (c_Parser cfg)) cfg in
  fail_if (negb (empty (ge_LogFile (c_General cfg))) && negb (is_nil (c_Streams cfg)))%bool
    ("invalid config " +:+ Quote path +:+
     ": general.log_file and streams: are mutually exclusive — use one or the other") ;;
  let '(cfg, warnings) := Migrate (synthesize_stream cfg) in
  wrap_err ("invalid config " +:+ Quote path +:+ ": ") (validateConfig cfg) ;;
  mret (cfg, warnings).

Definition LoadConfig (path : string) (file : ReadResult) : string + (Config * list string) :=
  cfg ← match file with
        | ReadError e => inl ("reading config " +:+ Quote path +:+ ": " +:+ e)
        | ReadNotExist => mret defaultConfig
        | ReadData data => wrap_err ("parsing config " +:+ Quote path +:+ ": ") (unmarshal data defaultConfig)
        end;
  finish_config path cfg.
End load.

(** ** What validation accepts *)

(** *** Successful checks *)

Lemma seq_ok {A} (m1 : string + unit) (m2 : string + A) y :
  (m1 ;; m2) = inr y <-> m1 = inr tt /\ m2 = inr y.
Proof. rewrite bind_ok. split; [by intros ([] & ? & ?)|intros []; by exists tt]. Qed.

Lemma fail_and_ok b1 b2 msg : fail_if (b1 && b2) msg = inr tt <-> (b1 = true -> b2 = false).
Proof. rewrite fail_if_pass. destruct b1, b2; naive_solver. Qed.

Lemma when_ok b m : when b m = inr tt <-> (b = true -> m = inr tt).
Proof. destruct b; naive_solver. Qed.

Lemma positive_or_ok msg v : positive_or msg v = inr tt <-> (0 < v)%Z.
Proof. unfold positive_or. rewrite fail_if_pass, Z.leb_gt. done. Qed.

Lemma is_nil_false {A} (l : list A) : is_nil l = false <-> l <> [].
Proof. by destruct l. Qed.

Lemma check_range_Forall {A} (f : nat -> A -> string + unit) (P : A -> Prop) i l :
  (forall i x, f i x = inr tt <-> P x) -> check_range f i l = inr tt <-> Forall P l.
Proof.
  intros Hf. rewrite check_range_ok, Forall_lookup. split; intros Hl k x Hx.
  - eapply Hf, Hl. exact Hx.
  - apply Hf. by eapply Hl.
Qed.

(** A loop that rejects a repeated key accepts the lists without one. *)
Section keys.
Context {A : Type} (f : nat -> A -> list string -> string + list string) (P : A -> Prop)
  (key : A -> option string).
Hypothesis step_ok : forall i x seen seen', f i x seen = inr seen' <->
  P x /\ match key x with Some k => k ∉ seen /\ seen' = k :: seen | None => seen' = seen end.

Lemma check_fold_keys i l seen : (exists s', check_fold f i l seen = inr s') <->
  Forall P l /\ NoDup (omap key l) /\ forall k, k ∈ omap key l -> k ∉ seen.
Proof.
  revert i seen. induction l as [|x l IH]; intros i seen; cbn [check_fold omap list_omap].
  { split; [intros _; repeat split; [done|constructor|set_solver]|by eexists]. }
  setoid_rewrite bind_ok. setoid_rewrite step_ok. rewrite Forall_cons. split.
  - intros (s' & s1 & [Hx Hk] & Hs'). specialize (IH (S i) s1). destruct IH as [IH _].
    destruct IH as (Hl & Hnd & Hdis); [by exists s'|].
    destruct (key x) as [k|]; [destruct Hk as [Hk ->]|subst s1]; [|done]. split; [done|]. split.
    + constructor; [|done]. intros Hin. by apply (Hdis k Hin), list_elem_of_here.
    + intros k' [->|Hin]%elem_of_cons; [done|]. specialize (Hdis _ Hin). set_solver.
  - intros ([Hx Hl] & Hnd & Hdis). destruct (key x) as [k|] eqn:E.
    + apply NoDup_cons in Hnd as [Hk Hnd].
      destruct (IH (S i) (k :: seen)) as [_ IH']. destruct IH' as [s' Hs'].
      { repeat split; [done..|]. intros k' Hk'. rewrite elem_of_cons.
        intros [->|Hin]; [done|]. by eapply Hdis; [by apply list_elem_of_further|]. }
      exists s', (k :: seen). repeat split; [done| |done]. apply Hdis, list_elem_of_here.
    + destruct (IH (S i) seen) as [_ IH']. destruct IH' as [s' Hs']; [done|].
      exists s', seen. done.
Qed.

Lemma check_fold_unit l : (check_fold f 0 l [] ;; mret tt) = inr tt <-> Forall P l /\ NoDup (omap key l).
Proof.
  rewrite bind_ok. transitivity (exists s', check_fold f 0 l [] = inr s').
  { split; [intros (s' & ? & _)|intros [s' ?]; exists s']; eauto. }
  rewrite check_fold_keys. split; [tauto|]. intros []. repeat split; [done..|set_solver].
Qed.
End keys.

Lemma omap_Some_fmap {A} (g : A -> string) (l : list A) : omap (fun x => Some (g x)) l = g <$> l.
Proof. induction l as [|x l IH]; [done|]. cbn. by f_equal. Qed.

(** *** The declarative counterpart *)

Definition scoring_wf (s : ScoringConfig) (st : StateConfig) : Prop :=
  (0 < sg_AlertThreshold s)%Z /\ (sg_AlertThreshold s < sg_BanThreshold s)%Z /\
  (0 < sg_ObservationWindow s)%Z /\ (0 < se_MaxTrackedIPs st)%Z.

Definition detectors_wf (d : DetectorsConfig) : Prop :=
  (pb_Enabled (ds_Probe d) = true -> 0 < pb_Score (ds_Probe d))%Z /\
  (bf_Enabled (ds_Bruteforce d) = true ->
     0 < bf_MinRequests (ds_Bruteforce d) /\ 0 < bf_Score (ds_Bruteforce d))%Z /\
  (cr_Enabled (ds_Crawler d) = true ->
     0 < cr_MinSequential (ds_Crawler d) /\ 0 < cr_Score (ds_Crawler d))%Z /\
  (na_Enabled (ds_NoAsset d) = true ->
     0 < na_MinPageRequests (ds_NoAsset d) /\ 0 < na_Score (ds_NoAsset d))%Z /\
  (rt_Enabled (ds_Rate d) = true ->
     0 < rt_Threshold (ds_Rate d) /\ 0 < rt_Window (ds_Rate d) /\ 0 < rt_Score (ds_Rate d))%Z /\
  (ua_Enabled (ds_UserAgent d) = true ->
     0 < ua_ScannerScore (ds_UserAgent d) /\ 0 < ua_GrabberScore (ds_UserAgent d) /\
     0 < ua_AutomationScore (ds_UserAgent d) /\ 0 < ua_EmptyUAScore (ds_UserAgent d))%Z /\
  (ov_Enabled (ds_Overflow d) = true ->
     0 < ov_MaxURLLength (ds_Overflow d) /\ 0 < ov_Score (ds_Overflow d))%Z /\
  (bb_Enabled (ds_BadBot d) = true -> 0 < bb_Score (ds_BadBot d))%Z.

Definition list_wf (l : ListConfig) : Prop :=
  lc_Name l <> "" /\ (0 < lc_RefreshInterval l)%Z /\ lc_Sources l <> [] /\
  Forall (fun src => sc_URL src <> "") (lc_Sources l).

Definition guards_wf (g : ChainGuardConfig) (m : MetricsConfig) : Prop :=
  (cg_Enabled g = true -> cg_WarningsLog g <> "") /\
  (cgc_Enabled (cg_Cloudflare g) = true -> cgc_Sources (cg_Cloudflare g) <> []) /\
  (me_Username m <> "" -> me_PasswordHash m <> "").

Definition tls_wf (url : string) (i : InputConfig) : Prop :=
  HasPrefix url "https://" = true -> in_TLSCert i <> "" /\ in_TLSKey i <> "".

(** A push endpoint listens on an address, a pull endpoint polls a URL. *)
Definition http_wf (i : InputConfig) : Prop :=
  ((in_Mode i = "" \/ in_Mode i = "push") /\ in_Addr i <> "" /\ in_Protocol i <> "" /\ tls_wf (in_Addr i) i
   \/ in_Mode i = "pull" /\ in_URL i <> "" /\ in_Protocol i <> "" /\ in_PullInterval i <> "" /\
      tls_wf (in_URL i) i) /\
  (in_Protocol i = "ndjson" -> in_EnvelopeField i <> "").

Definition input_wf (i : InputConfig) : Prop :=
  in_Type i ∈ input_types /\ (in_Type i = "syslog" -> in_Addr i <> "") /\
  (in_Type i = "http" -> http_wf i) /\ (in_Type i = "file" -> in_Path i <> "").

Definition inputs_wf (l : list InputConfig) : Prop := Forall input_wf l /\ NoDup (input_key <$> l).

Definition sink_wf (s : SinkConfig) : Prop :=
  (sk_Type s = "file" -> sk_Path s <> "") /\
  (sk_Type s = "loki" -> sk_LokiURL s <> "" /\ sk_LokiLabels s <> ∅) /\
  (sk_Type s = "splunk" -> sk_SplunkURL s <> "" /\ sk_SplunkToken s <> "") /\
  (sk_Type s = "datadog" -> sk_DatadogURL s <> "" /\ sk_DatadogAPIKey s <> "") /\
  sk_Format s ∈ sink_formats /\ (sk_Format s = "raw-line" -> sk_Type s = "sentinel-threat").

Definition sinks_wf (l : list SinkConfig) : Prop := Forall sink_wf l /\ NoDup (sink_key <$> l).

Definition pipeline_wf (p : PipelineConfig) : Prop :=
  pl_Inputs p <> [] /\ pl_Outputs p <> [] /\ inputs_wf (pl_Inputs p) /\ sinks_wf (pl_Outputs p).

(** The names that must be distinct: the non-empty ones. *)
Definition pipeline_name (p : PipelineConfig) : option string :=
  if empty (pl_Name p) then None else Some (pl_Name p).

Definition stream_wf (s : StreamConfig) : Prop :=
  st_Pipelines s <> [] /\ Forall pipeline_wf (st_Pipelines s) /\
  NoDup (omap pipeline_name (st_Pipelines s)).

Definition transport_wf (t : TransportConfig) : Prop :=
  tr_Enabled t = true ->
  tr_IdentityPath t <> "" /\ tr_KnownNodesPath t <> "" /\ tr_Listen t <> "" /\
  Forall (fun p => tp_Host p <> "") (tr_Peers t) /\ (tr_Peers t <> [] -> tr_PairingSecret t <> "").

(** A transport queue needs the transport, and a known peer unless it only
    receives. *)
Definition queue_wf `{QueueMode} (t : TransportConfig) (q : option QueueConfig) : Prop :=
  forall q', q = Some q' -> qc_Type q' = QueueTypeTransport ->
  tr_Enabled t = true /\
  (EffectiveMode q' <> "recv" -> qc_Peer q' <> "" /\ qc_Peer q' ∈ tp_Host <$> tr_Peers t).

Definition io_wiring_wf `{QueueMode} (t : TransportConfig) (outs : list SinkConfig) (ins : list InputConfig) : Prop :=
  Forall (fun o => queue_wf t (sk_Queue o)) outs /\ Forall (fun i => queue_wf t (in_Queue i)) ins.

Definition wiring_wf `{QueueMode} (cfg : Config) : Prop :=
  let t := c_Transport cfg in
  io_wiring_wf t (c_Outputs cfg) (c_Inputs cfg) /\
  Forall (fun s => io_wiring_wf t (st_Outputs s) (st_Inputs s) /\
    Forall (fun p => io_wiring_wf t (pl_Outputs p) (pl_Inputs p)) (st_Pipelines s)) (c_Streams cfg) /\
  Forall (fun ex => Forall (fun src => queue_wf t (esr_Queue src)) (ex_Sources ex)) (c_Executors cfg).

Definition config_wf `{QueueMode} (cfg : Config) : Prop :=
  Forall (fun o => sk_Name o <> "" -> ParseIP (sk_Name o) = None) (c_Outputs cfg) /\
  NoDup (ex_Name <$> c_Executors cfg) /\
  scoring_wf (c_Scoring cfg) (c_State cfg) /\ detectors_wf (c_Detectors cfg) /\
  Forall list_wf (bc_Lists (c_Blocklist cfg)) /\ guards_wf (c_ChainGuard cfg) (c_Metrics cfg) /\
  Forall stream_wf (c_Streams cfg) /\ inputs_wf (c_Inputs cfg) /\ sinks_wf (c_Outputs cfg) /\
  (0 <= pr_BufferSize (c_Pipeline cfg))%Z /\ (0 <= pr_ShutdownTimeout (c_Pipeline cfg))%Z /\
  transport_wf (c_Transport cfg) /\ wiring_wf cfg.

(** *** The correspondence, check by check *)

Ltac res_rw :=
  repeat first [rewrite seq_ok | rewrite fail_and_ok | rewrite fail_if_pass | rewrite when_ok
               | rewrite positive_or_ok | rewrite wrap_err_ok | rewrite is_nil_false
               | rewrite Z.leb_gt | rewrite Z.ltb_ge | rewrite negb_true_iff | rewrite negb_false_iff
               | rewrite bool_decide_eq_false | rewrite bool_decide_eq_true
               | rewrite orb_false_iff | rewrite String.eqb_eq | rewrite String.eqb_neq].

Section validate_spec.
Context `{UnicodePrint} `{QueueMode}.

Lemma validate_sink_names_ok outs : validate_sink_names outs = inr tt <->
  Forall (fun o => sk_Name o <> "" -> ParseIP (sk_Name o) = None) outs.
Proof.
  apply check_range_Forall. intros ? o. unfold isIPLike. res_rw. by rewrite eq_None_not_Some.
Qed.

Lemma validate_executor_names_ok exs : validate_executor_names exs = inr tt <-> NoDup (ex_Name <$> exs).
Proof.
  unfold validate_executor_names.
  rewrite (check_fold_unit _ (fun _ => True) (fun ex => Some (ex_Name ex))).
  - rewrite omap_Some_fmap. split; [by intros []|]. split; [by apply Forall_true|done].
  - intros ? ex seen seen'. res_rw. unfold mret, res_ret. naive_solver.
Qed.

Lemma validate_scoring_ok s st : validate_scoring s st = inr tt <-> scoring_wf s st.
Proof. unfold validate_scoring, scoring_wf. res_rw. lia. Qed.

Lemma validate_detectors_ok d : validate_detectors d = inr tt <-> detectors_wf d.
Proof. unfold validate_detectors, detectors_wf. res_rw. tauto. Qed.

Lemma validate_list_ok i l : validate_list i l = inr tt <-> list_wf l.
Proof.
  unfold validate_list, list_wf. cbv zeta. res_rw.
  rewrite (check_range_Forall _ (fun src => sc_URL src <> "")); [tauto|]. intros ? src. by res_rw.
Qed.

Lemma validate_guards_ok g m : validate_guards g m = inr tt <-> guards_wf g m.
Proof. unfold validate_guards, guards_wf. by res_rw. Qed.

Lemma validate_tls_ok at_ url i : validate_tls at_ url i = inr tt <-> tls_wf url i.
Proof. unfold validate_tls, tls_wf. by res_rw. Qed.

Lemma validate_http_ok at_ i : validate_http at_ i = inr tt <-> http_wf i.
Proof.
  unfold validate_http, http_wf. res_rw.
  destruct (String.eqb_spec (in_Mode i) "") as [E|E], (String.eqb_spec (in_Mode i) "push") as [E1|E1],
    (String.eqb_spec (in_Mode i) "pull") as [E2|E2]; cbn [orb]; res_rw; rewrite ?validate_tls_ok;
    try tauto; try congruence. split; [by intros []|]. tauto.
Qed.

Lemma validateInputs_ok l : validateInputs l = inr tt <-> inputs_wf l.
Proof.
  unfold validateInputs, inputs_wf. rewrite <- omap_Some_fmap. apply check_fold_unit.
  intros k i seen seen'. unfold validate_input, input_wf. cbv zeta. res_rw.
  rewrite validate_http_ok. unfold mret, res_ret.
  split; intros; destruct_and?; simplify_eq; split_and?; auto.
Qed.

Lemma validateSinks_ok l : validateSinks l = inr tt <-> sinks_wf l.
Proof.
  unfold validateSinks, sinks_wf. rewrite <- omap_Some_fmap. apply check_fold_unit.
  intros k s seen seen'. unfold validate_sink, sink_wf. cbv zeta. res_rw.
  unfold mret, res_ret. split; intros; destruct_and?; simplify_eq; split_and?; auto.
Qed.

Lemma validate_stream_ok i s : validate_stream i s = inr tt <-> stream_wf s.
Proof.
  unfold validate_stream, stream_wf. res_rw. apply and_iff_compat_l, check_fold_unit.
  intros j p names names'. unfold validate_pipeline, pipeline_wf, pipeline_name. cbv zeta. res_rw.
  rewrite validateInputs_ok, validateSinks_ok. unfold mret, res_ret.
  destruct (String.eqb_spec (pl_Name p) ""); naive_solver.
Qed.

Lemma validateTransportConfig_ok t : validateTransportConfig t = inr tt <-> transport_wf t.
Proof.
  unfold validateTransportConfig, transport_wf. res_rw.
  rewrite (check_range_Forall _ (fun p => tp_Host p <> "")); [tauto|]. intros ? p. by res_rw.
Qed.

Lemma checkQueue_ok t loc q : checkQueue t loc q = inr tt <-> queue_wf t q.
Proof.
  unfold checkQueue, queue_wf. destruct q as [q|]; [|done].
  destruct (String.eqb_spec (qc_Type q) QueueTypeTransport) as [E|E]; cbn [negb].
  - res_rw. naive_solver.
  - naive_solver.
Qed.

Lemma checkOutputs_ok t pre outs : checkOutputs t pre outs = inr tt <->
  Forall (fun o => queue_wf t (sk_Queue o)) outs.
Proof. apply check_range_Forall. intros. apply checkQueue_ok. Qed.

Lemma checkInputs_ok t pre ins : checkInputs t pre ins = inr tt <->
  Forall (fun i => queue_wf t (in_Queue i)) ins.
Proof. apply check_range_Forall. intros. apply checkQueue_ok. Qed.

Lemma validateTransportWiring_ok cfg : validateTransportWiring cfg = inr tt <-> wiring_wf cfg.
Proof.
  unfold validateTransportWiring, wiring_wf, io_wiring_wf. cbv zeta. res_rw.
  rewrite checkOutputs_ok, checkInputs_ok.
  rewrite (check_range_Forall _ (fun s => (Forall (fun o => queue_wf (c_Transport cfg) (sk_Queue o)) (st_Outputs s) /\
    Forall (fun i => queue_wf (c_Transport cfg) (in_Queue i)) (st_Inputs s)) /\
    Forall (fun p => Forall (fun o => queue_wf (c_Transport cfg) (sk_Queue o)) (pl_Outputs p) /\
      Forall (fun i => queue_wf (c_Transport cfg) (in_Queue i)) (pl_Inputs p)) (st_Pipelines s))).
  - rewrite (check_range_Forall _ (fun ex => Forall (fun src => queue_wf (c_Transport cfg) (esr_Queue src)) (ex_Sources ex)));
      [tauto|]. intros ? ex. apply check_range_Forall. intros. apply checkQueue_ok.
  - intros ? s. res_rw. rewrite checkOutputs_ok, checkInputs_ok.
    rewrite (check_range_Forall _ (fun p => Forall (fun o => queue_wf (c_Transport cfg) (sk_Queue o)) (pl_Outputs p) /\
      Forall (fun i => queue_wf (c_Transport cfg) (in_Queue i)) (pl_Inputs p))); [tauto|].
    intros ? p. res_rw. by rewrite checkOutputs_ok, checkInputs_ok.
Qed.

Lemma validateConfig_ok cfg : validateConfig cfg = inr tt <-> config_wf cfg.
Proof.
  unfold validateConfig, config_wf. res_rw.
  rewrite validate_sink_names_ok, validate_executor_names_ok, validate_scoring_ok, validate_detectors_ok,
    validate_guards_ok, validateInputs_ok, validateSinks_ok, validateTransportConfig_ok,
    validateTransportWiring_ok.
  rewrite (check_range_Forall _ list_wf), (check_range_Forall _ stream_wf); [tauto|..].
  - apply validate_stream_ok.
  - apply validate_list_ok.
Qed.
End validate_spec.

(** ** Migration *)

Section migrate_spec.
Context `{UnicodePrint}.

Lemma migrate_inputs_again f fmt lf ins :
  migrate_inputs f fmt lf (migrate_inputs f fmt lf ins).1 = ((migrate_inputs f fmt lf ins).1, []).
Proof.
  unfold migrate_inputs. destruct (is_nil ins && negb (empty lf))%bool eqn:E; cbn [fst]; [done|].
  by rewrite E.
Qed.

Lemma migrate_outputs_again f tl outs :
  migrate_outputs f tl (migrate_outputs f tl outs).1 = ((migrate_outputs f tl outs).1, []).
Proof.
  unfold migrate_outputs. destruct (is_nil outs && negb (empty tl))%bool eqn:E; cbn [fst]; [done|].
  by rewrite E.
Qed.

Lemma default_inputs_again f fmt lf ins :
  migrate_inputs f fmt lf (default_inputs ins) = (default_inputs ins, []).
Proof. by destruct ins. Qed.

Lemma default_outputs_again f tl outs :
  migrate_outputs f tl (default_outputs outs) = (default_outputs outs, []).
Proof. by destruct outs. Qed.

Lemma runtime_or_again r d : (pr_BufferSize d <> 0)%Z -> (pr_ShutdownTimeout d <> 0)%Z ->
  runtime_or (runtime_or r d) d = runtime_or r d.
Proof.
  intros Hb Ht. unfold runtime_or. cbn.
  destruct (Z.eqb_spec (pr_BufferSize r) 0), (Z.eqb_spec (pr_ShutdownTimeout r) 0); cbn;
    by repeat case_match; b2p.
Qed.

(** One stream through all the passes. *)
Definition settle_stream (fmt : string) (top : PipelineRuntimeConfig) (i : nat) (s : StreamConfig) : StreamConfig :=
  propagate_processors (auto_wrap top (migrate_stream fmt i s).1).

Lemma settle_io fmt top i s :
  st_Inputs (settle_stream fmt top i s) = (migrate_inputs (streamID i s +:+ ".") fmt (st_LogFile s) (st_Inputs s)).1 /\
  st_Outputs (settle_stream fmt top i s) = (migrate_outputs (streamID i s +:+ ".") (st_ThreatLog s) (st_Outputs s)).1 /\
  st_Name (settle_stream fmt top i s) = st_Name s /\ st_LogFile (settle_stream fmt top i s) = st_LogFile s /\
  st_ThreatLog (settle_stream fmt top i s) = st_ThreatLog s.
Proof.
  unfold settle_stream, migrate_stream, propagate_processors, auto_wrap.
  destruct (migrate_inputs _ _ _ _), (migrate_outputs _ _ _). cbn [fst].
  by repeat case_match.
Qed.

Lemma inherit_again procs (ps : list PipelineConfig) :
  inherit_processors procs <$> (inherit_processors procs <$> ps) = inherit_processors procs <$> ps.
Proof.
  rewrite <- list_fmap_compose. apply list_fmap_ext. intros _ p _. cbn. unfold inherit_processors.
  by destruct (pl_Processors p) eqn:E; cbn; rewrite ?E.
Qed.

Lemma propagate_again s : propagate_processors (propagate_processors s) = propagate_processors s.
Proof.
  unfold propagate_processors. destruct (is_nil (st_Processors s)) eqn:E; [by rewrite E|].
  destruct s; cbn in *. rewrite E. unfold set_Pipelines. cbn. by rewrite inherit_again.
Qed.

(** Wrapping commutes with inheriting processors: neither looks at what the
    other changes once a stream has pipelines. *)
Lemma wrap_settled top s : auto_wrap top (propagate_processors (auto_wrap top s)) = propagate_processors (auto_wrap top s).
Proof.
  destruct s as [n ps ins outs exs procs rt lf tl]. unfold propagate_processors, auto_wrap. cbn.
  destruct ps as [|p ps]; cbn; [|destruct procs; cbn; done].
  destruct (is_nil ins && is_nil outs && bool_decide (exs = None))%bool eqn:E; cbn; destruct procs; cbn;
    by rewrite ?E.
Qed.

Lemma settle_again fmt top i s :
  settle_stream fmt top i (settle_stream fmt top i s) = settle_stream fmt top i s /\
  (migrate_stream fmt i (settle_stream fmt top i s)).2 = [].
Proof.
  destruct (settle_io fmt top i s) as (Hi & Ho & Hn & Hl & Ht).
  set (s1 := settle_stream fmt top i s) in *.
  assert (Hid : streamID i s1 = streamID i s) by (unfold streamID; by rewrite Hn).
  assert (Hm : migrate_stream fmt i s1 = (s1, [])).
  { unfold migrate_stream. rewrite Hid, Hl, Ht, Hi, Ho, migrate_inputs_again, migrate_outputs_again.
    f_equal. rewrite <- Hi, <- Ho. by destruct s1. }
  rewrite Hm. split; [|done]. unfold settle_stream. rewrite Hm. cbn [fst]. subst s1.
  unfold settle_stream at 1. rewrite wrap_settled, propagate_again. done.
Qed.

Definition settle_streams fmt top i ss : list StreamConfig :=
  (fun s => propagate_processors (auto_wrap top s)) <$> (migrate_streams fmt i ss).1.

Lemma settle_streams_cons fmt top i s ss :
  settle_streams fmt top i (s :: ss) = settle_stream fmt top i s :: settle_streams fmt top (S i) ss.
Proof.
  unfold settle_streams, settle_stream. cbn [migrate_streams].
  by destruct (migrate_stream fmt i s), (migrate_streams fmt (S i) ss).
Qed.

Lemma settle_streams_again fmt top i ss :
  settle_streams fmt top i (settle_streams fmt top i ss) = settle_streams fmt top i ss /\
  (migrate_streams fmt i (settle_streams fmt top i ss)).2 = [].
Proof.
  revert i. induction ss as [|s ss IH]; intros i; [done|].
  rewrite !settle_streams_cons. destruct (settle_again fmt top i s) as [H1 H2], (IH (S i)) as [H3 H4].
  split; [by rewrite H1, H3|]. cbn [migrate_streams].
  destruct (migrate_stream fmt i _), (migrate_streams fmt (S i) _). cbn in *. by subst.
Qed.

Lemma Migrate_fields cfg : let top := runtime_or (c_Pipeline cfg) default_runtime in
  (Migrate cfg).1 =
    set_Streams (settle_streams (pa_LogFormat (c_Parser cfg)) top 0 (c_Streams cfg))
      (set_Pipeline top
        (set_Outputs (default_outputs (migrate_outputs "output." (ou_ThreatLog (c_Output cfg)) (c_Outputs cfg)).1)
          (set_Inputs (default_inputs (migrate_inputs "general." (pa_LogFormat (c_Parser cfg))
             (ge_LogFile (c_General cfg)) (c_Inputs cfg)).1) cfg))).
Proof.
  unfold Migrate, settle_streams. cbv zeta.
  destruct (migrate_inputs _ _ _ _), (migrate_outputs _ _ _), (migrate_streams _ _ _). done.
Qed.

(** A second migration has nothing left to do. *)
Lemma Migrate_again cfg : Migrate (Migrate cfg).1 = ((Migrate cfg).1, []).
Proof.
  rewrite (Migrate_fields cfg). cbv zeta. set (top := runtime_or _ _).
  set (fmt := pa_LogFormat _). set (ss := settle_streams fmt top 0 _).
  assert (Ht : runtime_or top default_runtime = top) by (by apply runtime_or_again).
  unfold Migrate. cbn -[settle_streams migrate_streams runtime_or default_runtime].
  rewrite default_inputs_again, default_outputs_again. fold fmt.
  destruct (settle_streams_again fmt top 0 (c_Streams cfg)) as [H1 H2]. fold ss in H1, H2.
  unfold settle_streams at 1 in H1. destruct (migrate_streams fmt 0 ss) as [ss' w] eqn:E. cbn [fst snd] in H1, H2.
  rewrite Ht, H1, H2. by destruct (migrate_inputs "general." _ _ _).1, (migrate_outputs _ _ _).1.
Qed.

Lemma settle_streams_lookup fmt top i ss k s : ss !! k = Some s ->
  settle_streams fmt top i ss !! k = Some (settle_stream fmt top (i + k) s).
Proof.
  revert i k. induction ss as [|s0 ss IH]; intros i k Hk; [done|]. rewrite settle_streams_cons.
  destruct k as [|k]; cbn in *; [injection Hk as ->; by rewrite Nat.add_0_r|].
  rewrite (IH (S i)) by done. by rewrite Nat.add_succ_comm.
Qed.

Lemma settle_streams_names fmt top i ss : st_Name <$> settle_streams fmt top i ss = st_Name <$> ss.
Proof.
  revert i. induction ss as [|s ss IH]; intros i; [done|].
  rewrite settle_streams_cons, !fmap_cons, IH. f_equal. apply settle_io.
Qed.

Lemma settle_declared fmt top i s : st_Pipelines s <> [] ->
  st_Pipelines (settle_stream fmt top i s) =
    (if is_nil (st_Processors s) then st_Pipelines s
     else inherit_processors (st_Processors s) <$> st_Pipelines s).
Proof.
  intros Hp. unfold settle_stream, migrate_stream, propagate_processors, auto_wrap.
  destruct (migrate_inputs _ _ _ _), (migrate_outputs _ _ _). cbn.
  destruct (st_Pipelines s) eqn:E; [done|]. cbn. rewrite E. by destruct (st_Processors s).
Qed.

Lemma settle_legacy fmt top i s : st_Pipelines s = [] -> st_Inputs s = [] -> st_Outputs s = [] ->
  st_LogFile s <> "" -> st_ThreatLog s <> "" -> st_Processors s = [] ->
  st_Pipelines (settle_stream fmt top i s) =
    [pipeline_literal "" [input_literal "file" (st_LogFile s) fmt]
       [sink_literal "file" (st_ThreatLog s) "fail2ban"] (runtime_or (st_Pipeline s) top)].
Proof.
  intros Hp Hi Ho Hl%String.eqb_neq Ht%String.eqb_neq Hpr.
  unfold settle_stream, migrate_stream, migrate_inputs, migrate_outputs. rewrite Hi, Ho, Hl, Ht. cbn.
  unfold auto_wrap. cbn. rewrite Hp. cbn. unfold propagate_processors. cbn. by rewrite Hpr.
Qed.

End migrate_spec.

(** ** Loading *)

Section load_spec.
Context `{UnicodePrint} `{UnicodeLower} `{QueueMode}.
Context (unmarshal : string -> Config -> string + Config) (env : string -> option string).

(** The passes after the decoder, on success. *)
Lemma finish_config_ok path cfg cfg' w : finish_config env path cfg = inr (cfg', w) <->
  exists cfg1, applyEnvOverrides env cfg = inr cfg1 /\
    (ge_LogFile (c_General cfg1) <> "" -> c_Streams cfg1 = []) /\
    Migrate (synthesize_stream
      (set_Parser (set_LogFormat (ToLower (pa_LogFormat (c_Parser cfg1))) (c_Parser cfg1)) cfg1)) = (cfg', w) /\
    config_wf cfg'.
Proof.
  unfold finish_config. rewrite bind_ok. apply exist_proper. intros cfg1. apply and_iff_compat_l.
  cbv zeta. rewrite seq_ok, fail_and_ok, negb_true_iff, negb_false_iff, String.eqb_neq. cbn [c_General c_Streams set_Parser].
  assert (Hn : forall l : list StreamConfig, is_nil l = true <-> l = []) by (by intros []). rewrite Hn.
  apply and_iff_compat_l. destruct (Migrate _) as [m w'].
  rewrite seq_ok, wrap_err_ok, validateConfig_ok. unfold mret, res_ret. naive_solver.
Qed.

Lemma settle_streams_nil fmt top i ss : settle_streams fmt top i ss = [] -> ss = [].
Proof. destruct ss; [done|]. by rewrite settle_streams_cons. Qed.

Lemma synthesize_nonempty cfg : c_Streams (synthesize_stream cfg) <> [].
Proof. unfold synthesize_stream. by destruct (c_Streams cfg) eqn:E; cbn; rewrite ?E. Qed.

(** C2: A configuration that loads is well-formed: whatever the file, the YAML decoder and the environment contain, [LoadConfig] returns only configurations with 0 < alert < ban, positive windows, limits and scores of the enabled detectors, complete blocklists, guards and transport settings, and at least one stream, each with at least one pipeline that has valid inputs and outputs, distinct sources, sinks and names, and transport queues wired to known peers; migrating it again would change nothing. *)
Theorem load_config_wf path file cfg w : LoadConfig unmarshal env path file = inr (cfg, w) ->
  config_wf cfg /\ c_Streams cfg <> [] /\ Migrate cfg = (cfg, []).
Proof.
  unfold LoadConfig. intros (c0 & _ & Hf)%bind_ok.
  apply finish_config_ok in Hf as (c1 & _ & _ & Hm & Hwf). split; [done|].
  assert (cfg = (Migrate (synthesize_stream
    (set_Parser (set_LogFormat (ToLower (pa_LogFormat (c_Parser c1))) (c_Parser c1)) c1))).1) as ->
    by (by rewrite Hm).
  split; [|apply Migrate_again]. rewrite Migrate_fields. cbn. intros Hn%settle_streams_nil.
  by eapply synthesize_nonempty.
Qed.

(** Without [streams:] the loaded streams come from the legacy fields alone. *)
Lemma synthesized_streams cfg1 : c_Streams cfg1 = [] -> ou_ThreatLog (c_Output cfg1) <> "" ->
  let m := (Migrate (synthesize_stream cfg1)).1 in
  st_Pipelines <$> c_Streams m =
    [[pipeline_literal "" [input_literal "file" (ge_LogFile (c_General m)) (pa_LogFormat (c_Parser m))]
        [sink_literal "file" (ou_ThreatLog (c_Output m)) "fail2ban"] (c_Pipeline m)]].
Proof.
  intros Hs Ht. cbv zeta. rewrite Migrate_fields. unfold synthesize_stream. rewrite Hs. cbn [is_nil].
  set (lf := if empty (ge_LogFile _) then _ else _).
  assert (Hlf : lf <> "").
  { subst lf. destruct (String.eqb_spec (ge_LogFile (c_General cfg1)) ""); done. }
  cbn -[settle_streams runtime_or]. rewrite settle_streams_cons. unfold settle_streams. cbn [fmap list_fmap migrate_streams].
  rewrite settle_legacy by done. cbn. done.
Qed.

(** Without a threat log the synthesized pipeline has no output, which is
    rejected. *)
Lemma no_threat_log cfg1 : c_Streams cfg1 = [] -> ou_ThreatLog (c_Output cfg1) = "" ->
  ~ Forall stream_wf (c_Streams (Migrate (synthesize_stream cfg1)).1).
Proof.
  intros Hs Ht. rewrite Migrate_fields. unfold synthesize_stream. rewrite Hs, Ht. cbn [is_nil].
  set (lf := if empty (ge_LogFile _) then _ else _).
  assert (Hlf : String.eqb lf "" = false).
  { apply String.eqb_neq. subst lf. destruct (String.eqb_spec (ge_LogFile (c_General cfg1)) ""); done. }
  cbn -[settle_streams]. rewrite settle_streams_cons.
  intros [(_ & Hp & _) _]%Forall_cons_1. revert Hp.
  unfold settle_stream, migrate_stream, migrate_inputs. cbn. rewrite Hlf. cbn.
  by intros [(_ & ? & _) _]%Forall_cons_1.
Qed.

(** Top-level inputs and outputs never reach a pipeline: when a document without [streams:] loads, its only pipeline reads the general log file and writes the threat log in Fail2Ban format, whatever the document's top-level [inputs:] and [outputs:] are, so a stdout or second sink configured there is not built. *)
Theorem toplevel_io_ignored path data doc cfg w : unmarshal data defaultConfig = inr doc ->
  c_Streams doc = [] -> LoadConfig unmarshal env path (ReadData data) = inr (cfg, w) ->
  st_Pipelines <$> c_Streams cfg =
    [[pipeline_literal "" [input_literal "file" (ge_LogFile (c_General cfg)) (pa_LogFormat (c_Parser cfg))]
        [sink_literal "file" (ou_ThreatLog (c_Output cfg)) "fail2ban"] (c_Pipeline cfg)]].
Proof.
  unfold LoadConfig. intros Hu Hs. rewrite Hu. intros (c0 & [= <-] & Hf)%bind_ok.
  apply finish_config_ok in Hf as (c1 & He & _ & Hm & Hwf).
  apply env_frame_of in He as (_ & _ & _ & _ & Hst & _).
  set (c2 := set_Parser _ c1) in Hm.
  assert (Hc2 : c_Streams c2 = []) by (cbn; congruence).
  replace cfg with (Migrate (synthesize_stream c2)).1 in * by (by rewrite Hm).
  apply synthesized_streams; [done|]. intros Ht.
  destruct Hwf as (_ & _ & _ & _ & _ & _ & Hsw & _).
  by eapply no_threat_log.
Qed.
End load_spec.

(** ** Concrete instances *)

Definition ex_print : UnicodePrint := {| unicode_print := fun _ => true |}.
(** An empty mode means both directions. *)
Definition ex_queue_mode : QueueMode :=
  {| EffectiveMode := fun q => if empty (qc_Mode q) then "both" else qc_Mode q |}.

(** The daemon starts out of the box: with no configuration file and no environment variable, [LoadConfig] succeeds with one unnamed stream whose pipeline reads the nginx access log with the combined parser and writes Fail2Ban lines to the default threat log. *)
Theorem default_config_loads `{UnicodePrint} `{UnicodeLower} `{QueueMode} unmarshal path :
  exists cfg w, LoadConfig unmarshal (fun _ => None) path ReadNotExist = inr (cfg, w) /\
  st_Pipelines <$> c_Streams cfg =
    [[pipeline_literal "" [input_literal "file" "/var/log/nginx/access.log" "combined"]
        [sink_literal "file" "/var/log/arxsentinel/threats.log" "fail2ban"]
        (mkPipelineRuntimeConfig 8192 (15 * second))]] /\
  c_Detectors cfg = defaultDetectors /\ c_Scoring cfg = c_Scoring defaultConfig.
Proof. do 2 eexists. split; [vm_compute; reflexivity|]. repeat split. Qed.

(** The document of the Docker guide: a file input, a file and a stdout output. *)
Definition ex_doc (c : Config) : Config :=
  set_Outputs [sink_literal "file" "/var/log/arxsentinel/threats.log" "fail2ban"; sink_literal "stdout" "" "json"]
    (set_Inputs [input_literal "file" "/srv/app/access.log" "json"] c).

Lemma load_config_wf_witness : exists cfg w,
  @LoadConfig ex_print ex_lower ex_queue_mode (fun _ c => inr (ex_doc c)) (fun _ => None) "c.yaml" (ReadData "doc") = inr (cfg, w) /\
  c_Streams cfg <> [].
Proof.
  do 2 eexists. split; [vm_compute; reflexivity|].
  eapply (@load_config_wf ex_print ex_lower ex_queue_mode (fun _ c => inr (ex_doc c)) (fun _ => None) "c.yaml" (ReadData "doc")).
  vm_compute. reflexivity.
Defined.

Lemma toplevel_io_ignored_witness : exists cfg w,
  @LoadConfig ex_print ex_lower ex_queue_mode (fun _ c => inr (ex_doc c)) (fun _ => None) "c.yaml" (ReadData "doc") = inr (cfg, w) /\
  st_Pipelines <$> c_Streams cfg =
    [[pipeline_literal "" [input_literal "file" "/var/log/nginx/access.log" "combined"]
        [sink_literal "file" "/var/log/arxsentinel/threats.log" "fail2ban"] (c_Pipeline cfg)]] /\
  sk_Type <$> c_Outputs cfg = ["file"; "stdout"].
Proof.
  do 2 eexists. split; [vm_compute; reflexivity|]. split; [|reflexivity].
  eapply (@toplevel_io_ignored ex_print ex_lower ex_queue_mode (fun _ c => inr (ex_doc c)) (fun _ => None) "c.yaml" "doc").
  - reflexivity.
  - reflexivity.
  - vm_compute. reflexivity.
Defined.
