(* ===== verification/ExecCommon.v ===== *)
(** * Shared parts of the executors (pkg/executorplugins)

    The threat event, level order, dedup window, statistics and inputs of the
    run loops, and the decoding of an executor's configuration block: durations
    first, then a JSON round trip of the remaining fields. *)

From Stdlib Require Import ZArith Lia Ascii String Floats.SpecFloat.
From stdpp Require Import base numbers option list sorting strings gmap fin_maps.
From S2P Require Import Prelude GoFloat GoStrings GoValues GoJSON Model.

(** ** internal/threat/threatevent.go *)

Record ThreatEvent := mkThreatEvent {
  te_Timestamp : Time;
  te_Level : string;
  te_Stream : string;
  te_Source : string;
  te_SourceType : string;
  te_IP : string;
  te_Score : Z;
  te_Modules : list string;
  te_Reason : string;
  te_RawLine : string
}.

(** ** Levels *)

Definition levelOrder (level : string) : option nat :=
  if String.eqb level "INFO" then Some 0
  else if String.eqb level "WARN" then Some 1
  else if String.eqb level "THREAT" then Some 2
  else None.

(** A missing key of the Go map reads as its zero value. *)
Definition meetsMinLevel (minLevel level : string) : bool :=
  match levelOrder level with
  | None => false
  | Some l => (default 0 (levelOrder minLevel) <=? l)%nat
  end.

(** ** The dedup window (core module)

    [Contains] is a pure query; [MarkBatch] marks addresses for the window's
    duration and nothing else. *)
Class DedupWindow := {
  Window : Type;
  NewWindow : Duration -> Window;
  win_Contains : Time -> Window -> string -> bool;
  win_MarkBatch : Time -> list string -> Window -> Window;
  win_new now d ip : win_Contains now (NewWindow d) ip = false;
  win_mark_only now now' ips w ip :
    win_Contains now' (win_MarkBatch now ips w) ip = true ->
    ip ∈ ips \/ win_Contains now' w ip = true;
  win_mark_keeps now now' ips w ip : ip ∉ ips ->
    win_Contains now' (win_MarkBatch now ips w) ip = win_Contains now' w ip
}.

(** A window that remembers marks with their time. *)
Definition ex_window : DedupWindow.
Proof.
  refine {| Window := Duration * list (string * Time);
            NewWindow := fun d => (d, []);
            win_Contains := fun now w ip =>
              existsb (fun m => String.eqb m.1 ip && (now <? m.2 + w.1)%Z) w.2;
            win_MarkBatch := fun now ips w => (w.1, ((fun ip => (ip, now)) <$> ips) ++ w.2) |}.
  - done.
  - intros now now' ips w ip. cbn [fst snd]. rewrite existsb_app, orb_true_iff.
    intros [H|H]; [left|by right]. apply existsb_exists in H as ([ip' t] & Hin & Hb).
    apply list_elem_of_In, list_elem_of_fmap in Hin as (x & [= -> ->] & Hx).
    apply andb_true_iff in Hb as [Hb%String.eqb_eq _]. simpl in Hb. by subst.
  - intros now now' ips w ip Hn. cbn [fst snd]. rewrite existsb_app.
    assert (existsb (fun m => String.eqb m.1 ip && (now' <? m.2 + w.1)%Z)
              ((fun ip0 => (ip0, now)) <$> ips) = false) as ->; [|done].
    apply not_true_iff_false. rewrite existsb_exists. intros ([ip' t] & Hin & Hb).
    apply list_elem_of_In, list_elem_of_fmap in Hin as (x & [= -> ->] & Hx).
    apply andb_true_iff in Hb as [Hb%String.eqb_eq _]. simpl in Hb. by subst.
Defined.

(** ** Statistics *)

Record ExecStats := mkExecStats {
  es_executed : Z;
  es_skipped : Z;
  es_errors : Z;
  es_swept : Z
}.

Definition stats_zero : ExecStats := mkExecStats 0 0 0 0.
Definition add_executed (n : Z) (s : ExecStats) : ExecStats :=
  mkExecStats (es_executed s + n) (es_skipped s) (es_errors s) (es_swept s).
Definition add_skipped (n : Z) (s : ExecStats) : ExecStats :=
  mkExecStats (es_executed s) (es_skipped s + n) (es_errors s) (es_swept s).
Definition add_errors (n : Z) (s : ExecStats) : ExecStats :=
  mkExecStats (es_executed s) (es_skipped s) (es_errors s + n) (es_swept s).
Definition add_swept (n : Z) (s : ExecStats) : ExecStats :=
  mkExecStats (es_executed s) (es_skipped s) (es_errors s) (es_swept s + n).

(** ** Inputs of a run loop: the cases of its select *)

Inductive RunInput :=
  | InEvent (ev : ThreatEvent)
  | InFlushTick
  | InSweepTick
  | InClosed
  | InDone.

(** ** Configuration blocks *)

(** [time.Duration(v) * time.Second]. *)
Definition seconds (z : Z) : Duration := wrap64 (z * second).

(** The nginx, mikrotik and cloudflare executors: strings and ints; a value of
    another type is dropped silently. [None] is a parse error. *)
Definition duration_field (raw : Params) (key : string) (dflt : Duration) : option Duration :=
  match raw !! key with
  | Some (AnyString s) => ParseDuration s
  | Some (AnyInt z) => Some (seconds z)
  | _ => Some dflt
  end.

(** The openwrt and opnsense executors. *)
Definition parseDurationAny (v : GoAny) : option Duration :=
  match v with
  | AnyString s => if String.eqb s EmptyString then None else ParseDuration s
  | AnyInt z => Some (seconds z)
  | AnyInt64 z => Some (seconds z)
  | AnyFloat f => Some (seconds (f_to_int f))
  | _ => None
  end.

Definition duration_any_field (raw : Params) (key : string) (dflt : Duration) : option Duration :=
  match raw !! key with
  | Some v => parseDurationAny v
  | None => Some dflt
  end.

(** *** The JSON round trip *)

(** The integer a float prints as, if it prints as one. *)
Definition json_float_int (f : float64) : option Z :=
  match f with
  | S754_zero _ => Some 0%Z
  | S754_finite s m e =>
      let v := if (0 <=? e)%Z then Some (Z.pos m * 2 ^ e)%Z
               else if (Z.pos m mod 2 ^ (- e) =? 0)%Z then Some (Z.pos m / 2 ^ (- e))%Z else None in
      match v with
      | Some v => if (v <? 10 ^ 21)%Z then Some (if s then (- v)%Z else v) else None
      | None => None
      end
  | _ => None
  end.

(** Decoding one value into a field of the given type; [null] keeps the field. *)
Definition json_string (v : GoAny) (old : string) : option string :=
  match v with AnyString s => Some s | AnyNil => Some old | _ => None end.
Definition json_bool (v : GoAny) (old : bool) : option bool :=
  match v with AnyBool b => Some b | AnyNil => Some old | _ => None end.
Definition json_int (v : GoAny) (old : Z) : option Z :=
  match v with
  | AnyInt z | AnyInt64 z | AnyDuration z => int64_ok z
  | AnyFloat f => z ← json_float_int f; int64_ok z
  | AnyNil => Some old
  | _ => None
  end.

(** A value [json.Marshal] refuses. *)
Fixpoint json_unsupported (v : GoAny) : bool :=
  match v with
  | AnyFloat S754_nan | AnyFloat (S754_infinity _) => true
  | AnyList l => existsb json_unsupported l
  | AnyMap m => existsb (fun kv => json_unsupported kv.2) m
  | _ => false
  end.

Definition key_le (a b : string * GoAny) : Prop := String.leb a.1 b.1 = true.
#[export] Instance key_le_dec : RelDecision key_le.
Proof. intros a b. unfold key_le. apply _. Defined.

Definition json_fields (C : Type) : Type := fields_of GoAny C.

(** Marshal writes the keys in order. *)
Definition json_round_trip {C} (fields : json_fields C) (raw : Params) (c : C) : option C :=
  let entries := merge_sort key_le (map_to_list raw) in
  if existsb (fun kv => json_unsupported kv.2) entries then None
  else foldl (json_store fields) (Some c) entries.

(** [rawCopy] without the duration keys. *)
Definition without (keys : list string) (raw : Params) : Params := foldr delete raw keys.

(** ** Run loops

    A loop takes one turn per ready case of its select until a turn returns. *)
Fixpoint run_turns {S T} (step : T -> S -> S * bool) (turns : list T) (s : S) : S * bool :=
  match turns with
  | [] => (s, false)
  | t :: turns' =>
      let '(s', stop) := step t s in
      if stop : bool then (s', true) else run_turns step turns' s'
  end.

(** An invariant of every turn is an invariant of the loop. *)
Lemma run_turns_invariant {S T} (step : T -> S -> S * bool) (ok : T -> Prop) (I : S -> Prop) turns s :
  (forall t s, ok t -> I s -> I (step t s).1) -> Forall ok turns -> I s ->
  I (run_turns step turns s).1.
Proof.
  intros Hstep Ht. revert s. induction Ht as [|t ts Hok Hts IH]; intros s Hs; [done|].
  cbn [run_turns]. pose proof (Hstep t s Hok Hs) as H1. destruct (step t s) as [s' []]; [done|].
  by apply IH.
Qed.

(** A loop on states with more fields, seen through a projection. *)
Lemma run_turns_project {S S' T} (f : S -> S') (step : T -> S -> S * bool) (step' : T -> S' -> S' * bool) turns s :
  (forall t s, step' t (f s) = (f (step t s).1, (step t s).2)) ->
  run_turns step' turns (f s) = (f (run_turns step turns s).1, (run_turns step turns s).2).
Proof.
  intros Hstep. revert s. induction turns as [|t turns IH]; intros s; [done|]. cbn [run_turns]. rewrite Hstep.
  destruct (step t s) as [s' []]; cbn [fst snd]; [done|apply IH].
Qed.

(** ** Calls that change a remote set

    A call that reports success has been applied.  One that reports an error may
    have been applied all the same, in part or in full, when only its answer was
    lost: after it the addresses it named are unsettled. *)
Inductive SetCall :=
  | Added (ips : list string) (ok : bool)
  | Deleted (ips : list string) (ok : bool).

(** What a call may do to the set. *)
Definition lossy (c : SetCall) (X Y : gset string) : Prop :=
  match c with
  | Added ips true => Y = X ∪ list_to_set ips
  | Deleted ips true => Y = X ∖ list_to_set ips
  | Added ips false | Deleted ips false => Y ∖ list_to_set ips = X ∖ list_to_set ips
  end.

(** The addresses whose last call reported an error. *)
Definition unsettle (u : gset string) (c : SetCall) : gset string :=
  match c with
  | Added ips true | Deleted ips true => u ∖ list_to_set ips
  | Added ips false | Deleted ips false => u ∪ list_to_set ips
  end.
Definition unsettled (log : list SetCall) : gset string := foldl unsettle ∅ log.

(** A set after the calls that reported success. *)
Definition confirm (X : gset string) (c : SetCall) : gset string :=
  match c with
  | Added ips true => X ∪ list_to_set ips
  | Deleted ips true => X ∖ list_to_set ips
  | _ => X
  end.
Definition confirmed (log : list SetCall) (X : gset string) : gset string := foldl confirm X log.

(** Two sets that differ at most in unsettled addresses. *)
Definition agree (u X Y : gset string) : Prop := forall ip, ip ∉ u -> (ip ∈ X <-> ip ∈ Y).

Lemma agree_refl u X : agree u X X.
Proof. done. Qed.

Lemma agree_call u c X Y Y' : lossy c Y Y' -> agree u X Y -> agree (unsettle u c) (confirm X c) Y'.
Proof.
  intros Hl Ha ip. specialize (Ha ip). destruct c as [ips ok|ips ok].
  all: assert (Hf : lossy (Added ips false) Y Y' -> ip ∉ u ∪ list_to_set ips -> ip ∈ X <-> ip ∈ Y') by
    (cbn; intros E Hip; rewrite Ha by set_solver;
     assert (ip ∈ Y ∖ list_to_set ips <-> ip ∈ Y' ∖ list_to_set ips) by (by rewrite E); set_solver).
  all: destruct ok; cbn in *; [subst Y'|by apply Hf]; intros Hip; destruct (decide (ip ∈ ips)); [set_solver|].
  all: specialize (Ha ltac:(set_solver)); set_solver.
Qed.

(** ** Sequences of calls of a remote service *)

(** Apply a stateful call to each argument in turn and collect the results. *)
Fixpoint call_all {W A B} (call : W -> A -> W * B) (w : W) (args : list A) : W * list B :=
  match args with
  | [] => (w, [])
  | a :: args' =>
      let '(w1, b) := call w a in
      let '(w2, bs) := call_all call w1 args' in
      (w2, b :: bs)
  end.

Lemma call_all_length {W A B} (call : W -> A -> W * B) w args :
  length (call_all call w args).2 = length args.
Proof.
  revert w. induction args as [|a args IH]; intros w; [done|]. cbn [call_all].
  destruct (call w a) as [w1 b]. specialize (IH w1). destruct (call_all call w1 args). simpl in *. lia.
Qed.

(** ** Expiring ban records (openwrt and opnsense)

    Both executors own the whole remote list and keep an expiry time per ban. *)

Record banRecord := mkBanRecord {
  br_ip : string;
  br_addedAt : Time;
  br_expireAt : Time
}.

Abbreviation BanMap := (gmap string banRecord) (only parsing).

Definition is_empty (s : string) : bool := String.eqb s EmptyString.

Definition ban_known (b : BanMap) (ip : string) : bool :=
  match b !! ip with Some _ => true | None => false end.

(** Record each address as banned from [now] for [ttl]. *)
Definition ban_all (now : Time) (ttl : Duration) (ips : list string) (b : BanMap) : BanMap :=
  foldl (fun b ip => <[ip := mkBanRecord ip now (time_Add now ttl)]> b) b ips.

Definition unban_all (ips : list string) (b : BanMap) : BanMap :=
  foldl (fun b ip => delete ip b) b ips.

Definition ban_expired (now : Time) (rec : banRecord) : bool := negb (time_After (br_expireAt rec) now).

Definition expired_ips `{MapRange} (now : Time) (b : BanMap) : list string :=
  (filter (fun kv => ban_expired now kv.2 = true) (map_range b)).*1.

Lemma ban_all_lookup now ttl ips b ip :
  ban_all now ttl ips b !! ip =
  if decide (ip ∈ ips) then Some (mkBanRecord ip now (time_Add now ttl)) else b !! ip.
Proof.
  unfold ban_all. revert b. induction ips as [|ip' ips IH]; intros b; [done|]. cbn [foldl]. rewrite IH.
  destruct (decide (ip ∈ ips)); [by rewrite decide_True by set_solver|].
  destruct (decide (ip = ip')) as [->|Hne].
  - rewrite decide_True by set_solver. by rewrite lookup_insert_eq.
  - rewrite decide_False by set_solver. by rewrite lookup_insert_ne.
Qed.

Lemma unban_all_lookup ips b ip :
  unban_all ips b !! ip = if decide (ip ∈ ips) then None else b !! ip.
Proof.
  unfold unban_all. revert b. induction ips as [|ip' ips IH]; intros b; [done|]. cbn [foldl].
  rewrite IH. destruct (decide (ip ∈ ips)); [by rewrite decide_True by set_solver|].
  destruct (decide (ip = ip')) as [->|Hne].
  - rewrite decide_True by set_solver. by rewrite lookup_delete_eq.
  - rewrite decide_False by set_solver. by rewrite lookup_delete_ne.
Qed.

Lemma ban_all_dom now ttl ips b : dom (ban_all now ttl ips b) = dom b ∪ list_to_set ips.
Proof.
  apply set_eq. intros ip. rewrite elem_of_union, !elem_of_dom, ban_all_lookup, elem_of_list_to_set.
  destruct (decide (ip ∈ ips)); naive_solver.
Qed.

Lemma unban_all_dom ips b : dom (unban_all ips b) = dom b ∖ list_to_set ips.
Proof.
  apply set_eq. intros ip. rewrite elem_of_difference, !elem_of_dom, unban_all_lookup, elem_of_list_to_set.
  destruct (decide (ip ∈ ips)); [|naive_solver]. split; [intros [? [=]]|tauto].
Qed.

Lemma expired_ips_spec `{MapRange} now b ip : ip ∈ expired_ips now b <->
  exists rec, b !! ip = Some rec /\ ban_expired now rec = true.
Proof.
  unfold expired_ips. rewrite list_elem_of_fmap. split.
  - intros ([ip' rec] & -> & [Hd Hin%elem_of_map_range]%list_elem_of_filter). by exists rec.
  - intros (rec & Hl & Hd). exists (ip, rec). split; [done|].
    apply list_elem_of_filter. split; [done|]. by apply elem_of_map_range.
Qed.
