(* ===== verification/NginxExec.v ===== *)
(** * The nginx executor (pkg/executorplugins/nginx)

    Configuration, the atomic file write, the ban list file and its parser, the
    expiry sweep and the run loop.  The file system is a map of paths; whether
    a system call fails is an input of each step. *)

From Stdlib Require Import ZArith Lia Ascii String.
From stdpp Require Import base numbers option list strings gmap fin_maps.
From S2P Require Import Prelude GoFloat GoStrings GoNet GoFmt GoValues GoTime GoJSON GoTimeJSON Model ExecCommon.

(** ** config.go *)

Record NginxConfig := mkNginxConfig {
  nc_ListFile : string;
  nc_StateFile : string;
  nc_MinLevel : string;
  nc_TTL : Duration;
  nc_BatchSize : Z;
  nc_FlushInterval : Duration;
  nc_ReloadCmd : string;
  nc_ReloadTimeout : Duration;
  nc_FileFormat : string
}.

Definition FileFormatGeo : string := "geo".
Definition FileFormatDeny : string := "deny".

Definition nginx_DefaultConfig : NginxConfig :=
  mkNginxConfig EmptyString EmptyString "THREAT" (24 * hour) 10 (30 * second) EmptyString
    (30 * second) FileFormatGeo.

(** The fields with a JSON name. *)
Definition nginx_fields : json_fields NginxConfig := [
  ("list_file", fun v c => s ← json_string v (nc_ListFile c);
     Some (mkNginxConfig s (nc_StateFile c) (nc_MinLevel c) (nc_TTL c) (nc_BatchSize c)
             (nc_FlushInterval c) (nc_ReloadCmd c) (nc_ReloadTimeout c) (nc_FileFormat c)));
  ("state_file", fun v c => s ← json_string v (nc_StateFile c);
     Some (mkNginxConfig (nc_ListFile c) s (nc_MinLevel c) (nc_TTL c) (nc_BatchSize c)
             (nc_FlushInterval c) (nc_ReloadCmd c) (nc_ReloadTimeout c) (nc_FileFormat c)));
  ("min_level", fun v c => s ← json_string v (nc_MinLevel c);
     Some (mkNginxConfig (nc_ListFile c) (nc_StateFile c) s (nc_TTL c) (nc_BatchSize c)
             (nc_FlushInterval c) (nc_ReloadCmd c) (nc_ReloadTimeout c) (nc_FileFormat c)));
  ("batch_size", fun v c => z ← json_int v (nc_BatchSize c);
     Some (mkNginxConfig (nc_ListFile c) (nc_StateFile c) (nc_MinLevel c) (nc_TTL c) z
             (nc_FlushInterval c) (nc_ReloadCmd c) (nc_ReloadTimeout c) (nc_FileFormat c)));
  ("reload_cmd", fun v c => s ← json_string v (nc_ReloadCmd c);
     Some (mkNginxConfig (nc_ListFile c) (nc_StateFile c) (nc_MinLevel c) (nc_TTL c) (nc_BatchSize c)
             (nc_FlushInterval c) s (nc_ReloadTimeout c) (nc_FileFormat c)));
  ("file_format", fun v c => s ← json_string v (nc_FileFormat c);
     Some (mkNginxConfig (nc_ListFile c) (nc_StateFile c) (nc_MinLevel c) (nc_TTL c) (nc_BatchSize c)
             (nc_FlushInterval c) (nc_ReloadCmd c) (nc_ReloadTimeout c) s))]%string.

Definition set_FileFormat (c : NginxConfig) (f : string) : NginxConfig :=
  mkNginxConfig (nc_ListFile c) (nc_StateFile c) (nc_MinLevel c) (nc_TTL c) (nc_BatchSize c)
    (nc_FlushInterval c) (nc_ReloadCmd c) (nc_ReloadTimeout c) f.

Definition nginx_parseConfig (raw : Params) : option NginxConfig :=
  let d := nginx_DefaultConfig in
  ttl ← duration_field raw "ttl" (nc_TTL d);
  fi ← duration_field raw "flush_interval" (nc_FlushInterval d);
  rt ← duration_field raw "reload_timeout" (nc_ReloadTimeout d);
  let c0 := mkNginxConfig (nc_ListFile d) (nc_StateFile d) (nc_MinLevel d) ttl (nc_BatchSize d)
              fi (nc_ReloadCmd d) rt (nc_FileFormat d) in
  c ← json_round_trip nginx_fields (without ["ttl"; "flush_interval"; "reload_timeout"] raw) c0;
  if String.eqb (nc_ListFile c) EmptyString then None
  else match levelOrder (nc_MinLevel c) with
       | None => None
       | Some _ =>
           if String.eqb (nc_FileFormat c) EmptyString then Some (set_FileFormat c FileFormatGeo)
           else if (String.eqb (nc_FileFormat c) FileFormatGeo ||
                    String.eqb (nc_FileFormat c) FileFormatDeny)%bool then Some c
           else None
       end.

(** ** executor.go: files *)

Abbreviation FS := (gmap string string) (only parsing).

(** Where [writeFile] fails, if it does; a failed write leaves a prefix of the
    data in the temporary file. *)
Inductive WriteFault :=
  | FailMkdir
  | FailCreate
  | FailWrite (written : string)
  | FailSync
  | FailClose
  | FailRename.

Definition tmp_path (path : string) : string := path +:+ ".tmp".

Definition writeFile (fault : option WriteFault) (path data : string) (fs : FS) : FS * bool :=
  let tmp := tmp_path path in
  match fault with
  | Some FailMkdir | Some FailCreate => (fs, false)
  | Some (FailWrite w) => (<[tmp := w]> fs, false)
  | Some FailSync | Some FailClose | Some FailRename => (<[tmp := data]> fs, false)
  | None => (<[path := data]> (delete tmp fs), true)
  end.

Definition nl : string := String newline EmptyString.

Definition fileHeader : string := "# managed by arxsentinel — do not edit manually" +:+ nl.

Definition ban_line (fmt ip : string) : string :=
  if String.eqb fmt FileFormatDeny then "deny " +:+ ip +:+ ";" else ip +:+ " 1;".

Definition list_content (fmt : string) (ips : list string) : string :=
  fileHeader +:+ foldr (fun ip acc => ban_line fmt ip +:+ nl +:+ acc) EmptyString ips.

Definition parseBannedLine (line fileFormat : string) : string :=
  if String.eqb fileFormat FileFormatDeny then
    if negb (HasSuffix line ";") then EmptyString
    else match Fields (TrimSuffix line ";") with
         | [a; b] => if String.eqb a "deny" then b else EmptyString
         | _ => EmptyString
         end
  else
    if negb (HasSuffix line " 1;") then EmptyString
    else TrimSpace (TrimSuffix line " 1;").

(** The scanner stops at a line that does not fit its buffer. *)
Fixpoint scan_until_long (ls : list string) : list string :=
  match ls with
  | [] => []
  | l :: ls' => if (65536 <=? Z.of_nat (String.length l))%Z then [] else l :: scan_until_long ls'
  end.

(** ** executor.go: state *)

Section executor.
Context {MR : MapRange}.

Record NginxExecutor := mkNginxExecutor {
  nx_cfg : NginxConfig;
  nx_banned : gmap string Time;
  nx_stats : ExecStats
}.

Definition NewNginxExecutor (raw : Params) : option NginxExecutor :=
  c ← nginx_parseConfig raw;
  if (nc_TTL c <=? 0)%Z then None else Some (mkNginxExecutor c ∅ stats_zero).

Definition nx_set_banned (e : NginxExecutor) (b : gmap string Time) : NginxExecutor :=
  mkNginxExecutor (nx_cfg e) b (nx_stats e).
Definition nx_map_stats (f : ExecStats -> ExecStats) (e : NginxExecutor) : NginxExecutor :=
  mkNginxExecutor (nx_cfg e) (nx_banned e) (f (nx_stats e)).

(** The faults of the calls of one flush, whether the context is done, and the
    offset of the location of each ban's time, which its JSON form shows. *)
Record NginxEnv := mkNginxEnv {
  env_done : bool;
  env_list_fault : option WriteFault;
  env_state_fault : option WriteFault;
  env_reload_ok : bool;
  env_zone : string -> Z
}.

Definition saveState (env : NginxEnv) (banned : gmap string Time) (e : NginxExecutor) (fs : FS)
  : NginxExecutor * FS :=
  if String.eqb (nc_StateFile (nx_cfg e)) EmptyString then (e, fs)
  else
    match encode_times (env_zone env) banned with
    | None => (nx_map_stats (add_errors 1) e, fs)
    | Some data =>
        let '(fs', ok) := writeFile (env_state_fault env) (nc_StateFile (nx_cfg e)) data fs in
        if ok : bool then (e, fs') else (nx_map_stats (add_errors 1) e, fs')
    end.

(** One line of the list file. *)
Definition sync_line (fmt : string) (stateMap : gmap string Time) (now : Time)
    (banned : gmap string Time) (raw_line : string) : gmap string Time :=
  let line := TrimSpace raw_line in
  if (String.eqb line EmptyString || HasPrefix line "#")%bool then banned
  else
    let ip := parseBannedLine line fmt in
    if String.eqb ip EmptyString then banned
    else <[ip := default now (stateMap !! ip)]> banned.

Definition nginx_syncExisting (now : Time) (e : NginxExecutor) (fs : FS) : NginxExecutor :=
  let stateMap :=
    if String.eqb (nc_StateFile (nx_cfg e)) EmptyString then ∅
    else match fs !! nc_StateFile (nx_cfg e) with
         | Some data => default ∅ (decode_times data)
         | None => ∅
         end in
  match fs !! nc_ListFile (nx_cfg e) with
  | None => e
  | Some data =>
      nx_set_banned e
        (foldl (sync_line (nc_FileFormat (nx_cfg e)) stateMap now) (nx_banned e)
           (scan_until_long (scan_lines data)))
  end.

Definition runReload (env : NginxEnv) (e : NginxExecutor) : NginxExecutor :=
  if String.eqb (nc_ReloadCmd (nx_cfg e)) EmptyString then e
  else if env_reload_ok env then e else nx_map_stats (add_errors 1) e.

Definition nginx_flush (env : NginxEnv) (banned : gmap string Time) (e : NginxExecutor) (fs : FS)
  : NginxExecutor * FS :=
  if env_done env then (e, fs)
  else if (size banned =? 0)%nat then (e, fs)
  else
    let content := list_content (nc_FileFormat (nx_cfg e)) (map_range banned).*1 in
    let '(fs1, ok) := writeFile (env_list_fault env) (nc_ListFile (nx_cfg e)) content fs in
    if negb ok then (nx_map_stats (add_errors 1) e, fs1)
    else
      let '(e2, fs2) := saveState env banned e fs1 in
      let e3 := runReload env e2 in
      (nx_map_stats (add_executed (Z.of_nat (size banned))) e3, fs2).

(** An IP has expired when more than the TTL has passed. *)
Definition nginx_expired (now : Time) (ttl : Duration) (addedAt : Time) : bool :=
  (ttl <? time_Sub now addedAt)%Z.

Definition nginx_sweep (now : Time) (env : NginxEnv) (e : NginxExecutor) (fs : FS)
  : NginxExecutor * FS :=
  let dead kv := nginx_expired now (nc_TTL (nx_cfg e)) kv.2 in
  let expired := filter (fun kv => dead kv = true) (map_range (nx_banned e)) in
  let banned' := foldl (fun m kv => delete kv.1 m) (nx_banned e) expired in
  if (length expired =? 0)%nat then (e, fs)
  else let e' := nx_set_banned e banned' in nginx_flush env banned' e' fs.

Definition flushLocked (env : NginxEnv) (e : NginxExecutor) (fs : FS) : NginxExecutor * FS :=
  nginx_flush env (nx_banned e) e fs.

Definition nginx_isDuplicate (e : NginxExecutor) (ip : string) : bool :=
  match nx_banned e !! ip with Some _ => true | None => false end.

(** ** executor.go: the run loop *)

Record NginxRun := mkNginxRun {
  nr_exec : NginxExecutor;
  nr_fs : FS;
  nr_buffer : list ThreatEvent
}.

Definition env_cancelled (env : NginxEnv) : NginxEnv :=
  mkNginxEnv true (env_list_fault env) (env_state_fault env) (env_reload_ok env) (env_zone env).

(** One turn of the loop; [true] when it returns. The turns that end the loop
    flush twice, the second time in [env']; a cancelled context stays so. *)
Definition nginx_step (now : Time) (env env' : NginxEnv) (r : NginxRun) (i : RunInput)
  : NginxRun * bool :=
  let e := nr_exec r in
  match i with
  | InDone =>
      let '(e1, fs1) := flushLocked (env_cancelled env) e (nr_fs r) in
      let '(e2, fs2) := nginx_sweep now (env_cancelled env') e1 fs1 in
      (mkNginxRun e2 fs2 (nr_buffer r), true)
  | InClosed =>
      let '(e1, fs1) := flushLocked env e (nr_fs r) in
      let '(e2, fs2) := nginx_sweep now env' e1 fs1 in
      (mkNginxRun e2 fs2 (nr_buffer r), true)
  | InEvent ev =>
      if negb (meetsMinLevel (nc_MinLevel (nx_cfg e)) (te_Level ev)) then
        (mkNginxRun (nx_map_stats (add_skipped 1) e) (nr_fs r) (nr_buffer r), false)
      else if nginx_isDuplicate e (te_IP ev) then
        (mkNginxRun (nx_map_stats (add_skipped 1) e) (nr_fs r) (nr_buffer r), false)
      else
        let e1 := nx_set_banned e (<[te_IP ev := now]> (nx_banned e)) in
        let buffer := nr_buffer r ++ [ev] in
        if (nc_BatchSize (nx_cfg e) <=? Z.of_nat (length buffer))%Z then
          let '(e2, fs2) := flushLocked env e1 (nr_fs r) in
          (mkNginxRun e2 fs2 [], false)
        else (mkNginxRun e1 (nr_fs r) buffer, false)
  | InFlushTick =>
      if (0 <? length (nr_buffer r))%nat then
        let '(e1, fs1) := flushLocked env e (nr_fs r) in (mkNginxRun e1 fs1 [], false)
      else (r, false)
  | InSweepTick =>
      let '(e1, fs1) := nginx_sweep now env e (nr_fs r) in
      (mkNginxRun e1 fs1 (nr_buffer r), false)
  end.

(** Sweep period of the loop: a quarter of the TTL within [15m, 30m]. *)
Definition nginx_sweepInterval (ttl : Duration) : Duration :=
  let s := Z.quot ttl 4 in
  let s := if (s <? 15 * minute)%Z then (15 * minute)%Z else s in
  if (30 * minute <? s)%Z then (30 * minute)%Z else s.

(** [Run]: the startup sync, then turns of the loop until it returns; each turn
    has its clock reading, the outcome of its system calls and its input.
    [None] is a panic: a ticker needs a positive period, a channel a capacity
    that is not negative. *)
Fixpoint nginx_loop (r : NginxRun) (turns : list (Time * NginxEnv * NginxEnv * RunInput))
  : NginxRun * bool :=
  match turns with
  | [] => (r, false)
  | (now, env, env', i) :: turns' =>
      let '(r', stop) := nginx_step now env env' r i in
      if stop : bool then (r', true) else nginx_loop r' turns'
  end.

Definition nginx_Run (now : Time) (e : NginxExecutor) (fs : FS)
    (turns : list (Time * NginxEnv * NginxEnv * RunInput)) : option (NginxRun * bool) :=
  if ((nc_FlushInterval (nx_cfg e) <=? 0) || (nc_BatchSize (nx_cfg e) <? 0))%Z then None
  else Some (nginx_loop (mkNginxRun (nginx_syncExisting now e fs) fs []) turns).

(** ** Lines of the list file *)

(** Addresses that survive a line: visible ASCII, not a comment, not longer
    than the scanner's buffer. *)
Definition clean_addr (ip : string) : bool :=
  (negb (String.eqb ip EmptyString) && string_forallb is_graph ip && negb (HasPrefix ip "#") &&
   (Z.of_nat (String.length ip) <=? 60000)%Z)%bool.

Lemma clean_addr_spec ip : clean_addr ip = true <->
  ip <> EmptyString /\ string_forallb is_graph ip = true /\ HasPrefix ip "#" = false /\
  (Z.of_nat (String.length ip) <= 60000)%Z.
Proof.
  unfold clean_addr. rewrite !andb_true_iff, !negb_true_iff, String.eqb_neq, Z.leb_le. tauto.
Qed.

(** A line ends in a semicolon. *)
Lemma ban_line_snoc fmt ip : exists m, ban_line fmt ip = m +:+ ";" /\
  (clean_addr ip = true -> exists a m', m = String a m' /\ is_graph a = true /\ a <> "#"%char).
Proof.
  unfold ban_line. destruct (String.eqb fmt FileFormatDeny).
  - exists ("deny " +:+ ip). split; [by rewrite string_app_assoc|]. intros _. by eexists _, _.
  - exists (ip +:+ " 1"). split; [by rewrite string_app_assoc|].
    intros (Hne & Hg & Hh & _)%clean_addr_spec. destruct ip as [|a ip]; [done|].
    cbn in Hg. apply andb_true_iff in Hg as [Hg _]. exists a, (ip +:+ " 1"). repeat split; [done|].
    intros ->. cbn in Hh. by destruct ip.
Qed.

Lemma ban_line_trim fmt ip : clean_addr ip = true ->
  TrimSpace (ban_line fmt ip) = ban_line fmt ip /\ ban_line fmt ip <> EmptyString /\
  HasPrefix (ban_line fmt ip) "#" = false.
Proof.
  intros H. destruct (ban_line_snoc fmt ip) as (m & -> & Hm).
  destruct (Hm H) as (a & m' & -> & Ha & Hn). cbn [String.append]. repeat split.
  - by apply TrimSpace_graph_ends.
  - done.
  - cbn [HasPrefix]. destruct (Ascii.eqb_spec "#"%char a); [by subst|done].
Qed.

(** [strings.Fields] of two words. *)
Lemma Fields_two a b : a <> EmptyString -> b <> EmptyString ->
  string_forallb is_graph a = true -> string_forallb is_graph b = true ->
  Fields (a +:+ " " +:+ b) = [a; b].
Proof.
  intros Ha Hb Ga Gb. unfold Fields.
  assert (Ht : forall w r, w <> EmptyString -> string_forallb is_graph w = true ->
    trim_left (w +:+ r) = w +:+ r).
  { intros [|c w] r Hw Gw; [done|]. cbn in Gw. apply andb_true_iff in Gw as [Gc _].
    cbn [String.append]. by apply trim_left_graph. }
  assert (Hn : forall w r, w <> EmptyString -> String.eqb (w +:+ r) EmptyString = false).
  { intros [|c w] r Hw; [done|]. done. }
  destruct a as [|a1 a']; [done|]. set (a := String a1 a') in *.
  cbn [fields_fuel]. rewrite Ht, Hn, word_span_graph by eauto. f_equal.
  replace (String.length (a +:+ " " +:+ b)) with (S (String.length a' + S (String.length b))).
  2:{ rewrite !string_length_app. subst a. simpl. lia. }
  cbn [fields_fuel]. change (trim_left (" " +:+ b)) with (trim_left b).
  destruct (String.length a' + S (String.length b)) eqn:E; [lia|].
  rewrite <- (string_app_nil_r b), Ht, Hn, word_span_graph by eauto. by rewrite string_app_nil_r.
Qed.

Lemma parse_ban_line fmt ip : clean_addr ip = true -> parseBannedLine (ban_line fmt ip) fmt = ip.
Proof.
  intros (Hne & Hg & _ & _)%clean_addr_spec. unfold parseBannedLine, ban_line.
  destruct (String.eqb fmt FileFormatDeny).
  - replace ("deny " +:+ ip +:+ ";") with (("deny " +:+ ip) +:+ ";") by apply string_app_assoc.
    assert (HasSuffix (("deny " +:+ ip) +:+ ";") ";" = true) as ->
      by (apply HasSuffix_spec; by eexists).
    cbn [negb]. rewrite TrimSuffix_app.
    change ("deny " +:+ ip) with ("deny" +:+ " " +:+ ip). by rewrite Fields_two.
  - assert (HasSuffix (ip +:+ " 1;") " 1;" = true) as -> by (apply HasSuffix_spec; by eexists).
    cbn [negb]. rewrite TrimSuffix_app. by apply TrimSpace_graph.
Qed.

Lemma sync_line_ban fmt st now b ip : clean_addr ip = true ->
  sync_line fmt st now b (ban_line fmt ip) = <[ip := default now (st !! ip)]> b.
Proof.
  intros H. destruct (ban_line_trim fmt ip H) as (Ht & Hn & Hp). unfold sync_line.
  rewrite Ht, Hp, parse_ban_line by done. apply String.eqb_neq in Hn. rewrite Hn. simpl.
  apply clean_addr_spec in H as (Hne & _). by apply String.eqb_neq in Hne as ->.
Qed.

Lemma sync_ban_lines fmt st now ips b : Forall (fun ip => clean_addr ip = true) ips ->
  foldl (sync_line fmt st now) b (ban_line fmt <$> ips) =
  foldl (fun m ip => <[ip := default now (st !! ip)]> m) b ips.
Proof.
  intros Hc. revert b. induction Hc as [|ip ips Hi Hips IH]; intros b; [done|].
  cbn [fmap list_fmap foldl]. by rewrite sync_line_ban, IH.
Qed.

(** Reading back the lines of a list file. *)
Lemma graph_free_of s : string_forallb is_graph s = true -> free_of newline s = true.
Proof.
  intros H. unfold free_of. eapply string_forallb_impl; [|exact H].
  intros c (_ & _ & _ & Hc)%graph_not_space. by rewrite Hc.
Qed.

Lemma ban_line_free fmt ip : clean_addr ip = true -> free_of newline (ban_line fmt ip) = true.
Proof.
  intros (_ & Hg%graph_free_of & _)%clean_addr_spec. unfold free_of, ban_line in *.
  destruct (String.eqb fmt FileFormatDeny); rewrite !string_forallb_app, Hg; done.
Qed.

Definition header_line : string := "# managed by arxsentinel — do not edit manually".

Lemma list_content_split fmt ips : Forall (fun ip => clean_addr ip = true) ips ->
  Split (list_content fmt ips) newline = header_line :: (ban_line fmt <$> ips) ++ [EmptyString].
Proof.
  intros Hc. unfold list_content, fileHeader, nl. rewrite string_app_assoc.
  change (String newline EmptyString +:+ ?x) with (String newline x).
  rewrite Split_app_sep by (vm_compute; reflexivity). f_equal.
  induction Hc as [|ip ips Hi Hips IH]; [done|]. cbn [foldr fmap list_fmap].
  change (String newline EmptyString +:+ ?x) with (String newline x).
  rewrite Split_app_sep by by apply ban_line_free. by rewrite IH.
Qed.

Lemma drop_cr_id s c : c <> carriage -> drop_cr (s +:+ String c EmptyString) = s +:+ String c EmptyString.
Proof.
  intros Hc. unfold drop_cr, TrimSuffix. destruct (HasSuffix _ _) eqn:E; [|done].
  apply HasSuffix_spec in E as [r Hr]. apply string_snoc_inj in Hr as [_ ?]. by subst.
Qed.

Lemma list_content_scan fmt ips : Forall (fun ip => clean_addr ip = true) ips ->
  scan_lines (list_content fmt ips) = header_line :: (ban_line fmt <$> ips).
Proof.
  intros Hc. unfold scan_lines. rewrite list_content_split by done.
  rewrite app_comm_cons, last_snoc. cbn [String.eqb].
  rewrite length_app, Nat.add_sub, take_app_length.
  rewrite fmap_cons. apply (f_equal2 cons); [by vm_compute|].
  rewrite <- list_fmap_compose. apply list_fmap_ext. intros i ip _. simpl.
  destruct (ban_line_snoc fmt ip) as (m & -> & _). apply drop_cr_id. done.
Qed.

Lemma scan_until_long_all ls : Forall (fun l => Z.of_nat (String.length l) < 65536)%Z ls ->
  scan_until_long ls = ls.
Proof.
  induction 1 as [|l ls Hl Hls IH]; [done|]. simpl. rewrite IH.
  destruct (Z.leb_spec 65536 (Z.of_nat (String.length l))); [lia|done].
Qed.

Lemma list_content_lines fmt ips : Forall (fun ip => clean_addr ip = true) ips ->
  scan_until_long (scan_lines (list_content fmt ips)) = header_line :: (ban_line fmt <$> ips).
Proof.
  intros Hc. rewrite list_content_scan by done. apply scan_until_long_all. constructor; [by vm_compute|].
  apply Forall_fmap. eapply Forall_impl; [exact Hc|]. intros ip (_ & _ & _ & Hl)%clean_addr_spec. simpl.
  unfold ban_line. destruct (String.eqb _ _); rewrite !string_length_app; cbn [String.length]; lia.
Qed.

(** Inserting the keys of a map one by one. *)
Lemma insert_keys_lookup {A} (f : string -> A) ks (m : gmap string A) k :
  foldl (fun m k => <[k := f k]> m) m ks !! k = if decide (k ∈ ks) then Some (f k) else m !! k.
Proof.
  revert m. induction ks as [|k' ks IH]; intros m; [done|]. cbn [foldl]. rewrite IH.
  destruct (decide (k ∈ ks)); [by rewrite decide_True by set_solver|].
  destruct (decide (k = k')) as [->|Hne].
  - rewrite decide_True by set_solver. by rewrite lookup_insert_eq.
  - rewrite decide_False by set_solver. by rewrite lookup_insert_ne.
Qed.

Lemma elem_of_map_range_fst {A} (m : gmap string A) k :
  k ∈ (map_range m).*1 <-> is_Some (m !! k).
Proof.
  rewrite list_elem_of_fmap. split.
  - intros ([k' x] & -> & Hin). apply elem_of_map_range in Hin. by eexists.
  - intros [x Hx]. exists (k, x). split; [done|]. by apply elem_of_map_range.
Qed.

(** ** Writes *)

Lemma writeFile_at fault path data fs :
  (writeFile fault path data fs).1 !! path =
  if (writeFile fault path data fs).2 then Some data else fs !! path.
Proof.
  assert (Hne : tmp_path path <> path).
  { unfold tmp_path. intros He. apply (f_equal String.length) in He.
    rewrite string_length_app in He. cbn in He. lia. }
  destruct fault as [[]|]; simpl; rewrite ?lookup_insert_ne, ?lookup_insert_eq by done; done.
Qed.

Lemma writeFile_other fault path data fs p : p <> path -> p <> tmp_path path ->
  (writeFile fault path data fs).1 !! p = fs !! p.
Proof.
  intros Hp Ht. destruct fault as [[]|]; simpl; rewrite ?lookup_insert_ne by done; try done.
  by rewrite lookup_delete_ne.
Qed.

(** The paths of a configuration do not collide. *)
Definition paths_apart (c : NginxConfig) : Prop :=
  nc_StateFile c <> nc_ListFile c /\ nc_ListFile c <> tmp_path (nc_StateFile c).

(** The context is live and the list file can be written. *)
Definition healthy (env : NginxEnv) : Prop := env_done env = false /\ env_list_fault env = None.

Lemma saveState_list env banned e fs : paths_apart (nx_cfg e) ->
  (saveState env banned e fs).2 !! nc_ListFile (nx_cfg e) = fs !! nc_ListFile (nx_cfg e).
Proof.
  intros [H1 H2]. unfold saveState. case_match; [done|]. destruct (encode_times _ banned) as [d|]; [|done].
  pose proof (writeFile_other (env_state_fault env) (nc_StateFile (nx_cfg e)) d fs
    (nc_ListFile (nx_cfg e)) ltac:(done) ltac:(done)) as Hw.
  destruct (writeFile _ _ _ _) as [fs' []]; done.
Qed.

Lemma saveState_cfg env banned e fs : nx_cfg (saveState env banned e fs).1 = nx_cfg e /\
  nx_banned (saveState env banned e fs).1 = nx_banned e.
Proof.
  unfold saveState. case_match; [done|]. destruct (encode_times _ banned); [|done].
  by destruct (writeFile _ _ _ _) as [fs' []].
Qed.

Lemma runReload_cfg env e :
  nx_cfg (runReload env e) = nx_cfg e /\ nx_banned (runReload env e) = nx_banned e.
Proof. unfold runReload. by repeat case_match. Qed.

(** A flush as its three stages. *)
Lemma flush_stages env b e fs :
  nginx_flush env b e fs =
  if (env_done env || (size b =? 0)%nat)%bool then (e, fs)
  else
    let w := writeFile (env_list_fault env) (nc_ListFile (nx_cfg e))
               (list_content (nc_FileFormat (nx_cfg e)) (map_range b).*1) fs in
    if w.2 then
      let s := saveState env b e w.1 in
      (nx_map_stats (add_executed (Z.of_nat (size b))) (runReload env s.1), s.2)
    else (nx_map_stats (add_errors 1) e, w.1).
Proof.
  unfold nginx_flush. destruct (env_done env), (size b =? 0)%nat; try done. cbn [orb].
  destruct (writeFile _ _ _ _) as [fs1 []]; [|done]. cbn. by destruct (saveState _ _ _ _).
Qed.

Lemma flush_cfg env b e fs : nx_cfg (nginx_flush env b e fs).1 = nx_cfg e /\
  nx_banned (nginx_flush env b e fs).1 = nx_banned e.
Proof.
  rewrite flush_stages. destruct (env_done env || _)%bool; [done|]. cbv zeta.
  destruct (writeFile _ _ _ _) as [fs1 []]; [|done]. cbn.
  destruct (runReload_cfg env (saveState env b e fs1).1) as [-> ->]. apply saveState_cfg.
Qed.

(** A flush of a healthy executor replaces the list file and nothing else but
    the temporary and the state files. *)
Lemma flush_list env b e fs : healthy env -> paths_apart (nx_cfg e) -> b <> ∅ ->
  (nginx_flush env b e fs).2 !! nc_ListFile (nx_cfg e) =
  Some (list_content (nc_FileFormat (nx_cfg e)) (map_range b).*1).
Proof.
  intros [Hd Hl] Hp Hb. rewrite flush_stages, Hd.
  destruct (Nat.eqb_spec (size b) 0) as [Hs|_]; [by apply map_size_empty_inv in Hs|]. cbn [orb]. cbv zeta.
  pose proof (writeFile_at (env_list_fault env) (nc_ListFile (nx_cfg e))
    (list_content (nc_FileFormat (nx_cfg e)) (map_range b).*1) fs) as Hw.
  rewrite Hl in *. cbn in Hw |- *. by rewrite saveState_list.
Qed.

Lemma flush_nothing env b e fs : env_done env = true \/ b = ∅ -> nginx_flush env b e fs = (e, fs).
Proof.
  intros H. rewrite flush_stages. destruct H as [-> | ->]; [done|]. rewrite map_size_empty.
  by rewrite orb_true_r.
Qed.

(** ** The expiry sweep *)

Definition survivors (now : Time) (ttl : Duration) (banned : gmap string Time) : gmap string Time :=
  filter (fun kv => nginx_expired now ttl kv.2 = false) banned.

Lemma delete_all_lookup {A} (l : list (string * A)) (m : gmap string A) k :
  foldl (fun m kv => delete kv.1 m) m l !! k = if decide (k ∈ l.*1) then None else m !! k.
Proof.
  revert m. induction l as [|[k' x] l IH]; intros m; [done|]. cbn [foldl fmap list_fmap fst].
  rewrite IH. destruct (decide (k ∈ l.*1)); [by rewrite decide_True by set_solver|].
  destruct (decide (k = k')) as [->|Hne].
  - rewrite decide_True by set_solver. by rewrite lookup_delete_eq.
  - rewrite decide_False by set_solver. by rewrite lookup_delete_ne.
Qed.

(** Deleting what a scan of the map selects keeps the rest. *)
Lemma delete_selected {A} (dead : string * A -> bool) (m : gmap string A) :
  foldl (fun m kv => delete kv.1 m) m (filter (fun kv => dead kv = true) (map_range m)) =
  filter (fun kv => dead kv = false) m.
Proof.
  apply map_eq. intros k. rewrite delete_all_lookup. destruct (decide _) as [Hin|Hout].
  - symmetry. apply map_lookup_filter_None. right. intros x Hx.
    apply list_elem_of_fmap in Hin as ([k' y] & -> & Hy). apply list_elem_of_filter in Hy as [Hd Hy].
    apply elem_of_map_range in Hy. simpl in *. rewrite Hx in Hy. injection Hy as ->. by rewrite Hd.
  - destruct (m !! k) as [x|] eqn:Hx.
    + symmetry. apply map_lookup_filter_Some. split; [done|]. apply not_true_iff_false. intros Hd.
      apply Hout, list_elem_of_fmap. exists (k, x). split; [done|].
      apply list_elem_of_filter. split; [done|]. by apply elem_of_map_range.
    + symmetry. apply map_lookup_filter_None. by left.
Qed.

Lemma select_none {A} (dead : string * A -> bool) (m : gmap string A) :
  length (filter (fun kv => dead kv = true) (map_range m)) = 0 ->
  filter (fun kv => dead kv = false) m = m.
Proof.
  intros H. rewrite <- (delete_selected dead m). by rewrite (nil_length_inv _ H).
Qed.

(** A sweep: drop the expired bans, then flush what is left. *)
Lemma sweep_stages now env e fs :
  let b := survivors now (nc_TTL (nx_cfg e)) (nx_banned e) in
  nginx_sweep now env e fs =
  if decide (b = nx_banned e) then (e, fs) else nginx_flush env b (nx_set_banned e b) fs.
Proof.
  intros b. unfold nginx_sweep. cbv zeta.
  set (dead := fun kv : string * Time => nginx_expired now (nc_TTL (nx_cfg e)) kv.2).
  replace (foldl _ (nx_banned e) _) with b by (symmetry; exact (delete_selected dead (nx_banned e))).
  change (filter _ (map_range (nx_banned e)))
    with (filter (fun kv => dead kv = true) (map_range (nx_banned e))).
  destruct (Nat.eqb_spec (length (filter (fun kv => dead kv = true) (map_range (nx_banned e)))) 0)
    as [Hn|Hn].
  - rewrite decide_True; [done|]. exact (select_none dead _ Hn).
  - rewrite decide_False; [done|]. intros Heq. apply Hn.
    destruct (filter _ (map_range _)) as [|[k x] l] eqn:Hf; [done|].
    assert (Hin : (k, x) ∈ filter (fun kv => dead kv = true) (map_range (nx_banned e)))
      by (rewrite Hf; set_solver).
    apply list_elem_of_filter in Hin as [Hd Hin]. apply elem_of_map_range in Hin.
    rewrite <- Heq in Hin. apply map_lookup_filter_Some in Hin as [_ Hin].
    unfold dead in Hd. congruence.
Qed.

Lemma sweep_banned now env e fs :
  nx_banned (nginx_sweep now env e fs).1 = survivors now (nc_TTL (nx_cfg e)) (nx_banned e) /\
  nx_cfg (nginx_sweep now env e fs).1 = nx_cfg e.
Proof.
  rewrite sweep_stages. case_decide as Hd; [by rewrite Hd|].
  by destruct (flush_cfg env (survivors now (nc_TTL (nx_cfg e)) (nx_banned e))
    (nx_set_banned e (survivors now (nc_TTL (nx_cfg e)) (nx_banned e))) fs) as [-> ->].
Qed.

(** ** What a restart finds *)

(** The bans a fresh executor of configuration [c] reads. *)
Definition listed (c : NginxConfig) (fs : FS) (now : Time) : gmap string Time :=
  nx_banned (nginx_syncExisting now (mkNginxExecutor c ∅ stats_zero) fs).

Definition all_clean {A} (b : gmap string A) : Prop :=
  forall ip, is_Some (b !! ip) -> clean_addr ip = true.

Lemma all_clean_keys {A} (b : gmap string A) : all_clean b ->
  Forall (fun ip => clean_addr ip = true) (map_range b).*1.
Proof. intros H. apply Forall_forall. intros ip Hip%elem_of_map_range_fst. by apply H. Qed.

Lemma clean_utf8 ip : clean_addr ip = true -> valid_utf8 ip = true.
Proof. intros (_ & H & _)%clean_addr_spec. by apply graph_utf8. Qed.

Lemma clean_times_ok zone (b : gmap string Time) : (forall ip, is_Some (b !! ip) -> (zone ip mod 60)%Z = 0%Z) -> all_clean b ->
  times_ok zone b.
Proof. intros Hz Hc ip Hip. split; [by apply Hz|]. by apply clean_utf8, Hc. Qed.

(** The state map of [syncExisting]. *)
Definition state_map (c : NginxConfig) (fs : FS) : gmap string Time :=
  if String.eqb (nc_StateFile c) EmptyString then ∅
  else match fs !! nc_StateFile c with
       | Some data => default ∅ (decode_times data)
       | None => ∅
       end.

(** Reading back a written list. *)
Lemma sync_written c fs now (b : gmap string Time) ip : all_clean b ->
  fs !! nc_ListFile c = Some (list_content (nc_FileFormat c) (map_range b).*1) ->
  listed c fs now !! ip =
  match b !! ip with Some _ => Some (default now (state_map c fs !! ip)) | None => None end.
Proof.
  intros Hc%all_clean_keys Hf. unfold listed, nginx_syncExisting. cbn [nx_cfg nx_banned].
  rewrite Hf. cbn [nx_set_banned nx_banned]. rewrite list_content_lines by done. cbn [foldl].
  replace (sync_line _ _ _ ∅ header_line) with (∅ : gmap string Time) by (by vm_compute).
  rewrite sync_ban_lines by done. fold (state_map c fs).
  rewrite (insert_keys_lookup (fun ip => default now (state_map c fs !! ip))).
  destruct (decide _) as [Hin|Hin].
  - apply elem_of_map_range_fst in Hin as [x ->]. done.
  - rewrite elem_of_map_range_fst in Hin. destruct (b !! ip) eqn:E; [exfalso; apply Hin; by eexists|done].
Qed.

(** Which addresses a sync finds does not depend on the clock or the state file. *)
Lemma sync_line_dom fmt st st' now now' (b b' : gmap string Time) l : dom b = dom b' ->
  dom (sync_line fmt st now b l) = dom (sync_line fmt st' now' b' l).
Proof. intros H. unfold sync_line. do 2 (case_match; [done|]). by rewrite !dom_insert_L, H. Qed.

Lemma listed_dom c fs fs' now now' : fs !! nc_ListFile c = fs' !! nc_ListFile c ->
  dom (listed c fs now) = dom (listed c fs' now').
Proof.
  intros Hf. unfold listed, nginx_syncExisting. cbn [nx_cfg nx_banned]. rewrite <- Hf.
  destruct (fs !! nc_ListFile c) as [data|]; [|done]. cbn [nx_set_banned nx_banned].
  fold (state_map c fs) (state_map c fs').
  assert (Hd : forall ls b b', dom b = dom b' ->
    dom (foldl (sync_line (nc_FileFormat c) (state_map c fs) now) b ls) =
    dom (foldl (sync_line (nc_FileFormat c) (state_map c fs') now') b' ls)).
  { induction ls as [|l ls IH]; intros b b' Hb; [done|]. cbn [foldl].
    apply IH. by apply sync_line_dom. }
  by apply Hd.
Qed.

Lemma flush_listed env b e fs now : healthy env -> paths_apart (nx_cfg e) -> b <> ∅ -> all_clean b ->
  dom (listed (nx_cfg e) (nginx_flush env b e fs).2 now) = dom b.
Proof.
  intros Hh Hp Hb Hc. apply set_eq. intros ip. rewrite !elem_of_dom.
  rewrite (sync_written _ _ _ b) by (try done; by apply flush_list).
  by destruct (b !! ip).
Qed.

(** ** Properties *)

(** [writeFile] is atomic for the target: wherever it fails, the target keeps
    its old content, and only a reported success replaces it, by exactly the new
    content; of the other files only the temporary one can change. *)
Theorem nginx_write_atomic fault path data fs :
  let '(fs', ok) := writeFile fault path data fs in
  fs' !! path = (if ok then Some data else fs !! path) /\
  (forall p, p ∉ [path; tmp_path path] -> fs' !! p = fs !! p) /\
  (ok = true <-> fault = None).
Proof.
  pose proof (writeFile_at fault path data fs) as H1.
  pose proof (writeFile_other fault path data fs) as H2.
  destruct (writeFile fault path data fs) as [fs' ok] eqn:E. repeat split.
  - done.
  - intros p Hp. apply H2; set_solver.
  - destruct fault as [[]|]; cbn in E; by inv_clear E.
  - intros ->. cbn in E. by inv_clear E.
Qed.


(** a sweep removes exactly the bans older than the TTL; when none is, it
    touches nothing; when some but not all are, the list file of a healthy
    executor afterwards holds exactly the survivors. *)
Theorem nginx_sweep_exact now env e fs :
  paths_apart (nx_cfg e) -> healthy env -> all_clean (nx_banned e) ->
  let alive := survivors now (nc_TTL (nx_cfg e)) (nx_banned e) in
  let '(e', fs') := nginx_sweep now env e fs in
  nx_banned e' = alive /\
  (forall ip t, nx_banned e' !! ip = Some t <->
     nx_banned e !! ip = Some t /\ (time_Sub now t <= nc_TTL (nx_cfg e))%Z) /\
  (alive = nx_banned e -> fs' = fs) /\
  (alive <> nx_banned e -> alive <> ∅ -> dom (listed (nx_cfg e) fs' now) = dom alive).
Proof.
  intros Hp Hh Hc alive. destruct (sweep_banned now env e fs) as [Hb Hcfg].
  pose proof (sweep_stages now env e fs) as Hst. cbv zeta in Hst. fold alive in Hst, Hb.
  destruct (nginx_sweep now env e fs) as [e' fs']. cbn [fst] in *. rewrite Hb. repeat split.
  - unfold alive, survivors in H. apply map_lookup_filter_Some in H as [H _]. done.
  - unfold alive, survivors in H. apply map_lookup_filter_Some in H as [_ H]. cbn in H.
    unfold nginx_expired in H. by b2p.
  - intros [H1 H2]. apply map_lookup_filter_Some. split; [done|]. cbn. unfold nginx_expired. by apply Z.ltb_ge.
  - intros Ha. rewrite decide_True in Hst by done. by inv_clear Hst.
  - intros Ha Hne. rewrite decide_False in Hst by done.
    pose proof (flush_listed env alive (nx_set_banned e alive) fs now Hh Hp Hne) as Hl.
    rewrite <- Hst in Hl. apply Hl. intros ip [t Ht]. apply Hc.
    apply map_lookup_filter_Some in Ht as [Ht _]. by eexists.
Qed.

(** when the sweep expires the last bans, the in-memory map becomes empty
    but no file is written: the list file keeps the expired addresses (against
    the comment "even if len(e.banned) == 0, still write the file to clear all
    bans"), and a restart reads them back. *)
Theorem nginx_sweep_last_ban_stays now env e fs :
  nx_banned e <> ∅ -> survivors now (nc_TTL (nx_cfg e)) (nx_banned e) = ∅ ->
  nginx_sweep now env e fs = (nx_set_banned e ∅, fs).
Proof.
  intros Hne He. rewrite sweep_stages, He. rewrite decide_False by done.
  by apply flush_nothing; right.
Qed.

(** ** No ban is lost *)

(** Every ban is in the list file or pending in the buffer. *)
Definition run_covered (c : NginxConfig) (r : NginxRun) : Prop :=
  nx_cfg (nr_exec r) = c /\ all_clean (nx_banned (nr_exec r)) /\
  forall ip, is_Some (nx_banned (nr_exec r) !! ip) ->
    ip ∈ dom (listed c (nr_fs r) 0%Z) \/ ip ∈ te_IP <$> nr_buffer r.

(** The list file holds every ban. *)
Definition run_saved (c : NginxConfig) (r : NginxRun) : Prop :=
  forall ip, is_Some (nx_banned (nr_exec r) !! ip) -> ip ∈ dom (listed c (nr_fs r) 0%Z).

Definition turn_healthy (t : Time * NginxEnv * NginxEnv * RunInput) : Prop :=
  let '(_, env, env', i) := t in
  healthy env /\ healthy env' /\
  match i with InDone => False | InEvent ev => clean_addr (te_IP ev) = true | _ => True end.

Lemma flush_covers c env e fs buf : nx_cfg e = c -> paths_apart c -> healthy env ->
  all_clean (nx_banned e) ->
  let '(e', fs') := flushLocked env e fs in
  run_covered c (mkNginxRun e' fs' buf) /\ run_saved c (mkNginxRun e' fs' buf).
Proof.
  intros Hcfg Hp Hh Hc. unfold flushLocked, run_covered, run_saved.
  destruct (flush_cfg env (nx_banned e) e fs) as [Hcf Hb].
  destruct (nginx_flush env (nx_banned e) e fs) as [e' fs'] eqn:E. cbn in Hcf, Hb |- *.
  rewrite Hcf, Hb. assert (Hs : forall ip, is_Some (nx_banned e !! ip) -> ip ∈ dom (listed c fs' 0%Z)).
  { intros ip Hip. pose proof (flush_listed env (nx_banned e) e fs 0%Z) as Hl.
    rewrite Hcfg, E in Hl. cbn in Hl. rewrite Hl; try done; [by apply elem_of_dom|].
    intros He. rewrite He in Hip. by destruct Hip. }
  repeat split; eauto.
Qed.

Lemma sweep_covers c now env r : paths_apart c -> healthy env -> run_covered c r ->
  let '(e', fs') := nginx_sweep now env (nr_exec r) (nr_fs r) in
  run_covered c (mkNginxRun e' fs' (nr_buffer r)) /\
  (run_saved c r -> run_saved c (mkNginxRun e' fs' (nr_buffer r))).
Proof.
  intros Hp Hh (Hcfg & Hc & Hcov). destruct (sweep_banned now env (nr_exec r) (nr_fs r)) as [Hb Hcf].
  pose proof (sweep_stages now env (nr_exec r) (nr_fs r)) as Hst. cbv zeta in Hst.
  set (b := survivors _ _ _) in *. destruct (nginx_sweep now env _ _) as [e' fs'].
  assert (Hsub : forall ip, is_Some (b !! ip) -> is_Some (nx_banned (nr_exec r) !! ip)).
  { intros ip [t Ht]. apply map_lookup_filter_Some in Ht as [Ht _]. by eexists. }
  unfold run_covered, run_saved. cbn in *. rewrite Hb, Hcf.
  destruct (decide (b = nx_banned (nr_exec r))) as [Heq|Hne].
  { inversion Hst. subst fs' e'. rewrite Heq. repeat split; auto. }
  assert (Hsv : forall ip, is_Some (b !! ip) -> ip ∈ dom (listed c fs' 0%Z)).
  { intros ip Hip. pose proof (flush_listed env b (nx_set_banned (nr_exec r) b) (nr_fs r) 0%Z) as Hl.
    rewrite <- Hst in Hl. cbn in Hl. rewrite Hcfg in Hl. rewrite Hl; try done.
    - by apply elem_of_dom.
    - intros He. rewrite He in Hip. by destruct Hip.
    - intros ip' Hip'. by apply Hc, Hsub. }
  repeat split; auto. intros ip Hip. by apply Hc, Hsub.
Qed.

Lemma step_covers c now env env' r i : paths_apart c -> turn_healthy (now, env, env', i) ->
  run_covered c r -> let '(r', stop) := nginx_step now env env' r i in
  run_covered c r' /\ (stop = true -> run_saved c r').
Proof.
  intros Hp (Hh & Hh' & Hi) Hr. pose proof Hr as (Hcfg & Hc & Hcov).
  pose proof (fun buf => flush_covers c env (nr_exec r) (nr_fs r) buf Hcfg Hp Hh Hc) as Hfl.
  destruct i as [ev| | | |]; [| | | |done]; cbn [nginx_step].
  - destruct (negb _); [split; [done|done]|]. destruct (nginx_isDuplicate _ _); [split; [done|done]|].
    set (e1 := nx_set_banned _ _).
    assert (Hc1 : all_clean (nx_banned e1)).
    { intros ip Hip. cbn in Hip. destruct (decide (ip = te_IP ev)) as [->|Hne]; [done|].
      rewrite lookup_insert_ne in Hip by done. by apply Hc. }
    destruct (_ <=? _)%Z.
    + pose proof (flush_covers c env e1 (nr_fs r) [] Hcfg Hp Hh Hc1) as Hfl1.
      destruct (flushLocked env e1 (nr_fs r)). destruct Hfl1. split; done.
    + split; [|done]. split; [done|]. split; [done|]. cbn. intros ip Hip.
      rewrite fmap_app. destruct (decide (ip = te_IP ev)) as [->|Hne]; [right; set_solver|].
      rewrite lookup_insert_ne in Hip by done. apply Hcov in Hip. set_solver.
  - destruct (0 <? _)%nat; [|split; done]. specialize (Hfl []).
    destruct (flushLocked env _ _). destruct Hfl. split; done.
  - pose proof (sweep_covers c now env r Hp Hh Hr) as Hs.
    destruct (nginx_sweep now env _ _). destruct Hs. split; done.
  - specialize (Hfl (nr_buffer r)). destruct (flushLocked env _ _) as [e1 fs1]. destruct Hfl as [Hf1 Hf2].
    pose proof (sweep_covers c now env' _ Hp Hh' Hf1) as Hs. cbn in Hs.
    destruct (nginx_sweep now env' e1 fs1). destruct Hs. split; auto.
Qed.

Lemma loop_covers c turns r : paths_apart c -> Forall turn_healthy turns -> run_covered c r ->
  let '(r', stop) := nginx_loop r turns in run_covered c r' /\ (stop = true -> run_saved c r').
Proof.
  intros Hp Ht. revert r. induction Ht as [|[[[now env] env'] i] turns Hi Hts IH]; intros r Hr.
  { by split. }
  cbn [nginx_loop]. pose proof (step_covers c now env env' r i Hp Hi Hr) as Hs.
  destruct (nginx_step now env env' r i) as [r' []]; [done|]. apply IH, Hs.
Qed.


End executor.

(** ** Witnesses *)

Definition ex_times : gmap string Time := {["10.0.0.1" := (5 * hour)%Z]}.
Definition ex_nginx_cfg (state : string) : NginxConfig :=
  mkNginxConfig "/l" state "THREAT" (24 * hour) 2 (30 * second) "nginx -s reload" (30 * second)
    FileFormatDeny.
Definition ex_env : NginxEnv := mkNginxEnv false None None true (fun _ => 7200%Z).

Lemma ex_paths : paths_apart (ex_nginx_cfg "/s").
Proof. split; by vm_compute. Qed.

Lemma ex_healthy : healthy ex_env.
Proof. done. Qed.

Lemma ex_times_clean : all_clean ex_times.
Proof.
  intros ip [t Ht]. unfold ex_times in Ht. apply lookup_singleton_Some in Ht as [<- _]. by vm_compute.
Qed.


(** The state file shows the zone of the clock, not UTC. *)
Lemma state_file_local_zone :
  let fs' := (@nginx_flush map_range_canonical ex_env ex_times (mkNginxExecutor (ex_nginx_cfg "/s") ex_times stats_zero) ∅).2 in
  fs' !! "/s" = Some (Marshal (JObject [("10.0.0.1", JString "0001-01-01T07:00:00+02:00")])).
Proof. vm_compute. reflexivity. Qed.

Definition ex_two : gmap string Time := <["10.0.0.2" := (40 * hour)%Z]> ex_times.

Lemma nginx_sweep_exact_witness :
  let e := mkNginxExecutor (ex_nginx_cfg "/s") ex_two stats_zero in
  nx_banned (@nginx_sweep map_range_canonical (50 * hour) ex_env e ∅).1 =
    {["10.0.0.2" := (40 * hour)%Z]}.
Proof.
  cbv zeta. set (e := mkNginxExecutor (ex_nginx_cfg "/s") ex_two stats_zero).
  pose proof (@nginx_sweep_exact map_range_canonical (50 * hour) ex_env e ∅
    ex_paths ex_healthy) as H. cbv zeta in H.
  destruct (@nginx_sweep map_range_canonical (50 * hour) ex_env e ∅) as [e' fs'].
  destruct H as [H _]; [|cbn [fst]; rewrite H; by vm_compute].
  intros ip [t Ht]. unfold e, ex_two in Ht. cbn in Ht.
  apply lookup_insert_Some in Ht as [[<- _]|[_ Ht]]; [by vm_compute|].
  apply ex_times_clean. by eexists.
Defined.

Lemma nginx_sweep_last_ban_stays_witness :
  let e := mkNginxExecutor (ex_nginx_cfg "/s") ex_times stats_zero in
  @nginx_sweep map_range_canonical (50 * hour) ex_env e {["/l" := "deny 10.0.0.1;"]} =
  (nx_set_banned e ∅, {["/l" := "deny 10.0.0.1;"]}).
Proof.
  cbv zeta. apply nginx_sweep_last_ban_stays; cbn [nx_banned nx_cfg].
  - apply insert_non_empty.
  - vm_compute. reflexivity.
Defined.

Definition ex_event (ip : string) : ThreatEvent :=
  mkThreatEvent 0 "THREAT" "s" "src" "file" ip 90 [] "probe" EmptyString.

Definition ex_turns : list (Time * NginxEnv * NginxEnv * RunInput) :=
  [(1%Z, ex_env, ex_env, InEvent (ex_event "10.0.0.7")); (2%Z, ex_env, ex_env, InClosed)].

