(* ===== verification/MikrotikExec.v ===== *)
(** * The MikroTik executor (pkg/executorplugins/mikrotik)

    Configuration, the REST client over an abstract HTTP transport, the RouterOS
    duration syntax, and the executor: startup sync, flush, two-phase sweep and
    run loop.  The executor is written against the [MikrotikClient] interface;
    [HTTPClient] is the instance the program uses. *)

From Stdlib Require Import ZArith Lia Ascii String.
From stdpp Require Import base numbers option list strings gmap fin_maps pretty.
From S2P Require Import Prelude GoFloat GoStrings GoValues GoJSON Model ExecCommon.

(** ** config.go *)

Record MikrotikConfig := mkMikrotikConfig {
  mc_Host : string;
  mc_Port : Z;
  mc_Username : string;
  mc_Password : string;
  mc_ListName : string;
  mc_TTL : Duration;
  mc_SentinelID : string;
  mc_TLSVerify : bool;
  mc_CAFile : string;
  mc_UseTLS : bool;
  mc_BatchSize : Z;
  mc_FlushInterval : Duration;
  mc_MinLevel : string;
  mc_DedupWindow : Duration
}.

Definition mikrotik_defaultConfig : MikrotikConfig :=
  mkMikrotikConfig EmptyString 443 EmptyString EmptyString "arxsentinel_blocklist" (24 * hour)
    EmptyString true EmptyString true 10 (30 * second) "THREAT" 0.

Definition mikrotik_fields : json_fields MikrotikConfig := [
  ("host", fun v c => s ← json_string v (mc_Host c);
     Some (mkMikrotikConfig s (mc_Port c) (mc_Username c) (mc_Password c) (mc_ListName c) (mc_TTL c)
       (mc_SentinelID c) (mc_TLSVerify c) (mc_CAFile c) (mc_UseTLS c) (mc_BatchSize c)
       (mc_FlushInterval c) (mc_MinLevel c) (mc_DedupWindow c)));
  ("port", fun v c => z ← json_int v (mc_Port c);
     Some (mkMikrotikConfig (mc_Host c) z (mc_Username c) (mc_Password c) (mc_ListName c) (mc_TTL c)
       (mc_SentinelID c) (mc_TLSVerify c) (mc_CAFile c) (mc_UseTLS c) (mc_BatchSize c)
       (mc_FlushInterval c) (mc_MinLevel c) (mc_DedupWindow c)));
  ("username", fun v c => s ← json_string v (mc_Username c);
     Some (mkMikrotikConfig (mc_Host c) (mc_Port c) s (mc_Password c) (mc_ListName c) (mc_TTL c)
       (mc_SentinelID c) (mc_TLSVerify c) (mc_CAFile c) (mc_UseTLS c) (mc_BatchSize c)
       (mc_FlushInterval c) (mc_MinLevel c) (mc_DedupWindow c)));
  ("password", fun v c => s ← json_string v (mc_Password c);
     Some (mkMikrotikConfig (mc_Host c) (mc_Port c) (mc_Username c) s (mc_ListName c) (mc_TTL c)
       (mc_SentinelID c) (mc_TLSVerify c) (mc_CAFile c) (mc_UseTLS c) (mc_BatchSize c)
       (mc_FlushInterval c) (mc_MinLevel c) (mc_DedupWindow c)));
  ("list_name", fun v c => s ← json_string v (mc_ListName c);
     Some (mkMikrotikConfig (mc_Host c) (mc_Port c) (mc_Username c) (mc_Password c) s (mc_TTL c)
       (mc_SentinelID c) (mc_TLSVerify c) (mc_CAFile c) (mc_UseTLS c) (mc_BatchSize c)
       (mc_FlushInterval c) (mc_MinLevel c) (mc_DedupWindow c)));
  ("sentinel_id", fun v c => s ← json_string v (mc_SentinelID c);
     Some (mkMikrotikConfig (mc_Host c) (mc_Port c) (mc_Username c) (mc_Password c) (mc_ListName c)
       (mc_TTL c) s (mc_TLSVerify c) (mc_CAFile c) (mc_UseTLS c) (mc_BatchSize c)
       (mc_FlushInterval c) (mc_MinLevel c) (mc_DedupWindow c)));
  ("tls_verify", fun v c => b ← json_bool v (mc_TLSVerify c);
     Some (mkMikrotikConfig (mc_Host c) (mc_Port c) (mc_Username c) (mc_Password c) (mc_ListName c)
       (mc_TTL c) (mc_SentinelID c) b (mc_CAFile c) (mc_UseTLS c) (mc_BatchSize c)
       (mc_FlushInterval c) (mc_MinLevel c) (mc_DedupWindow c)));
  ("ca_file", fun v c => s ← json_string v (mc_CAFile c);
     Some (mkMikrotikConfig (mc_Host c) (mc_Port c) (mc_Username c) (mc_Password c) (mc_ListName c)
       (mc_TTL c) (mc_SentinelID c) (mc_TLSVerify c) s (mc_UseTLS c) (mc_BatchSize c)
       (mc_FlushInterval c) (mc_MinLevel c) (mc_DedupWindow c)));
  ("use_tls", fun v c => b ← json_bool v (mc_UseTLS c);
     Some (mkMikrotikConfig (mc_Host c) (mc_Port c) (mc_Username c) (mc_Password c) (mc_ListName c)
       (mc_TTL c) (mc_SentinelID c) (mc_TLSVerify c) (mc_CAFile c) b (mc_BatchSize c)
       (mc_FlushInterval c) (mc_MinLevel c) (mc_DedupWindow c)));
  ("batch_size", fun v c => z ← json_int v (mc_BatchSize c);
     Some (mkMikrotikConfig (mc_Host c) (mc_Port c) (mc_Username c) (mc_Password c) (mc_ListName c)
       (mc_TTL c) (mc_SentinelID c) (mc_TLSVerify c) (mc_CAFile c) (mc_UseTLS c) z
       (mc_FlushInterval c) (mc_MinLevel c) (mc_DedupWindow c)));
  ("min_level", fun v c => s ← json_string v (mc_MinLevel c);
     Some (mkMikrotikConfig (mc_Host c) (mc_Port c) (mc_Username c) (mc_Password c) (mc_ListName c)
       (mc_TTL c) (mc_SentinelID c) (mc_TLSVerify c) (mc_CAFile c) (mc_UseTLS c) (mc_BatchSize c)
       (mc_FlushInterval c) s (mc_DedupWindow c)))]%string.

Definition mikrotik_parseConfig (raw : Params) : option MikrotikConfig :=
  let d := mikrotik_defaultConfig in
  ttl ← duration_field raw "ttl" (mc_TTL d);
  fi ← duration_field raw "flush_interval" (mc_FlushInterval d);
  dw ← duration_field raw "dedup_window" (mc_DedupWindow d);
  let c0 := mkMikrotikConfig (mc_Host d) (mc_Port d) (mc_Username d) (mc_Password d) (mc_ListName d)
              ttl (mc_SentinelID d) (mc_TLSVerify d) (mc_CAFile d) (mc_UseTLS d) (mc_BatchSize d)
              fi (mc_MinLevel d) dw in
  c ← json_round_trip mikrotik_fields (without ["ttl"; "flush_interval"; "dedup_window"] raw) c0;
  if (is_empty (mc_Host c) || is_empty (mc_Username c) || is_empty (mc_Password c) ||
      is_empty (mc_SentinelID c))%bool then None
  else match levelOrder (mc_MinLevel c) with None => None | Some _ => Some c end.

(** ** client.go *)

Record AddressListEntry := mkAddressListEntry {
  al_ID : string;
  al_Address : string;
  al_List : string;
  al_Timeout : string;
  al_Comment : string;
  al_Disabled : string
}.

(** The [Client] interface, with the router behind it as explicit state. *)
Class MikrotikClient := {
  Router : Type;
  cl_Add : Router -> AddressListEntry -> Router * option string;
  cl_List : Router -> string -> Router * option (list AddressListEntry);
  cl_Delete : Router -> string -> Router * bool
}.

(** *** The HTTP client *)

Record HttpRequest := mkHttpRequest {
  rq_Method : string;
  rq_URL : string;
  rq_User : string;
  rq_Password : string;
  rq_Body : string;
  rq_JSON : bool
}.

(** The documents the client exchanges. *)
Definition entry_json (e : AddressListEntry) : JSON :=
  JObject (omit_empty ".id" (al_ID e) ++ [("address", JString (al_Address e)); ("list", JString (al_List e))] ++
    omit_empty "timeout" (al_Timeout e) ++ omit_empty "comment" (al_Comment e) ++ omit_empty "disabled" (al_Disabled e)).

Definition AddressListEntry_zero : AddressListEntry := mkAddressListEntry "" "" "" "" "" "".

Definition entry_fields : fields_of JSON AddressListEntry := [
  (".id", fun v e => s ← into_string v (al_ID e);
     Some (mkAddressListEntry s (al_Address e) (al_List e) (al_Timeout e) (al_Comment e) (al_Disabled e)));
  ("address", fun v e => s ← into_string v (al_Address e);
     Some (mkAddressListEntry (al_ID e) s (al_List e) (al_Timeout e) (al_Comment e) (al_Disabled e)));
  ("list", fun v e => s ← into_string v (al_List e);
     Some (mkAddressListEntry (al_ID e) (al_Address e) s (al_Timeout e) (al_Comment e) (al_Disabled e)));
  ("timeout", fun v e => s ← into_string v (al_Timeout e);
     Some (mkAddressListEntry (al_ID e) (al_Address e) (al_List e) s (al_Comment e) (al_Disabled e)));
  ("comment", fun v e => s ← into_string v (al_Comment e);
     Some (mkAddressListEntry (al_ID e) (al_Address e) (al_List e) (al_Timeout e) s (al_Disabled e)));
  ("disabled", fun v e => s ← into_string v (al_Disabled e);
     Some (mkAddressListEntry (al_ID e) (al_Address e) (al_List e) (al_Timeout e) (al_Comment e) s))].

Section http.
(** The network with the router: one exchange per request. *)
Variable Net : Type.
Variable http_do : Net -> HttpRequest -> Net * option HttpResponse.

Record HTTPClient := mkHTTPClient {
  hc_baseURL : string;
  hc_username : string;
  hc_password : string
}.

Definition NewHTTPClient (host : string) (port : Z) (username password : string) (useTLS : bool)
  : HTTPClient :=
  let scheme := if useTLS then "https" else "http" in
  mkHTTPClient (scheme +:+ "://" +:+ host +:+ ":" +:+ Itoa port +:+ "/rest") username password.

(** [None] for a body of Go value [nil].  The answer is one JSON value, kept
    undecoded. *)
Definition doRequest (c : HTTPClient) (net : Net) (method path : string) (body : option JSON)
  : Net * option JSON :=
  let reqBody := match body with Some b => Marshal b | None => EmptyString end in
  let '(net', resp) :=
    http_do net (mkHttpRequest method (hc_baseURL c +:+ path) (hc_username c) (hc_password c)
                   reqBody (match body with Some _ => true | None => false end)) in
  match resp with
  | None => (net', None)
  | Some r =>
      if ((hr_StatusCode r <? 200) || (300 <=? hr_StatusCode r))%Z then (net', None)
      else (net', Decode (hr_Body r))
  end.

Definition http_Add (c : HTTPClient) (net : Net) (entry : AddressListEntry) : Net * option string :=
  let '(net', data) := doRequest c net "PUT" "/ip/firewall/address-list" (Some (entry_json entry)) in
  (net', d ← data; created ← into_struct entry_fields d AddressListEntry_zero; Some (al_ID created)).

Definition http_List (c : HTTPClient) (net : Net) (listName : string)
  : Net * option (list AddressListEntry) :=
  let '(net', data) := doRequest c net "GET" ("/ip/firewall/address-list?list=" +:+ listName) None in
  (net', d ← data; into_slice (into_struct entry_fields) AddressListEntry_zero d).

Definition http_Delete (c : HTTPClient) (net : Net) (id : string) : Net * bool :=
  let '(net', data) := doRequest c net "DELETE" ("/ip/firewall/address-list/" +:+ id) None in
  (net', match data with Some _ => true | None => false end).

Definition http_client (c : HTTPClient) : MikrotikClient :=
  {| Router := Net; cl_Add := http_Add c; cl_List := http_List c; cl_Delete := http_Delete c |}.

End http.

(** *** RouterOS durations *)

Definition routeros_part (n : Z) (unit_ : string) : string :=
  if (0 <? n)%Z then Itoa n +:+ unit_ else EmptyString.

Definition durationToRouterOS (d : Duration) : string :=
  if (d =? 0)%Z then EmptyString
  else
    let totalSec := f_to_int (duration_Seconds d) in
    let days := Z.quot totalSec 86400 in
    let totalSec := Z.rem totalSec 86400 in
    let hours := Z.quot totalSec 3600 in
    let totalSec := Z.rem totalSec 3600 in
    let minutes := Z.quot totalSec 60 in
    let secs := Z.rem totalSec 60 in
    routeros_part days "d" +:+ routeros_part hours "h" +:+ routeros_part minutes "m" +:+
    routeros_part secs "s".

(** ** executor.go *)

Definition sentinelPrefix : string := "sentinel-".

Record mk_banRecord := mk_mkBanRecord {
  mb_id : string;
  mb_addedAt : Time
}.

Section executor.
Context {MR : MapRange} {DW : DedupWindow} {CL : MikrotikClient}.

Record MikroTikExecutor := mkMikroTikExecutor {
  mk_cfg : MikrotikConfig;
  mk_banned : gmap string mk_banRecord;
  mk_dedupWin : Window;
  mk_stats : ExecStats
}.

Definition NewMikroTikExecutor (raw : Params) : option MikroTikExecutor :=
  c ← mikrotik_parseConfig raw;
  Some (mkMikroTikExecutor c ∅ (NewWindow (mc_DedupWindow c)) stats_zero).

Definition mk_set_banned (b : gmap string mk_banRecord) (e : MikroTikExecutor) : MikroTikExecutor :=
  mkMikroTikExecutor (mk_cfg e) b (mk_dedupWin e) (mk_stats e).
Definition mk_set_win (w : Window) (e : MikroTikExecutor) : MikroTikExecutor :=
  mkMikroTikExecutor (mk_cfg e) (mk_banned e) w (mk_stats e).
Definition mk_map_stats (f : ExecStats -> ExecStats) (e : MikroTikExecutor) : MikroTikExecutor :=
  mkMikroTikExecutor (mk_cfg e) (mk_banned e) (mk_dedupWin e) (f (mk_stats e)).

(** The comment that marks the entries of this instance. *)
Definition mk_comment (e : MikroTikExecutor) : string := sentinelPrefix +:+ mc_SentinelID (mk_cfg e).

Definition mk_syncExisting (now : Time) (e : MikroTikExecutor) (rt : Router)
  : MikroTikExecutor * Router * bool :=
  let '(rt', entries) := cl_List rt (mc_ListName (mk_cfg e)) in
  match entries with
  | None => (e, rt', false)
  | Some es =>
      (mk_set_banned
         (foldl (fun b en =>
            if negb (String.eqb (al_Comment en) (mk_comment e)) then b
            else <[al_Address en := mk_mkBanRecord (al_ID en) now]> b) (mk_banned e) es) e,
       rt', true)
  end.

(** The entry of an event. *)
Definition mk_entry (e : MikroTikExecutor) (ev : ThreatEvent) : AddressListEntry :=
  mkAddressListEntry EmptyString (te_IP ev) (mc_ListName (mk_cfg e))
    (durationToRouterOS (mc_TTL (mk_cfg e))) (mk_comment e) EmptyString.

(** One [Add] of a flush: the executor, the router and the addresses added. *)
Definition mk_add_one (now : Time) (acc : MikroTikExecutor * Router * list string) (ev : ThreatEvent)
  : MikroTikExecutor * Router * list string :=
  let '(e, rt, added) := acc in
  let '(rt', res) := cl_Add rt (mk_entry e ev) in
  match res with
  | None => (mk_map_stats (add_errors 1) e, rt', added)
  | Some id =>
      (mk_map_stats (add_executed 1)
         (mk_set_banned (<[te_IP ev := mk_mkBanRecord id now]> (mk_banned e)) e),
       rt', added ++ [te_IP ev])
  end.

Definition mk_known (e : MikroTikExecutor) (ip : string) : bool :=
  match mk_banned e !! ip with Some _ => true | None => false end.

Definition mk_flush (now : Time) (events : list ThreatEvent) (e : MikroTikExecutor) (rt : Router)
  : MikroTikExecutor * Router :=
  if (length events =? 0)%nat then (e, rt)
  else
    let unique := filter (fun ev => mk_known e (te_IP ev) = false) events in
    let e1 := mk_map_stats (add_skipped (Z.of_nat (length events - length unique))) e in
    if (length unique =? 0)%nat then (e1, rt)
    else
      let '(e2, rt2, added) := foldl (mk_add_one now) (e1, rt, []) unique in
      if (0 <? length added)%nat then (mk_set_win (win_MarkBatch now added (mk_dedupWin e2)) e2, rt2)
      else (e2, rt2).

(** Phase 1 of the sweep. *)
Definition mk_expired (now : Time) (e : MikroTikExecutor) : list (string * mk_banRecord) :=
  filter (fun kv => (negb (is_empty (mb_id kv.2)) &&
                     (mc_TTL (mk_cfg e) <? time_Sub now (mb_addedAt kv.2))%Z)%bool = true)
    (map_range (mk_banned e)).

(** One [Delete] of phase 2. *)
Definition mk_delete_one (acc : MikroTikExecutor * Router * list string)
    (kv : string * mk_banRecord) : MikroTikExecutor * Router * list string :=
  let '(e, rt, ok) := acc in
  let '(rt', res) := cl_Delete rt (mb_id kv.2) in
  if res : bool then (e, rt', ok ++ [kv.1]) else (mk_map_stats (add_errors 1) e, rt', ok).

Definition mk_sweep (now : Time) (e : MikroTikExecutor) (rt : Router) : MikroTikExecutor * Router :=
  if (mc_TTL (mk_cfg e) =? 0)%Z then (e, rt)
  else
    let expired := mk_expired now e in
    if (length expired =? 0)%nat then (e, rt)
    else
      let '(e1, rt1, ok) := foldl mk_delete_one (e, rt, []) expired in
      if (0 <? length ok)%nat then
        (mk_map_stats (add_swept (Z.of_nat (length ok)))
           (mk_set_banned (foldl (fun b ip => delete ip b) (mk_banned e1) ok) e1), rt1)
      else (e1, rt1).

Definition mk_isDuplicate (now : Time) (e : MikroTikExecutor) (ip : string) : bool :=
  (win_Contains now (mk_dedupWin e) ip || mk_known e ip)%bool.

(** *** The run loop *)

Record MikrotikRun := mkMikrotikRun {
  mr_exec : MikroTikExecutor;
  mr_router : Router;
  mr_buffer : list ThreatEvent
}.

Definition mk_step (turn : Time * RunInput) (r : MikrotikRun) : MikrotikRun * bool :=
  let '(now, i) := turn in
  let e := mr_exec r in
  match i with
  | InDone | InClosed =>
      let '(e1, rt1) := mk_flush now (mr_buffer r) e (mr_router r) in
      let '(e2, rt2) := mk_sweep now e1 rt1 in
      (mkMikrotikRun e2 rt2 (mr_buffer r), true)
  | InEvent ev =>
      if (negb (meetsMinLevel (mc_MinLevel (mk_cfg e)) (te_Level ev)) ||
          mk_isDuplicate now e (te_IP ev))%bool then
        (mkMikrotikRun (mk_map_stats (add_skipped 1) e) (mr_router r) (mr_buffer r), false)
      else
        let buffer := mr_buffer r ++ [ev] in
        if (mc_BatchSize (mk_cfg e) <=? Z.of_nat (length buffer))%Z then
          let '(e1, rt1) := mk_flush now buffer e (mr_router r) in
          (mkMikrotikRun e1 rt1 [], false)
        else (mkMikrotikRun e (mr_router r) buffer, false)
  | InFlushTick =>
      if (0 <? length (mr_buffer r))%nat then
        let '(e1, rt1) := mk_flush now (mr_buffer r) e (mr_router r) in
        (mkMikrotikRun e1 rt1 [], false)
      else (r, false)
  | InSweepTick =>
      let '(e1, rt1) := mk_sweep now e (mr_router r) in
      (mkMikrotikRun e1 rt1 (mr_buffer r), false)
  end.

(** [None] is the panic of a buffer with a negative capacity. *)
Definition mk_Run (now : Time) (e : MikroTikExecutor) (rt : Router) (turns : list (Time * RunInput))
  : option (MikrotikRun * bool) :=
  let '(e1, rt1, _) := mk_syncExisting now e rt in
  if (mc_BatchSize (mk_cfg e) <? 0)%Z then None
  else Some (run_turns mk_step turns (mkMikrotikRun e1 rt1 [])).

Definition mk_sweepInterval (ttl : Duration) : Duration :=
  let s := Z.quot ttl 4 in
  if ((ttl =? 0) || (s <? 15 * minute))%Z then (15 * minute)%Z else s.

(** ** A flush as a sequence of calls *)

(** The calls of [Add] for some events, with their results in order. *)
Definition mk_adds (e : MikroTikExecutor) (rt : Router) (evs : list ThreatEvent)
  : Router * list (option string) :=
  call_all (fun rt ev => cl_Add rt (mk_entry e ev)) rt evs.

(** Which addresses the calls added, under which id. *)
Fixpoint added_by (evs : list ThreatEvent) (results : list (option string)) : list (string * string) :=
  match evs, results with
  | ev :: evs', Some id :: rs => (te_IP ev, id) :: added_by evs' rs
  | _ :: evs', None :: rs => added_by evs' rs
  | _, _ => []
  end.

Definition record_adds (now : Time) (b : gmap string mk_banRecord) (l : list (string * string))
  : gmap string mk_banRecord :=
  foldl (fun b p => <[p.1 := mk_mkBanRecord p.2 now]> b) b l.

Definition count_errors (results : list (option string)) : Z :=
  Z.of_nat (length (filter (fun r => r = None) results)).

Lemma mk_add_fold now evs e0 e rt added : mk_cfg e = mk_cfg e0 ->
  let '(rt', results) := mk_adds e0 rt evs in
  let l := added_by evs results in
  foldl (mk_add_one now) (e, rt, added) evs =
  (mkMikroTikExecutor (mk_cfg e0) (record_adds now (mk_banned e) l) (mk_dedupWin e)
     (add_executed (Z.of_nat (length l)) (add_errors (count_errors results) (mk_stats e))),
   rt', added ++ l.*1).
Proof.
  revert e rt added. induction evs as [|ev evs IH]; intros e rt added Hcfg; cbn.
  { rewrite app_nil_r, <- Hcfg. destruct e as [? ? ? []]. unfold add_executed, add_errors; cbn.
    by rewrite !Z.add_0_r. }
  unfold mk_adds in *. cbn [call_all].
  assert (He : mk_entry e0 ev = mk_entry e ev) by (unfold mk_entry, mk_comment; by rewrite Hcfg).
  rewrite He. destruct (cl_Add rt _) as [rt1 [id|]].
  - specialize (IH (mk_map_stats (add_executed 1)
      (mk_set_banned (<[te_IP ev := mk_mkBanRecord id now]> (mk_banned e)) e)) rt1
      (added ++ [te_IP ev]) Hcfg).
    destruct (call_all _ rt1 evs) as [rt' rs]. rewrite IH. cbn. rewrite <- app_assoc. do 3 f_equal.
    unfold add_executed, add_errors; cbn. f_equal; lia.
  - specialize (IH (mk_map_stats (add_errors 1) e) rt1 added Hcfg).
    destruct (call_all _ rt1 evs) as [rt' rs]. rewrite IH. cbn. do 3 f_equal.
    unfold count_errors. rewrite (filter_cons_True _ None) by done. cbn [length].
    unfold add_executed, add_errors; cbn. f_equal; lia.
Qed.

Lemma record_adds_lookup now l b ip :
  record_adds now b l !! ip = b !! ip /\ ip ∉ l.*1 \/
  exists id, (ip, id) ∈ l /\ record_adds now b l !! ip = Some (mk_mkBanRecord id now).
Proof.
  revert b. unfold record_adds. induction l as [|[ip' id] l IH]; intros b; cbn.
  { left. split; [done|]. apply not_elem_of_nil. }
  destruct (IH (<[ip' := mk_mkBanRecord id now]> b)) as [[H1 H2]|(id' & H1 & H2)].
  - destruct (decide (ip = ip')) as [->|Hne].
    + right. exists id. split; [set_solver|]. by rewrite H1, lookup_insert_eq.
    + left. split; [by rewrite H1, lookup_insert_ne|]. set_solver.
  - right. exists id'. split; [set_solver|done].
Qed.

Lemma added_by_zip evs results ip id : length results = length evs ->
  (ip, id) ∈ added_by evs results <-> (ip, Some id) ∈ zip (te_IP <$> evs) results.
Proof.
  revert results. induction evs as [|ev evs IH]; intros [|[id'|] rs] Hl; cbn in *; try done.
  - split; intros H; by apply elem_of_nil in H.
  - rewrite !elem_of_cons, IH by lia. naive_solver.
  - rewrite elem_of_cons, IH by lia. naive_solver.
Qed.

Lemma added_by_count evs results : length results = length evs ->
  (Z.of_nat (length (added_by evs results)) + count_errors results = Z.of_nat (length evs))%Z.
Proof.
  unfold count_errors. revert results.
  induction evs as [|ev evs IH]; intros [|[id|] rs] Hl; cbn [length added_by] in *; try done.
  - rewrite filter_cons_False by done. specialize (IH rs). lia.
  - rewrite (filter_cons_True _ None) by done. specialize (IH rs). cbn [length]. lia.
Qed.

(** C24: a flush is flaky-safe. It calls [Add] once, in order, for every event of
    the batch whose address is not already banned; an address is recorded with
    the id of one of its own successful calls; an address none of whose calls
    succeeded is treated by later duplicate checks exactly as before the flush,
    so the next event for it retries; the counters account for every event. *)
Theorem mikrotik_flush_flaky_safe now now' events e rt :
  let u := filter (fun ev => mk_known e (te_IP ev) = false) events in
  let '(e', rt') := mk_flush now events e rt in
  let '(rtc, results) := mk_adds e rt u in
  let outcomes := zip (te_IP <$> u) results in
  rt' = rtc /\
  (forall ip id, (ip, Some id) ∈ outcomes -> exists id',
     (ip, Some id') ∈ outcomes /\ mk_banned e' !! ip = Some (mk_mkBanRecord id' now)) /\
  (forall ip, (forall id, (ip, Some id) ∉ outcomes) ->
     mk_isDuplicate now' e' ip = mk_isDuplicate now' e ip) /\
  (es_executed (mk_stats e') + es_skipped (mk_stats e') + es_errors (mk_stats e') =
   es_executed (mk_stats e) + es_skipped (mk_stats e) + es_errors (mk_stats e) +
   Z.of_nat (length events))%Z.
Proof.
  intros u. unfold mk_flush. fold u.
  destruct (Nat.eqb_spec (length events) 0) as [Hz|Hz].
  { apply nil_length_inv in Hz. subst u. rewrite Hz. cbn. repeat split; [|lia].
    intros ip id Hin. by apply elem_of_nil in Hin. }
  assert (Hlen : length u <= length events) by apply length_filter.
  destruct (Nat.eqb_spec (length u) 0) as [Hu|Hu].
  { apply nil_length_inv in Hu. rewrite Hu. cbn. repeat split; [|lia].
    intros ip id Hin. by apply elem_of_nil in Hin. }
  set (e1 := mk_map_stats _ e).
  pose proof (mk_add_fold now u e e1 rt [] eq_refl) as Hf.
  pose proof (call_all_length (fun rt ev => cl_Add rt (mk_entry e ev)) rt u) as Hr.
  fold (mk_adds e rt u) in Hr. destruct (mk_adds e rt u) as [rtc results]. cbv zeta in Hf. cbn in Hr.
  rewrite Hf. set (l := added_by u results). cbn [app].
  pose proof (added_by_count u results Hr) as Hsum. fold l in Hsum.
  assert (Hkey : forall ip id, (ip, id) ∈ l <-> (ip, Some id) ∈ zip (te_IP <$> u) results)
    by (intros; by apply added_by_zip).
  set (e2 := mkMikroTikExecutor _ _ _ _).
  assert (Hb : forall ip, (forall id, (ip, Some id) ∉ zip (te_IP <$> u) results) -> ip ∉ l.*1).
  { intros ip Hno Hin. apply list_elem_of_fmap in Hin as ([ip' id] & -> & Hin).
    by apply (Hno id), Hkey. }
  assert (Hrec : forall ip id, (ip, Some id) ∈ zip (te_IP <$> u) results -> exists id',
     (ip, Some id') ∈ zip (te_IP <$> u) results /\ mk_banned e2 !! ip = Some (mk_mkBanRecord id' now)).
  { intros ip id Hin%Hkey. destruct (record_adds_lookup now l (mk_banned e1) ip) as [[_ Hn]|(id' & H1 & H2)].
    - exfalso. apply Hn, list_elem_of_fmap. by exists (ip, id).
    - exists id'. split; [by apply Hkey|done]. }
  assert (Hkn : forall ip, ip ∉ l.*1 -> mk_known e2 ip = mk_known e ip).
  { intros ip Hip. unfold mk_known. cbn.
    destruct (record_adds_lookup now l (mk_banned e) ip) as [[H1 _]|(id' & H1 & _)]; [by rewrite H1|].
    exfalso. apply Hip, list_elem_of_fmap. by exists (ip, id'). }
  assert (Hst : (es_executed (mk_stats e2) + es_skipped (mk_stats e2) + es_errors (mk_stats e2) =
    es_executed (mk_stats e) + es_skipped (mk_stats e) + es_errors (mk_stats e) +
    Z.of_nat (length events))%Z) by (cbn; lia).
  destruct (0 <? length l.*1)%nat.
  - repeat split; [exact Hrec| |exact Hst]. intros ip Hno%Hb. unfold mk_isDuplicate.
    change (mk_known (mk_set_win _ e2) ip) with (mk_known e2 ip). rewrite Hkn by done. f_equal.
    cbn. by apply win_mark_keeps.
  - repeat split; [exact Hrec| |exact Hst]. intros ip Hno%Hb. unfold mk_isDuplicate.
    by rewrite Hkn.
Qed.

(** ** A sweep as a sequence of calls *)

Definition mk_deletes (rt : Router) (l : list (string * mk_banRecord)) : Router * list bool :=
  call_all (fun rt kv => cl_Delete rt (mb_id kv.2)) rt l.

(** The addresses whose call succeeded. *)
Fixpoint deleted_by (l : list (string * mk_banRecord)) (oks : list bool) : list string :=
  match l, oks with
  | kv :: l', true :: oks' => kv.1 :: deleted_by l' oks'
  | _ :: l', false :: oks' => deleted_by l' oks'
  | _, _ => []
  end.

Definition count_failed (oks : list bool) : Z := Z.of_nat (length (filter (fun b => b = false) oks)).

Lemma mk_delete_fold l e rt ok :
  let '(rt', oks) := mk_deletes rt l in
  foldl mk_delete_one (e, rt, ok) l =
  (mk_map_stats (add_errors (count_failed oks)) e, rt', ok ++ deleted_by l oks).
Proof.
  revert e rt ok. unfold mk_deletes.
  induction l as [|kv l IH]; intros e rt ok; cbn [call_all foldl mk_delete_one].
  { cbn. rewrite app_nil_r. destruct e as [? ? ? []]. unfold mk_map_stats, add_errors; cbn.
    by rewrite Z.add_0_r. }
  destruct (cl_Delete rt (mb_id kv.2)) as [rt1 []].
  - specialize (IH e rt1 (ok ++ [kv.1])). destruct (call_all _ rt1 l) as [rt' oks]. rewrite IH.
    cbn. by rewrite <- app_assoc.
  - specialize (IH (mk_map_stats (add_errors 1) e) rt1 ok). destruct (call_all _ rt1 l) as [rt' oks].
    rewrite IH. do 2 f_equal. unfold count_failed. rewrite (filter_cons_True _ false) by done.
    cbn [length]. unfold mk_map_stats, add_errors; cbn. do 2 f_equal. lia.
Qed.

Lemma delete_ips_lookup {A} (ips : list string) (b : gmap string A) ip :
  foldl (fun b ip => delete ip b) b ips !! ip = if decide (ip ∈ ips) then None else b !! ip.
Proof.
  revert b. induction ips as [|ip' ips IH]; intros b; [done|]. cbn [foldl]. rewrite IH.
  destruct (decide (ip ∈ ips)); [by rewrite decide_True by set_solver|].
  destruct (decide (ip = ip')) as [->|Hne].
  - rewrite decide_True by set_solver. by rewrite lookup_delete_eq.
  - rewrite decide_False by set_solver. by rewrite lookup_delete_ne.
Qed.

Lemma deleted_by_zip l oks ip : length oks = length l ->
  ip ∈ deleted_by l oks <-> (ip, true) ∈ zip l.*1 oks.
Proof.
  revert oks. induction l as [|kv l IH]; intros [|[] oks] Hl; cbn in *; try done.
  - split; intros H; by apply elem_of_nil in H.
  - rewrite !elem_of_cons, IH by lia. naive_solver.
  - rewrite elem_of_cons, IH by lia. naive_solver.
Qed.

Lemma mk_expired_spec now e ip rec : (ip, rec) ∈ mk_expired now e <->
  mk_banned e !! ip = Some rec /\ mb_id rec <> EmptyString /\
  (mc_TTL (mk_cfg e) < time_Sub now (mb_addedAt rec))%Z.
Proof.
  unfold mk_expired. rewrite list_elem_of_filter, elem_of_map_range. cbn [snd].
  rewrite andb_true_iff, negb_true_iff, Z.ltb_lt. unfold is_empty. rewrite String.eqb_neq. tauto.
Qed.

(** The calls of a sweep: none when bans are permanent. *)
Definition sweep_calls (now : Time) (e : MikroTikExecutor) : list (string * mk_banRecord) :=
  if (mc_TTL (mk_cfg e) =? 0)%Z then [] else mk_expired now e.

Lemma mk_sweep_stages now e rt :
  let '(rt', oks) := mk_deletes rt (sweep_calls now e) in
  let gone := deleted_by (sweep_calls now e) oks in
  mk_sweep now e rt =
  (mkMikroTikExecutor (mk_cfg e) (foldl (fun b ip => delete ip b) (mk_banned e) gone) (mk_dedupWin e)
     (add_swept (Z.of_nat (length gone)) (add_errors (count_failed oks) (mk_stats e))), rt').
Proof.
  unfold mk_sweep, sweep_calls. destruct (mc_TTL (mk_cfg e) =? 0)%Z.
  { destruct e as [? ? ? []]. unfold add_swept, add_errors; cbn. by rewrite !Z.add_0_r. }
  destruct (Nat.eqb_spec (length (mk_expired now e)) 0) as [Hz|_].
  { apply nil_length_inv in Hz. rewrite Hz. destruct e as [? ? ? []].
    unfold add_swept, add_errors; cbn. by rewrite !Z.add_0_r. }
  pose proof (mk_delete_fold (mk_expired now e) e rt []) as Hf.
  destruct (mk_deletes rt (mk_expired now e)) as [rt' oks]. cbv zeta. rewrite Hf. cbn [app].
  destruct (deleted_by _ oks) as [|ip gone]; [|done]. cbn.
  unfold mk_map_stats, add_swept, add_errors; cbn. by rewrite !Z.add_0_r.
Qed.

(** two-phase cleanup. A sweep calls [Delete] exactly for the recorded
    entries with an id that are older than a non-zero TTL; a ban leaves the map
    iff its own call succeeded, every other record is untouched (a failed delete
    is retried by the next sweep), and the counters count both outcomes. *)
Theorem mikrotik_sweep_exact now e rt :
  let l := sweep_calls now e in
  let '(e', rt') := mk_sweep now e rt in
  let '(rtc, oks) := mk_deletes rt l in
  rt' = rtc /\
  (forall ip rec, (ip, rec) ∈ l <->
     mc_TTL (mk_cfg e) <> 0%Z /\ mk_banned e !! ip = Some rec /\ mb_id rec <> EmptyString /\
     (mc_TTL (mk_cfg e) < time_Sub now (mb_addedAt rec))%Z) /\
  (forall ip, mk_banned e' !! ip =
     if decide ((ip, true) ∈ zip l.*1 oks) then None else mk_banned e !! ip) /\
  (es_swept (mk_stats e') + es_errors (mk_stats e') =
   es_swept (mk_stats e) + es_errors (mk_stats e) + Z.of_nat (length l))%Z.
Proof.
  intros l. pose proof (mk_sweep_stages now e rt) as Hs. fold l in Hs.
  pose proof (call_all_length (fun rt kv => cl_Delete rt (mb_id kv.2)) rt l) as Hr.
  fold (mk_deletes rt l) in Hr. destruct (mk_deletes rt l) as [rt' oks]. cbv zeta in Hs. rewrite Hs.
  cbn [snd] in Hr. split; [done|]. split; [|split].
  - intros ip rec. subst l. unfold sweep_calls. destruct (Z.eqb_spec (mc_TTL (mk_cfg e)) 0).
    + split; [intros Hin; by apply elem_of_nil in Hin|tauto].
    + rewrite mk_expired_spec. tauto.
  - intros ip. cbn. rewrite delete_ips_lookup. apply decide_ext. by apply deleted_by_zip.
  - cbn. cut (Z.of_nat (length (deleted_by l oks)) + count_failed oks = Z.of_nat (length l))%Z; [lia|].
    clear -Hr. unfold count_failed. revert oks Hr.
    induction l as [|kv l IH]; intros [|[] oks] Hr; cbn [length deleted_by] in *; try done.
    + rewrite filter_cons_False by done. specialize (IH oks). lia.
    + rewrite (filter_cons_True _ false) by done. specialize (IH oks). cbn [length]. lia.
Qed.

End executor.

(** ** The HTTP client against a router that answers a deletion without a body *)

Section empty_body.
Context {MR : MapRange} {DW : DedupWindow}.
Variable Net : Type.
Variable http_do : Net -> HttpRequest -> Net * option HttpResponse.
Variable c : HTTPClient.

(** Every deletion is answered by a status and no content. *)
Definition no_content : Prop := forall net rq, rq_Method rq = "DELETE" ->
  exists st, (http_do net rq).2 = Some (mkHttpResponse st EmptyString).

Lemma http_Delete_no_content net id : no_content -> (http_Delete Net http_do c net id).2 = false.
Proof.
  intros Hno. unfold http_Delete, doRequest. cbv beta iota zeta.
  match goal with |- context [http_do net ?rq] => destruct (Hno net rq eq_refl) as [st Hst];
    destruct (http_do net rq) as [net' resp] end.
  cbn in Hst. subst resp. cbn [hr_StatusCode hr_Body]. destruct (_ || _)%bool; [done|].
  by rewrite Decode_empty.
Qed.

(** against a router that answers deletions without a body (as RouterOS
    does, and as the stub of the executor's own sweep test does), [Delete]
    reports an error even on success, because the response decoder insists on a
    JSON value: a sweep removes no ban from the map, ever. *)
Theorem mikrotik_sweep_no_content now (e : @MikroTikExecutor DW) net :
  no_content ->
  mk_banned (@mk_sweep MR DW (http_client Net http_do c) now e net).1 = mk_banned e.
Proof.
  intros Hno. pose proof (@mk_sweep_stages MR DW (http_client Net http_do c) now e net) as Hs.
  set (l := sweep_calls now e) in *.
  assert (Hall : Forall (fun b => b = false)
    (@mk_deletes (http_client Net http_do c) net l).2).
  { clear -Hno. unfold mk_deletes. revert net. induction l as [|kv l IH]; intros net; [constructor|].
    cbn [call_all]. pose proof (http_Delete_no_content net (mb_id kv.2) Hno) as Hd.
    cbn [cl_Delete http_client]. destruct (http_Delete _ _ _ _ _) as [net1 ok]. specialize (IH net1).
    cbn [cl_Delete http_client] in IH.
    match goal with |- context [call_all ?f net1 l] => destruct (call_all f net1 l) end.
    constructor; done. }
  destruct (mk_deletes net l) as [net' oks]. cbv zeta in Hs. rewrite Hs. cbn.
  replace (deleted_by l oks) with (@nil string); [done|].
  cbn in Hall. clearbody l. clear -Hall. revert l. induction Hall as [|b oks -> Hoks IH]; intros [|kv l]; try done.
  apply IH.
Qed.

End empty_body.

(** ** Witnesses *)

Definition ex_mk_exec : @MikroTikExecutor ex_window :=
  mkMikroTikExecutor mikrotik_defaultConfig {["10.0.0.1" := mk_mkBanRecord "*1" 0]}
    (NewWindow 0) stats_zero.

Lemma mikrotik_sweep_no_content_witness :
  let net := fun (n : nat) (rq : HttpRequest) => (S n, Some (mkHttpResponse 204 EmptyString)) in
  let c := NewHTTPClient "r1" 443 "u" "p" true in
  length (@sweep_calls map_range_canonical ex_window (48 * hour) ex_mk_exec) = 1 /\
  mk_banned (@mk_sweep map_range_canonical ex_window (http_client nat net c)
    (48 * hour) ex_mk_exec 0).1 = mk_banned ex_mk_exec.
Proof.
  intros net c. split; [by vm_compute|].
  apply (@mikrotik_sweep_no_content map_range_canonical ex_window nat net c).
  intros n rq _. by exists 204%Z.
Defined.

(** A router that holds addresses; it refuses one address, and one id when
    deleting. *)
Definition ex_router : MikrotikClient :=
  {| Router := list string;
     cl_Add := fun rt en =>
       if String.eqb (al_Address en) "10.0.0.2" then (rt, None)
       else (rt ++ [al_Address en], Some ("*" +:+ al_Address en));
     cl_List := fun rt _ => (rt, Some []);
     cl_Delete := fun rt id => (rt, negb (String.eqb id "*1")) |}.

Definition ex_mk_event (ip : string) : ThreatEvent :=
  mkThreatEvent 0 "THREAT" EmptyString EmptyString EmptyString ip 100 [] EmptyString EmptyString.

Lemma mikrotik_flush_flaky_safe_witness :
  let e' := (@mk_flush ex_window ex_router 5 (ex_mk_event <$> ["10.0.0.1"; "10.0.0.2"; "10.0.0.3"])
               ex_mk_exec []).1 in
  mk_banned e' !! "10.0.0.3" = Some (mk_mkBanRecord "*10.0.0.3" 5) /\
  mk_isDuplicate 6 e' "10.0.0.2" = false.
Proof.
  pose proof (@mikrotik_flush_flaky_safe ex_window ex_router 5 6
    (ex_mk_event <$> ["10.0.0.1"; "10.0.0.2"; "10.0.0.3"]) ex_mk_exec []) as H.
  cbv zeta. split; [by vm_compute|].
  match type of H with
  | context [@mk_flush ?w ?r ?n ?l ?e ?rt] => destruct (@mk_flush w r n l e rt) as [e' rt'] eqn:E
  end.
  vm_compute mk_adds in H. destruct H as (_ & _ & H & _).
  rewrite H; [by vm_compute|]. intros id Hin. vm_compute in Hin. set_solver.
Defined.

Lemma mikrotik_sweep_exact_witness :
  let e := mk_set_banned {["10.0.0.1" := mk_mkBanRecord "*1" 0; "10.0.0.3" := mk_mkBanRecord "*3" 0]}
             ex_mk_exec in
  let e' := (@mk_sweep map_range_canonical ex_window ex_router (48 * hour) e []).1 in
  mk_banned e' = {["10.0.0.1" := mk_mkBanRecord "*1" 0]} /\
  (es_swept (mk_stats e') + es_errors (mk_stats e') = 2)%Z.
Proof.
  intros e e'. split; [by vm_compute|].
  pose proof (@mikrotik_sweep_exact map_range_canonical ex_window ex_router (48 * hour) e []) as H.
  cbv zeta in H. rewrite (surjective_pairing (mk_sweep _ _ _)) in H. fold e' in H.
  rewrite (surjective_pairing (mk_deletes _ _)) in H.
  destruct H as (_ & _ & _ & ->). by vm_compute.
Defined.
