(* ===== verification/OpenwrtExec.v ===== *)
(** * The OpenWrt executor (pkg/executorplugins/openwrt)

    Configuration, the ubus client with its session, and the executor whose
    flush applies additions and expiries in one UCI transaction. *)

From Stdlib Require Import ZArith Lia Ascii String.
From stdpp Require Import base numbers option list strings gmap fin_maps pretty.
From S2P Require Import Prelude GoFloat GoStrings GoValues GoJSON Model ExecCommon.

(** ** config.go *)

Record OpenwrtConfig := mkOpenwrtConfig {
  oc_Host : string;
  oc_Port : Z;
  oc_Scheme : string;
  oc_Username : string;
  oc_Password : string;
  oc_IPSetName : string;
  oc_TTL : Duration;
  oc_SessionTimeout : Duration;
  oc_BatchSize : Z;
  oc_FlushInterval : Duration;
  oc_MinLevel : string;
  oc_DedupWindow : Duration
}.

Definition openwrt_defaultConfig : OpenwrtConfig :=
  mkOpenwrtConfig EmptyString 80 "http" EmptyString EmptyString EmptyString 0 (5 * minute) 10
    (30 * second) "THREAT" 0.

Definition openwrt_fields : json_fields OpenwrtConfig := [
  ("host", fun v c => s ← json_string v (oc_Host c);
     Some (mkOpenwrtConfig s (oc_Port c) (oc_Scheme c) (oc_Username c) (oc_Password c)
       (oc_IPSetName c) (oc_TTL c) (oc_SessionTimeout c) (oc_BatchSize c) (oc_FlushInterval c)
       (oc_MinLevel c) (oc_DedupWindow c)));
  ("port", fun v c => z ← json_int v (oc_Port c);
     Some (mkOpenwrtConfig (oc_Host c) z (oc_Scheme c) (oc_Username c) (oc_Password c)
       (oc_IPSetName c) (oc_TTL c) (oc_SessionTimeout c) (oc_BatchSize c) (oc_FlushInterval c)
       (oc_MinLevel c) (oc_DedupWindow c)));
  ("scheme", fun v c => s ← json_string v (oc_Scheme c);
     Some (mkOpenwrtConfig (oc_Host c) (oc_Port c) s (oc_Username c) (oc_Password c)
       (oc_IPSetName c) (oc_TTL c) (oc_SessionTimeout c) (oc_BatchSize c) (oc_FlushInterval c)
       (oc_MinLevel c) (oc_DedupWindow c)));
  ("username", fun v c => s ← json_string v (oc_Username c);
     Some (mkOpenwrtConfig (oc_Host c) (oc_Port c) (oc_Scheme c) s (oc_Password c) (oc_IPSetName c)
       (oc_TTL c) (oc_SessionTimeout c) (oc_BatchSize c) (oc_FlushInterval c) (oc_MinLevel c)
       (oc_DedupWindow c)));
  ("password", fun v c => s ← json_string v (oc_Password c);
     Some (mkOpenwrtConfig (oc_Host c) (oc_Port c) (oc_Scheme c) (oc_Username c) s (oc_IPSetName c)
       (oc_TTL c) (oc_SessionTimeout c) (oc_BatchSize c) (oc_FlushInterval c) (oc_MinLevel c)
       (oc_DedupWindow c)));
  ("ipset_name", fun v c => s ← json_string v (oc_IPSetName c);
     Some (mkOpenwrtConfig (oc_Host c) (oc_Port c) (oc_Scheme c) (oc_Username c) (oc_Password c) s
       (oc_TTL c) (oc_SessionTimeout c) (oc_BatchSize c) (oc_FlushInterval c) (oc_MinLevel c)
       (oc_DedupWindow c)));
  ("batch_size", fun v c => z ← json_int v (oc_BatchSize c);
     Some (mkOpenwrtConfig (oc_Host c) (oc_Port c) (oc_Scheme c) (oc_Username c) (oc_Password c)
       (oc_IPSetName c) (oc_TTL c) (oc_SessionTimeout c) z (oc_FlushInterval c) (oc_MinLevel c)
       (oc_DedupWindow c)));
  ("min_level", fun v c => s ← json_string v (oc_MinLevel c);
     Some (mkOpenwrtConfig (oc_Host c) (oc_Port c) (oc_Scheme c) (oc_Username c) (oc_Password c)
       (oc_IPSetName c) (oc_TTL c) (oc_SessionTimeout c) (oc_BatchSize c) (oc_FlushInterval c) s
       (oc_DedupWindow c)))]%string.

Definition openwrt_parseConfig (raw : Params) : option OpenwrtConfig :=
  let d := openwrt_defaultConfig in
  ttl ← duration_any_field raw "ttl" (oc_TTL d);
  st ← duration_any_field raw "session_timeout" (oc_SessionTimeout d);
  fi ← duration_any_field raw "flush_interval" (oc_FlushInterval d);
  dw ← duration_any_field raw "dedup_window" (oc_DedupWindow d);
  let c0 := mkOpenwrtConfig (oc_Host d) (oc_Port d) (oc_Scheme d) (oc_Username d) (oc_Password d)
              (oc_IPSetName d) ttl st (oc_BatchSize d) fi (oc_MinLevel d) dw in
  c ← json_round_trip openwrt_fields
        (without ["ttl"; "session_timeout"; "flush_interval"; "dedup_window"] raw) c0;
  if (is_empty (oc_Host c) || is_empty (oc_Username c) || is_empty (oc_Password c) ||
      is_empty (oc_IPSetName c))%bool then None
  else if (oc_TTL c <=? 0)%Z then None
  else if (oc_SessionTimeout c <=? 0)%Z then None
  else if negb (String.eqb (oc_Scheme c) "http" || String.eqb (oc_Scheme c) "https") then None
  else match levelOrder (oc_MinLevel c) with None => None | Some _ => Some c end.

(** ** client.go *)

(** The part of the [Client] interface the executor uses, with the router behind
    it as explicit state; [false] and [None] are errors. *)
Class OpenwrtClient := {
  OWorld : Type;
  ow_AddEntries : Time -> OWorld -> list string -> OWorld * bool;
  ow_DeleteEntries : Time -> OWorld -> list string -> OWorld * bool;
  ow_Commit : Time -> OWorld -> OWorld * bool;
  ow_ListEntries : Time -> OWorld -> OWorld * option (list string);
  ow_Reload : Time -> OWorld -> OWorld * bool
}.

(** *** The ubus client *)

Definition nullSession : string := "00000000000000000000000000000000".

Inductive UciArg :=
  | ArgString (s : string)
  | ArgStrings (l : list string).

Definition arg_json (a : UciArg) : JSON :=
  match a with ArgString s => JString s | ArgStrings l => JArray (JString <$> l) end.

Record jsonRPCRequest := mkJsonRPCRequest {
  rpc_ID : Z;
  rpc_Method : string;
  rpc_Params : list JSON
}.

Definition rpc_json (r : jsonRPCRequest) : JSON :=
  JObject [("jsonrpc", JString "2.0"); ("id", JInt (rpc_ID r)); ("method", JString (rpc_Method r));
           ("params", JArray (rpc_Params r))].

(** The result is kept undecoded; [None] when the field is absent. *)
Record jsonRPCResponse := mkJsonRPCResponse {
  rsp_JSONRPC : string;
  rsp_ID : Z;
  rsp_Result : option JSON
}.

Definition response_fields : fields_of JSON jsonRPCResponse := [
  ("jsonrpc", fun v r => s ← into_string v (rsp_JSONRPC r); Some (mkJsonRPCResponse s (rsp_ID r) (rsp_Result r)));
  ("id", fun v r => z ← into_int v (rsp_ID r); Some (mkJsonRPCResponse (rsp_JSONRPC r) z (rsp_Result r)));
  ("result", fun v r => Some (mkJsonRPCResponse (rsp_JSONRPC r) (rsp_ID r) (Some v)))].

(** The code and the data of a result array; a nil array and an absent one are
    errors. *)
Definition rpc_result (resp : jsonRPCResponse) : option JSON :=
  result ← rsp_Result resp;
  match result with
  | JArray (code :: rest) =>
      n ← into_int code 0;
      if negb (n =? 0)%Z then None
      else Some (match rest with [] => JObject [] | d :: _ => d end)
  | _ => None
  end.

Definition session_fields : fields_of JSON string := [("ubus_rpc_session", fun v s => into_string v s)].
Definition value_fields : fields_of JSON (list string) := [("value", fun v _ => into_strings v)].

Section ubus.
(** The network with the router: a POST of a body to a URL. *)
Variable Net : Type.
Variable post : Net -> string -> string -> Net * option HttpResponse.

Record UbusClient := mkUbusClient {
  ub_cfg : OpenwrtConfig;
  ub_sessionID : string;
  ub_sessionAt : Time;
  ub_reqCounter : Z
}.

Definition NewUbusClient (c : OpenwrtConfig) : UbusClient := mkUbusClient c EmptyString 0 0.

Definition ubus_baseURL (c : UbusClient) : string :=
  oc_Scheme (ub_cfg c) +:+ "://" +:+ oc_Host (ub_cfg c) +:+ ":" +:+ Itoa (oc_Port (ub_cfg c)) +:+ "/ubus".

Definition ub_count (c : UbusClient) : UbusClient :=
  mkUbusClient (ub_cfg c) (ub_sessionID c) (ub_sessionAt c) (wrap64 (ub_reqCounter c + 1)).

Definition ubus_call (w : UbusClient * Net) (sessionID object method : string)
    (args : list (string * UciArg)) : (UbusClient * Net) * option JSON :=
  let '(c, net) := w in
  let c' := ub_count c in
  let req := mkJsonRPCRequest (ub_reqCounter c') "call"
    [JString sessionID; JString object; JString method; json_map (prod_map id arg_json <$> args)] in
  let '(net', resp) := post net (ubus_baseURL c) (Marshal (rpc_json req)) in
  ((c', net'),
   r ← resp;
   if negb (hr_StatusCode r =? 200)%Z then None
   else doc ← Decode (hr_Body r);
        rpcResp ← into_struct response_fields doc (mkJsonRPCResponse EmptyString 0 None);
        rpc_result rpcResp).

Definition loginLocked (now : Time) (w : UbusClient * Net) : (UbusClient * Net) * bool :=
  let '((c', net'), data) :=
    ubus_call w nullSession "session" "login"
      [("username", ArgString (oc_Username (ub_cfg w.1)));
       ("password", ArgString (oc_Password (ub_cfg w.1)))]%string in
  match d ← data; into_struct session_fields d EmptyString with
  | None => ((c', net'), false)
  | Some sid => ((mkUbusClient (ub_cfg c') sid now (ub_reqCounter c'), net'), true)
  end.

Definition ensureSessionLocked (now : Time) (w : UbusClient * Net) : (UbusClient * Net) * bool :=
  if (is_empty (ub_sessionID w.1) ||
      (oc_SessionTimeout (ub_cfg w.1) <=? time_Sub now (ub_sessionAt w.1))%Z)%bool
  then loginLocked now w else (w, true).

Definition ubus_doRequest (now : Time) (w : UbusClient * Net) (object method : string)
    (args : list (string * UciArg)) : (UbusClient * Net) * option JSON :=
  let '(w1, ok) := ensureSessionLocked now w in
  if ok : bool then ubus_call w1 (ub_sessionID w1.1) object method args else (w1, None).

Definition entry_args (c : UbusClient) (values : list string) : list (string * UciArg) :=
  [("config", ArgString "firewall"); ("section", ArgString (oc_IPSetName (ub_cfg c)));
   ("option", ArgString "entry"); ("values", ArgStrings values)]%string.

Definition ok_of {A} (r : (UbusClient * Net) * option A) : (UbusClient * Net) * bool :=
  (r.1, match r.2 with Some _ => true | None => false end).

Definition ubus_Login (now : Time) (w : UbusClient * Net) : (UbusClient * Net) * bool := loginLocked now w.

(** The single-address calls commit inline. *)
Definition then_commit (now : Time) (r : (UbusClient * Net) * bool) : (UbusClient * Net) * bool :=
  if r.2 then ok_of (ubus_doRequest now r.1 "uci" "commit" [("config", ArgString "firewall")]%string)
  else (r.1, false).

Definition ubus_AddEntry (now : Time) (w : UbusClient * Net) (ip : string) : (UbusClient * Net) * bool :=
  then_commit now (ok_of (ubus_doRequest now w "uci" "add_list" (entry_args w.1 [ip]))).

Definition ubus_DeleteEntry (now : Time) (w : UbusClient * Net) (ip : string) : (UbusClient * Net) * bool :=
  then_commit now (ok_of (ubus_doRequest now w "uci" "del_list" (entry_args w.1 [ip]))).

Definition ubus_AddEntries (now : Time) (w : UbusClient * Net) (ips : list string)
  : (UbusClient * Net) * bool :=
  if (length ips =? 0)%nat then (w, true)
  else ok_of (ubus_doRequest now w "uci" "add_list" (entry_args w.1 ips)).

Definition ubus_DeleteEntries (now : Time) (w : UbusClient * Net) (ips : list string)
  : (UbusClient * Net) * bool :=
  if (length ips =? 0)%nat then (w, true)
  else ok_of (ubus_doRequest now w "uci" "del_list" (entry_args w.1 ips)).

Definition ubus_Commit (now : Time) (w : UbusClient * Net) : (UbusClient * Net) * bool :=
  ok_of (ubus_doRequest now w "uci" "commit" [("config", ArgString "firewall")]%string).

Definition ubus_ListEntries (now : Time) (w : UbusClient * Net)
  : (UbusClient * Net) * option (list string) :=
  let '(w', data) :=
    ubus_doRequest now w "uci" "get"
      [("config", ArgString "firewall"); ("section", ArgString (oc_IPSetName (ub_cfg w.1)));
       ("option", ArgString "entry")]%string in
  (w', d ← data; into_struct value_fields d []).

Definition ubus_Reload (now : Time) (w : UbusClient * Net) : (UbusClient * Net) * bool :=
  ok_of (ubus_doRequest now w "rc" "init"
    [("name", ArgString "firewall"); ("action", ArgString "reload")]%string).

Definition ubus_client : OpenwrtClient :=
  {| OWorld := UbusClient * Net; ow_AddEntries := ubus_AddEntries;
     ow_DeleteEntries := ubus_DeleteEntries; ow_Commit := ubus_Commit;
     ow_ListEntries := ubus_ListEntries; ow_Reload := ubus_Reload |}.

End ubus.

(** ** executor.go *)

Section executor.
Context {MR : MapRange} {DW : DedupWindow} {CL : OpenwrtClient}.

Record OpenwrtExecutor := mkOpenwrtExecutor {
  ow_cfg : OpenwrtConfig;
  ow_banned : gmap string banRecord;
  ow_dedupWin : Window;
  ow_stats : ExecStats
}.

Definition NewOpenwrtExecutor (raw : Params) : option OpenwrtExecutor :=
  c ← openwrt_parseConfig raw;
  Some (mkOpenwrtExecutor c ∅ (NewWindow (oc_DedupWindow c)) stats_zero).

Definition ow_map_stats (f : ExecStats -> ExecStats) (e : OpenwrtExecutor) : OpenwrtExecutor :=
  mkOpenwrtExecutor (ow_cfg e) (ow_banned e) (ow_dedupWin e) (f (ow_stats e)).
Definition ow_set_banned (b : gmap string banRecord) (e : OpenwrtExecutor) : OpenwrtExecutor :=
  mkOpenwrtExecutor (ow_cfg e) b (ow_dedupWin e) (ow_stats e).

Definition ow_syncExisting (now : Time) (e : OpenwrtExecutor) (w : OWorld)
  : OpenwrtExecutor * OWorld * bool :=
  let '(w', entries) := ow_ListEntries now w in
  match entries with
  | None => (e, w', false)
  | Some ips => (ow_set_banned (ban_all now (oc_TTL (ow_cfg e)) ips (ow_banned e)) e, w', true)
  end.

(** A call that is skipped when there is nothing to send: state, the success
    flag and the error count. *)
Definition ow_mutate (call : OWorld -> list string -> OWorld * bool) (w : OWorld) (ips : list string)
  : OWorld * bool * Z :=
  if (length ips =? 0)%nat then (w, false, 0%Z)
  else let '(w', ok) := call w ips in (w', ok, if ok then 0 else 1)%Z.

Definition ow_apply (now : Time) (w : OWorld) : OWorld * Z :=
  let '(w1, ok1) := ow_Commit now w in
  let '(w2, ok2) := ow_Reload now w1 in
  (w2, (if ok1 then 0 else 1) + (if ok2 then 0 else 1))%Z.

Definition ow_unique (e : OpenwrtExecutor) (pending : list string) : list string :=
  filter (fun ip => ban_known (ow_banned e) ip = false) pending.

(** [now] is read before the calls, [now'] after them. *)
Definition ow_flush (now now' : Time) (pending : list string) (e : OpenwrtExecutor) (w : OWorld)
  : OpenwrtExecutor * OWorld :=
  let uniquePending := ow_unique e pending in
  let e1 := ow_map_stats (add_skipped (Z.of_nat (length pending - length uniquePending))) e in
  let expired := expired_ips now (ow_banned e) in
  if ((length uniquePending =? 0) && (length expired =? 0))%nat then (e1, w)
  else
    let '(w1, addedOK, errs1) := ow_mutate (ow_AddEntries now) w uniquePending in
    let '(w2, deletedOK, errs2) := ow_mutate (ow_DeleteEntries now) w1 expired in
    let '(w3, errs3) := if (addedOK || deletedOK)%bool then ow_apply now w2 else (w2, 0%Z) in
    let e2 := ow_map_stats (add_errors (errs1 + errs2 + errs3)) e1 in
    let e3 :=
      if addedOK : bool then
        mkOpenwrtExecutor (ow_cfg e2) (ban_all now' (oc_TTL (ow_cfg e2)) uniquePending (ow_banned e2))
          (win_MarkBatch now' uniquePending (ow_dedupWin e2))
          (add_executed (Z.of_nat (length uniquePending)) (ow_stats e2))
      else e2 in
    let e4 :=
      if deletedOK : bool then
        ow_map_stats (add_swept (Z.of_nat (length expired)))
          (ow_set_banned (unban_all expired (ow_banned e3)) e3)
      else e3 in
    (e4, w3).

Definition ow_isDuplicate (now : Time) (e : OpenwrtExecutor) (ip : string) : bool :=
  (win_Contains now (ow_dedupWin e) ip || ban_known (ow_banned e) ip)%bool.

(** *** The run loop *)

Record OpenwrtRun := mkOpenwrtRun {
  or_exec : OpenwrtExecutor;
  or_world : OWorld;
  or_pending : list string
}.

Definition ow_step (turn : Time * Time * RunInput) (r : OpenwrtRun) : OpenwrtRun * bool :=
  let '(now, now', i) := turn in
  let e := or_exec r in
  match i with
  | InDone | InClosed =>
      let '(e1, w1) := ow_flush now now' (or_pending r) e (or_world r) in
      (mkOpenwrtRun e1 w1 (or_pending r), true)
  | InEvent ev =>
      if (negb (meetsMinLevel (oc_MinLevel (ow_cfg e)) (te_Level ev)) ||
          ow_isDuplicate now e (te_IP ev))%bool then
        (mkOpenwrtRun (ow_map_stats (add_skipped 1) e) (or_world r) (or_pending r), false)
      else
        let pending := or_pending r ++ [te_IP ev] in
        if (oc_BatchSize (ow_cfg e) <=? Z.of_nat (length pending))%Z then
          let '(e1, w1) := ow_flush now now' pending e (or_world r) in
          (mkOpenwrtRun e1 w1 [], false)
        else (mkOpenwrtRun e (or_world r) pending, false)
  | InFlushTick =>
      if (0 <? length (or_pending r))%nat then
        let '(e1, w1) := ow_flush now now' (or_pending r) e (or_world r) in
        (mkOpenwrtRun e1 w1 [], false)
      else (r, false)
  | InSweepTick =>
      let '(e1, w1) := ow_flush now now' [] e (or_world r) in
      (mkOpenwrtRun e1 w1 (or_pending r), false)
  end.

(** [None] is the panic of a buffer with a negative capacity. *)
Definition ow_Run (now : Time) (e : OpenwrtExecutor) (w : OWorld) (turns : list (Time * Time * RunInput))
  : option (OpenwrtRun * bool) :=
  let '(e1, w1, _) := ow_syncExisting now e w in
  if (oc_BatchSize (ow_cfg e) <? 0)%Z then None
  else Some (run_turns ow_step turns (mkOpenwrtRun e1 w1 [])).

(** ** What the executor expects of the router

    UCI keeps a set in a staging area.  Of a router in a sound state and addresses
    it can hold: a call that reports success has been applied to the set, one that
    reports an error has no effect, and the state stays sound. *)
Class OpenwrtSet := {
  staged : OWorld -> gset string;
  rt_ok : OWorld -> Prop;
  rt_addr : string -> Prop;
  add_law now w ips : rt_ok w -> Forall rt_addr ips -> let '(w', ok) := ow_AddEntries now w ips in
    rt_ok w' /\ staged w' = if ok then staged w ∪ list_to_set ips else staged w;
  delete_law now w ips : rt_ok w -> Forall rt_addr ips -> let '(w', ok) := ow_DeleteEntries now w ips in
    rt_ok w' /\ staged w' = if ok then staged w ∖ list_to_set ips else staged w;
  commit_law now w : rt_ok w -> rt_ok (ow_Commit now w).1 /\ staged (ow_Commit now w).1 = staged w;
  reload_law now w : rt_ok w -> rt_ok (ow_Reload now w).1 /\ staged (ow_Reload now w).1 = staged w;
  list_law now w : rt_ok w -> let '(w', entries) := ow_ListEntries now w in
    rt_ok w' /\ staged w' = staged w /\
    match entries with Some ips => list_to_set ips = staged w /\ Forall rt_addr ips | None => True end
}.

(** A commit makes the staged changes the configuration in force; nothing else
    does. *)
Class OpenwrtRouter {ST : OpenwrtSet} := {
  applied : OWorld -> gset string;
  applied_add now w ips : applied (ow_AddEntries now w ips).1 = applied w;
  applied_delete now w ips : applied (ow_DeleteEntries now w ips).1 = applied w;
  applied_commit now w : applied (ow_Commit now w).1 = if (ow_Commit now w).2 then staged w else applied w;
  applied_reload now w : applied (ow_Reload now w).1 = applied w;
  applied_list now w : applied (ow_ListEntries now w).1 = applied w
}.

Section mirror.
Context {ST : OpenwrtSet}.

Lemma ow_apply_law now w : rt_ok w -> rt_ok (ow_apply now w).1 /\ staged (ow_apply now w).1 = staged w.
Proof.
  intros Hw. unfold ow_apply. pose proof (commit_law now w Hw) as H1. destruct (ow_Commit now w) as [w1 ok1].
  destruct H1 as [Hw1 H1]. pose proof (reload_law now w1 Hw1) as H2. destruct (ow_Reload now w1) as [w2 ok2]. cbn in *.
  destruct H2 as [Hw2 H2]. split; congruence.
Qed.

Lemma ow_mutate_add now w ips : rt_ok w -> Forall rt_addr ips ->
  let '(w', ok, _) := ow_mutate (ow_AddEntries now) w ips in
  rt_ok w' /\ staged w' = if ok then staged w ∪ list_to_set ips else staged w.
Proof.
  intros Hw Hips. unfold ow_mutate. destruct (length ips =? 0)%nat; [done|]. pose proof (add_law now w ips Hw Hips) as Hl.
  by destruct (ow_AddEntries now w ips).
Qed.

Lemma ow_mutate_delete now w ips : rt_ok w -> Forall rt_addr ips ->
  let '(w', ok, _) := ow_mutate (ow_DeleteEntries now) w ips in
  rt_ok w' /\ staged w' = if ok then staged w ∖ list_to_set ips else staged w.
Proof.
  intros Hw Hips. unfold ow_mutate. destruct (length ips =? 0)%nat; [done|]. pose proof (delete_law now w ips Hw Hips) as Hl.
  by destruct (ow_DeleteEntries now w ips).
Qed.

(** The bookkeeping agrees with the staged set. *)
Definition ow_mirrors (e : OpenwrtExecutor) (w : OWorld) : Prop :=
  rt_ok w /\ dom (ow_banned e) = staged w /\ forall ip, ip ∈ dom (ow_banned e) -> rt_addr ip.

Lemma expired_addr now e w : ow_mirrors e w -> Forall rt_addr (expired_ips now (ow_banned e)).
Proof.
  intros (_ & _ & Ha). apply Forall_forall. intros x (rec & Hx & _)%expired_ips_spec.
  apply Ha. by apply elem_of_dom_2 in Hx.
Qed.

Lemma unique_addr e pending : Forall rt_addr pending -> Forall rt_addr (ow_unique e pending).
Proof. rewrite !Forall_forall. intros H x [_ Hx]%list_elem_of_filter. by apply H. Qed.

Lemma ow_flush_mirrors now now' pending e w : Forall rt_addr pending -> ow_mirrors e w ->
  let '(e', w') := ow_flush now now' pending e w in ow_mirrors e' w'.
Proof.
  intros Hp Hm. pose proof (expired_addr now e w Hm) as Hexp. pose proof (unique_addr e pending Hp) as Hun.
  destruct Hm as (Hw & Hd & Ha). unfold ow_flush. destruct (_ && _)%bool; [done|].
  pose proof (ow_mutate_add now w (ow_unique e pending) Hw Hun) as H1.
  destruct (ow_mutate (ow_AddEntries now) _ _) as [[w1 addedOK] errs1]. destruct H1 as [Hw1 H1].
  pose proof (ow_mutate_delete now w1 (expired_ips now (ow_banned e)) Hw1 Hexp) as H2.
  destruct (ow_mutate (ow_DeleteEntries now) _ _) as [[w2 deletedOK] errs2]. destruct H2 as [Hw2 H2].
  pose proof (ow_apply_law now w2 Hw2) as [Hw3 H3]. destruct (ow_apply now w2) as [w3 errs3]. cbn [fst] in *.
  rewrite Forall_forall in Hun. unfold ow_mirrors.
  destruct addedOK, deletedOK; cbn; rewrite ?unban_all_dom, ?ban_all_dom; (split; [done|]); (split; [congruence|]); set_solver.
Qed.

(** The address of an event is one the router can hold. *)
Definition ow_turn_ok (turn : Time * Time * RunInput) : Prop :=
  match turn.2 with InEvent ev => rt_addr (te_IP ev) | _ => True end.

Definition run_mirrors (r : OpenwrtRun) : Prop :=
  ow_mirrors (or_exec r) (or_world r) /\ Forall rt_addr (or_pending r).

(** A turn flushes some pending addresses or only counts. *)
Lemma ow_step_flushes (P : OpenwrtExecutor -> OWorld -> Prop) now now' i r :
  ow_turn_ok (now, now', i) -> Forall rt_addr (or_pending r) -> P (or_exec r) (or_world r) ->
  P (ow_map_stats (add_skipped 1) (or_exec r)) (or_world r) ->
  (forall p, Forall rt_addr p -> let '(e', w') := ow_flush now now' p (or_exec r) (or_world r) in P e' w') ->
  let r' := (ow_step (now, now', i) r).1 in P (or_exec r') (or_world r') /\ Forall rt_addr (or_pending r').
Proof.
  intros Ht Hp Hsame Hstats Hf. destruct i as [ev| | | |]; cbn [ow_step].
  - destruct (_ || _)%bool; [done|]. assert (Hp' : Forall rt_addr (or_pending r ++ [te_IP ev])).
    { apply Forall_app. split; [done|]. by apply Forall_singleton. }
    specialize (Hf _ Hp'). destruct (_ <=? _)%Z; [|done]. by destruct (ow_flush _ _ _ _ _).
  - specialize (Hf (or_pending r) Hp). destruct (_ <? _)%nat; [|done]. by destruct (ow_flush _ _ _ _ _).
  - specialize (Hf [] (Forall_nil_2 _)). by destruct (ow_flush _ _ _ _ _).
  - specialize (Hf (or_pending r) Hp). by destruct (ow_flush _ _ _ _ _).
  - specialize (Hf (or_pending r) Hp). by destruct (ow_flush _ _ _ _ _).
Qed.

Lemma ow_step_mirrors turn r : ow_turn_ok turn -> run_mirrors r -> run_mirrors (ow_step turn r).1.
Proof.
  destruct turn as [[now now'] i]. intros Ht [Hm Hp]. apply (ow_step_flushes ow_mirrors); try done.
  intros p Hp'. by apply ow_flush_mirrors.
Qed.

(** After the start-up sync. *)
Lemma ow_sync_mirrors now e w : ow_banned e = ∅ -> rt_ok w -> (ow_ListEntries now w).2 <> None ->
  run_mirrors (mkOpenwrtRun (ow_syncExisting now e w).1.1 (ow_syncExisting now e w).1.2 []).
Proof.
  intros He Hw Hl. unfold ow_syncExisting. pose proof (list_law now w Hw) as Hlist.
  destruct (ow_ListEntries now w) as [w1 [ips|]]; [|done]. destruct Hlist as (Hw1 & H1 & H2 & H3).
  split; [|apply Forall_nil_2]. unfold ow_mirrors. cbn. rewrite ban_all_dom, He, dom_empty_L, H1.
  split; [done|]. split; [set_solver|]. rewrite Forall_forall in H3. set_solver.
Qed.

(** An invariant that holds after the sync holds at the end of the run. *)
Lemma ow_Run_invariant (I : OpenwrtRun -> Prop) now e w turns :
  (0 <= oc_BatchSize (ow_cfg e))%Z -> Forall ow_turn_ok turns ->
  (forall t r, ow_turn_ok t -> I r -> I (ow_step t r).1) ->
  I (mkOpenwrtRun (ow_syncExisting now e w).1.1 (ow_syncExisting now e w).1.2 []) ->
  exists r returned, ow_Run now e w turns = Some (r, returned) /\ I r.
Proof.
  intros Hb Ht Hstep H0. unfold ow_Run. destruct (ow_syncExisting now e w) as [[e1 w1] ok]. cbn [fst snd] in H0.
  apply Z.ltb_ge in Hb. rewrite Hb. destruct (run_turns _ _ _) as [r returned] eqn:Er. exists r, returned. split; [done|].
  pose proof (run_turns_invariant ow_step ow_turn_ok I turns _ Hstep Ht H0) as Hi. by rewrite Er in Hi.
Qed.

Context {RT : OpenwrtRouter}.

Lemma ow_apply_applied now w : applied (ow_apply now w).1 = if (ow_Commit now w).2 then staged w else applied w.
Proof.
  unfold ow_apply. rewrite <- applied_commit. destruct (ow_Commit now w) as [w1 ok1]. cbn [fst].
  rewrite <- (applied_reload now w1). by destruct (ow_Reload now w1).
Qed.

Lemma ow_mutate_applied now w ips :
  applied (ow_mutate (ow_AddEntries now) w ips).1.1 = applied w /\
  applied (ow_mutate (ow_DeleteEntries now) w ips).1.1 = applied w.
Proof.
  unfold ow_mutate. destruct (length ips =? 0)%nat; [done|]. pose proof (applied_add now w ips) as H1.
  pose proof (applied_delete now w ips) as H2. by destruct (ow_AddEntries now w ips), (ow_DeleteEntries now w ips).
Qed.

(** a commit that fails is not noticed by the bookkeeping: when [AddEntries]
    succeeds and the commit fails, the flush still records the addresses as
    banned and marks them in the dedup window, so they are skipped from then on
    although the configuration in force does not contain them. *)
Theorem openwrt_commit_failure_recorded now now' now'' pending e w ip :
  ip ∈ ow_unique e pending -> (ow_AddEntries now w (ow_unique e pending)).2 = true ->
  (forall w, (ow_Commit now w).2 = false) -> ip ∉ applied w ->
  let '(e', w') := ow_flush now now' pending e w in
  ow_isDuplicate now'' e' ip = true /\ ip ∉ applied w'.
Proof.
  intros Hin Hadd Hcom Hna. unfold ow_flush.
  destruct (Nat.eqb_spec (length (ow_unique e pending)) 0) as [Hz|Hz].
  { apply nil_length_inv in Hz. rewrite Hz in Hin. by apply elem_of_nil in Hin. }
  cbn [andb]. destruct (ow_mutate_applied now w (ow_unique e pending)) as [H1 _].
  assert (Hok : (ow_mutate (ow_AddEntries now) w (ow_unique e pending)).1.2 = true).
  { unfold ow_mutate. apply Nat.eqb_neq in Hz. rewrite Hz.
    by destruct (ow_AddEntries now w (ow_unique e pending)). }
  destruct (ow_mutate (ow_AddEntries now) _ _) as [[w1 addedOK] errs1]. cbn in Hok. subst addedOK.
  destruct (ow_mutate_applied now w1 (expired_ips now (ow_banned e))) as [_ H2].
  destruct (ow_mutate (ow_DeleteEntries now) _ _) as [[w2 deletedOK] errs2]. cbn [orb].
  pose proof (ow_apply_applied now w2) as H3. rewrite Hcom in H3. destruct (ow_apply now w2) as [w3 errs3].
  assert (Hexp : ip ∉ expired_ips now (ow_banned e)).
  { intros (rec & Hr & _)%expired_ips_spec. apply list_elem_of_filter in Hin as [Hk _].
    unfold ban_known in Hk. by rewrite Hr in Hk. }
  split; [|cbn in *; congruence]. unfold ow_isDuplicate, ban_known.
  assert (Hb : (if deletedOK then unban_all (expired_ips now (ow_banned e))
                  (ban_all now' (oc_TTL (ow_cfg e)) (ow_unique e pending) (ow_banned e))
                else ban_all now' (oc_TTL (ow_cfg e)) (ow_unique e pending) (ow_banned e)) !! ip =
               Some (mkBanRecord ip now' (time_Add now' (oc_TTL (ow_cfg e))))).
  { destruct deletedOK; rewrite ?unban_all_lookup, ?(decide_False (P := ip ∈ expired_ips now _)),
      ban_all_lookup, decide_True by done; done. }
  destruct deletedOK; cbn [ow_banned ow_dedupWin ow_map_stats ow_set_banned ow_cfg] in *;
    rewrite Hb; apply orb_true_r.
Qed.

End mirror.
End executor.

(** ** Answers that get lost

    The same with less asked of the router: an add or delete that reports an error
    may have been staged, in part or in full. *)
Class LossyRouter {CL : OpenwrtClient} := {
  lr_staged : OWorld -> gset string;
  lr_applied : OWorld -> gset string;
  lr_ok : OWorld -> Prop;
  lr_addr : string -> Prop;
  lr_add_law now w ips : lr_ok w -> Forall lr_addr ips -> let '(w', ok) := ow_AddEntries now w ips in
    lr_ok w' /\ lossy (Added ips ok) (lr_staged w) (lr_staged w') /\ lr_applied w' = lr_applied w;
  lr_delete_law now w ips : lr_ok w -> Forall lr_addr ips -> let '(w', ok) := ow_DeleteEntries now w ips in
    lr_ok w' /\ lossy (Deleted ips ok) (lr_staged w) (lr_staged w') /\ lr_applied w' = lr_applied w;
  lr_commit_law now w : lr_ok w -> let '(w', ok) := ow_Commit now w in
    lr_ok w' /\ lr_staged w' = lr_staged w /\ (ok = true -> lr_applied w' = lr_staged w);
  lr_reload_law now w : lr_ok w -> let '(w', _) := ow_Reload now w in
    lr_ok w' /\ lr_staged w' = lr_staged w /\ lr_applied w' = lr_applied w;
  lr_list_law now w : lr_ok w -> let '(w', entries) := ow_ListEntries now w in
    lr_ok w' /\ lr_staged w' = lr_staged w /\ lr_applied w' = lr_applied w /\
    match entries with Some ips => list_to_set ips = lr_staged w /\ Forall lr_addr ips | None => True end
}.

(** A client that also writes down its adds and deletes and what they reported. *)
Definition ow_logged {CL : OpenwrtClient} : OpenwrtClient :=
  {| OWorld := OWorld * list SetCall;
     ow_AddEntries := fun now w ips => let '(w', ok) := ow_AddEntries now w.1 ips in ((w', w.2 ++ [Added ips ok]), ok);
     ow_DeleteEntries := fun now w ips => let '(w', ok) := ow_DeleteEntries now w.1 ips in ((w', w.2 ++ [Deleted ips ok]), ok);
     ow_Commit := fun now w => let '(w', ok) := ow_Commit now w.1 in ((w', w.2), ok);
     ow_ListEntries := fun now w => let '(w', entries) := ow_ListEntries now w.1 in ((w', w.2), entries);
     ow_Reload := fun now w => let '(w', ok) := ow_Reload now w.1 in ((w', w.2), ok) |}.

Section answers.
Context {MR : MapRange} {DW : DedupWindow} {CL : OpenwrtClient}.
Notation logged_world := (@OWorld ow_logged).

Definition ow_unlog (r : @OpenwrtRun DW ow_logged) : OpenwrtRun := mkOpenwrtRun (or_exec r) (or_world r).1 (or_pending r).

Lemma flush_unlog now now' pending e (w : logged_world) :
  ow_flush now now' pending e w.1 = ((ow_flush now now' pending e w).1, (ow_flush now now' pending e w).2.1).
Proof.
  unfold ow_flush. destruct (_ && _)%bool; [done|]. unfold ow_mutate. cbn [ow_AddEntries ow_DeleteEntries ow_logged].
  destruct (length (ow_unique e pending) =? 0)%nat; [|destruct (ow_AddEntries now w.1 (ow_unique e pending)) as [w1 []]];
  cbn [fst snd]; (destruct (length (expired_ips now (ow_banned e)) =? 0)%nat;
    [|destruct (ow_DeleteEntries now _ (expired_ips now (ow_banned e))) as [w2 []]]); cbn [orb fst snd]; try done.
  all: unfold ow_apply; cbn [ow_Commit ow_Reload ow_logged fst snd]; destruct (ow_Commit now _) as [w3 ?]; cbn [fst snd];
    by destruct (ow_Reload now w3) as [w4 ?].
Qed.

Lemma ow_step_unlog turn r : ow_step turn (ow_unlog r) = (ow_unlog (ow_step turn r).1, (ow_step turn r).2).
Proof.
  destruct turn as [[now now'] i], r as [e w p]. destruct i as [ev| | | |]; cbn [ow_step ow_unlog or_exec or_world or_pending].
  1: destruct (_ || _)%bool; [done|]; destruct (_ <=? _)%Z; [|done].
  2: destruct (_ <? _)%nat; [|done].
  all: rewrite flush_unlog; by destruct (ow_flush _ _ _ e w) as [e1 w1].
Qed.

Lemma ow_Run_unlog now e w turns : ow_Run now e w turns =
  (fun out => (ow_unlog out.1, out.2)) <$> @ow_Run _ _ ow_logged now e (w, []) turns.
Proof.
  unfold ow_Run, ow_syncExisting. cbn [ow_ListEntries ow_logged fst snd]. destruct (ow_ListEntries now w) as [w1 [ips|]];
    (destruct (_ <? _)%Z; [done|]); cbn [fmap option_fmap option_map]; f_equal;
    exact (run_turns_project ow_unlog (@ow_step _ _ ow_logged) ow_step turns (@mkOpenwrtRun _ ow_logged _ (w1, []) []) ow_step_unlog).
Qed.

Section lossy.
Context {LR : LossyRouter}.

Definition lr_commits_succeed : Prop := forall now w, lr_ok w -> (ow_Commit now w).2 = true.

(** The calls of a run that started with the set [start], and the set [X] they
    should have left. *)
Record calls_ok (start X : gset string) (w : logged_world) : Prop := {
  ca_ok : lr_ok w.1;
  ca_confirmed : X = confirmed w.2 start;
  ca_agree : agree (unsettled w.2) X (lr_staged w.1)
}.

Lemma calls_ok_call start X w c w' : calls_ok start X w -> lr_ok w' -> lossy c (lr_staged w.1) (lr_staged w') ->
  calls_ok start (confirm X c) (w', w.2 ++ [c]).
Proof.
  intros [Hok Hc Ha] Hok' Hl. split; cbn [fst snd]; [done| |]; unfold confirmed, unsettled in *; rewrite foldl_app; cbn.
  - by rewrite Hc.
  - by eapply agree_call.
Qed.

(** What one call of a flush leaves; a failed one only adds to the doubt. *)
Definition mutated (start X X' : gset string) (w : logged_world) (out : logged_world * bool * Z) : Prop :=
  let '(w', ok, _) := out in
  calls_ok start (if ok then X' else X) w' /\ lr_applied w'.1 = lr_applied w.1 /\
  (ok = false -> unsettled w.2 ⊆ unsettled w'.2).

Lemma unsettled_failed log c : unsettle (unsettled log) c = unsettled (log ++ [c]).
Proof. unfold unsettled. by rewrite foldl_app. Qed.

Lemma mutate_add_lossy start X now w ips : Forall lr_addr ips -> calls_ok start X w ->
  mutated start X (X ∪ list_to_set ips) w (ow_mutate (ow_AddEntries now) w ips).
Proof.
  intros Hips Hc. unfold ow_mutate. destruct (length ips =? 0)%nat; [done|]. cbn [ow_AddEntries ow_logged].
  pose proof (lr_add_law now w.1 ips (ca_ok _ _ _ Hc) Hips) as Hl.
  destruct (ow_AddEntries now w.1 ips) as [w' []]; destruct Hl as (Hok & Hl & Ha);
    (split; [exact (calls_ok_call _ _ _ _ _ Hc Hok Hl)|]); (split; [done|]); [done|]. intros _. cbn [snd].
  rewrite <- unsettled_failed. cbn. set_solver.
Qed.

Lemma mutate_delete_lossy start X now w ips : Forall lr_addr ips -> calls_ok start X w ->
  mutated start X (X ∖ list_to_set ips) w (ow_mutate (ow_DeleteEntries now) w ips).
Proof.
  intros Hips Hc. unfold ow_mutate. destruct (length ips =? 0)%nat; [done|]. cbn [ow_DeleteEntries ow_logged].
  pose proof (lr_delete_law now w.1 ips (ca_ok _ _ _ Hc) Hips) as Hl.
  destruct (ow_DeleteEntries now w.1 ips) as [w' []]; destruct Hl as (Hok & Hl & Ha);
    (split; [exact (calls_ok_call _ _ _ _ _ Hc Hok Hl)|]); (split; [done|]); [done|]. intros _. cbn [snd].
  rewrite <- unsettled_failed. cbn. set_solver.
Qed.

(** A commit brings the agreement to the configuration in force. *)
Lemma apply_lossy start X now w : lr_commits_succeed -> calls_ok start X w ->
  let '(w', _) := ow_apply now w in calls_ok start X w' /\ agree (unsettled w'.2) X (lr_applied w'.1).
Proof.
  intros Hcs [Hok Hc Ha]. unfold ow_apply. cbn [ow_Commit ow_Reload ow_logged].
  pose proof (lr_commit_law now w.1 Hok) as H1. specialize (Hcs now w.1 Hok). destruct (ow_Commit now w.1) as [w1 ok1].
  destruct H1 as (Hok1 & Hs1 & Ha1). cbn [fst snd] in *. pose proof (lr_reload_law now w1 Hok1) as H2.
  destruct (ow_Reload now w1) as [w2 ok2]. destruct H2 as (Hok2 & Hs2 & Ha2). cbn [fst snd].
  rewrite Ha2, Ha1 by done. split; [|done]. split; cbn [fst snd]; [done|done|by rewrite Hs2, Hs1].
Qed.

(** [start]: the set at the start of the run. *)
Record ow_reconciled (start : gset string) (e : OpenwrtExecutor) (w : logged_world) : Prop := {
  or_calls : calls_ok start (dom (ow_banned e)) w;
  or_applied : agree (unsettled w.2) (dom (ow_banned e)) (lr_applied w.1);
  or_addr : forall ip, ip ∈ dom (ow_banned e) -> lr_addr ip
}.

Lemma flush_reconciled start now now' pending e w : lr_commits_succeed -> Forall lr_addr pending -> ow_reconciled start e w ->
  let '(e', w') := ow_flush now now' pending e w in ow_reconciled start e' w'.
Proof.
  intros Hcs Hp [Hc Hap Haddr]. unfold ow_flush. destruct (_ && _)%bool; [done|].
  assert (Hun : Forall lr_addr (ow_unique e pending)).
  { rewrite Forall_forall in *. intros x [_ Hx]%list_elem_of_filter. by apply Hp. }
  assert (Hexp : Forall lr_addr (expired_ips now (ow_banned e))).
  { apply Forall_forall. intros x (rec & Hx & _)%expired_ips_spec. apply Haddr. by apply elem_of_dom_2 in Hx. }
  pose proof (mutate_add_lossy start (dom (ow_banned e)) now w _ Hun Hc) as H1.
  destruct (ow_mutate (ow_AddEntries now) w _) as [[w1 addedOK] errs1]. destruct H1 as (Hc1 & Ha1 & Hu1).
  pose proof (mutate_delete_lossy start _ now w1 _ Hexp Hc1) as H2.
  destruct (ow_mutate (ow_DeleteEntries now) w1 _) as [[w2 deletedOK] errs2]. destruct H2 as (Hc2 & Ha2 & Hu2).
  pose proof (apply_lossy start _ now w2 Hcs Hc2) as H3. destruct (ow_apply now w2) as [w3 errs3]. destruct H3 as [Hc3 Ha3].
  rewrite Forall_forall in Hun. destruct (addedOK || deletedOK)%bool eqn:Hany.
  - destruct addedOK, deletedOK; try done; split; cbn [ow_banned ow_map_stats ow_set_banned ow_cfg];
      rewrite ?unban_all_dom, ?ban_all_dom; try assumption.
    all: intros x Hx; rewrite ?elem_of_difference, ?elem_of_union, ?elem_of_list_to_set in Hx; naive_solver.
  - apply orb_false_iff in Hany as [-> ->]. split; cbn [ow_banned ow_map_stats]; [exact Hc2| |exact Haddr].
    rewrite Ha2, Ha1. intros ip Hip. apply Hap. specialize (Hu1 eq_refl). specialize (Hu2 eq_refl). set_solver.
Qed.

Definition ow_turn_addr (turn : Time * Time * RunInput) : Prop :=
  match turn.2 with InEvent ev => lr_addr (te_IP ev) | _ => True end.

Definition run_reconciled (start : gset string) (r : @OpenwrtRun DW ow_logged) : Prop :=
  ow_reconciled start (or_exec r) (or_world r) /\ Forall lr_addr (or_pending r).

Lemma step_run_reconciled start turn r : lr_commits_succeed -> ow_turn_addr turn -> run_reconciled start r ->
  run_reconciled start (ow_step turn r).1.
Proof.
  destruct turn as [[now now'] i], r as [e w p]. intros Hcs Ht [Hr Hp]. cbn [or_exec or_world or_pending] in *.
  pose proof (fun p Hp => flush_reconciled start now now' p e w Hcs Hp Hr) as Hf. unfold run_reconciled.
  destruct i as [ev| | | |]; cbn [ow_step or_exec or_world or_pending].
  - destruct (_ || _)%bool; [by destruct Hr|]. assert (Hp' : Forall lr_addr (p ++ [te_IP ev])).
    { apply Forall_app. split; [done|]. by apply Forall_singleton. }
    specialize (Hf _ Hp'). destruct (_ <=? _)%Z; [|done]. by destruct (ow_flush _ _ _ _ _).
  - specialize (Hf p Hp). destruct (_ <? _)%nat; [|done]. by destruct (ow_flush _ _ _ _ _).
  - specialize (Hf [] (Forall_nil_2 _)). by destruct (ow_flush _ _ _ _ _).
  - specialize (Hf p Hp). by destruct (ow_flush _ _ _ _ _).
  - specialize (Hf p Hp). by destruct (ow_flush _ _ _ _ _).
Qed.

(** C20: refinement of the router's set over a client whose answers can be lost. If the batch size is not negative, the startup sync succeeds, nothing is staged beforehand, nobody else edits the set and commits succeed, then the run does not panic and through any sequence of events, ticks and shutdown, whichever adds, deletes and reloads report an error, whether or not the router had staged them by then, in part or in full: the ban map holds exactly the addresses of the set at the start plus the adds and minus the deletes that reported success, in their order, so a failed add is not recorded and a failed delete is not forgotten; and it agrees with the committed ipset section on every address but those whose own last call reported an error. *)
Theorem openwrt_mirrors_ipset now e w turns :
  (0 <= oc_BatchSize (ow_cfg e))%Z -> ow_banned e = ∅ -> lr_ok w -> Forall ow_turn_addr turns ->
  (ow_ListEntries now w).2 <> None -> lr_applied w = lr_staged w -> lr_commits_succeed ->
  exists r w' log returned, @ow_Run _ _ ow_logged now e (w, []) turns = Some (r, returned) /\ or_world r = (w', log) /\
    ow_Run now e w turns = Some (mkOpenwrtRun (or_exec r) w' (or_pending r), returned) /\
    dom (ow_banned (or_exec r)) = confirmed log (lr_applied w) /\
    (forall ip, ip ∉ unsettled log -> (ip ∈ dom (ow_banned (or_exec r)) <-> ip ∈ lr_applied w')) /\
    (unsettled log = ∅ -> dom (ow_banned (or_exec r)) = lr_applied w').
Proof.
  intros Hb He Hw Ht Hl Ha Hcs. rewrite ow_Run_unlog. unfold ow_Run, ow_syncExisting. cbn [ow_ListEntries ow_logged fst snd].
  pose proof (lr_list_law now w Hw) as Hlist. destruct (ow_ListEntries now w) as [w1 [ips|]]; [|done].
  destruct Hlist as (Hw1 & H1 & H1a & H2 & H3). apply Z.ltb_ge in Hb. rewrite Hb. set (r0 := mkOpenwrtRun _ _ _).
  assert (Hr : run_reconciled (lr_applied w) (run_turns (@ow_step _ _ ow_logged) turns r0).1).
  { apply (run_turns_invariant _ ow_turn_addr); [intros t s; by apply step_run_reconciled|done|].
    rewrite Forall_forall in H3. split; [|apply Forall_nil_2]. assert (Hd : dom (ow_banned (or_exec r0)) = lr_applied w).
    { unfold r0. cbn. rewrite ban_all_dom, He, dom_empty_L, Ha, <- H2. set_solver. }
    split; rewrite ?Hd; [split; cbn; [done|done|by rewrite H1, Ha]|cbn; by rewrite H1a|].
    intros ip. rewrite Ha, <- H2. set_solver. }
  destruct (run_turns (@ow_step _ _ ow_logged) turns r0) as [[e' [w' log] p'] returned].
  destruct Hr as [[[_ Hc _] Hap _] _]. cbn [or_exec or_world fst snd] in *.
  eexists _, w', log, returned. split; [done|]. split; [done|]. split; [done|]. split; [done|]. split; [done|].
  intros Hu. apply set_eq. intros ip. apply Hap. rewrite Hu. set_solver.
Qed.
End lossy.
End answers.

(** ** Witnesses *)

(** A router with a staging area; [commit_ok] tells whether commits work. *)
Definition ex_owrt (commit_ok : bool) : OpenwrtClient :=
  {| OWorld := gset string * gset string;
     ow_AddEntries := fun _ w ips => ((w.1 ∪ list_to_set ips, w.2), true);
     ow_DeleteEntries := fun _ w ips => ((w.1 ∖ list_to_set ips, w.2), true);
     ow_Commit := fun _ w => if commit_ok then ((w.1, w.1), true) else (w, false);
     ow_ListEntries := fun _ w => (w, Some (elements w.1));
     ow_Reload := fun _ w => (w, true) |}.

Definition ex_owrt_set (commit_ok : bool) : @OpenwrtSet (ex_owrt commit_ok).
Proof.
  unshelve refine {| staged := (fst : @OWorld (ex_owrt commit_ok) -> gset string);
                     rt_ok := fun _ => True; rt_addr := fun _ => True |}; try done.
  - intros now w _. cbn. by destruct commit_ok.
  - intros now w _. cbn. repeat split; [apply list_to_set_elements_L|by apply Forall_forall].
Defined.

Definition ex_owrt_router (commit_ok : bool) : @OpenwrtRouter (ex_owrt commit_ok) (ex_owrt_set commit_ok).
Proof.
  unshelve refine {| applied := (snd : @OWorld (ex_owrt commit_ok) -> gset string) |}; try done.
  intros now w. cbn. by destruct commit_ok.
Defined.

Definition ex_owrt_cfg : OpenwrtConfig :=
  mkOpenwrtConfig "r" 80 "http" "u" "p" "blocklist" hour (5 * minute) 1 (30 * second) "THREAT" 0.

Definition ex_owrt_exec : @OpenwrtExecutor ex_window :=
  mkOpenwrtExecutor ex_owrt_cfg ∅ (NewWindow 0) stats_zero.

Definition ex_owrt_event (ip : string) : RunInput :=
  InEvent (mkThreatEvent 0 "THREAT" "s" "src" "file" ip 90 [] "probe" EmptyString).

(** A router that stages 9.9.9.9 and answers with an error. *)
Definition ex_lossy : OpenwrtClient :=
  {| OWorld := gset string * gset string;
     ow_AddEntries := fun _ w ips => ((w.1 ∪ list_to_set ips, w.2), negb (bool_decide ("9.9.9.9" ∈ ips)));
     ow_DeleteEntries := fun _ w ips => ((w.1 ∖ list_to_set ips, w.2), true);
     ow_Commit := fun _ w => ((w.1, w.1), true);
     ow_ListEntries := fun _ w => (w, Some (elements w.1));
     ow_Reload := fun _ w => (w, true) |}.

Definition ex_lossy_router : @LossyRouter ex_lossy.
Proof.
  unshelve refine {| lr_staged := (fst : @OWorld ex_lossy -> gset string); lr_applied := (snd : @OWorld ex_lossy -> gset string);
                     lr_ok := fun _ => True; lr_addr := fun _ => True |}; try done.
  - intros now w ips _ _. cbn. split; [done|]. split; [|done]. destruct (bool_decide _); cbn; set_solver.
  - intros now w _. cbn. repeat split; [apply list_to_set_elements_L|by apply Forall_forall].
Defined.

Definition ex_lossy_turns : list (Time * Time * RunInput) :=
  [(1%Z, 1%Z, ex_owrt_event "9.9.9.9"); (2%Z, 2%Z, ex_owrt_event "2.2.2.2")].

Definition ex_doubt (out : option (@OpenwrtRun ex_window (@ow_logged ex_lossy) * bool)) : bool :=
  match out with
  | Some (r, _) => let '(w', log) := or_world r in
      (bool_decide (unsettled log = {["9.9.9.9"]}) && bool_decide ("9.9.9.9" ∈ @lr_applied ex_lossy ex_lossy_router w'))%bool
  | None => false
  end.

(** The commit for 2.2.2.2 also brings 9.9.9.9 into force. *)
Lemma openwrt_mirrors_ipset_witness : exists r w' log returned,
  @ow_Run map_range_canonical ex_window (@ow_logged ex_lossy) 0 ex_owrt_exec (({["1.1.1.1"]}, {["1.1.1.1"]}), [])
    ex_lossy_turns = Some (r, returned) /\ or_world r = (w', log) /\ unsettled log = {["9.9.9.9"]} /\
  "9.9.9.9" ∈ @lr_applied ex_lossy ex_lossy_router w' /\
  forall ip, ip ∉ unsettled log -> (ip ∈ dom (ow_banned (or_exec r)) <-> ip ∈ @lr_applied ex_lossy ex_lossy_router w').
Proof.
  destruct (@openwrt_mirrors_ipset map_range_canonical ex_window ex_lossy ex_lossy_router 0 ex_owrt_exec
    ({["1.1.1.1"]}, {["1.1.1.1"]}) ex_lossy_turns) as (r & w' & log & returned & Hr & Hw & _ & _ & Ha & _);
    [discriminate|reflexivity|exact I|repeat constructor|discriminate|reflexivity|intros now w _; reflexivity|].
  exists r, w', log, returned. split; [exact Hr|]. split; [exact Hw|].
  assert (E : ex_doubt (@ow_Run map_range_canonical ex_window (@ow_logged ex_lossy) 0 ex_owrt_exec
    (({["1.1.1.1"]}, {["1.1.1.1"]}), []) ex_lossy_turns) = true) by (vm_compute; reflexivity).
  apply (f_equal ex_doubt) in Hr. apply (eq_trans (eq_sym Hr)) in E. cbn [ex_doubt] in E. rewrite Hw in E.
  apply andb_true_iff in E as [E1%bool_decide_eq_true E2%bool_decide_eq_true]. split; [exact E1|]. split; [exact E2|exact Ha].
Defined.

Lemma openwrt_commit_failure_recorded_witness :
  let '(e', w') := @ow_flush map_range_canonical ex_window (ex_owrt false) 1 1 ["2.2.2.2"]
                     ex_owrt_exec (∅, ∅) in
  ow_isDuplicate 9 e' "2.2.2.2" = true /\
  "2.2.2.2" ∉ @applied (ex_owrt false) (ex_owrt_set false) (ex_owrt_router false) w'.
Proof.
  apply (@openwrt_commit_failure_recorded map_range_canonical ex_window (ex_owrt false)
    (ex_owrt_set false) (ex_owrt_router false)); try done; set_solver.
Defined.
