(* ===== verification/OpnsenseExec.v ===== *)
(** * The OPNsense executor (pkg/executorplugins/opnsense)

    Configuration, the alias REST client and the executor that applies every
    event immediately and sweeps expired bans one call at a time. *)

From Stdlib Require Import ZArith Lia Ascii String.
From stdpp Require Import base numbers option list strings gmap fin_maps pretty.
From S2P Require Import Prelude GoFloat GoStrings GoValues GoJSON GoHTTP Model ExecCommon.

(** ** config.go *)

Record OpnsenseConfig := mkOpnsenseConfig {
  pc_Host : string;
  pc_Port : Z;
  pc_Scheme : string;
  pc_APIKey : string;
  pc_APISecret : string;
  pc_TLSVerify : bool;
  pc_AliasName : string;
  pc_TTL : Duration;
  pc_MinLevel : string;
  pc_DedupWindow : Duration
}.

Definition opnsense_defaultConfig : OpnsenseConfig :=
  mkOpnsenseConfig EmptyString 443 "https" EmptyString EmptyString true EmptyString 0 "THREAT" 0.

Definition opnsense_fields : json_fields OpnsenseConfig := [
  ("host", fun v c => s ← json_string v (pc_Host c);
     Some (mkOpnsenseConfig s (pc_Port c) (pc_Scheme c) (pc_APIKey c) (pc_APISecret c)
       (pc_TLSVerify c) (pc_AliasName c) (pc_TTL c) (pc_MinLevel c) (pc_DedupWindow c)));
  ("port", fun v c => z ← json_int v (pc_Port c);
     Some (mkOpnsenseConfig (pc_Host c) z (pc_Scheme c) (pc_APIKey c) (pc_APISecret c)
       (pc_TLSVerify c) (pc_AliasName c) (pc_TTL c) (pc_MinLevel c) (pc_DedupWindow c)));
  ("scheme", fun v c => s ← json_string v (pc_Scheme c);
     Some (mkOpnsenseConfig (pc_Host c) (pc_Port c) s (pc_APIKey c) (pc_APISecret c)
       (pc_TLSVerify c) (pc_AliasName c) (pc_TTL c) (pc_MinLevel c) (pc_DedupWindow c)));
  ("api_key", fun v c => s ← json_string v (pc_APIKey c);
     Some (mkOpnsenseConfig (pc_Host c) (pc_Port c) (pc_Scheme c) s (pc_APISecret c)
       (pc_TLSVerify c) (pc_AliasName c) (pc_TTL c) (pc_MinLevel c) (pc_DedupWindow c)));
  ("api_secret", fun v c => s ← json_string v (pc_APISecret c);
     Some (mkOpnsenseConfig (pc_Host c) (pc_Port c) (pc_Scheme c) (pc_APIKey c) s (pc_TLSVerify c)
       (pc_AliasName c) (pc_TTL c) (pc_MinLevel c) (pc_DedupWindow c)));
  ("tls_verify", fun v c => b ← json_bool v (pc_TLSVerify c);
     Some (mkOpnsenseConfig (pc_Host c) (pc_Port c) (pc_Scheme c) (pc_APIKey c) (pc_APISecret c) b
       (pc_AliasName c) (pc_TTL c) (pc_MinLevel c) (pc_DedupWindow c)));
  ("alias_name", fun v c => s ← json_string v (pc_AliasName c);
     Some (mkOpnsenseConfig (pc_Host c) (pc_Port c) (pc_Scheme c) (pc_APIKey c) (pc_APISecret c)
       (pc_TLSVerify c) s (pc_TTL c) (pc_MinLevel c) (pc_DedupWindow c)));
  ("min_level", fun v c => s ← json_string v (pc_MinLevel c);
     Some (mkOpnsenseConfig (pc_Host c) (pc_Port c) (pc_Scheme c) (pc_APIKey c) (pc_APISecret c)
       (pc_TLSVerify c) (pc_AliasName c) (pc_TTL c) s (pc_DedupWindow c)))]%string.

Definition opnsense_parseConfig (raw : Params) : option OpnsenseConfig :=
  let d := opnsense_defaultConfig in
  ttl ← duration_any_field raw "ttl" (pc_TTL d);
  dw ← duration_any_field raw "dedup_window" (pc_DedupWindow d);
  let c0 := mkOpnsenseConfig (pc_Host d) (pc_Port d) (pc_Scheme d) (pc_APIKey d) (pc_APISecret d)
              (pc_TLSVerify d) (pc_AliasName d) ttl (pc_MinLevel d) dw in
  c ← json_round_trip opnsense_fields (without ["ttl"; "dedup_window"] raw) c0;
  if (is_empty (pc_Host c) || is_empty (pc_APIKey c) || is_empty (pc_APISecret c) ||
      is_empty (pc_AliasName c))%bool then None
  else if (pc_TTL c <=? 0)%Z then None
  else if negb (String.eqb (pc_Scheme c) "http" || String.eqb (pc_Scheme c) "https") then None
  else match levelOrder (pc_MinLevel c) with None => None | Some _ => Some c end.

(** ** client.go *)

(** The [Client] interface, with the firewall behind it as explicit state. *)
Class OpnsenseClient := {
  PWorld : Type;
  pf_AddEntry : PWorld -> string -> PWorld * bool;
  pf_DeleteEntry : PWorld -> string -> PWorld * bool;
  pf_ListEntries : PWorld -> PWorld * option (list string)
}.

(** *** The HTTP client *)

(** The messages: the body of an address, the envelope of a result, a list. *)
Definition encode_address (ip : string) : string := Marshal (JObject [("address", JString ip)]).

Record resultEnvelope := mkResultEnvelope { re_Result : string; re_Message : string }.

Definition result_fields : fields_of JSON resultEnvelope := [
  ("result", fun v r => s ← into_string v (re_Result r); Some (mkResultEnvelope s (re_Message r)));
  ("message", fun v r => s ← into_string v (re_Message r); Some (mkResultEnvelope (re_Result r) s))].

Record listResponse := mkListResponse { lr_Content : string; lr_Rows : list string }.

Definition list_fields : fields_of JSON listResponse := [
  ("content", fun v r => s ← into_string v (lr_Content r); Some (mkListResponse s (lr_Rows r)));
  ("rows", fun v r => l ← into_strings v; Some (mkListResponse (lr_Content r) l))].

Section http.
Variable Net : Type.
(** Method, URL, credentials and body; [None] is a transport or read error. *)
Variable http_do : Net -> string -> string -> string * string -> option string ->
  Net * option HttpResponse.

Record OpnHTTPClient := mkOpnHTTPClient {
  oh_baseURL : string;
  oh_aliasName : string;
  oh_apiKey : string;
  oh_apiSecret : string
}.

Definition NewOpnHTTPClient (c : OpnsenseConfig) : OpnHTTPClient :=
  mkOpnHTTPClient (pc_Scheme c +:+ "://" +:+ pc_Host c +:+ ":" +:+ Itoa (pc_Port c))
    (pc_AliasName c) (pc_APIKey c) (pc_APISecret c).

Definition opn_doRequest (c : OpnHTTPClient) (net : Net) (method path : string) (body : option string)
  : Net * option string :=
  let '(net', resp) := http_do net method (oh_baseURL c +:+ path) (oh_apiKey c, oh_apiSecret c) body in
  (net', r ← resp;
         if ((hr_StatusCode r <? 200) || (300 <=? hr_StatusCode r))%Z then None else Some (hr_Body r)).

(** [true] when the error is nil. *)
Definition parseResult (raw : string) : bool :=
  match doc ← Unmarshal raw; into_struct result_fields doc (mkResultEnvelope EmptyString EmptyString) with
  | None => false
  | Some env => (String.eqb (re_Result env) "saved" || String.eqb (re_Result env) "ok")%bool
  end.

Definition opn_post (c : OpnHTTPClient) (net : Net) (endpoint ip : string) : Net * bool :=
  let '(net', raw) := opn_doRequest c net "POST" (endpoint +:+ PathEscape (oh_aliasName c))
                        (Some (encode_address ip)) in
  (net', match raw with None => false | Some r => parseResult r end).

Definition opn_AddEntry (c : OpnHTTPClient) (net : Net) (ip : string) : Net * bool :=
  opn_post c net "/api/firewall/alias_util/add/" ip.

Definition opn_DeleteEntry (c : OpnHTTPClient) (net : Net) (ip : string) : Net * bool :=
  opn_post c net "/api/firewall/alias_util/delete/" ip.

Definition keep_trimmed (ls : list string) : list string :=
  filter (fun l => is_empty l = false) (TrimSpace <$> ls).

Definition parseListEntries (raw : string) : option (list string) :=
  resp ← (doc ← Unmarshal raw; into_struct list_fields doc (mkListResponse EmptyString []));
  if (0 <? length (lr_Rows resp))%nat then Some (keep_trimmed (lr_Rows resp))
  else if is_empty (lr_Content resp) then Some []
  else Some (keep_trimmed (Split (lr_Content resp) newline)).

Definition opn_ListEntries (c : OpnHTTPClient) (net : Net) : Net * option (list string) :=
  let '(net', raw) := opn_doRequest c net "GET"
                        ("/api/firewall/alias_util/list/" +:+ PathEscape (oh_aliasName c)) None in
  (net', r ← raw; parseListEntries r).

Definition opn_client (c : OpnHTTPClient) : OpnsenseClient :=
  {| PWorld := Net; pf_AddEntry := opn_AddEntry c; pf_DeleteEntry := opn_DeleteEntry c;
     pf_ListEntries := opn_ListEntries c |}.

End http.

(** ** executor.go *)

Section executor.
Context {MR : MapRange} {DW : DedupWindow} {CL : OpnsenseClient}.

Record OpnsenseExecutor := mkOpnsenseExecutor {
  pf_cfg : OpnsenseConfig;
  pf_banned : gmap string banRecord;
  pf_dedupWin : Window;
  pf_stats : ExecStats
}.

Definition NewOpnsenseExecutor (raw : Params) : option OpnsenseExecutor :=
  c ← opnsense_parseConfig raw;
  Some (mkOpnsenseExecutor c ∅ (NewWindow (pc_DedupWindow c)) stats_zero).

Definition pf_map_stats (f : ExecStats -> ExecStats) (e : OpnsenseExecutor) : OpnsenseExecutor :=
  mkOpnsenseExecutor (pf_cfg e) (pf_banned e) (pf_dedupWin e) (f (pf_stats e)).
Definition pf_set_banned (b : gmap string banRecord) (e : OpnsenseExecutor) : OpnsenseExecutor :=
  mkOpnsenseExecutor (pf_cfg e) b (pf_dedupWin e) (pf_stats e).

Definition pf_syncExisting (now : Time) (e : OpnsenseExecutor) (w : PWorld)
  : OpnsenseExecutor * PWorld * bool :=
  let '(w', entries) := pf_ListEntries w in
  match entries with
  | None => (e, w', false)
  | Some ips => (pf_set_banned (ban_all now (pc_TTL (pf_cfg e)) ips (pf_banned e)) e, w', true)
  end.

(** One expired address of a sweep. *)
Definition pf_sweep_one (acc : OpnsenseExecutor * PWorld) (ip : string) : OpnsenseExecutor * PWorld :=
  let '(e, w) := acc in
  let '(w', ok) := pf_DeleteEntry w ip in
  if ok : bool then (pf_map_stats (add_swept 1) (pf_set_banned (delete ip (pf_banned e)) e), w')
  else (pf_map_stats (add_errors 1) e, w').

Definition pf_sweep (now : Time) (e : OpnsenseExecutor) (w : PWorld) : OpnsenseExecutor * PWorld :=
  foldl pf_sweep_one (e, w) (expired_ips now (pf_banned e)).

Definition pf_isDuplicate (now : Time) (e : OpnsenseExecutor) (ip : string) : bool :=
  (win_Contains now (pf_dedupWin e) ip || ban_known (pf_banned e) ip)%bool.

(** *** The run loop *)

(** An accepted event is applied at once; a single mark of the window is a batch
    of one. *)
Definition pf_step (turn : Time * RunInput) (s : OpnsenseExecutor * PWorld)
  : (OpnsenseExecutor * PWorld) * bool :=
  let '(now, i) := turn in
  let '(e, w) := s in
  match i with
  | InDone | InClosed => (s, true)
  | InEvent ev =>
      if (negb (meetsMinLevel (pc_MinLevel (pf_cfg e)) (te_Level ev)) ||
          pf_isDuplicate now e (te_IP ev))%bool then
        ((pf_map_stats (add_skipped 1) e, w), false)
      else
        let '(w', ok) := pf_AddEntry w (te_IP ev) in
        if ok : bool then
          ((mkOpnsenseExecutor (pf_cfg e) (ban_all now (pc_TTL (pf_cfg e)) [te_IP ev] (pf_banned e))
              (win_MarkBatch now [te_IP ev] (pf_dedupWin e)) (add_executed 1 (pf_stats e)), w'), false)
        else ((pf_map_stats (add_errors 1) e, w'), false)
  | InFlushTick => (s, false)
  | InSweepTick => (pf_sweep now e w, false)
  end.

Definition pf_Run (now : Time) (e : OpnsenseExecutor) (w : PWorld) (turns : list (Time * RunInput))
  : (OpnsenseExecutor * PWorld) * bool :=
  let '(e1, w1, _) := pf_syncExisting now e w in
  run_turns pf_step turns (e1, w1).

Definition pf_sweepInterval (ttl : Duration) : Duration :=
  let s := Z.quot ttl 4 in if (s <? 15 * minute)%Z then (15 * minute)%Z else s.

(** ** What the executor expects of the firewall

    Of a firewall in a sound state and addresses it can hold: a call that reports
    success has been applied to the alias, one that reports an error has no
    effect, and the state stays sound. *)
Class OpnsenseFirewall := {
  alias_of : PWorld -> gset string;
  fw_ok : PWorld -> Prop;
  fw_addr : string -> Prop;
  pf_add_law w ip : fw_ok w -> fw_addr ip -> let '(w', ok) := pf_AddEntry w ip in
    fw_ok w' /\ alias_of w' = if ok then {[ip]} ∪ alias_of w else alias_of w;
  pf_delete_law w ip : fw_ok w -> fw_addr ip -> let '(w', ok) := pf_DeleteEntry w ip in
    fw_ok w' /\ alias_of w' = if ok then alias_of w ∖ {[ip]} else alias_of w;
  pf_list_law w : fw_ok w -> let '(w', entries) := pf_ListEntries w in
    fw_ok w' /\ alias_of w' = alias_of w /\
    match entries with
    | Some ips => list_to_set ips = alias_of w /\ Forall fw_addr ips
    | None => True
    end
}.

Section mirror.
Context {FW : OpnsenseFirewall}.

Definition pf_mirrors (s : OpnsenseExecutor * PWorld) : Prop :=
  fw_ok s.2 /\ dom (pf_banned s.1) = alias_of s.2 /\ forall ip, ip ∈ dom (pf_banned s.1) -> fw_addr ip.

Lemma pf_sweep_mirrors ips s : Forall fw_addr ips -> pf_mirrors s -> pf_mirrors (foldl pf_sweep_one s ips).
Proof.
  intros Hips. revert s. induction Hips as [|ip ips Hip _ IH]; intros [e w] (Hw & Hm & Ha); [done|].
  cbn [foldl]. apply IH. unfold pf_sweep_one, pf_mirrors in *. pose proof (pf_delete_law w ip Hw Hip) as Hl.
  destruct (pf_DeleteEntry w ip) as [w' []], Hl as [Hw' Hl]; cbn in *; rewrite Hl; [|done].
  rewrite dom_delete_L, Hm. repeat split; [done|]. intros x Hx. apply Ha. set_solver.
Qed.

(** The address of an event is one the firewall can hold. *)
Definition turn_ok (turn : Time * RunInput) : Prop :=
  match turn.2 with InEvent ev => fw_addr (te_IP ev) | _ => True end.

Lemma pf_step_mirrors turn s : turn_ok turn -> pf_mirrors s -> pf_mirrors (pf_step turn s).1.
Proof.
  destruct turn as [now i], s as [e w]. intros Hi Hm. destruct i as [ev| | | |]; cbn [pf_step]; try done.
  - destruct (_ || _)%bool; [done|]. destruct Hm as (Hw & Hm & Ha). pose proof (pf_add_law w (te_IP ev) Hw Hi) as Hl.
    destruct (pf_AddEntry w (te_IP ev)) as [w' []], Hl as [Hw' Hl]; unfold pf_mirrors in *; cbn in *; rewrite Hl; [|done].
    rewrite dom_insert_L, Hm. repeat split; [done|]. intros x [->%elem_of_singleton|Hx]%elem_of_union; [done|].
    apply Ha. by rewrite Hm.
  - apply pf_sweep_mirrors; [|done]. apply Forall_forall. intros x (rec & Hx & _)%expired_ips_spec.
    destruct Hm as (_ & _ & Ha). apply Ha. by apply elem_of_dom_2 in Hx.
Qed.

(** The run from the start-up sync on. *)
Lemma pf_Run_mirrors now e w turns :
  pf_banned e = ∅ -> fw_ok w -> Forall turn_ok turns -> (pf_ListEntries w).2 <> None ->
  pf_mirrors (pf_Run now e w turns).1.
Proof.
  intros He Hw Ht Hl. unfold pf_Run, pf_syncExisting. pose proof (pf_list_law w Hw) as Hlist.
  destruct (pf_ListEntries w) as [w1 [ips|]]; [|done]. destruct Hlist as (Hw1 & H1 & H2 & H3).
  apply (run_turns_invariant pf_step turn_ok); [intros t s; apply pf_step_mirrors|done|].
  unfold pf_mirrors. cbn. rewrite ban_all_dom, He, dom_empty_L, H1, H2. split; [done|]. split; [set_solver|].
  intros x Hx. rewrite <- H2 in Hx. rewrite Forall_forall in H3. apply H3. set_solver.
Qed.

End mirror.
End executor.

(** ** Answers that get lost

    The same with less asked of the firewall: a call that reports an error may have
    been applied. *)
Class LossyFirewall {CL : OpnsenseClient} := {
  la_alias : PWorld -> gset string;
  la_ok : PWorld -> Prop;
  la_addr : string -> Prop;
  la_add_law w ip : la_ok w -> la_addr ip -> let '(w', ok) := pf_AddEntry w ip in
    la_ok w' /\ lossy (Added [ip] ok) (la_alias w) (la_alias w');
  la_delete_law w ip : la_ok w -> la_addr ip -> let '(w', ok) := pf_DeleteEntry w ip in
    la_ok w' /\ lossy (Deleted [ip] ok) (la_alias w) (la_alias w');
  la_list_law w : la_ok w -> let '(w', entries) := pf_ListEntries w in
    la_ok w' /\ la_alias w' = la_alias w /\
    match entries with Some ips => list_to_set ips = la_alias w /\ Forall la_addr ips | None => True end
}.

(** A firewall without such losses is one. *)
Definition reliable_lossy {CL : OpnsenseClient} (FW : OpnsenseFirewall) : LossyFirewall.
Proof.
  refine {| la_alias := alias_of; la_ok := fw_ok; la_addr := fw_addr |}; [| |apply pf_list_law]; intros w ip Hw Ha.
  - pose proof (pf_add_law w ip Hw Ha) as Hl. destruct (pf_AddEntry w ip) as [w' []], Hl as [? ->]; (split; [done|]); cbn; set_solver.
  - pose proof (pf_delete_law w ip Hw Ha) as Hl. destruct (pf_DeleteEntry w ip) as [w' []], Hl as [? ->]; (split; [done|]); cbn; set_solver.
Defined.

(** A client that also writes down its calls and what they reported. *)
Definition logged {CL : OpnsenseClient} : OpnsenseClient :=
  {| PWorld := PWorld * list SetCall;
     pf_AddEntry := fun w ip => let '(w', ok) := pf_AddEntry w.1 ip in ((w', w.2 ++ [Added [ip] ok]), ok);
     pf_DeleteEntry := fun w ip => let '(w', ok) := pf_DeleteEntry w.1 ip in ((w', w.2 ++ [Deleted [ip] ok]), ok);
     pf_ListEntries := fun w => let '(w', entries) := pf_ListEntries w.1 in ((w', w.2), entries) |}.

Section answers.
Context {MR : MapRange} {DW : DedupWindow} {CL : OpnsenseClient}.

Definition unlog (s : OpnsenseExecutor * @PWorld logged) : OpnsenseExecutor * PWorld := (s.1, s.2.1).

Lemma sweep_unlog ips s : foldl pf_sweep_one (unlog s) ips = unlog (foldl (@pf_sweep_one _ logged) s ips).
Proof.
  revert s. induction ips as [|ip ips IH]; intros [e [w log]]; [done|]. cbn [foldl]. rewrite <- IH. f_equal.
  unfold unlog, pf_sweep_one. cbn. by destruct (pf_DeleteEntry w ip) as [w' []].
Qed.

Lemma step_unlog turn s : pf_step turn (unlog s) = (unlog (@pf_step _ _ logged turn s).1, (@pf_step _ _ logged turn s).2).
Proof.
  destruct turn as [now i], s as [e [w log]]. destruct i as [ev| | | |]; try done.
  - cbn. destruct (_ || _)%bool; [done|]. by destruct (pf_AddEntry w (te_IP ev)) as [w' []].
  - cbn [pf_step fst snd unlog]. unfold pf_sweep. by rewrite <- sweep_unlog.
Qed.

Lemma run_unlog now e w turns :
  pf_Run now e w turns = (unlog (@pf_Run _ _ logged now e (w, []) turns).1, (@pf_Run _ _ logged now e (w, []) turns).2).
Proof.
  unfold pf_Run, pf_syncExisting. cbn. destruct (pf_ListEntries w) as [w1 [ips|]];
    by rewrite <- (run_turns_project unlog (@pf_step _ _ logged) pf_step _ _ step_unlog).
Qed.

Section lossy.
Context {LF : LossyFirewall}.

(** [start]: the alias at the start of the run. *)
Record reconciled (start : gset string) (s : OpnsenseExecutor * @PWorld logged) : Prop := {
  rc_ok : la_ok s.2.1;
  rc_confirmed : dom (pf_banned s.1) = confirmed s.2.2 start;
  rc_agree : agree (unsettled s.2.2) (dom (pf_banned s.1)) (la_alias s.2.1);
  rc_addr : forall ip, ip ∈ dom (pf_banned s.1) -> la_addr ip
}.

(** A call and the bookkeeping it should leave. *)
Lemma reconciled_call start e w log c e' w' : reconciled start (e, (w, log)) -> la_ok w' -> lossy c (la_alias w) (la_alias w') ->
  dom (pf_banned e') = confirm (dom (pf_banned e)) c -> (forall ip, ip ∈ dom (pf_banned e') -> la_addr ip) ->
  reconciled start (e', (w', log ++ [c])).
Proof.
  intros [Hok Hc Ha _] Hok' Hl Hd Haddr. cbn in *. split; cbn; try done; unfold confirmed, unsettled in *; rewrite foldl_app; cbn.
  - by rewrite Hd, Hc.
  - rewrite Hd. by eapply agree_call.
Qed.

Lemma sweep_reconciled start ips s : Forall la_addr ips -> reconciled start s ->
  reconciled start (foldl (@pf_sweep_one _ logged) s ips).
Proof.
  intros Hips. revert s. induction Hips as [|ip ips Hip _ IH]; intros [e [w log]] Hr; [done|]. cbn [foldl]. apply IH.
  unfold pf_sweep_one. cbn. pose proof (la_delete_law w ip (rc_ok _ _ Hr) Hip) as Hl. pose proof (rc_addr _ _ Hr) as Haddr.
  destruct (pf_DeleteEntry w ip) as [w' []], Hl as [Hok Hl]; eapply reconciled_call; try done; cbn in *.
  - rewrite dom_delete_L. set_solver.
  - intros x Hx. apply Haddr. set_solver.
Qed.

Definition turn_addr (turn : Time * RunInput) : Prop :=
  match turn.2 with InEvent ev => la_addr (te_IP ev) | _ => True end.

Lemma step_reconciled start turn s : turn_addr turn -> reconciled start s ->
  reconciled start (@pf_step _ _ logged turn s).1.
Proof.
  destruct turn as [now i], s as [e [w log]]. intros Hi Hr. pose proof (rc_addr _ _ Hr) as Haddr.
  destruct i as [ev| | | |]; cbn [pf_step fst]; try done.
  - destruct (_ || _)%bool; [by destruct Hr|]. cbn. pose proof (la_add_law w (te_IP ev) (rc_ok _ _ Hr) Hi) as Hl.
    destruct (pf_AddEntry w (te_IP ev)) as [w' []], Hl as [Hok Hl]; eapply reconciled_call; try done; cbn in *.
    + rewrite dom_insert_L. set_solver.
    + intros x. rewrite dom_insert_L. intros [->%elem_of_singleton|Hx]%elem_of_union; [done|by apply Haddr].
  - apply sweep_reconciled; [|done]. apply Forall_forall. intros x (rec & Hx & _)%expired_ips_spec.
    apply Haddr. by apply elem_of_dom_2 in Hx.
Qed.

(** C12: refinement of the firewall alias over a client whose answers can be lost. If the startup sync succeeds and nobody else edits the alias, then through any sequence of events, sweeps and shutdown, whichever later calls report an error, whether or not the firewall had applied them by then: the ban map holds exactly the addresses of the alias at the start plus the adds and minus the deletes that reported success, in their order, so a failed add is not recorded and a failed delete is not forgotten; and it agrees with the alias on every address but those whose own last call reported an error, so in particular it is the alias once each address in doubt has been called again with success. *)
Theorem opnsense_mirrors_alias now e w turns :
  pf_banned e = ∅ -> la_ok w -> Forall turn_addr turns -> (pf_ListEntries w).2 <> None ->
  let '((e', (w', log)), stop) := @pf_Run _ _ logged now e (w, []) turns in
  pf_Run now e w turns = ((e', w'), stop) /\
  dom (pf_banned e') = confirmed log (la_alias w) /\
  (forall ip, ip ∉ unsettled log -> (ip ∈ dom (pf_banned e') <-> ip ∈ la_alias w')) /\
  (unsettled log = ∅ -> dom (pf_banned e') = la_alias w').
Proof.
  intros He Hw Ht Hl. rewrite run_unlog. assert (Hr : reconciled (la_alias w) (@pf_Run _ _ logged now e (w, []) turns).1).
  { unfold pf_Run, pf_syncExisting. cbn [pf_ListEntries logged fst snd]. pose proof (la_list_law w Hw) as Hlist.
    destruct (pf_ListEntries w) as [w1 [ips|]]; [|done]. destruct Hlist as (Hw1 & H1 & H2 & H3).
    apply (run_turns_invariant (@pf_step _ _ logged) turn_addr); [intros t s; apply step_reconciled|done|].
    rewrite Forall_forall in H3. split; cbn; rewrite ?ban_all_dom, ?He, ?dom_empty_L, ?H1, <- ?H2; [done|set_solver|unfold agree; set_solver|set_solver]. }
  destruct (@pf_Run _ _ logged now e (w, []) turns) as [[e' [w' log]] stop]. destruct Hr as [_ Hc Ha _]. cbn [fst snd] in *.
  split; [done|]. split; [done|]. split; [done|]. intros Hu. apply set_eq. intros ip. apply Ha. rewrite Hu. set_solver.
Qed.
End lossy.
End answers.

(** ** Witnesses *)

(** A firewall that answers nothing when 9.9.9.9 is added, although it adds it. *)
Definition ex_opn : OpnsenseClient :=
  {| PWorld := gset string;
     pf_AddEntry := fun w ip => ({[ip]} ∪ w, negb (String.eqb ip "9.9.9.9"));
     pf_DeleteEntry := fun w ip => (w ∖ {[ip]}, true);
     pf_ListEntries := fun w => (w, Some (elements w)) |}.

Definition ex_opn_firewall : @LossyFirewall ex_opn.
Proof.
  refine {| la_alias := (fun w => w) : @PWorld ex_opn -> gset string; la_ok := fun _ => True; la_addr := fun _ => True |}.
  - intros w ip. cbn. destruct (String.eqb ip "9.9.9.9"); cbn; (split; [done|set_solver]).
  - intros w ip. cbn. split; [done|set_solver].
  - intros w. cbn. repeat split; [apply list_to_set_elements_L|by apply Forall_forall].
Defined.

Definition ex_opn_exec : @OpnsenseExecutor ex_window :=
  mkOpnsenseExecutor
    (mkOpnsenseConfig "f" 443 "https" "k" "s" true "bans" hour "THREAT" 0) ∅ (NewWindow 0) stats_zero.

Definition ex_opn_event (ip : string) : RunInput :=
  InEvent (mkThreatEvent 0 "THREAT" "s" "src" "file" ip 90 [] "probe" EmptyString).

Definition ex_opn_turns : list (Time * RunInput) :=
  [(1%Z, ex_opn_event "2.2.2.2"); (2%Z, ex_opn_event "9.9.9.9"); (3%Z, InFlushTick)].

Definition ex_doubt (out : (@OpnsenseExecutor ex_window * @PWorld (@logged ex_opn)) * bool) : bool :=
  let '((e', (w', log)), _) := out in
  (bool_decide (unsettled log = {["9.9.9.9"]}) && bool_decide ("9.9.9.9" ∈ @la_alias ex_opn ex_opn_firewall w') &&
   bool_decide ("9.9.9.9" ∉ dom (pf_banned e')))%bool.

(** 9.9.9.9 is in the alias and not in the ban map; every other address is in both
    or in neither. *)
Lemma opnsense_mirrors_alias_witness :
  let '((e', (w', log)), _) := @pf_Run map_range_canonical ex_window (@logged ex_opn) 0 ex_opn_exec ({["1.1.1.1"]}, []) ex_opn_turns in
  unsettled log = {["9.9.9.9"]} /\ "9.9.9.9" ∈ @la_alias ex_opn ex_opn_firewall w' /\ "9.9.9.9" ∉ dom (pf_banned e') /\
  forall ip, ip ∉ unsettled log -> (ip ∈ dom (pf_banned e') <-> ip ∈ @la_alias ex_opn ex_opn_firewall w').
Proof.
  pose proof (@opnsense_mirrors_alias map_range_canonical ex_window ex_opn ex_opn_firewall 0 ex_opn_exec {["1.1.1.1"]} ex_opn_turns) as H.
  assert (Ht : Forall (@turn_addr ex_opn ex_opn_firewall) ex_opn_turns) by (repeat constructor).
  specialize (H eq_refl I Ht ltac:(discriminate)).
  assert (E : ex_doubt (@pf_Run map_range_canonical ex_window (@logged ex_opn) 0 ex_opn_exec ({["1.1.1.1"]}, []) ex_opn_turns) = true)
    by (vm_compute; reflexivity).
  destruct (@pf_Run map_range_canonical ex_window (@logged ex_opn) 0 ex_opn_exec ({["1.1.1.1"]}, []) ex_opn_turns) as [[e' [w' log]] stop].
  destruct H as (_ & _ & Ha & _). cbn [ex_doubt] in E.
  apply andb_true_iff in E as [[E1%bool_decide_eq_true E2%bool_decide_eq_true]%andb_true_iff E3%bool_decide_eq_true].
  split; [exact E1|]. split; [exact E2|]. split; [exact E3|exact Ha].
Defined.
