(* ===== verification/CloudflareExec.v ===== *)
(** * The Cloudflare executor (pkg/executorplugins/cloudflare) and list cleanup

    Configuration, the REST client, the executor with its pending bulk operation,
    retries, flush, sweep and run loop, and the cleanup command of
    cmd/arxsentinel/cleanup.go that works on the same list. *)

From Stdlib Require Import ZArith Lia Ascii String.
From stdpp Require Import base numbers option list strings gmap fin_maps pretty.
From S2P Require Import Prelude GoFloat GoStrings GoFmt GoValues GoJSON Model ExecCommon.

(** ** config.go *)

Record CFConfig := mkCFConfig {
  fc_APIToken : string;
  fc_AccountID : string;
  fc_ListName : string;
  fc_MinLevel : string;
  fc_TTL : Duration;
  fc_MaxItems : Z;
  fc_DedupWindow : Duration;
  fc_BatchSize : Z;
  fc_FlushInterval : Duration;
  fc_InstanceID : string;
  fc_CommentExtra : string;
  fc_APIBaseURL : string
}.

Definition cloudflare_DefaultConfig : CFConfig :=
  mkCFConfig EmptyString EmptyString "arxsentinel_blocklist" "THREAT" (24 * hour) 0 0 100
    (10 * second) EmptyString EmptyString EmptyString.

Definition cloudflare_fields : json_fields CFConfig := [
  ("api_token", fun v c => s ← json_string v (fc_APIToken c);
     Some (mkCFConfig s (fc_AccountID c) (fc_ListName c) (fc_MinLevel c) (fc_TTL c) (fc_MaxItems c)
       (fc_DedupWindow c) (fc_BatchSize c) (fc_FlushInterval c) (fc_InstanceID c)
       (fc_CommentExtra c) (fc_APIBaseURL c)));
  ("account_id", fun v c => s ← json_string v (fc_AccountID c);
     Some (mkCFConfig (fc_APIToken c) s (fc_ListName c) (fc_MinLevel c) (fc_TTL c) (fc_MaxItems c)
       (fc_DedupWindow c) (fc_BatchSize c) (fc_FlushInterval c) (fc_InstanceID c)
       (fc_CommentExtra c) (fc_APIBaseURL c)));
  ("list_name", fun v c => s ← json_string v (fc_ListName c);
     Some (mkCFConfig (fc_APIToken c) (fc_AccountID c) s (fc_MinLevel c) (fc_TTL c) (fc_MaxItems c)
       (fc_DedupWindow c) (fc_BatchSize c) (fc_FlushInterval c) (fc_InstanceID c)
       (fc_CommentExtra c) (fc_APIBaseURL c)));
  ("min_level", fun v c => s ← json_string v (fc_MinLevel c);
     Some (mkCFConfig (fc_APIToken c) (fc_AccountID c) (fc_ListName c) s (fc_TTL c) (fc_MaxItems c)
       (fc_DedupWindow c) (fc_BatchSize c) (fc_FlushInterval c) (fc_InstanceID c)
       (fc_CommentExtra c) (fc_APIBaseURL c)));
  ("max_items", fun v c => z ← json_int v (fc_MaxItems c);
     Some (mkCFConfig (fc_APIToken c) (fc_AccountID c) (fc_ListName c) (fc_MinLevel c) (fc_TTL c) z
       (fc_DedupWindow c) (fc_BatchSize c) (fc_FlushInterval c) (fc_InstanceID c)
       (fc_CommentExtra c) (fc_APIBaseURL c)));
  ("batch_size", fun v c => z ← json_int v (fc_BatchSize c);
     Some (mkCFConfig (fc_APIToken c) (fc_AccountID c) (fc_ListName c) (fc_MinLevel c) (fc_TTL c)
       (fc_MaxItems c) (fc_DedupWindow c) z (fc_FlushInterval c) (fc_InstanceID c)
       (fc_CommentExtra c) (fc_APIBaseURL c)));
  ("instance_id", fun v c => s ← json_string v (fc_InstanceID c);
     Some (mkCFConfig (fc_APIToken c) (fc_AccountID c) (fc_ListName c) (fc_MinLevel c) (fc_TTL c)
       (fc_MaxItems c) (fc_DedupWindow c) (fc_BatchSize c) (fc_FlushInterval c) s
       (fc_CommentExtra c) (fc_APIBaseURL c)));
  ("comment_extra", fun v c => s ← json_string v (fc_CommentExtra c);
     Some (mkCFConfig (fc_APIToken c) (fc_AccountID c) (fc_ListName c) (fc_MinLevel c) (fc_TTL c)
       (fc_MaxItems c) (fc_DedupWindow c) (fc_BatchSize c) (fc_FlushInterval c) (fc_InstanceID c) s
       (fc_APIBaseURL c)));
  ("api_base_url", fun v c => s ← json_string v (fc_APIBaseURL c);
     Some (mkCFConfig (fc_APIToken c) (fc_AccountID c) (fc_ListName c) (fc_MinLevel c) (fc_TTL c)
       (fc_MaxItems c) (fc_DedupWindow c) (fc_BatchSize c) (fc_FlushInterval c) (fc_InstanceID c)
       (fc_CommentExtra c) s))]%string.

(** [strings.Map] with the mapping of [parseConfig]: line breaks and tabs become
    spaces, and every byte that is not part of a UTF-8 sequence becomes U+FFFD. *)
Definition cont (c : ascii) : bool := ((0x80 <=? byte c) && (byte c <=? 0xBF))%N.
Definition within (lo hi : N) (c : ascii) : bool := ((lo <=? byte c) && (byte c <=? hi))%N.

Definition utf8_2 (a b : ascii) : bool := (within 0xC2 0xDF a && cont b)%bool.
Definition utf8_3 (a b c : ascii) : bool :=
  (((byte a =? 0xE0)%N && within 0xA0 0xBF b || within 0xE1 0xEC a && cont b ||
    (byte a =? 0xED)%N && within 0x80 0x9F b || within 0xEE 0xEF a && cont b) && cont c)%bool.
Definition utf8_4 (a b c d : ascii) : bool :=
  (((byte a =? 0xF0)%N && within 0x90 0xBF b || within 0xF1 0xF3 a && cont b ||
    (byte a =? 0xF4)%N && within 0x80 0x8F b) && cont c && cont d)%bool.

Definition replacement (s : string) : string :=
  String (ascii_of_N 0xEF) (String (ascii_of_N 0xBF) (String (ascii_of_N 0xBD) s)).

Definition blank_controls (a : ascii) : ascii :=
  if ((byte a =? 10) || (byte a =? 9) || (byte a =? 13))%N then " "%char else a.

Fixpoint map_comment (s : string) : string :=
  match s with
  | EmptyString => EmptyString
  | String a s1 =>
      if is_ascii a then String (blank_controls a) (map_comment s1)
      else match s1 with
           | EmptyString => replacement (map_comment s1)
           | String b s2 =>
               if utf8_2 a b then String a (String b (map_comment s2))
               else match s2 with
                    | EmptyString => replacement (map_comment s1)
                    | String c s3 =>
                        if utf8_3 a b c then String a (String b (String c (map_comment s3)))
                        else match s3 with
                             | EmptyString => replacement (map_comment s1)
                             | String d s4 =>
                                 if utf8_4 a b c d
                                 then String a (String b (String c (String d (map_comment s4))))
                                 else replacement (map_comment s1)
                             end
                    end
           end
  end.

Definition comment_extra (v : string) : string := string_take 50 (map_comment (TrimSpace v)).

Definition cloudflare_parseConfig (raw : Params) : option CFConfig :=
  let d := cloudflare_DefaultConfig in
  ttl ← duration_field raw "ttl" (fc_TTL d);
  dw ← duration_field raw "dedup_window" (fc_DedupWindow d);
  fi ← duration_field raw "flush_interval" (fc_FlushInterval d);
  let '(extra, taken) :=
    match raw !! "comment_extra" with
    | Some (AnyString v) => (comment_extra v, ["comment_extra"])
    | _ => (fc_CommentExtra d, [])
    end in
  let c0 := mkCFConfig (fc_APIToken d) (fc_AccountID d) (fc_ListName d) (fc_MinLevel d) ttl
              (fc_MaxItems d) dw (fc_BatchSize d) fi (fc_InstanceID d) extra (fc_APIBaseURL d) in
  c ← json_round_trip cloudflare_fields
        (without (["ttl"; "dedup_window"; "flush_interval"] ++ taken) raw) c0;
  if (is_empty (fc_APIToken c) || is_empty (fc_AccountID c))%bool then None
  else match levelOrder (fc_MinLevel c) with None => None | Some _ => Some c end.

(** ** client.go *)

Record CFItem := mkCFItem {
  ci_ID : string;
  ci_IP : string;
  ci_Comment : string
}.

Record CFBatchItem := mkCFBatchItem {
  bi_IP : string;
  bi_Comment : string
}.

(** A Go result: the value, or the text of the error. *)
Abbreviation Result A := (string + A)%type (only parsing).

(** The calls of the [CFClient] interface the program uses, with the service
    behind it as explicit state. *)
Class CFClient := {
  CWorld : Type;
  cf_FindOrCreateList : CWorld -> string -> CWorld * Result string;
  cf_GetAllItems : CWorld -> string -> CWorld * Result (list CFItem);
  cf_AddItems : CWorld -> string -> list CFBatchItem -> CWorld * Result string;
  cf_RemoveItems : CWorld -> string -> list string -> CWorld * Result string;
  cf_PollBulkOperation : CWorld -> string -> CWorld * Result string
}.

(** *** The HTTP client *)

Record cfList := mkCfList { fl_ID : string; fl_Name : string; fl_Kind : string }.
Record cfItem := mkCfItem { fi_ID : string; fi_IP : string }.
Record cfAPIError := mkCfAPIError { fe_Code : Z; fe_Message : string }.

(** The result is kept undecoded; [None] when the field is absent. *)
Record cfAPIResponse := mkCfAPIResponse {
  fr_Success : bool;
  fr_Errors : list cfAPIError;
  fr_Result : option JSON
}.

Definition list_fields : fields_of JSON cfList := [
  ("id", fun v l => s ← into_string v (fl_ID l); Some (mkCfList s (fl_Name l) (fl_Kind l)));
  ("name", fun v l => s ← into_string v (fl_Name l); Some (mkCfList (fl_ID l) s (fl_Kind l)));
  ("kind", fun v l => s ← into_string v (fl_Kind l); Some (mkCfList (fl_ID l) (fl_Name l) s))].

Definition item_fields : fields_of JSON cfItem := [
  ("id", fun v i => s ← into_string v (fi_ID i); Some (mkCfItem s (fi_IP i)));
  ("ip", fun v i => s ← into_string v (fi_IP i); Some (mkCfItem (fi_ID i) s))].

Definition error_fields : fields_of JSON cfAPIError := [
  ("code", fun v e => z ← into_int v (fe_Code e); Some (mkCfAPIError z (fe_Message e)));
  ("message", fun v e => s ← into_string v (fe_Message e); Some (mkCfAPIError (fe_Code e) s))].

Definition api_fields : fields_of JSON cfAPIResponse := [
  ("success", fun v r => b ← into_bool v (fr_Success r); Some (mkCfAPIResponse b (fr_Errors r) (fr_Result r)));
  ("errors", fun v r => l ← into_slice (into_struct error_fields) (mkCfAPIError 0 EmptyString) v;
     Some (mkCfAPIResponse (fr_Success r) l (fr_Result r)));
  ("result", fun v r => Some (mkCfAPIResponse (fr_Success r) (fr_Errors r) (Some v)))].

(** The one field of a bulk operation and of its status. *)
Definition operation_fields : fields_of JSON string := [("operation_id", fun v s => into_string v s)].
Definition status_fields : fields_of JSON string := [("status", fun v s => into_string v s)].

(** The texts of the decoder's errors: for a text that is no document, and for a
    document that does not fit a type. *)
Class JSONErrors := {
  syntax_error : string -> string;
  type_error : JSON -> string -> string
}.

Definition json_result {A} `{JSONErrors} (into : JSON -> option A) (type : string) (v : JSON) : Result A :=
  match into v with Some a => inr a | None => inl (type_error v type) end.

Definition decode_api `{JSONErrors} (text : string) : Result cfAPIResponse :=
  match Decode text with
  | None => inl (syntax_error text)
  | Some v => json_result (fun v => into_struct api_fields v (mkCfAPIResponse false [] None)) "cloudflare.cfAPIResponse" v
  end.

(** [json.Unmarshal] of the result; an absent one is no document. *)
Definition decode_raw {A} `{JSONErrors} (into : JSON -> option A) (type : string) (r : option JSON) : Result A :=
  match r with None => inl (syntax_error EmptyString) | Some v => json_result into type v end.

Definition decode_lists `{JSONErrors} : option JSON -> Result (list cfList) :=
  decode_raw (into_slice (into_struct list_fields) (mkCfList EmptyString EmptyString EmptyString)) "[]cloudflare.cfList".
Definition decode_created `{JSONErrors} : option JSON -> Result cfList :=
  decode_raw (fun v => into_struct list_fields v (mkCfList EmptyString EmptyString EmptyString)) "cloudflare.cfList".
Definition decode_items `{JSONErrors} : option JSON -> Result (list cfItem) :=
  decode_raw (into_slice (into_struct item_fields) (mkCfItem EmptyString EmptyString)) "[]cloudflare.cfItem".
Definition decode_operation `{JSONErrors} : option JSON -> Result string :=
  decode_raw (fun v => into_struct operation_fields v EmptyString) "cloudflare.cfBulkOpResponse".
Definition decode_status `{JSONErrors} : option JSON -> Result string :=
  decode_raw (fun v => into_struct status_fields v EmptyString) "cloudflare.cfBulkOpStatusResponse".

(** The bodies of the requests. *)
Definition new_list_body (name : string) : JSON := json_map [("name", JString name); ("kind", JString "ip")].
Definition items_body (items : list CFBatchItem) : JSON :=
  JArray ((fun it => json_map [("ip", JString (bi_IP it)); ("comment", JString (bi_Comment it))]) <$> items).
Definition remove_body (ids : list string) : JSON :=
  JObject [("items", JArray ((fun id => JObject [("id", JString id)]) <$> ids))].

Definition wrap_err {A} (prefix : string) (r : Result A) : Result A :=
  match r with inl e => inl (prefix +:+ e) | inr a => inr a end.

Definition wrap_hint {A} (suffix : string) (r : Result A) : Result A :=
  match r with inl e => inl (e +:+ suffix) | inr a => inr a end.

Definition bind_res {A B} (r : Result A) (f : A -> Result B) : Result B :=
  match r with inl e => inl e | inr a => f a end.

Section http.
Context {JE : JSONErrors} {UP : UnicodePrint}.
Variable Net : Type.
(** Method, URL, authorization and body; the text of the answer. *)
Variable http_do : Net -> string -> string -> string -> option string -> Net * Result string.

Record HTTPCFClient := mkHTTPCFClient {
  hf_accountID : string;
  hf_token : string;
  hf_baseURL : string
}.

Definition NewHTTPCFClient (accountID token : string) : HTTPCFClient :=
  mkHTTPCFClient accountID token "https://api.cloudflare.com/client/v4".

Definition NewHTTPCFClientWithBaseURL (accountID token baseURL : string) : HTTPCFClient :=
  mkHTTPCFClient accountID token baseURL.

Definition cfhttp_doRequest (c : HTTPCFClient) (net : Net) (method path : string) (body : option JSON)
  : Net * Result (option JSON) :=
  let '(net', resp) := http_do net method (hf_baseURL c +:+ path) ("Bearer " +:+ hf_token c) (Marshal <$> body) in
  (net',
   bind_res (wrap_err "cloudflare: execute request: " resp) (fun text =>
   bind_res (wrap_err "cloudflare: decode response: " (decode_api text)) (fun api =>
     if fr_Success api then inr (fr_Result api)
     else match fr_Errors api with
          | e :: _ => inl ("cloudflare: " +:+ fe_Message e)
          | [] => inl "cloudflare: request failed with no error details"
          end))).

Definition lists_path (c : HTTPCFClient) : string := "/accounts/" +:+ hf_accountID c +:+ "/rules/lists".
Definition items_path (c : HTTPCFClient) (listID : string) : string :=
  lists_path c +:+ "/" +:+ listID +:+ "/items".

Definition cfhttp_FindOrCreateList (c : HTTPCFClient) (net : Net) (name : string)
  : Net * Result string :=
  let '(net1, resp) := cfhttp_doRequest c net "GET" (lists_path c) None in
  match bind_res (wrap_err "cloudflare: list lists: " resp)
          (fun r => wrap_err "cloudflare: unmarshal lists: " (decode_lists r)) with
  | inl e => (net1, inl e)
  | inr lists =>
      match List.find (fun l => String.eqb (fl_Name l) name) lists with
      | Some l => (net1, inr (fl_ID l))
      | None =>
          let '(net2, resp2) := cfhttp_doRequest c net1 "POST" (lists_path c) (Some (new_list_body name)) in
          (net2, bind_res (wrap_hint (" — hint: check list_name in config or free tier limits")
                     (wrap_err ("cloudflare: create list " +:+ Quote name +:+ ": ") resp2))
                   (fun r => bind_res (wrap_err "cloudflare: unmarshal created list: " (decode_created r))
                               (fun created => inr (fl_ID created))))
      end
  end.

Definition cfhttp_GetAllItems (c : HTTPCFClient) (net : Net) (listID : string)
  : Net * Result (list CFItem) :=
  let '(net', resp) := cfhttp_doRequest c net "GET" (items_path c listID) None in
  (net', bind_res (wrap_err "cloudflare: list items: " resp) (fun r =>
         bind_res (wrap_err "cloudflare: unmarshal items: " (decode_items r)) (fun items =>
           inr ((fun it => mkCFItem (fi_ID it) (fi_IP it) EmptyString) <$> items)))).

(** The single-item call; the executor uses [cfhttp_AddItems]. *)
Definition cfhttp_AddItem (c : HTTPCFClient) (net : Net) (listID ip comment : string)
  : Net * Result string :=
  let '(net', resp) :=
    cfhttp_doRequest c net "POST" (items_path c listID) (Some (items_body [mkCFBatchItem ip comment])) in
  (net', bind_res (wrap_err "cloudflare: add item: " resp) (fun r =>
         bind_res (wrap_err "cloudflare: add item: unmarshal result: " (decode_items r)) (fun items =>
           match items with
           | [] => inl "cloudflare: add item: empty result"
           | it :: _ => inr (fi_ID it)
           end))).

Definition cfhttp_AddItems (c : HTTPCFClient) (net : Net) (listID : string) (items : list CFBatchItem)
  : Net * Result string :=
  let '(net', resp) := cfhttp_doRequest c net "POST" (items_path c listID) (Some (items_body items)) in
  (net', bind_res (wrap_err "cloudflare: add items: " resp) (fun r =>
           wrap_err "cloudflare: add items: parse operation_id: " (decode_operation r))).

Definition cfhttp_RemoveItems (c : HTTPCFClient) (net : Net) (listID : string) (ids : list string)
  : Net * Result string :=
  let '(net', resp) := cfhttp_doRequest c net "DELETE" (items_path c listID) (Some (remove_body ids)) in
  (net', bind_res (wrap_err "cloudflare: remove items: " resp) (fun r =>
           wrap_err "cloudflare: remove items: parse operation_id: " (decode_operation r))).

Definition cfhttp_PollBulkOperation (c : HTTPCFClient) (net : Net) (operationID : string)
  : Net * Result string :=
  let '(net', resp) :=
    cfhttp_doRequest c net "GET" (lists_path c +:+ "/bulk_operations/" +:+ operationID) None in
  (net', bind_res (wrap_err ("cloudflare: poll bulk operation " +:+ operationID +:+ ": ") resp) (fun r =>
           wrap_err "cloudflare: poll bulk operation: parse status: " (decode_status r))).

Definition cfhttp_client (c : HTTPCFClient) : CFClient :=
  {| CWorld := Net; cf_FindOrCreateList := cfhttp_FindOrCreateList c;
     cf_GetAllItems := cfhttp_GetAllItems c; cf_AddItems := cfhttp_AddItems c;
     cf_RemoveItems := cfhttp_RemoveItems c; cf_PollBulkOperation := cfhttp_PollBulkOperation c |}.

End http.

(** ** executor.go: identity *)

Definition hex_lower (n : N) : ascii := ascii_of_N (if (n <? 10)%N then 48 + n else 87 + n).

Fixpoint hex_EncodeToString (bs : list N) : string :=
  match bs with
  | [] => EmptyString
  | b :: bs' => String (hex_lower (b / 16)) (String (hex_lower (b mod 16)) (hex_EncodeToString bs'))
  end.

(** [rnd] is what the random source delivered: sixteen bytes, or an error. *)
Definition genUUID (rnd : option (list N)) : string :=
  match rnd with
  | None => "unknown"
  | Some b0 =>
      let b1 := <[6 := N.lor (N.land (nth 6 b0 0%N) 0x0f) 0x40]> b0 in
      let b := <[8 := N.lor (N.land (nth 8 b1 0%N) 0x3f) 0x80]> b1 in
      Join [hex_EncodeToString (take 4 b); hex_EncodeToString (take 2 (drop 4 b));
            hex_EncodeToString (take 2 (drop 6 b)); hex_EncodeToString (take 2 (drop 8 b));
            hex_EncodeToString (drop 10 b)] "-"
  end.

Definition LoadInstanceID (files : string -> option string) (rnd : option (list N)) (instanceID : string)
  : string :=
  if negb (is_empty instanceID) then instanceID
  else match files "/var/lib/arxsentinel/instance.id" with
       | Some data => TrimSpace data
       | None => match files "/etc/machine-id" with
                 | Some data => TrimSpace data
                 | None => genUUID rnd
                 end
       end.

(** ** executor.go: the executor *)

Record cf_banRecord := mkCfBanRecord {
  cb_cfItemID : string;
  cb_addedAt : Time;
  cb_addedByExecutor : bool
}.

(** When the context is found cancelled: at the n-th wait of a poll loop, or of a
    retry loop. *)
Record CFEnv := mkCFEnv {
  ce_poll_done : nat -> bool;
  ce_retry_done : nat -> bool
}.

Section executor.
Context {MR : MapRange} {DW : DedupWindow} {CL : CFClient}.

Record CloudflareExecutor := mkCloudflareExecutor {
  cx_cfg : CFConfig;
  cx_listID : string;
  cx_instanceID : string;
  cx_banned : gmap string cf_banRecord;
  cx_stats : ExecStats;
  cx_pendingOpID : string;
  cx_pendingOpAt : Time;
  cx_dedupWin : Window
}.

Definition NewCloudflareExecutor (files : string -> option string) (rnd : option (list N)) (raw : Params)
  : option CloudflareExecutor :=
  c ← cloudflare_parseConfig raw;
  if (fc_TTL c <=? 0)%Z then None
  else Some (mkCloudflareExecutor c EmptyString (LoadInstanceID files rnd (fc_InstanceID c)) ∅
               stats_zero EmptyString 0 (NewWindow (fc_DedupWindow c))).

Definition cx_set_banned (b : gmap string cf_banRecord) (e : CloudflareExecutor) : CloudflareExecutor :=
  mkCloudflareExecutor (cx_cfg e) (cx_listID e) (cx_instanceID e) b (cx_stats e) (cx_pendingOpID e)
    (cx_pendingOpAt e) (cx_dedupWin e).
Definition cx_map_stats (f : ExecStats -> ExecStats) (e : CloudflareExecutor) : CloudflareExecutor :=
  mkCloudflareExecutor (cx_cfg e) (cx_listID e) (cx_instanceID e) (cx_banned e) (f (cx_stats e))
    (cx_pendingOpID e) (cx_pendingOpAt e) (cx_dedupWin e).
Definition cx_set_pending (op : string) (at_ : Time) (e : CloudflareExecutor) : CloudflareExecutor :=
  mkCloudflareExecutor (cx_cfg e) (cx_listID e) (cx_instanceID e) (cx_banned e) (cx_stats e) op at_
    (cx_dedupWin e).
Definition cx_set_win (w : Window) (e : CloudflareExecutor) : CloudflareExecutor :=
  mkCloudflareExecutor (cx_cfg e) (cx_listID e) (cx_instanceID e) (cx_banned e) (cx_stats e)
    (cx_pendingOpID e) (cx_pendingOpAt e) w.
Definition cx_set_listID (l : string) (e : CloudflareExecutor) : CloudflareExecutor :=
  mkCloudflareExecutor (cx_cfg e) l (cx_instanceID e) (cx_banned e) (cx_stats e) (cx_pendingOpID e)
    (cx_pendingOpAt e) (cx_dedupWin e).
Definition cx_clear_pending (e : CloudflareExecutor) : CloudflareExecutor :=
  cx_set_pending EmptyString (cx_pendingOpAt e) e.

Definition cx_syncExisting (now : Time) (e : CloudflareExecutor) (w : CWorld)
  : CloudflareExecutor * CWorld * bool :=
  let '(w', items) := cf_GetAllItems w (cx_listID e) in
  match items with
  | inl _ => (e, w', false)
  | inr its =>
      (cx_set_banned
         (foldl (fun b it => <[ci_IP it := mkCfBanRecord (ci_ID it) now false]> b) (cx_banned e) its) e,
       w', true)
  end.

Definition pollDelays : list Duration :=
  [second / 2; 1 * second; 2 * second; 4 * second; 8 * second; 16 * second]%Z.

(** One iteration per delay; [true] when the caller may proceed. *)
Fixpoint poll_loop (env : CFEnv) (i : nat) (delays : list Duration) (opID : string)
    (e : CloudflareExecutor) (w : CWorld) : CloudflareExecutor * CWorld * bool :=
  match delays with
  | [] => (cx_clear_pending e, w, true)
  | _ :: delays' =>
      if ce_poll_done env i then (cx_clear_pending e, w, false)
      else
        let '(w', status) := cf_PollBulkOperation w opID in
        match status with
        | inl _ => poll_loop env (S i) delays' opID e w'
        | inr s =>
            if String.eqb s "completed" then (cx_clear_pending e, w', true)
            else if String.eqb s "failed"
            then (cx_clear_pending (cx_map_stats (add_errors 1) e), w', true)
            else poll_loop env (S i) delays' opID e w'
        end
  end.

Definition waitForPendingOp (env : CFEnv) (e : CloudflareExecutor) (w : CWorld)
  : CloudflareExecutor * CWorld * bool :=
  if is_empty (cx_pendingOpID e) then (e, w, true)
  else poll_loop env 0 pollDelays (cx_pendingOpID e) e w.

Definition max429Retries : nat := 3.

Definition ctx_err : string := "context canceled".

(** [left] attempts remain after this one. *)
Fixpoint retry_loop (env : CFEnv) (left attempt : nat) (fn : CWorld -> CWorld * Result string)
    (w : CWorld) : CWorld * Result string :=
  let '(w', r) := fn w in
  match r with
  | inr op => (w', inr op)
  | inl err =>
      if negb (Contains err "429") then (w', inl err)
      else match left with
           | O => (w', inl err)
           | S left' =>
               if ce_retry_done env attempt then (w', inl ctx_err)
               else retry_loop env left' (S attempt) fn w'
           end
  end.

Definition doWithRetry (env : CFEnv) (fn : CWorld -> CWorld * Result string) (w : CWorld)
  : CWorld * Result string :=
  retry_loop env max429Retries 0 fn w.

Definition buildComment (e : CloudflareExecutor) : string :=
  let base := "sentinel-" +:+ cx_instanceID e in
  if is_empty (fc_CommentExtra (cx_cfg e)) then base
  else base +:+ " " +:+ fc_CommentExtra (cx_cfg e).

Definition cx_store_op (now : Time) (op : string) (e : CloudflareExecutor) : CloudflareExecutor :=
  if is_empty op then e else cx_set_pending op now e.

Definition cx_flush (now : Time) (env : CFEnv) (events : list ThreatEvent)
    (e : CloudflareExecutor) (w : CWorld) : CloudflareExecutor * CWorld :=
  if (length events =? 0)%nat then (e, w)
  else
    let '(e1, w1, proceed) := waitForPendingOp env e w in
    if negb proceed then (e1, w1)
    else
      let items := (fun ev => mkCFBatchItem (te_IP ev) (buildComment e1)) <$> events in
      let '(w2, r) := doWithRetry env (fun w => cf_AddItems w (cx_listID e1) items) w1 in
      match r with
      | inl _ => (cx_map_stats (add_errors (Z.of_nat (length events))) e1, w2)
      | inr opID =>
          let e2 := cx_map_stats (add_executed (Z.of_nat (length events))) (cx_store_op now opID e1) in
          let b := foldl (fun b ev => <[te_IP ev := mkCfBanRecord EmptyString now true]> b)
                     (cx_banned e2) events in
          let e3 := cx_set_banned b e2 in
          (cx_set_win (win_MarkBatch now (te_IP <$> events) (cx_dedupWin e3)) e3, w2)
      end.

Definition cx_expired (now : Time) (e : CloudflareExecutor) : list (string * cf_banRecord) :=
  filter (fun kv => (negb (is_empty (cb_cfItemID kv.2)) &&
                     (fc_TTL (cx_cfg e) <? time_Sub now (cb_addedAt kv.2))%Z)%bool = true)
    (map_range (cx_banned e)).

Definition cx_sweep (now : Time) (env : CFEnv) (e : CloudflareExecutor) (w : CWorld)
  : CloudflareExecutor * CWorld :=
  let expired := cx_expired now e in
  if (length expired =? 0)%nat then (e, w)
  else
    let itemIDs := (fun kv => cb_cfItemID kv.2) <$> expired in
    let '(e1, w1, proceed) := waitForPendingOp env e w in
    if negb proceed then (e1, w1)
    else
      let '(w2, r) := doWithRetry env (fun w => cf_RemoveItems w (cx_listID e1) itemIDs) w1 in
      match r with
      | inl _ => (cx_map_stats (add_errors (Z.of_nat (length expired))) e1, w2)
      | inr opID =>
          let e2 := cx_store_op now opID e1 in
          (cx_map_stats (add_swept (Z.of_nat (length expired)))
             (cx_set_banned (foldl (fun b kv => delete kv.1 b) (cx_banned e2) expired) e2), w2)
      end.

Definition cx_isDuplicate (now : Time) (e : CloudflareExecutor) (ip : string) : bool :=
  (win_Contains now (cx_dedupWin e) ip ||
   match cx_banned e !! ip with Some _ => true | None => false end)%bool.

(** *** The run loop *)

Record CFRun := mkCFRun {
  cr_exec : CloudflareExecutor;
  cr_world : CWorld;
  cr_buffer : list ThreatEvent
}.

(** The environments are those of the flush and of the sweep of a turn. *)
Definition cx_step (turn : Time * CFEnv * CFEnv * RunInput) (r : CFRun) : CFRun * bool :=
  let '(now, env, env', i) := turn in
  let e := cr_exec r in
  match i with
  | InDone | InClosed =>
      let '(e1, w1) := cx_flush now env (cr_buffer r) e (cr_world r) in
      let '(e2, w2) := cx_sweep now env' e1 w1 in
      (mkCFRun e2 w2 (cr_buffer r), true)
  | InEvent ev =>
      if (negb (meetsMinLevel (fc_MinLevel (cx_cfg e)) (te_Level ev)) ||
          cx_isDuplicate now e (te_IP ev))%bool then
        (mkCFRun (cx_map_stats (add_skipped 1) e) (cr_world r) (cr_buffer r), false)
      else
        let e1 := cx_set_banned (<[te_IP ev := mkCfBanRecord EmptyString now true]> (cx_banned e)) e in
        let buffer := cr_buffer r ++ [ev] in
        if (fc_BatchSize (cx_cfg e) <=? Z.of_nat (length buffer))%Z then
          let '(e2, w2) := cx_flush now env buffer e1 (cr_world r) in (mkCFRun e2 w2 [], false)
        else (mkCFRun e1 (cr_world r) buffer, false)
  | InFlushTick =>
      if (0 <? length (cr_buffer r))%nat then
        let '(e1, w1) := cx_flush now env (cr_buffer r) e (cr_world r) in (mkCFRun e1 w1 [], false)
      else (r, false)
  | InSweepTick =>
      let '(e1, w1) := cx_sweep now env' e (cr_world r) in (mkCFRun e1 w1 (cr_buffer r), false)
  end.

(** The outcomes of [Run]: the error of a missing list, the panic of a negative
    buffer or a ticker without a period, or the loop. *)
Inductive CFOutcome :=
  | NoList (w : CWorld)
  | Panics
  | Ran (r : CFRun) (returned : bool).

Definition cx_Run (now : Time) (e : CloudflareExecutor) (w : CWorld)
    (turns : list (Time * CFEnv * CFEnv * RunInput)) : CFOutcome :=
  let '(w1, list_) := cf_FindOrCreateList w (fc_ListName (cx_cfg e)) in
  match list_ with
  | inl _ => NoList w1
  | inr listID =>
      let '(e2, w2, _) := cx_syncExisting now (cx_set_listID listID e) w1 in
      if ((fc_BatchSize (cx_cfg e) <? 0) || (fc_FlushInterval (cx_cfg e) <=? 0))%Z then Panics
      else let '(r, stop) := run_turns cx_step turns (mkCFRun e2 w2 []) in Ran r stop
  end.

(** ** cmd/arxsentinel/cleanup.go *)

(** The first Cloudflare executor with credentials: token, account and list name.
    A missing key or a value of another type reads as the empty string. *)
Definition string_param (params : Params) (key : string) : string :=
  match params !! key with Some (AnyString s) => s | _ => EmptyString end.

Definition extractCFInfo (executors : list (string * Params)) : option (string * string * string) :=
  (fun ec => (string_param ec.2 "api_token", string_param ec.2 "account_id", string_param ec.2 "list_name")) <$>
  List.find (fun ec => (String.eqb ec.1 "cloudflare" && negb (is_empty (string_param ec.2 "api_token")) &&
                        negb (is_empty (string_param ec.2 "account_id")))%bool) executors.

Definition FilterByComment (items : list CFItem) (prefix : string) : list CFItem :=
  filter (fun it => HasPrefix (ci_Comment it) prefix = true) items.

(** Batches of a slice of ids; [fuel] bounds the number of batches. *)
Fixpoint batches (fuel : nat) (n : nat) (ids : list string) : list (list string) :=
  match fuel with
  | O => []
  | S fuel' => match ids with
               | [] => []
               | _ => take n ids :: batches fuel' n (drop n ids)
               end
  end.

Fixpoint remove_batches (w : CWorld) (listID : string) (bs : list (list string)) : CWorld * bool :=
  match bs with
  | [] => (w, true)
  | b :: bs' =>
      let '(w', r) := cf_RemoveItems w listID b in
      match r with inl _ => (w', false) | inr _ => remove_batches w' listID bs' end
  end.

(** The state of the service and, on success, the items chosen for deletion. *)
Definition runCFCleanup (files : string -> option string) (rnd : option (list N))
    (listName : string) (dryRun : bool) (instanceID listID : string) (w : CWorld)
  : CWorld * option (list CFItem) :=
  let '(w1, eff) :=
    if (is_empty listID && negb (is_empty listName))%bool
    then let '(w1, r) := cf_FindOrCreateList w listName in
         (w1, match r with inl _ => None | inr l => Some l end)
    else (w, Some listID) in
  match eff with
  | None => (w1, None)
  | Some lid =>
      if is_empty lid then (w1, None)
      else
        let inst := if is_empty instanceID then LoadInstanceID files rnd EmptyString else instanceID in
        let '(w2, items) := cf_GetAllItems w1 lid in
        match items with
        | inl _ => (w2, None)
        | inr its =>
            let toDelete := FilterByComment its ("sentinel-" +:+ inst) in
            if dryRun then (w2, Some toDelete)
            else if (length toDelete =? 0)%nat then (w2, Some [])
            else
              let '(w3, ok) := remove_batches w2 lid
                                 (batches (length toDelete) 100 (ci_ID <$> toDelete)) in
              (w3, if ok : bool then Some toDelete else None)
        end
  end.

(** ** Retries *)

Definition is429 (r : string + string) : bool :=
  match r with inl err => Contains err "429" | inr _ => false end.

(** The service and the results of the first [n] calls. *)
Definition attempts (fn : CWorld -> CWorld * Result string) (w : CWorld) (n : nat)
  : CWorld * list (string + string) :=
  call_all (fun w (_ : unit) => fn w) w (replicate n ()).

(** How a retry loop with [left] further attempts ends after [k] retries. *)
Definition retry_ends (env : CFEnv) (left attempt k : nat) (r res : string + string) : Prop :=
  (res = r /\ (is429 r = false \/ k = left)) \/
  (res = inl ctx_err /\ is429 r = true /\ k < left /\ ce_retry_done env (attempt + k) = true).

Lemma retry_loop_spec env fn left attempt w :
  exists k rs r, k <= left /\ attempts fn w (S k) = ((retry_loop env left attempt fn w).1, rs ++ [r]) /\
    length rs = k /\ Forall (fun r => is429 r = true) rs /\
    retry_ends env left attempt k r (retry_loop env left attempt fn w).2.
Proof.
  revert attempt w. induction left as [|left IH]; intros attempt w; cbn [retry_loop];
    unfold attempts; cbn [replicate call_all];
    destruct (fn w) as [w1 r] eqn:Ef; destruct r as [err|op]; try (destruct (Contains err "429") eqn:Ec);
    cbn [negb].
  1, 2: exists 0, [], (inl err); cbn; unfold retry_ends; repeat split; auto; lia.
  1: exists 0, [], (inr op); cbn; unfold retry_ends; repeat split; auto; lia.
  2: exists 0, [], (inl err); cbn; unfold retry_ends; repeat split; auto; lia.
  2: exists 0, [], (inr op); cbn; unfold retry_ends; repeat split; auto; lia.
  destruct (ce_retry_done env attempt) eqn:Ed.
  - exists 0, [], (inl err). cbn. unfold retry_ends. repeat split; auto; [lia|].
    right. rewrite Nat.add_0_r. repeat split; auto. lia.
  - destruct (IH (S attempt) w1) as (k & rs & r & Hk & Ha & Hl & Hf & He).
    exists (S k), (inl err :: rs), r. split; [lia|]. split; [|split; [cbn; lia|split; [by constructor|]]].
    + unfold attempts in Ha. cbn [replicate call_all] in Ha |- *.
      destruct (fn w1) as [w2 r2]. destruct (call_all _ w2 _) as [w3 rs3].
      injection Ha as -> ->. done.
    + unfold retry_ends in *. replace (attempt + S k) with (S attempt + k) by lia.
      destruct He as [[? []]|(? & ? & ? & ?)]; [left|left|right]; repeat split; auto; lia.
Qed.

(** C38: retries are bounded and justified. [doWithRetry] calls the API between
    one and four times; every call before the last one failed with a rate-limit
    error; it reports the outcome of the last call, which is a success, another
    error, or the fourth rate-limit error, unless the context was cancelled
    during a back-off. *)
Theorem cloudflare_retry_bounded env fn w :
  exists k rs r, k <= 3 /\
    attempts fn w (S k) = ((doWithRetry env fn w).1, rs ++ [r]) /\ length rs = k /\
    Forall (fun r => is429 r = true) rs /\
    ((doWithRetry env fn w).2 = r /\ (is429 r = false \/ k = 3) \/
     (doWithRetry env fn w).2 = inl ctx_err /\ is429 r = true /\ k < 3 /\ ce_retry_done env k = true).
Proof. exact (retry_loop_spec env fn max429Retries 0 w). Qed.

(** ** The executor's own bans *)

(** A ban made by this process: no item id is known for it. *)
Definition own_ban (ip : string) (e : CloudflareExecutor) : Prop :=
  exists rec, cx_banned e !! ip = Some rec /\ cb_cfItemID rec = EmptyString.

Lemma poll_loop_banned env i delays op e w :
  cx_banned (poll_loop env i delays op e w).1.1 = cx_banned e.
Proof.
  revert i e w. induction delays as [|d delays IH]; intros i e w; [done|]. cbn [poll_loop].
  destruct (ce_poll_done env i); [done|]. destruct (cf_PollBulkOperation w op) as [w' [err|s]]; [apply IH|].
  destruct (String.eqb s "completed"); [done|]. destruct (String.eqb s "failed"); [done|]. apply IH.
Qed.

Lemma wait_banned env e w : cx_banned (waitForPendingOp env e w).1.1 = cx_banned e.
Proof. unfold waitForPendingOp. destruct (is_empty _); [done|]. apply poll_loop_banned. Qed.

Lemma store_op_banned now op e : cx_banned (cx_store_op now op e) = cx_banned e.
Proof. unfold cx_store_op. by destruct (is_empty op). Qed.

Lemma flush_own_ban now env events e w ip : own_ban ip e -> own_ban ip (cx_flush now env events e w).1.
Proof.
  intros (rec & Hl & Hid). unfold cx_flush. destruct (_ =? _)%nat; [by exists rec|].
  pose proof (wait_banned env e w) as Hw. destruct (waitForPendingOp env e w) as [[e1 w1] proceed].
  cbn in Hw. rewrite <- Hw in Hl. destruct proceed; [|by exists rec]. cbn [negb].
  destruct (doWithRetry env _ w1) as [w2 [err|op]]; [by exists rec|].
  unfold own_ban. cbn. rewrite store_op_banned. clear Hw. revert rec Hl Hid.
  generalize (cx_banned e1). induction events as [|ev events IH]; intros b rec Hl Hid; [by exists rec|].
  cbn [foldl]. destruct (decide (ip = te_IP ev)) as [->|Hne].
  - apply (IH _ (mkCfBanRecord EmptyString now true)); [|done]. by rewrite lookup_insert_eq.
  - apply (IH _ rec); [|done]. by rewrite lookup_insert_ne.
Qed.

Lemma cx_expired_id now e ip rec : (ip, rec) ∈ cx_expired now e ->
  cx_banned e !! ip = Some rec /\ cb_cfItemID rec <> EmptyString.
Proof.
  unfold cx_expired. rewrite list_elem_of_filter, elem_of_map_range. cbn [snd].
  rewrite andb_true_iff, negb_true_iff. unfold is_empty. rewrite String.eqb_neq. tauto.
Qed.

Lemma sweep_own_ban now env e w ip : own_ban ip e -> own_ban ip (cx_sweep now env e w).1.
Proof.
  intros (rec & Hl & Hid). unfold cx_sweep. destruct (_ =? _)%nat; [by exists rec|].
  pose proof (wait_banned env e w) as Hw. destruct (waitForPendingOp env e w) as [[e1 w1] proceed].
  cbn in Hw. destruct proceed; [|exists rec; cbn; by rewrite Hw]. cbn [negb].
  destruct (doWithRetry env _ w1) as [w2 [err|op]]; [exists rec; cbn; by rewrite Hw|].
  exists rec. split; [|done]. cbn. rewrite store_op_banned, Hw.
  assert (Hno : Forall (fun kv => kv.1 <> ip) (cx_expired now e)).
  { apply Forall_forall. intros [ip' rec'] Hin Heq. cbn in Heq. subst ip'.
    apply cx_expired_id in Hin as [Hl' Hid']. congruence. }
  clear -Hno Hl. revert Hl. generalize (cx_banned e).
  induction Hno as [|[ip' rec'] l Hne Hl IH]; intros b Hb; [done|]. cbn [foldl fst].
  apply IH. by rewrite lookup_delete_ne.
Qed.

Lemma step_own_ban turn r ip : own_ban ip (cr_exec r) -> own_ban ip (cr_exec (cx_step turn r).1).
Proof.
  destruct turn as [[[now env] env'] i]. intros Ho. destruct i as [ev| | | |]; cbn [cx_step].
  - destruct (_ || _)%bool; [done|].
    set (e1 := cx_set_banned _ _). assert (Ho1 : own_ban ip e1).
    { destruct Ho as (rec & Hl & Hid). unfold own_ban. cbn.
      destruct (decide (ip = te_IP ev)) as [->|Hne].
      - rewrite lookup_insert_eq. by eexists.
      - rewrite lookup_insert_ne by done. by exists rec. }
    destruct (_ <=? _)%Z; [|done].
    pose proof (flush_own_ban now env (cr_buffer r ++ [ev]) e1 (cr_world r) ip Ho1) as Hf.
    by destruct (cx_flush _ _ _ _ _).
  - destruct (_ <? _)%nat; [|done].
    pose proof (flush_own_ban now env (cr_buffer r) _ (cr_world r) ip Ho) as Hf.
    by destruct (cx_flush _ _ _ _ _).
  - pose proof (sweep_own_ban now env' _ (cr_world r) ip Ho) as Hs. by destruct (cx_sweep _ _ _ _).
  - pose proof (flush_own_ban now env (cr_buffer r) _ (cr_world r) ip Ho) as Hf.
    destruct (cx_flush _ _ _ _ _) as [e1 w1].
    pose proof (sweep_own_ban now env' e1 w1 ip Hf) as Hs. by destruct (cx_sweep _ _ _ _).
  - pose proof (flush_own_ban now env (cr_buffer r) _ (cr_world r) ip Ho) as Hf.
    destruct (cx_flush _ _ _ _ _) as [e1 w1].
    pose proof (sweep_own_ban now env' e1 w1 ip Hf) as Hs. by destruct (cx_sweep _ _ _ _).
Qed.

(** An address the executor accepted once is never retried nor expired in the
    same process: whatever the API answers (in particular when every [AddItems]
    fails) and however many sweeps run, every later event for it counts as a
    duplicate. This is against the comment that a failed call does not keep the
    next event from another attempt, and the TTL never applies to own bans. *)
Theorem cloudflare_accepted_is_final now env env' r ev turns now' :
  meetsMinLevel (fc_MinLevel (cx_cfg (cr_exec r))) (te_Level ev) = true ->
  cx_isDuplicate now (cr_exec r) (te_IP ev) = false ->
  let r1 := (cx_step (now, env, env', InEvent ev) r).1 in
  let r2 := (run_turns cx_step turns r1).1 in
  cx_isDuplicate now' (cr_exec r2) (te_IP ev) = true.
Proof.
  intros Hl Hd. cbv zeta.
  assert (H1 : own_ban (te_IP ev) (cr_exec (cx_step (now, env, env', InEvent ev) r).1)).
  { cbn [cx_step]. rewrite Hl, Hd. cbn [negb orb].
    set (e1 := cx_set_banned _ _). assert (Ho : own_ban (te_IP ev) e1).
    { eexists. cbn. rewrite lookup_insert_eq. done. }
    destruct (_ <=? _)%Z; [|done].
    pose proof (flush_own_ban now env (cr_buffer r ++ [ev]) e1 (cr_world r) _ Ho) as Hf.
    by destruct (cx_flush _ _ _ _ _). }
  assert (H2 : own_ban (te_IP ev) (cr_exec (run_turns cx_step turns
      (cx_step (now, env, env', InEvent ev) r).1).1)).
  { apply (run_turns_invariant cx_step (fun _ => True) (fun r => own_ban (te_IP ev) (cr_exec r))).
    - intros t s _. apply step_own_ban.
    - by apply Forall_forall.
    - done. }
  destruct H2 as (rec & Hrec & _). unfold cx_isDuplicate. rewrite Hrec. apply orb_true_r.
Qed.

End executor.

(** ** The cleanup command against the HTTP client *)

Section cleanup.
Context {JE : JSONErrors} {UP : UnicodePrint}.
Variable Net : Type.
(** Method, URL, authorization and body; the text of the answer. *)
Variable http_do : Net -> string -> string -> string -> option string -> Net * Result string.

(** the cleanup command never deletes anything: the HTTP client drops the
    comments of the items it lists, so no item carries the prefix the command
    selects by. Whatever the service holds and answers, a real run does exactly
    what a dry run does and selects no item. *)
Theorem cloudflare_cleanup_deletes_nothing c files rnd listName instanceID listID net :
  let cleanup dry := @runCFCleanup (cfhttp_client Net http_do c) files rnd listName dry instanceID listID net in
  cleanup false = cleanup true /\
  match (cleanup false).2 with None => True | Some deleted => deleted = [] end.
Proof.
  cbv zeta. unfold runCFCleanup.
  destruct (if (_ && _)%bool then _ else _) as [w1 [lid|]]; [|done].
  destruct (is_empty lid); [done|]. cbn [cf_GetAllItems cfhttp_client].
  unfold cfhttp_GetAllItems. destruct (cfhttp_doRequest _ _ _ _ _ _ _) as [w2 [err|raw]]; [done|].
  cbn [wrap_err bind_res]. destruct (decode_items raw) as [err|items]; [done|]. cbn [wrap_err bind_res].
  assert (He : forall p, FilterByComment
    ((fun it => mkCFItem (fi_ID it) (fi_IP it) EmptyString) <$> items) ("sentinel-" +:+ p) = []).
  { intros p. induction items as [|it items IH]; [done|]. unfold FilterByComment in *. cbn [fmap list_fmap].
    by rewrite filter_cons_False. }
  by rewrite He.
Qed.

End cleanup.

(** ** Witness *)

(** A service that fails every call. *)
Definition ex_cf_down : CFClient :=
  {| CWorld := unit;
     cf_FindOrCreateList := fun w _ => (w, inl "503");
     cf_GetAllItems := fun w _ => (w, inl "503");
     cf_AddItems := fun w _ _ => (w, inl "503");
     cf_RemoveItems := fun w _ _ => (w, inl "503");
     cf_PollBulkOperation := fun w _ => (w, inl "503") |}.

Definition ex_cf_exec : @CloudflareExecutor ex_window :=
  mkCloudflareExecutor
    (mkCFConfig "t" "a" "l" "THREAT" hour 0 0 1 (10 * second) EmptyString EmptyString EmptyString)
    "list" "host1" ∅ stats_zero EmptyString 0 (NewWindow 0).

Definition ex_cf_env : CFEnv := mkCFEnv (fun _ => false) (fun _ => false).

Lemma cloudflare_accepted_is_final_witness :
  let ev := mkThreatEvent 0 "THREAT" "s" "src" "file" "2.2.2.2" 90 [] "probe" EmptyString in
  let r1 := (@cx_step map_range_canonical ex_window ex_cf_down (1%Z, ex_cf_env, ex_cf_env, InEvent ev)
    (@mkCFRun ex_window ex_cf_down ex_cf_exec () [])).1 in
  let r2 := (run_turns (@cx_step map_range_canonical ex_window ex_cf_down)
    [((2 * hour)%Z, ex_cf_env, ex_cf_env, InSweepTick)] r1).1 in
  cx_isDuplicate (3 * hour) (cr_exec r2) "2.2.2.2" = true.
Proof.
  intros ev.
  apply (@cloudflare_accepted_is_final map_range_canonical ex_window ex_cf_down 1 ex_cf_env ex_cf_env
    (@mkCFRun ex_window ex_cf_down ex_cf_exec () []) ev
    [((2 * hour)%Z, ex_cf_env, ex_cf_env, InSweepTick)] (3 * hour)); vm_compute; reflexivity.
Defined.
