(* ===== verification/MockOpnsense.v ===== *)
(** * The OPNsense mock of the integration tests (tests/integration/opnsense-api-mock)

    The server with its handlers, the network between it and the executor's HTTP
    client, and the composition of the two: the executor of OpnsenseExec.v, run
    through its real client against this server over a network that loses
    requests, keeps its ban map equal to the alias. *)

From Stdlib Require Import ZArith Lia Ascii String.
From stdpp Require Import base numbers option list strings gmap fin_maps.
From S2P Require Import Prelude GoFloat GoStrings GoNet GoFmt GoValues GoJSON GoHTTP Model ExecCommon OpnsenseExec.

(** ** server.go *)

Definition defaultAPIKey : string := "testkey".
Definition defaultAPISecret : string := "testsecret".

(** The handlers run under the server's mutex or on atomic counters; a request is
    one step. *)
Record MockServer := mkMockServer {
  ms_entries : list string;
  ms_addCalls : Z;
  ms_delCalls : Z;
  ms_listCalls : Z;
  ms_apiKey : string;
  ms_apiSecret : string
}.

Definition newMockServer (getenv : string -> string) : MockServer :=
  let key := getenv "OPNSENSE_MOCK_API_KEY" in
  let secret := getenv "OPNSENSE_MOCK_API_SECRET" in
  mkMockServer [] 0 0 0 (if String.eqb key "" then defaultAPIKey else key)
    (if String.eqb secret "" then defaultAPISecret else secret).

Definition set_entries (l : list string) (s : MockServer) : MockServer :=
  mkMockServer l (ms_addCalls s) (ms_delCalls s) (ms_listCalls s) (ms_apiKey s) (ms_apiSecret s).
Definition count_add (s : MockServer) : MockServer :=
  mkMockServer (ms_entries s) (wrap64 (ms_addCalls s + 1)) (ms_delCalls s) (ms_listCalls s) (ms_apiKey s) (ms_apiSecret s).
Definition count_del (s : MockServer) : MockServer :=
  mkMockServer (ms_entries s) (ms_addCalls s) (wrap64 (ms_delCalls s + 1)) (ms_listCalls s) (ms_apiKey s) (ms_apiSecret s).
Definition count_list (s : MockServer) : MockServer :=
  mkMockServer (ms_entries s) (ms_addCalls s) (ms_delCalls s) (wrap64 (ms_listCalls s + 1)) (ms_apiKey s) (ms_apiSecret s).

(** [subtle.ConstantTimeCompare] is 1 on equal contents. *)
Definition authenticate (s : MockServer) (r : Request) : bool :=
  match BasicAuth r with
  | None => false
  | Some (user, pass) => (String.eqb user (ms_apiKey s) && String.eqb pass (ms_apiSecret s))%bool
  end.

Definition unauthorized : HttpResponse := http_Error "unauthorized" 401.
Definition method_not_allowed : HttpResponse := http_Error "method not allowed" 405.

Definition aliasFromPath (prefix path : string) : string := Trim (Ascii.eqb "/") (TrimPrefix path prefix).

Definition json_reply (v : JSON) : option HttpResponse := Some (mkHttpResponse 200 (Encode v)).

Definition writeResult (result : string) : option HttpResponse := json_reply (JObject [("result", JString result)]).

Definition address_fields : fields_of JSON string := [("address", fun v a => into_string v a)].

Section handlers.
(** The decoder's error text for a body it refuses. *)
Variable json_err : string -> string.

(** The guards and the decoding that add and delete share: the response of a refused
    request, or the address. *)
Definition read_address (prefix : string) (s : MockServer) (r : Request) : HttpResponse + string :=
  if negb (String.eqb (r_Method r) "POST") then inl method_not_allowed
  else if negb (authenticate s r) then inl unauthorized
  else if String.eqb (aliasFromPath prefix (r_Path r)) "" then inl (http_Error "bad request: missing alias name" 400)
  else match doc ← Decode (r_Body r); into_struct address_fields doc "" with
       | None => inl (http_Error ("bad request: " +:+ json_err (r_Body r)) 400)
       | Some address =>
           if String.eqb address "" then inl (http_Error "bad request: missing address" 400) else inr address
       end.

Definition handleAdd (s : MockServer) (r : Request) : MockServer * option HttpResponse :=
  match read_address "/api/firewall/alias_util/add/" s r with
  | inl resp => (s, Some resp)
  | inr address =>
      if existsb (String.eqb address) (ms_entries s) then (count_add s, writeResult "saved")
      else (count_add (set_entries (ms_entries s ++ [address]) s), writeResult "saved")
  end.

Definition handleDelete (s : MockServer) (r : Request) : MockServer * option HttpResponse :=
  match read_address "/api/firewall/alias_util/delete/" s r with
  | inl resp => (s, Some resp)
  | inr address =>
      (count_del (set_entries (filter (fun e => String.eqb e address = false) (ms_entries s)) s), writeResult "saved")
  end.

Definition handleList (s : MockServer) (r : Request) : MockServer * option HttpResponse :=
  if negb (String.eqb (r_Method r) "GET") then (s, Some method_not_allowed)
  else if negb (authenticate s r) then (s, Some unauthorized)
  else if String.eqb (aliasFromPath "/api/firewall/alias_util/list/" (r_Path r)) ""
  then (s, Some (http_Error "bad request: missing alias name" 400))
  else (count_list s, json_reply (JObject [("content", JString (Join (ms_entries s) (String newline "")))])).

Definition handleRecordedItems (s : MockServer) (r : Request) : MockServer * option HttpResponse :=
  if negb (String.eqb (r_Method r) "GET") then (s, Some method_not_allowed)
  else (s, json_reply (JObject [("entries", JArray (JString <$> ms_entries s)); ("add_calls", JInt (ms_addCalls s));
         ("del_calls", JInt (ms_delCalls s)); ("list_calls", JInt (ms_listCalls s))])).

Definition handleReset (s : MockServer) (r : Request) : MockServer * option HttpResponse :=
  if negb (String.eqb (r_Method r) "POST") then (s, Some method_not_allowed)
  else (mkMockServer [] 0 0 0 (ms_apiKey s) (ms_apiSecret s), json_reply (JObject [("status", JString "reset")])).

Definition opnsense_mux : ServeMux MockServer :=
  [("/api/firewall/alias_util/add/", handleAdd); ("/api/firewall/alias_util/delete/", handleDelete);
   ("/api/firewall/alias_util/list/", handleList); ("/recorded-items", handleRecordedItems);
   ("/reset", handleReset)].

(** ** The client's network *)

Definition opn_http_do (base : string) (net : Net MockServer) (method url : string) (creds : string * string)
    (body : option string) : Net MockServer * option HttpResponse :=
  net_Do base opnsense_mux net method url (Some (SetBasicAuth creds.1 creds.2))
    (match body with Some b => b | None => "" end).

(** The executor's client of a configuration, connected to the server. *)
Definition wire_client (cfg : OpnsenseConfig) : OpnsenseClient :=
  let c := NewOpnHTTPClient cfg in
  opn_client (Net MockServer) (opn_http_do (oh_baseURL c)) c.

(** ** The composition *)

Section wire.
Variable cfg : OpnsenseConfig.
Hypothesis url_ok : string_forallb no_ctl (oh_baseURL (NewOpnHTTPClient cfg)) = true.
Hypothesis alias_named : pc_AliasName cfg <> "" /\ pc_AliasName cfg <> "." /\ pc_AliasName cfg <> "..".

(** What an alias line can hold. *)
Definition addr_ok (ip : string) : Prop := ip <> "" /\ string_forallb is_graph ip = true.

Definition entries_ok (net : Net MockServer) : Prop := Forall addr_ok (ms_entries (net_server net)).
Definition alias_set (net : Net MockServer) : gset string := list_to_set (ms_entries (net_server net)).

(** The request a handler sees for an endpoint. *)
Definition alias_request (method endpoint body : string) : Request :=
  mkRequest method (rooted ["api"; "firewall"; "alias_util"; endpoint; PathEscape (pc_AliasName cfg)])
    (rooted ["api"; "firewall"; "alias_util"; endpoint; pc_AliasName cfg]) ""
    (Some (SetBasicAuth (pc_APIKey cfg) (pc_APISecret cfg))) body.

Lemma alias_route s method endpoint body pat h : url_segment endpoint = true -> unescape false endpoint = Some endpoint ->
  mux_match opnsense_mux ["" ; "api"; "firewall"; "alias_util"; endpoint; pc_AliasName cfg] = Some (pat, h) ->
  http_Do (oh_baseURL (NewOpnHTTPClient cfg)) opnsense_mux s method
    (oh_baseURL (NewOpnHTTPClient cfg) +:+ ("/api/firewall/alias_util/" +:+ endpoint +:+ "/") +:+ PathEscape (pc_AliasName cfg))
    (Some (SetBasicAuth (pc_APIKey cfg) (pc_APISecret cfg))) body = h s (alias_request method endpoint body).
Proof.
  intros He Hu Hm. destruct alias_named as (Ha1 & Ha2 & Ha3).
  set (segs := ["api"; "firewall"; "alias_util"; endpoint; PathEscape (pc_AliasName cfg)]).
  replace (("/api/firewall/alias_util/" +:+ endpoint +:+ "/") +:+ PathEscape (pc_AliasName cfg))
    with (rooted segs +:+ url_query None).
  { eapply (http_Do_route _ _ _ _ segs ["api"; "firewall"; "alias_util"; endpoint; pc_AliasName cfg] None); try done.
    - cbn [forallb segs]. rewrite He, PathEscape_segment by done. done.
    - cbn. rewrite Hu. cbn. by rewrite unescape_escape.
    - right. by repeat constructor. }
  unfold rooted, segs, url_query. cbn [Join]. by rewrite string_app_nil_r, !string_app_assoc.
Qed.

Lemma decode_address ip : addr_ok ip -> (doc ← Decode (encode_address ip); into_struct address_fields doc "") = Some ip.
Proof.
  intros [_ Hg]. unfold encode_address. rewrite Decode_Marshal; [done| |done].
  cbn -[valid_utf8]. by rewrite (graph_utf8 ip Hg).
Qed.

(** The answer to an address: refused without an effect, or decoded. *)
Lemma read_address_wire prefix s endpoint ip : addr_ok ip ->
  (exists resp, read_address prefix s (alias_request "POST" endpoint (encode_address ip)) = inl resp /\
     (300 <=? hr_StatusCode resp)%Z = true) \/
  read_address prefix s (alias_request "POST" endpoint (encode_address ip)) = inr ip.
Proof.
  intros Hip. unfold read_address. cbn [r_Method r_Body alias_request String.eqb Ascii.eqb eqb negb].
  destruct (authenticate _ _); [|left; eauto]. destruct (String.eqb (aliasFromPath _ _) ""); [left; eauto|].
  cbn [negb]. rewrite (decode_address ip Hip). destruct (String.eqb_spec ip "") as [->|]; [by destruct Hip|by right].
Qed.

Lemma parseResult_saved resp : writeResult "saved" = Some resp ->
  hr_StatusCode resp = 200%Z /\ parseResult (hr_Body resp) = true.
Proof. intros [= <-]. split; [done|]. vm_compute. reflexivity. Qed.

(** The outcome of a call: lost or refused without an effect, or served. *)
Definition served (net net' : Net MockServer) (ok : bool) (h : Handler MockServer) (method endpoint body : string) : Prop :=
  ok = true /\ net_server net' = (h (net_server net) (alias_request method endpoint body)).1.

Definition no_effect (net net' : Net MockServer) (ok : bool) : Prop := ok = false /\ net_server net' = net_server net.

Definition post_handler (h : Handler MockServer) (prefix : string) : Prop := forall s r,
  match read_address prefix s r with
  | inl resp => h s r = (s, Some resp)
  | inr _ => (h s r).2 = writeResult "saved"
  end.

Lemma opn_post_wire net endpoint ip pat h : addr_ok ip ->
  url_segment endpoint = true -> unescape false endpoint = Some endpoint ->
  mux_match opnsense_mux ["" ; "api"; "firewall"; "alias_util"; endpoint; pc_AliasName cfg] = Some (pat, h) ->
  let prefix := "/api/firewall/alias_util/" +:+ endpoint +:+ "/" in
  post_handler h prefix ->
  let '(net', ok) := opn_post (Net MockServer) (opn_http_do (oh_baseURL (NewOpnHTTPClient cfg))) (NewOpnHTTPClient cfg) net prefix ip in
  no_effect net net' ok \/
  served net net' ok h "POST" endpoint (encode_address ip) /\
  read_address prefix (net_server net) (alias_request "POST" endpoint (encode_address ip)) = inr ip.
Proof.
  intros Hip He Hu Hm prefix Hh. unfold opn_post, opn_doRequest, opn_http_do, net_Do.
  destruct (default false (head (net_lost net))); [by left|]. cbn [oh_apiKey oh_apiSecret oh_aliasName NewOpnHTTPClient fst snd].
  rewrite (alias_route _ _ _ _ _ _ He Hu Hm). specialize (Hh (net_server net) (alias_request "POST" endpoint (encode_address ip))).
  destruct (read_address_wire prefix (net_server net) endpoint ip Hip) as [(resp & Hr & Hc)|Hr]; rewrite Hr in Hh.
  - rewrite Hh. cbn [mbind option_bind]. rewrite Hc, orb_true_r. by left.
  - unfold served. destruct (h _ _) as [s' resp]. cbn in Hh. subst resp.
    destruct (writeResult "saved") as [resp|] eqn:E; [|done]. destruct (parseResult_saved _ E) as [Hc Hp].
    cbn [mbind option_bind]. rewrite Hc. cbn [Z.ltb Z.leb Z.compare Pos.compare Pos.compare_cont orb]. rewrite Hp. by right.
Qed.

Lemma handleAdd_post : post_handler handleAdd "/api/firewall/alias_util/add/".
Proof. intros s r. unfold handleAdd. destruct (read_address _ s r); [done|]. by destruct (existsb _ _). Qed.

Lemma handleDelete_post : post_handler handleDelete "/api/firewall/alias_util/delete/".
Proof. intros s r. unfold handleDelete. by destruct (read_address _ s r). Qed.

Lemma existsb_elem ip l : existsb (String.eqb ip) l = true <-> ip ∈ l.
Proof.
  rewrite existsb_exists. split.
  - intros (x & Hx & ->%String.eqb_eq). by apply list_elem_of_In.
  - intros Hip. exists ip. split; [by apply list_elem_of_In|apply String.eqb_refl].
Qed.

Lemma wire_add net ip : entries_ok net -> addr_ok ip ->
  let '(net', ok) := @pf_AddEntry (wire_client cfg) net ip in
  entries_ok net' /\ alias_set net' = if ok then {[ip]} ∪ alias_set net else alias_set net.
Proof.
  intros Hnet Hip. pose proof (opn_post_wire net "add" ip _ handleAdd Hip eq_refl eq_refl eq_refl handleAdd_post) as Hw.
  unfold pf_AddEntry, wire_client, opn_client, opn_AddEntry.
  change ("/api/firewall/alias_util/" +:+ "add" +:+ "/") with "/api/firewall/alias_util/add/" in Hw.
  destruct (opn_post _ _ _ _ _ _) as [net' ok]. unfold entries_ok, alias_set in *.
  destruct Hw as [[-> ->]|[[-> ->] Hr]]; [done|]. unfold handleAdd. rewrite Hr.
  destruct (existsb _ _) eqn:Ex; cbn.
  - split; [done|]. apply existsb_elem in Ex. set_solver.
  - split; [apply Forall_app; auto|]. rewrite list_to_set_app_L. set_solver.
Qed.

Lemma wire_delete net ip : entries_ok net -> addr_ok ip ->
  let '(net', ok) := @pf_DeleteEntry (wire_client cfg) net ip in
  entries_ok net' /\ alias_set net' = if ok then alias_set net ∖ {[ip]} else alias_set net.
Proof.
  intros Hnet Hip. pose proof (opn_post_wire net "delete" ip _ handleDelete Hip eq_refl eq_refl eq_refl handleDelete_post) as Hw.
  unfold pf_DeleteEntry, wire_client, opn_client, opn_DeleteEntry.
  change ("/api/firewall/alias_util/" +:+ "delete" +:+ "/") with "/api/firewall/alias_util/delete/" in Hw.
  destruct (opn_post _ _ _ _ _ _) as [net' ok]. unfold entries_ok, alias_set in *.
  destruct Hw as [[-> ->]|[[-> ->] Hr]]; [done|]. unfold handleDelete. rewrite Hr. cbn. split.
  - rewrite Forall_forall in Hnet |- *. intros x Hx. apply Hnet. by apply list_elem_of_filter in Hx as [_ ?].
  - apply set_eq. intros x. rewrite elem_of_difference, !elem_of_list_to_set, list_elem_of_filter, String.eqb_neq. set_solver.
Qed.

Lemma entries_lines l : Forall addr_ok l -> l <> [] ->
  keep_trimmed (Split (Join l (String newline "")) newline) = l.
Proof.
  intros Hl Hne. rewrite (Split_Join l newline); [|done|].
  - unfold keep_trimmed. assert (TrimSpace <$> l = l) as ->.
    { induction Hl as [|x l [_ Hx] Hl IH]; [done|]. cbn. rewrite TrimSpace_graph by done. f_equal. destruct l; [done|by apply IH]. }
    apply filter_all. eapply Forall_impl; [done|]. intros x [Hx _]. by destruct x.
  - eapply Forall_impl; [done|]. intros x [_ Hx]. eapply string_forallb_impl; [|done]. intros c Hc.
    destruct (Ascii.eqb_spec c newline) as [->|]; [discriminate Hc|done].
Qed.

(** The list a client reads from the server's answer. *)
Lemma parse_list_wire l : Forall addr_ok l ->
  parseListEntries (Encode (JObject [("content", JString (Join l (String newline "")))])) = Some l.
Proof.
  intros Hl. unfold parseListEntries. rewrite Unmarshal_Encode; [| |done].
  - cbn -[Join Split keep_trimmed is_empty newline]. destruct l as [|x l]; [done|].
    assert (is_empty (Join (x :: l) (String newline "")) = false) as ->.
    { inversion Hl as [|? ? [Hx _] _]; subst. destruct x; [done|]. by destruct l. }
    f_equal. by apply entries_lines.
  - cbn -[valid_utf8 Join]. rewrite (ascii_utf8 (Join l _)); [done|]. apply Join_forallb; [done|].
    eapply Forall_impl; [done|]. intros x [_ Hx]. by apply graph_ascii.
Qed.

Lemma wire_list net : entries_ok net -> let '(net', entries) := @pf_ListEntries (wire_client cfg) net in
  entries_ok net' /\ alias_set net' = alias_set net /\
  match entries with
  | Some ips => list_to_set ips = alias_set net /\ Forall addr_ok ips
  | None => True
  end.
Proof.
  intros Hnet. unfold pf_ListEntries, wire_client, opn_client, opn_ListEntries, opn_doRequest, opn_http_do, net_Do.
  destruct (default false (head (net_lost net))); [done|]. cbn [oh_apiKey oh_apiSecret oh_aliasName NewOpnHTTPClient fst snd].
  pose proof (alias_route (net_server net) "GET" "list" "" _ handleList eq_refl eq_refl eq_refl) as Hroute.
  change ("/api/firewall/alias_util/" +:+ "list" +:+ "/") with "/api/firewall/alias_util/list/" in Hroute.
  rewrite Hroute. unfold handleList.
  cbn [r_Method alias_request String.eqb Ascii.eqb eqb negb]. destruct (authenticate _ _); [|done].
  destruct (String.eqb (aliasFromPath _ _) ""); [done|]. cbn [negb mbind option_bind hr_StatusCode hr_Body json_reply].
  change ((200 <? 200) || (300 <=? 200))%Z with false. cbv iota. cbn [mbind option_bind]. rewrite parse_list_wire by done. done.
Qed.

(** The server is a firewall in the executor's sense. *)
Definition wire_firewall : @OpnsenseFirewall (wire_client cfg) :=
  {| alias_of := alias_set : @PWorld (wire_client cfg) -> gset string; fw_ok := entries_ok; fw_addr := addr_ok;
     pf_add_law := wire_add; pf_delete_law := wire_delete; pf_list_law := wire_list |}.

(** Matching credentials, a server that can be reached and a name that is not all
    slashes: the first list succeeds. *)
Lemma wire_list_answers net : entries_ok net -> head (net_lost net) <> Some true ->
  ms_apiKey (net_server net) = pc_APIKey cfg -> ms_apiSecret (net_server net) = pc_APISecret cfg ->
  free_of ":" (pc_APIKey cfg) = true -> Trim (Ascii.eqb "/") (pc_AliasName cfg) <> "" ->
  (@pf_ListEntries (wire_client cfg) net).2 <> None.
Proof.
  intros Hnet Hl Hk Hs Hc Ha. unfold pf_ListEntries, wire_client, opn_client, opn_ListEntries, opn_doRequest, opn_http_do, net_Do.
  replace (default false (head (net_lost net))) with false by (by destruct (net_lost net) as [|[] ?]).
  cbn [oh_apiKey oh_apiSecret oh_aliasName NewOpnHTTPClient fst snd].
  pose proof (alias_route (net_server net) "GET" "list" "" _ handleList eq_refl eq_refl eq_refl) as Hroute.
  change ("/api/firewall/alias_util/" +:+ "list" +:+ "/") with "/api/firewall/alias_util/list/" in Hroute.
  rewrite Hroute. unfold handleList. cbn [r_Method alias_request String.eqb Ascii.eqb eqb negb].
  replace (authenticate _ _) with true.
  2: { unfold authenticate. rewrite (BasicAuth_Set _ (pc_APIKey cfg) (pc_APISecret cfg)) by done.
    by rewrite Hk, Hs, !String.eqb_refl. }
  unfold aliasFromPath. cbn [r_Path alias_request].
  replace (TrimPrefix _ _) with (pc_AliasName cfg) by (symmetry; apply (TrimPrefix_app "/api/firewall/alias_util/list/")).
  destruct (String.eqb_spec (Trim (Ascii.eqb "/") (pc_AliasName cfg)) "") as [E|_]; [done|].
  cbn [negb mbind option_bind hr_StatusCode hr_Body json_reply].
  change ((200 <? 200) || (300 <=? 200))%Z with false. cbv iota. cbn [mbind option_bind]. by rewrite parse_list_wire.
Qed.

Context {MR : MapRange} {DW : DedupWindow}.

(** C19: the OPNsense executor against the alias server, end to end. The executor runs through its HTTP client (URL, escaped path, basic authentication, JSON bodies) against the handlers of the API server, over a network that may lose any requests after the first; through any sequence of events and sweeps the addresses in the ban map are exactly the lines of the alias on the server. *)
Theorem opnsense_wire_refinement now e net turns :
  pf_banned e = ∅ -> Forall addr_ok (ms_entries (net_server net)) ->
  Forall (fun turn => match turn.2 with InEvent ev => addr_ok (te_IP ev) | _ => True end) turns ->
  head (net_lost net) <> Some true ->
  ms_apiKey (net_server net) = pc_APIKey cfg -> ms_apiSecret (net_server net) = pc_APISecret cfg ->
  free_of ":" (pc_APIKey cfg) = true -> Trim (Ascii.eqb "/") (pc_AliasName cfg) <> "" ->
  let '((e', net'), _) := @pf_Run MR DW (wire_client cfg) now e net turns in
  dom (pf_banned e') = list_to_set (ms_entries (net_server net')).
Proof.
  intros He Hn Ht Hl Hk Hs Hc Ha.
  pose proof (@pf_Run_mirrors MR DW (wire_client cfg) wire_firewall now e net turns He Hn Ht
    (wire_list_answers net Hn Hl Hk Hs Hc Ha)) as Hm.
  destruct (@pf_Run MR DW (wire_client cfg) now e net turns) as [[e' net'] stop]. apply Hm.
Qed.
End wire.
End handlers.

(** ** Witness *)

Definition ex_wire_cfg : OpnsenseConfig :=
  mkOpnsenseConfig "fw.lan" 443 "http" "testkey" "testsecret" true "bad hosts/v4" hour "THREAT" 0.

Definition ex_wire_exec : @OpnsenseExecutor ex_window := mkOpnsenseExecutor ex_wire_cfg ∅ (NewWindow 0) stats_zero.

(** The alias holds one address; the second event's request is lost. *)
Definition ex_wire_net : Net MockServer :=
  mkNet (set_entries ["1.1.1.1"] (newMockServer (fun _ => ""))) [false; false; true].

Definition ex_wire_client : OpnsenseClient := wire_client (fun _ => "unexpected EOF") ex_wire_cfg.

Definition ex_wire_turns : list (Time * RunInput) :=
  [(1%Z, ex_opn_event "2.2.2.2"); (2%Z, ex_opn_event "3.3.3.3"); (3%Z, ex_opn_event "4.4.4.4")].

Definition ex_wire_run : (@OpnsenseExecutor ex_window * Net MockServer) * bool :=
  @pf_Run map_range_canonical ex_window ex_wire_client 0 ex_wire_exec ex_wire_net ex_wire_turns.

Lemma opnsense_wire_refinement_witness :
  ms_entries (net_server ex_wire_run.1.2) = ["1.1.1.1"; "2.2.2.2"; "4.4.4.4"] /\
  let '((e', net'), _) := ex_wire_run in dom (pf_banned e') = list_to_set (ms_entries (net_server net')).
Proof.
  split; [vm_compute; reflexivity|].
  apply (opnsense_wire_refinement (fun _ => "unexpected EOF") ex_wire_cfg);
    [reflexivity|repeat split; discriminate|reflexivity| | |discriminate|reflexivity|reflexivity|reflexivity|].
  - apply Forall_cons_2; [split; [discriminate|reflexivity]|apply Forall_nil_2].
  - do 3 (apply Forall_cons_2; [split; [discriminate|reflexivity]|]). apply Forall_nil_2.
  - vm_compute. discriminate.
Defined.
