(* ===== verification/MockUbus.v ===== *)
(** * The ubus mock of the integration tests (tests/integration/ubus-api-mock)

    The JSON-RPC server with its handlers, and its composition with the executor's
    ubus client: session renewal, the request and reply documents, and the set the
    executor keeps. *)

From Stdlib Require Import ZArith Lia Ascii String.
From stdpp Require Import base numbers option list sorting strings gmap fin_maps.
From S2P Require Import Prelude GoFloat GoStrings GoNet GoFmt GoValues GoTime GoJSON GoHTTP Model ExecCommon OpenwrtExec.

(** ** server.go *)

Record rpcRequest := mkRpcRequest {
  rr_JSONRPC : string;
  rr_ID : Z;
  rr_Method : string;
  rr_Params : list JSON
}.

(** A number decoded into an interface is a float64, which can be out of range. *)
Fixpoint any_ok (v : JSON) : bool :=
  match v with
  | JNumber lit => bool_decide (is_Some (ParseFloat lit))
  | JArray l => forallb any_ok l
  | JObject m => forallb (fun kv => any_ok kv.2) m
  | _ => true
  end.

Definition into_any (v : JSON) : option JSON := if any_ok v then Some v else None.

Definition rpc_fields : fields_of JSON rpcRequest := [
  ("jsonrpc", fun v r => s ← into_string v (rr_JSONRPC r); Some (mkRpcRequest s (rr_ID r) (rr_Method r) (rr_Params r)));
  ("id", fun v r => z ← into_int v (rr_ID r); Some (mkRpcRequest (rr_JSONRPC r) z (rr_Method r) (rr_Params r)));
  ("method", fun v r => s ← into_string v (rr_Method r); Some (mkRpcRequest (rr_JSONRPC r) (rr_ID r) s (rr_Params r)));
  ("params", fun v r => l ← into_slice (fun x _ => into_any x) JNull v;
     Some (mkRpcRequest (rr_JSONRPC r) (rr_ID r) (rr_Method r) l))].

(** [ms_locked] is a mutex left locked by a handler that panicked; whoever asks for
    it then waits until the client gives up. *)
Record MockServer := mkMockServer {
  ms_entries : list string;
  ms_loginCalls : Z;
  ms_addListCalls : Z;
  ms_delListCalls : Z;
  ms_commitCalls : Z;
  ms_getCalls : Z;
  ms_reloadCalls : Z;
  ms_locked : bool
}.

Definition MockServer_zero : MockServer := mkMockServer [] 0 0 0 0 0 0 false.

Definition set_entries (l : list string) (locked : bool) (s : MockServer) : MockServer :=
  mkMockServer l (ms_loginCalls s) (ms_addListCalls s) (ms_delListCalls s) (ms_commitCalls s) (ms_getCalls s)
    (ms_reloadCalls s) locked.
Definition count_login (s : MockServer) : MockServer :=
  mkMockServer (ms_entries s) (wrap64 (ms_loginCalls s + 1)) (ms_addListCalls s) (ms_delListCalls s) (ms_commitCalls s)
    (ms_getCalls s) (ms_reloadCalls s) (ms_locked s).
Definition count_addList (s : MockServer) : MockServer :=
  mkMockServer (ms_entries s) (ms_loginCalls s) (wrap64 (ms_addListCalls s + 1)) (ms_delListCalls s) (ms_commitCalls s)
    (ms_getCalls s) (ms_reloadCalls s) (ms_locked s).
Definition count_delList (s : MockServer) : MockServer :=
  mkMockServer (ms_entries s) (ms_loginCalls s) (ms_addListCalls s) (wrap64 (ms_delListCalls s + 1)) (ms_commitCalls s)
    (ms_getCalls s) (ms_reloadCalls s) (ms_locked s).
Definition count_commit (s : MockServer) : MockServer :=
  mkMockServer (ms_entries s) (ms_loginCalls s) (ms_addListCalls s) (ms_delListCalls s) (wrap64 (ms_commitCalls s + 1))
    (ms_getCalls s) (ms_reloadCalls s) (ms_locked s).
Definition count_get (s : MockServer) : MockServer :=
  mkMockServer (ms_entries s) (ms_loginCalls s) (ms_addListCalls s) (ms_delListCalls s) (ms_commitCalls s)
    (wrap64 (ms_getCalls s + 1)) (ms_reloadCalls s) (ms_locked s).
Definition count_reload (s : MockServer) : MockServer :=
  mkMockServer (ms_entries s) (ms_loginCalls s) (ms_addListCalls s) (ms_delListCalls s) (ms_commitCalls s)
    (ms_getCalls s) (wrap64 (ms_reloadCalls s + 1)) (ms_locked s).

(** [args["values"].([]any)]: the last of equal keys, if it is an array. *)
Definition lookup_last (key : string) (m : list (string * JSON)) : option JSON :=
  snd <$> List.find (fun kv => String.eqb kv.1 key) (rev m).

Definition arg_values (args : JSON) : option (list JSON) :=
  match args with
  | JObject m => match lookup_last "values" m with Some (JArray l) => Some l | _ => None end
  | _ => None
  end.

(** The strings up to the first value that is not one. *)
Fixpoint leading_strings (l : list JSON) : list string :=
  match l with
  | JString s :: l' => s :: leading_strings l'
  | _ => []
  end.
Definition all_strings (l : list JSON) : bool := forallb (fun v => match v with JString _ => true | _ => false end) l.

(** What a case of the switch ends in: data for the reply, an unknown method, or no
    reply at all. *)
Inductive Outcome := Data (d : JSON) | UnknownMethod | NoReply.

(** Run a critical section; a locked mutex blocks. *)
Definition with_lock (s : MockServer) (f : MockServer -> MockServer * Outcome) : MockServer * Outcome :=
  if ms_locked s then (s, NoReply) else f s.

Definition dispatch (s : MockServer) (object method : string) (args : JSON) : MockServer * Outcome :=
  let called o m := (String.eqb object o && String.eqb method m)%bool in
  if called "session" "login" then (count_login s, Data (JObject [("ubus_rpc_session", JString "mocksession")]))
  else if called "uci" "add_list" then
    let s := count_addList s in
    match arg_values args with
    | None => (s, Data (JObject []))
    | Some values =>
        with_lock s (fun s =>
          let appended := ms_entries s ++ leading_strings values in
          if all_strings values then (set_entries appended false s, Data (JObject []))
          else (set_entries appended true s, NoReply))
    end
  else if called "uci" "del_list" then
    let s := count_delList s in
    match arg_values args with
    | None => (s, Data (JObject []))
    | Some values =>
        if negb (all_strings values) then (s, NoReply)
        else with_lock s (fun s =>
          (set_entries (filter (fun e => e ∉ leading_strings values) (ms_entries s)) false s, Data (JObject [])))
    end
  else if called "uci" "commit" then (count_commit s, Data (JObject []))
  else if called "uci" "get" then
    with_lock (count_get s) (fun s => (s, Data (JObject [("value", JArray (JString <$> ms_entries s))])))
  else if called "rc" "init" then (count_reload s, Data (JObject []))
  else (s, UnknownMethod).

Section handlers.
(** The decoder's error text for a body it refuses. *)
Variable json_err : string -> string.

Definition handleUbus (s : MockServer) (r : Request) : MockServer * option HttpResponse :=
  match doc ← Decode (r_Body r); into_struct rpc_fields doc (mkRpcRequest "" 0 "" []) with
  | None => (s, Some (http_Error ("bad request: " +:+ json_err (r_Body r)) 400))
  | Some req =>
      match rr_Params req with
      | _ :: object :: method :: args :: _ =>
          match object, method with
          | JString object, JString method =>
              let '(s', out) := dispatch s object method args in
              (s', match out with
                   | Data d => Some (mkHttpResponse 200 (Encode (json_map
                       [("jsonrpc", JString "2.0"); ("id", JInt (rr_ID req)); ("result", JArray [JInt 0; d])])))
                   | UnknownMethod => Some (http_Error "unknown method" 404)
                   | NoReply => None
                   end)
          | JString _, _ => (s, Some (http_Error "bad request: method must be string" 400))
          | _, _ => (s, Some (http_Error "bad request: object must be string" 400))
          end
      | _ => (s, Some (http_Error "bad request: params must have >= 4 elements" 400))
      end
  end.

Definition handleRecordedItems (s : MockServer) (r : Request) : MockServer * option HttpResponse :=
  if ms_locked s then (s, None)
  else (s, Some (mkHttpResponse 200 (Encode (JObject
         [("entries", JArray (JString <$> ms_entries s)); ("login_calls", JInt (ms_loginCalls s));
          ("add_list_calls", JInt (ms_addListCalls s)); ("del_list_calls", JInt (ms_delListCalls s));
          ("commit_calls", JInt (ms_commitCalls s)); ("get_calls", JInt (ms_getCalls s));
          ("reload_calls", JInt (ms_reloadCalls s))])))).

Definition handleReset (s : MockServer) (r : Request) : MockServer * option HttpResponse :=
  if ms_locked s then (s, None)
  else (MockServer_zero, Some (mkHttpResponse 200 (Encode (JObject [("status", JString "reset")])))).

Definition ubus_mux : ServeMux MockServer :=
  [("/ubus", handleUbus); ("/recorded-items", handleRecordedItems); ("/reset", handleReset)].

(** A value that is not a string panics with the mutex locked, after the values
    before it were stored: from then on nothing that needs the set is answered, and
    not even a reset recovers the server. *)
Lemma ubus_mutex_stuck s m values : ms_locked s = false -> lookup_last "values" m = Some (JArray values) ->
  all_strings values = false ->
  let '(s', out) := dispatch s "uci" "add_list" (JObject m) in
  out = NoReply /\ ms_entries s' = ms_entries s ++ leading_strings values /\
  forall args r, (dispatch s' "uci" "get" args).2 = NoReply /\ handleRecordedItems s' r = (s', None) /\
    handleReset s' r = (s', None).
Proof.
  intros Hl Hv Ha. unfold dispatch, arg_values. cbn -[lookup_last all_strings leading_strings]. rewrite Hv.
  unfold with_lock. cbn [ms_locked count_addList]. rewrite Hl, Ha. done.
Qed.

(** ** The client's network *)

Definition ubus_address (cfg : OpenwrtConfig) : string :=
  oc_Scheme cfg +:+ "://" +:+ oc_Host cfg +:+ ":" +:+ Itoa (oc_Port cfg).

Definition ubus_post (cfg : OpenwrtConfig) (net : Net MockServer) (url body : string)
  : Net MockServer * option HttpResponse :=
  net_Do (ubus_address cfg) ubus_mux net "POST" url None body.

Definition ubus_wire_client (cfg : OpenwrtConfig) : OpenwrtClient :=
  ubus_client (Net MockServer) (ubus_post cfg).

(** ** The composition *)

Section wire.
Variable cfg : OpenwrtConfig.
Hypothesis url_ok : string_forallb no_ctl (ubus_address cfg) = true.
Hypothesis cfg_utf8 : valid_utf8 (oc_Username cfg) = true /\ valid_utf8 (oc_Password cfg) = true /\
  valid_utf8 (oc_IPSetName cfg) = true.

Definition World : Type := UbusClient * Net MockServer.
Definition server (w : World) : MockServer := net_server w.2.

Definition utf8_addr (ip : string) : Prop := valid_utf8 ip = true.

(** The client belongs to the configuration, the mutex is free and the set is text. *)
Definition world_ok (w : World) : Prop :=
  ub_cfg w.1 = cfg /\ valid_utf8 (ub_sessionID w.1) = true /\ in_int64 (ub_reqCounter w.1) /\
  ms_locked (server w) = false /\ Forall utf8_addr (ms_entries (server w)).

Definition entry_set (w : World) : gset string := list_to_set (ms_entries (server w)).

Lemma ubus_route s body :
  http_Do (ubus_address cfg) ubus_mux s "POST" (ubus_address cfg +:+ "/ubus") None body =
    handleUbus s (mkRequest "POST" "/ubus" "/ubus" "" None body).
Proof.
  change "/ubus" with (rooted ["ubus"] +:+ url_query None) at 1.
  eapply (http_Do_route _ _ _ _ ["ubus"] ["ubus"] None); try done. by left.
Qed.

Definition arg_ok (a : UciArg) : bool :=
  match a with ArgString s => valid_utf8 s | ArgStrings l => forallb valid_utf8 l end.
Definition args_ok (args : list (string * UciArg)) : bool :=
  forallb (fun kv => valid_utf8 kv.1 && arg_ok kv.2)%bool args.

Definition args_json (args : list (string * UciArg)) : JSON := json_map (prod_map id arg_json <$> args).

Lemma args_json_wf args : args_ok args = true -> json_wf (args_json args) = true /\ (json_depth (args_json args) <= 2)%N.
Proof.
  intros H. split.
  - apply json_wf_map. cbn. induction args as [|[k a] args IH]; [done|]. cbn in H |- *.
    apply andb_prop in H as [[Hk Ha]%andb_prop H]. rewrite Hk, (IH H), andb_true_r.
    destruct a as [x|l]; [done|]. by apply json_wf_strings.
  - apply json_depth_map. cbn. clear H. assert (foldr N.max 0 (map (fun kv => json_depth kv.2) (prod_map id arg_json <$> args)) <= 1)%N; [|lia].
    apply fold_max_le. induction args as [|[k a] args IH]; cbn; constructor; [|done].
    destruct a as [x|l]; [done|]. cbn [prod_map snd arg_json]. by rewrite json_depth_strings.
Qed.

(** No number in an argument. *)
Lemma args_json_any args : any_ok (args_json args) = true.
Proof.
  unfold args_json, json_map. cbn. apply forallb_forall. intros x Hx.
  apply (Permutation_in x (merge_sort_Permutation key_before _)), list_elem_of_In, list_elem_of_fmap in Hx as ([k a] & -> & _).
  destruct a as [s|l]; [done|]. cbn. induction l as [|y l IH]; [done|]. cbn. exact IH.
Qed.

Definition call_request (id : Z) (sid object method : string) (args : list (string * UciArg)) : string :=
  Marshal (rpc_json (mkJsonRPCRequest id "call" [JString sid; JString object; JString method; args_json args])).

(** The request as the server decodes it. *)
Lemma decode_request id sid object method args : in_int64 id -> valid_utf8 sid = true -> valid_utf8 object = true ->
  valid_utf8 method = true -> args_ok args = true ->
  (doc ← Decode (call_request id sid object method args); into_struct rpc_fields doc (mkRpcRequest "" 0 "" [])) =
  Some (mkRpcRequest "2.0" id "call" [JString sid; JString object; JString method; args_json args]).
Proof.
  intros Hid Hs Ho Hm Ha. destruct (args_json_wf args Ha) as [Hwf Hd]. unfold call_request. rewrite Decode_Marshal.
  - cbn [mbind option_bind into_struct rpc_json foldl rpc_ID rpc_Method rpc_Params].
    change (json_store rpc_fields (Some ?r) ("jsonrpc", JString ?x)) with (Some (mkRpcRequest x (rr_ID r) (rr_Method r) (rr_Params r))).
    change (json_store rpc_fields (Some ?r) ("id", JInt ?x)) with
      (z ← Atoi (Itoa x); Some (mkRpcRequest (rr_JSONRPC r) z (rr_Method r) (rr_Params r))).
    rewrite (Atoi_Itoa id Hid). cbn [mbind option_bind rr_ID rr_Method rr_Params rr_JSONRPC].
    change (json_store rpc_fields (Some ?r) ("method", JString ?x)) with (Some (mkRpcRequest (rr_JSONRPC r) (rr_ID r) x (rr_Params r))).
    change (json_store rpc_fields (Some ?r) ("params", JArray ?l)) with
      (l' ← mapM into_any l; Some (mkRpcRequest (rr_JSONRPC r) (rr_ID r) (rr_Method r) l')).
    assert (Hany : into_any (args_json args) = Some (args_json args)) by (unfold into_any; by rewrite args_json_any).
    cbn [mapM]. rewrite Hany. done.
  - cbn -[valid_utf8 json_int_lit Itoa args_json]. by rewrite Hs, Ho, Hm, Hwf, json_int_lit_Itoa.
  - cbn -[args_json N.max]. unfold maxNestingDepth. lia.
Qed.

(** The reply as the client decodes it. *)
Lemma decode_reply id d : in_int64 id -> json_wf d = true -> (json_depth d <= 2)%N ->
  (doc ← Decode (Encode (json_map [("jsonrpc", JString "2.0"); ("id", JInt id); ("result", JArray [JInt 0; d])]));
   resp ← into_struct response_fields doc (mkJsonRPCResponse "" 0 None); rpc_result resp) = Some d.
Proof.
  intros Hid Hwf Hd. rewrite Decode_Encode.
  - change (json_map _) with (JObject [("id", JInt id); ("jsonrpc", JString "2.0"); ("result", JArray [JInt 0; d])]).
    cbn [mbind option_bind into_struct foldl].
    change (json_store response_fields (Some ?r) ("id", JInt ?x)) with
      (z ← Atoi (Itoa x); Some (mkJsonRPCResponse (rsp_JSONRPC r) z (rsp_Result r))).
    rewrite (Atoi_Itoa id Hid). reflexivity.
  - apply json_wf_map. cbn -[json_int_lit Itoa valid_utf8]. by rewrite Hwf, json_int_lit_Itoa.
  - apply json_depth_map. cbn -[N.max]. unfold maxNestingDepth. lia.
Qed.

(** A call is lost, or dispatched by the server; [d] is the data of its reply. *)
Lemma ubus_call_wire c net sid object method args d :
  ub_cfg c = cfg -> valid_utf8 sid = true -> valid_utf8 object = true -> valid_utf8 method = true -> args_ok args = true ->
  (dispatch (net_server net) object method (args_json args)).2 = Data d -> json_wf d = true -> (json_depth d <= 2)%N ->
  let '((c', net'), r) := ubus_call (Net MockServer) (ubus_post cfg) (c, net) sid object method args in
  c' = ub_count c /\ net_lost net' = tail (net_lost net) /\
  (r = None /\ head (net_lost net) = Some true /\ net_server net' = net_server net \/
   r = Some d /\ net_server net' = (dispatch (net_server net) object method (args_json args)).1).
Proof.
  intros Hcfg Hs Ho Hm Ha Hdisp Hwf Hdep. unfold ubus_call, ubus_post, net_Do. cbn [rpc_ID rpc_Method rpc_Params].
  destruct (net_lost net) as [|[] lost] eqn:El; cbn [head default tail];
    [|by split; [|split; [|left]]|];
    (replace (ubus_baseURL c) with (ubus_address cfg +:+ "/ubus") by
       (unfold ubus_baseURL, ubus_address; rewrite Hcfg; by rewrite !string_app_assoc));
    rewrite ubus_route; unfold handleUbus; cbn [r_Body];
    fold (args_json args); fold (call_request (ub_reqCounter (ub_count c)) sid object method args);
    (rewrite decode_request by (done || apply wrap64_range)); cbn [rr_Params rr_ID];
    destruct (dispatch _ _ _ _) as [s' out]; cbn in Hdisp; subst out;
    (split; [done|]); (split; [done|]); right; cbn [mbind option_bind hr_StatusCode hr_Body];
    change (negb (200 =? 200)%Z) with false; cbv iota; (rewrite decode_reply by (done || apply wrap64_range)); done.
Qed.

Definition client_ok (c : UbusClient) : Prop :=
  ub_cfg c = cfg /\ valid_utf8 (ub_sessionID c) = true /\ in_int64 (ub_reqCounter c).
Definition server_ok (s : MockServer) : Prop := ms_locked s = false /\ Forall utf8_addr (ms_entries s).

Lemma world_ok_split c net : world_ok (c, net) <-> client_ok c /\ server_ok (net_server net).
Proof. unfold world_ok, client_ok, server_ok, server. cbn. tauto. Qed.

(** A login changes neither the set nor the mutex. *)
Lemma loginLocked_wire now w : world_ok w ->
  let '(w', ok) := loginLocked (Net MockServer) (ubus_post cfg) now w in
  world_ok w' /\ ms_entries (server w') = ms_entries (server w) /\ net_lost w'.2 = tail (net_lost w.2) /\
  (ok = false -> head (net_lost w.2) = Some true).
Proof.
  destruct w as [c net]. rewrite world_ok_split. intros [(Hc & Hsid & Hctr) Hs]. destruct cfg_utf8 as (Hu & Hp & _).
  unfold loginLocked. cbn [fst]. rewrite Hc.
  pose proof (ubus_call_wire c net nullSession "session" "login"
    [("username", ArgString (oc_Username cfg)); ("password", ArgString (oc_Password cfg))]
    (JObject [("ubus_rpc_session", JString "mocksession")]) Hc eq_refl eq_refl eq_refl) as Hw.
  destruct (ubus_call _ _ _ _ _ _ _) as [[c' net'] r].
  destruct Hw as (-> & Hlost & Hw); [cbn -[valid_utf8]; by rewrite Hu, Hp|done|done|done|].
  assert (Hctr' : in_int64 (ub_reqCounter (ub_count c))) by apply wrap64_range.
  destruct Hw as [(-> & Hh & Hn)|[-> Hn]]; cbn [mbind option_bind].
  - split; [|unfold server; cbn; by rewrite Hn]. apply world_ok_split. rewrite Hn. done.
  - cbn -[ub_count]. split; [|unfold server; cbn; by rewrite Hn]. apply world_ok_split. rewrite Hn. done.
Qed.

Lemma lost_soon (l : list bool) : head l = Some true \/ head (tail l) = Some true -> true ∈ take 2 l.
Proof.
  destruct l as [|b1 [|b2 l]]; cbn; intros [H|H]; try done; injection H as ->; set_solver.
Qed.

Definition answers (object method : string) (args : list (string * UciArg)) : Prop := forall s, server_ok s ->
  exists d, (dispatch s object method (args_json args)).2 = Data d /\ json_wf d = true /\ (json_depth d <= 2)%N.

(** A request, with the login it may need first: without an effect on the set, or
    dispatched with the set as it was. *)
Lemma ubus_doRequest_wire now w object method args : world_ok w -> valid_utf8 object = true -> valid_utf8 method = true ->
  args_ok args = true -> answers object method args ->
  let '(w', r) := ubus_doRequest (Net MockServer) (ubus_post cfg) now w object method args in
  client_ok w'.1 /\
  (r = None /\ server_ok (server w') /\ ms_entries (server w') = ms_entries (server w) /\ true ∈ take 2 (net_lost w.2) \/
   exists s d, server_ok s /\ ms_entries s = ms_entries (server w) /\ r = Some d /\
     dispatch s object method (args_json args) = (server w', Data d)).
Proof.
  intros Hw Ho Hm Ha Hans. unfold ubus_doRequest.
  assert (Hsess : let '(w1, ok) := ensureSessionLocked (Net MockServer) (ubus_post cfg) now w in
    world_ok w1 /\ ms_entries (server w1) = ms_entries (server w) /\
    (ok = false \/ head (net_lost w1.2) = Some true -> true ∈ take 2 (net_lost w.2))).
  { unfold ensureSessionLocked. destruct (_ || _)%bool.
    - pose proof (loginLocked_wire now w Hw) as Hl. destruct (loginLocked _ _ now w) as [w1 ok]. destruct Hl as (H1 & H2 & H3 & H4).
      split; [done|]. split; [done|]. rewrite H3. intros [->|H5]; apply lost_soon; auto.
    - split; [done|]. split; [done|]. intros [|H]; [done|]. apply lost_soon. auto. }
  destruct (ensureSessionLocked _ _ now w) as [[c net] ok]. destruct Hsess as (Hw1 & He & Hlost).
  apply world_ok_split in Hw1 as [Hc1 Hs1]. destruct ok; [|split; [done|left]; split_and!; auto].
  cbn [fst]. destruct (Hans (net_server net) Hs1) as (d & Hd & Hwf & Hdep).
  destruct Hc1 as (Hc & Hsid & Hctr).
  pose proof (ubus_call_wire c net (ub_sessionID c) object method args d Hc Hsid Ho Hm Ha Hd Hwf Hdep) as Hcall.
  destruct (ubus_call _ _ _ _ _ _ _) as [[c' net'] r]. destruct Hcall as (-> & _ & Hcall).
  split; [repeat split; try done; apply wrap64_range|].
  unfold server in *. cbn [snd] in *. destruct Hcall as [(-> & Hh & Hn)|[-> Hn]]; [left|right].
  - rewrite Hn. split_and!; auto.
  - exists (net_server net), d. rewrite Hn. destruct (dispatch _ _ _ _) as [s' out]. cbn in Hd. by subst out.
Qed.

Lemma entry_args_json values :
  args_json (entry_args (mkUbusClient cfg "" 0 0) values) =
  JObject [("config", JString "firewall"); ("option", JString "entry"); ("section", JString (oc_IPSetName cfg));
           ("values", JArray (JString <$> values))].
Proof. reflexivity. Qed.

Lemma entry_args_cfg c values : ub_cfg c = cfg -> entry_args c values = entry_args (mkUbusClient cfg "" 0 0) values.
Proof. intros Hc. unfold entry_args. by rewrite Hc. Qed.

Lemma entry_args_ok values : Forall utf8_addr values -> args_ok (entry_args (mkUbusClient cfg "" 0 0) values) = true.
Proof.
  intros Hv. destruct cfg_utf8 as (_ & _ & Hn). cbn -[valid_utf8]. rewrite Hn. cbn.
  induction Hv as [|x l Hx Hl IH]; [done|]. cbn. unfold utf8_addr in Hx. rewrite Hx. exact IH.
Qed.

Lemma leading_all values : leading_strings (JString <$> values) = values /\ all_strings (JString <$> values) = true.
Proof. induction values as [|x l [IH1 IH2]]; [done|]. cbn. by rewrite IH1. Qed.

(** The two cases of the switch that change the set. *)
Lemma dispatch_add s values : ms_locked s = false ->
  dispatch s "uci" "add_list" (args_json (entry_args (mkUbusClient cfg "" 0 0) values)) =
  (set_entries (ms_entries s ++ values) false (count_addList s), Data (JObject [])).
Proof.
  intros Hl. rewrite entry_args_json. destruct (leading_all values) as [H1 H2].
  transitivity (with_lock (count_addList s) (fun s =>
    if all_strings (JString <$> values) then (set_entries (ms_entries s ++ leading_strings (JString <$> values)) false s, Data (JObject []))
    else (set_entries (ms_entries s ++ leading_strings (JString <$> values)) true s, NoReply))); [reflexivity|].
  unfold with_lock. cbn [ms_locked count_addList]. by rewrite Hl, H1, H2.
Qed.

Lemma dispatch_del s values : ms_locked s = false ->
  dispatch s "uci" "del_list" (args_json (entry_args (mkUbusClient cfg "" 0 0) values)) =
  (set_entries (filter (fun e => e ∉ values) (ms_entries s)) false (count_delList s), Data (JObject [])).
Proof.
  intros Hl. rewrite entry_args_json. destruct (leading_all values) as [H1 H2].
  transitivity (if negb (all_strings (JString <$> values)) then (count_delList s, NoReply)
    else with_lock (count_delList s) (fun s =>
      (set_entries (filter (fun e => e ∉ leading_strings (JString <$> values)) (ms_entries s)) false s, Data (JObject []))));
    [reflexivity|].
  unfold with_lock. cbn [ms_locked count_delList]. by rewrite Hl, H1, H2.
Qed.

Lemma wire_AddEntries now w ips : world_ok w -> Forall utf8_addr ips ->
  let '(w', ok) := @ow_AddEntries (ubus_wire_client cfg) now w ips in
  world_ok w' /\ entry_set w' = if ok then entry_set w ∪ list_to_set ips else entry_set w.
Proof.
  intros Hw Hips. cbn [ow_AddEntries ubus_wire_client ubus_client]. unfold ubus_AddEntries, ok_of.
  destruct (length ips =? 0)%nat eqn:E.
  { apply Nat.eqb_eq, nil_length_inv in E as ->. split; [done|]. set_solver. }
  rewrite (entry_args_cfg w.1) by apply Hw.
  pose proof (ubus_doRequest_wire now w "uci" "add_list" _ Hw eq_refl eq_refl (entry_args_ok ips Hips)) as Hr.
  destruct (ubus_doRequest _ _ _ _ _ _ _) as [[c' net'] r]. unfold entry_set. cbn [fst snd].
  destruct Hr as (Hc & Hr).
  { intros s [Hl _]. rewrite dispatch_add by done. by exists (JObject []). }
  destruct Hr as [(-> & Hs & -> & _)|(s & d & [Hl Hu] & He & -> & Hd)]; [by split; [apply world_ok_split|]|].
  rewrite dispatch_add in Hd by done. injection Hd as Hd _. unfold server in *. cbn [snd] in *.
  split; [apply world_ok_split; split; [done|]|]; rewrite <- Hd; cbn.
  - split; [done|]. by apply Forall_app.
  - by rewrite He, list_to_set_app_L.
Qed.

Lemma wire_DeleteEntries now w ips : world_ok w -> Forall utf8_addr ips ->
  let '(w', ok) := @ow_DeleteEntries (ubus_wire_client cfg) now w ips in
  world_ok w' /\ entry_set w' = if ok then entry_set w ∖ list_to_set ips else entry_set w.
Proof.
  intros Hw Hips. cbn [ow_DeleteEntries ubus_wire_client ubus_client]. unfold ubus_DeleteEntries, ok_of.
  destruct (length ips =? 0)%nat eqn:E.
  { apply Nat.eqb_eq, nil_length_inv in E as ->. split; [done|]. set_solver. }
  rewrite (entry_args_cfg w.1) by apply Hw.
  pose proof (ubus_doRequest_wire now w "uci" "del_list" _ Hw eq_refl eq_refl (entry_args_ok ips Hips)) as Hr.
  destruct (ubus_doRequest _ _ _ _ _ _ _) as [[c' net'] r]. unfold entry_set. cbn [fst snd].
  destruct Hr as (Hc & Hr).
  { intros s [Hl _]. rewrite dispatch_del by done. by exists (JObject []). }
  destruct Hr as [(-> & Hs & -> & _)|(s & d & [Hl Hu] & He & -> & Hd)]; [by split; [apply world_ok_split|]|].
  rewrite dispatch_del in Hd by done. injection Hd as Hd _. unfold server in *. cbn [snd] in *.
  split; [apply world_ok_split; split; [done|]|]; rewrite <- Hd; cbn.
  - split; [done|]. rewrite Forall_forall in Hu |- *. intros x [_ Hx]%list_elem_of_filter. by apply Hu.
  - apply set_eq. intros x. rewrite elem_of_difference, !elem_of_list_to_set, list_elem_of_filter, He. tauto.
Qed.

(** A call that leaves the set alone. *)
Lemma wire_neutral now w object method args (s' : MockServer -> MockServer) d :
  world_ok w -> valid_utf8 object = true -> valid_utf8 method = true -> args_ok args = true ->
  (forall s, dispatch s object method (args_json args) = (s' s, Data d)) -> json_wf d = true -> (json_depth d <= 2)%N ->
  (forall s, ms_entries (s' s) = ms_entries s /\ ms_locked (s' s) = ms_locked s) ->
  let '(w', r) := ubus_doRequest (Net MockServer) (ubus_post cfg) now w object method args in
  world_ok w' /\ entry_set w' = entry_set w.
Proof.
  intros Hw Ho Hm Ha Hd Hwf Hdep Hs'. pose proof (ubus_doRequest_wire now w object method args Hw Ho Hm Ha) as Hr.
  destruct (ubus_doRequest _ _ _ _ _ _ _) as [[c' net'] r]. unfold entry_set, server in *. cbn [fst snd] in *.
  destruct Hr as (Hc & Hr).
  { intros s _. rewrite Hd. by exists d. }
  destruct Hr as [(_ & Hs & -> & _)|(s & d' & [Hl Hu] & He & _ & Hdd)]; [by split; [apply world_ok_split|]|].
  rewrite Hd in Hdd. injection Hdd as Hdd _. destruct (Hs' s) as [H1 H2].
  split; [apply world_ok_split; split; [done|]|]; rewrite <- Hdd; unfold server_ok; rewrite ?H1, ?H2, ?He; [|done].
  by rewrite <- He.
Qed.

Lemma wire_Commit now w : world_ok w ->
  world_ok (@ow_Commit (ubus_wire_client cfg) now w).1 /\ entry_set (@ow_Commit (ubus_wire_client cfg) now w).1 = entry_set w.
Proof.
  intros Hw. cbn [ow_Commit ubus_wire_client ubus_client]. unfold ubus_Commit, ok_of.
  pose proof (wire_neutral now w "uci" "commit" [("config", ArgString "firewall")] count_commit (JObject [])) as H.
  destruct (ubus_doRequest _ _ _ _ _ _ _) as [w' r]. by apply H.
Qed.

Lemma wire_Reload now w : world_ok w ->
  world_ok (@ow_Reload (ubus_wire_client cfg) now w).1 /\ entry_set (@ow_Reload (ubus_wire_client cfg) now w).1 = entry_set w.
Proof.
  intros Hw. cbn [ow_Reload ubus_wire_client ubus_client]. unfold ubus_Reload, ok_of.
  pose proof (wire_neutral now w "rc" "init" [("name", ArgString "firewall"); ("action", ArgString "reload")] count_reload
    (JObject [])) as H.
  destruct (ubus_doRequest _ _ _ _ _ _ _) as [w' r]. by apply H.
Qed.

Lemma get_args_ok : args_ok [("config", ArgString "firewall"); ("section", ArgString (oc_IPSetName cfg)); ("option", ArgString "entry")] = true.
Proof. destruct cfg_utf8 as (_ & _ & Hn). cbn -[valid_utf8]. by rewrite Hn. Qed.

Lemma dispatch_get s args : ms_locked s = false ->
  dispatch s "uci" "get" args = (count_get s, Data (JObject [("value", JArray (JString <$> ms_entries s))])).
Proof. intros Hl. unfold dispatch, with_lock. cbn -[count_get]. cbn [ms_locked count_get]. by rewrite Hl. Qed.

Lemma value_doc l : Forall utf8_addr l ->
  json_wf (JObject [("value", JArray (JString <$> l))]) = true /\
  (json_depth (JObject [("value", JArray (JString <$> l))]) <= 2)%N /\
  into_struct value_fields (JObject [("value", JArray (JString <$> l))]) [] = Some l.
Proof.
  intros Hl. split; [|split].
  - assert (json_wf (JArray (JString <$> l)) = true) as H; [|cbn in H |- *; by rewrite H].
    apply json_wf_strings, forallb_forall. rewrite Forall_forall in Hl. intros x Hx. apply Hl. by apply list_elem_of_In.
  - pose proof (json_depth_strings l) as H. cbn [json_depth map foldr snd] in *. rewrite H. done.
  - transitivity (into_strings (JArray (JString <$> l))); [reflexivity|apply into_strings_list].
Qed.

Lemma wire_ListEntries now w : world_ok w -> let '(w', entries) := @ow_ListEntries (ubus_wire_client cfg) now w in
  world_ok w' /\ entry_set w' = entry_set w /\
  match entries with Some ips => list_to_set ips = entry_set w /\ Forall utf8_addr ips | None => True end.
Proof.
  intros Hw. cbn [ow_ListEntries ubus_wire_client ubus_client]. unfold ubus_ListEntries.
  replace (ub_cfg w.1) with cfg by (symmetry; apply Hw).
  pose proof (ubus_doRequest_wire now w "uci" "get" _ Hw eq_refl eq_refl get_args_ok) as Hr.
  destruct (ubus_doRequest _ _ _ _ _ _ _) as [[c' net'] r]. unfold entry_set, server in *. cbn [fst snd] in *.
  destruct Hr as (Hc & Hr).
  { intros s [Hl Hu]. rewrite dispatch_get by done. destruct (value_doc _ Hu) as (H1 & H2 & _). eauto. }
  destruct Hr as [(-> & Hs & -> & _)|(s & d & [Hl Hu] & He & -> & Hd)]; [by split; [apply world_ok_split|]|].
  rewrite dispatch_get in Hd by done. injection Hd as Hd <-. destruct (value_doc _ Hu) as (_ & _ & Hv).
  cbn [mbind option_bind]. rewrite Hv, <- Hd. cbn. rewrite He in Hu |- *.
  split; [apply world_ok_split; split; [done|]; rewrite <- Hd; split; cbn; [done|by rewrite He]|]. done.
Qed.

Definition ubus_set : @OpenwrtSet (ubus_wire_client cfg) :=
  {| staged := entry_set : @OWorld (ubus_wire_client cfg) -> gset string; rt_ok := world_ok; rt_addr := utf8_addr;
     add_law := wire_AddEntries; delete_law := wire_DeleteEntries; commit_law := wire_Commit; reload_law := wire_Reload;
     list_law := wire_ListEntries |}.

(** The first list answers if neither the login nor the list is lost. *)
Lemma ubus_list_answers now net : server_ok (net_server net) -> true ∉ take 2 (net_lost net) ->
  (@ow_ListEntries (ubus_wire_client cfg) now (NewUbusClient cfg, net)).2 <> None.
Proof.
  intros Hs Hl. cbn [ow_ListEntries ubus_wire_client ubus_client]. unfold ubus_ListEntries.
  assert (Hw : world_ok (NewUbusClient cfg, net)) by (by apply world_ok_split).
  pose proof (ubus_doRequest_wire now _ "uci" "get" _ Hw eq_refl eq_refl get_args_ok) as Hr. cbn [fst ub_cfg NewUbusClient].
  destruct (ubus_doRequest _ _ _ _ _ _ _) as [[c' net'] r]. destruct Hr as (_ & Hr).
  { intros s [Hl' Hu]. rewrite dispatch_get by done. destruct (value_doc _ Hu) as (H1 & H2 & _). eauto. }
  destruct Hr as [(_ & _ & _ & Hin)|(s & d & [Hl' Hu] & _ & -> & Hd)]; [done|].
  rewrite dispatch_get in Hd by done. injection Hd as _ <-. destruct (value_doc _ Hu) as (_ & _ & Hv).
  cbn [mbind option_bind snd]. by rewrite Hv.
Qed.

Context {MR : MapRange} {DW : DedupWindow}.

(** C21: the OpenWrt executor against the ubus server, end to end. Through its JSON-RPC client, with sessions that expire and are renewed, against the handlers of the API server and over a network that may lose any requests after the start-up sync, the addresses in the ban map are exactly the entries of the server's set, whatever happens to the commits and reloads. *)
Theorem openwrt_wire_refinement now e net turns :
  (0 <= oc_BatchSize (ow_cfg e))%Z -> ow_banned e = ∅ ->
  ms_locked (net_server net) = false -> Forall utf8_addr (ms_entries (net_server net)) -> true ∉ take 2 (net_lost net) ->
  Forall (fun turn => match turn.2 with InEvent ev => utf8_addr (te_IP ev) | _ => True end) turns ->
  exists r returned, @ow_Run MR DW (ubus_wire_client cfg) now e (NewUbusClient cfg, net) turns = Some (r, returned) /\
    dom (ow_banned (or_exec r)) = list_to_set (ms_entries (server (or_world r))).
Proof.
  intros Hb He Hl Hu Hlost Ht.
  assert (Hw : world_ok (NewUbusClient cfg, net)) by (by apply world_ok_split).
  destruct (@ow_Run_invariant MR DW (ubus_wire_client cfg) ubus_set (@run_mirrors DW (ubus_wire_client cfg) ubus_set) now e (NewUbusClient cfg, net) turns)
    as (r & returned & Hr & [(_ & Hd & _) _]); [done|done|apply ow_step_mirrors| |eauto].
  apply ow_sync_mirrors; [done|done|]. by apply ubus_list_answers.
Qed.
End wire.
End handlers.

(** ** Witness *)

Definition ex_ubus_cfg : OpenwrtConfig :=
  mkOpenwrtConfig "router.lan" 80 "http" "root" "secret" "blocklist" hour (5 * minute) 2 (30 * second) "THREAT" 0.

Definition ex_ubus_exec : @OpenwrtExecutor ex_window := mkOpenwrtExecutor ex_ubus_cfg ∅ (NewWindow 0) stats_zero.

Definition ex_ubus_client : OpenwrtClient := ubus_wire_client (fun _ => "EOF") ex_ubus_cfg.

(** One entry is present; the session expires between the flushes, and the reload
    of the first flush is lost. *)
Definition ex_ubus_net : Net MockServer :=
  mkNet (set_entries ["1.1.1.1"] false MockServer_zero) [false; false; false; false; true].

Definition ex_ubus_turns : list (Time * Time * RunInput) :=
  [(1, 1, ex_owrt_event "2.2.2.2"); (2, 2, ex_owrt_event "3.3.3.3"); (10 * minute, 10 * minute, ex_owrt_event "4.4.4.4");
   (10 * minute, 10 * minute, InDone)]%Z.

Definition ex_ubus_run : option (@OpenwrtRun ex_window ex_ubus_client * bool) :=
  @ow_Run map_range_canonical ex_window ex_ubus_client 0 ex_ubus_exec (NewUbusClient ex_ubus_cfg, ex_ubus_net) ex_ubus_turns.

Definition ex_ubus_report (r : @OpenwrtRun ex_window ex_ubus_client * bool) : list string * Z * Z * Z :=
  let s := server (@or_world ex_window ex_ubus_client r.1) in
  (ms_entries s, ms_loginCalls s, ms_commitCalls s, ms_reloadCalls s).

Lemma openwrt_wire_refinement_witness :
  ex_ubus_report <$> ex_ubus_run =
    Some (["1.1.1.1"; "2.2.2.2"; "3.3.3.3"; "4.4.4.4"], 2, 2, 1)%Z /\
  exists r returned, ex_ubus_run = Some (r, returned) /\
    dom (ow_banned (or_exec r)) = list_to_set (ms_entries (server (@or_world ex_window ex_ubus_client r))).
Proof.
  split; [vm_compute; reflexivity|].
  apply (openwrt_wire_refinement (fun _ => "EOF") ex_ubus_cfg); try reflexivity; try discriminate.
  - repeat split; reflexivity.
  - apply Forall_cons_2; [reflexivity|apply Forall_nil_2].
  - apply (bool_decide_unpack _). vm_compute. exact I.
  - do 3 (apply Forall_cons_2; [reflexivity|]). apply Forall_cons_2; [exact I|apply Forall_nil_2].
Defined.
