(* ===== verification/MockRouterOS.v ===== *)
(** * The RouterOS mock of the integration tests (tests/integration/ros-api-mock)

    The address-list server with its handlers, and its composition with the
    executor's REST client: what a restarted executor recovers from the router, and
    what a sweep does to it. *)

From Stdlib Require Import ZArith Lia Ascii String.
From stdpp Require Import base numbers option list strings gmap fin_maps.
From S2P Require Import Prelude GoFloat GoStrings GoNet GoFmt GoValues GoTime GoJSON GoHTTP Model ExecCommon MikrotikExec.

(** ** server.go *)

Record RecordedItem := mkRecordedItem {
  ri_IP : string;
  ri_Comment : string;
  ri_Timeout : string;
  ri_AddedAt : string
}.

Definition recorded_json (i : RecordedItem) : JSON :=
  JObject ([("ip", JString (ri_IP i)); ("comment", JString (ri_Comment i))] ++ omit_empty "timeout" (ri_Timeout i) ++
    [("added_at", JString (ri_AddedAt i))]).

Record MockServer := mkMockServer {
  ms_entries : list AddressListEntry;
  ms_nextID : Z;
  ms_recorded : list RecordedItem
}.

Definition MockServer_zero : MockServer := mkMockServer [] 0 [].

Definition has_auth (r : Request) : bool := match BasicAuth r with Some _ => true | None => false end.

Section handlers.
(** The decoder's error text, and the clock as the n-th entry is added. *)
Variable json_err : string -> string.
Variable clock : Z -> Time.

Definition handleAdd (s : MockServer) (r : Request) : MockServer * option HttpResponse :=
  match doc ← Decode (r_Body r); into_struct entry_fields doc AddressListEntry_zero with
  | None => (s, Some (http_Error ("Bad request: " +:+ json_err (r_Body r)) 400))
  | Some entry =>
      let n := wrap64 (ms_nextID s + 1) in
      let id := "*" +:+ Itoa n in
      let entry := mkAddressListEntry id (al_Address entry) (al_List entry) (al_Timeout entry) (al_Comment entry)
                     (if String.eqb (al_Disabled entry) "" then "no" else al_Disabled entry) in
      (mkMockServer (ms_entries s ++ [entry]) n
         (ms_recorded s ++ [mkRecordedItem (al_Address entry) (al_Comment entry) (al_Timeout entry)
                              (FormatRFC3339 (clock n))]),
       Some (mkHttpResponse 200 (Encode (JObject [(".id", JString id)]))))
  end.

(** The entries of a list; no name selects all. *)
Definition in_list (listName : string) (e : AddressListEntry) : bool :=
  (String.eqb listName "" || String.eqb (al_List e) listName)%bool.

Definition handleList (s : MockServer) (r : Request) : MockServer * option HttpResponse :=
  let listName := Query_Get (r_RawQuery r) "list" in
  (s, Some (mkHttpResponse 200 (Encode (JArray (entry_json <$> filter (fun e => in_list listName e = true) (ms_entries s)))))).

Definition handleAddressList (s : MockServer) (r : Request) : MockServer * option HttpResponse :=
  if negb (has_auth r) then (s, Some (http_Error "Unauthorized" 401))
  else if String.eqb (r_Method r) "PUT" then handleAdd s r
  else if String.eqb (r_Method r) "GET" then handleList s r
  else (s, Some (http_Error "Method not allowed" 405)).

(** The first entry with the id goes. *)
Fixpoint remove_id (id : string) (l : list AddressListEntry) : list AddressListEntry :=
  match l with
  | [] => []
  | e :: l' => if String.eqb (al_ID e) id then l' else e :: remove_id id l'
  end.

Definition handleDelete (s : MockServer) (r : Request) : MockServer * option HttpResponse :=
  let path := TrimPrefix (r_Path r) "/rest/ip/firewall/address-list/" in
  let id := TrimPrefix path "/" in
  if String.eqb id "" then (s, Some (http_Error "Bad request: missing ID" 400))
  else (mkMockServer (remove_id id (ms_entries s)) (ms_nextID s) (ms_recorded s), Some (mkHttpResponse 200 "")).

Definition handleAddressListByID (s : MockServer) (r : Request) : MockServer * option HttpResponse :=
  if negb (has_auth r) then (s, Some (http_Error "Unauthorized" 401))
  else if String.eqb (r_Method r) "DELETE" then handleDelete s r
  else (s, Some (http_Error "Method not allowed" 405)).

(** A nil slice is [null]. *)
Definition handleRecordedItems (s : MockServer) (r : Request) : MockServer * option HttpResponse :=
  (s, Some (mkHttpResponse 200 (Encode
     (match ms_recorded s with [] => JNull | l => JArray (recorded_json <$> l) end)))).

Definition handleReset (s : MockServer) (r : Request) : MockServer * option HttpResponse :=
  (MockServer_zero, Some (mkHttpResponse 200 (Marshal (JObject [("success", JBool true)])))).

Definition ros_mux : ServeMux MockServer :=
  [("/rest/ip/firewall/address-list", handleAddressList); ("/rest/ip/firewall/address-list/", handleAddressListByID);
   ("/recorded-items", handleRecordedItems); ("/reset", handleReset)].

(** ** The client's network *)

Definition ros_address (cfg : MikrotikConfig) : string :=
  (if mc_UseTLS cfg then "https" else "http") +:+ "://" +:+ mc_Host cfg +:+ ":" +:+ Itoa (mc_Port cfg).

Definition ros_http_do (base : string) (net : Net MockServer) (rq : HttpRequest) : Net MockServer * option HttpResponse :=
  net_Do base ros_mux net (rq_Method rq) (rq_URL rq) (Some (SetBasicAuth (rq_User rq) (rq_Password rq))) (rq_Body rq).

Definition ros_http_client (cfg : MikrotikConfig) : HTTPClient :=
  NewHTTPClient (mc_Host cfg) (mc_Port cfg) (mc_Username cfg) (mc_Password cfg) (mc_UseTLS cfg).

Definition ros_wire_client (cfg : MikrotikConfig) : MikrotikClient :=
  http_client (Net MockServer) (ros_http_do (ros_address cfg)) (ros_http_client cfg).

(** ** The composition *)

(** What the documents can carry. *)
Definition entry_ok (e : AddressListEntry) : bool :=
  (valid_utf8 (al_ID e) && valid_utf8 (al_Address e) && valid_utf8 (al_List e) && valid_utf8 (al_Timeout e) &&
   valid_utf8 (al_Comment e) && valid_utf8 (al_Disabled e))%bool.

Lemma entry_round_trip e : into_struct entry_fields (entry_json e) AddressListEntry_zero = Some e.
Proof.
  destruct e as [id addr lst tm cm ds]. unfold entry_json, omit_empty. cbn [al_ID al_Address al_List al_Timeout al_Comment al_Disabled].
  destruct (String.eqb_spec id EmptyString) as [->|_], (String.eqb_spec tm EmptyString) as [->|_],
    (String.eqb_spec cm EmptyString) as [->|_], (String.eqb_spec ds EmptyString) as [->|_]; reflexivity.
Qed.

Lemma entry_json_wf e : entry_ok e = true -> json_wf (entry_json e) = true /\ json_depth (entry_json e) = 1%N.
Proof.
  unfold entry_ok. rewrite !andb_true_iff. intros (((((H1 & H2) & H3) & H4) & H5) & H6). unfold entry_json, omit_empty.
  destruct (String.eqb _ _), (String.eqb (al_Timeout e) _), (String.eqb (al_Comment e) _), (String.eqb (al_Disabled e) _);
    (split; [cbn -[valid_utf8]; by rewrite ?H1, H2, H3, ?H4, ?H5, ?H6|reflexivity]).
Qed.

Lemma entries_json_wf l : Forall (fun e => entry_ok e = true) l ->
  json_wf (JArray (entry_json <$> l)) = true /\ (json_depth (JArray (entry_json <$> l)) <= 2)%N.
Proof.
  rewrite Forall_forall. intros Hl. split.
  - apply forallb_forall. intros x Hx. apply list_elem_of_In, list_elem_of_fmap in Hx as (e & -> & He).
    apply entry_json_wf. by apply Hl.
  - assert (foldr N.max 0 (map json_depth (entry_json <$> l)) <= 1)%N; [|cbn [json_depth]; lia]. apply fold_max_le, Forall_forall.
    intros d Hd. apply list_elem_of_fmap in Hd as (x & -> & Hx). apply list_elem_of_fmap in Hx as (e & -> & He).
    by rewrite (proj2 (entry_json_wf e (Hl e He))).
Qed.

Lemma entries_round_trip l : into_slice (into_struct entry_fields) AddressListEntry_zero (JArray (entry_json <$> l)) = Some l.
Proof.
  cbn [into_slice]. induction l as [|e l IH]; [done|]. cbn [fmap list_fmap mapM]. rewrite entry_round_trip.
  cbn [mbind option_bind]. cbn in IH. by rewrite IH.
Qed.

(** A list name that survives as a query value. *)
Definition query_plain (c : ascii) : bool :=
  (is_graph c && negb (existsb (Ascii.eqb c) ["&"; "%"; "+"; ";"; "#"]%char))%bool.

Lemma query_plain_unescape s : string_forallb query_plain s = true -> unescape true s = Some s.
Proof.
  induction s as [|c s IH]; [done|]. cbn [string_forallb unescape]. intros [Hc Hs]%andb_prop. rewrite (IH Hs).
  destruct (Ascii.eqb_spec c "%") as [->|_]; [discriminate Hc|]. cbn [mbind option_bind].
  destruct (Ascii.eqb_spec c "+") as [->|_]; [discriminate Hc|]. done.
Qed.

Lemma query_plain_free (c : ascii) s : query_plain c = false -> string_forallb query_plain s = true -> free_of c s = true.
Proof.
  intros Hc. apply string_forallb_impl. intros d Hd. destruct (Ascii.eqb_spec d c) as [->|]; [congruence|done].
Qed.

Lemma Query_Get_list s : string_forallb query_plain s = true -> Query_Get ("list=" +:+ s) "list" = s.
Proof.
  intros Hs. unfold Query_Get. rewrite Split_free_id by (cbn; by apply query_plain_free).
  cbn [omap list_omap query_pair]. unfold query_pair.
  replace (Contains ("list=" +:+ s) ";") with false.
  - unfold before_cut, after_cut. change ("list=" +:+ s) with ("list" +:+ String "=" s). rewrite Cut_app by done.
    cbn -[unescape]. rewrite query_plain_unescape by done. done.
  - symmetry. apply not_true_iff_false. intros (a & b & E)%Contains_spec.
    assert (free_of ";" ("list=" +:+ s) = true) as Hf by (cbn; by apply query_plain_free).
    rewrite E in Hf. unfold free_of in Hf. rewrite !string_forallb_app in Hf. cbn in Hf. by rewrite andb_false_r in Hf.
Qed.

Section wire.
Variable cfg : MikrotikConfig.
Hypothesis url_ok : string_forallb no_ctl (ros_address cfg) = true.

Definition list_segs : list string := ["rest"; "ip"; "firewall"; "address-list"].
Definition creds : option string := Some (SetBasicAuth (mc_Username cfg) (mc_Password cfg)).

Lemma base_url path : hc_baseURL (ros_http_client cfg) +:+ path = ros_address cfg +:+ "/rest" +:+ path.
Proof.
  unfold ros_http_client, NewHTTPClient, ros_address. cbn [hc_baseURL]. by rewrite !string_app_assoc.
Qed.

Lemma has_auth_creds method esc path query body : has_auth (mkRequest method esc path query creds body) = true.
Proof.
  unfold has_auth, BasicAuth, creds, SetBasicAuth. cbn [r_Auth mbind option_bind].
  destruct (Cut ":" (mc_Username cfg +:+ ":" +:+ mc_Password cfg)) eqn:E; [done|].
  exfalso. revert E. induction (mc_Username cfg) as [|d u IH]; cbn; [done|].
  destruct (Ascii.eqb d ":"); [done|]. by destruct (Cut ":" _) as [[]|].
Qed.

(** Requests for the collection, with an optional query. *)
Lemma list_route s method query body :
  free_of "#" (raw_query query) = true -> free_of " " (raw_query query) = true ->
  string_forallb no_ctl (raw_query query) = true ->
  http_Do (ros_address cfg) ros_mux s method (ros_address cfg +:+ "/rest/ip/firewall/address-list" +:+ url_query query) creds body =
    handleAddressList s (mkRequest method (rooted list_segs) (rooted list_segs) (raw_query query) creds body).
Proof.
  intros H1 H2 H3. change "/rest/ip/firewall/address-list" with (rooted list_segs).
  eapply (http_Do_route _ _ _ _ list_segs list_segs query); try done. by left.
Qed.

Lemma id_route s id body : url_segment id = true -> unescape false id = Some id ->
  http_Do (ros_address cfg) ros_mux s "DELETE" (ros_address cfg +:+ "/rest/ip/firewall/address-list/" +:+ id) creds body =
    handleAddressListByID s (mkRequest "DELETE" (rooted (list_segs ++ [id])) (rooted (list_segs ++ [id])) "" creds body).
Proof.
  intros Hid Hu. replace ("/rest/ip/firewall/address-list/" +:+ id) with (rooted (list_segs ++ [id]) +:+ url_query None).
  - eapply (http_Do_route _ _ _ _ (list_segs ++ [id]) (list_segs ++ [id]) None); try done.
    + cbn. by rewrite Hid.
    + cbn. by rewrite Hu.
    + right. by repeat constructor.
  - cbn [url_query]. by rewrite string_app_nil_r.
Qed.

Definition entries (net : Net MockServer) : list AddressListEntry := ms_entries (net_server net).
Definition entries_ok (net : Net MockServer) : Prop := Forall (fun e => entry_ok e = true) (entries net).

(** An addition is lost, or stores the entry at the end under a new id. *)
Lemma wire_Add net e : entries_ok net -> entry_ok e = true ->
  let '(net', r) := @cl_Add (ros_wire_client cfg) net e in
  entries_ok net' /\
  match r with
  | None => entries net' = entries net
  | Some id => entries net' = entries net ++
      [mkAddressListEntry id (al_Address e) (al_List e) (al_Timeout e) (al_Comment e)
         (if String.eqb (al_Disabled e) "" then "no" else al_Disabled e)]
  end.
Proof.
  intros Hnet He. cbn [cl_Add ros_wire_client http_client]. unfold http_Add, doRequest, ros_http_do, net_Do.
  cbn [rq_Method rq_URL rq_User rq_Password rq_Body]. destruct (default false (head (net_lost net))); [done|].
  rewrite base_url. change ("/rest" +:+ "/ip/firewall/address-list") with ("/rest/ip/firewall/address-list" +:+ url_query None).
  change (Some (SetBasicAuth (hc_username (ros_http_client cfg)) (hc_password (ros_http_client cfg)))) with creds.
  rewrite (list_route _ _ None) by done. unfold handleAddressList. rewrite has_auth_creds. cbn [negb r_Method].
  change (String.eqb "PUT" "PUT") with true. cbv iota. unfold handleAdd. cbn [r_Body].
  destruct (entry_json_wf e He) as [Hwf Hd].
  rewrite Decode_Marshal by (done || (rewrite Hd; done)). cbn [mbind option_bind]. rewrite entry_round_trip.
  set (n := wrap64 _). cbn [hr_StatusCode hr_Body]. change ((200 <? 200) || (300 <=? 200))%Z with false. cbv iota.
  assert (Hid : valid_utf8 ("*" +:+ Itoa n) = true).
  { apply graph_utf8. cbn. apply Itoa_graph. }
  rewrite Decode_Encode; [|cbn -[valid_utf8 Itoa String.append]; by rewrite Hid|done]. cbn -[Itoa String.eqb n]. split; [|done].
  apply Forall_app. split; [done|]. apply Forall_singleton. unfold entry_ok in *. cbn [al_ID al_Address al_List al_Timeout al_Comment al_Disabled].
  rewrite !andb_true_iff in He |- *. destruct He as (((((? & ?) & ?) & ?) & ?) & ?). split_and!; try done.
  by destruct (String.eqb _ _).
Qed.

(** A list request is lost, or answers the entries of the list. *)
Lemma wire_List net name : entries_ok net -> string_forallb query_plain name = true ->
  let '(net', r) := @cl_List (ros_wire_client cfg) net name in
  entries net' = entries net /\
  r = if default false (head (net_lost net)) then None else Some (filter (fun e => in_list name e = true) (entries net)).
Proof.
  intros Hnet Hname. cbn [cl_List ros_wire_client http_client]. unfold http_List, doRequest, ros_http_do, net_Do.
  cbn [rq_Method rq_URL rq_User rq_Password rq_Body]. destruct (default false (head (net_lost net))); [done|].
  rewrite base_url. change ("/rest" +:+ "/ip/firewall/address-list?list=" +:+ name) with
    ("/rest/ip/firewall/address-list" +:+ url_query (Some ("list=" +:+ name))).
  change (Some (SetBasicAuth (hc_username (ros_http_client cfg)) (hc_password (ros_http_client cfg)))) with creds.
  assert (Hctl : string_forallb no_ctl name = true).
  { eapply string_forallb_impl; [|done]. intros c Hc. unfold query_plain in Hc. apply andb_prop in Hc as [Hc _].
    unfold is_graph, no_ctl in *. rewrite andb_true_iff, negb_true_iff, !N.leb_le, N.eqb_neq in *. lia. }
  rewrite (list_route _ _ (Some _)) by (cbn; first [done | by apply query_plain_free]).
  unfold handleAddressList. rewrite has_auth_creds. cbn [negb r_Method].
  change (String.eqb "GET" "PUT") with false. change (String.eqb "GET" "GET") with true. cbv iota.
  unfold handleList. cbn [r_RawQuery raw_query]. rewrite Query_Get_list by done.
  cbn [hr_StatusCode hr_Body]. change ((200 <? 200) || (300 <=? 200))%Z with false. cbv iota.
  assert (Hf : Forall (fun e => entry_ok e = true) (filter (fun e => in_list name e = true) (ms_entries (net_server net)))).
  { unfold entries_ok, entries in Hnet. rewrite Forall_forall in Hnet |- *. intros e [_ He]%list_elem_of_filter. by apply Hnet. }
  destruct (entries_json_wf _ Hf) as [Hwf Hd]. rewrite Decode_Encode; [|done|unfold maxNestingDepth; lia].
  cbn [mbind option_bind]. rewrite entries_round_trip. done.
Qed.

(** A deletion that arrives removes the entry, and is reported as an error: the
    answer has no body. *)
Lemma wire_Delete net id : url_segment id = true -> unescape false id = Some id ->
  let '(net', r) := @cl_Delete (ros_wire_client cfg) net id in
  r = false /\ net_lost net' = tail (net_lost net) /\
  entries net' = if default false (head (net_lost net)) then entries net else remove_id id (entries net).
Proof.
  intros Hid Hu. cbn [cl_Delete ros_wire_client http_client]. unfold http_Delete, doRequest, ros_http_do, net_Do.
  cbn [rq_Method rq_URL rq_User rq_Password rq_Body]. destruct (default false (head (net_lost net))); [done|].
  rewrite base_url. change ("/rest" +:+ "/ip/firewall/address-list/" +:+ id) with ("/rest/ip/firewall/address-list/" +:+ id).
  change (Some (SetBasicAuth (hc_username (ros_http_client cfg)) (hc_password (ros_http_client cfg)))) with creds.
  rewrite id_route by done. unfold handleAddressListByID. rewrite has_auth_creds. cbn [negb r_Method].
  change (String.eqb "DELETE" "DELETE") with true. cbv iota. unfold handleDelete. cbn [r_Path].
  replace (TrimPrefix (rooted (list_segs ++ [id])) "/rest/ip/firewall/address-list/") with id
    by (symmetry; apply (TrimPrefix_app "/rest/ip/firewall/address-list/")).
  assert (Hg : good_segment id = true) by (unfold url_segment in Hid; by rewrite !andb_true_iff in Hid; destruct Hid as [[[? _] _] _]).
  assert (TrimPrefix id "/" = id /\ String.eqb id "" = false) as [-> ->].
  { unfold good_segment in Hg. rewrite !andb_true_iff, negb_true_iff in Hg. destruct Hg as [[[H1 _] _] H2]. split; [|done].
    unfold TrimPrefix. destruct (HasPrefix id "/") eqn:E; [|done]. apply HasPrefix_spec in E as [r ->]. discriminate H2. }
  done.
Qed.

(** *** A restart *)

Context {MR : MapRange} {DW : DedupWindow}.
Let exec := @MikroTikExecutor DW.

(** The entries that carry the comment of the instance, by address: the last one
    counts. *)
Definition own_step (comment name : string) (m : gmap string string) (en : AddressListEntry) : gmap string string :=
  if (in_list name en && String.eqb (al_Comment en) comment)%bool then <[al_Address en := al_ID en]> m else m.

Definition own_ids (comment name : string) (l : list AddressListEntry) : gmap string string :=
  foldl (own_step comment name) ∅ l.

Definition banned_ids (e : exec) : gmap string string := mb_id <$> mk_banned e.

Definition ids_agree (e : exec) (net : Net MockServer) : Prop :=
  mk_cfg e = cfg /\ entries_ok net /\ banned_ids e = own_ids (mk_comment e) (mc_ListName cfg) (entries net).

Hypothesis name_ok : string_forallb query_plain (mc_ListName cfg) = true.
Hypothesis comment_ok : valid_utf8 (sentinelPrefix +:+ mc_SentinelID cfg) = true.
Hypothesis permanent : mc_TTL cfg = 0%Z.

Lemma foldl_own comment name now l (b : gmap string mk_banRecord) :
  mb_id <$> foldl (fun b en => if negb (String.eqb (al_Comment en) comment) then b
    else <[al_Address en := mk_mkBanRecord (al_ID en) now]> b) b (filter (fun e => in_list name e = true) l) =
  foldl (own_step comment name) (mb_id <$> b) l.
Proof.
  revert b. induction l as [|en l IH]; intros b; [done|]. cbn [foldl]. unfold own_step at 2.
  destruct (in_list name en) eqn:Ein.
  - rewrite filter_cons_True by done. cbn [foldl]. rewrite IH. f_equal.
    destruct (String.eqb (al_Comment en) comment); cbn [negb andb]; [|done]. by rewrite fmap_insert.
  - rewrite filter_cons_False by (by rewrite Ein). by rewrite IH.
Qed.

(** The start-up sync of a fresh executor agrees with the router. *)
Lemma sync_agrees now (e : exec) net : mk_cfg e = cfg -> mk_banned e = ∅ -> entries_ok net -> head (net_lost net) <> Some true ->
  exists e' net', @mk_syncExisting DW (ros_wire_client cfg) now e net = (e', net', true) /\ ids_agree e' net' /\
    entries net' = entries net.
Proof.
  intros Hc Hb Hnet Hl. unfold mk_syncExisting. pose proof (wire_List net (mc_ListName (mk_cfg e)) Hnet) as Hw.
  rewrite Hc in Hw |- *. specialize (Hw name_ok). destruct (@cl_List (ros_wire_client cfg) net _) as [net' r]. destruct Hw as [He ->].
  replace (default false (head (net_lost net))) with false by (by destruct (net_lost net) as [|[] ?]).
  eexists _, net'. split; [done|]. split; [|done]. split; [done|]. unfold entries_ok. rewrite He. split; [done|].
  unfold banned_ids. cbn [mk_banned mk_set_banned]. rewrite foldl_own, Hb, fmap_empty. done.
Qed.

Lemma add_one_agrees now e net added ev : ids_agree e net -> valid_utf8 (te_IP ev) = true ->
  let '(e', net', _) := @mk_add_one DW (ros_wire_client cfg) now (e, net, added) ev in ids_agree e' net'.
Proof.
  intros (Hc & Hnet & Hag) Hip. unfold mk_add_one.
  assert (Hen : entry_ok (mk_entry e ev) = true).
  { unfold entry_ok, mk_entry, mk_comment. cbn [al_ID al_Address al_List al_Timeout al_Comment al_Disabled].
    rewrite Hc, permanent, Hip, comment_ok. change (durationToRouterOS 0) with "".
    rewrite (graph_utf8 (mc_ListName cfg)); [done|]. eapply string_forallb_impl; [|done]. intros c Hq.
    unfold query_plain in Hq. by apply andb_prop in Hq as [? _]. }
  pose proof (wire_Add net (mk_entry e ev) Hnet Hen) as Hw. destruct (@cl_Add (ros_wire_client cfg) net _) as [net' [id|]]; destruct Hw as [Hok He].
  - split; [done|]. split; [done|]. unfold banned_ids in *. cbn [mk_banned mk_set_banned mk_map_stats].
    change (mk_comment _) with (mk_comment e). rewrite fmap_insert, He, Hag. unfold own_ids. rewrite foldl_app.
    cbn [foldl]. unfold own_step at 2. cbn [al_List al_Comment al_Address al_ID mk_entry]. rewrite Hc.
    unfold in_list. cbn [al_List]. rewrite !String.eqb_refl, orb_true_r. done.
  - split; [done|]. split; [done|]. by rewrite He.
Qed.

Definition event_ok (ev : ThreatEvent) : Prop := valid_utf8 (te_IP ev) = true.

Lemma flush_agrees now events e net : ids_agree e net -> Forall event_ok events ->
  let '(e', net') := @mk_flush DW (ros_wire_client cfg) now events e net in ids_agree e' net'.
Proof.
  intros Hag Hev. unfold mk_flush. destruct (length events =? 0)%nat; [done|].
  set (u := filter _ events). destruct (length u =? 0)%nat; [done|].
  assert (Hu : Forall event_ok u) by (rewrite Forall_forall in Hev |- *; intros x [_ Hx]%list_elem_of_filter; by apply Hev).
  set (e1 := mk_map_stats _ e). assert (H1 : ids_agree e1 net) by done. clearbody e1. clear Hag. clearbody u.
  assert (Hfold : forall added, let '(e', net', _) := foldl (@mk_add_one DW (ros_wire_client cfg) now) (e1, net, added) u in ids_agree e' net').
  { revert e1 net H1. induction Hu as [|ev u Hv Hu IH]; intros e1 net H1 added; [done|]. cbn [foldl].
    pose proof (add_one_agrees now e1 net added ev H1 Hv) as Hs. destruct (@mk_add_one _ _ _ _ _) as [[e' net'] added']. by apply IH. }
  specialize (Hfold []). destruct (foldl _ _ _) as [[e' net'] added]. by destruct (0 <? length added)%nat.
Qed.

Definition run_agrees (r : @MikrotikRun DW (ros_wire_client cfg)) : Prop :=
  ids_agree (mr_exec r) (mr_router r) /\ Forall event_ok (mr_buffer r).

Definition input_ok (turn : Time * RunInput) : Prop :=
  match turn.2 with InEvent ev => event_ok ev | _ => True end.

Lemma sweep_permanent now e net : mk_cfg e = cfg -> @mk_sweep MR DW (ros_wire_client cfg) now e net = (e, net).
Proof. intros Hc. unfold mk_sweep. by rewrite Hc, permanent. Qed.

Lemma step_agrees turn r : input_ok turn -> run_agrees r -> run_agrees (@mk_step MR DW (ros_wire_client cfg) turn r).1.
Proof.
  destruct turn as [now i]. intros Hi [Hag Hbuf]. pose proof (fun evs => flush_agrees now evs _ _ Hag) as Hf.
  destruct i as [ev| | | |]; cbn [mk_step].
  - destruct (_ || _)%bool; [done|]. assert (Hb : Forall event_ok (mr_buffer r ++ [ev])).
    { apply Forall_app. split; [done|]. by apply Forall_singleton. }
    specialize (Hf _ Hb). destruct (_ <=? _)%Z; [|done]. destruct (@mk_flush _ _ _ _ _ _) as [e' net']. split; [done|constructor].
  - specialize (Hf _ Hbuf). destruct (_ <? _)%nat; [|done]. destruct (@mk_flush _ _ _ _ _ _) as [e' net']. split; [done|constructor].
  - rewrite sweep_permanent by apply Hag. done.
  - specialize (Hf _ Hbuf). destruct (@mk_flush _ _ _ _ _ _) as [e' net']. rewrite sweep_permanent by apply Hf. done.
  - specialize (Hf _ Hbuf). destruct (@mk_flush _ _ _ _ _ _) as [e' net']. rewrite sweep_permanent by apply Hf. done.
Qed.

End wire.

(** *** A sweep *)

Section sweep.
Variable cfg : MikrotikConfig.
Hypothesis url_ok : string_forallb no_ctl (ros_address cfg) = true.
Context {MR : MapRange} {DW : DedupWindow}.

(** An id that a URL carries as it is. *)
Definition id_ok (id : string) : Prop := url_segment id = true /\ unescape false id = Some id.

Lemma remove_id_spec id l en : NoDup (al_ID <$> l) -> en ∈ remove_id id l <-> en ∈ l /\ al_ID en <> id.
Proof.
  induction l as [|x l IH]; cbn; intros Hnd; [set_solver|]. apply NoDup_cons in Hnd as [Hx Hnd].
  destruct (String.eqb_spec (al_ID x) id) as [<-|Hne].
  - rewrite elem_of_cons. split.
    + intros Hen. split; [by right|]. intros E. apply Hx. rewrite <- E. by apply list_elem_of_fmap_2.
    + by intros [[->|] ?].
  - rewrite !elem_of_cons, IH by done. naive_solver.
Qed.

Lemma remove_id_NoDup id l : NoDup (al_ID <$> l) -> NoDup (al_ID <$> remove_id id l).
Proof.
  induction l as [|x l IH]; cbn; intros Hnd; [done|]. pose proof Hnd as Hnd0. apply NoDup_cons in Hnd as [Hx Hnd].
  destruct (String.eqb (al_ID x) id); [done|]. cbn. apply NoDup_cons. split; [|by apply IH].
  intros (y & E & Hy)%list_elem_of_fmap. apply remove_id_spec in Hy as [Hy _]; [|done]. apply Hx. rewrite E. by apply list_elem_of_fmap_2.
Qed.

Lemma deletes_stale l (e : @MikroTikExecutor DW) net ok : net_lost net = [] -> NoDup (al_ID <$> entries net) ->
  Forall (fun kv : string * mk_banRecord => id_ok (mb_id kv.2)) l ->
  exists e' net', foldl (@mk_delete_one DW (ros_wire_client cfg)) (e, net, ok) l = (e', net', ok) /\
    mk_banned e' = mk_banned e /\ mk_dedupWin e' = mk_dedupWin e /\
    forall en, en ∈ entries net' <-> en ∈ entries net /\ Forall (fun kv => al_ID en <> mb_id kv.2) l.
Proof.
  intros Hl Hnd Hids. revert e net Hl Hnd. induction Hids as [|kv l [Hu Hue] Hids IH]; intros e net Hl Hnd.
  { exists e, net. split; [done|]. split; [done|]. split; [done|]. intros en. split; [by split|by intros [? _]]. }
  cbn [foldl]. unfold mk_delete_one at 2. pose proof (wire_Delete cfg url_ok net (mb_id kv.2) Hu Hue) as Hw.
  destruct (@cl_Delete (ros_wire_client cfg) net (mb_id kv.2)) as [net1 r]. rewrite Hl in Hw. cbn in Hw. destruct Hw as (-> & Hl1 & He1).
  destruct (IH (mk_map_stats (add_errors 1) e) net1 Hl1) as (e' & net' & Hf & Hb & Hd & Hen).
  { rewrite He1. by apply remove_id_NoDup. }
  exists e', net'. split; [done|]. split; [done|]. split; [done|]. intros en. rewrite Hen, He1, remove_id_spec, Forall_cons by done. tauto.
Qed.

(** A sweep against the router's API leaves stale bans. The API answers a deletion with status 200 and no body, which the client reports as an error; so after a sweep whose requests all arrive, the router no longer holds any entry that expired, while the ban map is unchanged and every one of these addresses is still skipped as a duplicate: it is never banned again. *)
Theorem mikrotik_sweep_stale now now' (e : @MikroTikExecutor DW) net :
  mc_TTL (mk_cfg e) <> 0%Z -> net_lost net = [] -> NoDup (al_ID <$> ms_entries (net_server net)) ->
  Forall (fun kv => id_ok (mb_id kv.2)) (@mk_expired MR DW now e) ->
  let '(e', net') := @mk_sweep MR DW (ros_wire_client cfg) now e net in
  mk_banned e' = mk_banned e /\
  forall ip rec, (ip, rec) ∈ @mk_expired MR DW now e ->
    (forall en, en ∈ ms_entries (net_server net') -> al_ID en <> mb_id rec) /\ mk_isDuplicate now' e' ip = true.
Proof.
  intros Httl Hl Hnd Hids. unfold mk_sweep. destruct (Z.eqb_spec (mc_TTL (mk_cfg e)) 0) as [|_]; [done|].
  assert (Hknown : forall e' : @MikroTikExecutor DW, mk_banned e' = mk_banned e -> forall ip rec, (ip, rec) ∈ mk_expired now e ->
    mk_isDuplicate now' e' ip = true).
  { intros e' Hb ip rec Hin. unfold mk_isDuplicate, mk_known. rewrite Hb. apply list_elem_of_filter in Hin as [_ Hin].
    apply elem_of_map_range in Hin. rewrite Hin. apply orb_true_r. }
  destruct (Nat.eqb_spec (length (mk_expired now e)) 0) as [Hz|Hz].
  { apply nil_length_inv in Hz. rewrite Hz. split; [done|]. intros ip rec Hin. by apply elem_of_nil in Hin. }
  destruct (deletes_stale (mk_expired now e) e net [] Hl Hnd Hids) as (e' & net' & Hf & Hb & Hd & Hen).
  match goal with |- context [foldl ?f ?a ?l] => replace (foldl f a l) with (e', net', @nil string) by (symmetry; exact Hf) end.
  cbn [length Nat.ltb Nat.leb].
  split; [done|]. intros ip rec Hin. split; [|by eapply Hknown].
  intros en [_ Hall]%Hen. rewrite Forall_forall in Hall. by apply (Hall _ Hin).
Qed.
End sweep.
End handlers.

(** ** Witnesses *)

Definition ex_ros_cfg (ttl : Duration) : MikrotikConfig :=
  mkMikrotikConfig "router.lan" 8080 "admin" "pw" "blocked" ttl "s1" false "" false 2 (30 * second) "THREAT" 0.

Definition ex_ros_client (ttl : Duration) : MikrotikClient :=
  ros_wire_client (fun _ => "EOF") of_unix (ex_ros_cfg ttl).

Definition ex_ros_exec (ttl : Duration) (b : gmap string mk_banRecord) : @MikroTikExecutor ex_window :=
  mkMikroTikExecutor (ex_ros_cfg ttl) b (NewWindow 0) stats_zero.

(** A foreign entry and an own one are on the router; the second addition is lost. *)
Definition ex_ros_net : Net MockServer :=
  mkNet (mkMockServer [mkAddressListEntry "*1" "9.9.9.9" "blocked" "" "manual" "no";
                       mkAddressListEntry "*2" "1.1.1.1" "blocked" "" "sentinel-s1" "no"] 2 []) [false; false; true].

Definition ex_ros_turns : list (Time * RunInput) :=
  [(1%Z, InEvent (ex_mk_event "2.2.2.2")); (2%Z, InEvent (ex_mk_event "3.3.3.3")); (3%Z, InEvent (ex_mk_event "4.4.4.4"));
   (4%Z, InDone)].

Definition ex_ros_run : option (@MikrotikRun ex_window (ex_ros_client 0) * bool) :=
  @mk_Run map_range_canonical ex_window (ex_ros_client 0) 0 (ex_ros_exec 0 ∅) ex_ros_net ex_ros_turns.


Lemma mikrotik_sweep_stale_witness :
  let e := ex_ros_exec hour {["1.1.1.1" := mk_mkBanRecord "*2" 0]} in
  let net := mkNet (net_server ex_ros_net) [] in
  let '(e', net') := @mk_sweep map_range_canonical ex_window (ex_ros_client hour) (2 * hour) e net in
  mk_banned e' = mk_banned e /\
  forall ip rec, (ip, rec) ∈ @mk_expired map_range_canonical ex_window (2 * hour) e ->
    (forall en, en ∈ ms_entries (net_server net') -> al_ID en <> mb_id rec) /\ mk_isDuplicate (3 * hour) e' ip = true.
Proof.
  intros e net. apply (mikrotik_sweep_stale (fun _ => "EOF") of_unix (ex_ros_cfg hour)); try reflexivity; try discriminate.
  - apply (bool_decide_unpack _). vm_compute. exact I.
  - assert (E : @mk_expired map_range_canonical ex_window (2 * hour) e = [("1.1.1.1", mk_mkBanRecord "*2" 0)]) by (vm_compute; reflexivity).
    rewrite E. apply Forall_cons_2; [split; reflexivity|apply Forall_nil_2].
Defined.
