(* ===== verification/MockCloudflare.v ===== *)
(** * The Cloudflare mock of the integration tests (tests/integration/cf-api-mock)

    The lists API server with its handlers, and its composition with the executor's
    client: lists that are found again, batches that are stored although the client
    reports them as failed, and what a restarted executor reads back. *)

From Stdlib Require Import ZArith Lia Ascii String.
From stdpp Require Import base numbers option list sorting strings gmap fin_maps.
From S2P Require Import Prelude GoFloat GoStrings GoNet GoFmt GoValues GoTime GoJSON GoHTTP Model ExecCommon CloudflareExec.

(** ** server.go *)

Record MockItem := mkMockItem { mi_ID : string; mi_IP : string; mi_Comment : string }.

Definition item_json (i : MockItem) : JSON :=
  JObject ([("id", JString (mi_ID i)); ("ip", JString (mi_IP i))] ++ omit_empty "comment" (mi_Comment i)).

Record MockList := mkMockList { ml_ID : string; ml_Name : string; ml_Kind : string; ml_Items : list MockItem }.

Record RecordedRequest := mkRecordedRequest { rq_Method : string; rq_Path : string; rq_IPs : list string }.
Record RecordedItem := mkRecordedItem { ri_IP : string; ri_Comment : string; ri_AddedAt : string }.

(** The server with the package's record of added items. *)
Record MockServer := mkMockServer {
  ms_lists : gmap string MockList;
  ms_nextID : Z;
  ms_requests : list RecordedRequest;
  ms_recordedItems : list RecordedItem
}.

Definition newServer : MockServer := mkMockServer ∅ 1000 [] [].

Definition set_lists (l : gmap string MockList) (s : MockServer) : MockServer :=
  mkMockServer l (ms_nextID s) (ms_requests s) (ms_recordedItems s).

Definition api_json (success : bool) (errors : list cfAPIError) (result : JSON) : JSON :=
  JObject [("success", JBool success);
           ("errors", match errors with
                      | [] => JNull
                      | _ => JArray ((fun e => JObject [("code", JInt (fe_Code e)); ("message", JString (fe_Message e))]) <$> errors)
                      end);
           ("result", result)].

Definition writeSuccess (result : JSON) : option HttpResponse :=
  Some (mkHttpResponse 200 (Encode (api_json true [] result))).

Definition writeError (code : Z) (msg : string) : option HttpResponse :=
  Some (mkHttpResponse code (Encode (api_json false [mkCfAPIError code msg] (JObject [("error", JString msg)])))).

Definition list_json (l : MockList) : JSON :=
  JObject [("id", JString (ml_ID l)); ("name", JString (ml_Name l)); ("kind", JString (ml_Kind l))].

Definition create_fields : fields_of JSON (string * string) := [
  ("name", fun v b => s ← into_string v b.1; Some (s, b.2));
  ("kind", fun v b => s ← into_string v b.2; Some (b.1, s))].

Definition add_fields : fields_of JSON CFBatchItem := [
  ("ip", fun v b => s ← into_string v (bi_IP b); Some (mkCFBatchItem s (bi_Comment b)));
  ("comment", fun v b => s ← into_string v (bi_Comment b); Some (mkCFBatchItem (bi_IP b) s))].

Definition id_fields : fields_of JSON string := [("id", fun v s => into_string v s)].
Definition delete_fields : fields_of JSON (list string) :=
  [("items", fun v _ => into_slice (into_struct id_fields) "" v)].

Section handlers.
Context {MR : MapRange}.
(** The decoder's error text for a body it refuses. *)
Variable json_err : string -> string.

Definition handleListLists (s : MockServer) : MockServer * option HttpResponse :=
  (s, writeSuccess (JArray ((fun kv => list_json kv.2) <$> map_range (ms_lists s)))).

Definition handleCreateList (s : MockServer) (r : Request) (accountID : string) : MockServer * option HttpResponse :=
  match doc ← Decode (r_Body r); into_struct create_fields doc ("", "") with
  | None => (s, writeError 400 ("bad request: " +:+ json_err (r_Body r)))
  | Some (name, kind) =>
      let n := wrap64 (ms_nextID s + 1) in
      let id := "list-" +:+ Itoa n in
      (mkMockServer (<[id := mkMockList id name kind []]> (ms_lists s)) n (ms_requests s) (ms_recordedItems s),
       writeSuccess (json_map [("id", JString id); ("name", JString name); ("kind", JString kind)]))
  end.

Definition handleListItems (s : MockServer) (listID : string) : MockServer * option HttpResponse :=
  (s, writeSuccess (JArray (match ms_lists s !! listID with
        | None => []
        | Some l => (fun i => JObject [("id", JString (mi_ID i)); ("ip", JString (mi_IP i))]) <$> ml_Items l
        end))).

(** The items of a batch get consecutive ids. *)
Fixpoint number_items (n : Z) (items : list CFBatchItem) : Z * list MockItem :=
  match items with
  | [] => (n, [])
  | it :: items' =>
      let n' := wrap64 (n + 1) in
      let '(m, l) := number_items n' items' in
      (m, mkMockItem ("mock-item-" +:+ Itoa n') (bi_IP it) (bi_Comment it) :: l)
  end.

Definition handleAddItems (s : MockServer) (r : Request) (listID : string) : MockServer * option HttpResponse :=
  match doc ← Decode (r_Body r); into_slice (into_struct add_fields) (mkCFBatchItem "" "") doc with
  | None => (s, writeError 400 ("bad request: " +:+ json_err (r_Body r)))
  | Some items =>
      let l := default (mkMockList listID "" "" []) (ms_lists s !! listID) in
      let '(n, new) := number_items (ms_nextID s) items in
      (mkMockServer (<[listID := mkMockList (ml_ID l) (ml_Name l) (ml_Kind l) (ml_Items l ++ new)]> (ms_lists s)) n
         (ms_requests s) (ms_recordedItems s ++ ((fun it => mkRecordedItem (bi_IP it) (bi_Comment it) "") <$> items)),
       writeSuccess (JArray (item_json <$> new)))
  end.

Definition handleDeleteItems (s : MockServer) (r : Request) (listID : string) : MockServer * option HttpResponse :=
  match doc ← Decode (r_Body r); into_struct delete_fields doc [] with
  | None => (s, writeError 400 ("bad request: " +:+ json_err (r_Body r)))
  | Some ids =>
      (match ms_lists s !! listID with
       | None => s
       | Some l =>
           set_lists (<[listID := mkMockList (ml_ID l) (ml_Name l) (ml_Kind l)
                                    (filter (fun it => mi_ID it ∉ ids) (ml_Items l))]> (ms_lists s)) s
       end, writeSuccess (JObject [("result", JString "deleted")]))
  end.

Definition handleAccounts (s : MockServer) (r : Request) : MockServer * option HttpResponse :=
  let not_found := (s, writeError 404 "not found") in
  match Split (TrimPrefix (r_Path r) "/accounts/") "/" with
  | accountID :: rules :: lists :: rest =>
      if negb (String.eqb rules "rules" && String.eqb lists "lists")%bool then not_found
      else
        let items := match rest with [id; last] => if String.eqb last "items" then Some id else None | _ => None end in
        let method m := String.eqb (r_Method r) m in
        if method "GET" then
          match rest, items with
          | [], _ => handleListLists s
          | _, Some id => handleListItems s id
          | _, None => not_found
          end
        else if method "POST" then
          match rest, items with
          | [], _ => handleCreateList s r accountID
          | _, Some id => handleAddItems s r id
          | _, None => not_found
          end
        else if method "DELETE" then
          match items with Some id => handleDeleteItems s r id | None => not_found end
        else (s, writeError 405 "method not allowed")
  | _ => not_found
  end.

Definition recorded_json (i : RecordedItem) : JSON :=
  JObject [("ip", JString (ri_IP i)); ("comment", JString (ri_Comment i)); ("added_at", JString (ri_AddedAt i))].

Definition handleRecordedItems (s : MockServer) (r : Request) : MockServer * option HttpResponse :=
  (s, Some (mkHttpResponse 200 (Encode
     (match ms_recordedItems s with [] => JNull | l => JArray (recorded_json <$> l) end)))).

(** The id counter is not reset. *)
Definition handleReset (s : MockServer) (r : Request) : MockServer * option HttpResponse :=
  (mkMockServer ∅ (ms_nextID s) [] [], Some (mkHttpResponse 200 (Marshal (JObject [("success", JBool true)])))).

Definition cf_mux : ServeMux MockServer :=
  [("/accounts/", handleAccounts); ("/recorded-items", handleRecordedItems); ("/reset", handleReset)].

(** ** The client's network *)

Variable transport_error : string.

Definition cf_http_do (base : string) (net : Net MockServer) (method url auth : string) (body : option string)
  : Net MockServer * (string + string) :=
  let '(net', resp) := net_Do base cf_mux net method url None (match body with Some b => b | None => "" end) in
  (net', match resp with Some r => inr (hr_Body r) | None => inl transport_error end).

Context {JE : JSONErrors} {UP : UnicodePrint}.

Definition cf_wire_client (c : HTTPCFClient) : CFClient :=
  cfhttp_client (Net MockServer) (cf_http_do (hf_baseURL c)) c.

(** ** The composition *)

Section wire.
Variable c : HTTPCFClient.
Hypothesis url_ok : string_forallb no_ctl (hf_baseURL c) = true.
Hypothesis account_ok : url_segment (hf_accountID c) = true /\ unescape false (hf_accountID c) = Some (hf_accountID c).

Definition list_ok (listID : string) : Prop := url_segment listID = true /\ unescape false listID = Some listID.

Definition items_segs (listID : string) : list string := ["accounts"; hf_accountID c; "rules"; "lists"; listID; "items"].

Lemma items_route s method listID body : list_ok listID ->
  http_Do (hf_baseURL c) cf_mux s method (hf_baseURL c +:+ items_path c listID) None body =
    handleAccounts s (mkRequest method (rooted (items_segs listID)) (rooted (items_segs listID)) "" None body).
Proof.
  intros [Hl Hlu]. destruct account_ok as [Ha Hau].
  replace (items_path c listID) with (rooted (items_segs listID) +:+ url_query None).
  - eapply (http_Do_route _ _ _ _ (items_segs listID) (items_segs listID) None); try done.
    + cbn. by rewrite Ha, Hl.
    + cbn. rewrite Hau. cbn. by rewrite Hlu.
    + right. by repeat constructor.
  - unfold items_path, lists_path, rooted, items_segs. cbn [Join url_query]. by rewrite string_app_nil_r, !string_app_assoc.
Qed.

(** The path splits into the account, the list and the items. *)
Lemma items_parts listID : list_ok listID ->
  Split (TrimPrefix (rooted (items_segs listID)) "/accounts/") "/" = [hf_accountID c; "rules"; "lists"; listID; "items"].
Proof.
  intros [Hl _]. destruct account_ok as [Ha _].
  replace (TrimPrefix _ _) with (Join [hf_accountID c; "rules"; "lists"; listID; "items"] "/")
    by (symmetry; apply (TrimPrefix_app "/accounts/")).
  assert (Hfree : forall x, url_segment x = true -> free_of "/" x = true).
  { intros x. unfold url_segment, good_segment. rewrite !andb_true_iff. tauto. }
  apply (Split_Join _ "/"); [done|]. repeat (apply Forall_cons_2; [auto|]); apply Forall_nil_2.
Qed.

Lemma decode_api_success result : json_wf result = true -> (json_depth result <= 100)%N ->
  decode_api (Encode (api_json true [] result)) = inr (mkCfAPIResponse true [] (Some result)).
Proof.
  intros Hwf Hd. unfold decode_api. rewrite Decode_Encode; [done|cbn -[valid_utf8]; by rewrite Hwf|].
  cbn -[N.max]. unfold maxNestingDepth. lia.
Qed.

Definition delivered (net : Net MockServer) : Prop := head (net_lost net) <> Some true.

(** A request for the items of a list that the server answers with a result. *)
Lemma items_request net method listID body s' result : list_ok listID -> delivered net ->
  handleAccounts (net_server net) (mkRequest method (rooted (items_segs listID)) (rooted (items_segs listID)) "" None
    (match body with Some b => Marshal b | None => "" end)) = (s', writeSuccess result) ->
  json_wf result = true -> (json_depth result <= 100)%N ->
  cfhttp_doRequest (Net MockServer) (cf_http_do (hf_baseURL c)) c net method (items_path c listID) body =
    (mkNet s' (tail (net_lost net)), inr (Some result)).
Proof.
  intros Hl Hn Hh Hwf Hd. unfold cfhttp_doRequest, cf_http_do, net_Do.
  replace (default false (head (net_lost net))) with false by (unfold delivered in Hn; by destruct (net_lost net) as [|[] ?]).
  rewrite items_route by done.
  replace (match Marshal <$> body with Some b => b | None => "" end) with (match body with Some b => Marshal b | None => "" end)
    by (by destruct body).
  rewrite Hh. unfold writeSuccess. cbn [hr_Body wrap_err bind_res]. by rewrite decode_api_success.
Qed.

(** *** Documents *)

Definition batch_ok (it : CFBatchItem) : bool := (valid_utf8 (bi_IP it) && valid_utf8 (bi_Comment it))%bool.

Lemma batch_back it :
  into_struct add_fields (JObject [("comment", JString (bi_Comment it)); ("ip", JString (bi_IP it))]) (mkCFBatchItem "" "") = Some it.
Proof. by destruct it. Qed.

Lemma items_body_back items : Forall (fun it => batch_ok it = true) items ->
  (doc ← Decode (Marshal (items_body items)); into_slice (into_struct add_fields) (mkCFBatchItem "" "") doc) = Some items.
Proof.
  intros Hi. unfold items_body.
  assert (Hf : (fun it => json_map [("ip", JString (bi_IP it)); ("comment", JString (bi_Comment it))]) <$> items =
    (fun it => JObject [("comment", JString (bi_Comment it)); ("ip", JString (bi_IP it))]) <$> items) by done.
  rewrite Hf. clear Hf. rewrite Decode_Marshal.
  - cbn [mbind option_bind into_slice]. clear Hi. induction items as [|it items IH]; [done|]. cbn [fmap list_fmap mapM].
    rewrite batch_back. cbn [mbind option_bind]. cbn in IH. by rewrite IH.
  - apply forallb_forall. intros x Hx. apply list_elem_of_In, list_elem_of_fmap in Hx as (it & -> & Hit).
    rewrite Forall_forall in Hi. specialize (Hi _ Hit). unfold batch_ok in Hi. apply andb_prop in Hi as [H1 H2].
    cbn -[valid_utf8]. by rewrite H1, H2.
  - assert (foldr N.max 0 (map json_depth ((fun it => JObject [("comment", JString (bi_Comment it)); ("ip", JString (bi_IP it))]) <$> items)) <= 1)%N.
    { apply fold_max_le, Forall_forall. intros d Hd. apply list_elem_of_fmap in Hd as (x & -> & Hx).
      apply list_elem_of_fmap in Hx as (it & -> & _). done. }
    cbn [json_depth]. unfold maxNestingDepth. lia.
Qed.

Definition item_ok (i : MockItem) : bool := (valid_utf8 (mi_ID i) && valid_utf8 (mi_IP i) && valid_utf8 (mi_Comment i))%bool.

Lemma wf_of_items (f : MockItem -> JSON) l : Forall (fun i => item_ok i = true) l ->
  (forall i, item_ok i = true -> json_wf (f i) = true) -> (forall i, (json_depth (f i) <= 1)%N) ->
  json_wf (JArray (f <$> l)) = true /\ (json_depth (JArray (f <$> l)) <= 100)%N.
Proof.
  intros Hl Hwf Hd. split.
  - apply forallb_forall. intros x Hx. apply list_elem_of_In, list_elem_of_fmap in Hx as (i & -> & Hi). apply Hwf.
    rewrite Forall_forall in Hl. by apply Hl.
  - assert (foldr N.max 0 (map json_depth (f <$> l)) <= 1)%N; [|cbn [json_depth]; lia]. apply fold_max_le, Forall_forall.
    intros d Hdd. apply list_elem_of_fmap in Hdd as (x & -> & Hx). apply list_elem_of_fmap in Hx as (i & -> & _). apply Hd.
Qed.

Lemma item_json_ok i : item_ok i = true -> json_wf (item_json i) = true.
Proof.
  unfold item_ok, item_json, omit_empty. rewrite !andb_true_iff. intros [[H1 H2] H3].
  destruct (String.eqb _ _); cbn -[valid_utf8]; by rewrite ?H1, ?H2, ?H3.
Qed.

Lemma item_json_depth i : (json_depth (item_json i) <= 1)%N.
Proof. unfold item_json, omit_empty. by destruct (String.eqb _ _). Qed.

Definition short_json (i : MockItem) : JSON := JObject [("id", JString (mi_ID i)); ("ip", JString (mi_IP i))].

Lemma short_items_back l : into_slice (into_struct item_fields) (mkCfItem "" "") (JArray (short_json <$> l)) =
  Some ((fun i => mkCfItem (mi_ID i) (mi_IP i)) <$> l).
Proof.
  cbn [into_slice]. induction l as [|i l IH]; [done|]. cbn [fmap list_fmap mapM].
  assert (Hs : into_struct item_fields (short_json i) (mkCfItem "" "") = Some (mkCfItem (mi_ID i) (mi_IP i))) by done.
  rewrite Hs. cbn [mbind option_bind]. cbn in IH. by rewrite IH.
Qed.

Lemma number_items_ok n items : Forall (fun it => batch_ok it = true) items ->
  Forall (fun i => item_ok i = true) (number_items n items).2 /\
  (fun i => (mi_IP i, mi_Comment i)) <$> (number_items n items).2 = (fun it => (bi_IP it, bi_Comment it)) <$> items.
Proof.
  intros Hi. revert n. induction Hi as [|it items Hit Hi IH]; intros n; [done|]. cbn [number_items].
  specialize (IH (wrap64 (n + 1))). destruct (number_items _ _) as [m l]. destruct IH as [IH1 IH2]. cbn [snd fmap list_fmap] in *.
  split; [|by f_equal]. constructor; [|done]. unfold item_ok, batch_ok in *. cbn [mi_ID mi_IP mi_Comment].
  apply andb_prop in Hit as [-> ->]. rewrite graph_utf8; [done|]. rewrite string_forallb_app. by rewrite Itoa_graph.
Qed.

(** *** Calls *)

Definition items_of (s : MockServer) (listID : string) : list MockItem :=
  match ms_lists s !! listID with Some l => ml_Items l | None => [] end.

Definition server_ok (s : MockServer) : Prop :=
  forall listID, Forall (fun i => item_ok i = true) (items_of s listID).

(** A batch that arrives is stored at the end of the list and recorded, and the
    client reports an error: the answer is an array, not an operation. *)
Lemma wire_AddItems net listID items : list_ok listID -> delivered net -> server_ok (net_server net) ->
  Forall (fun it => batch_ok it = true) items ->
  exists net' doc, @cf_AddItems (cf_wire_client c) net listID items =
      (net', inl ("cloudflare: add items: parse operation_id: " +:+ type_error doc "cloudflare.cfBulkOpResponse")) /\
    server_ok (net_server net') /\ net_lost net' = tail (net_lost net) /\
    (fun i => (mi_IP i, mi_Comment i)) <$> items_of (net_server net') listID =
      ((fun i => (mi_IP i, mi_Comment i)) <$> items_of (net_server net) listID) ++ ((fun it => (bi_IP it, bi_Comment it)) <$> items).
Proof.
  intros Hl Hn Hs Hi. destruct (number_items_ok (ms_nextID (net_server net)) items Hi) as [Hnew Hval].
  destruct (number_items (ms_nextID (net_server net)) items) as [n new] eqn:En. cbn [snd] in *.
  destruct (wf_of_items item_json new Hnew item_json_ok item_json_depth) as [Hwf Hd].
  set (l := default (mkMockList listID "" "" []) (ms_lists (net_server net) !! listID)).
  eexists (mkNet (mkMockServer (<[listID := mkMockList (ml_ID l) (ml_Name l) (ml_Kind l) (ml_Items l ++ new)]>
    (ms_lists (net_server net))) n (ms_requests (net_server net)) (ms_recordedItems (net_server net) ++
      ((fun it => mkRecordedItem (bi_IP it) (bi_Comment it) "") <$> items))) (tail (net_lost net))), (JArray (item_json <$> new)).
  assert (Hlist : ml_Items l = items_of (net_server net) listID).
  { unfold l, items_of. by destruct (ms_lists (net_server net) !! listID). }
  split; [|split; [|split; [done|]]].
  - cbn [cf_AddItems cf_wire_client cfhttp_client]. unfold cfhttp_AddItems.
    erewrite items_request; [|done|done| |exact Hwf|exact Hd]; [reflexivity|].
    unfold handleAccounts. cbn [r_Path]. rewrite items_parts by done. cbn -[handleAddItems Marshal items_body].
    unfold handleAddItems. cbn [r_Body]. rewrite items_body_back, En by done. done.
  - intros id. unfold items_of. cbn [ms_lists net_server]. destruct (decide (id = listID)) as [->|Hne].
    + rewrite lookup_insert_eq. cbn. apply Forall_app. split; [|done]. rewrite Hlist. apply Hs.
    + rewrite lookup_insert_ne by done. apply (Hs id).
  - unfold items_of at 1. cbn [ms_lists net_server]. rewrite lookup_insert_eq. cbn [ml_Items].
    by rewrite fmap_app, Hlist, Hval.
Qed.

(** What a client reads back from a list. *)
Lemma wire_GetAllItems net listID : list_ok listID -> delivered net -> server_ok (net_server net) ->
  @cf_GetAllItems (cf_wire_client c) net listID =
    (mkNet (net_server net) (tail (net_lost net)),
     inr ((fun i => mkCFItem (mi_ID i) (mi_IP i) "") <$> items_of (net_server net) listID)).
Proof.
  intros Hl Hn Hs. destruct (wf_of_items short_json _ (Hs listID)) as [Hwf Hd].
  { intros i. unfold item_ok, short_json. rewrite !andb_true_iff. intros [[H1 H2] _]. cbn -[valid_utf8]. by rewrite H1, H2. }
  { done. }
  cbn [cf_GetAllItems cf_wire_client cfhttp_client]. unfold cfhttp_GetAllItems.
  erewrite items_request; [|done|done| |exact Hwf|exact Hd].
  - cbn [wrap_err bind_res]. unfold decode_items, decode_raw, json_result. rewrite short_items_back. cbn [wrap_err bind_res].
    by rewrite <- list_fmap_compose.
  - unfold handleAccounts. cbn [r_Path]. rewrite items_parts by done. cbn -[handleListItems]. unfold handleListItems.
    unfold items_of, short_json. by destruct (ms_lists (net_server net) !! listID).
Qed.

(** *** A flush *)

Context {DW : DedupWindow}.

(** C40: what a flush does against the lists API server. The server answers a batch with an array where the client expects an operation id, so a flush that arrives stores every address of the batch with its comment at the end of the list, once, and yet counts all of them as errors and records none of them as executed; an executor that starts afterwards reads exactly the addresses of the list. *)
Theorem cloudflare_wire_flush now now2 env events (e e2 : @CloudflareExecutor DW) net :
  events <> [] -> cx_pendingOpID e = "" -> list_ok (cx_listID e) -> net_lost net = [] -> server_ok (net_server net) ->
  Forall (fun ev => valid_utf8 (te_IP ev) = true) events -> valid_utf8 (buildComment e) = true ->
  (forall doc, Contains ("cloudflare: add items: parse operation_id: " +:+ type_error doc "cloudflare.cfBulkOpResponse") "429" = false) ->
  cx_listID e2 = cx_listID e -> cx_banned e2 = ∅ ->
  exists net', @cx_flush DW (cf_wire_client c) now env events e net =
      (cx_map_stats (add_errors (Z.of_nat (length events))) e, net') /\
    (fun i => (mi_IP i, mi_Comment i)) <$> items_of (net_server net') (cx_listID e) =
      ((fun i => (mi_IP i, mi_Comment i)) <$> items_of (net_server net) (cx_listID e)) ++
      ((fun ev => (te_IP ev, buildComment e)) <$> events) /\
    exists e2' net2, @cx_syncExisting DW (cf_wire_client c) now2 e2 net' = (e2', net2, true) /\
      dom (cx_banned e2') = list_to_set (mi_IP <$> items_of (net_server net') (cx_listID e)).
Proof.
  intros Hne Hop Hl Hlost Hs Hev Hcom Herr Hl2 Hb2. unfold cx_flush, waitForPendingOp. rewrite Hop. cbn [is_empty String.eqb].
  destruct (Nat.eqb_spec (length events) 0) as [Hz|_]; [by apply nil_length_inv in Hz|]. cbn [negb].
  set (items := (fun ev => mkCFBatchItem (te_IP ev) (buildComment e)) <$> events).
  assert (Hi : Forall (fun it => batch_ok it = true) items).
  { rewrite Forall_forall in Hev. apply Forall_forall. intros it (ev & -> & Hin)%list_elem_of_fmap. unfold batch_ok. cbn [bi_IP bi_Comment].
    by rewrite (Hev _ Hin), Hcom. }
  assert (Hdel : delivered net) by (unfold delivered; by rewrite Hlost).
  destruct (wire_AddItems net (cx_listID e) items Hl Hdel Hs Hi) as (net' & doc & Hadd & Hs' & Hlost' & Hitems).
  exists net'. rewrite Hlost in Hlost'.
  assert (Hretry : @doWithRetry (cf_wire_client c) env (fun w => cf_AddItems w (cx_listID e) items) net =
    (net', inl ("cloudflare: add items: parse operation_id: " +:+ type_error doc "cloudflare.cfBulkOpResponse"))).
  { unfold doWithRetry, max429Retries. cbn [retry_loop]. rewrite Hadd. by rewrite Herr. }
  split; [by rewrite Hretry|]. split.
  { rewrite Hitems. f_equal. unfold items. by rewrite <- list_fmap_compose. }
  assert (Hdel' : delivered net') by (unfold delivered; by rewrite Hlost').
  unfold cx_syncExisting. rewrite Hl2, (wire_GetAllItems net' _ Hl Hdel' Hs').
  eexists _, _. split; [reflexivity|]. cbn [cx_banned cx_set_banned]. rewrite Hb2.
  generalize (items_of (net_server net') (cx_listID e)). intros l.
  assert (Hdom : forall b : gmap string cf_banRecord, dom (foldl (fun b it => <[ci_IP it := mkCfBanRecord (ci_ID it) now2 false]> b) b
    ((fun i => mkCFItem (mi_ID i) (mi_IP i) "") <$> l)) = dom b ∪ list_to_set (mi_IP <$> l)).
  { induction l as [|i l IH]; intros b; [set_solver|]. cbn [fmap list_fmap foldl]. rewrite IH. cbn [ci_IP list_to_set]. set_solver. }
  rewrite Hdom. set_solver.
Qed.
End wire.
End handlers.

(** ** Witness *)

Definition ex_json_errors : JSONErrors :=
  {| syntax_error := fun _ => "unexpected end of JSON input";
     type_error := fun _ t => "json: cannot unmarshal array into Go value of type " +:+ t |}.

Definition ex_cf_print : UnicodePrint := {| unicode_print := fun _ => true |}.

Definition ex_cf_client : HTTPCFClient := NewHTTPCFClientWithBaseURL "acc1" "tok" "http://cf.lan:8091".

Definition ex_cf_wire : CFClient :=
  @cf_wire_client map_range_canonical (fun _ => "EOF") "connection refused" ex_json_errors ex_cf_print ex_cf_client.

Definition ex_cf_started : @CloudflareExecutor ex_window :=
  mkCloudflareExecutor (mkCFConfig "tok" "acc1" "bans" "THREAT" hour 0 0 2 (10 * second) "" "prod" "")
    "list-1001" "host1" ∅ stats_zero "" 0 (NewWindow 0).

Definition ex_cf_net : Net MockServer :=
  mkNet (set_lists {["list-1001" := mkMockList "list-1001" "bans" "ip" [mkMockItem "mock-item-1002" "1.1.1.1" ""]]} newServer) [].

Definition ex_cf_events : list ThreatEvent :=
  (fun ip => mkThreatEvent 0 "THREAT" "s" "src" "file" ip 90 [] "probe" "") <$> ["2.2.2.2"; "3.3.3.3"].

Lemma cloudflare_wire_flush_witness :
  exists net', @cx_flush ex_window ex_cf_wire 1 ex_cf_env ex_cf_events ex_cf_started ex_cf_net =
      (cx_map_stats (add_errors 2) ex_cf_started, net') /\
    (fun i => (mi_IP i, mi_Comment i)) <$> items_of (net_server net') "list-1001" =
      [("1.1.1.1", ""); ("2.2.2.2", "sentinel-host1 prod"); ("3.3.3.3", "sentinel-host1 prod")] /\
    exists e2' net2, @cx_syncExisting ex_window ex_cf_wire 2 ex_cf_started net' = (e2', net2, true) /\
      dom (cx_banned e2') = list_to_set (mi_IP <$> items_of (net_server net') "list-1001").
Proof.
  apply (@cloudflare_wire_flush map_range_canonical (fun _ => "EOF") "connection refused" ex_json_errors ex_cf_print ex_cf_client
    eq_refl (conj eq_refl eq_refl) ex_window 1 2 ex_cf_env ex_cf_events ex_cf_started ex_cf_started ex_cf_net);
    try reflexivity; try discriminate; try done.
  - intros id. unfold items_of. cbn [ms_lists set_lists net_server ex_cf_net].
    destruct (decide (id = "list-1001")) as [->|Hne].
    + rewrite lookup_singleton_eq. apply Forall_cons_2; [reflexivity|apply Forall_nil_2].
    + rewrite lookup_singleton_ne by done. apply Forall_nil_2.
  - do 2 (apply Forall_cons_2; [reflexivity|]). apply Forall_nil_2.
Defined.
