(* ===== verification/Waf.v ===== *)
(** * The WAF processor (pkg/processorplugins/waf)

    Rules are split by action into a whitelist and a threat set at construction
    time and evaluated whitelist first.  The rule language itself belongs to the
    core module: a rule set is an abstract type with the operations the plugin
    calls. *)

From Stdlib Require Import ZArith Lia Ascii String.
From stdpp Require Import base numbers option list strings gmap fin_maps.
From S2P Require Import Prelude GoFloat GoStrings GoNet Model ExecCommon.

(** ** Events *)

Record Envelope := mkEnvelope {
  env_Source : string;
  env_SourceType : string;
  env_Stream : string;
  env_Level : string;
  env_Timestamp : Time
}.

Inductive Payload :=
  | PLogEntry (e : LogEntry)
  | PThreat (t : ThreatEvent)
  | POpaque.

Record Event := mkEvent {
  ev_Envelope : Envelope;
  ev_Payload : Payload
}.

Definition set_Level (ev : Event) (l : string) : Event :=
  let e := ev_Envelope ev in
  mkEvent (mkEnvelope (env_Source e) (env_SourceType e) (env_Stream e) l (env_Timestamp e))
    (ev_Payload ev).

(** ** resolver.go *)

(** [rule.Value]. *)
Inductive RuleValue :=
  | VString (s : string)
  | VInt (z : Z)
  | VIP (ip : Z).

Definition httpPrefix : string := "http.".

Definition toIPValue (s : string) : option RuleValue :=
  if String.eqb s EmptyString then None
  else if Contains s "/" then None
  else VIP <$> ParseIP s.

Definition resolveHTTP (name : string) (entry : LogEntry) : option RuleValue :=
  if String.eqb name "method" then Some (VString (le_Method entry))
  else if String.eqb name "path" then Some (VString (le_Path entry))
  else if String.eqb name "query" then Some (VString (le_Query entry))
  else if String.eqb name "raw_uri" then Some (VString (le_RawURI entry))
  else if String.eqb name "status" then Some (VInt (le_Status entry))
  else if String.eqb name "bytes_sent" then Some (VInt (le_BytesSent entry))
  else if String.eqb name "referer" then Some (VString (le_Referer entry))
  else if String.eqb name "user_agent" then Some (VString (le_UserAgent entry))
  else if String.eqb name "remote_addr" then toIPValue (le_RemoteAddr entry)
  else if String.eqb name "real_ip" then toIPValue (le_RealIP entry)
  else if String.eqb name "protocol" then Some (VString (le_Protocol entry))
  else if String.eqb name "remote_user" then Some (VString (le_RemoteUser entry))
  else None.

Definition HttpResolver_Resolve (field : string) (event : option Event) : option RuleValue :=
  match event with
  | None => None
  | Some ev =>
      if negb (HasPrefix field httpPrefix) then None
      else
        let rest := TrimPrefix field httpPrefix in
        match ev_Payload ev with
        | PLogEntry e => resolveHTTP rest e
        | PThreat t => if String.eqb rest "real_ip" then toIPValue (te_IP t) else None
        | POpaque => None
        end
  end.

(** ** manifest.go *)

Inductive FieldType := TypeString | TypeInt | TypeIP | TypeTimestamp.

Definition waf_Produces : list (string * FieldType) := [
  ("method", TypeString); ("path", TypeString); ("query", TypeString); ("raw_uri", TypeString);
  ("status", TypeInt); ("bytes_sent", TypeInt); ("referer", TypeString); ("user_agent", TypeString);
  ("remote_addr", TypeIP); ("real_ip", TypeIP); ("protocol", TypeString); ("remote_user", TypeString)
]%string.

(** ** The scheme of the rule language *)

(** [rule.Catalog] of the core module: registration of a field in a name space, and
    the projection to name spaces. *)
Class RuleCatalog := {
  Catalog : Type;
  Scheme : Type;
  NewCatalog : Catalog;
  cat_Register : Catalog -> string -> string -> FieldType -> string + Catalog;
  cat_Project : Catalog -> list string -> Scheme
}.

Section scheme.
Context `{RuleCatalog}.

Definition core_fields : list (string * FieldType) := [
  ("timestamp", TypeTimestamp); ("stream", TypeString); ("source", TypeString); ("source_type", TypeString);
  ("level", TypeString)
]%string.

Fixpoint register_fields (ns : string) (fields : list (string * FieldType)) (cat : Catalog) : string + Catalog :=
  match fields with
  | [] => inr cat
  | (name, t) :: rest =>
      match cat_Register cat ns name t with
      | inl e => inl ("waf: register " +:+ ns +:+ "." +:+ name +:+ ": " +:+ e)
      | inr cat' => register_fields ns rest cat'
      end
  end.

(** The text of the error about the plugin's identity is left out. *)
Definition BuildScheme (pluginID : string) (produces : list (string * FieldType)) : option string + Scheme :=
  if negb (String.eqb pluginID "waf") then inl None
  else match register_fields "core" core_fields NewCatalog with
       | inl e => inl (Some e)
       | inr cat =>
           match register_fields "http" produces cat with
           | inl e => inl (Some e)
           | inr cat' => inr (cat_Project cat' ["http"; "core"])
           end
       end.
End scheme.

(** ** The rule engine (core module)

    A rule set holds named rules; adding one compiles its expression; a match is
    the name of one of its rules. *)
Class RuleEngine := {
  RuleSet : Type;
  rs_build : list (string * FieldType) -> option RuleSet;
  rs_Add : RuleSet -> string -> string -> option RuleSet;
  rs_Rules : RuleSet -> list string;
  rs_Match : RuleSet -> (string -> option RuleValue) -> option string;
  envelope_Resolve : string -> Event -> option RuleValue;
  rs_build_empty fs rs : rs_build fs = Some rs -> rs_Rules rs = [];
  rs_Add_names rs n e rs' m : rs_Add rs n e = Some rs' -> m ∈ rs_Rules rs' -> m ∈ rs_Rules rs \/ m = n;
  rs_Match_names rs f n : rs_Match rs f = Some n -> n ∈ rs_Rules rs
}.

Section waf.
Context {RE : RuleEngine} {UL : UnicodeLower}.

Definition chained_Resolve (field : string) (event : Event) : option RuleValue :=
  match envelope_Resolve field event with
  | Some v => Some v
  | None => HttpResolver_Resolve field (Some event)
  end.

(** ** ruleset.go *)

Definition ActionDrop : string := "drop".
Definition ActionTag : string := "tag".
Definition ActionPass : string := "pass".

Record RuleConfig := mkRuleConfig {
  rc_Name : string;
  rc_Expression : string;
  rc_Action : string
}.

(** The score sink: address, delta and the state it writes to. *)
Record WafConfig (T : Type) := mkWafConfig {
  wc_Rules : list RuleConfig;
  wc_DropScore : Z;
  wc_TagWeights : gmap string Z;
  wc_ScoreFn : option (Time -> string -> Z -> T -> T)
}.
Arguments wc_Rules {T}.
Arguments wc_DropScore {T}.
Arguments wc_TagWeights {T}.
Arguments wc_ScoreFn {T}.
Arguments mkWafConfig {T}.

Inductive actionBucket := actionBucketPass | actionBucketGate.

Definition normalise_action (action : string) : string := ToLower (TrimSpace action).

Definition classifyAction (action : string) : option (actionBucket * string) :=
  let normalised := normalise_action action in
  if String.eqb normalised EmptyString then Some (actionBucketGate, ActionDrop)
  else if String.eqb normalised ActionPass then Some (actionBucketPass, ActionPass)
  else if String.eqb normalised ActionDrop then Some (actionBucketGate, ActionDrop)
  else if (String.eqb normalised ActionTag || HasPrefix normalised "tag:")%bool
  then Some (actionBucketGate, normalised)
  else None.

Definition buildRuleSet (rules : list (string * string)) : option RuleSet :=
  rs ← rs_build waf_Produces;
  foldl (fun acc ne => rs ← acc; rs_Add rs ne.1 ne.2) (Some rs) rules.

(** The rules routed to each set, with the actions of the gate rules. *)
Record Buckets := mkBuckets {
  bk_pass : list (string * string);
  bk_gate : list (string * string);
  bk_actions : gmap string string
}.

Definition route_rule (acc : option Buckets) (rc : RuleConfig) : option Buckets :=
  b ← acc;
  if String.eqb (rc_Name rc) EmptyString then None
  else if String.eqb (rc_Expression rc) EmptyString then None
  else match classifyAction (rc_Action rc) with
       | None => None
       | Some (actionBucketPass, _) =>
           Some (mkBuckets (bk_pass b ++ [(rc_Name rc, rc_Expression rc)]) (bk_gate b) (bk_actions b))
       | Some (actionBucketGate, a) =>
           Some (mkBuckets (bk_pass b) (bk_gate b ++ [(rc_Name rc, rc_Expression rc)])
                   (<[rc_Name rc := a]> (bk_actions b)))
       end.

Definition NewRuleSetFromConfig (rules : list RuleConfig)
  : option (RuleSet * RuleSet * gmap string string) :=
  b ← foldl route_rule (Some (mkBuckets [] [] ∅)) rules;
  passRS ← buildRuleSet (bk_pass b);
  gateRS ← buildRuleSet (bk_gate b);
  Some (passRS, gateRS, bk_actions b).

(** ** processor.go *)

Section processor.
Context {T : Type}.

Record WafProcessor := mkWafProcessor {
  wp_passRules : RuleSet;
  wp_gateRules : RuleSet;
  wp_actions : gmap string string;
  wp_scoreFn : option (Time -> string -> Z -> T -> T);
  wp_dropScore : Z;
  wp_tagWeights : gmap string Z
}.

Definition NewWafProcessor (cfg : WafConfig T) : option WafProcessor :=
  if (length (wc_Rules cfg) =? 0)%nat then None
  else
    '(passRS, gateRS, actions) ← NewRuleSetFromConfig (wc_Rules cfg);
    Some (mkWafProcessor passRS gateRS actions (wc_ScoreFn cfg) (wc_DropScore cfg) (wc_TagWeights cfg)).

(** ** register.go *)

(** The dynamic values of [ProcessorConfig.Params]. *)
Inductive WafParam :=
  | ParamConfig (c : WafConfig T)
  | ParamInt (z : Z)
  | ParamWeights (m : gmap string Z)
  | ParamOther.

Definition ParamKeyConfig : string := "waf_config".

Definition waf_factory (params : gmap string WafParam) : option WafProcessor :=
  match params !! ParamKeyConfig with
  | Some (ParamConfig wc) =>
      let ds := match params !! "waf_drop_score" with Some (ParamInt ds) => ds | _ => wc_DropScore wc end in
      let tw := match params !! "waf_tag_weights" with Some (ParamWeights tw) => tw | _ => wc_TagWeights wc end in
      NewWafProcessor (mkWafConfig (wc_Rules wc) ds tw (wc_ScoreFn wc))
  | _ => None
  end.

Definition clientIP (event : Event) : string :=
  match ev_Payload event with
  | PLogEntry le => if negb (String.eqb (le_RealIP le) EmptyString) then le_RealIP le else le_RemoteAddr le
  | _ => EmptyString
  end.

(** The score signal of a rule that fired. *)
Definition waf_signal (now : Time) (p : WafProcessor) (event : Event) (delta : Z) (t : T) : T :=
  match wp_scoreFn p with
  | None => t
  | Some fn =>
      if (0 <? delta)%Z then
        if String.eqb (clientIP event) EmptyString then t else fn now (clientIP event) delta t
      else t
  end.

Inductive WafVerdict :=
  | WafCancelled
  | WafDrop
  | WafPass (event : Event).

Definition waf_Process (now : Time) (cancelled : bool) (p : WafProcessor) (event : Event) (t : T)
  : WafVerdict * T :=
  if cancelled then (WafCancelled, t)
  else
    let resolver := fun field => chained_Resolve field event in
    let whitelisted :=
      if (0 <? length (rs_Rules (wp_passRules p)))%nat
      then match rs_Match (wp_passRules p) resolver with Some _ => true | None => false end
      else false in
    if whitelisted : bool then (WafPass event, t)
    else match rs_Match (wp_gateRules p) resolver with
         | None => (WafPass event, t)
         | Some name =>
             let action := default EmptyString (wp_actions p !! name) in
             if String.eqb action ActionDrop then (WafDrop, waf_signal now p event (wp_dropScore p) t)
             else if String.eqb action ActionTag then (WafPass (set_Level event ("THREAT:" +:+ name)), t)
             else if HasPrefix action "tag:" then
               let label := TrimPrefix action "tag:" in
               (WafPass (set_Level event ("THREAT:" +:+ name +:+ ":" +:+ label)),
                waf_signal now p event (default 0%Z (wp_tagWeights p !! label)) t)
             else (WafDrop, t)
         end.

(** ** The rules a match comes from *)

(** [rc] is a configured gate rule named [n] with normalised action [a]. *)
Definition gate_rule (rules : list RuleConfig) (n a : string) : Prop :=
  exists rc, rc ∈ rules /\ rc_Name rc = n /\ classifyAction (rc_Action rc) = Some (actionBucketGate, a).

Lemma route_none rules : foldl route_rule None rules = None.
Proof. induction rules as [|rc rules IH]; [done|exact IH]. Qed.

(** Every rule of the gate set has an action, the one of a configured rule. *)
Definition buckets_ok (all : list RuleConfig) (b : Buckets) : Prop :=
  forall n, n ∈ (bk_gate b).*1 -> exists a, bk_actions b !! n = Some a /\ gate_rule all n a.

Lemma route_rule_ok all rc b b' : rc ∈ all -> buckets_ok all b ->
  route_rule (Some b) rc = Some b' -> buckets_ok all b'.
Proof.
  intros Hin Hok. unfold route_rule. cbn [mbind option_bind].
  do 2 (destruct (String.eqb _ _); [done|]).
  destruct (classifyAction (rc_Action rc)) as [[[] a]|] eqn:Ec; [|intros [= <-] n|done].
  { intros [= <-]. exact Hok. }
  cbn [bk_gate bk_actions]. rewrite fmap_app, elem_of_app. cbn [fmap list_fmap fst].
  rewrite list_elem_of_singleton. intros Hn. destruct (decide (n = rc_Name rc)) as [->|Hne].
  - exists a. rewrite lookup_insert_eq. split; [done|]. by exists rc.
  - rewrite lookup_insert_ne by done. apply Hok. naive_solver.
Qed.

Lemma route_rules_ok all rules b0 b : (forall rc, rc ∈ rules -> rc ∈ all) -> buckets_ok all b0 ->
  foldl route_rule (Some b0) rules = Some b -> buckets_ok all b.
Proof.
  revert b0. induction rules as [|rc rules IH]; intros b0 Hsub Hok Hf; [by injection Hf as <-|].
  cbn [foldl] in Hf. destruct (route_rule (Some b0) rc) as [b1|] eqn:Er; [|by rewrite route_none in Hf].
  apply (IH b1); [set_solver| |done]. apply (route_rule_ok all rc b0); [set_solver|done|done].
Qed.

Lemma buildRuleSet_names rules rs n : buildRuleSet rules = Some rs -> n ∈ rs_Rules rs -> n ∈ rules.*1.
Proof.
  unfold buildRuleSet. destruct (rs_build waf_Produces) as [rs0|] eqn:Eb; [|done]. cbn [mbind option_bind].
  assert (H0 : forall m, m ∈ rs_Rules rs0 -> m ∈ (@nil (string * string)).*1)
    by (intros m; by rewrite (rs_build_empty _ _ Eb)).
  clear Eb. revert rs0 H0. change rules with ([] ++ rules) at 2.
  generalize (@nil (string * string)) as seen. induction rules as [|[m e] rules IH]; intros seen rs0 H0.
  - cbn. intros [= <-] Hn. rewrite app_nil_r. by apply H0.
  - cbn [foldl mbind option_bind fst snd]. destruct (rs_Add rs0 m e) as [rs1|] eqn:Ea.
    + intros Hf Hn. replace (seen ++ (m, e) :: rules) with ((seen ++ [(m, e)]) ++ rules)
        by by rewrite <- app_assoc.
      apply (IH _ rs1); [|done|done]. intros x Hx. rewrite fmap_app, elem_of_app.
      destruct (rs_Add_names _ _ _ _ _ Ea Hx) as [Hx'|Hx']; [left; by apply H0|subst x; right; by left].
    + intros Hf. exfalso. clear -Hf. induction rules; [done|]. by apply IHrules.
Qed.

Lemma NewWafProcessor_actions cfg p n : NewWafProcessor cfg = Some p -> n ∈ rs_Rules (wp_gateRules p) ->
  exists a, wp_actions p !! n = Some a /\ gate_rule (wc_Rules cfg) n a.
Proof.
  unfold NewWafProcessor, NewRuleSetFromConfig. destruct (_ =? _)%nat; [done|].
  destruct (foldl route_rule _ _) as [b|] eqn:Er; [|done]. cbn [mbind option_bind].
  destruct (buildRuleSet (bk_pass b)) as [passRS|]; [|done]. cbn [mbind option_bind].
  destruct (buildRuleSet (bk_gate b)) as [gateRS|] eqn:Eg; [|done]. cbn [mbind option_bind].
  intros [= <-] Hn. cbn in *. apply (buildRuleSet_names _ _ _ Eg) in Hn.
  refine (route_rules_ok (wc_Rules cfg) (wc_Rules cfg) _ b _ _ Er n Hn); [done|].
  intros m Hm. by apply elem_of_nil in Hm.
Qed.

Lemma gate_action_cases action a : classifyAction action = Some (actionBucketGate, a) ->
  a = ActionDrop \/ a = ActionTag \/ exists label, a = "tag:" +:+ label.
Proof.
  unfold classifyAction. cbv zeta.
  destruct (String.eqb _ EmptyString); [intros [= <-]; by left|].
  destruct (String.eqb _ ActionPass); [done|].
  destruct (String.eqb _ ActionDrop); [intros [= <-]; by left|].
  destruct (String.eqb_spec (normalise_action action) ActionTag) as [He|_].
  { cbn. intros [= <-]. right. left. exact He. }
  cbn [orb]. destruct (HasPrefix _ _) eqn:Hp; [|done]. intros [= <-].
  apply HasPrefix_spec in Hp as [r Hr]. right. right. by exists r.
Qed.

(** The verdict of the whitelist. *)
Definition waf_whitelisted (p : WafProcessor) (ev : Event) : bool :=
  match rs_Match (wp_passRules p) (fun f => chained_Resolve f ev) with Some _ => true | None => false end.

Definition waf_gate_match (p : WafProcessor) (ev : Event) : option string :=
  rs_Match (wp_gateRules p) (fun f => chained_Resolve f ev).

(** C18: the dispatch of a WAF processor built from a configuration is exact and
    its fail-closed default is never taken: an event is dropped only when no pass
    rule matches and the matching gate rule is configured with the drop action
    (or none), with the drop score signalled; it is changed only by a matching
    tag rule, whose name and label end up in the level; a whitelisted event
    passes unchanged and sends no score. *)
Theorem waf_dispatch_exact cfg p now ev t : NewWafProcessor cfg = Some p ->
  match waf_Process now false p ev t with
  | (WafCancelled, _) => False
  | (WafDrop, t') =>
      waf_whitelisted p ev = false /\
      exists n, waf_gate_match p ev = Some n /\ gate_rule (wc_Rules cfg) n ActionDrop /\
        t' = waf_signal now p ev (wp_dropScore p) t
  | (WafPass ev', t') =>
      ((waf_whitelisted p ev = true \/ waf_gate_match p ev = None) /\ ev' = ev /\ t' = t) \/
      waf_whitelisted p ev = false /\ exists n, waf_gate_match p ev = Some n /\
        (gate_rule (wc_Rules cfg) n ActionTag /\ ev' = set_Level ev ("THREAT:" +:+ n) /\ t' = t \/
         exists label, gate_rule (wc_Rules cfg) n ("tag:" +:+ label) /\
           ev' = set_Level ev ("THREAT:" +:+ n +:+ ":" +:+ label) /\
           t' = waf_signal now p ev (default 0%Z (wp_tagWeights p !! label)) t)
  end.
Proof.
  intros Hp. unfold waf_Process. cbv zeta.
  replace (if (0 <? length (rs_Rules (wp_passRules p)))%nat
           then match rs_Match (wp_passRules p) (fun field => chained_Resolve field ev) with
                | Some _ => true | None => false end else false) with (waf_whitelisted p ev).
  2:{ unfold waf_whitelisted. destruct (rs_Match (wp_passRules p) _) as [m|] eqn:Em; [|by destruct (_ <? _)%nat].
      apply rs_Match_names in Em. destruct (rs_Rules (wp_passRules p)); [by apply elem_of_nil in Em|done]. }
  destruct (waf_whitelisted p ev) eqn:Ew; [left; auto|].
  change (rs_Match (wp_gateRules p) (fun field => chained_Resolve field ev)) with (waf_gate_match p ev).
  destruct (waf_gate_match p ev) as [n|] eqn:Em; [|left; auto].
  destruct (NewWafProcessor_actions cfg p n Hp) as (a & -> & Hr); [by apply rs_Match_names in Em|].
  cbn [default from_option id]. pose proof Hr as (rc & _ & _ & Hc).
  destruct (gate_action_cases _ _ Hc) as [->|[->|[label ->]]]; cbn [String.eqb].
  - split; [done|]. by exists n.
  - right. split; [done|]. exists n. split; [done|]. left. done.
  - replace (String.eqb ("tag:" +:+ label) ActionDrop) with false by done.
    replace (String.eqb ("tag:" +:+ label) ActionTag) with false by done.
    assert (HasPrefix ("tag:" +:+ label) "tag:" = true) as -> by (apply HasPrefix_spec; by eexists).
    rewrite TrimPrefix_app. right. split; [done|]. exists n. split; [done|]. right. by exists label.
Qed.

End processor.
End waf.
Arguments WafProcessor {RE} T.
Arguments mkWafConfig {T}.
Arguments wc_Rules {T}.
Arguments wc_DropScore {T}.
Arguments wc_TagWeights {T}.
Arguments wc_ScoreFn {T}.

(** ** Witness *)

(** Rules whose expression is a path. *)
Definition ex_rule_engine : RuleEngine.
Proof.
  refine {| RuleSet := list (string * string);
            rs_build := fun _ => Some [];
            rs_Add := fun rs n e => Some (rs ++ [(n, e)]);
            rs_Rules := fun rs => rs.*1;
            rs_Match := fun rs f =>
              fst <$> List.find (fun r => match f "http.path" with
                                          | Some (VString s) => String.eqb s r.2
                                          | _ => false
                                          end) rs;
            envelope_Resolve := fun _ _ => None |}.
  - by intros fs rs [= <-].
  - intros rs n e rs' m [= <-]. rewrite fmap_app, elem_of_app. cbn. rewrite list_elem_of_singleton. tauto.
  - intros rs f n Hf. destruct (List.find _ rs) as [r|] eqn:E; [|done]. injection Hf as <-.
    apply find_some in E as [E _]. apply list_elem_of_fmap. exists r. split; [done|]. by apply list_elem_of_In.
Defined.

Definition ex_waf_lower : UnicodeLower := {| unicode_lower := fun s => s |}.

Definition ex_waf_cfg : WafConfig nat :=
  mkWafConfig [mkRuleConfig "shell" "/shell.php" "DROP"; mkRuleConfig "ok" "/status" "pass"] 100 ∅
    (Some (fun _ _ _ n => S n)).

Definition ex_waf_event : Event :=
  mkEvent (mkEnvelope "src" "file" "s" EmptyString 0)
    (PLogEntry (mkLogEntry "10.0.0.1" EmptyString 0 "GET" "/shell.php" "/shell.php" EmptyString
       "HTTP/1.1" 200 0 EmptyString "ua" "10.0.0.1" EmptyString)).

Lemma waf_dispatch_exact_witness :
  match @NewWafProcessor ex_rule_engine ex_waf_lower nat ex_waf_cfg with
  | None => False
  | Some p =>
      waf_whitelisted p ex_waf_event = false /\
      exists n, waf_gate_match p ex_waf_event = Some n /\
        @gate_rule ex_waf_lower (wc_Rules ex_waf_cfg) n ActionDrop /\ 1 = waf_signal 0 p ex_waf_event 100 0
  end.
Proof.
  destruct (@NewWafProcessor ex_rule_engine ex_waf_lower nat ex_waf_cfg) as [p|] eqn:Ep;
    [|vm_compute in Ep; discriminate].
  pose proof (@waf_dispatch_exact ex_rule_engine ex_waf_lower nat ex_waf_cfg p 0 ex_waf_event 0 Ep) as H.
  vm_compute in Ep. injection Ep as <-. exact H.
Defined.
