(* ===== verification/Format.v ===== *)
(** * Event formats (internal/threat/format, internal/core/output/logger.go, cmd/arxsentinel/queue_event_source.go)

    The Fail2Ban line, the JSON records and the wire format of the executor queues,
    with the adapter that reads a queue. *)

From Stdlib Require Import ZArith Lia Ascii String Floats.SpecFloat.
From stdpp Require Import base numbers option list strings gmap.
From S2P Require Import Prelude GoFloat GoStrings GoNet GoFmt GoValues GoTime GoJSON GoTimeJSON Model ExecCommon Waf.

(** ** format.go *)

Section format.
Context `{UnicodePrint}.

(** The payload's type in the error message. *)
Definition payload_type (p : Payload) : string :=
  match p with
  | PLogEntry _ => "*parser.LogEntry"
  | PThreat _ => "*threat.ThreatEvent"
  | POpaque => "<nil>"
  end.

Definition formatThreatPayload (ev : option Event) : string + ThreatEvent :=
  match ev with
  | None => inl "threat/format: nil event"
  | Some ev =>
      match ev_Payload ev with
      | PThreat te => inr te
      | p => inl ("threat/format: expected payload *threat.ThreatEvent, got " +:+ payload_type p)
      end
  end.

Definition threat_line (timestamp level ip : string) (score : Z) (modules : list string) (reason : string) : string :=
  timestamp +:+ " " +:+ level +:+ " " +:+ ip +:+ " score=" +:+ Itoa score +:+ " modules=" +:+ Join modules "," +:+
  " reason=" +:+ Quote reason.

Definition FormatFailban (e : ThreatEvent) : string :=
  threat_line (FormatRFC3339 (te_Timestamp e)) (te_Level e) (te_IP e) (te_Score e) (te_Modules e) (te_Reason e).

(** output.FormatThreatLine reads the clock. *)
Definition FormatThreatLine (now : Time) (ip : string) (score : Z) (level : string) (modules : list string)
    (reason : string) : string :=
  threat_line (FormatRFC3339 now) level ip score modules reason.

(** output.ThreatLogger.Log: what is handed to the write function, if anything. *)
Definition ThreatLogger_Log {W} (writeFn : string -> Z -> string -> list string -> string -> W -> W)
    (ip : string) (score : Z) (level : string) (modules : list string) (reason : string) (w : W) : W :=
  if String.eqb level "" then w else writeFn ip score level modules reason w.

(** The [jsonEnvelope] record as a document. *)
Definition jsonEnvelope (e : ThreatEvent) : list (string * JSON) :=
  [("timestamp", JString (FormatRFC3339 (te_Timestamp e))); ("level", JString (te_Level e))] ++
  omit_empty "stream" (te_Stream e) ++ omit_empty "source" (te_Source e) ++
  omit_empty "source_type" (te_SourceType e) ++
  [("ip", JString (te_IP e)); ("score", JInt (te_Score e)); ("modules", json_slice (te_Modules e));
   ("reason", JString (te_Reason e))] ++
  omit_empty "raw_line" (te_RawLine e).

(** The [sentinelThreatLine] record. *)
Definition sentinelThreatLine (e : ThreatEvent) (streamName : string) : list (string * JSON) :=
  [("ts", JString (FormatRFC3339 (te_Timestamp e))); ("ip", JString (te_IP e));
   ("score", JInt (te_Score e)); ("level", JString (te_Level e));
   ("modules", json_slice (te_Modules e)); ("reason", JString (te_Reason e));
   ("source", JString streamName)].

Definition FormatJSON (e : ThreatEvent) : string := Marshal (JObject (jsonEnvelope e)).
Definition FormatSentinelThreat (e : ThreatEvent) (streamName : string) : string :=
  Marshal (JObject (sentinelThreatLine e streamName)).

(** The JSON encoding of a log entry is the core module's. *)
Context (entry_json : LogEntry -> string).

(** raw_line.go *)
Definition raw_line_format (ev : option Event) : string + string :=
  match ev with
  | None => inl "threat/format: raw-line: nil event"
  | Some ev =>
      match ev_Payload ev with
      | PLogEntry entry => mret (entry_json entry)
      | p => inl ("threat/format: raw-line: expected payload *parser.LogEntry, got " +:+ payload_type p +:+
                  " (pipeline missing raw_forward: true?)")
      end
  end.

Inductive Formatter :=
  | FailbanFormatter
  | JSONFormatter
  | SentinelFormatter (streamName : string)
  | RawLineFormatter.

Definition Format (f : Formatter) (ev : option Event) : string + string :=
  match f with
  | FailbanFormatter => te ← formatThreatPayload ev; mret (FormatFailban te)
  | JSONFormatter => te ← formatThreatPayload ev; mret (FormatJSON te)
  | SentinelFormatter s => te ← formatThreatPayload ev; mret (FormatSentinelThreat te s)
  | RawLineFormatter => raw_line_format ev
  end.

(** builders.go *)
Definition formatterForFormat (sinkType format streamName : string) : string + Formatter :=
  if String.eqb sinkType "sentinel-threat" then
    if String.eqb format "raw-line" then mret RawLineFormatter else mret (SentinelFormatter streamName)
  else if (String.eqb format "" || String.eqb format "fail2ban")%bool then mret FailbanFormatter
  else if String.eqb format "json" then mret JSONFormatter
  else inl ("unknown format " +:+ Quote format +:+ " for sink type " +:+ Quote sinkType +:+
            " (want fail2ban or json)").

(** ** queue_event_source.go *)

(** The fields of [threat.ThreatEvent] have no tags: a key matches its name up
    to case. *)
Definition threat_fields : fields_of JSON ThreatEvent :=
  [("Timestamp", fun v e => x ← UnmarshalTime v (te_Timestamp e);
      Some (mkThreatEvent x (te_Level e) (te_Stream e) (te_Source e) (te_SourceType e) (te_IP e) (te_Score e) (te_Modules e) (te_Reason e) (te_RawLine e)));
   ("Level", fun v e => x ← into_string v (te_Level e);
      Some (mkThreatEvent (te_Timestamp e) x (te_Stream e) (te_Source e) (te_SourceType e) (te_IP e) (te_Score e) (te_Modules e) (te_Reason e) (te_RawLine e)));
   ("Stream", fun v e => x ← into_string v (te_Stream e);
      Some (mkThreatEvent (te_Timestamp e) (te_Level e) x (te_Source e) (te_SourceType e) (te_IP e) (te_Score e) (te_Modules e) (te_Reason e) (te_RawLine e)));
   ("Source", fun v e => x ← into_string v (te_Source e);
      Some (mkThreatEvent (te_Timestamp e) (te_Level e) (te_Stream e) x (te_SourceType e) (te_IP e) (te_Score e) (te_Modules e) (te_Reason e) (te_RawLine e)));
   ("SourceType", fun v e => x ← into_string v (te_SourceType e);
      Some (mkThreatEvent (te_Timestamp e) (te_Level e) (te_Stream e) (te_Source e) x (te_IP e) (te_Score e) (te_Modules e) (te_Reason e) (te_RawLine e)));
   ("IP", fun v e => x ← into_string v (te_IP e);
      Some (mkThreatEvent (te_Timestamp e) (te_Level e) (te_Stream e) (te_Source e) (te_SourceType e) x (te_Score e) (te_Modules e) (te_Reason e) (te_RawLine e)));
   ("Score", fun v e => x ← into_int v (te_Score e);
      Some (mkThreatEvent (te_Timestamp e) (te_Level e) (te_Stream e) (te_Source e) (te_SourceType e) (te_IP e) x (te_Modules e) (te_Reason e) (te_RawLine e)));
   ("Modules", fun v e => x ← into_strings v;
      Some (mkThreatEvent (te_Timestamp e) (te_Level e) (te_Stream e) (te_Source e) (te_SourceType e) (te_IP e) (te_Score e) x (te_Reason e) (te_RawLine e)));
   ("Reason", fun v e => x ← into_string v (te_Reason e);
      Some (mkThreatEvent (te_Timestamp e) (te_Level e) (te_Stream e) (te_Source e) (te_SourceType e) (te_IP e) (te_Score e) (te_Modules e) x (te_RawLine e)));
   ("RawLine", fun v e => x ← into_string v (te_RawLine e);
      Some (mkThreatEvent (te_Timestamp e) (te_Level e) (te_Stream e) (te_Source e) (te_SourceType e) (te_IP e) (te_Score e) (te_Modules e) (te_Reason e) x))].

Definition ThreatEvent_zero : ThreatEvent := mkThreatEvent 0 "" "" "" "" "" 0 [] "" "".
Definition Envelope_zero : Envelope := mkEnvelope "" "" "" "" 0.

(** [Pop] on the result of the queue's [Pop]. *)
Definition Pop (popped : string + string) : string + Event :=
  data ← popped;
  match doc ← Unmarshal data; into_struct threat_fields doc ThreatEvent_zero with
  | None => inl "queueEventSource: decode ThreatEvent JSON"
  | Some te => mret (mkEvent Envelope_zero (PThreat te))
  end.

(** ** The queue hop *)

(** How the keys of the wire record land in the event; [ts] matches no field. *)
Lemma store_ts e v : json_store threat_fields (Some e) ("ts", v) = Some e.
Proof. reflexivity. Qed.
Lemma store_ip t l st so ty ip sc m r w v : json_store threat_fields (Some (mkThreatEvent t l st so ty ip sc m r w)) ("ip", JString v) =
  Some (mkThreatEvent t l st so ty v sc m r w).
Proof. reflexivity. Qed.
Lemma store_score t l st so ty ip sc m r w v : in_int64 v ->
  json_store threat_fields (Some (mkThreatEvent t l st so ty ip sc m r w)) ("score", JInt v) =
  Some (mkThreatEvent t l st so ty ip v m r w).
Proof.
  intros Hv. transitivity (x ← Atoi (Itoa v); Some (mkThreatEvent t l st so ty ip x m r w)); [reflexivity|].
  by rewrite Atoi_Itoa.
Qed.
Lemma store_level t l st so ty ip sc m r w v : json_store threat_fields (Some (mkThreatEvent t l st so ty ip sc m r w)) ("level", JString v) =
  Some (mkThreatEvent t v st so ty ip sc m r w).
Proof. reflexivity. Qed.
Lemma store_modules t l st so ty ip sc r w v : json_store threat_fields (Some (mkThreatEvent t l st so ty ip sc [] r w)) ("modules", json_slice v) =
  Some (mkThreatEvent t l st so ty ip sc v r w).
Proof.
  transitivity (x ← into_strings (json_slice v); Some (mkThreatEvent t l st so ty ip sc x r w)); [reflexivity|].
  by rewrite into_strings_slice.
Qed.
Lemma store_reason t l st so ty ip sc m r w v : json_store threat_fields (Some (mkThreatEvent t l st so ty ip sc m r w)) ("reason", JString v) =
  Some (mkThreatEvent t l st so ty ip sc m v w).
Proof. reflexivity. Qed.
Lemma store_source t l st so ty ip sc m r w v : json_store threat_fields (Some (mkThreatEvent t l st so ty ip sc m r w)) ("source", JString v) =
  Some (mkThreatEvent t l st v ty ip sc m r w).
Proof. reflexivity. Qed.

(** A sentinel-threat line popped from the queue. *)
Lemma pop_formatted env te stream :
  valid_utf8 (te_IP te) = true -> valid_utf8 (te_Level te) = true -> valid_utf8 (te_Reason te) = true ->
  forallb valid_utf8 (te_Modules te) = true -> valid_utf8 stream = true -> in_int64 (te_Score te) ->
  Pop (Format (SentinelFormatter stream) (Some (mkEvent env (PThreat te)))) =
    inr (mkEvent Envelope_zero (PThreat
      (mkThreatEvent 0 (te_Level te) "" stream "" (te_IP te) (te_Score te) (te_Modules te) (te_Reason te) ""))).
Proof.
  intros Hip Hl Hr Hm Hs Hsc.
  unfold Pop, Format, formatThreatPayload, FormatSentinelThreat, mret, res_ret. cbn [ev_Payload mbind res_bind].
  rewrite Unmarshal_Marshal.
  - cbn [mbind option_bind into_struct]. unfold sentinelThreatLine, ThreatEvent_zero. cbn [foldl].
    by rewrite store_ts, store_ip, store_score, store_level, store_modules, store_reason, store_source by done.
  - unfold sentinelThreatLine. cbn -[valid_utf8 json_slice FormatRFC3339 json_wf JInt]. cbn -[valid_utf8 json_slice FormatRFC3339 json_int_lit Itoa].
    rewrite Hip, Hl, Hr, Hs, (json_wf_slice _ Hm), (graph_utf8 _ (FormatRFC3339_graph _)). by rewrite json_int_lit_Itoa.
  - pose proof (json_depth_slice (te_Modules te)). cbn -[json_slice N.max]. unfold maxNestingDepth. lia.
Qed.

(** C11: What an executor receives: an event with valid UTF-8 text that a sentinel-threat sink of a stream writes to its queue is popped with the same level, address, score, modules and reason, but with a zero time stamp, no stream, source type or raw line, and the stream's name as its source, since the wire record names its fields [ts] and [source]. *)
Theorem queue_hop_event env te stream :
  valid_utf8 (te_IP te) = true -> valid_utf8 (te_Level te) = true -> valid_utf8 (te_Reason te) = true ->
  forallb valid_utf8 (te_Modules te) = true -> valid_utf8 stream = true ->
  in_int64 (te_Score te) ->
  formatterForFormat "sentinel-threat" "" stream = inr (SentinelFormatter stream) /\
  Pop (Format (SentinelFormatter stream) (Some (mkEvent env (PThreat te)))) =
    inr (mkEvent Envelope_zero (PThreat
      (mkThreatEvent 0 (te_Level te) "" stream "" (te_IP te) (te_Score te) (te_Modules te) (te_Reason te) ""))).
Proof. intros. split; [done|]. by apply pop_formatted. Qed.

(** ** The Fail2Ban line *)

Lemma no_ctl_graph c : is_graph c = true -> no_ctl c = true.
Proof.
  unfold is_graph, no_ctl. rewrite !andb_true_iff, negb_true_iff, !N.leb_le, N.eqb_neq. lia.
Qed.

Lemma graph_no_ctl s : string_forallb is_graph s = true -> string_forallb no_ctl s = true.
Proof. apply string_forallb_impl, no_ctl_graph. Qed.

Lemma graph_free s : string_forallb is_graph s = true -> free_of " " s = true.
Proof.
  apply string_forallb_impl. intros c Hc. destruct (Ascii.eqb_spec c " ") as [->|]; [|done]. discriminate Hc.
Qed.

Lemma Join_graph l : Forall (fun m => string_forallb is_graph m = true) l ->
  string_forallb is_graph (Join l ",") = true.
Proof.
  induction 1 as [|x l Hx Hl IH]; [done|]. destruct l as [|y l]; [done|].
  change (Join (x :: y :: l) ",") with (x +:+ "," +:+ Join (y :: l) ",").
  by rewrite !string_forallb_app, Hx, IH.
Qed.

(** A field of graphic characters followed by a space. *)
Lemma Split_field w s : string_forallb is_graph w = true -> Split (w +:+ " " +:+ s) " " = w :: Split s " ".
Proof. intros Hw. apply (Split_app_sep w s " "), graph_free, Hw. Qed.

Definition clean_event (e : ThreatEvent) : bool :=
  (string_forallb is_graph (te_Level e) && string_forallb is_graph (te_IP e) &&
   forallb (string_forallb is_graph) (te_Modules e))%bool.

(** What splits off the line that Fail2Ban reads. *)
Lemma threat_line_fields ts level ip score modules reason :
  string_forallb is_graph ts = true -> string_forallb is_graph level = true ->
  string_forallb is_graph ip = true -> Forall (fun m => string_forallb is_graph m = true) modules ->
  Split (threat_line ts level ip score modules reason) " " =
    [ts; level; ip; "score=" +:+ Itoa score; "modules=" +:+ Join modules ","] ++
    Split ("reason=" +:+ Quote reason) " ".
Proof.
  intros Hts Hl Hip Hm. unfold threat_line.
  rewrite (Split_field ts), (Split_field level) by done.
  change (" score=" +:+ ?r) with (" " +:+ ("score=" +:+ r)).
  change (" modules=" +:+ ?r) with (" " +:+ ("modules=" +:+ r)).
  change (" reason=" +:+ ?r) with (" " +:+ ("reason=" +:+ r)).
  rewrite Split_field by done.
  rewrite <- (string_app_assoc "score="), Split_field by (rewrite string_forallb_app, Itoa_graph; done).
  rewrite <- (string_app_assoc "modules="), Split_field by (rewrite string_forallb_app, Join_graph; done).
  done.
Qed.

Lemma threat_line_no_ctl ts level ip score modules reason :
  string_forallb is_graph ts = true -> string_forallb is_graph level = true ->
  string_forallb is_graph ip = true -> Forall (fun m => string_forallb is_graph m = true) modules ->
  string_forallb no_ctl (threat_line ts level ip score modules reason) = true.
Proof.
  intros Hts Hl Hip Hm. unfold threat_line. rewrite !string_forallb_app, Quote_no_ctl.
  rewrite (graph_no_ctl ts), (graph_no_ctl level), (graph_no_ctl ip), (graph_no_ctl (Itoa score)),
    (graph_no_ctl (Join modules ",")) by (done || apply Itoa_graph || by apply Join_graph). done.
Qed.

(** C23: A threat whose level, address and module names are graphic ASCII is written as exactly one line, whatever bytes an attacker put into the reason: no control character is in it, its space-separated fields begin with the time (which [time.Parse] reads back to the second), the level, the address, the score (which reads back) and the modules, and all the rest is the quoted reason, which a reader of quoted strings consumes to its last byte; the sink's formatter and the direct logger write the same line. *)
Theorem failban_line_fields env e :
  clean_event e = true -> (0 <= year_of (te_Timestamp e) < 10000)%Z -> in_int64 (te_Score e) ->
  exists line ts score,
    Format FailbanFormatter (Some (mkEvent env (PThreat e))) = inr line /\
    line = FormatThreatLine (te_Timestamp e) (te_IP e) (te_Score e) (te_Level e) (te_Modules e) (te_Reason e) /\
    string_forallb no_ctl line = true /\
    (Split line " " = [ts; te_Level e; te_IP e; "score=" +:+ score; "modules=" +:+ Join (te_Modules e) ","] ++
      Split ("reason=" +:+ Quote (te_Reason e)) " ") /\
    ParseRFC3339 ts = Some (te_Timestamp e / second * second)%Z /\
    Atoi score = Some (te_Score e) /\
    read_quoted (Quote (te_Reason e)) = Some "".
Proof.
  intros Hc Hy Hs. unfold clean_event in Hc. apply andb_prop in Hc as [Hc Hm]. apply andb_prop in Hc as [Hl Hip].
  assert (Hm' : Forall (fun m => string_forallb is_graph m = true) (te_Modules e)).
  { apply Forall_forall. intros m Hx. rewrite forallb_forall in Hm. by apply Hm, list_elem_of_In. }
  exists (FormatFailban e), (FormatRFC3339 (te_Timestamp e)), (Itoa (te_Score e)).
  split; [done|]. split; [done|].
  split; [apply threat_line_no_ctl; auto using FormatRFC3339_graph|].
  split; [apply threat_line_fields; auto using FormatRFC3339_graph|].
  split; [by apply ParseRFC3339_Format|]. split; [by apply Atoi_Itoa|].
  pose proof (read_quoted_Quote (te_Reason e) "") as Hq. by rewrite string_app_nil_r in Hq.
Qed.
End format.

(** ** Witnesses *)

Definition ex_print : UnicodePrint := {| unicode_print := fun _ => false |}.

(** An attacker's user agent with a line break and a quote in the reason. *)
Definition ex_threat : ThreatEvent :=
  mkThreatEvent (of_unix 1775399592 + 7) "THREAT" "web" "access.log" "file" "45.134.26.8" 85 ["probe"; "rate"]
    (String dquote (String newline "2026-04-05T14:33:12Z THREAT 10.0.0.1 score=99")) "".
Definition ex_env : Envelope := mkEnvelope "web" "access.log" "file" "nginx" 0.

Lemma queue_hop_event_witness :
  Pop (@Format ex_print (fun _ => "") (SentinelFormatter "web")
    (Some (mkEvent ex_env (PThreat ex_threat)))) =
  inr (mkEvent Envelope_zero (PThreat (mkThreatEvent 0 "THREAT" "" "web" "" "45.134.26.8" 85 ["probe"; "rate"]
    (te_Reason ex_threat) ""))).
Proof. apply (@queue_hop_event ex_print (fun _ => "") ex_env ex_threat "web"); vm_compute; done. Defined.

Lemma failban_line_fields_witness : exists line rest,
  @Format ex_print (fun _ => "") FailbanFormatter (Some (mkEvent ex_env (PThreat ex_threat))) = inr line /\
  Split line " " = ["2026-04-05T14:33:12Z"; "THREAT"; "45.134.26.8"; "score=85"; "modules=probe,rate"] ++ rest.
Proof.
  destruct (@failban_line_fields ex_print (fun _ => "") ex_env ex_threat) as (line & ts & sc & Hf & Hl & _ & Hs & _);
    [vm_compute; done..|].
  exists line, (Split ("reason=" +:+ @Quote ex_print (te_Reason ex_threat)) " "). split; [exact Hf|].
  rewrite Hs. f_equal. assert (Hh : hd "" (Split line " ") = ts) by (rewrite Hs; done).
  assert (Hh4 : nth 3 (Split line " ") "" = "score=" +:+ sc) by (rewrite Hs; done).
  rewrite Hl in Hh, Hh4. vm_compute in Hh, Hh4. subst ts. injection Hh4 as <-. reflexivity.
Defined.
