(* ===== verification/Pipeline.v ===== *)
(** * The security processor (cmd/arxsentinel/processor_security.go)

    One log line through the detection pipeline: chain check, custom whitelist,
    WAF gate, bot verification, state tracking, fake-bot penalty, scoring and
    the threat event.

    The mutable parts (the tracker of the group, the DNS cache, the chain
    warnings) are explicit, and so is every reading of the clock. Logging and metric
    callbacks are not modelled. *)

From Stdlib Require Import ZArith Lia Ascii String.
From stdpp Require Import base numbers option list strings gmap fin_maps.
From S2P Require Import Prelude GoFloat GoStrings GoNet Model Tracker Scorer Detectors Crawler Whitelist ChainCheck ExecCommon Waf.

(** ** State *)

Section pipeline.
Context {RE : RuleEngine}.

Record securityState := mkSecurityState {
  ss_StreamName : string;
  ss_PipelineName : string;
  ss_Scorer : Scorer IPState;
  ss_Matcher : Matcher;
  ss_Waf : option (WafProcessor Tracker);
  ss_FakeBotScore : Z;
  ss_RawForward : bool
}.

(** The mutable state a line is processed in. *)
Record PipeState := mkPipeState {
  ps_tracker : Tracker;
  ps_cache : IPCache;
  ps_warnings : list (CheckResult * string)
}.

Definition ps_set_tracker (s : PipeState) (t : Tracker) : PipeState :=
  mkPipeState t (ps_cache s) (ps_warnings s).
Definition ps_set_cache (s : PipeState) (c : IPCache) : PipeState :=
  mkPipeState (ps_tracker s) c (ps_warnings s).

(** What the processor shares with the rest of the program: the chain checker and
    whether a warnings writer exists. *)
Record SharedResources := mkSharedResources {
  sh_ChainChecker : option Checker;
  sh_WarningsWriter : bool
}.

Record EventContext := mkEventContext {
  ec_SourceName : string;
  ec_SourceType : string
}.

(** The clock readings of one line, in the order they are taken: the score signal
    of the WAF, the lookup and the store of the DNS cache, the fake-bot penalty,
    the scorer, each detector, and the time stamp of the threat. *)
Record LineClock := mkLineClock {
  ck_waf : Time;
  ck_lookup : Time;
  ck_store : Time;
  ck_penalty : Time;
  ck_score : Time;
  ck_detect : string -> Time;
  ck_emit : Time
}.

(** ** Steps *)

Definition chain_step (sh : SharedResources) (evctx : EventContext) (entry : LogEntry) (s : PipeState)
  : PipeState :=
  match sh_ChainChecker sh with
  | Some cc =>
      if sh_WarningsWriter sh then
        match Check cc (le_RemoteAddr entry) with
        | Some result =>
            mkPipeState (ps_tracker s) (ps_cache s) (ps_warnings s ++ [(result, ec_SourceName evctx)])
        | None => s
        end
      else s
  | None => s
  end.

Definition whitelisted (m : Matcher) (entry : LogEntry) : bool :=
  (IsWhitelistedIP m (le_RealIP entry) || IsWhitelistedUA m (le_UserAgent entry) ||
   IsWhitelistedPath m (le_Path entry))%bool.

(** The closure [buildWafProcessor] binds to the tracker of the group. *)
Definition tracker_ScoreFn (now : Time) (ip : string) (delta : Z) (t : Tracker) : Tracker :=
  match GetState t ip with
  | Some st => write_state ip (IPState_SetScore (wrap64 (score st + delta)) now st) t
  | None => t
  end.

(** [true] when the line goes on. *)
Definition waf_step (now : Time) (cancelled : bool) (waf : option (WafProcessor Tracker))
    (event : Event) (s : PipeState) : bool * PipeState :=
  match waf with
  | None => (true, s)
  | Some w =>
      let '(verdict, t') := waf_Process now cancelled w event (ps_tracker s) in
      (match verdict with WafPass _ => true | _ => false end, ps_set_tracker s t')
  end.

(** Bot verification: [None] for a verified bot, else whether the bot is fake and
    the detectors to skip. *)
Definition bot_step (now done_at : Time) (r : Resolver) (m : Matcher) (entry : LogEntry) (s : PipeState)
  : option (bool * option (gset string)) * PipeState :=
  match MatchBot m (le_UserAgent entry) with
  | None => (Some (false, None), s)
  | Some bot =>
      let '(verified, fake, c') := Verify now done_at r (ps_cache s) (le_RealIP entry) bot in
      let s' := ps_set_cache s c' in
      if verified : bool then (None, s')
      else
        let exempt :=
          if (negb fake && (0 <? length (bot_ExemptDetectors bot))%nat)%bool
          then Some (list_to_set (bot_ExemptDetectors bot)) else None in
        (Some (fake, exempt), s')
  end.

Definition penalty (now : Time) (fake : bool) (fakeBotScore : Z) (st : IPState) : IPState :=
  if fake then IPState_SetScore (wrap64 (score st + fakeBotScore)) now st else st.

(** Tracking, penalty and scoring; the writes go through the pointer to the state. *)
Definition score_step (now_penalty now : Time) (clk : string -> Time) (ss : securityState) (entry : LogEntry) (fake : bool)
    (exempt : option (gset string)) (s : PipeState) : Verdict * PipeState :=
  let '(st, t1) := Update entry (ps_tracker s) in
  let st1 := penalty now_penalty fake (ss_FakeBotScore ss) st in
  let '(v, st2) := Evaluate now clk (ss_Scorer ss) st1 entry exempt in
  (v, ps_set_tracker s (write_state (le_RealIP entry) st2 t1)).

Definition threat_of (now : Time) (ss : securityState) (evctx : EventContext) (entry : LogEntry)
    (v : Verdict) : ThreatEvent :=
  mkThreatEvent now (v_level v) (ss_StreamName ss) (ec_SourceName evctx) (ec_SourceType evctx)
    (le_RealIP entry) (v_score v) (v_modules v) (v_reason v) EmptyString.

(** [Process]: the event to emit, if any. [event] is the envelope the line came in,
    its payload is [entry]. *)
Definition Process (now : LineClock) (cancelled : bool) (r : Resolver) (sh : SharedResources)
    (ss : securityState) (evctx : EventContext) (envelope : Envelope) (entry : LogEntry) (s : PipeState)
  : option Event * PipeState :=
  if ss_RawForward ss then
    (Some (mkEvent (mkEnvelope (ec_SourceName evctx) (ec_SourceType evctx) (ss_StreamName ss)
                      EmptyString (le_Time entry)) (PLogEntry entry)), s)
  else
    let s1 := chain_step sh evctx entry s in
    if whitelisted (ss_Matcher ss) entry then (None, s1)
    else
      let '(goes_on, s2) := waf_step (ck_waf now) cancelled (ss_Waf ss) (mkEvent envelope (PLogEntry entry)) s1 in
      if negb goes_on then (None, s2)
      else match bot_step (ck_lookup now) (ck_store now) r (ss_Matcher ss) entry s2 with
           | (None, s3) => (None, s3)
           | (Some (fake, exempt), s3) =>
               let '(v, s4) := score_step (ck_penalty now) (ck_score now) (ck_detect now) ss entry fake exempt s3 in
               if String.eqb (v_level v) EmptyString then (None, s4)
               else
                 let te := threat_of (ck_emit now) ss evctx entry v in
                 (Some (mkEvent (mkEnvelope (ec_SourceName evctx) (ec_SourceType evctx)
                                   (ss_StreamName ss) (v_level v) (te_Timestamp te)) (PThreat te)), s4)
           end.

(** ** Detectors leave the tracked history alone *)

(** A detector reads the view; at most it fills the path cache. *)
Definition neutral (d : Detector IPState) : Prop :=
  forall now sv e, snd (d_Detect d now sv e) = sv \/ snd (d_Detect d now sv e) = snd (RecentPaths sv).

(** The detectors of the program. *)
Inductive builtin `{!UnicodeLower} `{!MapRange} : Detector IPState -> Prop :=
  | builtin_rate n d : builtin (mkDetector n (rate_Detect d))
  | builtin_probe n d : builtin (mkDetector n (probe_Detect d))
  | builtin_bruteforce n d : builtin (mkDetector n (bruteforce_Detect d))
  | builtin_noasset n d : builtin (mkDetector n (noasset_Detect d))
  | builtin_overflow n d : builtin (mkDetector n (overflow_Detect d))
  | builtin_badbot n d : builtin (mkDetector n (badbot_Detect d))
  | builtin_ua n d : builtin (mkDetector n (ua_Detect d))
  | builtin_crawler n d : builtin (mkDetector n (crawler_Detect d)).

Lemma builtin_neutral `{!UnicodeLower} `{!MapRange} d : builtin d -> neutral d.
Proof.
  intros [] now sv e; cbn [d_Detect];
    unfold rate_Detect, probe_Detect, bruteforce_Detect, overflow_Detect, badbot_Detect, ua_Detect;
    cbv zeta; try (left; by repeat case_match_goal); right.
  - unfold noasset_Detect. destruct (RecentPaths sv) as [paths sv'].
    destruct (foldl _ _ paths). by repeat case_match_goal.
  - unfold crawler_Detect. destruct (RecentPaths sv) as [paths sv']. by repeat case_match_goal.
Qed.

Lemma SetScore_refines ip h z at_ st : state_refines ip h st -> state_refines ip h (IPState_SetScore z at_ st).
Proof. intros [? ? ? ? ? Hr ?]. split; try done; exact Hr. Qed.

Lemma detect_step_refines clk entry ex ip h acc d : neutral d -> state_refines ip h (la_view acc) ->
  state_refines ip h (la_view (detect_step clk entry ex acc d)).
Proof.
  intros Hn Hr. unfold detect_step. destruct (exempted ex (d_Name d)); [done|].
  specialize (Hn (clk (d_Name d)) (la_view acc) entry). destruct (d_Detect d (clk (d_Name d)) (la_view acc) entry) as [res sv'].
  assert (Hr' : state_refines ip h sv').
  { cbn in Hn. destruct Hn as [->| ->]; [done|]. by apply RecentPaths_refines. }
  by destruct (dr_Score res <=? 0)%Z.
Qed.

Lemma Evaluate_refines now clk sc st entry ex ip h : Forall neutral (detectors sc) ->
  state_refines ip h st -> state_refines ip h (snd (Evaluate now clk sc st entry ex)).
Proof.
  intros Hn Hr. unfold Evaluate. cbn [snd]. apply SetScore_refines.
  change st with (la_view (mkLoopAcc 0 [] [] st)) in Hr. revert Hr.
  generalize (mkLoopAcc 0 [] [] st). induction Hn as [|d ds Hd Hds IH]; intros acc Hr; [done|].
  cbn [foldl]. apply IH. by apply detect_step_refines.
Qed.

(** ** Steps and the tracker *)

Lemma Update_maxIPs e t : maxIPs (snd (Update e t)) = maxIPs t.
Proof. unfold Update, evictLRULocked. by repeat case_match_goal. Qed.

Lemma Update_stored e t : states (snd (Update e t)) !! le_RealIP e = Some (fst (Update e t)).
Proof. unfold Update. cbv zeta. destruct (states t !! le_RealIP e); apply lookup_insert_eq. Qed.

Lemma ScoreFn_refines now ip delta t a : tracker_refines t a ->
  tracker_refines (tracker_ScoreFn now ip delta t) a /\ maxIPs (tracker_ScoreFn now ip delta t) = maxIPs t.
Proof.
  intros HR. unfold tracker_ScoreFn, GetState. destruct (states t !! ip) as [st|] eqn:E; [|done].
  split; [|done]. apply (write_refines t a ip (IPState_SetScore (wrap64 (score st + delta)) now) st HR E).
  intros h. apply SetScore_refines.
Qed.

(** The WAF writes scores through the tracker of its group. *)
Definition waf_bound (ss : securityState) : Prop :=
  forall w, ss_Waf ss = Some w -> wp_scoreFn w = Some tracker_ScoreFn.

Lemma waf_Process_refines now cancelled w ev t a : wp_scoreFn w = Some tracker_ScoreFn ->
  tracker_refines t a -> tracker_refines (snd (waf_Process now cancelled w ev t)) a /\
  maxIPs (snd (waf_Process now cancelled w ev t)) = maxIPs t.
Proof.
  intros Hw HR.
  assert (Hs : forall d, tracker_refines (waf_signal now w ev d t) a /\
    maxIPs (waf_signal now w ev d t) = maxIPs t).
  { intros d. unfold waf_signal. rewrite Hw. destruct (0 <? d)%Z; [|done].
    destruct (String.eqb _ _); [done|]. by apply ScoreFn_refines. }
  unfold waf_Process. destruct cancelled; [done|].
  destruct (if (_ <? _)%nat then _ else false); [done|].
  destruct (rs_Match (wp_gateRules w) _) as [n|]; [|done].
  destruct (String.eqb _ ActionDrop); [apply Hs|].
  destruct (String.eqb _ ActionTag); [done|]. destruct (HasPrefix _ _); [apply Hs|done].
Qed.

Lemma waf_step_refines now cancelled ss ev s a : waf_bound ss -> tracker_refines (ps_tracker s) a ->
  tracker_refines (ps_tracker (snd (waf_step now cancelled (ss_Waf ss) ev s))) a /\
  maxIPs (ps_tracker (snd (waf_step now cancelled (ss_Waf ss) ev s))) = maxIPs (ps_tracker s).
Proof.
  intros Hb HR. unfold waf_step. destruct (ss_Waf ss) as [w|] eqn:Ew; [|done].
  pose proof (waf_Process_refines now cancelled w ev _ a (Hb w Ew) HR) as Hw.
  by destruct (waf_Process now cancelled w ev (ps_tracker s)).
Qed.

Lemma bot_step_tracker now done_at r m entry s :
  ps_tracker (snd (bot_step now done_at r m entry s)) = ps_tracker s.
Proof.
  unfold bot_step. destruct (MatchBot m _) as [bot|]; [|done].
  destruct (Verify _ _ _ _ _ _) as [[[] fake] c']; done.
Qed.

Lemma chain_step_tracker sh evctx entry s :
  ps_tracker (chain_step sh evctx entry s) = ps_tracker s /\
  ps_cache (chain_step sh evctx entry s) = ps_cache s.
Proof. unfold chain_step. by repeat case_match. Qed.

Lemma score_step_refines now' now clk ss entry fake ex s a : Forall neutral (detectors (ss_Scorer ss)) ->
  tracker_refines (ps_tracker s) a ->
  tracker_refines (ps_tracker (snd (score_step now' now clk ss entry fake ex s)))
    (abs_update (maxIPs (ps_tracker s)) entry a).
Proof.
  intros Hn HR. unfold score_step. pose proof (Update_refines _ _ entry HR) as [HU _].
  pose proof (Update_stored entry (ps_tracker s)) as Hst.
  destruct (Update entry (ps_tracker s)) as [st t1]. cbn [fst snd] in *.
  pose proof (fun h => Evaluate_refines now clk (ss_Scorer ss) (penalty now' fake (ss_FakeBotScore ss) st)
    entry ex (le_RealIP entry) h Hn) as HE.
  destruct (Evaluate _ _ _ _ _ _) as [v st2]. cbn [fst snd ps_tracker ps_set_tracker] in *.
  apply (write_refines t1 _ (le_RealIP entry) (fun _ => st2) st HU Hst).
  intros h Hr. apply HE. unfold penalty. destruct fake; [by apply SetScore_refines|done].
Qed.

(** *** The limits of the tracker *)

Definition limits (t : Tracker) : Z * Duration := (maxIPs t, retention t).

Lemma Update_limits e t : limits (snd (Update e t)) = limits t.
Proof. unfold limits, Update, evictLRULocked. by repeat case_match_goal. Qed.

Lemma waf_step_limits now cancelled ss ev s : waf_bound ss ->
  limits (ps_tracker (snd (waf_step now cancelled (ss_Waf ss) ev s))) = limits (ps_tracker s).
Proof.
  intros Hb. unfold waf_step. destruct (ss_Waf ss) as [w|] eqn:Ew; [|done].
  assert (Hs : forall d, limits (waf_signal now w ev d (ps_tracker s)) = limits (ps_tracker s)).
  { intros d. unfold waf_signal. rewrite (Hb w Ew). unfold tracker_ScoreFn. by repeat case_match_goal. }
  assert (Hp : limits (snd (waf_Process now cancelled w ev (ps_tracker s))) = limits (ps_tracker s)).
  { unfold waf_Process. cbv zeta. repeat case_match_goal; first [done|apply Hs]. }
  by destruct (waf_Process now cancelled w ev (ps_tracker s)).
Qed.

Lemma score_step_limits now' now clk ss entry fake ex s :
  limits (ps_tracker (snd (score_step now' now clk ss entry fake ex s))) = limits (ps_tracker s).
Proof.
  unfold score_step. pose proof (Update_limits entry (ps_tracker s)) as Hu. destruct (Update entry (ps_tracker s)) as [st t1].
  destruct (Evaluate _ _ _ _ _ _) as [v st2]. exact Hu.
Qed.

(** Processing a line changes neither the size limit nor the retention. *)
Lemma Process_limits now cancelled r sh ss evctx envelope entry s : waf_bound ss ->
  limits (ps_tracker (snd (Process now cancelled r sh ss evctx envelope entry s))) = limits (ps_tracker s).
Proof.
  intros Hb. unfold Process. cbv zeta. destruct (ss_RawForward ss); [done|].
  destruct (chain_step_tracker sh evctx entry s) as [Hc _]. rewrite <- Hc. set (s1 := chain_step sh evctx entry s).
  destruct (whitelisted (ss_Matcher ss) entry); [done|].
  pose proof (waf_step_limits (ck_waf now) cancelled ss (mkEvent envelope (PLogEntry entry)) s1 Hb) as Hw.
  destruct (waf_step (ck_waf now) cancelled (ss_Waf ss) _ s1) as [[] s2]; cbn [negb fst snd] in *; [|done]. rewrite <- Hw.
  pose proof (bot_step_tracker (ck_lookup now) (ck_store now) r (ss_Matcher ss) entry s2) as Hbt.
  destruct (bot_step (ck_lookup now) (ck_store now) r (ss_Matcher ss) entry s2) as [[[fake ex]|] s3]; cbn [snd] in *; rewrite <- Hbt; [|done].
  pose proof (score_step_limits (ck_penalty now) (ck_score now) (ck_detect now) ss entry fake ex s3) as Hs.
  destruct (score_step _ _ _ _ _ _ _ _) as [v s4]. by destruct (String.eqb _ _).
Qed.

(** ** Properties *)

(** The line reaches the tracker: it is not forwarded raw, not whitelisted, passes
    the WAF and does not come from a verified bot. *)
Definition reaches_tracker (now : LineClock) (cancelled : bool) (r : Resolver) (sh : SharedResources)
    (ss : securityState) (evctx : EventContext) (envelope : Envelope) (entry : LogEntry) (s : PipeState)
  : bool :=
  let s1 := chain_step sh evctx entry s in
  let w := waf_step (ck_waf now) cancelled (ss_Waf ss) (mkEvent envelope (PLogEntry entry)) s1 in
  (negb (ss_RawForward ss) && negb (whitelisted (ss_Matcher ss) entry) && fst w &&
   match fst (bot_step (ck_lookup now) (ck_store now) r (ss_Matcher ss) entry (snd w)) with Some _ => true | None => false end)%bool.

(** The pipeline refines the tracker's abstract specification: a line that is
    forwarded raw, whitelisted, gated by the WAF or sent by a verified bot leaves
    every tracked request history as it was, and every other line is appended
    exactly once to the history of its address, with the eviction of the least
    recently seen address that the tracker specifies. *)
Lemma Process_refines now cancelled r sh ss evctx envelope entry s a :
  Forall neutral (detectors (ss_Scorer ss)) -> waf_bound ss -> tracker_refines (ps_tracker s) a ->
  let '(_, s') := Process now cancelled r sh ss evctx envelope entry s in
  tracker_refines (ps_tracker s')
    (if reaches_tracker now cancelled r sh ss evctx envelope entry s
     then abs_update (maxIPs (ps_tracker s)) entry a else a).
Proof.
  intros Hn Hb HR. unfold Process, reaches_tracker. cbv zeta.
  destruct (ss_RawForward ss); [done|]. cbn [negb andb].
  destruct (chain_step_tracker sh evctx entry s) as [Hc _]. rewrite <- Hc in HR |- *.
  set (s1 := chain_step sh evctx entry s) in *.
  destruct (whitelisted (ss_Matcher ss) entry); [done|]. cbn [negb andb].
  destruct (waf_step_refines (ck_waf now) cancelled ss (mkEvent envelope (PLogEntry entry)) s1 a Hb HR) as [HW Hm].
  destruct (waf_step (ck_waf now) cancelled (ss_Waf ss) _ s1) as [goes_on s2]. cbn [fst snd] in *.
  destruct goes_on; [|done]. cbn [negb andb]. rewrite <- Hm.
  pose proof (bot_step_tracker (ck_lookup now) (ck_store now) r (ss_Matcher ss) entry s2) as Hbt.
  destruct (bot_step (ck_lookup now) (ck_store now) r (ss_Matcher ss) entry s2) as [[[fake ex]|] s3]; cbn [fst snd] in *;
    rewrite <- Hbt in HW; [|exact HW]. rewrite <- Hbt.
  pose proof (score_step_refines (ck_penalty now) (ck_score now) (ck_detect now) ss entry fake ex s3 a Hn HW) as HS.
  destruct (score_step (ck_penalty now) (ck_score now) (ck_detect now) ss entry fake ex s3) as [v s4]. by destruct (String.eqb _ _).
Qed.

Lemma score_step_stored now' now clk ss entry fake ex s :
  let '(v, s') := score_step now' now clk ss entry fake ex s in
  v_level v = levelFor (ss_Scorer ss) (v_score v) /\
  exists st, states (ps_tracker s') !! le_RealIP entry = Some st /\
    score st = v_score v /\ scoreUpdatedAt st = now.
Proof.
  unfold score_step. pose proof (Update_stored entry (ps_tracker s)) as Hst.
  destruct (Update entry (ps_tracker s)) as [st t1]. cbn [fst snd] in Hst.
  unfold Evaluate. cbn [v_level v_score ps_tracker ps_set_tracker]. split; [done|].
  eexists. cbn [states write_state set_states]. rewrite lookup_alter_eq, Hst. split; [done|]. done.
Qed.

(** An event leaves Process only as the threat of a scored line. *)
Lemma process_emits now cancelled r sh ss evctx envelope entry s ev s' : ss_RawForward ss = false ->
  Process now cancelled r sh ss evctx envelope entry s = (Some ev, s') ->
  exists v, ev_Payload ev = PThreat (threat_of (ck_emit now) ss evctx entry v) /\ env_Level (ev_Envelope ev) = v_level v /\
    v_level v = levelFor (ss_Scorer ss) (v_score v) /\ v_level v <> EmptyString /\
    (exists st, states (ps_tracker s') !! le_RealIP entry = Some st /\ score st = v_score v /\ scoreUpdatedAt st = ck_score now) /\
    reaches_tracker now cancelled r sh ss evctx envelope entry s = true.
Proof.
  intros Hraw. unfold Process, reaches_tracker. rewrite Hraw. cbv zeta. cbn [negb andb].
  destruct (whitelisted (ss_Matcher ss) entry); [done|]. cbn [negb andb].
  destruct (waf_step _ _ _ _ _) as [goes_on s2]. destruct goes_on; [|done]. cbn [negb andb fst snd].
  destruct (bot_step (ck_lookup now) (ck_store now) r (ss_Matcher ss) entry s2) as [[[fake ex]|] s3]; [|done]. cbn [fst].
  pose proof (score_step_stored (ck_penalty now) (ck_score now) (ck_detect now) ss entry fake ex s3) as Hs.
  destruct (score_step (ck_penalty now) (ck_score now) (ck_detect now) ss entry fake ex s3) as [v s4]. destruct Hs as [Hl Hst].
  destruct (String.eqb_spec (v_level v) EmptyString) as [|Hne]; [done|].
  intros [= <- <-]. exists v. by repeat split.
Qed.

(** A line that reaches the tracker: its address has a score afterwards, and a threat
    with that score is emitted unless the score has no level. *)
Lemma process_scores now cancelled r sh ss evctx envelope entry s ev s' :
  reaches_tracker now cancelled r sh ss evctx envelope entry s = true ->
  Process now cancelled r sh ss evctx envelope entry s = (ev, s') ->
  exists st, states (ps_tracker s') !! le_RealIP entry = Some st /\
    (levelFor (ss_Scorer ss) (score st) <> EmptyString ->
     exists ev' te, ev = Some ev' /\ ev_Payload ev' = PThreat te /\ te_Score te = score st).
Proof.
  unfold Process, reaches_tracker. cbv zeta. destruct (ss_RawForward ss); [done|]. cbn [negb andb].
  destruct (whitelisted (ss_Matcher ss) entry); [done|]. cbn [negb andb].
  destruct (waf_step _ _ _ _ _) as [goes_on s2]. destruct goes_on; [|done]. cbn [negb andb fst snd].
  destruct (bot_step (ck_lookup now) (ck_store now) r (ss_Matcher ss) entry s2) as [[[fake ex]|] s3]; [|done]. intros _.
  pose proof (score_step_stored (ck_penalty now) (ck_score now) (ck_detect now) ss entry fake ex s3) as Hs.
  destruct (score_step (ck_penalty now) (ck_score now) (ck_detect now) ss entry fake ex s3) as [v s4].
  destruct Hs as [Hl (st & Hst & Hsc & _)].
  destruct (String.eqb_spec (v_level v) EmptyString) as [He|Hne]; intros [= <- <-]; exists st; (split; [done|]); rewrite Hsc, <- Hl; [done|].
  intros _. by do 2 eexists.
Qed.


(** A WAF drop of an untracked address leaves no trace: the drop score is
    written through the tracker, which does not know the address, and the gated
    line never reaches the tracker; so an address whose requests are all dropped
    never accumulates the score that the drop weight was aligned with the ban
    threshold for. *)
Theorem waf_drop_untracked_unscored now r sh ss evctx envelope entry s w :
  ss_RawForward ss = false -> whitelisted (ss_Matcher ss) entry = false ->
  ss_Waf ss = Some w -> wp_scoreFn w = Some tracker_ScoreFn ->
  le_RealIP entry <> EmptyString -> states (ps_tracker s) !! le_RealIP entry = None ->
  fst (waf_Process (ck_waf now) false w (mkEvent envelope (PLogEntry entry)) (ps_tracker s)) = WafDrop ->
  let '(ev, s') := Process now false r sh ss evctx envelope entry s in
  ev = None /\ ps_tracker s' = ps_tracker s.
Proof.
  intros Hraw Hwl Hw Hfn Hip Hun Hd. unfold Process. rewrite Hraw, Hwl. cbv zeta.
  destruct (chain_step_tracker sh evctx entry s) as [Hc _]. set (s1 := chain_step sh evctx entry s) in *.
  unfold waf_step. rewrite Hw, Hc.
  assert (Ht : snd (waf_Process (ck_waf now) false w (mkEvent envelope (PLogEntry entry)) (ps_tracker s)) = ps_tracker s).
  { assert (Hs : forall d, waf_signal (ck_waf now) w (mkEvent envelope (PLogEntry entry)) d (ps_tracker s) = ps_tracker s).
    { intros d. unfold waf_signal. rewrite Hfn. destruct (0 <? d)%Z; [|done].
      destruct (String.eqb _ _); [done|]. unfold clientIP. cbn [ev_Payload].
      apply String.eqb_neq in Hip. rewrite Hip. cbn [negb]. unfold tracker_ScoreFn, GetState. by rewrite Hun. }
    unfold waf_Process. destruct (if (_ <? _)%nat then _ else false); [done|].
    destruct (rs_Match (wp_gateRules w) _) as [n|]; [|done].
    destruct (String.eqb _ ActionDrop); [apply Hs|].
  destruct (String.eqb _ ActionTag); [done|]. destruct (HasPrefix _ _); [apply Hs|done]. }
  destruct (waf_Process (ck_waf now) false w _ (ps_tracker s)) as [verdict t']. cbn in Hd, Ht. subst verdict t'.
  done.
Qed.

End pipeline.

(** ** Witnesses *)

Definition ex_matcher : Matcher := mkMatcher [] {["192.0.2.1"]} [] [] ["/health"].

(** A scorer with one probe detector that reports at once. *)
Definition ex_scorer : Scorer IPState :=
  mkScorer 30 60 (5 * minute)
    [mkDetector "probe" (probe_Detect (mkProbeDetector 70 {["/.env"]} []))].

Definition ex_waf : WafProcessor (RE := ex_rule_engine) Tracker :=
  @mkWafProcessor ex_rule_engine Tracker [] [("shell", "/shell.php")] {["shell" := "drop"]}
    (Some tracker_ScoreFn) 60 ∅.

Definition ex_security : @securityState ex_rule_engine :=
  @mkSecurityState ex_rule_engine "web" "main" ex_scorer ex_matcher (Some ex_waf) 20 false.

Definition ex_shared : SharedResources := mkSharedResources None false.
Definition ex_evctx : EventContext := mkEventContext "access.log" "file".
Definition ex_envelope : Envelope := mkEnvelope "access.log" "file" "web" EmptyString 0.
Definition ex_ps : PipeState := mkPipeState ex_tracker ex_cache [].

Definition ex_line (path : string) : LogEntry := ex_entry "203.0.113.9" path 1000 404.

Definition ex_clock : LineClock := mkLineClock 2000 2001 2002 2003 2004 (fun _ => 2005%Z) 2006.

Lemma ex_neutral : Forall neutral (detectors (ss_Scorer ex_security)).
Proof.
  constructor; [|done]. apply (@builtin_neutral ex_waf_lower map_range_canonical). constructor.
Qed.

Definition ex_emitted : option Event * PipeState :=
  @Process ex_rule_engine ex_clock false ex_resolver ex_shared ex_security ex_evctx ex_envelope
    (ex_line "/.env") ex_ps.


Lemma waf_drop_untracked_unscored_witness :
  let '(ev, s') := @Process ex_rule_engine ex_clock false ex_resolver ex_shared ex_security ex_evctx ex_envelope
                     (ex_line "/shell.php") ex_ps in
  ev = None /\ ps_tracker s' = ps_tracker ex_ps.
Proof.
  apply (@waf_drop_untracked_unscored ex_rule_engine ex_clock ex_resolver ex_shared ex_security ex_evctx
    ex_envelope (ex_line "/shell.php") ex_ps ex_waf).
  - reflexivity.
  - vm_compute. reflexivity.
  - reflexivity.
  - reflexivity.
  - done.
  - vm_compute. reflexivity.
  - vm_compute. reflexivity.
Defined.
