(* ===== verification/EndToEnd.v ===== *)
(** * From a log line to the deny file

    The path of a ban through the components: the security processor scores the lines
    of a stream (Pipeline.v), the sentinel-threat sink writes each threat to a named
    queue, the event source of the executor reads it back (Format.v), and the nginx
    executor keeps the deny file (NginxExec.v). *)

From Stdlib Require Import ZArith Lia Ascii String.
From stdpp Require Import base numbers option list strings gmap fin_maps.
From S2P Require Import Prelude GoFloat GoStrings GoNet GoFmt GoValues GoTime GoJSON GoTimeJSON Model Tracker Scorer Whitelist ChainCheck Waf ExecCommon NginxExec Format Pipeline.

(** ** An executor within one TTL *)

(** The executor without expiry: its file is exact. *)
Section executor.
Context {MR : MapRange}.
Variable c : NginxConfig.
Hypothesis apart : paths_apart c.
(** The clock readings of the run; none is later than another by more than the TTL. *)
Variable times : list Time.
Hypothesis within : forall a b, a ∈ times -> b ∈ times -> nginx_expired a (nc_TTL c) b = false.

Notation file fs := (dom (listed c fs 0%Z)).

Record run_exact (r : NginxRun) (seen : gset string) : Prop := {
  rx_cfg : nx_cfg (nr_exec r) = c;
  rx_clean : all_clean (nx_banned (nr_exec r));
  rx_banned : dom (nx_banned (nr_exec r)) = seen;
  rx_times : forall ip t, nx_banned (nr_exec r) !! ip = Some t -> t ∈ times;
  rx_file : file (nr_fs r) ⊆ seen
}.

Lemma flush_exact env e fs buf seen : healthy env -> run_exact (mkNginxRun e fs buf) seen -> forall buf',
  let '(e', fs') := flushLocked env e fs in
  run_exact (mkNginxRun e' fs' buf') seen /\ file fs' = seen.
Proof.
  intros Hh [Hc Hcl Hb Ht Hf] buf'. cbn in *. unfold flushLocked.
  destruct (flush_cfg env (nx_banned e) e fs) as [Hcf Hbf].
  assert (Hfile : file (nginx_flush env (nx_banned e) e fs).2 = seen).
  { destruct (decide (nx_banned e = ∅)) as [He|Hne].
    - rewrite flush_nothing by by right. rewrite He, dom_empty_L in Hb. cbn. set_solver.
    - rewrite <- Hb, <- Hc. apply flush_listed; [done|by rewrite Hc|done|done]. }
  destruct (nginx_flush env (nx_banned e) e fs) as [e' fs']. cbn in *. split; [|done].
  split; cbn; [by rewrite Hcf|by rewrite Hbf|by rewrite Hbf|by rewrite Hbf|by rewrite Hfile].
Qed.

(** No ban expires. *)
Lemma sweep_idle now env e fs buf seen : now ∈ times -> run_exact (mkNginxRun e fs buf) seen ->
  nginx_sweep now env e fs = (e, fs).
Proof.
  intros Hn [Hc _ _ Ht _]. cbn in *. rewrite (sweep_stages). rewrite decide_True; [done|]. unfold survivors.
  apply map_filter_id. intros ip t Hip. cbn. rewrite Hc. by eauto.
Qed.

(** The addresses an input adds. *)
Definition bans (i : RunInput) : gset string :=
  match i with
  | InEvent ev => if meetsMinLevel (nc_MinLevel c) (te_Level ev) then {[te_IP ev]} else ∅
  | _ => ∅
  end.

Definition turn_ok (t : Time * NginxEnv * NginxEnv * RunInput) : Prop :=
  let '(now, _, _, _) := t in turn_healthy t /\ now ∈ times.

Lemma run_exact_stats f e fs buf seen : run_exact (mkNginxRun e fs buf) seen -> run_exact (mkNginxRun (nx_map_stats f e) fs buf) seen.
Proof. by intros []. Qed.

Definition is_closed (i : RunInput) : bool := match i with InClosed => true | _ => false end.

Lemma ban_exact now ev e fs buf seen : now ∈ times -> clean_addr (te_IP ev) = true -> run_exact (mkNginxRun e fs buf) seen ->
  forall buf', run_exact (mkNginxRun (nx_set_banned e (<[te_IP ev := now]> (nx_banned e))) fs buf') (seen ∪ {[te_IP ev]}).
Proof.
  intros Hn Hcl [Hc Hclean Hb Ht Hf] buf'. cbn in *. split; cbn; [done| | | |set_solver].
  - intros ip. destruct (decide (ip = te_IP ev)) as [->|Hne]; [done|]. rewrite lookup_insert_ne by done. apply Hclean.
  - rewrite dom_insert_L. set_solver.
  - intros ip t. rewrite lookup_insert_Some. intros [[_ <-]|[_ Hip]]; eauto.
Qed.

(** Every turn keeps the map exact, and the last one writes it out. *)
Lemma step_exact now env env' r i seen : turn_ok (now, env, env', i) -> run_exact r seen ->
  let '(r', stop) := nginx_step now env env' r i in
  run_exact r' (seen ∪ bans i) /\ stop = is_closed i /\ (stop = true -> file (nr_fs r') = seen ∪ bans i).
Proof.
  intros [(Hh & Hh' & Hi) Hn] Hr. destruct r as [e fs buf]. pose proof (flush_exact env e fs buf seen Hh Hr) as Hfl.
  assert (Hu : seen ∪ ∅ = seen) by set_solver. pose proof (rx_cfg _ _ Hr) as Hcfg. cbn in Hcfg.
  destruct i as [ev| | | |]; [| | | |done]; cbn [nginx_step bans is_closed nr_exec nr_fs nr_buffer]; rewrite ?Hu.
  - rewrite Hcfg. destruct (meetsMinLevel _ _); cbn [negb]; [|rewrite Hu; split; [by apply run_exact_stats|done]].
    destruct (nginx_isDuplicate e (te_IP ev)) eqn:Hd.
    { replace (seen ∪ {[te_IP ev]}) with seen; [split; [by apply run_exact_stats|done]|].
      unfold nginx_isDuplicate in Hd. destruct (nx_banned e !! te_IP ev) eqn:Hip; [|done]. apply elem_of_dom_2 in Hip.
      pose proof (rx_banned _ _ Hr) as Hb. cbn in Hb. set_solver. }
    pose proof (ban_exact now ev e fs buf seen Hn Hi Hr) as Hban. destruct (_ <=? _)%Z; [|by split].
    pose proof (flush_exact env _ fs [] _ Hh (Hban []) []) as Hf1. clear Hfl. destruct (flushLocked _ _ _). by destruct Hf1.
  - destruct (0 <? _)%nat; [|by split]. specialize (Hfl []). destruct (flushLocked _ _ _). by destruct Hfl.
  - by rewrite (sweep_idle now env e fs buf seen Hn Hr).
  - specialize (Hfl buf). destruct (flushLocked _ _ _) as [e1 fs1]. destruct Hfl as [Hr1 Hf1].
    by rewrite (sweep_idle now env' e1 fs1 buf seen Hn Hr1).
Qed.

(** The executor of a source that closes after its last event. *)
Lemma loop_exact turns r seen : Forall turn_ok turns -> run_exact r seen ->
  (exists turns' t, turns = turns' ++ [t] /\ is_closed t.2 = true /\ Forall (fun t => is_closed t.2 = false) turns') ->
  exists r', nginx_loop r turns = (r', true) /\ file (nr_fs r') = seen ∪ ⋃ (bans <$> turns.*2).
Proof.
  intros Ht Hr (turns' & t & -> & Hlast & Hmore). revert r seen Hr. induction turns' as [|[[[now env] env'] i] turns' IH]; intros r seen Hr.
  - destruct t as [[[now env] env'] i]. cbn [app] in *. apply Forall_cons in Ht as [Ht _]. cbn [nginx_loop].
    pose proof (step_exact now env env' r i seen Ht Hr) as Hs. destruct (nginx_step _ _ _ _ _) as [r' stop].
    destruct Hs as (_ & Hst & Hf). cbn in Hlast. rewrite Hlast in Hst. subst stop. exists r'. split; [done|]. rewrite Hf by done.
    cbn. set_solver.
  - cbn [app] in *. apply Forall_cons in Ht as [Ht1 Ht]. apply Forall_cons in Hmore as [Hm1 Hmore]. cbn in Hm1. cbn [nginx_loop].
    pose proof (step_exact now env env' r i seen Ht1 Hr) as Hs. destruct (nginx_step _ _ _ _ _) as [r' stop].
    destruct Hs as (Hr' & Hst & _). rewrite Hm1 in Hst. subst stop.
    destruct (IH Ht Hmore r' _ Hr') as (r2 & Hl & Hf). exists r2. split; [done|]. rewrite Hf. cbn. set_solver.
Qed.
End executor.

(** ** The lines of a stream *)

Section stream.
Context {RE : RuleEngine} {UP : UnicodePrint} {MR : MapRange}.
Variable entry_json : LogEntry -> string.
Context (r : Resolver) (sh : SharedResources) (ss : securityState) (evctx : EventContext) (envelope : Envelope).

(** The lines in order, each with its clock readings; the events with their lines. *)
Fixpoint stream_events (lines : list (LineClock * LogEntry)) (s : PipeState) : list (LogEntry * Event) * PipeState :=
  match lines with
  | [] => ([], s)
  | (now, entry) :: lines' =>
      let '(ev, s1) := Process now false r sh ss evctx envelope entry s in
      let '(evs, s2) := stream_events lines' s1 in
      (match ev with Some ev => (entry, ev) :: evs | None => evs end, s2)
  end.

(** What the executor behind the queue receives for an event of the sink. *)
Definition received (stream : string) (ev : Event) : option ThreatEvent :=
  match Pop (Format entry_json (SentinelFormatter stream) (Some ev)) with
  | inr (mkEvent _ (PThreat te)) => Some te
  | _ => None
  end.

(** Texts that survive the queue, and an address that survives a line of the file. *)
Definition threat_ok (ev : Event) : Prop :=
  match ev_Payload ev with
  | PThreat te => clean_addr (te_IP te) = true /\ valid_utf8 (te_Reason te) = true /\ forallb valid_utf8 (te_Modules te) = true /\
      in_int64 (te_Score te)
  | _ => True
  end.

Lemma levelFor_utf8 (sc : Scorer IPState) z : valid_utf8 (levelFor sc z) = true.
Proof. unfold levelFor. by destruct (_ <=? _)%Z; [|destruct (_ <=? _)%Z]. Qed.

(** Every emitted event is the threat of its line and reaches the executor with the
    line's address and level. *)
Lemma stream_received lines s stream : ss_RawForward ss = false -> valid_utf8 stream = true ->
  forall entry ev, (entry, ev) ∈ (stream_events lines s).1 -> threat_ok ev -> exists te te',
    ev_Payload ev = PThreat te /\ te_IP te = le_RealIP entry /\ te_Level te = levelFor (ss_Scorer ss) (te_Score te) /\
    clean_addr (te_IP te) = true /\ received stream ev = Some te' /\ te_IP te' = te_IP te /\ te_Level te' = te_Level te.
Proof.
  intros Hraw Hst. revert s. induction lines as [|[now entry] lines IH]; intros s entry' ev; cbn [stream_events]; [by intros ?%elem_of_nil|].
  destruct (Process now false r sh ss evctx envelope entry s) as [oev s1] eqn:Hp.
  specialize (IH s1). destruct (stream_events lines s1) as [evs s2]. cbn [fst] in *.
  destruct oev as [ev1|]; [|apply IH]. rewrite elem_of_cons. intros [[= -> ->]|Hin] Hok; [|by eapply IH].
  destruct (process_emits _ _ _ _ _ _ _ _ _ _ _ Hraw Hp) as (v & Hpay & _ & Hl & _).
  destruct ev1 as [env pay]. cbn in Hpay, Hok. subst pay. destruct Hok as (Hc & Hr & Hm & Hsc). cbn in Hc, Hr, Hm, Hsc.
  do 2 eexists. unfold received. rewrite pop_formatted; cbn; [done|by apply clean_utf8|rewrite Hl; apply levelFor_utf8|done..].
Qed.

Definition event_of (i : RunInput) : option ThreatEvent := match i with InEvent te => Some te | _ => None end.

(** The executor's loop between its start and the end of its source. *)
Definition before_close (i : RunInput) : bool := match i with InClosed | InDone => false | _ => true end.

Lemma bans_spec c inputs ip : ip ∈ ⋃ (bans c <$> inputs) <->
  exists te, te ∈ omap event_of inputs /\ meetsMinLevel (nc_MinLevel c) (te_Level te) = true /\ te_IP te = ip.
Proof.
  rewrite elem_of_union_list. split.
  - intros (X & (i & -> & Hi)%list_elem_of_fmap & Hip). destruct i as [te| | | |]; cbn in Hip; try set_solver.
    destruct (meetsMinLevel _ _) eqn:Hm; [|set_solver]. apply elem_of_singleton in Hip as ->.
    exists te. split; [|done]. apply list_elem_of_omap. by exists (InEvent te).
  - intros (te & (i & Hi & Hte)%list_elem_of_omap & Hm & <-). exists (bans c i). split; [by apply list_elem_of_fmap_2|].
    destruct i; cbn in Hte; try done. injection Hte as ->. cbn. rewrite Hm. set_solver.
Qed.

(** The sentences of a stream, as the executor sees them and as the scorer passed them. *)
Lemma sentences lines s stream c ip : ss_RawForward ss = false -> valid_utf8 stream = true ->
  Forall threat_ok ((stream_events lines s).1).*2 ->
  (exists te', te' ∈ omap (received stream) ((stream_events lines s).1).*2 /\
     meetsMinLevel (nc_MinLevel c) (te_Level te') = true /\ te_IP te' = ip) <->
  exists entry ev te, (entry, ev) ∈ (stream_events lines s).1 /\ ev_Payload ev = PThreat te /\ le_RealIP entry = ip /\
    meetsMinLevel (nc_MinLevel c) (levelFor (ss_Scorer ss) (te_Score te)) = true.
Proof.
  intros Hraw Hst Hok. rewrite Forall_fmap, Forall_forall in Hok. split.
  - intros (te' & (ev & ([entry ev'] & -> & Hin)%list_elem_of_fmap & Hrec)%list_elem_of_omap & Hm & <-). cbn in Hrec.
    destruct (stream_received lines s stream Hraw Hst entry ev' Hin (Hok _ Hin)) as (te & te2 & Hpay & Hip & Hl & _ & Hrec2 & Hip2 & Hl2).
    rewrite Hrec in Hrec2. injection Hrec2 as ->. exists entry, ev', te. by rewrite <- Hl, <- Hl2, Hip2.
  - intros (entry & ev & te & Hin & Hpay & <- & Hm).
    destruct (stream_received lines s stream Hraw Hst entry ev Hin (Hok _ Hin)) as (te1 & te2 & Hpay1 & Hip & Hl & _ & Hrec & Hip2 & Hl2).
    rewrite Hpay in Hpay1. injection Hpay1 as <-. exists te2. split; [|by rewrite Hl2, Hl, Hip2].
    apply list_elem_of_omap. exists ev. split; [|done]. apply list_elem_of_fmap. by exists (entry, ev).
Qed.

(** A line that the stream scored, with the addresses and histories the lines before it
    left, and whose score the executor of [c] bans. *)
Definition rated (c : NginxConfig) (lines : list (LineClock * LogEntry)) (s : PipeState) (ip : string) : Prop :=
  exists pre now entry post st, lines = pre ++ (now, entry) :: post /\ le_RealIP entry = ip /\
    reaches_tracker now false r sh ss evctx envelope entry (stream_events pre s).2 = true /\
    states (ps_tracker (stream_events (pre ++ [(now, entry)]) s).2) !! ip = Some st /\
    meetsMinLevel (nc_MinLevel c) (levelFor (ss_Scorer ss) (score st)) = true.

Lemma rated_cons c now entry lines s ip : rated c ((now, entry) :: lines) s ip <->
  (reaches_tracker now false r sh ss evctx envelope entry s = true /\ le_RealIP entry = ip /\
   exists st, states (ps_tracker (Process now false r sh ss evctx envelope entry s).2) !! ip = Some st /\
     meetsMinLevel (nc_MinLevel c) (levelFor (ss_Scorer ss) (score st)) = true) \/
  rated c lines (Process now false r sh ss evctx envelope entry s).2 ip.
Proof.
  assert (Hst : forall l, (stream_events ((now, entry) :: l) s).2 = (stream_events l (Process now false r sh ss evctx envelope entry s).2).2).
  { intros l. cbn [stream_events]. destruct (Process now false r sh ss evctx envelope entry s) as [? s1]. cbn [snd]. by destruct (stream_events l s1). }
  split.
  - intros ([|[now' entry'] pre] & n & e & post & st & Hl & He & Hr & Hs & Hm); cbn [app] in Hl; simplify_eq.
    + left. cbn [app] in Hs. rewrite Hst in Hs. split; [done|]. split; [done|]. by exists st.
    + right. cbn [app] in Hs. rewrite Hst in Hr, Hs. by exists pre, n, e, post, st.
  - intros [(Hr & He & st & Hs & Hm)|(pre & n & e & post & st & -> & He & Hr & Hs & Hm)].
    + exists [], now, entry, lines, st. cbn [app]. by rewrite Hst.
    + exists ((now, entry) :: pre), n, e, post, st. cbn [app]. by rewrite !Hst.
Qed.

(** The threats of a stream are the lines it rated. *)
Lemma rated_events c lines ip : ss_RawForward ss = false -> forall s,
  (exists entry ev te, (entry, ev) ∈ (stream_events lines s).1 /\ ev_Payload ev = PThreat te /\ le_RealIP entry = ip /\
    meetsMinLevel (nc_MinLevel c) (levelFor (ss_Scorer ss) (te_Score te)) = true) <-> rated c lines s ip.
Proof.
  intros Hraw. induction lines as [|[now entry] lines IH]; intros s.
  { split; [by intros (? & ? & ? & ?%elem_of_nil & _)|]. by intros ([|] & ? & ? & ? & ? & ? & _). }
  rewrite rated_cons. cbn [stream_events]. destruct (Process now false r sh ss evctx envelope entry s) as [oev s1] eqn:Hp.
  rewrite <- (IH s1). cbn [snd]. destruct (stream_events lines s1) as [evs s2]. cbn [fst]. split.
  - intros (e & ev & te & Hin & Hpay & He & Hm). destruct oev as [ev1|]; [|right; by exists e, ev, te].
    apply elem_of_cons in Hin as [[= -> ->]|Hin]; [left|right; by exists e, ev, te].
    destruct (process_emits _ _ _ _ _ _ _ _ _ _ _ Hraw Hp) as (v & Hpay' & _ & _ & _ & (st & Hst & Hsc & _) & Hr).
    rewrite Hpay in Hpay'. injection Hpay' as ->. split; [done|]. split; [done|]. exists st. rewrite <- He, Hsc. done.
  - intros [(Hr & He & st & Hst & Hm)|(e & ev & te & Hin & Hrest)]; [|exists e, ev, te; split; [by destruct oev; [right|]|done]].
    destruct (process_scores _ _ _ _ _ _ _ _ _ _ _ Hr Hp) as (st' & Hst' & Hem). rewrite He, Hst in Hst'. injection Hst' as <-.
    destruct Hem as (ev & te & -> & Hpay & Hsc); [by intros H0; rewrite H0 in Hm|].
    exists entry, ev, te. split; [left|]. by rewrite Hsc.
Qed.

(** An executor that finds no list file starts without bans. *)
Lemma no_list_file now c fs : fs !! nc_ListFile c = None ->
  nginx_syncExisting now (mkNginxExecutor c ∅ stats_zero) fs = mkNginxExecutor c ∅ stats_zero.
Proof. intros Hfs. unfold nginx_syncExisting. cbn. by rewrite Hfs. Qed.

Lemma turns_ok lines s stream turns : ss_RawForward ss = false -> valid_utf8 stream = true ->
  Forall threat_ok ((stream_events lines s).1).*2 ->
  Forall (fun turn : Time * NginxEnv * NginxEnv * RunInput => healthy turn.1.1.2 /\ healthy turn.1.2) turns ->
  Forall (fun turn => turn.2 <> InDone) turns ->
  omap event_of turns.*2 = omap (received stream) ((stream_events lines s).1).*2 ->
  Forall (turn_ok turns.*1.*1.*1) turns.
Proof.
  intros Hraw Hst Hok Hh Hd Hev. rewrite !Forall_forall in *. intros [[[now env] env'] i] Hin. split.
  - destruct (Hh _ Hin) as [H1 H2]. specialize (Hd _ Hin). split; [done|]. split; [done|]. destruct i as [te| | | |]; [|done..|by destruct Hd].
    assert (Hte : te ∈ omap event_of turns.*2).
    { apply list_elem_of_omap. exists (InEvent te). split; [|done]. apply list_elem_of_fmap. by exists (now, env, env', InEvent te). }
    rewrite Hev in Hte. apply list_elem_of_omap in Hte as (ev & ([entry ev'] & -> & Hin')%list_elem_of_fmap & Hrec). cbn in Hrec.
    destruct (stream_received lines s stream Hraw Hst entry ev' Hin') as (te1 & te2 & _ & _ & _ & Hc & Hrec2 & Hip2 & _).
    { apply Hok. apply list_elem_of_fmap. by exists (entry, ev'). }
    rewrite Hrec in Hrec2. injection Hrec2 as ->. by rewrite Hip2.
  - apply list_elem_of_fmap. exists (now, env). split; [done|]. apply list_elem_of_fmap. exists (now, env, env'). split; [done|].
    apply list_elem_of_fmap. by exists (now, env, env', i).
Qed.

(** C3: from the log line to the deny file. A stream that scores (RawForward off) processes any lines; its threats pass through the queue to an nginx executor that starts without a list file and reads the queue to its end, with any flush and sweep ticks in between. Then the executor returns and the file lists an address exactly when some line of that client reached the scorer (not whitelisted, not stopped by the WAF, not of a verified bot, in the state the lines before it left) and the score the tracker holds for the address after that line has a level, under the thresholds of the stream, at or above the executor's minimum: every such address is there, and no other. It holds when the threats' addresses are visible ASCII of at most 60,000 characters and no comment, their texts and the stream's name are valid UTF-8 and their scores are int64; when the executor's flush interval is positive, its batch size not negative, and its list and state file do not collide; when the list file can be written and the run is not cancelled; and when no two clock readings of the executor are a TTL apart. *)
Theorem log_to_deny_file lines s stream c now fs front t env env' :
  ss_RawForward ss = false -> valid_utf8 stream = true -> Forall threat_ok ((stream_events lines s).1).*2 ->
  (0 < nc_FlushInterval c)%Z -> (0 <= nc_BatchSize c)%Z -> paths_apart c -> fs !! nc_ListFile c = None ->
  let turns := front ++ [(t, env, env', InClosed)] in
  (forall a b, a ∈ turns.*1.*1.*1 -> b ∈ turns.*1.*1.*1 -> nginx_expired a (nc_TTL c) b = false) ->
  Forall (fun turn => healthy turn.1.1.2 /\ healthy turn.1.2) turns ->
  Forall (fun turn => before_close turn.2 = true) front ->
  omap event_of front.*2 = omap (received stream) ((stream_events lines s).1).*2 ->
  exists run, nginx_Run now (mkNginxExecutor c ∅ stats_zero) fs turns = Some (run, true) /\
    forall ip, ip ∈ dom (listed c (nr_fs run) 0%Z) <-> rated c lines s ip.
Proof.
  intros Hraw Hst Hok Hfi Hbs Hp Hfs turns Hw Hh Hfront Hev. unfold nginx_Run. cbn [nx_cfg].
  apply Z.leb_gt in Hfi. apply Z.ltb_ge in Hbs. rewrite Hfi, Hbs. cbn [orb]. rewrite no_list_file by done.
  assert (Hev' : omap event_of turns.*2 = omap (received stream) ((stream_events lines s).1).*2).
  { unfold turns. by rewrite fmap_app, omap_app, Hev, app_nil_r. }
  assert (Hd : Forall (fun turn => turn.2 <> InDone) turns).
  { apply Forall_app. split; [|by repeat constructor]. eapply Forall_impl; [exact Hfront|]. by intros [? []]. }
  destruct (loop_exact c Hp turns.*1.*1.*1 Hw turns
    (mkNginxRun (mkNginxExecutor c ∅ stats_zero) fs []) ∅) as (run & Hrun & Hfile).
  - by eapply turns_ok.
  - split; cbn; [done|by intros ip [? ?]|done|done|]. unfold listed. rewrite no_list_file by done. done.
  - exists front, (t, env, env', InClosed). split; [done|]. split; [done|]. eapply Forall_impl; [exact Hfront|]. by intros [? []].
  - exists run. split; [by rewrite Hrun|]. intros ip. rewrite Hfile, <- rated_events, <- sentences by done. rewrite <- Hev', <- bans_spec. set_solver.
Qed.
End stream.

(** ** Witness *)

Definition ex_lines : list (LineClock * LogEntry) := [(ex_clock, ex_line "/"); (ex_clock, ex_line "/.env")].

Definition ex_received : ThreatEvent := mkThreatEvent 0 "THREAT" "" "web" "" "203.0.113.9" 70 ["probe"] "probe:probe:/.env" "".

(** The event, a sweep, a flush tick, and the end of the queue. *)
Definition ex_front : list (Time * NginxEnv * NginxEnv * RunInput) :=
  [(1%Z, NginxExec.ex_env, NginxExec.ex_env, InEvent ex_received); (2%Z, NginxExec.ex_env, NginxExec.ex_env, InSweepTick);
   (3%Z, NginxExec.ex_env, NginxExec.ex_env, InFlushTick)].

Lemma log_to_deny_file_witness : exists run,
  @nginx_Run map_range_canonical 0 (mkNginxExecutor (ex_nginx_cfg "/s") ∅ stats_zero) ∅
    (ex_front ++ [(4%Z, NginxExec.ex_env, NginxExec.ex_env, InClosed)]) = Some (run, true) /\
  "203.0.113.9" ∈ dom (listed (ex_nginx_cfg "/s") (nr_fs run) 0%Z).
Proof.
  destruct (@log_to_deny_file ex_rule_engine Format.ex_print map_range_canonical (fun _ => "")
    ex_resolver ex_shared ex_security ex_evctx ex_envelope ex_lines ex_ps "web" (ex_nginx_cfg "/s") 0 ∅ ex_front 4
    NginxExec.ex_env NginxExec.ex_env) as (run & Hrun & Hip).
  - reflexivity.
  - reflexivity.
  - apply (Forall_forall _ _). intros ev Hev. vm_compute in Hev. apply list_elem_of_singleton in Hev as ->. vm_compute. repeat split; done.
  - done.
  - done.
  - exact ex_paths.
  - reflexivity.
  - intros a b Ha Hb. apply list_elem_of_In in Ha, Hb. cbn in Ha, Hb. intuition (subst; reflexivity).
  - repeat (apply Forall_cons_2; [split; exact ex_healthy|]); apply Forall_nil_2.
  - repeat (apply Forall_cons_2; [done|]); apply Forall_nil_2.
  - vm_compute. reflexivity.
  - exists run. split; [exact Hrun|]. apply Hip.
    exists [(ex_clock, ex_line "/")], ex_clock, (ex_line "/.env"), []. eexists. split; [reflexivity|]. split; [reflexivity|].
    split; [vm_compute; reflexivity|]. split; [vm_compute; reflexivity|]. vm_compute. reflexivity.
Defined.
