(* ===== verification/Factory.v ===== *)
(** * The security factory (cmd/arxsentinel/processor_factory.go, builders.go, helpers.go)

    Per stream, the factory builds the state of each pipeline from the
    configuration ([Build]) and rebuilds it on SIGHUP ([Reload]): matcher, detectors,
    scorer, WAF, and the tracker of the pipeline's group.  A tracker is a shared
    object: the factory owns the trackers by group and a built state names its
    group.  The detector registry, the typed parameter getters and the YAML codec
    of the WAF section belong to other modules and are parameters. *)

From Stdlib Require Import ZArith Lia Ascii String Floats.SpecFloat.
From stdpp Require Import base numbers option list strings gmap fin_maps sorting.
From S2P Require Import Prelude GoFloat GoStrings GoNet GoValues GoFmt GoTime Model Tracker Scorer Detectors Crawler Whitelist ChainCheck Blocklist ExecCommon Waf Pipeline ConfigTypes ConfigEnv ConfigLoad.

(** ** Detector specifications *)

(** [detector.DetectorConfig] of the core module. *)
Record DetectorSpec := mkDetectorSpec {
  spec_Enabled : bool;
  spec_Params : Params;
  spec_Exec : string
}.

Definition global_spec (enabled : bool) (params : list (string * GoAny)) : DetectorSpec :=
  mkDetectorSpec enabled (list_to_map params) "".

Definition globalDetectorSpecs (cfg : Config) : gmap string DetectorSpec :=
  let d := c_Detectors cfg in
  list_to_map [
    ("probe", global_spec (pb_Enabled (ds_Probe d))
       [("score", AnyInt (pb_Score (ds_Probe d))); ("paths", AnyStrings (pb_Paths (ds_Probe d)))]);
    ("rate", global_spec (rt_Enabled (ds_Rate d))
       [("threshold", AnyInt (rt_Threshold (ds_Rate d)));
        ("window", AnyString (Duration_String (rt_Window (ds_Rate d))));
        ("score", AnyInt (rt_Score (ds_Rate d)))]);
    ("ua", global_spec (ua_Enabled (ds_UserAgent d))
       [("scanner_score", AnyInt (ua_ScannerScore (ds_UserAgent d)));
        ("grabber_score", AnyInt (ua_GrabberScore (ds_UserAgent d)));
        ("automation_score", AnyInt (ua_AutomationScore (ds_UserAgent d)));
        ("empty_ua_score", AnyInt (ua_EmptyUAScore (ds_UserAgent d)));
        ("extra_scanner_patterns", AnyStrings (ua_ExtraScannerPatterns (ds_UserAgent d)));
        ("extra_grabber_patterns", AnyStrings (ua_ExtraGrabberPatterns (ds_UserAgent d)));
        ("extra_automation_patterns", AnyStrings (ua_ExtraAutomationPatterns (ds_UserAgent d)))]);
    ("bruteforce", global_spec (bf_Enabled (ds_Bruteforce d))
       [("min_requests", AnyInt (bf_MinRequests (ds_Bruteforce d)));
        ("ratio_threshold", AnyFloat (bf_RatioThreshold (ds_Bruteforce d)));
        ("score", AnyInt (bf_Score (ds_Bruteforce d)))]);
    ("crawler", global_spec (cr_Enabled (ds_Crawler d))
       [("min_sequential", AnyInt (cr_MinSequential (ds_Crawler d)));
        ("score", AnyInt (cr_Score (ds_Crawler d)))]);
    ("noasset", global_spec (na_Enabled (ds_NoAsset d))
       [("min_page_requests", AnyInt (na_MinPageRequests (ds_NoAsset d)));
        ("asset_ratio_threshold", AnyFloat (na_AssetRatioThreshold (ds_NoAsset d)));
        ("score", AnyInt (na_Score (ds_NoAsset d)));
        ("asset_extensions", AnyStrings (na_AssetExtensions (ds_NoAsset d)))]);
    ("overflow", global_spec (ov_Enabled (ds_Overflow d))
       [("max_url_length", AnyInt (ov_MaxURLLength (ds_Overflow d)));
        ("suspicious_params", AnyStrings (ov_SuspiciousParams (ds_Overflow d)));
        ("score", AnyInt (ov_Score (ds_Overflow d)))]);
    ("badbot", global_spec (bb_Enabled (ds_BadBot d))
       [("check_ua", AnyBool (bb_CheckUA (ds_BadBot d)));
        ("check_referrer", AnyBool (bb_CheckReferrer (ds_BadBot d)));
        ("score", AnyInt (bb_Score (ds_BadBot d)))])].

Definition spec_of (dc : ConfigTypes.DetectorConfig) : DetectorSpec :=
  mkDetectorSpec (dc_Enabled dc) (dc_Params dc) (dc_Exec dc).

Definition string_le (a b : string) : Prop := String.leb a b = true.
#[export] Instance string_le_dec : RelDecision string_le.
Proof. intros a b. unfold string_le. apply _. Defined.

(** [sort.Strings] of the keys of a map. *)
Definition sorted_names {A} (m : gmap string A) : list string := merge_sort string_le (map_to_list m).*1.

(** [pkgdetector.Build]: an error, [None] for a disabled detector, or the
    detector; [shared] is the blocklist matcher, nil when there is no manager. *)
Class DetectorRegistry := {
  detector_Build : string -> DetectorSpec -> option BlocklistMatcher -> string + option (Detector IPState)
}.

Definition pipeline_specs (cfg : Config) (pipeCfg : PipelineConfig) : gmap string DetectorSpec :=
  match pl_Detectors pipeCfg with
  | None => globalDetectorSpecs cfg
  | Some m => spec_of <$> m
  end.

(** A detector that fails to build is skipped, like a disabled one. *)
Definition built_detector `{DetectorRegistry} (specs : gmap string DetectorSpec)
    (shared : option BlocklistMatcher) (name : string) : option (Detector IPState) :=
  spec ← specs !! name;
  match detector_Build name spec shared with
  | inl _ => None
  | inr d => d
  end.

Definition buildPipelineDetectors `{DetectorRegistry} (cfg : Config) (pipeCfg : PipelineConfig)
    (shared : option BlocklistMatcher) : list (Detector IPState) :=
  let specs := pipeline_specs cfg pipeCfg in
  omap (built_detector specs shared) (sorted_names specs).

(** ** Lookups *)

Definition resolveTrackerGroup (c : PipelineConfig) : string :=
  if negb (empty (pl_TrackerGroup c)) then pl_TrackerGroup c else pl_Name c.

Definition findPipelineCfg (sc : StreamConfig) (name : string) (idx : nat) (fallback : PipelineConfig)
  : PipelineConfig :=
  if negb (empty name) then
    default fallback (List.find (fun p => String.eqb (pl_Name p) name) (st_Pipelines sc))
  else default fallback (st_Pipelines sc !! idx).

Definition findStreamCfg (cfg : Config) (name : string) : option StreamConfig :=
  List.find (fun s => String.eqb (st_Name s) name) (c_Streams cfg).

Definition streamConfigFromOld (streamName : string) : StreamConfig := stream_literal streamName "" "".
Definition oldPipeConfigFromOld (pipelineName : string) : PipelineConfig :=
  pipeline_literal pipelineName [] [] (mkPipelineRuntimeConfig 0 0).

Section factory.
Context {RE : RuleEngine} {UL : UnicodeLower} {UP : UnicodePrint} {DR : DetectorRegistry}.
(** The YAML round trip of the [waf_config] map. *)
Context (waf_decode : list (string * GoAny) -> string + WafConfig Tracker).

(** ** State of a factory *)

(** What [NewTracker] and [Reconfigure] read from the configuration. *)
Definition tracker_config (cfg : Config) : TrackerConfig :=
  mkTrackerConfig (se_MaxTrackedIPs (c_State cfg)) (rt_Window (ds_Rate (c_Detectors cfg)))
    (sg_ObservationWindow (c_Scoring cfg)).

(** The configuration snapshot, the trackers by group, and the collectors that
    were started, with their interval. *)
Record SecurityFactory := mkSecurityFactory {
  sf_cfg : Config;
  sf_trackers : gmap string Tracker;
  sf_collectors : list (string * Duration)
}.

(** A built state: the tracker is the one of [bs_group]. *)
Record BuiltState := mkBuiltState {
  bs_state : securityState;
  bs_PipelineIdx : nat;
  bs_group : string;
  bs_DNSVerifyTimeout : Duration
}.

Definition getOrCreateTracker (group : string) (cfg : Config) (f : SecurityFactory) : SecurityFactory :=
  match sf_trackers f !! group with
  | Some _ => f
  | None => mkSecurityFactory (sf_cfg f) (<[group := NewTracker (tracker_config cfg)]> (sf_trackers f))
              (sf_collectors f ++ [(group, se_GCInterval (c_State cfg))])
  end.

(** ** The WAF of a pipeline *)

(** The dynamic type in the error message. *)
Definition any_type (v : GoAny) : string :=
  match v with
  | AnyBool _ => "bool"
  | AnyInt _ => "int"
  | AnyInt64 _ => "int64"
  | AnyFloat _ => "float64"
  | AnyString _ => "string"
  | AnyDuration _ => "time.Duration"
  | AnyStrings _ => "[]string"
  | AnyList _ => "[]interface {}"
  | AnyMap _ => "map[string]interface {}"
  | AnyNil => "<nil>"
  end.

(** The drop weight falls back to the ban threshold; the score sink is bound to
    the tracker of the group. The text of a rule error is not modelled. *)
Definition finish_waf (banThreshold : Z) (c : WafConfig Tracker) : string + option (WafProcessor Tracker) :=
  let drop := if ((wc_DropScore c =? 0) && (0 <? banThreshold))%Z then banThreshold else wc_DropScore c in
  match NewWafProcessor (mkWafConfig (wc_Rules c) drop (wc_TagWeights c) (Some tracker_ScoreFn)) with
  | Some w => mret (Some w)
  | None => inl "waf: rule error"
  end.

(** A decoded configuration holds no Go value of type waf.Config, so that case of the
    source does not arise. *)
Definition buildWafProcessor (processors : list ProcessorConfig) (banThreshold : Z)
  : string + option (WafProcessor Tracker) :=
  match List.find (fun pc => String.eqb (pc_Plugin pc) "waf") processors with
  | None => mret None
  | Some pc =>
      match pc_Params pc !! "waf_config" with
      | None => inl ("waf: plugin entry missing required key " +:+ Quote "waf_config")
      | Some (AnyMap m) => c ← wrap_err "waf: unmarshal waf_config: " (waf_decode m); finish_waf banThreshold c
      | Some v => inl ("waf: waf_config must be a map or waf.Config (got " +:+ any_type v +:+ ")")
      end
  end.

(** ** Build *)

Definition whitelist_matcher (w : WhitelistConfig) : string + Matcher := NewMatcher (wl_Bots w) (wl_Custom w).

Definition new_scorer (cfg : Config) (ds : list (Detector IPState)) : Scorer IPState :=
  NewScorer (sg_AlertThreshold (c_Scoring cfg)) (sg_BanThreshold (c_Scoring cfg))
    (sg_ObservationWindow (c_Scoring cfg)) ds.

(** The pieces [Build] and [Reload] assemble from a configuration. *)
Definition assemble (cfg : Config) (pipeCfg : PipelineConfig) (streamName pipeName : string) (idx : nat)
    (group : string) (matcher : Matcher) (ds : list (Detector IPState)) (waf : option (WafProcessor Tracker))
  : BuiltState :=
  mkBuiltState
    (mkSecurityState streamName pipeName (new_scorer cfg ds) matcher waf
       (wl_FakeBotScore (c_Whitelist cfg)) (pl_RawForward pipeCfg))
    idx group (wl_DNSVerifyTimeout (c_Whitelist cfg)).

(** [None] is a panic: the fallback indexes the pipelines of the stream. *)
Definition Build (streamName pipeName : string) (pipeIdx : nat) (shared : option BlocklistMatcher)
    (f : SecurityFactory) : option (SecurityFactory * (string + BuiltState)) :=
  let cfg := sf_cfg f in
  match findStreamCfg cfg streamName with
  | None => Some (f, inl ("stream " +:+ Quote streamName +:+ " not found in config"))
  | Some streamCfg =>
      fallback ← st_Pipelines streamCfg !! pipeIdx;
      let pipeCfg := findPipelineCfg streamCfg pipeName pipeIdx fallback in
      match whitelist_matcher (c_Whitelist cfg) with
      | inl e => Some (f, inl ("whitelist init error: " +:+ e))
      | inr matcher =>
          let ds := buildPipelineDetectors cfg pipeCfg shared in
          let group := resolveTrackerGroup pipeCfg in
          let f' := getOrCreateTracker group cfg f in
          Some (f', match buildWafProcessor (default [] (pl_Processors pipeCfg))
                            (sg_BanThreshold (c_Scoring cfg)) with
                    | inl e => inl ("waf init error: " +:+ e)
                    | inr waf => inr (assemble cfg pipeCfg streamName pipeName pipeIdx group matcher ds waf)
                    end)
      end
  end.

(** ** Reload *)

(** The stream and pipeline of a state in a new configuration. *)
Definition reload_pipeCfg (newCfg : Config) (old : BuiltState) : PipelineConfig :=
  let ss := bs_state old in
  let streamCfg := default (streamConfigFromOld (ss_StreamName ss)) (findStreamCfg newCfg (ss_StreamName ss)) in
  findPipelineCfg streamCfg (ss_PipelineName ss) (bs_PipelineIdx old) (oldPipeConfigFromOld (ss_PipelineName ss)).

(** [load] is the result of [config.LoadConfig]. *)
Definition Reload (load : string + Config) (shared : option BlocklistMatcher) (old : BuiltState)
    (f : SecurityFactory) : SecurityFactory * (string + BuiltState) :=
  match load with
  | inl e => (f, inl ("SIGHUP reload error: " +:+ e))
  | inr newCfg =>
      match whitelist_matcher (c_Whitelist newCfg) with
      | inl e => (f, inl ("SIGHUP whitelist error: " +:+ e))
      | inr matcher =>
          let pipeCfg := reload_pipeCfg newCfg old in
          let ds := buildPipelineDetectors newCfg pipeCfg shared in
          let f' := mkSecurityFactory newCfg
                      (alter (Reconfigure (tracker_config newCfg)) (bs_group old) (sf_trackers f))
                      (sf_collectors f) in
          (f', match buildWafProcessor (default [] (pl_Processors pipeCfg))
                       (sg_BanThreshold (c_Scoring newCfg)) with
               | inl e => inl ("waf reload error: " +:+ e)
               | inr waf => inr (assemble newCfg pipeCfg (ss_StreamName (bs_state old))
                                   (ss_PipelineName (bs_state old)) (bs_PipelineIdx old) (bs_group old)
                                   matcher ds waf)
               end)
      end
  end.

(** ** Histories of a factory *)

(** The calls the engine makes on one factory; a failed call leaves the state
    it returned with. *)
Inductive factory_call :=
  | CallBuild (streamName pipeName : string) (idx : nat) (shared : option BlocklistMatcher)
  | CallReload (load : string + Config) (shared : option BlocklistMatcher) (old : BuiltState).

Definition exec_call (c : factory_call) (f : SecurityFactory) : SecurityFactory :=
  match c with
  | CallBuild sn pn idx sh => match Build sn pn idx sh f with Some (f', _) => f' | None => f end
  | CallReload load sh old => (Reload load sh old f).1
  end.

Definition NewFactory (cfg : Config) : SecurityFactory := mkSecurityFactory cfg ∅ [].

(** Every tracker has its one collector. *)
Definition collectors_ok (f : SecurityFactory) : Prop :=
  NoDup (sf_collectors f).*1 /\ forall g, g ∈ (sf_collectors f).*1 <-> is_Some (sf_trackers f !! g).

Lemma getOrCreate_collectors g cfg f : collectors_ok f -> collectors_ok (getOrCreateTracker g cfg f).
Proof.
  intros [Hnd Hd]. unfold getOrCreateTracker. destruct (sf_trackers f !! g) eqn:E; [done|].
  assert (Hg : g ∉ (sf_collectors f).*1) by (rewrite Hd, E; by intros []).
  split; cbn; rewrite fmap_app; cbn.
  - apply NoDup_app. repeat split; [done| |by apply NoDup_singleton]. set_solver.
  - intros g'. rewrite elem_of_app, Hd, list_elem_of_singleton, lookup_insert_is_Some. naive_solver.
Qed.

Lemma getOrCreate_trackers g cfg f : is_Some (sf_trackers (getOrCreateTracker g cfg f) !! g) /\
  (forall g', is_Some (sf_trackers f !! g') ->
     sf_trackers (getOrCreateTracker g cfg f) !! g' = sf_trackers f !! g').
Proof.
  unfold getOrCreateTracker. destruct (sf_trackers f !! g) eqn:E; [by rewrite E|]. cbn.
  rewrite lookup_insert_eq. split; [done|]. intros g' Hg'. rewrite lookup_insert_ne; [done|].
  intros ->. rewrite E in Hg'. by destruct Hg'.
Qed.

Lemma Build_cases sn pn idx sh f f' r : Build sn pn idx sh f = Some (f', r) ->
  (f' = f /\ exists e, r = inl e) \/
  exists sc fb m, findStreamCfg (sf_cfg f) sn = Some sc /\ st_Pipelines sc !! idx = Some fb /\
    whitelist_matcher (c_Whitelist (sf_cfg f)) = inr m /\
    let pc := findPipelineCfg sc pn idx fb in
    f' = getOrCreateTracker (resolveTrackerGroup pc) (sf_cfg f) f /\
    forall b, r = inr b -> exists waf,
      b = assemble (sf_cfg f) pc sn pn idx (resolveTrackerGroup pc) m
            (buildPipelineDetectors (sf_cfg f) pc sh) waf /\
      buildWafProcessor (default [] (pl_Processors pc)) (sg_BanThreshold (c_Scoring (sf_cfg f))) = inr waf.
Proof.
  unfold Build. cbv zeta. destruct (findStreamCfg (sf_cfg f) sn) as [sc|]; [|intros [= <- <-]; eauto].
  destruct (st_Pipelines sc !! idx) as [fb|] eqn:Efb; [|done]. cbn [mbind option_bind].
  destruct (whitelist_matcher _) as [e|m] eqn:Em; [intros [= <- <-]; eauto|]. intros [= <- <-]. right.
  exists sc, fb, m. repeat split; [done..|]. intros b.
  destruct (buildWafProcessor _ _) as [e|waf] eqn:Ew; [done|]. intros [= <-]. eauto.
Qed.

Lemma exec_call_collectors c f : collectors_ok f -> collectors_ok (exec_call c f).
Proof.
  intros Hf. destruct c as [sn pn idx sh|load sh old]; cbn.
  - destruct (Build sn pn idx sh f) as [[f' r]|] eqn:E; [|done].
    apply Build_cases in E as [[-> _]|(sc & fb & m & _ & _ & _ & -> & _)]; [done|].
    by apply getOrCreate_collectors.
  - unfold Reload. destruct load as [e|cfg]; [done|]. destruct (whitelist_matcher _); [done|]. cbn.
    destruct Hf as [Hnd Hd]. split; cbn; [done|]. intros g. by rewrite Hd, lookup_alter_is_Some.
Qed.

(** C31: Tracker groups: over any history of builds and reloads of a stream's factory, every tracker has exactly one garbage collector and every collector a tracker; and a pipeline that builds is attached to an existing tracker, the one named by its tracker group or, without a group, by its own name, so two pipelines share per-address state exactly when these names coincide. *)
Theorem tracker_groups cfg calls sn pn idx sh f' b :
  Build sn pn idx sh (foldl (flip exec_call) (NewFactory cfg) calls) = Some (f', inr b) ->
  collectors_ok f' /\ is_Some (sf_trackers f' !! bs_group b) /\
  (forall g t, sf_trackers (foldl (flip exec_call) (NewFactory cfg) calls) !! g = Some t -> sf_trackers f' !! g = Some t) /\
  exists sc fb, findStreamCfg (sf_cfg (foldl (flip exec_call) (NewFactory cfg) calls)) sn = Some sc /\
    st_Pipelines sc !! idx = Some fb /\
    bs_group b = let pc := findPipelineCfg sc pn idx fb in
                 if empty (pl_TrackerGroup pc) then pl_Name pc else pl_TrackerGroup pc.
Proof.
  set (f := foldl _ _ calls). intros Hb.
  assert (Hf : collectors_ok f).
  { subst f. assert (H0 : collectors_ok (NewFactory cfg)).
    { split; cbn; [constructor|]. intros g. rewrite lookup_empty. split; [set_solver|by intros []]. }
    clear Hb. revert H0. generalize (NewFactory cfg).
    induction calls as [|c calls IH]; intros f0 H0; [done|]. cbn. by apply IH, exec_call_collectors. }
  apply Build_cases in Hb as [[_ [e He]]|(sc & fb & m & Hs & Hi & _ & -> & Hr)]; [done|].
  destruct (Hr b eq_refl) as (waf & -> & _). cbn [bs_group assemble].
  destruct (getOrCreate_trackers (resolveTrackerGroup (findPipelineCfg sc pn idx fb)) (sf_cfg f) f) as [H1 H2].
  split; [by apply getOrCreate_collectors|]. split; [done|]. split.
  - intros g t Hg. rewrite H2; [done|]. by rewrite Hg.
  - exists sc, fb. repeat split; [done..|]. unfold resolveTrackerGroup. by destruct (empty (pl_TrackerGroup _)).
Qed.

(** The new file still has the pipeline of a state: by its name, or by its place when it
    has none. *)
Definition still_configured (newCfg : Config) (old : BuiltState) : Prop :=
  exists sc, findStreamCfg newCfg (ss_StreamName (bs_state old)) = Some sc /\
    is_Some (st_Pipelines sc !! bs_PipelineIdx old) /\
    (ss_PipelineName (bs_state old) <> "" ->
       exists p, p ∈ st_Pipelines sc /\ pl_Name p = ss_PipelineName (bs_state old)).

(** The fallback plays no role for a pipeline that is still there. *)
Lemma findPipelineCfg_found sc name idx fb fb' : is_Some (st_Pipelines sc !! idx) ->
  (name <> "" -> exists p, p ∈ st_Pipelines sc /\ pl_Name p = name) ->
  findPipelineCfg sc name idx fb = findPipelineCfg sc name idx fb'.
Proof.
  intros [q Hq] Hn. unfold findPipelineCfg. destruct (String.eqb_spec name "") as [->|Hne]; cbn [negb]; [by rewrite Hq|].
  destruct (Hn Hne) as (p & Hp & Hpn). destruct (List.find _ _) eqn:E; [done|]. exfalso.
  apply list_elem_of_In in Hp. pose proof (List.find_none _ _ E p Hp) as Hf. cbn in Hf. rewrite Hpn, String.eqb_refl in Hf. done.
Qed.

(** C8: A successful reload takes every tunable from the new configuration and keeps all tracked state. Thresholds, scoring window, matcher, detectors, WAF, fake-bot score, raw forwarding and DNS timeout of the new state are those of the new file, and if the file still has the pipeline, the new state is exactly the one a restart on that file would build for it; the pipeline keeps its identity and its tracker, the tracker keeps every address state, its eviction order and its size limit and only its two windows change, and the trackers of the other groups and the running collectors are untouched. *)
Theorem reload_keeps_state newCfg sh old f f' b : Reload (inr newCfg) sh old f = (f', inr b) ->
  let pc := reload_pipeCfg newCfg old in
  (sf_cfg f' = newCfg /\ sf_collectors f' = sf_collectors f /\ bs_group b = bs_group old /\
   bs_PipelineIdx b = bs_PipelineIdx old /\
   ss_StreamName (bs_state b) = ss_StreamName (bs_state old) /\
   ss_PipelineName (bs_state b) = ss_PipelineName (bs_state old)) /\
  (forall g, g <> bs_group old -> sf_trackers f' !! g = sf_trackers f !! g) /\
  (forall t, sf_trackers f !! bs_group old = Some t -> exists t', sf_trackers f' !! bs_group old = Some t' /\
     states t' = states t /\ lru t' = lru t /\ maxIPs t' = maxIPs t /\
     retention t' = sg_ObservationWindow (c_Scoring newCfg) /\
     (0 < rt_Window (ds_Rate (c_Detectors newCfg)) -> rateWindow t' = rt_Window (ds_Rate (c_Detectors newCfg)))%Z) /\
  (alertThreshold (ss_Scorer (bs_state b)) = sg_AlertThreshold (c_Scoring newCfg) /\
   banThreshold (ss_Scorer (bs_state b)) = sg_BanThreshold (c_Scoring newCfg) /\
   window (ss_Scorer (bs_state b)) = sg_ObservationWindow (c_Scoring newCfg) /\
   detectors (ss_Scorer (bs_state b)) = buildPipelineDetectors newCfg pc sh /\
   whitelist_matcher (c_Whitelist newCfg) = inr (ss_Matcher (bs_state b)) /\
   buildWafProcessor (default [] (pl_Processors pc)) (sg_BanThreshold (c_Scoring newCfg)) = inr (ss_Waf (bs_state b)) /\
   ss_FakeBotScore (bs_state b) = wl_FakeBotScore (c_Whitelist newCfg) /\
   ss_RawForward (bs_state b) = pl_RawForward pc /\
   bs_DNSVerifyTimeout b = wl_DNSVerifyTimeout (c_Whitelist newCfg)) /\
  (still_configured newCfg old -> exists f0 b0,
     Build (ss_StreamName (bs_state old)) (ss_PipelineName (bs_state old)) (bs_PipelineIdx old) sh (NewFactory newCfg) = Some (f0, inr b0) /\
     bs_state b0 = bs_state b /\ bs_DNSVerifyTimeout b0 = bs_DNSVerifyTimeout b).
Proof.
  cbv zeta. unfold Reload. destruct (whitelist_matcher (c_Whitelist newCfg)) as [e|m] eqn:Em; [done|].
  destruct (buildWafProcessor _ _) as [e|waf] eqn:Ew; [done|]. intros [= <- <-]. split; [done|]. split; [|split; [|split]].
  - intros g Hg. by apply lookup_alter_ne.
  - intros t Ht. exists (Reconfigure (tracker_config newCfg) t). cbn [sf_trackers]. rewrite lookup_alter_eq, Ht. cbn.
    repeat split; try done. unfold rate_window_or_default. intros Hw. by destruct (Z.leb_spec (rt_Window (ds_Rate (c_Detectors newCfg))) 0); [lia|].
  - done.
  - intros (sc & Hs & [fb Hfb] & Hn).
    assert (Hpc : findPipelineCfg sc (ss_PipelineName (bs_state old)) (bs_PipelineIdx old) fb = reload_pipeCfg newCfg old).
    { unfold reload_pipeCfg. rewrite Hs. cbn [default]. apply findPipelineCfg_found; [by eexists|done]. }
    unfold Build. cbn [sf_cfg NewFactory]. rewrite Hs, Hfb. cbn [mbind option_bind]. rewrite Em. cbv zeta. rewrite Hpc, Ew.
    eexists _, _. split; [done|]. done.
Qed.

(** Streams are looked up by name alone and validation does not require distinct names: when another stream comes first under the same name (two unnamed streams, say), the pipeline of the later one is built from the earlier stream's section, and its build panics when the earlier stream has fewer pipelines. *)
Theorem shadowed_stream_build sn pn idx sh f s1 ss : c_Streams (sf_cfg f) = s1 :: ss -> st_Name s1 = sn ->
  (length (st_Pipelines s1) <= idx -> Build sn pn idx sh f = None) /\
  (forall f' b, Build sn pn idx sh f = Some (f', inr b) -> exists fb, st_Pipelines s1 !! idx = Some fb /\
     bs_group b = resolveTrackerGroup (findPipelineCfg s1 pn idx fb) /\
     detectors (ss_Scorer (bs_state b)) = buildPipelineDetectors (sf_cfg f) (findPipelineCfg s1 pn idx fb) sh).
Proof.
  intros Hs Hn.
  assert (Hf : findStreamCfg (sf_cfg f) sn = Some s1).
  { unfold findStreamCfg. rewrite Hs. cbn. by rewrite (proj2 (String.eqb_eq _ _) Hn). }
  split.
  - intros Hi. unfold Build. rewrite Hf. cbn. by rewrite (lookup_ge_None_2 _ _ Hi).
  - intros f' b Hb. apply Build_cases in Hb as [[_ [e He]]|(sc & fb & m & Hs' & Hi & _ & _ & Hr)]; [done|].
    rewrite Hf in Hs'. injection Hs' as <-. destruct (Hr b eq_refl) as (waf & -> & _). by exists fb.
Qed.
End factory.

(** ** From the configuration file to the running detectors *)

Section registered.
Context {UL : UnicodeLower} {MR : MapRange} {DP : DetectorParams} {DR : DetectorRegistry}.
(** The specification as the typed getters see it, and their documented behaviour:
    a parameter that is present with the type asked for is returned. *)
Context (as_config : DetectorSpec -> Detectors.DetectorConfig).
Hypothesis GetInt_present : forall s k z d, spec_Params s !! k = Some (AnyInt z) -> GetInt (as_config s) k d = z.
Hypothesis GetFloat64_present : forall s k x d, spec_Params s !! k = Some (AnyFloat x) -> GetFloat64 (as_config s) k d = x.
Hypothesis GetBool_present : forall s k b d, spec_Params s !! k = Some (AnyBool b) -> GetBool (as_config s) k d = b.
Hypothesis GetDuration_present : forall s k str x d, spec_Params s !! k = Some (AnyString str) ->
  ParseDuration str = Some x -> GetDuration (as_config s) k d = x.
Hypothesis GetStrings_present : forall s k l d, spec_Params s !! k = Some (AnyStrings l) ->
  l <> [] \/ d = [] -> GetStrings (as_config s) k d = l.

(** The factories the plugins register in their [init] functions. *)
Definition registered (name : string) : option (DetectorSpec -> option BlocklistMatcher -> string + Detector IPState) :=
  if String.eqb name "badbot" then
    Some (fun s sh => inr (mkDetector "badbot" (badbot_Detect (newBadBotFactory (as_config s) (Some <$> sh)))))
  else if String.eqb name "bruteforce" then
    Some (fun s _ => inr (mkDetector "bruteforce" (bruteforce_Detect (newBruteforceFactory (as_config s)))))
  else if String.eqb name "crawler" then
    Some (fun s _ => inr (mkDetector "crawler" (crawler_Detect (newCrawlerFactory (as_config s)))))
  else if String.eqb name "noasset" then
    Some (fun s _ => inr (mkDetector "noasset" (noasset_Detect (newNoAssetFactory (as_config s)))))
  else if String.eqb name "overflow" then
    Some (fun s _ => inr (mkDetector "overflow" (overflow_Detect (newOverflowFactory (as_config s)))))
  else if String.eqb name "probe" then
    Some (fun s _ => inr (mkDetector "probe" (probe_Detect (newProbeFactory (as_config s)))))
  else if String.eqb name "rate" then
    Some (fun s _ => d ← newRateFactory (as_config s); mret (mkDetector "rate" (rate_Detect d)))
  else if String.eqb name "ua" then
    Some (fun s _ => inr (mkDetector "ua" (ua_Detect (newUAFactory (as_config s)))))
  else None.

(** What a registered factory makes of a specification: nothing when it is disabled or
    the factory fails. *)
Definition registered_detector (specs : gmap string DetectorSpec) (sh : option BlocklistMatcher) (name : string)
  : option (Detector IPState) :=
  s ← specs !! name; factory ← registered name;
  if spec_Enabled s then match factory s sh with inr d => Some d | inl _ => None end else None.

(** The detectors the sections ask for. *)
Definition when_enabled (b : bool) (d : Detector IPState) : option (Detector IPState) :=
  if b then Some d else None.

Definition configured_detectors (d : DetectorsConfig) (sh : option BlocklistMatcher) : list (option (Detector IPState)) :=
  let '(pathSet, prefixes) := foldl probe_classify (∅, []) (pb_Paths (ds_Probe d)) in
  let rt := ds_Rate d in let ua := ds_UserAgent d in let na := ds_NoAsset d in
  [when_enabled (bb_Enabled (ds_BadBot d)) (mkDetector "badbot" (badbot_Detect
     (mkBadBotDetector (default noopMatcher sh) (bb_Score (ds_BadBot d)) (bb_CheckUA (ds_BadBot d))
        (bb_CheckReferrer (ds_BadBot d)))));
   when_enabled (bf_Enabled (ds_Bruteforce d)) (mkDetector "bruteforce" (bruteforce_Detect
     (mkBruteforceDetector (bf_MinRequests (ds_Bruteforce d)) (bf_RatioThreshold (ds_Bruteforce d))
        (bf_Score (ds_Bruteforce d)))));
   when_enabled (cr_Enabled (ds_Crawler d)) (mkDetector "crawler" (crawler_Detect
     (mkCrawlerDetector (cr_MinSequential (ds_Crawler d)) (cr_Score (ds_Crawler d)))));
   when_enabled (na_Enabled na) (mkDetector "noasset" (noasset_Detect
     (mkNoAssetDetector (na_MinPageRequests na) (na_AssetRatioThreshold na) (na_Score na)
        (foldl (fun s ext => {[ToLower ext]} ∪ s) ∅ (na_AssetExtensions na)))));
   when_enabled (ov_Enabled (ds_Overflow d)) (mkDetector "overflow" (overflow_Detect
     (mkOverflowDetector (ov_MaxURLLength (ds_Overflow d)) (ToLower <$> ov_SuspiciousParams (ds_Overflow d))
        (ov_Score (ds_Overflow d)))));
   when_enabled (pb_Enabled (ds_Probe d)) (mkDetector "probe" (probe_Detect
     (mkProbeDetector (pb_Score (ds_Probe d)) pathSet prefixes)));
   when_enabled (rt_Enabled rt) (mkDetector "rate" (rate_Detect
     (mkRateDetector (f_div (f_of_Z (rt_Threshold rt)) (duration_Seconds (rt_Window rt))) (rt_Window rt)
        (rt_Score rt))));
   when_enabled (ua_Enabled ua) (mkDetector "ua" (ua_Detect
     (mkUaDetector (normalizePatterns builtinScannerPatterns (ua_ExtraScannerPatterns ua))
        (normalizePatterns builtinGrabberPatterns (ua_ExtraGrabberPatterns ua))
        (normalizePatterns builtinAutomationPatterns (ua_ExtraAutomationPatterns ua))
        (ua_ScannerScore ua) (ua_GrabberScore ua) (ua_AutomationScore ua) (ua_EmptyUAScore ua))))].

Lemma global_names {A} (s1 s2 s3 s4 s5 s6 s7 s8 : A) :
  sorted_names (list_to_map [("probe", s1); ("rate", s2); ("ua", s3); ("bruteforce", s4); ("crawler", s5);
    ("noasset", s6); ("overflow", s7); ("badbot", s8)]) =
  ["badbot"; "bruteforce"; "crawler"; "noasset"; "overflow"; "probe"; "rate"; "ua"].
Proof. vm_compute. reflexivity. Qed.

Lemma registered_lookup specs sh name s factory : specs !! name = Some s -> registered name = Some factory ->
  registered_detector specs sh name =
    if spec_Enabled s then match factory s sh with inr d => Some d | inl _ => None end else None.
Proof. intros Hs Hr. unfold registered_detector. by rewrite Hs, Hr. Qed.

Lemma global_lookups {A} (s1 s2 s3 s4 s5 s6 s7 s8 : A) :
  let m : gmap string A := list_to_map [("probe", s1); ("rate", s2); ("ua", s3); ("bruteforce", s4); ("crawler", s5);
    ("noasset", s6); ("overflow", s7); ("badbot", s8)] in
  m !! "probe" = Some s1 /\ m !! "rate" = Some s2 /\ m !! "ua" = Some s3 /\ m !! "bruteforce" = Some s4 /\
  m !! "crawler" = Some s5 /\ m !! "noasset" = Some s6 /\ m !! "overflow" = Some s7 /\ m !! "badbot" = Some s8.
Proof. repeat split; vm_compute; reflexivity. Qed.

(** The first parameter under a key is the one looked up. *)
Fixpoint assoc {A} (k : string) (l : list (string * A)) : option A :=
  match l with
  | [] => None
  | (k', v) :: l' => if String.eqb k' k then Some v else assoc k l'
  end.

Lemma param_lookup enabled ps k : spec_Params (global_spec enabled ps) !! k = assoc k ps.
Proof.
  cbn. induction ps as [|[k' v'] ps IH]; [done|]. cbn.
  destruct (String.eqb_spec k' k) as [->|Hne]; [apply lookup_insert_eq|]. by rewrite lookup_insert_ne.
Qed.

Lemma omap_via_fmap {A B} (f : A -> option B) (l : list A) : omap f l = omap id (f <$> l).
Proof. induction l as [|x l IH]; [done|]. cbn. by rewrite IH. Qed.

Ltac param := rewrite param_lookup; reflexivity.

(** The names of the global section, in the order the detectors run. *)
Definition global_detector_names : list string :=
  ["badbot"; "bruteforce"; "crawler"; "noasset"; "overflow"; "probe"; "rate"; "ua"].

Lemma global_registered name : name ∈ global_detector_names -> exists factory, registered name = Some factory.
Proof.
  intros Hn. unfold global_detector_names in Hn. repeat (apply elem_of_cons in Hn as [->|Hn]; [by eexists|]).
  by apply elem_of_nil in Hn.
Qed.

(** Every parameter of the global section reaches its factory. *)
Lemma registered_configured cfg sh n : detectors_wf (c_Detectors cfg) ->
  rt_Window (ds_Rate (c_Detectors cfg)) = (n * second)%Z -> (0 < n)%Z -> (n * second <= int64_max)%Z ->
  pb_Paths (ds_Probe (c_Detectors cfg)) <> [] -> na_AssetExtensions (ds_NoAsset (c_Detectors cfg)) <> [] ->
  ov_SuspiciousParams (ds_Overflow (c_Detectors cfg)) <> [] ->
  registered_detector (globalDetectorSpecs cfg) sh <$> global_detector_names =
    configured_detectors (c_Detectors cfg) sh.
Proof.
  intros Hwf Hw Hn0 Hnm Hpaths Hexts Hparams. unfold globalDetectorSpecs. cbv zeta.
  set (specs := list_to_map _).
  pose proof (global_lookups (A := DetectorSpec)) as HL. edestruct HL as (L1 & L2 & L3 & L4 & L5 & L6 & L7 & L8).
  fold specs in L1, L2, L3, L4, L5, L6, L7, L8. clear HL.
  unfold global_detector_names. cbn [fmap list_fmap].
  rewrite (registered_lookup specs sh "badbot" _ _ L8 eq_refl).
  rewrite (registered_lookup specs sh "bruteforce" _ _ L4 eq_refl).
  rewrite (registered_lookup specs sh "crawler" _ _ L5 eq_refl).
  rewrite (registered_lookup specs sh "noasset" _ _ L6 eq_refl).
  rewrite (registered_lookup specs sh "overflow" _ _ L7 eq_refl).
  rewrite (registered_lookup specs sh "probe" _ _ L1 eq_refl).
  rewrite (registered_lookup specs sh "rate" _ _ L2 eq_refl).
  rewrite (registered_lookup specs sh "ua" _ _ L3 eq_refl).
  clear L1 L2 L3 L4 L5 L6 L7 L8. clear specs. cbn [spec_Enabled global_spec].
  unfold newBadBotFactory, newBruteforceFactory, newCrawlerFactory, newNoAssetFactory, newOverflowFactory,
    newProbeFactory, newUAFactory, newRateFactory.
  repeat match goal with
  | |- context [GetInt (as_config ?sp) ?k ?d] => erewrite (GetInt_present sp k _ d) by param
  | |- context [GetFloat64 (as_config ?sp) ?k ?d] => erewrite (GetFloat64_present sp k _ d) by param
  | |- context [GetBool (as_config ?sp) ?k ?d] => erewrite (GetBool_present sp k _ d) by param
  | |- context [GetDuration (as_config ?sp) ?k ?d] =>
      erewrite (GetDuration_present sp k _ _ d) by (first [param | rewrite Hw; by apply ParseDuration_String])
  | |- context [GetStrings (as_config ?sp) ?k ?d] => erewrite (GetStrings_present sp k _ d); [|param|tauto]
  end.
  destruct Hwf as (_ & _ & _ & _ & Hrate & _). unfold configured_detectors, when_enabled.
  destruct (foldl probe_classify _ _) as [pathSet prefixes].
  repeat (apply (f_equal2 cons); [done || by destruct sh|]).
  apply (f_equal2 cons); [|done]. destruct (rt_Enabled _); [|done]. destruct (Hrate eq_refl) as (Ht & _ & _).
  destruct (Z.leb_spec (n * second) 0); [unfold second in *; lia|].
  destruct (Z.leb_spec (rt_Threshold (ds_Rate (c_Detectors cfg))) 0); [lia|]. by rewrite Hw.
Qed.

(** What buildPipelineDetectors iterates over without a section of its own. *)
Lemma global_sections cfg pc sh : pl_Detectors pc = None ->
  @buildPipelineDetectors DR cfg pc sh = omap id (built_detector (globalDetectorSpecs cfg) sh <$> global_detector_names).
Proof.
  intros Hpc. unfold buildPipelineDetectors, pipeline_specs. rewrite Hpc, <- omap_via_fmap. f_equal.
Qed.

(** The sections of the global configuration have no subprocess. *)
Lemma global_no_exec cfg name s : globalDetectorSpecs cfg !! name = Some s -> spec_Exec s = "".
Proof.
  unfold globalDetectorSpecs. cbv zeta. intros Hs%elem_of_list_to_map_2.
  repeat (apply elem_of_cons in Hs as [Hs|Hs]; [apply (f_equal snd) in Hs; cbn [snd] in Hs; by rewrite Hs|]).
  by apply elem_of_nil in Hs.
Qed.

(** The registry: a disabled detector is nil, an in-process one is built by its
    registered factory. *)
Hypothesis registry_build : forall name factory s sh, registered name = Some factory -> spec_Exec s = "" ->
  detector_Build name s sh =
    if spec_Enabled s then d ← factory s sh; mret (Some d) else mret None.

Lemma built_registered cfg sh name : name ∈ global_detector_names ->
  built_detector (globalDetectorSpecs cfg) sh name = registered_detector (globalDetectorSpecs cfg) sh name.
Proof.
  intros Hn. unfold built_detector, registered_detector.
  destruct (globalDetectorSpecs cfg !! name) as [s|] eqn:Hs; [|done]. cbn [mbind option_bind].
  destruct (global_registered _ Hn) as [factory Hr]. rewrite Hr, (registry_build _ _ _ _ Hr (global_no_exec _ _ _ Hs)). cbn [mbind option_bind].
  destruct (spec_Enabled s); [|done]. by destruct (factory s sh).
Qed.

(** From the file to the detectors: for a pipeline without its own detector section, the detectors that run are exactly the enabled sections of the global configuration, in alphabetical order, each with the configured scores, thresholds, windows, paths and patterns; the rate window survives being printed and parsed again (for a window of whole seconds), and no enabled detector of a valid configuration is skipped. *)
Theorem global_detectors_exact cfg pc sh n : pl_Detectors pc = None -> detectors_wf (c_Detectors cfg) ->
  rt_Window (ds_Rate (c_Detectors cfg)) = (n * second)%Z -> (0 < n)%Z -> (n * second <= int64_max)%Z ->
  pb_Paths (ds_Probe (c_Detectors cfg)) <> [] -> na_AssetExtensions (ds_NoAsset (c_Detectors cfg)) <> [] ->
  ov_SuspiciousParams (ds_Overflow (c_Detectors cfg)) <> [] ->
  buildPipelineDetectors cfg pc sh = omap id (configured_detectors (c_Detectors cfg) sh).
Proof.
  intros Hpc Hwf Hw Hn0 Hnm Hpaths Hexts Hparams. rewrite global_sections by done.
  rewrite <- (registered_configured cfg sh n) by done. f_equal. apply list_fmap_ext.
  intros i name Hi. apply built_registered. by eapply list_elem_of_lookup_2.
Qed.
End registered.

(** ** Concrete instances *)

(** Getters that look the parameter up and fall back to the default. *)
Definition ex_params : DetectorParams :=
  {| Detectors.DetectorConfig := DetectorSpec;
     GetInt := fun s k d => match spec_Params s !! k with Some (AnyInt z) => z | _ => d end;
     GetFloat64 := fun s k d => match spec_Params s !! k with Some (AnyFloat x) => x | _ => d end;
     GetBool := fun s k d => match spec_Params s !! k with Some (AnyBool b) => b | _ => d end;
     GetDuration := fun s k d => match spec_Params s !! k with
                                 | Some (AnyString str) => default d (ParseDuration str)
                                 | _ => d
                                 end;
     GetStrings := fun s k d => match spec_Params s !! k with Some (AnyStrings l) => l | _ => d end |}.

Definition ex_registered := @registered ex_waf_lower map_range_canonical ex_params id.

Definition ex_registry : DetectorRegistry :=
  {| detector_Build := fun name s sh =>
       match ex_registered name with
       | Some factory => if spec_Enabled s then d ← factory s sh; mret (Some d) else mret None
       | None => inl ("unknown detector " +:+ name)
       end |}.

(** The configuration of a host without a file. *)
Definition ex_loaded : Config :=
  match @LoadConfig ex_print ex_waf_lower ex_queue_mode (fun _ c => inr c) (fun _ => None) "c.yaml" ReadNotExist with
  | inr (c, _) => c
  | inl _ => defaultConfig
  end.

Definition no_waf (_ : list (string * GoAny)) : string + WafConfig Tracker := inl "no waf".
Abbreviation ex_build := (@Build ex_rule_engine ex_waf_lower ex_print ex_registry no_waf).
Abbreviation ex_reload := (@Reload ex_rule_engine ex_waf_lower ex_print ex_registry no_waf).

(** The group of a successful build. *)
Definition build_group (r : option (SecurityFactory * (string + @BuiltState ex_rule_engine))) : option string :=
  match r with Some (_, inr b) => Some (bs_group b) | _ => None end.

Lemma ex_build_group : build_group (ex_build "" "" 0 None (NewFactory ex_loaded)) = Some "".
Proof. vm_compute. reflexivity. Qed.

Lemma tracker_groups_witness : exists f b,
  ex_build "" "" 0 None (NewFactory ex_loaded) = Some (f, inr b) /\ bs_group b = "" /\ collectors_ok f.
Proof.
  pose proof ex_build_group as Hg. revert Hg.
  pose proof (@tracker_groups ex_rule_engine ex_waf_lower ex_print ex_registry no_waf ex_loaded []
    "" "" 0 None) as H. revert H. cbn [foldl].
  generalize (ex_build "" "" 0 None (NewFactory ex_loaded)). intros [[f [e|b]]|] H Hg; [discriminate Hg| |discriminate Hg].
  exists f, b. split; [done|]. split; [by injection Hg|]. exact (proj1 (H f b eq_refl)).
Defined.

(** A pipeline that has been running: its tracker holds two addresses. *)
Definition ex_factory : SecurityFactory := mkSecurityFactory ex_loaded {["" := ex_tracker]} [("", 60 * second)%Z].
Definition ex_old : @BuiltState ex_rule_engine :=
  @mkBuiltState ex_rule_engine (@mkSecurityState ex_rule_engine "" "" ex_scorer ex_matcher None 0 false) 0 "" 0.

Definition reload_ok (r : SecurityFactory * (string + @BuiltState ex_rule_engine)) : bool :=
  match r.2 with inr _ => true | inl _ => false end.

Lemma reload_keeps_state_witness : exists f b f0 b0,
  ex_reload (inr ex_loaded) None ex_old ex_factory = (f, inr b) /\ bs_group b = "" /\
  ex_build "" "" 0 None (NewFactory ex_loaded) = Some (f0, inr b0) /\ bs_state b0 = bs_state b.
Proof.
  assert (Hok : reload_ok (ex_reload (inr ex_loaded) None ex_old ex_factory) = true) by (vm_compute; reflexivity).
  destruct (ex_reload (inr ex_loaded) None ex_old ex_factory) as [f [e|b]] eqn:E; [discriminate Hok|].
  destruct (@reload_keeps_state ex_rule_engine ex_waf_lower ex_print ex_registry no_waf
    ex_loaded None ex_old ex_factory f b E) as ((_ & _ & Hg & _) & _ & _ & _ & Hr).
  destruct Hr as (f0 & b0 & Hb & Hst & _).
  - eexists. split; [vm_compute; reflexivity|]. split; [by eexists|done].
  - exists f, b, f0, b0. split; [done|]. split; [exact Hg|]. split; [exact Hb|exact Hst].
Defined.

(** A reload with a WAF entry that does not decode. *)
Definition ex_bad_waf : Config :=
  set_Streams (set_Pipelines [set_Processors (Some [mkProcessorConfig "waf" {["waf_config" := AnyMap []]}])
    (pipeline_literal "" [input_literal "stdin" "" ""] [sink_literal "stdout" "" ""] default_runtime)]
    <$> c_Streams ex_loaded) (set_General (set_LogFile "/other.log" (c_General ex_loaded)) ex_loaded).

(** Two unnamed streams, the second with two pipelines. *)
Definition ex_twins : Config :=
  let pipe name path := pipeline_literal name [input_literal "file" path "json"] [sink_literal "stdout" "" "json"] default_runtime in
  set_Streams [set_Pipelines [pipe "" "/a.log"] (stream_literal "" "" "");
               set_Pipelines [pipe "x" "/x.log"; pipe "y" "/y.log"] (stream_literal "" "" "")] ex_loaded.

Lemma shadowed_stream_build_witness :
  @validateConfig ex_print ex_queue_mode ex_twins = inr tt /\
  ex_build "" "y" 1 None (NewFactory ex_twins) = None.
Proof.
  split; [vm_compute; reflexivity|].
  eapply (@shadowed_stream_build ex_rule_engine ex_waf_lower ex_print ex_registry no_waf "" "y" 1 None
    (NewFactory ex_twins)).
  - reflexivity.
  - reflexivity.
  - cbn. lia.
Defined.

Lemma global_detectors_exact_witness :
  @buildPipelineDetectors ex_registry ex_loaded
    (pipeline_literal "" [] [] default_runtime) None =
  omap id (@configured_detectors ex_waf_lower map_range_canonical (c_Detectors ex_loaded) None).
Proof.
  apply (@global_detectors_exact ex_waf_lower map_range_canonical ex_params ex_registry id) with (n := 60%Z).
  - intros s k z d Hs. unfold GetInt, ex_params. cbn. by rewrite Hs.
  - intros s k z d Hs. unfold GetFloat64, ex_params. cbn. by rewrite Hs.
  - intros s k z d Hs. unfold GetBool, ex_params. cbn. by rewrite Hs.
  - intros s k str x d Hs Hp. unfold GetDuration, ex_params. cbn. by rewrite Hs, Hp.
  - intros s k l d Hs _. unfold GetStrings, ex_params. cbn. by rewrite Hs.
  - intros name factory s sh Hr _. unfold detector_Build, ex_registry. unfold ex_registered. by rewrite Hr.
  - reflexivity.
  - repeat split; intros; vm_compute; reflexivity.
  - reflexivity.
  - lia.
  - unfold int64_max, second. lia.
  - done.
  - done.
  - done.
Defined.
