(* ===== verification/Stream.v ===== *)
(** * A stream under its engine

    [Factory] and [Pipeline] composed: the factory of a stream, its built pipelines
    and the trackers they share, under any sequence of the calls the engine makes
    (Build, Process for a line of a pipeline, Reload) interleaved with the garbage
    collectors and with the other streams, which share the verification cache.
    The specification keeps, per tracker group, the request histories by recency
    with their limits. *)

From Stdlib Require Import ZArith Lia String.
From stdpp Require Import base numbers option list strings gmap fin_maps.
From S2P Require Import Prelude GoFloat GoStrings GoNet GoFmt GoValues Model Tracker Scorer Detectors Whitelist ChainCheck Waf ConfigTypes ConfigLoad ExecCommon Pipeline Factory.

Section stream.
Context {RE : RuleEngine} {UL : UnicodeLower} {UP : UnicodePrint} {DR : DetectorRegistry} {MR : MapRange}.
Context (waf_decode : list (string * GoAny) -> string + WafConfig Tracker).

(** [sv_built]: the state of each pipeline, by its index in the stream. *)
Record Service := mkService {
  sv_factory : SecurityFactory;
  sv_built : gmap nat BuiltState;
  sv_cache : IPCache;
  sv_warnings : list (CheckResult * string)
}.

Definition with_factory (f : SecurityFactory) (s : Service) : Service :=
  mkService f (sv_built s) (sv_cache s) (sv_warnings s).

Definition set_tracker (g : string) (t : Tracker) (f : SecurityFactory) : SecurityFactory :=
  mkSecurityFactory (sf_cfg f) (<[g := t]> (sf_trackers f)) (sf_collectors f).

Inductive Call :=
  | CallBuildPipe (streamName pipeName : string) (idx : nat) (shared : option BlocklistMatcher)
  | CallLine (idx : nat) (now : LineClock) (cancelled : bool) (r : Resolver) (sh : SharedResources) (evctx : EventContext)
      (envelope : Envelope) (entry : LogEntry)
  | CallReloadPipe (idx : nat) (load : string + Config) (shared : option BlocklistMatcher)
  | CallGC (group : string) (now : Time)
  | CallOthers (cache : IPCache).

(** The pipeline of a call, with its tracker. *)
Definition line_state (s : Service) (idx : nat) : option (BuiltState * Tracker) :=
  b ← sv_built s !! idx; t ← sf_trackers (sv_factory s) !! bs_group b; Some (b, t).

Definition pipe_state (s : Service) (t : Tracker) : PipeState := mkPipeState t (sv_cache s) (sv_warnings s).

(** One call and the event it emits.  A Build or Reload that fails leaves the
    pipelines as they were; an index out of range panics and changes nothing. *)
Definition serve (c : Call) (s : Service) : Service * option Event :=
  match c with
  | CallBuildPipe sn pn idx shared =>
      match Build waf_decode sn pn idx shared (sv_factory s) with
      | Some (f, inr b) => (mkService f (<[idx := b]> (sv_built s)) (sv_cache s) (sv_warnings s), None)
      | Some (f, inl _) => (with_factory f s, None)
      | None => (s, None)
      end
  | CallLine idx now cancelled r sh evctx envelope entry =>
      match line_state s idx with
      | Some (b, t) =>
          let '(ev, ps) := Process now cancelled r sh (bs_state b) evctx envelope entry (pipe_state s t) in
          (mkService (set_tracker (bs_group b) (ps_tracker ps) (sv_factory s)) (sv_built s) (ps_cache ps) (ps_warnings ps), ev)
      | None => (s, None)
      end
  | CallReloadPipe idx load shared =>
      match sv_built s !! idx with
      | Some old =>
          match Reload waf_decode load shared old (sv_factory s) with
          | (f, inr b) => (mkService f (<[idx := b]> (sv_built s)) (sv_cache s) (sv_warnings s), None)
          | (f, inl _) => (with_factory f s, None)
          end
      | None => (s, None)
      end
  | CallGC g now =>
      match sf_trackers (sv_factory s) !! g with
      | Some t => (with_factory (set_tracker g (runGC now t).1.1 (sv_factory s)) s, None)
      | None => (s, None)
      end
  | CallOthers cache => (mkService (sv_factory s) (sv_built s) cache (sv_warnings s), None)
  end.

Definition start_service (cfg : Config) (cache : IPCache) : Service := mkService (NewFactory cfg) ∅ cache [].

Fixpoint serve_all (calls : list Call) (s : Service) : Service :=
  match calls with [] => s | c :: calls' => serve_all calls' (serve c s).1 end.

(** ** The specification *)

Record Group := mkGroup {
  gr_history : list (string * list LogEntry);
  gr_max : Z;
  gr_retention : Duration
}.

(** What can happen to the groups. *)
Inductive GroupEvent :=
  | Created (g : string) (max : Z) (ret : Duration)
  | Seen (g : string) (e : LogEntry)
  | Collected (g : string) (now : Time)
  | Retuned (g : string) (ret : Duration).

Definition group_step (m : gmap string Group) (ev : GroupEvent) : gmap string Group :=
  match ev with
  | Created g max ret => match m !! g with Some _ => m | None => <[g := mkGroup [] max ret]> m end
  | Seen g e => alter (fun x => mkGroup (abs_update (gr_max x) e (gr_history x)) (gr_max x) (gr_retention x)) g m
  | Collected g now => alter (fun x => mkGroup (abs_gc (now - gr_retention x) (gr_history x)) (gr_max x) (gr_retention x)) g m
  | Retuned g ret => alter (fun x => mkGroup (gr_history x) (gr_max x) ret) g m
  end.

(** The events of a call: a pipeline that gets as far as its tracker creates the
    group or joins it; a line is seen when it passes the gates; a reload whose file
    and whitelist are accepted retunes the group of its pipeline. *)
Definition events_of (c : Call) (s : Service) : list GroupEvent :=
  let cfg := sf_cfg (sv_factory s) in
  match c with
  | CallBuildPipe sn pn idx shared =>
      match findStreamCfg cfg sn with
      | Some sc =>
          match st_Pipelines sc !! idx, whitelist_matcher (c_Whitelist cfg) with
          | Some fb, inr _ =>
              [Created (resolveTrackerGroup (findPipelineCfg sc pn idx fb)) (se_MaxTrackedIPs (c_State cfg))
                 (sg_ObservationWindow (c_Scoring cfg))]
          | _, _ => []
          end
      | None => []
      end
  | CallLine idx now cancelled r sh evctx envelope entry =>
      match line_state s idx with
      | Some (b, t) =>
          if reaches_tracker now cancelled r sh (bs_state b) evctx envelope entry (pipe_state s t)
          then [Seen (bs_group b) entry] else []
      | None => []
      end
  | CallReloadPipe idx (inr newCfg) shared =>
      match sv_built s !! idx, whitelist_matcher (c_Whitelist newCfg) with
      | Some old, inr _ => [Retuned (bs_group old) (sg_ObservationWindow (c_Scoring newCfg))]
      | _, _ => []
      end
  | CallReloadPipe idx (inl _) shared => []
  | CallGC g now => [Collected g now]
  | CallOthers _ => []
  end.

Fixpoint history_of (calls : list Call) (s : Service) : list GroupEvent :=
  match calls with [] => [] | c :: calls' => events_of c s ++ history_of calls' (serve c s).1 end.

(** ** The trackers follow the specification *)

Definition window_int64 (cfg : Config) : Prop :=
  (int64_min < sg_ObservationWindow (c_Scoring cfg) <= int64_max)%Z.

Definition call_ok (c : Call) : Prop :=
  match c with CallReloadPipe _ (inr cfg) _ => window_int64 cfg | _ => True end.

Definition group_ok (t : Tracker) (x : Group) : Prop :=
  tracker_refines t (gr_history x) /\ limits t = (gr_max x, gr_retention x) /\
  (int64_min < gr_retention x <= int64_max)%Z.

Definition groups_ok (ts : gmap string Tracker) (m : gmap string Group) : Prop :=
  forall g, option_Forall2 group_ok (ts !! g) (m !! g).

Definition built_ok (b : BuiltState) : Prop :=
  Forall neutral (detectors (ss_Scorer (bs_state b))) /\ waf_bound (bs_state b).

(** ** Reloads that fail *)

(** The WAF a reload builds for the pipeline of a state. *)
Definition reload_waf (c : Config) (old : BuiltState) : string + option (WafProcessor Tracker) :=
  buildWafProcessor waf_decode (default [] (pl_Processors (reload_pipeCfg c old))) (sg_BanThreshold (c_Scoring c)).

(** A pipeline after a reload whose WAF failed: its state and, in the group of the
    reloaded one, its tracker with the new windows. *)
Lemma waf_failed_line idx c m e shared s old i b t : sv_built s !! idx = Some old ->
  whitelist_matcher (c_Whitelist c) = inr m -> reload_waf c old = inl e -> line_state s i = Some (b, t) ->
  line_state (serve (CallReloadPipe idx (inr c) shared) s).1 i =
    Some (b, if decide (bs_group b = bs_group old) then Reconfigure (tracker_config c) t else t).
Proof.
  intros Ho Hm Hw. unfold line_state. cbn [serve]. rewrite Ho. unfold Reload. rewrite Hm. unfold reload_waf in Hw. rewrite Hw.
  cbn [fst with_factory sv_built sv_factory sf_trackers]. destruct (sv_built s !! i) as [b'|]; [|done]. cbn [mbind option_bind].
  destruct (sf_trackers (sv_factory s) !! bs_group b') as [t'|] eqn:Et; [|done]. cbn [mbind option_bind]. intros [= -> ->].
  destruct (decide (bs_group b = bs_group old)) as [<-|Hne]; [by rewrite lookup_alter_eq, Et|].
  by rewrite lookup_alter_ne, Et by done.
Qed.

(** C37: What a reload that fails leaves behind, step by step. When the file does not load, or its whitelist does not compile, nothing changes. When only the WAF rules of the pipeline fail, the reload is not undone: no pipeline gets a new state, so every line is still rated by the old detectors and thresholds behind the old whitelist and WAF and a threat has the level its score has there; but the factory already holds the new file, from which later pipelines are built, and the trackers of the group forget addresses after the new observation window, with every address state, the eviction order and the collectors as before and the other groups untouched. Only a reload without any of these failures replaces the state of its pipeline. *)
Theorem failed_reload_effects idx load shared s old : sv_built s !! idx = Some old ->
  let s' := (serve (CallReloadPipe idx load shared) s).1 in
  (forall e, load = inl e -> s' = s) /\
  (forall c e, load = inr c -> whitelist_matcher (c_Whitelist c) = inl e -> s' = s) /\
  (forall c m e, load = inr c -> whitelist_matcher (c_Whitelist c) = inr m -> reload_waf c old = inl e ->
     sv_built s' = sv_built s /\ sv_cache s' = sv_cache s /\ sv_warnings s' = sv_warnings s /\
     sf_cfg (sv_factory s') = c /\ sf_collectors (sv_factory s') = sf_collectors (sv_factory s) /\
     forall i b t, line_state s i = Some (b, t) -> exists t', line_state s' i = Some (b, t') /\
       states t' = states t /\ lru t' = lru t /\ maxIPs t' = maxIPs t /\
       (bs_group b = bs_group old -> retention t' = sg_ObservationWindow (c_Scoring c)) /\
       (bs_group b <> bs_group old -> t' = t) /\
       (ss_RawForward (bs_state b) = false -> forall now cancelled r sh evctx envelope entry ev,
          (serve (CallLine i now cancelled r sh evctx envelope entry) s').2 = Some ev ->
          exists te, ev_Payload ev = PThreat te /\ te_IP te = le_RealIP entry /\
            te_Level te = levelFor (ss_Scorer (bs_state b)) (te_Score te) /\
            whitelisted (ss_Matcher (bs_state b)) entry = false)) /\
  (forall c m waf, load = inr c -> whitelist_matcher (c_Whitelist c) = inr m -> reload_waf c old = inr waf ->
     exists b, sv_built s' = <[idx := b]> (sv_built s) /\ ss_Matcher (bs_state b) = m /\ ss_Waf (bs_state b) = waf /\
       banThreshold (ss_Scorer (bs_state b)) = sg_BanThreshold (c_Scoring c)).
Proof.
  intros Ho s'. split; [intros e ->; subst s'; cbn [serve]; by rewrite Ho; destruct s|]. split; [|split].
  - intros c e -> Hm. subst s'. cbn [serve]. rewrite Ho. unfold Reload. rewrite Hm. by destruct s.
  - intros c m e -> Hm Hw. split_and!; try (subst s'; cbn [serve]; rewrite Ho; unfold Reload; rewrite Hm; unfold reload_waf in Hw; by rewrite Hw).
    intros i b t Hl. pose proof (waf_failed_line idx c m e shared s old i b t Ho Hm Hw Hl) as Hl'. fold s' in Hl'.
    eexists. split; [exact Hl'|]. split_and!; try (by destruct (decide _)).
    intros Hraw now cancelled r sh evctx envelope entry ev. cbn [serve]. rewrite Hl'.
    destruct (Process _ _ _ _ _ _ _ _ _) as [ev' ps] eqn:Hp. cbn [snd]. intros ->.
    destruct (process_emits _ _ _ _ _ _ _ _ _ _ _ Hraw Hp) as (v & Hpay & _ & Hlev & _ & _ & Hreach).
    eexists. split; [exact Hpay|]. split; [done|]. split; [done|].
    unfold reaches_tracker in Hreach. rewrite Hraw in Hreach. by destruct (whitelisted (ss_Matcher (bs_state b)) entry).
  - intros c m waf -> Hm Hw. subst s'. cbn [serve]. rewrite Ho. unfold Reload. rewrite Hm. unfold reload_waf in Hw. rewrite Hw.
    eexists. split; [done|]. done.
Qed.

(** The registry gives detectors that leave the tracked history alone. *)
Context (registry_neutral : forall name spec sh d, detector_Build name spec sh = inr (Some d) -> neutral d).

Record service_ok (s : Service) (m : gmap string Group) : Prop := {
  so_groups : groups_ok (sf_trackers (sv_factory s)) m;
  so_built : map_Forall (fun _ b => built_ok b) (sv_built s);
  so_window : window_int64 (sf_cfg (sv_factory s))
}.

Lemma groups_ok_lookup ts m g t : groups_ok ts m -> ts !! g = Some t -> exists x, m !! g = Some x /\ group_ok t x.
Proof. intros H Ht. specialize (H g). rewrite Ht in H. destruct (m !! g) as [x|]; inversion H; subst. by exists x. Qed.

Lemma groups_ok_none ts m g : groups_ok ts m -> ts !! g = None -> m !! g = None.
Proof. intros H Ht. specialize (H g). rewrite Ht in H. destruct (m !! g); [inversion H|done]. Qed.

Lemma groups_ok_alter ts m g (ft : Tracker -> Tracker) (fx : Group -> Group) : groups_ok ts m ->
  (forall t x, group_ok t x -> group_ok (ft t) (fx x)) -> groups_ok (alter ft g ts) (alter fx g m).
Proof.
  intros H Hf g'. destruct (decide (g' = g)) as [->|Hne].
  - rewrite !lookup_alter_eq. destruct (H g); cbn; constructor. by apply Hf.
  - by rewrite !lookup_alter_ne.
Qed.

Lemma groups_ok_insert ts m g t t' fx : groups_ok ts m -> ts !! g = Some t ->
  (forall x, group_ok t x -> group_ok t' (fx x)) -> groups_ok (<[g := t']> ts) (alter fx g m).
Proof.
  intros H Ht Hf. replace (<[g := t']> ts) with (alter (fun _ => t') g ts).
  2: { apply map_eq. intros g'. destruct (decide (g' = g)) as [->|Hne]; [by rewrite lookup_alter_eq, lookup_insert_eq, Ht|].
       by rewrite lookup_alter_ne, lookup_insert_ne. }
  intros g'. destruct (decide (g' = g)) as [->|Hne]; [|by rewrite !lookup_alter_ne].
  destruct (groups_ok_lookup _ _ _ _ H Ht) as (x & Hx & Hok). rewrite !lookup_alter_eq, Ht, Hx. cbn. constructor. by apply Hf.
Qed.

Lemma built_detectors_neutral cfg pc sh : Forall neutral (buildPipelineDetectors cfg pc sh).
Proof.
  unfold buildPipelineDetectors. apply Forall_forall. intros d (name & _ & Hd)%list_elem_of_omap.
  unfold built_detector in Hd. destruct (_ !! name) as [spec|]; [|done]. cbn in Hd.
  destruct (detector_Build name spec sh) as [e|o] eqn:E; [done|]. subst o. by eapply registry_neutral.
Qed.

Lemma NewWaf_scoreFn (c : WafConfig Tracker) w : NewWafProcessor c = Some w -> wp_scoreFn w = wc_ScoreFn c.
Proof.
  unfold NewWafProcessor. destruct (_ =? 0)%nat; [done|]. destruct (NewRuleSetFromConfig (wc_Rules c)) as [[[p g] a]|]; [|done].
  by intros [= <-].
Qed.

Lemma buildWaf_bound procs ban w : buildWafProcessor waf_decode procs ban = inr (Some w) -> wp_scoreFn w = Some tracker_ScoreFn.
Proof.
  assert (Hf : forall c, finish_waf ban c = inr (Some w) -> wp_scoreFn w = Some tracker_ScoreFn).
  { intros c. unfold finish_waf. cbv zeta. destruct (NewWafProcessor _) as [w'|] eqn:E; [|done]. intros [= ->]. by apply NewWaf_scoreFn in E. }
  unfold buildWafProcessor. destruct (List.find _ procs) as [pc|]; [|done]. destruct (pc_Params pc !! "waf_config") as [[]|]; try done.
  destruct (waf_decode m) as [e|c]; [done|]. cbn. apply Hf.
Qed.

Lemma assemble_ok cfg cfg' pc sn pn idx g m sh procs ban waf :
  buildWafProcessor waf_decode procs ban = inr waf ->
  built_ok (assemble cfg pc sn pn idx g m (buildPipelineDetectors cfg' pc sh) waf).
Proof.
  intros Hw. split; [apply built_detectors_neutral|]. intros w Hs. cbn in Hs. subst waf. by eapply buildWaf_bound.
Qed.

Lemma create_ok f m g : groups_ok (sf_trackers f) m -> window_int64 (sf_cfg f) ->
  groups_ok (sf_trackers (getOrCreateTracker g (sf_cfg f) f))
    (group_step m (Created g (se_MaxTrackedIPs (c_State (sf_cfg f))) (sg_ObservationWindow (c_Scoring (sf_cfg f))))).
Proof.
  intros H Hw. unfold getOrCreateTracker. cbn [group_step]. destruct (sf_trackers f !! g) as [t|] eqn:Et.
  { destruct (groups_ok_lookup _ _ _ _ H Et) as (x & -> & _). exact H. }
  rewrite (groups_ok_none _ _ _ H Et). cbn [sf_trackers]. intros g'. destruct (decide (g' = g)) as [->|Hne]; [|by rewrite !lookup_insert_ne].
  rewrite !lookup_insert_eq. constructor. split; [apply new_refines|]. done.
Qed.

Lemma getOrCreate_cfg g cfg f : sf_cfg (getOrCreateTracker g cfg f) = sf_cfg f.
Proof. unfold getOrCreateTracker. by destruct (_ !! g). Qed.

(** One call. *)
Lemma serve_build_ok sn pn idx sh s m : service_ok s m ->
  service_ok (serve (CallBuildPipe sn pn idx sh) s).1 (foldl group_step m (events_of (CallBuildPipe sn pn idx sh) s)).
Proof.
  intros [Hg Hb Hw]. cbn [serve events_of]. unfold Build. destruct (findStreamCfg _ sn) as [sc|]; [|by split].
  destruct (st_Pipelines sc !! idx) as [fb|]; [|by split]. cbn [mbind option_bind].
  destruct (whitelist_matcher _) as [e|mt]; [by split|]. cbn [foldl].
  pose proof (create_ok _ _ (resolveTrackerGroup (findPipelineCfg sc pn idx fb)) Hg Hw) as Hc.
  destruct (buildWafProcessor _ _ _) as [e|waf] eqn:Ew; split; cbn [sv_factory sv_built with_factory fst]; rewrite ?getOrCreate_cfg; try done.
  apply map_Forall_insert_2; [|done]. by eapply assemble_ok.
Qed.

Lemma serve_reload_ok idx load sh s m : service_ok s m -> call_ok (CallReloadPipe idx load sh) ->
  service_ok (serve (CallReloadPipe idx load sh) s).1 (foldl group_step m (events_of (CallReloadPipe idx load sh) s)).
Proof.
  intros [Hg Hb Hw] Hok. cbn [serve events_of]. unfold Reload.
  destruct load as [e|newCfg]; [destruct (sv_built s !! idx); by split|].
  destruct (sv_built s !! idx) as [old|] eqn:Eo; [|by split].
  destruct (whitelist_matcher _) as [e|mt]; [by split|]. cbn [foldl group_step].
  assert (Hr : groups_ok (alter (Reconfigure (tracker_config newCfg)) (bs_group old) (sf_trackers (sv_factory s)))
    (alter (fun x => mkGroup (gr_history x) (gr_max x) (sg_ObservationWindow (c_Scoring newCfg))) (bs_group old) m)).
  { apply groups_ok_alter; [done|]. intros t x (HR & [= Hm _] & _). split; [destruct HR; by split|]. split; [by rewrite <- Hm|done]. }
  destruct (buildWafProcessor _ _ _) as [e|waf] eqn:Ew; split; cbn [sv_factory sv_built with_factory fst]; try done.
  apply map_Forall_insert_2; [|done]. by eapply assemble_ok.
Qed.

Lemma serve_line_ok idx now cancelled r sh evctx envelope entry s m : service_ok s m ->
  let c := CallLine idx now cancelled r sh evctx envelope entry in
  service_ok (serve c s).1 (foldl group_step m (events_of c s)).
Proof.
  intros [Hg Hb Hw] c. subst c. cbn [serve events_of]. destruct (line_state s idx) as [[b t]|] eqn:El; [|by split].
  unfold line_state in El. destruct (sv_built s !! idx) as [b'|] eqn:Eb; [|done]. cbn in El.
  destruct (sf_trackers _ !! bs_group b') as [t'|] eqn:Et; [|done]. cbn in El. injection El as -> ->.
  destruct (Hb _ _ Eb) as [Hn Hwf].
  pose proof (Process_limits now cancelled r sh (bs_state b) evctx envelope entry (pipe_state s t) Hwf) as Hl.
  pose proof (fun a => Process_refines now cancelled r sh (bs_state b) evctx envelope entry (pipe_state s t) a Hn Hwf) as Hr.
  destruct (Process now cancelled r sh (bs_state b) evctx envelope entry (pipe_state s t)) as [ev ps]. cbn [snd fst] in *.
  split; [|done|done]. cbn [sv_factory set_tracker sf_trackers]. destruct (reaches_tracker _ _ _ _ _ _ _ _ _); cbn [foldl group_step].
  - apply (groups_ok_insert _ _ _ _ _ _ Hg Et). intros x (HR & Hx & Hret). split; [|by rewrite Hl].
    cbn [gr_history]. specialize (Hr _ HR). cbn [pipe_state ps_tracker] in Hr. injection Hx as Hm _. by rewrite Hm in Hr.
  - intros g'. destruct (decide (g' = bs_group b)) as [->|Hne]; [|by rewrite lookup_insert_ne].
    destruct (groups_ok_lookup _ _ _ _ Hg Et) as (x & -> & HR & Hx & Hret).
    rewrite lookup_insert_eq. constructor. split; [by apply Hr|]. by rewrite Hl.
Qed.

Lemma serve_gc_ok g now s m : service_ok s m ->
  service_ok (serve (CallGC g now) s).1 (foldl group_step m (events_of (CallGC g now) s)).
Proof.
  intros [Hg Hb Hw]. cbn [serve events_of foldl group_step].
  destruct (sf_trackers (sv_factory s) !! g) as [t|] eqn:Et.
  - split; [|done|done]. cbn [sv_factory with_factory set_tracker sf_trackers fst]. apply (groups_ok_insert _ _ _ _ _ _ Hg Et).
    intros x (HR & [= Hm Hret] & Hi). pose proof (exec_op_refines t _ (OpGC now) HR) as Ho. cbn [abs_op exec_op op_ok] in Ho.
    rewrite Hret in Ho. destruct (Ho Hi I) as (HR' & Hm' & Hret' & _). split; [exact HR'|]. split; [|exact Hi].
    unfold limits. cbn [gr_max gr_retention]. by rewrite Hm', Hret', Hm.
  - split; [|done|done]. intros g'. destruct (decide (g' = g)) as [->|Hne]; [|by rewrite lookup_alter_ne].
    rewrite lookup_alter_eq, (groups_ok_none _ _ _ Hg Et). cbn [sv_factory fst]. rewrite Et. constructor.
Qed.

Lemma serve_ok c s m : service_ok s m -> call_ok c -> service_ok (serve c s).1 (foldl group_step m (events_of c s)).
Proof.
  intros Hs Hc. destruct c; [by apply serve_build_ok|by apply serve_line_ok|by apply serve_reload_ok|by apply serve_gc_ok|].
  destruct Hs. by split.
Qed.

Lemma serve_all_ok calls s m : service_ok s m -> Forall call_ok calls ->
  service_ok (serve_all calls s) (foldl group_step m (history_of calls s)).
Proof.
  intros Hs Hc. revert s m Hs. induction Hc as [|c calls Hc _ IH]; intros s m Hs; [done|].
  cbn [serve_all history_of]. rewrite foldl_app. apply IH. by apply serve_ok.
Qed.

(** C4: A stream keeps its histories: whatever the engine calls in whatever order (builds of its pipelines, lines of each of them, reloads that succeed or fail at any point) and however the collectors and the other streams interleave, the trackers of the stream are exactly the groups of the specification, each with the histories, by recency, of the lines of its pipelines that passed whitelist, WAF and bot verification, cut only by the size limit of the group and by the collector at the retention of the last accepted reload; no reload loses, repeats or moves a line. *)
Theorem stream_histories_exact cfg cache calls :
  window_int64 cfg -> Forall call_ok calls ->
  let s := serve_all calls (start_service cfg cache) in
  let groups := foldl group_step ∅ (history_of calls (start_service cfg cache)) in
  dom (sf_trackers (sv_factory s)) = dom groups /\
  forall g t x, sf_trackers (sv_factory s) !! g = Some t -> groups !! g = Some x ->
    tracker_refines t (gr_history x) /\ maxIPs t = gr_max x /\ retention t = gr_retention x.
Proof.
  intros Hw Hc s groups. assert (Hs : service_ok s groups).
  { apply serve_all_ok; [|done]. split; [|done|done]. intros g. cbn. rewrite !lookup_empty. constructor. }
  destruct Hs as [Hg _ _]. split.
  - apply set_eq. intros g. rewrite !elem_of_dom. destruct (Hg g); split; try done; eauto.
  - intros g t x Ht Hx. destruct (groups_ok_lookup _ _ _ _ Hg Ht) as (x' & Hx' & HR & Hl & _). assert (x' = x) as -> by congruence.
    injection Hl as -> ->. done.
Qed.
End stream.

(** ** The registry of the program *)

Lemma registered_builtin {UL : UnicodeLower} {MR : MapRange} {DP : DetectorParams} (as_config : DetectorSpec -> Detectors.DetectorConfig)
    name factory spec sh d : registered as_config name = Some factory -> factory spec sh = inr d -> neutral d.
Proof.
  unfold registered. intros Hf Hd. apply builtin_neutral.
  repeat match type of Hf with (if ?b then _ else _) = _ => destruct b; [injection Hf as <-|] end; try discriminate Hf;
    try (injection Hd as <-; constructor).
  destruct (newRateFactory _) as [e|rd]; [done|]. injection Hd as <-. constructor.
Qed.

(** ** Witness *)

Definition ex_visit (path : string) : Call :=
  CallLine 0 ex_clock false ex_resolver ex_shared ex_evctx ex_envelope (ex_line path).

(** A line, a reload, another line and a collector run. *)
Definition ex_calls : list Call :=
  [CallBuildPipe "" "" 0 None; ex_visit "/.env"; CallReloadPipe 0 (inr ex_loaded) None; ex_visit "/a"; CallGC "" 1500].

Lemma ex_registry_neutral name spec sh d : @detector_Build ex_registry name spec sh = inr (Some d) -> neutral d.
Proof.
  cbn [detector_Build ex_registry]. destruct (ex_registered name) as [factory|] eqn:E; [|done]. destruct (spec_Enabled spec); [|done].
  destruct (factory spec sh) as [e|d'] eqn:Ed; [done|]. intros [= <-].
  exact (@registered_builtin ex_waf_lower map_range_canonical ex_params id name factory spec sh d' E Ed).
Qed.

Lemma stream_histories_exact_witness : exists t,
  sf_trackers (sv_factory (@serve_all ex_rule_engine ex_waf_lower ConfigLoad.ex_print ex_registry map_range_canonical no_waf ex_calls
    (start_service ex_loaded ex_cache))) !! "" = Some t /\
  tracker_refines t [("203.0.113.9", [ex_line "/.env"; ex_line "/a"])].
Proof.
  destruct (@stream_histories_exact ex_rule_engine ex_waf_lower ConfigLoad.ex_print ex_registry map_range_canonical no_waf
    ex_registry_neutral ex_loaded ex_cache ex_calls) as [Hd Hg].
  - vm_compute. split; congruence.
  - repeat constructor; vm_compute; congruence.
  - cbv zeta in Hd, Hg. set (s := serve_all _ _ _) in *. set (m := foldl group_step ∅ _) in *.
    assert (Hm : gr_history <$> m !! "" = Some [("203.0.113.9", [ex_line "/.env"; ex_line "/a"])]) by (vm_compute; reflexivity).
    destruct (m !! "") as [x|] eqn:Ex; [|discriminate Hm]. assert (Hin : "" ∈ dom m) by (by apply elem_of_dom_2 in Ex).
    rewrite <- Hd in Hin. apply elem_of_dom in Hin as [t Ht]. exists t. split; [exact Ht|].
    destruct (Hg "" t x Ht Ex) as [HR _]. injection Hm as Hm. rewrite Hm in HR. exact HR.
Defined.

(** A pipeline reloaded with a WAF section that does not decode. *)
Definition ex_serving : @Service ex_rule_engine := mkService ex_factory {[0 := ex_old]} ex_cache [].
Abbreviation ex_failed :=
  (@serve ex_rule_engine ex_waf_lower ConfigLoad.ex_print ex_registry map_range_canonical no_waf (CallReloadPipe 0 (inr ex_bad_waf) None) ex_serving).1.

Lemma failed_reload_effects_witness : exists t,
  sf_cfg (sv_factory ex_failed) = ex_bad_waf /\ line_state ex_failed 0 = Some (ex_old, t) /\ states t = states ex_tracker.
Proof.
  destruct (@failed_reload_effects ex_rule_engine ex_waf_lower ConfigLoad.ex_print ex_registry map_range_canonical no_waf 0 (inr ex_bad_waf) None ex_serving ex_old)
    as (_ & _ & Hf & _); [reflexivity|].
  destruct (whitelist_matcher (c_Whitelist ex_bad_waf)) as [e|m] eqn:Em; [vm_compute in Em; discriminate Em|].
  destruct (Hf ex_bad_waf m "waf: unmarshal waf_config: no waf" eq_refl) as (_ & _ & _ & Hc & _ & Hl);
    [exact Em|vm_compute; reflexivity|].
  destruct (Hl 0 ex_old ex_tracker) as (t & Ht & Hst & _); [reflexivity|]. exists t. split; [exact Hc|]. split; [exact Ht|exact Hst].
Defined.
