(* ===== verification/Logging.v ===== *)
(** * Logging (internal/sys/utils/logging.go, internal/core/output/warnings.go)

    The operational and threat logs with their reload, and the writer of chain
    warnings.  A small file system keeps what the code relies on: a path names an
    inode, a descriptor keeps its inode when the path is renamed by logrotate, and
    opening, creating a directory or writing may fail.  [logging_step] interleaves
    the critical sections of concurrent [Log], [LogThreat], [Reload] and [Close]
    calls. *)

From Stdlib Require Import ZArith Lia Ascii String.
From stdpp Require Import base numbers option list strings gmap.
From S2P Require Import Prelude GoStrings GoNet GoFmt GoTime Model ChainCheck.

(** ** Files *)

Abbreviation File := nat (only parsing).

Record FS := mkFS {
  fs_names : gmap string nat;          (* path -> inode *)
  fs_data : gmap nat (list string);    (* inode -> lines *)
  fs_fds : gmap nat nat;               (* open descriptor -> inode *)
  fs_next : nat;                       (* first unused number *)
  fs_open_err : gmap string string;    (* paths that cannot be opened *)
  fs_dir_err : gmap string string;     (* paths whose directory cannot be made *)
  fs_write_err : option string         (* the device refuses writes *)
}.

(** [os.OpenFile(path, O_CREATE|O_APPEND|O_WRONLY, 0644)]. *)
Definition OpenFile (fs : FS) (path : string) : string + (File * FS) :=
  match fs_open_err fs !! path with
  | Some e => inl e
  | None =>
      let n := fs_next fs in
      match fs_names fs !! path with
      | Some i =>
          inr (n, mkFS (fs_names fs) (fs_data fs) (<[n := i]> (fs_fds fs)) (S n)
                    (fs_open_err fs) (fs_dir_err fs) (fs_write_err fs))
      | None =>
          inr (S n, mkFS (<[path := n]> (fs_names fs)) (<[n := []]> (fs_data fs)) (<[S n := n]> (fs_fds fs)) (S (S n))
                      (fs_open_err fs) (fs_dir_err fs) (fs_write_err fs))
      end
  end.

Definition with_data (fs : FS) (d : gmap nat (list string)) : FS :=
  mkFS (fs_names fs) d (fs_fds fs) (fs_next fs) (fs_open_err fs) (fs_dir_err fs) (fs_write_err fs).
Definition with_fds (fs : FS) (m : gmap nat nat) : FS :=
  mkFS (fs_names fs) (fs_data fs) m (fs_next fs) (fs_open_err fs) (fs_dir_err fs) (fs_write_err fs).

(** A line written to a [*os.File]; nil and closed files report an error. *)
Definition WriteLine (fs : FS) (f : option File) (line : string) : string + FS :=
  match f with
  | None => inl "invalid argument"
  | Some fd =>
      match fs_fds fs !! fd with
      | None => inl "file already closed"
      | Some i =>
          match fs_write_err fs with
          | Some e => inl e
          | None => inr (with_data fs (alter (fun d => d ++ [line]) i (fs_data fs)))
          end
      end
  end.

(** [Sync] and [Close]; a nil file is left alone by the callers. *)
Definition CloseFile (fs : FS) (f : option File) : FS :=
  match f with Some fd => with_fds fs (delete fd (fs_fds fs)) | None => fs end.

(** Other processes: rename, remove and create names, change what fails. *)
Inductive env_step : FS -> FS -> Prop :=
  | env_names fs names : (forall p i, names !! p = Some i -> is_Some (fs_data fs !! i)) ->
      env_step fs (mkFS names (fs_data fs) (fs_fds fs) (fs_next fs) (fs_open_err fs) (fs_dir_err fs) (fs_write_err fs))
  | env_faults fs oe de we :
      env_step fs (mkFS (fs_names fs) (fs_data fs) (fs_fds fs) (fs_next fs) oe de we).

(** Numbers in use are below [fs_next], names and descriptors have an inode. *)
Record fs_wf (fs : FS) : Prop := {
  wf_names : forall p i, fs_names fs !! p = Some i -> is_Some (fs_data fs !! i);
  wf_fds : forall f i, fs_fds fs !! f = Some i -> is_Some (fs_data fs !! i) /\ f < fs_next fs;
  wf_data : forall i, is_Some (fs_data fs !! i) -> i < fs_next fs
}.

(** The lines of an inode; an inode not yet in use has none. *)
Definition content (fs : FS) (i : nat) : list string := default [] (fs_data fs !! i).

Lemma env_step_wf fs fs' : env_step fs fs' -> fs_wf fs -> fs_wf fs'.
Proof. intros [] []; by constructor. Qed.

Lemma env_step_content fs fs' i : env_step fs fs' -> content fs' i = content fs i.
Proof. by intros []. Qed.

Lemma OpenFile_spec fs path f fs' : fs_wf fs -> OpenFile fs path = inr (f, fs') ->
  fs_wf fs' /\ fs_fds fs !! f = None /\ (exists i, fs_fds fs' = <[f := i]> (fs_fds fs)) /\
  (forall i, content fs' i = content fs i) /\ fs_write_err fs' = fs_write_err fs.
Proof.
  intros [Wn Wf Wd]. unfold OpenFile. destruct (fs_open_err fs !! path); [done|].
  assert (Hfd : forall k, fs_next fs <= k -> fs_fds fs !! k = None).
  { intros k Hk. destruct (fs_fds fs !! k) as [i|] eqn:E; [|done]. destruct (Wf _ _ E). lia. }
  assert (Hd : fs_data fs !! fs_next fs = None).
  { destruct (fs_data fs !! fs_next fs) eqn:E; [|done]. specialize (Wd _ (mk_is_Some _ _ E)). lia. }
  destruct (fs_names fs !! path) as [i|] eqn:En; intros [= <- <-].
  - split; [|eauto 10]. constructor; cbn; [done| |intros j Hj; specialize (Wd j Hj); lia].
    intros g j. rewrite lookup_insert_Some. intros [[<- <-]|[_ Hg]]; [split; [eauto|lia]|].
    destruct (Wf _ _ Hg). split; [done|lia].
  - split; [constructor; cbn|].
    + intros p j. rewrite lookup_insert_Some. intros [[<- <-]|[_ Hp]]; [by rewrite lookup_insert_eq|].
      rewrite lookup_insert_is_Some'. right. by eapply Wn.
    + intros g j. rewrite lookup_insert_Some. intros [[<- <-]|[_ Hg]].
      * rewrite lookup_insert_eq. split; [done|lia].
      * destruct (Wf _ _ Hg). rewrite lookup_insert_is_Some'. split; [by right|lia].
    + intros j. rewrite lookup_insert_is_Some'. intros [<-|Hj]; [lia|]. specialize (Wd j Hj). lia.
    + split; [apply Hfd; lia|]. split; [eauto|]. split; [|done]. intros j. unfold content. cbn.
      destruct (decide (j = fs_next fs)) as [->|Hne]; [by rewrite lookup_insert_eq, Hd|].
      by rewrite lookup_insert_ne.
Qed.

Lemma CloseFile_wf fs f : fs_wf fs -> fs_wf (CloseFile fs f).
Proof.
  intros [Wn Wf Wd]. destruct f as [fd|]; [|by constructor]. constructor; cbn; [done| |done].
  intros g i. rewrite lookup_delete_Some. intros [_ Hg]. by apply Wf.
Qed.

Lemma CloseFile_content fs f i : content (CloseFile fs f) i = content fs i.
Proof. by destruct f. Qed.

(** What a successful write adds. *)
Definition added (i : nat) (tr : list (nat * string)) : list string :=
  omap (fun jl => if decide (jl.1 = i) then Some jl.2 else None) tr.

Lemma added_app i a b : added i (a ++ b) = added i a ++ added i b.
Proof. apply omap_app. Qed.

(** A write through an open descriptor appends to its inode unless the device
    refuses. *)
Lemma WriteLine_open fs fd i line : fs_wf fs -> fs_fds fs !! fd = Some i ->
  match fs_write_err fs with
  | Some e => WriteLine fs (Some fd) line = inl e
  | None => exists fs', WriteLine fs (Some fd) line = inr fs' /\ fs_wf fs' /\ fs_fds fs' = fs_fds fs /\
      (forall j, content fs' j = content fs j ++ added j [(i, line)])
  end.
Proof.
  intros [Wn Wf Wd] Hfd. unfold WriteLine. rewrite Hfd. destruct (fs_write_err fs) eqn:Ew; [done|].
  assert (Hs : forall j, is_Some (alter (fun d => d ++ [line]) i (fs_data fs) !! j) <-> is_Some (fs_data fs !! j)).
  { intros j. destruct (decide (i = j)) as [<-|Hne]; [rewrite lookup_alter_eq; by rewrite fmap_is_Some|].
    by rewrite lookup_alter_ne. }
  eexists. split; [done|]. split; [|split; [done|]].
  - constructor; cbn; [intros p j Hp; apply Hs; eauto|intros f j Hf|intros j Hj; apply Wd; by apply Hs].
    rewrite Hs. by apply Wf.
  - intros j. unfold content, added. cbn. destruct (decide (i = j)) as [<-|Hne].
    + rewrite lookup_alter_eq. destruct (Wf _ _ Hfd) as [[d Hd] _]. by rewrite Hd.
    + rewrite lookup_alter_ne by done. by rewrite app_nil_r.
Qed.

(** ** logging.go *)

(** Colours of github.com/fatih/color; rendering is the library's. *)
Inductive Color := Reset | FgBlue | FgRed | FgYellow | FgMagenta | FgCyan | FgGreen | FgHiRed.

Class Colors := { Sprint : Color -> string -> string }.

Definition assoc {A} (m : list (string * A)) (k : string) : option A :=
  snd <$> find (fun kv => String.eqb kv.1 k) m.

Definition logColors : list (string * Color) :=
  [("STARTUP", FgGreen); ("SHUTDOWN", FgRed); ("CONFIG", FgMagenta); ("PARSER", FgCyan); ("DETECTOR", FgYellow);
   ("SCORER", FgCyan); ("WHITELIST", FgMagenta); ("THREAT", FgRed); ("STATS", FgGreen); ("GC", FgCyan);
   ("TAIL", FgCyan); ("ERROR", FgRed); ("WARN", FgYellow); ("INFO", FgCyan); ("DEBUG", FgHiRed)].

Definition innerTagColors : list (string * Color) :=
  [("PROBE", FgYellow); ("RATE", FgHiRed); ("UA", FgMagenta); ("BRUTEFORCE", FgHiRed); ("CRAWLER", FgYellow);
   ("NOASSET", FgCyan); ("OVERFLOW", FgRed); ("DNS", FgBlue); ("GC", FgCyan)].

Definition debugOnlyTags (tag : string) : bool := bool_decide (tag ∈ ["DEBUG"; "PARSER"]).
Definition quietTags (tag : string) : bool := bool_decide (tag ∈ ["DETECTOR"; "SCORER"; "TAIL"]).

(** The two early returns of [Log]. *)
Definition suppressed (debug : bool) (tag level : string) : bool :=
  (debugOnlyTags tag && negb debug ||
   quietTags tag && negb debug && negb (String.eqb level "error") && negb (String.eqb level "warning"))%bool.

(** [strings.Index(s, "] ")]. *)
Fixpoint index_close (s : string) : option nat :=
  match s with
  | EmptyString => None
  | String a s1 =>
      if (Ascii.eqb a "]" && match s1 with String b _ => Ascii.eqb b " " | _ => false end)%bool then Some 0
      else S <$> index_close s1
  end.

(** The inner tag of a message, its colour and the rest of the message. *)
Definition inner_tag (message : string) : option (string * Color * string) :=
  match message with
  | String "[" rest =>
      if (String.length message <=? 2)%nat then None
      else
        match index_close message with
        | Some (S e) =>
            let name := string_take e rest in
            c ← assoc innerTagColors name; Some (name, c, string_drop (S (S (S e))) message)
        | _ => None
        end
  | _ => None
  end.

(** The line of sentinel.log. *)
Definition operational_line (timestamp tag message : string) : string :=
  timestamp +:+ " [" +:+ tag +:+ "] " +:+ message.

Section logging.
Context `{UnicodePrint} `{Colors}.

Definition console_line (color : bool) (timestamp tag message : string) : string :=
  let tagColor := default Reset (assoc logColors tag) in
  if color then
    let ts := Sprint FgBlue timestamp in
    let t := Sprint tagColor ("[" +:+ tag +:+ "]") in
    match inner_tag message with
    | Some (name, c, body) => ts +:+ " " +:+ t +:+ " " +:+ Sprint c ("[" +:+ name +:+ "]") +:+ " " +:+ body
    | None => ts +:+ " " +:+ t +:+ " " +:+ message
    end
  else
    match inner_tag message with
    | Some (name, _, body) => timestamp +:+ " [" +:+ tag +:+ "] [" +:+ name +:+ "] " +:+ body
    | None => operational_line timestamp tag message
    end.

(** The package variables and what the process has printed. *)
Record World := mkWorld {
  w_fs : FS;
  w_debug : bool;
  w_color : bool;
  w_oper : option File;
  w_threat : option File;
  w_console : list string;
  w_stderr : list string
}.

Definition set_fs (w : World) (fs : FS) : World :=
  mkWorld fs (w_debug w) (w_color w) (w_oper w) (w_threat w) (w_console w) (w_stderr w).
Definition set_writers (w : World) (o t : option File) : World :=
  mkWorld (w_fs w) (w_debug w) (w_color w) o t (w_console w) (w_stderr w).
Definition set_flags (w : World) (debug color : bool) : World :=
  mkWorld (w_fs w) debug color (w_oper w) (w_threat w) (w_console w) (w_stderr w).
Definition print_console (w : World) (l : string) : World :=
  mkWorld (w_fs w) (w_debug w) (w_color w) (w_oper w) (w_threat w) (w_console w ++ [l]) (w_stderr w).
Definition print_stderr (w : World) (l : string) : World :=
  mkWorld (w_fs w) (w_debug w) (w_color w) (w_oper w) (w_threat w) (w_console w) (w_stderr w ++ [l]).

(** The section of [Log] under the read lock; an error is dropped. *)
Definition log_file (w : World) (line : string) : World :=
  match w_oper w with
  | None => w
  | Some _ => match WriteLine (w_fs w) (w_oper w) line with inr fs => set_fs w fs | inl _ => w end
  end.

(** [local]: the local wall clock. *)
Definition Log (local : Time) (tag message level : string) (w : World) : World :=
  if suppressed (w_debug w) tag level then w
  else
    let timestamp := FormatDateTime local in
    let w := log_file w (operational_line timestamp tag message) in
    print_console w (console_line (w_color w) timestamp tag message).

(** The section of [LogThreat] under the read lock: the error, if any. *)
Definition threat_file (w : World) (line : string) : World * option (option string) :=
  match w_threat w with
  | None => (w, Some None)
  | Some _ =>
      match WriteLine (w_fs w) (w_threat w) line with
      | inr fs => (set_fs w fs, None)
      | inl e => (w, Some (Some e))
      end
  end.

Definition threat_text (timestamp threatLevel ip : string) (score : Z) (modulesStr reason : string) : string :=
  timestamp +:+ " " +:+ threatLevel +:+ " " +:+ ip +:+ " score=" +:+ Itoa score +:+ " modules=" +:+ modulesStr +:+
  " reason=" +:+ Quote reason.

Definition LogThreat (utc local : Time) (ip : string) (score : Z) (threatLevel : string) (modules : list string)
    (reason : string) (w : World) : World :=
  let modulesStr := Join modules "," in
  let line := threat_text (FormatRFC3339 utc) threatLevel ip score modulesStr reason in
  let '(w, r) := threat_file w line in
  let w :=
    match r with
    | Some None =>
        Log local "ERROR" ("[THREAT] threatWriter=nil, threat lost: " +:+ ip +:+ " score=" +:+ Itoa score +:+
                           " modules=" +:+ modulesStr) "error" w
    | Some (Some e) =>
        print_stderr w ("[ERROR] threat record lost (" +:+ ip +:+ " score=" +:+ Itoa score +:+ "): " +:+ e)
    | None => w
    end in
  Log local "THREAT" (ip +:+ " score=" +:+ Itoa score +:+ " modules=" +:+ modulesStr +:+ " reason=" +:+ Quote reason)
    "warning" w.

Definition ensureDir (fs : FS) (filePath : string) : option string := fs_dir_err fs !! filePath.

Definition Init (debug consoleColor : bool) (operationalLogPath threatLogPath : string) (w : World) : World * option string :=
  let w := set_flags w debug consoleColor in
  let w :=
    match ensureDir (w_fs w) operationalLogPath with
    | Some e => print_stderr w ("[WARN] failed to create directory for operational log: " +:+ e)
    | None =>
        match OpenFile (w_fs w) operationalLogPath with
        | inl e => print_stderr w ("[WARN] operational log unavailable (" +:+ operationalLogPath +:+ "): " +:+ e +:+
                                   " — continuing with console only")
        | inr (f, fs) => set_writers (set_fs w fs) (Some f) (w_threat w)
        end
    end in
  if String.eqb threatLogPath "" then (w, None)
  else
    match ensureDir (w_fs w) threatLogPath with
    | Some e => (w, Some ("threat log directory: " +:+ e))
    | None =>
        match OpenFile (w_fs w) threatLogPath with
        | inl e => (w, Some ("threat log unavailable (" +:+ threatLogPath +:+ "): " +:+ e))
        | inr (f, fs) => (set_writers (set_fs w fs) (w_oper w) (Some f), None)
        end
    end.

(** The steps of [Reload]: open the operational log, open the threat log, store
    the flags, swap under the write lock, close the old files. *)
Definition reload_oper (operationalLogPath : string) (w : World) : World * option File :=
  match ensureDir (w_fs w) operationalLogPath with
  | Some e => (print_stderr w ("[WARN] Reload: failed to create operational log directory: " +:+ e), None)
  | None =>
      match OpenFile (w_fs w) operationalLogPath with
      | inr (f, fs) => (set_fs w fs, Some f)
      | inl e => (print_stderr w ("[WARN] Reload: operational log unavailable: " +:+ e), None)
      end
  end.

Definition reload_threat (threatLogPath : string) (newOperWriter : option File) (w : World)
    : World * (string + option File) :=
  if String.eqb threatLogPath "" then (w, inr None)
  else
    match ensureDir (w_fs w) threatLogPath with
    | Some e => (set_fs w (CloseFile (w_fs w) newOperWriter), inl ("Reload: threat log directory: " +:+ e))
    | None =>
        match OpenFile (w_fs w) threatLogPath with
        | inl e => (set_fs w (CloseFile (w_fs w) newOperWriter),
                    inl ("Reload: threat log unavailable (" +:+ threatLogPath +:+ "): " +:+ e))
        | inr (f, fs) => (set_fs w fs, inr (Some f))
        end
    end.

Definition swap_writers (o t : option File) (w : World) : World * option File * option File :=
  (set_writers w o t, w_oper w, w_threat w).

Definition close_files (o t : option File) (w : World) : World :=
  set_fs w (CloseFile (CloseFile (w_fs w) o) t).

Definition Reload (debug consoleColor : bool) (operationalLogPath threatLogPath : string) (w : World)
    : World * option string :=
  let '(w, newOper) := reload_oper operationalLogPath w in
  let '(w, r) := reload_threat threatLogPath newOper w in
  match r with
  | inl e => (w, Some e)
  | inr newThreat =>
      let w := set_flags w debug consoleColor in
      let '(w, oldOper, oldThreat) := swap_writers newOper newThreat w in
      (close_files oldOper oldThreat w, None)
  end.

Definition Close (w : World) : World :=
  let '(w, ow, tw) := swap_writers None None w in close_files ow tw w.

(** A stream's own threat log. *)
Definition OpenThreatLog (fs : FS) (path : string) : string + (File * FS) :=
  if String.eqb path "" then inl "threat log path is empty"
  else
    match ensureDir fs path with
    | Some e => inl ("threat log directory: " +:+ e)
    | None =>
        match OpenFile fs path with
        | inl e => inl ("threat log unavailable (" +:+ path +:+ "): " +:+ e)
        | inr r => inr r
        end
    end.

(** *** Lines *)

Lemma index_close_split s i : index_close s = Some i ->
  s = string_take i s +:+ "] " +:+ string_drop (S (S i)) s.
Proof.
  revert i. induction s as [|a s IH]; intros i; [done|]. cbn [index_close].
  destruct (Ascii.eqb a "]" && _)%bool eqn:E.
  - intros [= <-]. apply andb_prop in E as [->%Ascii.eqb_eq E]. destruct s as [|b s]; [done|].
    apply Ascii.eqb_eq in E as ->. reflexivity.
  - destruct (index_close s) as [j|]; [|done]. intros [= <-]. cbn. f_equal. by apply IH.
Qed.

(** Extracting the inner tag loses nothing. *)
Lemma inner_tag_split message name c body : inner_tag message = Some (name, c, body) ->
  message = "[" +:+ name +:+ "] " +:+ body.
Proof.
  unfold inner_tag. destruct message as [|a rest]; [done|].
  destruct (Ascii.eqb_spec a "[") as [->|Hne].
  - destruct (_ <=? 2)%nat; [done|]. destruct (index_close _) as [[|e]|] eqn:E; [done| |done].
    destruct (assoc innerTagColors _); [|done]. cbn. intros [= <- <- <-].
    apply index_close_split in E. exact E.
  - destruct a as [[] [] [] [] [] [] [] []]; try done.
Qed.

Lemma console_line_plain color ts tag message : color = false \/ (forall c s, Sprint c s = s) ->
  console_line color ts tag message = operational_line ts tag message.
Proof.
  intros Hc. unfold console_line, operational_line.
  destruct (inner_tag message) as [[[name c] body]|] eqn:E; [apply inner_tag_split in E as ->|].
  - destruct Hc as [->|Hc]; [|rewrite !Hc; destruct color]; rewrite ?string_app_assoc; done.
  - destruct Hc as [->|Hc]; [done|]. rewrite !Hc. destruct color; rewrite ?string_app_assoc; done.
Qed.

(** *** Concurrent calls *)

(** Where a [Reload] or [Close] in progress is. *)
Inductive Thread :=
  | TStart (debug color : bool) (operPath threatPath : string)
  | TOper (debug color : bool) (newOper : option File) (threatPath : string)
  | TOpened (debug color : bool) (newOper newThreat : option File)
  | TFlagged (newOper newThreat : option File)
  | TSwapped (oldOper oldThreat : option File).

Definition thread_step (t : Thread) (w : World) : World * option Thread :=
  match t with
  | TStart d c op tp => let '(w, o) := reload_oper op w in (w, Some (TOper d c o tp))
  | TOper d c o tp =>
      let '(w, r) := reload_threat tp o w in
      match r with inl _ => (w, None) | inr t => (w, Some (TOpened d c o t)) end
  | TOpened d c o t => (set_flags w d c, Some (TFlagged o t))
  | TFlagged o t => let '(w, o', t') := swap_writers o t w in (w, Some (TSwapped o' t'))
  | TSwapped o t => (close_files o t w, None)
  end.

(** The inode and line of a write that succeeds. *)
Definition accepted (fs : FS) (f : option File) (line : string) : list (nat * string) :=
  match f with
  | Some fd =>
      match fs_fds fs !! fd, fs_write_err fs with
      | Some i, None => [(i, line)]
      | _, _ => []
      end
  | None => []
  end.

Inductive logging_step : World * list Thread -> list (nat * string) -> World * list Thread -> Prop :=
  | step_env w ths fs' : env_step (w_fs w) fs' -> logging_step (w, ths) [] (set_fs w fs', ths)
  | step_reload w ths d c op tp : logging_step (w, ths) [] (w, TStart d c op tp :: ths)
  | step_close w ths : logging_step (w, ths) [] (w, TFlagged None None :: ths)
  | step_thread w l t r :
      logging_step (w, l ++ t :: r) [] ((thread_step t w).1, l ++ option_list (thread_step t w).2 ++ r)
  | step_log w ths line : logging_step (w, ths) (accepted (w_fs w) (w_oper w) line) (log_file w line, ths)
  | step_threat w ths line :
      logging_step (w, ths) (accepted (w_fs w) (w_threat w) line) ((threat_file w line).1, ths)
  | step_console w ths l : logging_step (w, ths) [] (print_console w l, ths)
  | step_stderr w ths l : logging_step (w, ths) [] (print_stderr w l, ths).

Inductive logging_run : World * list Thread -> list (nat * string) -> World * list Thread -> Prop :=
  | run_nil s : logging_run s [] s
  | run_cons s1 tr1 s2 tr2 s3 : logging_step s1 tr1 s2 -> logging_run s2 tr2 s3 -> logging_run s1 (tr1 ++ tr2) s3.

Lemma run_one s tr s' : logging_step s tr s' -> logging_run s tr s'.
Proof. intros Hs. rewrite <- (app_nil_r tr). by eapply run_cons; [|constructor]. Qed.

Lemma run_app s1 tr1 s2 tr2 s3 : logging_run s1 tr1 s2 -> logging_run s2 tr2 s3 -> logging_run s1 (tr1 ++ tr2) s3.
Proof. induction 1 as [|????? Hs Hr IH]; intros H2; [done|]. rewrite <- app_assoc. eapply run_cons; eauto. Qed.

(** The calls are runs of their sections. *)
Lemma Log_run w ths local tag msg level : exists tr, logging_run (w, ths) tr (Log local tag msg level w, ths).
Proof.
  unfold Log. destruct (suppressed _ _ _); [eexists; constructor|].
  eexists. eapply run_app; apply run_one; [apply step_log|apply step_console].
Qed.

Lemma LogThreat_run w ths utc local ip score level modules reason : exists tr,
  logging_run (w, ths) tr (LogThreat utc local ip score level modules reason w, ths).
Proof.
  unfold LogThreat. set (line := threat_text _ _ _ _ _ _).
  pose proof (step_threat w ths line) as H1. apply run_one in H1.
  destruct (threat_file w line) as [w1 r]. cbn [fst] in H1.
  assert (H2 : exists tr w2, logging_run (w1, ths) tr (w2, ths) /\
    w2 = match r with
         | Some None => Log local "ERROR" ("[THREAT] threatWriter=nil, threat lost: " +:+ ip +:+ " score=" +:+ Itoa score +:+
                           " modules=" +:+ Join modules ",") "error" w1
         | Some (Some e) => print_stderr w1 ("[ERROR] threat record lost (" +:+ ip +:+ " score=" +:+ Itoa score +:+ "): " +:+ e)
         | None => w1
         end).
  { destruct r as [[e|]|]; [eauto using run_one, step_stderr| |eauto using run_nil].
    edestruct Log_run as [tr Htr]. eauto. }
  destruct H2 as (tr2 & w2 & H2 & <-).
  edestruct Log_run as [tr3 H3]. eexists. eapply run_app; [exact H1|]. eapply run_app; [exact H2|exact H3].
Qed.

Lemma thread_run t w : logging_run (w, [t]) [] ((thread_step t w).1, option_list (thread_step t w).2).
Proof. pose proof (step_thread w [] t []) as Ht. rewrite app_nil_r in Ht. by apply run_one. Qed.

Lemma Reload_run w debug color op tp : logging_run (w, []) [] ((Reload debug color op tp w).1, []).
Proof.
  apply (run_app _ [] (w, [TStart debug color op tp]) [] _); [apply run_one, step_reload|].
  unfold Reload. pose proof (thread_run (TStart debug color op tp) w) as H1. cbn [thread_step] in H1.
  destruct (reload_oper op w) as [w1 o]. apply (run_app _ [] _ [] _ H1). cbn [fst snd option_list].
  pose proof (thread_run (TOper debug color o tp) w1) as H2. cbn [thread_step] in H2.
  destruct (reload_threat tp o w1) as [w2 [e|t]]; [exact H2|]. apply (run_app _ [] _ [] _ H2). cbn [fst snd option_list].
  apply (run_app _ [] _ [] _ (thread_run (TOpened debug color o t) w2)). cbn.
  apply (run_app _ [] _ [] _ (thread_run (TFlagged o t) _)). cbn.
  apply (thread_run (TSwapped _ _)).
Qed.

Lemma Close_run w : logging_run (w, []) [] (Close w, []).
Proof.
  apply (run_app _ [] (w, [TFlagged None None]) [] _); [apply run_one, step_close|].
  apply (run_app _ [] _ [] _ (thread_run (TFlagged None None) _)). cbn.
  apply (thread_run (TSwapped _ _)).
Qed.

(** *** Descriptors in use are open *)

(** Distinct open descriptors. *)
Definition held (fs : FS) (L : list File) : Prop := NoDup L /\ Forall (fun f => is_Some (fs_fds fs !! f)) L.

#[local] Instance held_proper fs : Proper ((≡ₚ) ==> iff) (held fs).
Proof. intros L L' HL. unfold held. by rewrite HL. Qed.

Lemma held_fds fs fs' L : fs_fds fs' = fs_fds fs -> held fs L -> held fs' L.
Proof. unfold held. by intros ->. Qed.

Lemma held_open fs path f fs' L : fs_wf fs -> OpenFile fs path = inr (f, fs') -> held fs L -> held fs' (f :: L).
Proof.
  intros Hwf Ho [Hnd HL]. destruct (OpenFile_spec _ _ _ _ Hwf Ho) as (_ & Hnew & [i Hi] & _).
  split; [constructor; [|done]|].
  - intros Hin. rewrite Forall_forall in HL. destruct (HL _ Hin) as [j Hj]. by rewrite Hnew in Hj.
  - rewrite Hi. constructor; [by rewrite lookup_insert_eq|]. eapply Forall_impl; [exact HL|].
    intros g Hg. rewrite lookup_insert_is_Some'. by right.
Qed.

Lemma held_close fs f L : held fs (option_list f ++ L) -> held (CloseFile fs f) L.
Proof.
  destruct f as [f|]; [|done]. intros [Hnd HL]. cbn in *. apply NoDup_cons in Hnd as [Hnin Hnd].
  inversion HL; subst. split; [done|]. cbn. rewrite Forall_forall in H4 |- *. intros g Hg.
  rewrite lookup_delete_ne by (intros ->; done). by apply H4.
Qed.

Definition thread_fds (t : Thread) : list File :=
  match t with
  | TStart _ _ _ _ => []
  | TOper _ _ o _ => option_list o
  | TOpened _ _ o t | TFlagged o t | TSwapped o t => option_list o ++ option_list t
  end.

Definition owned (w : World) (ths : list Thread) : list File :=
  option_list (w_oper w) ++ option_list (w_threat w) ++ (ths ≫= thread_fds).

(** The file system is consistent and no descriptor is shared. *)
Definition logging_inv (s : World * list Thread) : Prop := fs_wf (w_fs s.1) /\ held (w_fs s.1) (owned s.1 s.2).


Lemma owned_thread w l ts r :
  owned w (l ++ ts ++ r) ≡ₚ (ts ≫= thread_fds) ++ owned w (l ++ r).
Proof. unfold owned. rewrite !bind_app. solve_Permutation. Qed.

Lemma logging_inv_thread w l ts r : logging_inv (w, l ++ ts ++ r) <->
  fs_wf (w_fs w) /\ held (w_fs w) ((ts ≫= thread_fds) ++ owned w (l ++ r)).
Proof. unfold logging_inv. cbn [fst snd]. by rewrite owned_thread. Qed.

(** Opening a file for the process. *)
Lemma open_step w path f fs' L : fs_wf (w_fs w) -> held (w_fs w) L -> OpenFile (w_fs w) path = inr (f, fs') ->
  fs_wf fs' /\ held fs' (f :: L) /\ forall i, content fs' i = content (w_fs w) i.
Proof.
  intros Hwf Hh Ho. destruct (OpenFile_spec _ _ _ _ Hwf Ho) as (Hwf' & _ & _ & Hc & _).
  split; [done|]. split; [exact (held_open _ _ _ _ _ Hwf Ho Hh)|done].
Qed.

Lemma close_step fs f L : fs_wf fs -> held fs (option_list f ++ L) ->
  fs_wf (CloseFile fs f) /\ held (CloseFile fs f) L /\ forall i, content (CloseFile fs f) i = content fs i.
Proof. intros Hwf Hh. auto using CloseFile_wf, held_close, CloseFile_content. Qed.

Lemma thread_step_inv w l t r : logging_inv (w, l ++ t :: r) ->
  logging_inv ((thread_step t w).1, l ++ option_list (thread_step t w).2 ++ r) /\
  forall i, content (w_fs (thread_step t w).1) i = content (w_fs w) i.
Proof.
  change (t :: r) with ([t] ++ r). rewrite !logging_inv_thread. cbn [mbind list_bind]. rewrite app_nil_r.
  set (L := owned w (l ++ r)). intros [Hwf Hh].
  destruct t as [d c op tp|d c o tp|d c o t|o t|o t]; cbn [thread_step thread_fds] in *.
  - unfold reload_oper. destruct (ensureDir _ _); [done|].
    destruct (OpenFile (w_fs w) op) as [e|[f fs']] eqn:E; [done|].
    destruct (open_step _ _ _ _ _ Hwf Hh E) as (H1 & H2 & H3). done.
  - unfold reload_threat. destruct (String.eqb tp ""); [cbn; by rewrite !app_nil_r|].
    destruct (ensureDir _ _); [|destruct (OpenFile (w_fs w) tp) as [e|[f fs']] eqn:E].
    1, 2: destruct (close_step _ _ _ Hwf Hh) as (H1 & H2 & H3); done.
    destruct (open_step _ _ _ _ _ Hwf Hh E) as (H1 & H2 & H3). split; [split; [done|]|done].
    cbn. rewrite app_nil_r. revert H2. apply held_proper. destruct o; cbn; [solve_Permutation|done].
  - cbn. rewrite app_nil_r. done.
  - cbn. rewrite app_nil_r. split; [split; [done|]|done]. revert Hh. apply held_proper.
    unfold L, owned. cbn. solve_Permutation.
  - cbn. rewrite <- (app_assoc (option_list o)) in Hh.
    destruct (close_step _ _ _ Hwf Hh) as (H1 & H2 & H3).
    destruct (close_step _ _ _ H1 H2) as (H4 & H5 & H6). split; [done|]. intros i. by rewrite H6, H3.
Qed.

(** A write through one of the process's writers. *)
Lemma write_inv w ths f line : logging_inv (w, ths) -> f ∈ owned w ths ->
  match fs_write_err (w_fs w) with
  | Some e => WriteLine (w_fs w) (Some f) line = inl e /\ accepted (w_fs w) (Some f) line = []
  | None => exists fs', WriteLine (w_fs w) (Some f) line = inr fs' /\ fs_wf fs' /\ held fs' (owned w ths) /\
      forall i, content fs' i = content (w_fs w) i ++ added i (accepted (w_fs w) (Some f) line)
  end.
Proof.
  intros [Hwf Hh] Hf. cbn [fst snd] in *. pose proof (proj1 (Forall_forall _ _) (proj2 Hh) _ Hf) as [i Hi].
  pose proof (WriteLine_open _ _ _ line Hwf Hi) as Hw. unfold accepted. rewrite Hi.
  destruct (fs_write_err (w_fs w)); [done|]. destruct Hw as (fs' & H1 & H2 & H3 & H4).
  exists fs'. split; [done|]. split; [done|]. split; [by eapply held_fds|done].
Qed.

Lemma oper_owned w ths f : w_oper w = Some f -> f ∈ owned w ths.
Proof. intros Ho. unfold owned. rewrite Ho. set_solver. Qed.
Lemma threat_owned w ths f : w_threat w = Some f -> f ∈ owned w ths.
Proof. intros Ho. unfold owned. rewrite Ho. set_solver. Qed.

Lemma logging_step_inv s tr s' : logging_step s tr s' -> logging_inv s ->
  logging_inv s' /\ forall i, content (w_fs s'.1) i = content (w_fs s.1) i ++ added i tr.
Proof.
  intros Hs Hi. destruct Hs as [w ths fs' He|w ths d c op tp|w ths|w l t r|w ths line|w ths line|w ths x|w ths x].
  - destruct Hi as [Hwf Hh]. split; [|intros i; cbn; by rewrite app_nil_r, (env_step_content _ _ _ He)].
    split; [by eapply env_step_wf|]. cbn in *. eapply held_fds; [|exact Hh]. by destruct He.
  - split; [exact Hi|]. intros i. by rewrite app_nil_r.
  - split; [exact Hi|]. intros i. by rewrite app_nil_r.
  - destruct (thread_step_inv _ _ _ _ Hi) as [H1 H2]. split; [done|]. intros i. cbn [fst]. by rewrite H2, app_nil_r.
  - unfold log_file. destruct (w_oper w) as [f|] eqn:Ho; [|split; [done|intros i; by rewrite app_nil_r]].
    pose proof (write_inv _ _ _ line Hi (oper_owned _ _ _ Ho)) as Hw.
    destruct (fs_write_err (w_fs w)); [destruct Hw as [-> ->]; split; [done|intros i; by rewrite app_nil_r]|].
    destruct Hw as (fs' & -> & H1 & H2 & H3). done.
  - unfold threat_file. destruct (w_threat w) as [f|] eqn:Ho; [|split; [done|intros i; by rewrite app_nil_r]].
    pose proof (write_inv _ _ _ line Hi (threat_owned _ _ _ Ho)) as Hw.
    destruct (fs_write_err (w_fs w)); [destruct Hw as [-> ->]; split; [done|intros i; by rewrite app_nil_r]|].
    destruct Hw as (fs' & -> & H1 & H2 & H3). done.
  - split; [exact Hi|]. intros i. by rewrite app_nil_r.
  - split; [exact Hi|]. intros i. by rewrite app_nil_r.
Qed.

Lemma logging_run_inv s tr s' : logging_run s tr s' -> logging_inv s ->
  logging_inv s' /\ forall i, content (w_fs s'.1) i = content (w_fs s.1) i ++ added i tr.
Proof.
  induction 1 as [s|s1 tr1 s2 tr2 s3 Hs Hr IH]; intros Hi; [split; [done|intros i; by rewrite app_nil_r]|].
  destruct (logging_step_inv _ _ _ Hs Hi) as [H1 H2]. destruct (IH H1) as [H3 H4].
  split; [done|]. intros i. by rewrite H4, H2, added_app, app_assoc.
Qed.

(** The process before [Init]. *)
Definition start_world (fs : FS) : World := mkWorld fs false true None None [] [].

Lemma Init_inv fs debug color op tp : fs_wf fs ->
  logging_inv ((Init debug color op tp (start_world fs)).1, []).
Proof.
  intros Hwf. unfold Init.
  set (w1 := set_flags _ _ _). assert (Hi : logging_inv (w1, [])).
  { split; [done|]. split; constructor. }
  assert (Hn : w_oper w1 = None /\ w_threat w1 = None) by done. destruct Hn as [Hn1 Hn2].
  set (w2 := match ensureDir (w_fs w1) op with Some _ => _ | None => _ end).
  assert (Hi2 : logging_inv (w2, []) /\ w_threat w2 = None).
  { unfold w2. destruct (ensureDir _ _); [done|]. destruct (OpenFile (w_fs w1) op) as [e|[f fs']] eqn:E; [done|].
    destruct Hi as [_ Hh]. destruct (open_step w1 _ _ _ _ Hwf Hh E) as (H1 & H2 & _). done. }
  clearbody w2. destruct Hi2 as [Hi2 Hn3]. destruct (String.eqb tp ""); [done|].
  destruct (ensureDir _ _); [done|]. destruct (OpenFile (w_fs w2) tp) as [e|[f fs']] eqn:E; [done|].
  destruct Hi2 as [Hwf2 Hh2]. cbn [fst snd] in *. destruct (open_step _ _ _ _ _ Hwf2 Hh2 E) as (H1 & H2 & _).
  split; [done|]. revert H2. cbn. unfold owned. rewrite Hn3. apply held_proper. cbn. solve_Permutation.
Qed.

(** C6: No log line is lost to a reload: after start-up, for every interleaving of Log, LogThreat, Reload and Close calls at their critical sections with log rotation and file faults, each file holds what it held before followed by exactly the lines of the successful writes to it, in order, and a write to the current operational or threat log fails only when the device refuses it, never because a concurrent Reload or Close has already closed the descriptor. *)
Theorem reload_never_closes_under_writer fs debug color op tp tr w ths :
  fs_wf fs ->
  logging_run ((Init debug color op tp (start_world fs)).1, []) tr (w, ths) ->
  (forall i, content (w_fs w) i = content (w_fs (Init debug color op tp (start_world fs)).1) i ++ added i tr) /\
  (forall f line, w_oper w = Some f \/ w_threat w = Some f ->
     match fs_write_err (w_fs w) with
     | Some e => WriteLine (w_fs w) (Some f) line = inl e
     | None => exists i fs', fs_fds (w_fs w) !! f = Some i /\ WriteLine (w_fs w) (Some f) line = inr fs' /\
         content fs' i = content (w_fs w) i ++ [line]
     end).
Proof.
  intros Hwf Hr. destruct (logging_run_inv _ _ _ Hr (Init_inv _ _ _ _ _ Hwf)) as [Hi Hc]. split; [done|].
  intros f line Hf. assert (Ho : f ∈ owned w ths) by (destruct Hf; eauto using oper_owned, threat_owned).
  destruct Hi as [Hwf' Hh]. cbn in Hwf', Hh. pose proof (proj1 (Forall_forall _ _) (proj2 Hh) _ Ho) as [i Hi].
  pose proof (WriteLine_open _ _ _ line Hwf' Hi) as Hw. destruct (fs_write_err (w_fs w)); [done|].
  destruct Hw as (fs' & H1 & _ & _ & H4). exists i, fs'. split; [done|]. split; [done|].
  rewrite H4. unfold added. cbn. by rewrite decide_True.
Qed.

(** *** Sequential calls *)

(** One Log call that its tag and level let through prints one console line and appends one line to an open operational log, and without colours (or with a colour library that is switched off) the two are the same text, whatever the message: taking an inner tag like [PROBE] off the message and putting it back loses nothing. *)
Theorem log_same_line local tag message level w f i :
  suppressed (w_debug w) tag level = false -> fs_wf (w_fs w) ->
  w_oper w = Some f -> fs_fds (w_fs w) !! f = Some i -> fs_write_err (w_fs w) = None ->
  w_color w = false \/ (forall c s, Sprint c s = s) ->
  let line := FormatDateTime local +:+ " [" +:+ tag +:+ "] " +:+ message in
  w_console (Log local tag message level w) = w_console w ++ [line] /\
  content (w_fs (Log local tag message level w)) i = content (w_fs w) i ++ [line] /\
  forall j, j <> i -> content (w_fs (Log local tag message level w)) j = content (w_fs w) j.
Proof.
  intros Hs Hwf Ho Hf He Hc line. unfold Log. rewrite Hs. unfold log_file. rewrite Ho.
  pose proof (WriteLine_open _ _ _ line Hwf Hf) as Hw. rewrite He in Hw. destruct Hw as (fs' & Hw & _ & _ & Hd).
  change (operational_line (FormatDateTime local) tag message) with line. rewrite Hw. cbn [w_console w_fs w_color print_console set_fs].
  rewrite console_line_plain by done. split; [done|]. split; [rewrite Hd; unfold added; cbn; by rewrite decide_True|].
  intros j Hj. rewrite Hd. unfold added. cbn. rewrite decide_False by done. by rewrite app_nil_r.
Qed.

(** A Reload that reports an error (the threat log cannot be opened) changes nothing that logging uses: the flags, both writers, the open descriptors and the files' contents are as before, so the freshly opened operational log is not leaked. *)
Theorem reload_error_unchanged debug color op tp w w' e :
  fs_wf (w_fs w) -> Reload debug color op tp w = (w', Some e) ->
  w_debug w' = w_debug w /\ w_color w' = w_color w /\ w_oper w' = w_oper w /\ w_threat w' = w_threat w /\
  w_console w' = w_console w /\ fs_fds (w_fs w') = fs_fds (w_fs w) /\
  forall i, content (w_fs w') i = content (w_fs w) i.
Proof.
  intros Hwf. unfold Reload, reload_oper, reload_threat.
  destruct (ensureDir (w_fs w) op) as [e1|]; [|destruct (OpenFile (w_fs w) op) as [e1|[f fs1]] eqn:Eo];
    (destruct (String.eqb tp ""); [done|]); cbn [w_fs print_stderr set_fs];
    (destruct (ensureDir _ tp); [|destruct (OpenFile _ tp) as [e2|[g fs2]] eqn:Et; [|done]]);
    intros [= <- <-]; try done.
  all: destruct (OpenFile_spec _ _ _ _ Hwf Eo) as (_ & Hnew & [i Hi] & Hc & _); cbn; rewrite Hi, delete_insert_id by done; done.
Qed.
End logging.

(** ** warnings.go *)

Record WarningsWriter := mkWarningsWriter {
  ww_file : option File;
  ww_path : string
}.

Definition NewWarningsWriter (fs : FS) (path : string) : string + (WarningsWriter * FS) :=
  match OpenFile fs path with
  | inl e => inl ("warnings writer: open " +:+ path +:+ ": " +:+ e)
  | inr (f, fs) => inr (mkWarningsWriter (Some f) path, fs)
  end.

Definition formatChainWarningLine (utc : Time) (result : CheckResult) (logFile : string) : string :=
  FormatRFC3339 utc +:+ " CHAIN_WARN " +:+ (cr_Kind result +:+ "-ip-as-client") +:+ " ip=" +:+ cr_IP result +:+
  " cidr=" +:+ cr_MatchedCIDR result +:+ " log=" +:+ logFile.

Definition WriteChainWarning (fs : FS) (w : WarningsWriter) (utc : Time) (result : CheckResult) (logFile : string)
    : FS * option string :=
  match WriteLine fs (ww_file w) (formatChainWarningLine utc result logFile) with
  | inr fs => (fs, None)
  | inl e => (fs, Some ("warnings writer: write: " +:+ e))
  end.

Definition Reopen (fs : FS) (w : WarningsWriter) : FS * WarningsWriter * option string :=
  let fs := CloseFile fs (ww_file w) in
  match OpenFile fs (ww_path w) with
  | inl e => (fs, mkWarningsWriter None (ww_path w), Some ("warnings writer: reopen " +:+ ww_path w +:+ ": " +:+ e))
  | inr (f, fs) => (fs, mkWarningsWriter (Some f) (ww_path w), None)
  end.

(** The error of closing is that of the system; none here. *)
Definition CloseWriter (fs : FS) (w : WarningsWriter) : FS * WarningsWriter :=
  (CloseFile fs (ww_file w), mkWarningsWriter None (ww_path w)).

(** Each method holds the mutex, so a run interleaves whole methods with other
    processes.  A write that returned nil is labelled with its inode and line. *)
Inductive ww_step : FS * WarningsWriter -> list (nat * string) -> FS * WarningsWriter -> Prop :=
  | ww_env fs fs' w : env_step fs fs' -> ww_step (fs, w) [] (fs', w)
  | ww_write fs w utc r lf fs' f i : WriteChainWarning fs w utc r lf = (fs', None) ->
      ww_file w = Some f -> fs_fds fs !! f = Some i ->
      ww_step (fs, w) [(i, formatChainWarningLine utc r lf)] (fs', w)
  | ww_write_err fs w utc r lf fs' e : WriteChainWarning fs w utc r lf = (fs', Some e) -> ww_step (fs, w) [] (fs', w)
  | ww_reopen fs w : ww_step (fs, w) [] (Reopen fs w).1
  | ww_close fs w : ww_step (fs, w) [] (CloseWriter fs w).

Inductive ww_run : FS * WarningsWriter -> list (nat * string) -> FS * WarningsWriter -> Prop :=
  | ww_nil s : ww_run s [] s
  | ww_cons s1 tr1 s2 tr2 s3 : ww_step s1 tr1 s2 -> ww_run s2 tr2 s3 -> ww_run s1 (tr1 ++ tr2) s3.

(** The writer has at most one descriptor, beside those of the rest of the
    process. *)
Definition ww_inv (fds0 : gmap nat nat) (s : FS * WarningsWriter) : Prop :=
  fs_wf s.1 /\
  match ww_file s.2 with
  | Some f => fds0 !! f = None /\ exists i, fs_fds s.1 = <[f := i]> fds0
  | None => fs_fds s.1 = fds0
  end.

Lemma ww_inv_close fds0 fs w : ww_inv fds0 (fs, w) ->
  fs_wf (CloseFile fs (ww_file w)) /\ fs_fds (CloseFile fs (ww_file w)) = fds0.
Proof.
  intros [Hwf Hf]. cbn [fst snd] in *. split; [by apply CloseFile_wf|]. destruct (ww_file w) as [f|]; [|done].
  destruct Hf as [Hn [i Hi]]. cbn in *. by rewrite Hi, delete_insert_id.
Qed.

Lemma ww_inv_open fs path f fs' : fs_wf fs -> OpenFile fs path = inr (f, fs') ->
  ww_inv (fs_fds fs) (fs', mkWarningsWriter (Some f) path).
Proof. intros Hwf Ho. destruct (OpenFile_spec _ _ _ _ Hwf Ho) as (H1 & H2 & H3 & _). done. Qed.

Lemma ww_step_inv fds0 s tr s' : ww_step s tr s' -> ww_inv fds0 s ->
  ww_inv fds0 s' /\ forall i, content s'.1 i = content s.1 i ++ added i tr.
Proof.
  intros Hs Hi. destruct Hs as [fs fs' w He|fs w utc r lf fs' f i Hw Hf Hfd|fs w utc r lf fs' e Hw|fs w|fs w].
  - split; [|intros i; by rewrite app_nil_r, (env_step_content _ _ _ He)].
    destruct Hi as [Hwf Hf]. split; [by eapply env_step_wf|]. by destruct He.
  - unfold WriteChainWarning in Hw. rewrite Hf in Hw. destruct Hi as [Hwf Hi]. cbn [fst snd] in *.
    pose proof (WriteLine_open _ _ _ (formatChainWarningLine utc r lf) Hwf Hfd) as Hl.
    destruct (fs_write_err fs); [by rewrite Hl in Hw|]. destruct Hl as (fs2 & Hl & H1 & H2 & H3).
    rewrite Hl in Hw. injection Hw as ->. split; [|done]. split; [done|]. cbn [fst snd]. rewrite Hf in Hi |- *. by rewrite H2.
  - unfold WriteChainWarning in Hw. destruct (WriteLine _ _ _); [|done]. injection Hw as <- _.
    split; [done|]. intros i. by rewrite app_nil_r.
  - destruct (ww_inv_close _ _ _ Hi) as [H1 H2]. unfold Reopen.
    destruct (OpenFile (CloseFile fs (ww_file w)) (ww_path w)) as [e|[f fs']] eqn:Eo.
    + split; [done|]. intros i. cbn. by rewrite CloseFile_content, app_nil_r.
    + destruct (OpenFile_spec _ _ _ _ H1 Eo) as (_ & _ & _ & Hc & _). rewrite <- H2.
      split; [by apply ww_inv_open|]. intros i. cbn [fst]. by rewrite Hc, CloseFile_content, app_nil_r.
  - destruct (ww_inv_close _ _ _ Hi) as [H1 H2]. split; [done|]. intros i. cbn. by rewrite CloseFile_content, app_nil_r.
Qed.

Lemma ww_run_inv fds0 s tr s' : ww_run s tr s' -> ww_inv fds0 s ->
  ww_inv fds0 s' /\ forall i, content s'.1 i = content s.1 i ++ added i tr.
Proof.
  induction 1 as [s|s1 tr1 s2 tr2 s3 Hs Hr IH]; intros Hi; [split; [done|intros i; by rewrite app_nil_r]|].
  destruct (ww_step_inv _ _ _ _ Hs Hi) as [H1 H2]. destruct (IH H1) as [H3 H4].
  split; [done|]. intros i. by rewrite H4, H2, added_app, app_assoc.
Qed.

(** Chain warnings are accounted for across log rotation: from a successful NewWarningsWriter, after any sequence of writes, Reopen and Close calls with files renamed and faults in between, every file holds its old lines followed by exactly the warnings whose write returned nil while it was the open file, in order; the writer holds at most one descriptor; and a write fails only when the device refuses it or the writer has no file, which a failed Reopen leaves until a Reopen succeeds. *)
Theorem warnings_accounted fs path w0 fs0 tr fs' w' :
  fs_wf fs -> NewWarningsWriter fs path = inr (w0, fs0) -> ww_run (fs0, w0) tr (fs', w') ->
  (forall i, content fs' i = content fs i ++ added i tr) /\
  match ww_file w' with
  | Some f => fs_fds fs !! f = None /\ exists i, fs_fds fs' = <[f := i]> (fs_fds fs)
  | None => fs_fds fs' = fs_fds fs
  end /\
  forall utc r lf,
    snd (WriteChainWarning fs' w' utc r lf) =
      match ww_file w', fs_write_err fs' with
      | None, _ => Some "warnings writer: write: invalid argument"
      | Some _, Some e => Some ("warnings writer: write: " +:+ e)
      | Some _, None => None
      end.
Proof.
  intros Hwf Hn Hr. unfold NewWarningsWriter in Hn. destruct (OpenFile fs path) as [e|[f fs1]] eqn:Eo; [done|].
  injection Hn as <- <-. destruct (OpenFile_spec _ _ _ _ Hwf Eo) as (_ & _ & _ & Hc & _).
  destruct (ww_run_inv _ _ _ _ Hr (ww_inv_open _ _ _ _ Hwf Eo)) as [[Hwf' Hi] Hd]. cbn [fst snd] in *.
  split; [intros i; by rewrite Hd, Hc|]. split; [done|]. intros utc r lf. unfold WriteChainWarning.
  destruct (ww_file w') as [g|]; [|done]. destruct Hi as [Hg [i Hi]].
  assert (Hfd : fs_fds fs' !! g = Some i) by (by rewrite Hi, lookup_insert_eq).
  pose proof (WriteLine_open _ _ _ (formatChainWarningLine utc r lf) Hwf' Hfd) as Hl.
  destruct (fs_write_err fs'); [by rewrite Hl|]. destruct Hl as (fs2 & -> & _). done.
Qed.

(** ** Witnesses *)

Definition ex_fs : FS := mkFS ∅ ∅ ∅ 0 ∅ ∅ None.

Lemma ex_fs_wf : fs_wf ex_fs.
Proof. constructor; cbn; [done|done|]. intros i [x Hx]. done. Qed.

Definition ex_colors : Colors := {| Sprint := fun _ s => s |}.

(** The file is rotated; a line is written between the swap and the close of a
    reload, and lands in the new file. *)
Definition ex_world0 : World := (Init false false "op.log" "" (start_world ex_fs)).1.
Definition ex_world1 : World := log_file ex_world0 "one".
Definition ex_world2 : World := set_fs ex_world1
  (mkFS {["op.log.1" := 0]} (fs_data (w_fs ex_world1)) (fs_fds (w_fs ex_world1)) (fs_next (w_fs ex_world1)) ∅ ∅ None).
Definition ex_thread (n : nat) : World * option Thread :=
  Nat.iter n (fun wt => match wt.2 with Some t => thread_step t wt.1 | None => wt end)
    (ex_world2, Some (TStart false false "op.log" "")).
Definition ex_world3 : World := (ex_thread 4).1.
Definition ex_world4 : World := log_file ex_world3 "two".

Lemma ex_logging_run : logging_run (ex_world0, []) [(0, "one"); (2, "two")] (ex_world4, option_list (ex_thread 4).2).
Proof.
  apply (run_app _ [(0, "one")] (ex_world1, []) [(2, "two")] _);
    [apply run_one; exact (step_log ex_world0 [] "one")|].
  apply (run_app _ [] (ex_world2, []) [(2, "two")] _).
  { apply run_one, step_env. apply (env_names (w_fs ex_world1) {["op.log.1" := 0]}). intros p i. rewrite lookup_singleton_Some.
    intros [<- <-]. vm_compute. eauto. }
  apply (run_app _ [] (ex_world2, [TStart false false "op.log" ""]) [(2, "two")] _); [apply run_one, step_reload|].
  apply (run_app _ [] (ex_world3, option_list (ex_thread 4).2) [(2, "two")] _).
  { apply (run_app _ [] _ [] _ (thread_run (TStart false false "op.log" "") ex_world2)).
    apply (run_app _ [] _ [] _ (thread_run (TOper false false (Some 3) "") (ex_thread 1).1)).
    apply (run_app _ [] _ [] _ (thread_run (TOpened false false (Some 3) None) (ex_thread 2).1)).
    apply (thread_run (TFlagged (Some 3) None) (ex_thread 3).1). }
  apply run_one. exact (step_log ex_world3 _ "two").
Qed.

Lemma reload_never_closes_under_writer_witness :
  content (w_fs ex_world4) 0 = ["one"] /\ content (w_fs ex_world4) 2 = ["two"] /\
  exists i fs', fs_fds (w_fs ex_world4) !! 3 = Some i /\ WriteLine (w_fs ex_world4) (Some 3) "x" = inr fs' /\
    content fs' i = content (w_fs ex_world4) i ++ ["x"].
Proof.
  destruct (reload_never_closes_under_writer ex_fs false false "op.log" "" _ _ _ ex_fs_wf ex_logging_run) as [Hc Hw].
  split; [rewrite Hc; reflexivity|]. split; [rewrite Hc; reflexivity|].
  apply (Hw 3 "x"). left. reflexivity.
Defined.

Lemma log_same_line_witness :
  let w := @Log ex_colors 0 "STARTUP" "[PROBE] path hit" "info" ex_world0 in
  w_console w = ["0001-01-01 00:00:00 [STARTUP] [PROBE] path hit"] /\
  content (w_fs w) 0 = ["0001-01-01 00:00:00 [STARTUP] [PROBE] path hit"].
Proof.
  destruct (@log_same_line ex_colors 0 "STARTUP" "[PROBE] path hit" "info" ex_world0 1 0) as (H1 & H2 & _);
    [reflexivity|apply (Init_inv ex_fs false false "op.log" "" ex_fs_wf)|reflexivity|reflexivity|reflexivity|by left|].
  cbn zeta. rewrite H1, H2. done.
Defined.

Definition ex_bad_threat : World := set_fs ex_world0
  (mkFS (fs_names (w_fs ex_world0)) (fs_data (w_fs ex_world0)) (fs_fds (w_fs ex_world0)) (fs_next (w_fs ex_world0))
     {["threats.log" := "permission denied"]} ∅ None).

Lemma reload_error_unchanged_witness : exists w',
  Reload true true "op2.log" "threats.log" ex_bad_threat =
    (w', Some "Reload: threat log unavailable (threats.log): permission denied") /\
  w_debug w' = false /\ fs_fds (w_fs w') = fs_fds (w_fs ex_bad_threat).
Proof.
  eexists. split; [reflexivity|].
  edestruct (reload_error_unchanged true true "op2.log" "threats.log" ex_bad_threat) as (H1 & _ & _ & _ & _ & H6 & _);
    [|reflexivity|split; [exact H1|exact H6]].
  eapply env_step_wf; [apply env_faults|]. apply (Init_inv ex_fs false false "op.log" "" ex_fs_wf).
Defined.

(** A warning, a failed reopen, a lost warning. *)
Definition ex_result : CheckResult := mkCheckResult "bogon" "10.0.0.1" "10.0.0.0/8".
Definition ex_ww : WarningsWriter * FS :=
  match NewWarningsWriter ex_fs "warn.log" with inr r => r | inl _ => (mkWarningsWriter None "", ex_fs) end.
Definition ex_ww1 : FS := (WriteChainWarning ex_ww.2 ex_ww.1 0 ex_result "a.log").1.
Definition ex_ww2 : FS :=
  mkFS (fs_names ex_ww1) (fs_data ex_ww1) (fs_fds ex_ww1) (fs_next ex_ww1) {["warn.log" := "permission denied"]} ∅ None.

Lemma ex_ww_run : ww_run (ex_ww.2, ex_ww.1) [(0, formatChainWarningLine 0 ex_result "a.log")] (Reopen ex_ww2 ex_ww.1).1.
Proof.
  eapply (ww_cons _ [_] (ex_ww1, ex_ww.1) []).
  { eapply (ww_write _ _ 0 ex_result "a.log" _ 1 0); reflexivity. }
  apply (ww_cons _ [] (ex_ww2, ex_ww.1) []); [apply ww_env; exact (env_faults ex_ww1 _ _ _)|].
  apply (ww_cons _ [] _ [] _ (ww_reopen ex_ww2 ex_ww.1)), ww_nil.
Qed.

Lemma warnings_accounted_witness :
  content (Reopen ex_ww2 ex_ww.1).1.1 0 =
    ["0001-01-01T00:00:00Z CHAIN_WARN bogon-ip-as-client ip=10.0.0.1 cidr=10.0.0.0/8 log=a.log"] /\
  (WriteChainWarning (Reopen ex_ww2 ex_ww.1).1.1 (Reopen ex_ww2 ex_ww.1).1.2 0 ex_result "a.log").2 =
    Some "warnings writer: write: invalid argument".
Proof.
  destruct (warnings_accounted ex_fs "warn.log" ex_ww.1 ex_ww.2 [(0, formatChainWarningLine 0 ex_result "a.log")]
    (Reopen ex_ww2 ex_ww.1).1.1 (Reopen ex_ww2 ex_ww.1).1.2 ex_fs_wf) as (H1 & _ & H3);
    [reflexivity|exact ex_ww_run|]. split; [by rewrite H1|by rewrite H3].
Defined.
