(* ===== verification/Wiring.v ===== *)
(** * From the configuration to the running system (cmd/arxsentinel)

    builders.go (parsers, sources, sinks), runtime_adapter.go (stream
    specifications), executors.go and transport_bootstrap.go (queues of the Named
    Channel Switch, executors), validate.go (wiring validation), and the helpers of
    helpers.go and main.go that choose files and command-line overrides.  The
    plugin registries, the channel switch, the transport and the pipeline
    validator are those of the core module: parameters. *)

From Stdlib Require Import ZArith Lia Ascii String.
From stdpp Require Import base numbers option list strings gmap fin_maps sorting.
From S2P Require Import Prelude GoFloat GoStrings GoNet GoFmt GoValues GoTime Model Waf ExecCommon ConfigTypes ConfigEnv ConfigLoad Format Pipeline Factory.

(** ** Command line and labels *)

(** [strings.SplitN(s, sep, 2)]. *)
Definition SplitN2 (s : string) (sep : ascii) : string * option string :=
  match IndexByte s sep with
  | Some i => (string_take i s, Some (string_drop (S i) s))
  | None => (s, None)
  end.

Definition parseFlagInputs (flagVal : string) (cfg : Config) : list InputConfig :=
  if String.eqb flagVal "stdin" then [input_literal "stdin" "" (pa_LogFormat (c_Parser cfg))]
  else [input_literal "file" flagVal (pa_LogFormat (c_Parser cfg))].

Definition sinkTypeFromName (name : string) : string :=
  if HasPrefix name "file:" then "file" else name.

Definition streamSourceLabel (streamCfg : StreamConfig) (cfg : Config) : string :=
  let inputs := st_Inputs streamCfg in
  let inputs :=
    match inputs, st_Pipelines streamCfg with
    | [], p :: _ => pl_Inputs p
    | _, _ => inputs
    end in
  let inputs := match inputs with [] => c_Inputs cfg | _ => inputs end in
  match inputs with
  | [] => "(none)"
  | i :: _ => if String.eqb (in_Type i) "stdin" then "stdin" else in_Path i
  end.

(** The variables of the environment, as ["KEY=value"]. *)
Definition activeEnvOverrides (environ : list string) : list string :=
  merge_sort string_le
    (omap (fun e => if HasPrefix e "ARXSENTINEL_" then
                      match IndexByte e "=" with
                      | Some (S i) => Some (string_take (S i) e)
                      | _ => None
                      end
                    else None) environ).

(** The socket address of [sdNotify]; the message is sent once. *)
Definition sd_addr (socket : string) : option string :=
  match socket with
  | EmptyString => None
  | String c rest => Some (if Ascii.eqb c "@" then String (ascii_of_N 0) rest else socket)
  end.

(** [metricsHandler]: does the request reach the metrics page?  [bcrypt] compares a
    password with the hash. *)
Definition metricsHandler (bcrypt : string -> string -> bool) (username passwordHash : string)
    (auth : option (string * string)) : bool :=
  if String.eqb username "" then true
  else
    let '(u, p, ok) := match auth with Some (u, p) => (u, p, true) | None => ("", "", false) end in
    let userOK := String.eqb u username in
    let passOK := bcrypt passwordHash p in
    (ok && userOK && passOK)%bool.

Definition configPath : string := "/etc/arxsentinel/config.yaml".

(** The file of the daemon: flag, environment, default. *)
Definition daemon_path (configFlag : string) (env : option string) : string :=
  if negb (empty configFlag) then configFlag
  else match env with Some e => if empty e then configPath else e | None => configPath end.

(** The file of the validate subcommand: the last option wins. *)
Fixpoint validate_path (path : string) (args : list string) : string :=
  match args with
  | [] => path
  | a :: args' =>
      if HasPrefix a "--config=" then validate_path (TrimPrefix a "--config=") args'
      else if String.eqb a "--config" then
        match args' with
        | p :: rest => validate_path p rest
        | [] => path
        end
      else validate_path path args'
  end.

Section wiring.
Context {UP : UnicodePrint}.

Definition pipelineLogTag (streamName pipelineName : string) : string :=
  if (empty streamName && empty pipelineName)%bool then "(default)"
  else if empty pipelineName then "stream " +:+ Quote streamName
  else "stream " +:+ Quote streamName +:+ " pipeline " +:+ Quote pipelineName.

Definition parseFlagOutputs (flagVal : string) : string + list SinkConfig :=
  let '(sinkType, rest) := SplitN2 flagVal "," in
  let format := default "fail2ban" rest in
  if String.eqb sinkType "stdout" then mret [sink_literal "stdout" "" format]
  else inl ("unknown output type " +:+ Quote sinkType +:+ "; supported: stdout").

(** The --input and --output flags replace the streams by one of their own. *)
Definition apply_flags (inputFlag outputFlag : string) (cfg : Config) : string + Config :=
  if (empty inputFlag && empty outputFlag)%bool then mret cfg
  else
    let inputs := if empty inputFlag then c_Inputs cfg else parseFlagInputs inputFlag cfg in
    outputs ← (if empty outputFlag then mret (c_Outputs cfg) else parseFlagOutputs outputFlag);
    mret (set_Streams [set_Pipelines [pipeline_literal "" inputs outputs (c_Pipeline cfg)] (stream_literal "" "" "")]
            (set_Outputs outputs (set_Inputs inputs cfg))).

(** ** builders.go *)

(** arx-core/pkg/parser. *)
Class Parsers := {
  Parser : Type;
  parser_Profiles : string -> option (string + Parser);
  AvailableProfiles : string;
  NewJSONParser : JSONFieldsConfig -> Parser;
  NewRegexParser : string -> string + Parser;
  CombinedParser : Parser
}.

(** arx-core/pkg/source and pkg/sink: the registries build a plugin by type. *)
Class IORegistry `{Parsers} := {
  Source : Type;
  Sink : Type;
  source_Build : string -> InputConfig -> Parser -> Duration -> string + Source;
  sink_Build : SinkConfig -> Formatter -> string + Sink
}.

Context `{IO : IORegistry}.

Definition buildParserForInput (cfg : Config) (input : InputConfig) : string + Parser :=
  if negb (empty (pa_Profile (c_Parser cfg))) then
    match parser_Profiles (pa_Profile (c_Parser cfg)) with
    | None => inl ("unknown parser profile " +:+ Quote (pa_Profile (c_Parser cfg)) +:+ "; available: " +:+
                   AvailableProfiles)
    | Some r => r
    end
  else
    let format := if empty (in_Parser input) then pa_LogFormat (c_Parser cfg) else in_Parser input in
    if String.eqb format "json" then mret (NewJSONParser (pa_JSONFields (c_Parser cfg)))
    else if String.eqb format "regex" then NewRegexParser (pa_RegexPattern (c_Parser cfg))
    else mret CombinedParser.

(** The registry's configuration has neither the parser nor the queue. *)
Definition source_input (i : InputConfig) : InputConfig :=
  mkInputConfig (in_Type i) (in_Path i) "" (in_Exec i) (in_Addr i) (in_Mode i) (in_URL i)
    (in_HTTPPath i) (in_Token i) (in_TLSCert i) (in_TLSKey i) (in_Protocol i) (in_EnvelopeField i)
    (in_PullInterval i) (in_MaxBodyBytes i) (in_MaxConnections i) None.

Definition buildSource (cfg : Config) (i : InputConfig) : string + Source :=
  p ← wrap_err ("input " +:+ Quote (in_Type i) +:+ ": ") (buildParserForInput cfg i);
  wrap_err ("source " +:+ Quote (in_Type i) +:+ ": ")
    (source_Build (in_Type i) (source_input i) p (ge_TailRetryInterval (c_General cfg))).

Definition buildSources (cfg : Config) (inputs : list InputConfig) : string + list Source :=
  if is_nil inputs then inl "no inputs configured" else mapM (buildSource cfg) inputs.

(** The registry's configuration has the formatter in place of the queue. *)
Definition sink_config (o : SinkConfig) : SinkConfig :=
  mkSinkConfig (sk_Type o) (sk_Name o) (sk_Path o) (sk_Format o) (sk_Exec o) None
    (sk_LokiURL o) (sk_LokiLabels o) (sk_LokiBatchSize o) (sk_LokiFlushInterval o) (sk_LokiTenantID o)
    (sk_LokiUsername o) (sk_LokiPassword o) (sk_LokiGzip o) (sk_LokiTLSCert o) (sk_LokiTLSKey o) (sk_LokiCACert o)
    (sk_SplunkURL o) (sk_SplunkToken o) (sk_SplunkSourceType o) (sk_SplunkSource o) (sk_SplunkIndex o)
    (sk_SplunkHost o) (sk_SplunkBatchSize o) (sk_SplunkFlushInterval o) (sk_SplunkGzip o) (sk_SplunkTLSCert o)
    (sk_SplunkTLSKey o) (sk_SplunkCACert o)
    (sk_DatadogURL o) (sk_DatadogAPIKey o) (sk_DatadogSource o) (sk_DatadogTags o) (sk_DatadogHostname o)
    (sk_DatadogService o) (sk_DatadogBatchSize o) (sk_DatadogFlushInterval o) (sk_DatadogGzip o)
    (sk_DatadogTLSCert o) (sk_DatadogTLSKey o) (sk_DatadogCACert o).

Definition buildSink (streamName : string) (o : SinkConfig) : string + Sink :=
  f ← wrap_err ("sink " +:+ Quote (sk_Type o) +:+ ": ") (formatterForFormat (sk_Type o) (sk_Format o) streamName);
  wrap_err ("sink " +:+ Quote (sk_Type o) +:+ ": ") (sink_Build (sink_config o) f).

Definition buildSinks (streamName : string) (outputs : list SinkConfig) : string + list Sink :=
  if is_nil outputs then inl "no outputs configured" else mapM (buildSink streamName) outputs.

(** ** runtime_adapter.go *)

Record PipelineSpec := mkPipelineSpec {
  sp_Name : string;
  sp_Idx : nat;
  sp_Sources : list Source;
  sp_Sinks : list Sink
}.

Record StreamSpec := mkStreamSpec {
  ss_Name : string;
  ss_TrackerGroup : string;
  ss_BufferSize : Z;
  ss_ShutdownTimeout : Duration;
  ss_StatsInterval : Duration;
  ss_Pipelines : list PipelineSpec
}.

Definition adapt_pipeline (cfg : Config) (streamName : string) (j : nat) (p : PipelineConfig) : string + PipelineSpec :=
  let at_ := "stream " +:+ Quote streamName +:+ " pipeline " +:+ Itoa (Z.of_nat j) in
  sources ← wrap_err (at_ +:+ " sources: ") (buildSources cfg (pl_Inputs p));
  sinks ← wrap_err (at_ +:+ " sinks: ") (buildSinks streamName (pl_Outputs p));
  mret (mkPipelineSpec (pl_Name p) j sources sinks).

Fixpoint adapt_pipelines (cfg : Config) (streamName : string) (j : nat) (ps : list PipelineConfig)
  : string + list PipelineSpec :=
  match ps with
  | [] => mret []
  | p :: ps' =>
      x ← adapt_pipeline cfg streamName j p;
      xs ← adapt_pipelines cfg streamName (S j) ps';
      mret (x :: xs)
  end.

Definition stream_buffer (cfg : Config) (s : StreamConfig) : Z :=
  match st_Pipelines s with
  | p :: _ => if (0 <? pr_BufferSize (pl_Pipeline p))%Z then pr_BufferSize (pl_Pipeline p)
              else pr_BufferSize (c_Pipeline cfg)
  | [] => pr_BufferSize (c_Pipeline cfg)
  end.

Definition adapt_stream (cfg : Config) (s : StreamConfig) : string + StreamSpec :=
  pipelines ← adapt_pipelines cfg (st_Name s) 0 (st_Pipelines s);
  mret (mkStreamSpec (st_Name s)
          (match st_Pipelines s with p :: _ => resolveTrackerGroup p | [] => "" end)
          (stream_buffer cfg s) (5 * second) (ge_StatsInterval (c_General cfg)) pipelines).

(** The specifications; there is one new reload channel for each. *)
Definition adaptConfigToStreams (cfg : Config) : string + list StreamSpec := mapM (adapt_stream cfg) (c_Streams cfg).
End wiring.

(** ** executors.go, transport_bootstrap.go *)

Definition productQueueNamespace : string := "arxsentinel".

(** The sources with a queue section, with their executor, in order. *)
Definition executor_queues (cfg : Config) : list (string * string * QueueConfig) :=
  c_Executors cfg ≫= (fun ec =>
    omap (fun src => q ← esr_Queue src; Some (ex_Name ec, esr_Name src, q)) (ex_Sources ec)).

Definition sentinel_names (outputs : list SinkConfig) : list string :=
  omap (fun o => if (negb (String.eqb (sk_Type o) "sentinel-threat") || empty (sk_Name o))%bool
                 then None else Some (sk_Name o)) outputs.

(** The set as the list of its insertions. *)
Definition collectSentinelSinkNames (cfg : Config) : list string :=
  sentinel_names (c_Outputs cfg) ++
  (c_Streams cfg ≫= (fun s => sentinel_names (st_Outputs s) ++
     (st_Pipelines s ≫= (fun p => sentinel_names (pl_Outputs p))))).

Definition sortedKeys (m : list string) : list string := merge_sort string_le (remove_dups m).

(** A transport queue that only receives has its writer on another node. *)
Definition remote_writer `{QueueMode} (q : QueueConfig) : bool :=
  (String.eqb (qc_Type q) QueueTypeTransport && String.eqb (EffectiveMode q) "recv")%bool.

Definition with_namespace (name : string) (q : QueueConfig) : QueueConfig :=
  let q := if (String.eqb (qc_Type q) QueueTypeBbolt && empty (qc_Bucket q))%bool
           then mkQueueConfig (qc_Type q) (qc_Mode q) (qc_Peer q) productQueueNamespace (qc_Key q) (qc_Options q) else q in
  if (String.eqb (qc_Type q) QueueTypeRedis && empty (qc_Key q))%bool
  then mkQueueConfig (qc_Type q) (qc_Mode q) (qc_Peer q) (qc_Bucket q) (productQueueNamespace +:+ ":queue:" +:+ name)
         (qc_Options q)
  else q.

Definition sentinelQueueName `{UnicodePrint} (addr : string) : string + string :=
  let scheme := "ncs://" in
  if negb (HasPrefix addr scheme) then
    inl ("invalid sentinel address " +:+ Quote addr +:+ ": expected " +:+ Quote scheme +:+ " scheme")
  else
    let name := TrimPrefix addr scheme in
    if empty name then inl ("invalid sentinel address " +:+ Quote addr +:+ ": queue name is empty")
    else mret name.

(** The channel switch of the core module: [ncs.RegisterSinkFromConfig],
    [ncs.AttachReader], [ncs.DetachWriter] on its state.  The field covers the
    registrations that return; the others panic, see [lacks_namespace]. *)
Class ChannelSwitch := {
  Switch : Type;
  Queue : Type;
  RegisterSinkFromConfig : string -> QueueConfig -> Switch -> Switch * option string;
  AttachReader : string -> Switch -> Switch * (string + Queue);
  DetachWriter : string -> Switch -> Switch
}.

Section switch.
Context {UP : UnicodePrint} {QM : QueueMode} {CS : ChannelSwitch}.

(** Phase 1: every queue has a writer here or on another node. *)
Definition check_wiring (available : list string) (l : list (string * string * QueueConfig)) : string + unit :=
  check_range (fun _ '(ec, src, q) =>
    fail_if (negb (remote_writer q) && negb (bool_decide (src ∈ available)))
      ("executor " +:+ Quote ec +:+ " source " +:+ Quote src +:+ " (queue=" +:+ qc_Type q +:+
       ") is not referenced by any sentinel-threat output; available sink names: [" +:+
       Join (sortedKeys available) ", " +:+ "]")) 0 l.

(** The core module has no defaults: [EffectiveBucket] and [EffectiveKey] panic in
    RegisterSinkFromConfig for an embedded queue without a bucket and a Redis queue
    without a key. *)
Definition lacks_namespace (q : QueueConfig) : bool :=
  ((String.eqb (qc_Type q) QueueTypeBbolt && empty (qc_Bucket q)) ||
   (String.eqb (qc_Type q) QueueTypeRedis && empty (qc_Key q)))%bool.

(** How a registration can end. *)
Inductive RegResult :=
  | Registered
  | RegFailed (e : string)
  | RegPanics.

Definition registration (pre name : string) (q : QueueConfig) (s : Switch) : Switch * RegResult :=
  if lacks_namespace q then (s, RegPanics)
  else match RegisterSinkFromConfig name q s with
       | (s', Some e) => (s', RegFailed (pre +:+ e))
       | (s', None) => (s', Registered)
       end.

(** Sequencing that stops at an error. *)
Definition andThen (m : Switch * RegResult) (f : Switch -> Switch * RegResult) : Switch * RegResult :=
  match m with (s, Registered) => f s | r => r end.

(** Register one after the other; the first error stops. *)
Fixpoint register_all (l : list (string * string * QueueConfig)) (s : Switch) : Switch * RegResult :=
  match l with
  | [] => (s, Registered)
  | (pre, name, q) :: l' => andThen (registration pre name q s) (register_all l')
  end.

(** The registrations of phase 2, with the prefix of their error. *)
Definition executor_registrations (cfg : Config) : list (string * string * QueueConfig) :=
  (fun '(ec, src, q) =>
     ("executor " +:+ Quote ec +:+ " source " +:+ Quote src +:+ ": ", src, with_namespace src q)) <$> executor_queues cfg.

Definition preRegisterExecutorQueues (cfg : Config) (s : Switch) : Switch * RegResult :=
  match check_wiring (collectSentinelSinkNames cfg) (executor_queues cfg) with
  | inl e => (s, RegFailed e)
  | inr _ => register_all (executor_registrations cfg) s
  end.

(** One list of outputs; a missing name stops. *)
Fixpoint register_outputs (location : string) (i : nat) (outs : list SinkConfig) (s : Switch) : Switch * RegResult :=
  match outs with
  | [] => (s, Registered)
  | o :: outs' =>
      match String.eqb (sk_Type o) "sentinel-threat", sk_Queue o with
      | true, Some q =>
          if empty (sk_Name o) then
            (s, RegFailed (indexed location i +:+ ": sentinel-threat output with queue: must set name"))
          else
            andThen (registration (indexed location i +:+ " (name=" +:+ Quote (sk_Name o) +:+ "): ") (sk_Name o) q s)
              (register_outputs location (S i) outs')
      | _, _ => register_outputs location (S i) outs' s
      end
  end.

Fixpoint register_inputs (location : string) (i : nat) (ins : list InputConfig) (s : Switch) : Switch * RegResult :=
  match ins with
  | [] => (s, Registered)
  | x :: ins' =>
      match String.eqb (in_Type x) "sentinel", in_Queue x with
      | true, Some q =>
          match sentinelQueueName (in_Addr x) with
          | inl e => (s, RegFailed (indexed location i +:+ ": " +:+ e))
          | inr name =>
              andThen (registration (indexed location i +:+ " (name=" +:+ Quote name +:+ "): ") name q s)
                (register_inputs location (S i) ins')
          end
      | _, _ => register_inputs location (S i) ins' s
      end
  end.

Fixpoint for_range {A} (f : nat -> A -> Switch -> Switch * RegResult) (i : nat) (l : list A) (s : Switch)
  : Switch * RegResult :=
  match l with
  | [] => (s, Registered)
  | x :: l' => andThen (f i x s) (for_range f (S i) l')
  end.

Definition preRegisterSinkQueues (cfg : Config) (s : Switch) : Switch * RegResult :=
  andThen (register_outputs "outputs" 0 (c_Outputs cfg) s)
    (for_range (fun i st s =>
       andThen (register_outputs (indexed "streams" i +:+ ".outputs") 0 (st_Outputs st) s)
         (for_range (fun j p => register_outputs (indexed "streams" i +:+ indexed ".pipelines" j +:+ ".outputs") 0 (pl_Outputs p))
            0 (st_Pipelines st))) 0 (c_Streams cfg)).

Definition preRegisterInboundTransportQueues (cfg : Config) (s : Switch) : Switch * RegResult :=
  andThen (register_inputs "inputs" 0 (c_Inputs cfg) s)
    (for_range (fun i st s =>
       andThen (register_inputs (indexed "streams" i +:+ ".inputs") 0 (st_Inputs st) s)
         (for_range (fun j p => register_inputs (indexed "streams" i +:+ indexed ".pipelines" j +:+ ".inputs") 0 (pl_Inputs p))
            0 (st_Pipelines st))) 0 (c_Streams cfg)).

(** [pkgexecutor.Build]. *)
Context {Executor : Type} (executor_Build : string -> string -> Params -> string + Executor).

(** One reader per source; the goroutines started so far keep running. *)
Fixpoint attach_sources (ecName : string) (ex : Executor) (srcs : list ExecutorSourceRef) (s : Switch)
    (running : list (Executor * Queue)) : Switch * list (Executor * Queue) * option string :=
  match srcs with
  | [] => (s, running, None)
  | src :: srcs' =>
      match AttachReader (esr_Name src) s with
      | (s', inl e) => (s', running, Some ("executor " +:+ Quote ecName +:+ ": source " +:+ Quote (esr_Name src) +:+ ": " +:+ e))
      | (s', inr q) => attach_sources ecName ex srcs' s' (running ++ [(ex, q)])
      end
  end.

Fixpoint startExecutors (ecs : list ExecutorTopConfig) (s : Switch) (running : list (Executor * Queue))
  : Switch * list (Executor * Queue) * option string :=
  match ecs with
  | [] => (s, running, None)
  | ec :: ecs' =>
      match executor_Build (ex_Name ec) (ex_Type ec) (ex_Config ec) with
      | inl e => (s, running, Some ("executor " +:+ Quote (ex_Name ec) +:+ ": build: " +:+ e))
      | inr ex =>
          match attach_sources (ex_Name ec) ex (ex_Sources ec) s running with
          | (s', running', None) => startExecutors ecs' s' running'
          | r => r
          end
      end
  end.

(** The writers main detaches at shutdown. *)
Definition detach_writers (cfg : Config) (s : Switch) : Switch :=
  foldl (fun s ec => foldl (fun s src => DetachWriter (esr_Name src) s) s (ex_Sources ec)) s (c_Executors cfg).
End switch.

(** [startTransport]: the configuration handed to [transport.New], if any. *)
Definition startTransport {T} (transport_New : TransportConfig -> string + T) (cfg : Config) : string + option T :=
  if negb (tr_Enabled (c_Transport cfg)) then mret None
  else t ← wrap_err "transport: " (transport_New (c_Transport cfg)); mret (Some t).

(** ** validate.go *)

(** [plugin.Manifest]. *)
Record Manifest := mkManifest {
  mf_PluginID : string;
  mf_PluginVersion : string;
  mf_Role : string;
  mf_InputType : string;
  mf_OutputType : string;
  mf_Tags : list string;
  mf_Produces : list (string * FieldType)
}.

Record PipelineContext := mkPipelineContext {
  px_StreamName : string;
  px_PipelineName : string;
  px_Spine : list Manifest;
  px_Sinks : list Manifest
}.

Record ExecutorBinding := mkExecutorBinding {
  eb_Name : string;
  eb_InputType : string;
  eb_SourceNames : list string
}.

(** The registries' manifests, the constants of pkg/plugin, and the validator of
    pkg/pipeline.  [detector_manifest] is the manifest of a detector built with
    default parameters, if it builds. *)
Class Validator := {
  RoleProcessor : string;
  TypeStructured : string;
  TypeScoredEvent : string;
  TypeAny : string;
  source_manifest : string -> option Manifest;
  sink_manifest : string -> option Manifest;
  executor_manifest : string -> option Manifest;
  detector_Names : list string;
  detector_manifest : string -> option Manifest;
  SemanticError : Type;
  unknown_executor : string -> string -> SemanticError;
  (** Per pipeline: the produced type and the errors. *)
  ValidatePipeline : PipelineContext -> string * list SemanticError;
  ValidateExecutorWiring : list ExecutorBinding -> gmap string string -> list SemanticError;
  (** A reader without a writer is reported. *)
  wiring_reader bs ct : ValidateExecutorWiring bs ct = [] ->
    Forall (fun b => Forall (fun n => is_Some (ct !! n)) (eb_SourceNames b)) bs
}.

Section validate.
Context `{QM : QueueMode} `{V : Validator}.

Definition scorerManifest : Manifest := mkManifest "scorer" "" RoleProcessor TypeStructured TypeScoredEvent [] [].

Definition has_role (m : Manifest) : bool := negb (empty (mf_Role m)).

Definition buildPipelineCtx (streamName : string) (pl : PipelineConfig) : PipelineContext :=
  let spine := omap (fun i => m ← source_manifest (in_Type i); if has_role m then Some m else None) (pl_Inputs pl) in
  let hd := match pl_Detectors pl with None => true | Some m => negb (bool_decide (m = ∅)) end in
  let spine :=
    if hd then
      spine ++
      option_list (head (omap (fun n => m ← detector_manifest n; if has_role m then Some m else None) detector_Names)) ++
      [scorerManifest]
    else spine in
  mkPipelineContext streamName (pl_Name pl) spine (omap (fun o => sink_manifest (sk_Type o)) (pl_Outputs pl)).

(** A transport queue that only sends has its reader on another node. *)
Definition remote_reader (q : QueueConfig) : bool :=
  (String.eqb (qc_Type q) QueueTypeTransport && String.eqb (EffectiveMode q) "send")%bool.

Definition sentinelChannelNames (pl : PipelineConfig) : list string :=
  omap (fun o =>
    if (negb (String.eqb (sk_Type o) "sentinel-threat") || empty (sk_Name o))%bool then None
    else match sk_Queue o with
         | Some q => if remote_reader q then None else Some (sk_Name o)
         | None => Some (sk_Name o)
         end) (pl_Outputs pl).

Definition config_pipelines (cfg : Config) : list (string * PipelineConfig) :=
  c_Streams cfg ≫= (fun s => pair (st_Name s) <$> st_Pipelines s).

(** The type of each local channel, then the channels written by other nodes. *)
Definition pipeline_channels (cfg : Config) : gmap string string :=
  foldl (fun ct x =>
           foldl (fun ct n => <[n := (ValidatePipeline (buildPipelineCtx x.1 x.2)).1]> ct) ct (sentinelChannelNames x.2))
    ∅ (config_pipelines cfg).

Definition executor_sources (cfg : Config) : list ExecutorSourceRef := c_Executors cfg ≫= ex_Sources.

Definition is_remote (src : ExecutorSourceRef) : bool :=
  match esr_Queue src with Some q => remote_writer q | None => false end.

Definition remote_channels (cfg : Config) (ct : gmap string string) : gmap string string :=
  foldl (fun ct src =>
           if is_remote src then match ct !! esr_Name src with Some _ => ct | None => <[esr_Name src := TypeAny]> ct end
           else ct) ct (executor_sources cfg).

Definition executor_binding (ex : ExecutorTopConfig) : option ExecutorBinding :=
  m ← executor_manifest (ex_Type ex); Some (mkExecutorBinding (ex_Name ex) (mf_InputType m) (esr_Name <$> ex_Sources ex)).

Definition validateConfig (cfg : Config) : list SemanticError :=
  let results := (fun '(sn, pl) => ValidatePipeline (buildPipelineCtx sn pl)) <$> config_pipelines cfg in
  let channelTypes := remote_channels cfg (pipeline_channels cfg) in
  let unknown := omap (fun ex => match executor_manifest (ex_Type ex) with
                                 | None => Some (unknown_executor (ex_Name ex) (ex_Type ex))
                                 | Some _ => None
                                 end) (c_Executors cfg) in
  let wiringErrs := ValidateExecutorWiring (omap executor_binding (c_Executors cfg)) channelTypes in
  unknown ++ (results ≫= snd) ++ wiringErrs.

(** *** Channels *)

Lemma sentinelChannelNames_sub pl n : n ∈ sentinelChannelNames pl -> n ∈ sentinel_names (pl_Outputs pl).
Proof.
  unfold sentinelChannelNames, sentinel_names. rewrite !list_elem_of_omap. intros (o & Ho & Hn). exists o.
  split; [done|]. destruct (_ || _)%bool; [done|]. destruct (sk_Queue o) as [q|]; [|done].
  by destruct (remote_reader q).
Qed.

Lemma channels_fold (f : string * PipelineConfig -> string) l (ct : gmap string string) n :
  is_Some (foldl (fun ct x => foldl (fun ct n => <[n := f x]> ct) ct (sentinelChannelNames x.2)) ct l !! n) ->
  is_Some (ct !! n) \/ exists x, x ∈ l /\ n ∈ sentinelChannelNames x.2.
Proof.
  revert ct. induction l as [|x l IH]; intros ct; cbn; [auto|]. intros Hn. apply IH in Hn as [Hn|(y & Hy & Hn)].
  - assert (Hin : forall names (ct : gmap string string), is_Some (foldl (fun ct n => <[n := f x]> ct) ct names !! n) -> is_Some (ct !! n) \/ n ∈ names).
    { induction names as [|m names IHn]; intros ct'; cbn; [auto|]. intros [Hm|Hm]%IHn; [|right; by right].
      rewrite lookup_insert_is_Some' in Hm. destruct Hm as [->|Hm]; [right; by left|auto]. }
    apply Hin in Hn as [Hn|Hn]; [auto|]. right. exists x. split; [by left|done].
  - right. exists y. split; [by right|done].
Qed.

Lemma pipeline_channels_available cfg n : is_Some (pipeline_channels cfg !! n) -> n ∈ collectSentinelSinkNames cfg.
Proof.
  unfold pipeline_channels. intros Hn.
  apply (channels_fold (fun x => (ValidatePipeline (buildPipelineCtx x.1 x.2)).1)) in Hn as [Hn|([sn pl] & Hp & Hn)].
  - rewrite lookup_empty in Hn. by destruct Hn.
  - unfold collectSentinelSinkNames. apply elem_of_app. right. apply list_elem_of_bind.
    unfold config_pipelines in Hp. apply list_elem_of_bind in Hp as (s & Hp & Hs).
    apply list_elem_of_fmap in Hp as (pl' & [= -> ->] & Hp). exists s. split; [|done].
    apply elem_of_app. right. apply list_elem_of_bind. exists pl'. split; [by apply sentinelChannelNames_sub|done].
Qed.

Lemma remote_channels_inv l (ct : gmap string string) n :
  is_Some (foldl (fun ct src => if is_remote src then match ct !! esr_Name src with Some _ => ct | None => <[esr_Name src := TypeAny]> ct end else ct) ct l !! n) ->
  is_Some (ct !! n) \/ exists src, src ∈ l /\ is_remote src = true /\ esr_Name src = n.
Proof.
  revert ct. induction l as [|x l IH]; intros ct; cbn; [auto|]. intros [Hn|(s & Hs & Hn)]%IH; [|right; exists s; split; [by right|done]].
  destruct (is_remote x) eqn:Ex; [|auto]. destruct (ct !! esr_Name x); [auto|].
  rewrite lookup_insert_is_Some' in Hn. destruct Hn as [Hn|Hn]; [|auto]. right. exists x. split; [by left|done].
Qed.
End validate.

(** ** What start-up guarantees *)

Lemma mapM_ok {A B} (f : A -> string + B) l ys : mapM f l = inr ys <-> Forall2 (fun x y => f x = inr y) l ys.
Proof.
  revert ys. induction l as [|x l IH]; intros ys; cbn [mapM].
  - unfold mret, res_ret. split; [intros [= <-]; constructor|by inversion 1].
  - rewrite bind_ok. setoid_rewrite bind_ok. setoid_rewrite IH. unfold mret, res_ret. split.
    + intros (y & Hy & ys' & Hl & [= <-]). by constructor.
    + inversion 1; subst. eauto 10.
Qed.

Lemma mapM_total {A B} (f : A -> string + B) l : Forall (fun x => exists y, f x = inr y) l -> exists ys, mapM f l = inr ys.
Proof.
  induction 1 as [|x l [y Hy] Hl [ys IH]]; [by exists []|]. exists (y :: ys). cbn [mapM]. rewrite Hy. cbn. by rewrite IH.
Qed.

Section startup.
Context {UP : UnicodePrint} {QM : QueueMode}.

Lemma check_wiring_ok available l : check_wiring available l = inr tt <->
  Forall (fun x => remote_writer x.2 = true \/ x.1.2 ∈ available) l.
Proof.
  unfold check_wiring. rewrite check_range_ok, Forall_lookup. apply forall_proper. intros k. apply forall_proper.
  intros [[ec src] q]. cbn [fst snd]. rewrite fail_if_pass. destruct (remote_writer q); cbn [negb andb]; [naive_solver|].
  rewrite negb_false_iff, bool_decide_eq_true. naive_solver.
Qed.

(** What a registration makes of the queue section of an executor source. *)
Definition namespaced (name : string) (q q' : QueueConfig) : Prop :=
  qc_Type q' = qc_Type q /\ qc_Mode q' = qc_Mode q /\ qc_Peer q' = qc_Peer q /\ qc_Options q' = qc_Options q /\
  (qc_Type q = "bbolt" /\ qc_Bucket q = "" -> qc_Bucket q' = "arxsentinel") /\
  (~ (qc_Type q = "bbolt" /\ qc_Bucket q = "") -> qc_Bucket q' = qc_Bucket q) /\
  (qc_Type q = "redis" /\ qc_Key q = "" -> qc_Key q' = "arxsentinel:queue:" +:+ name) /\
  (~ (qc_Type q = "redis" /\ qc_Key q = "") -> qc_Key q' = qc_Key q).

Lemma with_namespace_set name q : namespaced name q (with_namespace name q) /\ lacks_namespace (with_namespace name q) = false.
Proof.
  destruct q as [ty mode peer bucket key opts]. unfold with_namespace, lacks_namespace, namespaced. cbn [qc_Type qc_Bucket qc_Key].
  change QueueTypeBbolt with "bbolt". change QueueTypeRedis with "redis". change productQueueNamespace with "arxsentinel".
  destruct (String.eqb_spec ty "bbolt") as [->|Hb]; cbn.
  - destruct (String.eqb_spec bucket "") as [->|Hk]; cbn.
    + split; [|done]. repeat split; try done; intros H; (by destruct H) || (by destruct H; split).
    + apply String.eqb_neq in Hk as Hk'. rewrite Hk'. split; [|done]. repeat split; try done; intros [? ?]; done.
  - destruct (String.eqb_spec ty "redis") as [->|Hr]; cbn.
    + destruct (String.eqb_spec key "") as [->|Hy]; cbn.
      * split; [|done]. repeat split; try done; intros H; (by destruct H) || (by destruct H; split).
      * apply String.eqb_neq in Hy as Hy'. rewrite Hy'. split; [|done]. repeat split; try done; intros [? ?]; done.
    + apply String.eqb_neq in Hb as Hb'. apply String.eqb_neq in Hr as Hr'. rewrite Hb', Hr'. split; [|done].
      repeat split; try done; intros [? ?]; done.
Qed.

(** Registrations with a namespace return. *)
Lemma registration_returns {CS : ChannelSwitch} pre name q s : lacks_namespace q = false -> (registration pre name q s).2 <> RegPanics.
Proof. unfold registration. intros ->. by destruct (RegisterSinkFromConfig name q s) as [s' [e|]]. Qed.

Lemma register_all_returns {CS : ChannelSwitch} l s : Forall (fun x => lacks_namespace x.2 = false) l -> (register_all l s).2 <> RegPanics.
Proof.
  intros Hl. revert s. induction Hl as [|[[pre name] q] l Hq _ IH]; intros s; [done|]. cbn [register_all].
  pose proof (registration_returns pre name q s Hq) as Hr. unfold andThen. destruct (registration pre name q s) as [s' []]; [apply IH|done..].
Qed.

Lemma executor_registrations_named cfg : Forall (fun x => lacks_namespace x.2 = false) (executor_registrations cfg).
Proof. apply Forall_fmap, Forall_true. intros [[ec src] q]. apply with_namespace_set. Qed.

(** C15: Executor queues are registered all or none: when some executor source with a queue section has no sentinel-threat output of its name and is not fed by another node, start-up fails before any queue is created; otherwise the sources are registered in configuration order until the first backend error and the registration never panics: an embedded queue without a bucket gets the bucket arxsentinel, a Redis queue without a key gets the key arxsentinel:queue:NAME of its source, so that two such sources do not share one, and everything else of a queue section is registered as configured. *)
Theorem executor_queues_all_or_none {CS : ChannelSwitch} cfg s :
  (Exists (fun x => remote_writer x.2 = false /\ x.1.2 ∉ collectSentinelSinkNames cfg) (executor_queues cfg) ->
     exists e, preRegisterExecutorQueues cfg s = (s, RegFailed e)) /\
  (Forall (fun x => remote_writer x.2 = true \/ x.1.2 ∈ collectSentinelSinkNames cfg) (executor_queues cfg) ->
     preRegisterExecutorQueues cfg s = register_all (executor_registrations cfg) s /\
     (preRegisterExecutorQueues cfg s).2 <> RegPanics /\
     Forall2 (fun x y => y.1.2 = x.1.2 /\ namespaced x.1.2 x.2 y.2) (executor_queues cfg) (executor_registrations cfg)).
Proof.
  unfold preRegisterExecutorQueues. split.
  - intros Hex. destruct (check_wiring _ _) as [e|[]] eqn:E; [eauto|]. apply check_wiring_ok in E.
    apply Exists_exists in Hex as (x & Hx & Hr & Hn). rewrite Forall_forall in E.
    destruct (E x Hx); [congruence|done].
  - intros Hall. apply check_wiring_ok in Hall. rewrite Hall. split; [done|]. unfold executor_registrations. split.
    + apply register_all_returns, executor_registrations_named.
    + apply Forall2_fmap_r, Forall2_diag, Forall_true || apply Forall2_fmap_r, Forall_Forall2_diag, Forall_true.
      intros [[ec src] q]. split; [done|]. apply with_namespace_set.
Qed.

(** The two start-up checks agree: when the pipeline validation of a configuration reports no error, every executor source with a queue passes the wiring check of the queue registration, so the daemon never gets past the first and fails on the second, provided no channel name is both fed by another node and backed by a local queue. *)
Theorem startup_checks_agree {V : Validator} {CS : ChannelSwitch} cfg s :
  (forall a b, a ∈ executor_sources cfg -> b ∈ executor_sources cfg -> esr_Name a = esr_Name b ->
     is_remote a = true -> is_Some (esr_Queue b) -> is_remote b = true) ->
  validateConfig cfg = [] ->
  preRegisterExecutorQueues cfg s = register_all (executor_registrations cfg) s.
Proof.
  intros Hmix Hv. unfold validateConfig in Hv. apply app_eq_nil in Hv as [Hu Hv]. apply app_eq_nil in Hv as [_ Hw].
  apply wiring_reader in Hw. rewrite Forall_forall in Hw.
  unfold preRegisterExecutorQueues.
  assert (Hok : check_wiring (collectSentinelSinkNames cfg) (executor_queues cfg) = inr tt); [|by rewrite Hok].
  apply check_wiring_ok, Forall_forall. intros [[ec src] q] Hin. cbn [fst snd].
  unfold executor_queues in Hin. apply list_elem_of_bind in Hin as (e & Hin & He).
  apply list_elem_of_omap in Hin as (r & Hr & Hq). destruct (esr_Queue r) as [q'|] eqn:Eq; [|done].
  cbn in Hq. injection Hq as <- <- <-.
  destruct (executor_manifest (ex_Type e)) as [m|] eqn:Em.
  2: { exfalso. assert (Hx : unknown_executor (ex_Name e) (ex_Type e) ∈ ([] : list SemanticError)); [|by inversion Hx].
       rewrite <- Hu. apply list_elem_of_omap. exists e. rewrite Em. done. }
  assert (Hb : mkExecutorBinding (ex_Name e) (mf_InputType m) (esr_Name <$> ex_Sources e) ∈ omap executor_binding (c_Executors cfg)).
  { apply list_elem_of_omap. exists e. unfold executor_binding. by rewrite Em. }
  specialize (Hw _ Hb). cbn in Hw. rewrite Forall_fmap, Forall_forall in Hw. specialize (Hw r Hr). cbn in Hw.
  assert (Hrs : r ∈ executor_sources cfg) by (apply list_elem_of_bind; eauto).
  apply remote_channels_inv in Hw as [Hw|(a & Ha & Hra & Hn)].
  - right. by apply pipeline_channels_available.
  - left. specialize (Hmix a r Ha Hrs Hn Hra). unfold is_remote in Hmix. rewrite Eq in Hmix. by apply Hmix.
Qed.

Lemma formatter_ok o stream : sink_wf o ->
  ((exists f, formatterForFormat (sk_Type o) (sk_Format o) stream = inr f) <->
   (sk_Format o = "sentinel-threat" -> sk_Type o = "sentinel-threat")).
Proof.
  intros (_ & _ & _ & _ & Hf & Hr). unfold formatterForFormat, mret, res_ret.
  destruct (String.eqb_spec (sk_Type o) "sentinel-threat") as [Ht|Ht].
  { split; [done|]. destruct (String.eqb (sk_Format o) "raw-line"); eauto. }
  unfold sink_formats in Hf. rewrite !elem_of_cons, elem_of_nil in Hf.
  destruct Hf as [Hf|[Hf|[Hf|[Hf|[Hf|[]]]]]]; rewrite Hf; cbn [String.eqb orb].
  1, 2, 3: split; [done|eauto].
  - split; [by intros [f ?]|intros Hc; by destruct Ht, Hc].
  - by destruct Ht, Hr.
Qed.

Context `{IO : IORegistry}.

Lemma adapt_pipelines_ok cfg sn j ps xs : adapt_pipelines cfg sn j ps = inr xs <->
  length xs = length ps /\ forall k p x, ps !! k = Some p -> xs !! k = Some x -> adapt_pipeline cfg sn (j + k) p = inr x.
Proof.
  revert j xs. induction ps as [|p ps IH]; intros j xs; cbn [adapt_pipelines].
  - unfold mret, res_ret. split; [by intros [= <-]|]. intros [Hl _]. by destruct xs.
  - split.
    + intros (x & Hx & (xs' & [Hl Hk]%IH & [= <-])%bind_ok)%bind_ok. split; [cbn; lia|].
      intros [|k] p' x' Hp Hx'; cbn in Hp, Hx'.
      * injection Hp as <-. injection Hx' as <-. by rewrite Nat.add_0_r.
      * rewrite <- Nat.add_succ_comm. by apply (Hk k).
    + destruct xs as [|x xs]; intros [Hl Hk]; [done|].
      assert (Hx : adapt_pipeline cfg sn j p = inr x) by (rewrite <- (Nat.add_0_r j); by apply (Hk 0)).
      rewrite Hx. cbn [mbind res_bind]. rewrite (proj2 (IH (S j) xs)); [done|]. cbn in Hl. split; [lia|].
      intros k p' x' Hp Hx'. rewrite Nat.add_succ_comm. by apply (Hk (S k)).
Qed.

Lemma adapt_pipelines_total cfg sn j ps : (forall k p, p ∈ ps -> exists x, adapt_pipeline cfg sn k p = inr x) ->
  exists xs, adapt_pipelines cfg sn j ps = inr xs.
Proof.
  revert j. induction ps as [|p ps IH]; intros j Hall; [by eexists|]. cbn [adapt_pipelines].
  destruct (Hall j p) as [x Hx]; [by left|]. rewrite Hx. cbn. destruct (IH (S j)) as [xs Hxs]; [intros k q Hq; apply Hall; by right|].
  rewrite Hxs. by eexists.
Qed.

(** A pipeline that adapts has one plugin per input and output. *)
Lemma adapt_pipeline_ok cfg sn j p x : adapt_pipeline cfg sn j p = inr x ->
  sp_Name x = pl_Name p /\ sp_Idx x = j /\
  Forall2 (fun i src => buildSource cfg i = inr src) (pl_Inputs p) (sp_Sources x) /\
  Forall2 (fun o snk => buildSink sn o = inr snk) (pl_Outputs p) (sp_Sinks x).
Proof.
  unfold adapt_pipeline. intros (srcs & Hs%wrap_err_ok & (snks & Hk%wrap_err_ok & [= <-])%bind_ok)%bind_ok. cbn.
  unfold buildSources in Hs. unfold buildSinks in Hk.
  destruct (is_nil (pl_Inputs p)), (is_nil (pl_Outputs p)); try done.
  apply mapM_ok in Hs, Hk. done.
Qed.

Lemma adapt_pipeline_total cfg sn j p : pipeline_wf p ->
  Forall (fun i => exists src, buildSource cfg i = inr src) (pl_Inputs p) ->
  Forall (fun o => exists snk, buildSink sn o = inr snk) (pl_Outputs p) ->
  exists x, adapt_pipeline cfg sn j p = inr x.
Proof.
  intros (Hi & Ho & _ & _) [srcs Hs]%mapM_total [snks Hk]%mapM_total. unfold adapt_pipeline, buildSources, buildSinks.
  apply is_nil_false in Hi as ->, Ho as ->. rewrite Hs. cbn. rewrite Hk. cbn. by eexists.
Qed.

(** What the engine is given for a stream. *)
Definition spec_of_stream (cfg : Config) (s : StreamConfig) (sp : StreamSpec) : Prop :=
  ss_Name sp = st_Name s /\ ss_BufferSize sp = stream_buffer cfg s /\ ss_ShutdownTimeout sp = (5 * second)%Z /\
  length (ss_Pipelines sp) = length (st_Pipelines s) /\
  forall k p x, st_Pipelines s !! k = Some p -> ss_Pipelines sp !! k = Some x ->
    sp_Name x = pl_Name p /\ sp_Idx x = k /\
    Forall2 (fun i src => buildSource cfg i = inr src) (pl_Inputs p) (sp_Sources x) /\
    Forall2 (fun o snk => buildSink (st_Name s) o = inr snk) (pl_Outputs p) (sp_Sinks x).

Lemma adapt_stream_ok cfg s sp : adapt_stream cfg s = inr sp -> spec_of_stream cfg s sp.
Proof.
  unfold adapt_stream. intros (xs & Hx & [= <-])%bind_ok. apply adapt_pipelines_ok in Hx as [Hl Hk].
  repeat split; cbn; try done; by eapply adapt_pipeline_ok, (Hk k).
Qed.

(** The plugins the configuration asks for can be built. *)
Definition plugins_available (cfg : Config) : Prop :=
  (forall s p i, s ∈ c_Streams cfg -> p ∈ st_Pipelines s -> i ∈ pl_Inputs p -> exists src, buildSource cfg i = inr src) /\
  (forall s p o f, s ∈ c_Streams cfg -> p ∈ st_Pipelines s -> o ∈ pl_Outputs p ->
     exists snk, sink_Build (sink_config o) f = inr snk).

(** A sink of another kind that asks for the sentinel-threat format. *)
Definition misused_format (cfg : Config) : Prop := exists s p o,
  s ∈ c_Streams cfg /\ p ∈ st_Pipelines s /\ o ∈ pl_Outputs p /\
  sk_Format o = "sentinel-threat" /\ sk_Type o <> "sentinel-threat".

(** A validated configuration starts: when the configuration is well-formed, its plugins can be built and no other sink asks for the sentinel-threat format, every stream is adapted, in order, to a specification with the same pipelines, each with one source per input built with its parser and one sink per output built with the formatter of its type, and a shutdown timeout of five seconds. *)
Theorem validated_config_adapts cfg :
  config_wf cfg -> plugins_available cfg -> ~ misused_format cfg ->
  exists specs, adaptConfigToStreams cfg = inr specs /\ Forall2 (spec_of_stream cfg) (c_Streams cfg) specs.
Proof.
  intros Hwf [Hsrc Hsnk] Hmis. destruct Hwf as (_ & _ & _ & _ & _ & _ & Hst & _).
  assert (Hall : Forall (fun s => exists sp, adapt_stream cfg s = inr sp) (c_Streams cfg)).
  { apply Forall_forall. intros s Hs. rewrite Forall_forall in Hst. destruct (Hst s Hs) as (_ & Hp & _).
    unfold adapt_stream. destruct (adapt_pipelines_total cfg (st_Name s) 0 (st_Pipelines s)) as [xs Hxs].
    - intros k p Hps. rewrite Forall_forall in Hp. specialize (Hp p Hps).
      apply adapt_pipeline_total; [done|apply Forall_forall; intros i Hi; by eapply Hsrc|].
      apply Forall_forall. intros o Ho. unfold buildSink.
      destruct Hp as (_ & _ & _ & Hsw & _). rewrite Forall_forall in Hsw.
      destruct (proj2 (formatter_ok o (st_Name s) (Hsw o Ho))) as [f Hf].
      { intros Hf. destruct (decide (sk_Type o = "sentinel-threat")); [done|]. destruct Hmis. by exists s, p, o. }
      rewrite Hf. cbn. destruct (Hsnk s p o f Hs Hps Ho) as [snk ->]. by eexists.
    - rewrite Hxs. by eexists. }
  destruct (mapM_total _ _ Hall) as [specs Hsp]. exists specs. split; [done|].
  apply mapM_ok in Hsp. eapply Forall2_impl; [exact Hsp|]. intros s sp. apply adapt_stream_ok.
Qed.

(** Validation accepts the format sentinel-threat on any sink, but building the streams rejects it on every sink of another type, so such a configuration passes validation and the daemon refuses to start. *)
Theorem misused_format_rejected cfg : config_wf cfg -> misused_format cfg ->
  exists e, adaptConfigToStreams cfg = inl e.
Proof.
  intros Hwf (s & p & o & Hs & Hp & Ho & Hf & Ht). destruct (adaptConfigToStreams cfg) as [e|specs] eqn:E; [eauto|].
  exfalso. unfold adaptConfigToStreams in E. apply mapM_ok in E.
  apply list_elem_of_lookup in Hs as [i Hi]. destruct (Forall2_lookup_l _ _ _ _ _ E Hi) as (sp & _ & Hsp).
  apply adapt_stream_ok in Hsp as (_ & _ & _ & Hl & Hk).
  assert (Hps : p ∈ st_Pipelines s) by done. apply list_elem_of_lookup in Hp as [k Hp].
  destruct (lookup_lt_is_Some_2 (ss_Pipelines sp) k) as [x Hx]; [rewrite Hl; by eapply lookup_lt_Some|].
  destruct (Hk k p x Hp Hx) as (_ & _ & _ & Hsk).
  assert (Hos : o ∈ pl_Outputs p) by done. apply list_elem_of_lookup in Ho as [n Hn].
  destruct (Forall2_lookup_l _ _ _ _ _ Hsk Hn) as (snk & _ & Hb). unfold buildSink in Hb.
  apply bind_ok in Hb as (f & Hfm%wrap_err_ok & _).
  destruct Hwf as (_ & _ & _ & _ & _ & _ & Hst & _). rewrite Forall_forall in Hst.
  destruct (Hst s (list_elem_of_lookup_2 _ _ _ Hi)) as (_ & Hpw & _). rewrite Forall_forall in Hpw.
  destruct (Hpw p Hps) as (_ & _ & _ & Hsw & _). rewrite Forall_forall in Hsw.
  destruct Ht. apply (proj1 (formatter_ok o (st_Name s) (Hsw o Hos))); [by exists f|done].
Qed.
End startup.

(** ** Concrete instances *)

(** The switch as the list of its registrations. *)
Definition ex_switch : ChannelSwitch := {|
  Switch := list (string * QueueConfig);
  Queue := string;
  RegisterSinkFromConfig := fun n q s => (s ++ [(n, q)], None);
  AttachReader := fun n s => (s, inr n);
  DetachWriter := fun n s => s
|}.

Definition ex_missing (ct : gmap string string) (n : string) : option string :=
  match ct !! n with Some _ => None | None => Some n end.
Definition ex_wiring (bs : list ExecutorBinding) (ct : gmap string string) : list string :=
  bs ≫= (fun b => omap (ex_missing ct) (eb_SourceNames b)).

Lemma ex_wiring_reader bs ct : ex_wiring bs ct = [] ->
  Forall (fun b => Forall (fun n => is_Some (ct !! n)) (eb_SourceNames b)) bs.
Proof.
  intros Hn. apply Forall_forall. intros b Hb. apply Forall_forall. intros n Hin.
  destruct (ct !! n) as [t|] eqn:E; [eauto|]. exfalso.
  assert (Hx : n ∈ ex_wiring bs ct); [|rewrite Hn in Hx; by inversion Hx].
  apply list_elem_of_bind. exists b. split; [|done]. apply list_elem_of_omap. exists n. unfold ex_missing. by rewrite E.
Qed.

Definition ex_manifest (s : string) : option Manifest := Some (mkManifest s "" "executor" "scored" "" [] []).
Definition ex_validator : Validator := {|
  RoleProcessor := "processor"; TypeStructured := "structured"; TypeScoredEvent := "scored"; TypeAny := "any";
  source_manifest := ex_manifest; sink_manifest := ex_manifest; executor_manifest := ex_manifest;
  detector_Names := []; detector_manifest := ex_manifest;
  SemanticError := string; unknown_executor := fun _ t => t;
  ValidatePipeline := fun _ => ("scored", []);
  ValidateExecutorWiring := ex_wiring; wiring_reader := ex_wiring_reader
|}.

#[local] Instance ex_parsers : Parsers := {|
  Parser := string; parser_Profiles := fun _ => None; AvailableProfiles := "";
  NewJSONParser := fun _ => "json"; NewRegexParser := inr; CombinedParser := "combined"
|}.
Definition ex_registry : IORegistry := {|
  Source := string * string; Sink := string * Formatter;
  source_Build := fun t _ p _ => inr (t, p);
  sink_Build := fun o f => inr (sk_Type o, f)
|}.

Definition set_Executors (v : list ExecutorTopConfig) (c : Config) : Config :=
  mkConfig (c_General c) (c_Logging c) (c_Parser c) (c_Scoring c) (c_State c) (c_Detectors c) (c_Whitelist c)
    (c_Output c) (c_Metrics c) (c_Blocklist c) (c_ChainGuard c) (c_Streams c) (c_Inputs c) (c_Outputs c)
    (c_DeprecatedExecutors c) v (c_Pipeline c) (c_Transport c).

(** A named channel, as a sink and as a source of an executor with a bbolt queue. *)
Definition ex_sentinel (name : string) : SinkConfig :=
  mkSinkConfig "sentinel-threat" name "" "" "" None
    "" ∅ 0 "" "" "" "" false "" "" "" "" "" "" "" "" "" 0 "" false "" "" "" "" "" "" "" "" "" 0 "" false "" "" "".
Definition ex_executor (source : string) : ExecutorTopConfig :=
  mkExecutorTopConfig "edge" "cloudflare" [mkExecutorSourceRef source (Some (mkQueueConfig "bbolt" "" "" "" "" ∅))] ∅.
Definition ex_config (outputs : list SinkConfig) (source : string) : Config :=
  set_Executors [ex_executor source]
    (set_Streams [set_Pipelines [pipeline_literal "" [input_literal "file" "a.log" ""] outputs
                                   (mkPipelineRuntimeConfig 8192 (15 * second))] (stream_literal "web" "" "")]
       defaultConfig).

Lemma executor_queues_all_or_none_witness :
  @preRegisterExecutorQueues ex_print ex_queue_mode ex_switch (ex_config [ex_sentinel "bans"] "bans") [] =
    ([("bans", mkQueueConfig "bbolt" "" "" "arxsentinel" "" ∅)], Registered) /\
  exists e, @preRegisterExecutorQueues ex_print ex_queue_mode ex_switch (ex_config [ex_sentinel "bans"] "ban") [] = ([], RegFailed e).
Proof.
  split.
  - destruct (@executor_queues_all_or_none ex_print ex_queue_mode ex_switch (ex_config [ex_sentinel "bans"] "bans") []) as [_ Hok].
    destruct Hok as [-> _]; [|reflexivity]. constructor; [right|constructor]. apply (bool_decide_unpack _). vm_compute. done.
  - apply (@executor_queues_all_or_none ex_print ex_queue_mode ex_switch (ex_config [ex_sentinel "bans"] "ban") []).
    constructor. split; [reflexivity|]. apply (bool_decide_unpack _). vm_compute. done.
Defined.

Lemma startup_checks_agree_witness :
  @preRegisterExecutorQueues ex_print ex_queue_mode ex_switch (ex_config [ex_sentinel "bans"] "bans") [] =
    ([("bans", mkQueueConfig "bbolt" "" "" "arxsentinel" "" ∅)], Registered).
Proof.
  rewrite (@startup_checks_agree ex_print ex_queue_mode ex_validator ex_switch); [reflexivity| |reflexivity].
  intros a b Ha Hb Hn Hr _. cbn in Ha. apply list_elem_of_singleton in Ha as ->. discriminate Hr.
Defined.

Lemma ex_config_wf outputs : @ConfigLoad.validateConfig ex_print ex_queue_mode (ex_config outputs "bans") = inr tt ->
  @config_wf ex_queue_mode (ex_config outputs "bans").
Proof. apply validateConfig_ok. Qed.

Lemma validated_config_adapts_witness : exists specs,
  @adaptConfigToStreams ex_print ex_parsers ex_registry (ex_config [ex_sentinel "bans"; sink_literal "stdout" "" "json"] "bans") = inr specs /\
  ss_Name <$> specs = ["web"].
Proof.
  destruct (@validated_config_adapts ex_print ex_queue_mode ex_parsers ex_registry
    (ex_config [ex_sentinel "bans"; sink_literal "stdout" "" "json"] "bans")) as (specs & Hs & _).
  - apply ex_config_wf. vm_compute. reflexivity.
  - split; [intros s p i Hs Hp Hi|intros s p o f Hs Hp Ho; by eexists]. cbn in Hs. apply list_elem_of_singleton in Hs as ->.
    apply list_elem_of_singleton in Hp as ->. apply list_elem_of_singleton in Hi as ->. by eexists.
  - intros (s & p & o & Hs & Hp & Ho & Hf & Ht). apply list_elem_of_singleton in Hs as ->.
    apply list_elem_of_singleton in Hp as ->. cbn in Ho. apply elem_of_cons in Ho as [->|Ho]; [done|].
    apply list_elem_of_singleton in Ho as ->. done.
  - exists specs. split; [done|]. vm_compute in Hs. injection Hs as <-. reflexivity.
Defined.

Lemma misused_format_rejected_witness :
  @ConfigLoad.validateConfig ex_print ex_queue_mode (ex_config [sink_literal "file" "t.log" "sentinel-threat"] "bans") = inr tt /\
  exists e, @adaptConfigToStreams ex_print ex_parsers ex_registry
    (ex_config [sink_literal "file" "t.log" "sentinel-threat"] "bans") = inl e.
Proof.
  split; [vm_compute; reflexivity|].
  apply (@misused_format_rejected ex_print ex_queue_mode ex_parsers ex_registry).
  - apply ex_config_wf. vm_compute. reflexivity.
  - do 3 eexists. split; [by left|]. split; [by left|]. split; [by left|]. done.
Defined.
