(* ===== verification/Daemon.v ===== *)
(** * SIGHUP in the daemon (cmd/arxsentinel/main.go)

    What one SIGHUP does to the resources the streams share, and the fan-out to the
    streams: the signal channel and every reload channel hold one element, sends on
    the latter do not block, and main replaces the slice of reload channels once the
    streams are built.  [daemon_step] interleaves the handler goroutine, main, the
    streams and the operating system. *)

From Stdlib Require Import ZArith Lia Ascii String.
From stdpp Require Import base numbers option list strings gmap.
From S2P Require Import Prelude GoStrings GoNet GoFmt GoTime Model ChainCheck Blocklist ConfigTypes Logging.

Section daemon.
Context {CO : Colors} {AC : AhoCorasick} {KV : KVStore}.
Context (open_db : string -> option DB).

(** [SharedResources] and the logger. *)
Record Shared := mkShared {
  sh_log : World;
  sh_blocklist : Manager;
  sh_chain : option Checker;
  sh_warnings : option WarningsWriter
}.

(** [cancelled]: [ctx.Err() != nil]; [local]: the wall clock of the log line. *)
Definition reload_shared (cancelled : bool) (local : Time) (newCfg : Config) (s : Shared) : Shared :=
  let '(w, err) := Logging.Reload (lg_Debug (c_Logging newCfg)) (lg_ConsoleColor (c_Logging newCfg))
                     (ou_OperationalLog (c_Output newCfg)) "" (sh_log s) in
  let w := match err with
           | Some e => Log local "CONFIG" ("SIGHUP: logger reload error: " +:+ e) "warn" w
           | None => w
           end in
  let '(blocklist, chain) :=
    if cancelled then (sh_blocklist s, sh_chain s)
    else (Manager_Update open_db (sh_blocklist s) (c_Blocklist newCfg),
          (fun c => Checker_Update c (ToChainCheckConfig (c_ChainGuard newCfg))) <$> sh_chain s) in
  match sh_warnings s with
  | Some ww =>
      let '(fs, ww', _) := Reopen (w_fs w) ww in mkShared (set_fs w fs) blocklist chain (Some ww')
  | None => mkShared w blocklist chain None
  end.

(** [load]: the result of [config.LoadConfig] at that moment. *)
Definition handle_sighup (cancelled : bool) (local : Time) (load : string + Config) (s : Shared) : Shared :=
  match load with inr newCfg => reload_shared cancelled local newCfg s | inl _ => s end.

(** ** The fan-out *)

(** Where the handler goroutine is; [Sending swapped k]: it ranges over the old or
    the new slice and sends to channel [k] next. *)
Inductive HandlerPhase :=
  | Idle
  | Loaded
  | Sending (swapped : bool) (k : nat)
  | Exited.

Record Daemon := mkDaemon {
  d_shared : Shared;
  d_sighup : bool;              (* the buffer of the signal channel *)
  d_early : list bool;          (* the channels made before the streams *)
  d_streams : list bool;        (* the channels the streams receive from *)
  d_swapped : bool;             (* reloadChs = streamReloadChs was executed *)
  d_phase : HandlerPhase;
  d_reloads : list nat;         (* reloads each stream has started *)
  d_cancelled : bool
}.

(** Before the handler goroutine starts, with [n] streams. *)
Definition init_daemon (s : Shared) (n : nat) : Daemon :=
  mkDaemon s false (replicate n false) (replicate n false) false Idle (replicate n 0) false.

Inductive daemon_step : Daemon -> Daemon -> Prop :=
  (** kill -HUP; a signal for a full channel is dropped. *)
  | os_signal d : daemon_step d
      (mkDaemon (d_shared d) true (d_early d) (d_streams d) (d_swapped d) (d_phase d) (d_reloads d) (d_cancelled d))
  (** SIGTERM. *)
  | os_cancel d : daemon_step d
      (mkDaemon (d_shared d) (d_sighup d) (d_early d) (d_streams d) (d_swapped d) (d_phase d) (d_reloads d) true)
  (** The handler takes the signal, loads the file and updates the shared
      resources. *)
  | handler_take d local load : d_phase d = Idle -> d_sighup d = true ->
      daemon_step d
        (mkDaemon (handle_sighup (d_cancelled d) local load (d_shared d)) false (d_early d) (d_streams d) (d_swapped d)
           Loaded (d_reloads d) (d_cancelled d))
  (** [range reloadChs] reads the variable once. *)
  | handler_range d : d_phase d = Loaded ->
      daemon_step d
        (mkDaemon (d_shared d) (d_sighup d) (d_early d) (d_streams d) (d_swapped d) (Sending (d_swapped d) 0)
           (d_reloads d) (d_cancelled d))
  (** The non-blocking send leaves the buffer full in either case. *)
  | handler_send d b k : d_phase d = Sending b k -> k < length (if b then d_streams d else d_early d) ->
      daemon_step d
        (mkDaemon (d_shared d) (d_sighup d)
           (if b then d_early d else <[k := true]> (d_early d))
           (if b then <[k := true]> (d_streams d) else d_streams d)
           (d_swapped d) (Sending b (S k)) (d_reloads d) (d_cancelled d))
  | handler_done d b k : d_phase d = Sending b k -> length (if b then d_streams d else d_early d) <= k ->
      daemon_step d
        (mkDaemon (d_shared d) (d_sighup d) (d_early d) (d_streams d) (d_swapped d) Idle (d_reloads d) (d_cancelled d))
  | handler_exit d : d_phase d = Idle -> d_cancelled d = true ->
      daemon_step d
        (mkDaemon (d_shared d) (d_sighup d) (d_early d) (d_streams d) (d_swapped d) Exited (d_reloads d) (d_cancelled d))
  (** main installs the streams' channels. *)
  | main_swap d : d_swapped d = false ->
      daemon_step d
        (mkDaemon (d_shared d) (d_sighup d) (d_early d) (d_streams d) true (d_phase d) (d_reloads d) (d_cancelled d))
  (** A stream receives and reloads. *)
  | stream_take d i r : d_swapped d = true -> d_streams d !! i = Some true -> d_reloads d !! i = Some r ->
      daemon_step d
        (mkDaemon (d_shared d) (d_sighup d) (d_early d) (<[i := false]> (d_streams d)) (d_swapped d) (d_phase d)
           (<[i := S r]> (d_reloads d)) (d_cancelled d)).

Abbreviation daemon_run := (rtc daemon_step).

(** *** Delivery *)

(** Stream [i] has reloaded since [d0] or has a reload waiting. *)
Definition notified (d0 d : Daemon) (i : nat) : Prop :=
  d_streams d !! i = Some true \/
  exists r0 r, d_reloads d0 !! i = Some r0 /\ d_reloads d !! i = Some r /\ r0 < r.

(** The signal is waiting, being handled, or delivered. *)
Definition in_flight (d0 d : Daemon) : Prop :=
  d_swapped d = true /\ length (d_streams d) = length (d_streams d0) /\
  length (d_reloads d) = length (d_streams d0) /\
  (forall (i r0 r : nat), d_reloads d0 !! i = Some r0 -> d_reloads d !! i = Some r -> r0 <= r) /\
  (d_phase d = Exited \/ d_sighup d = true \/ d_phase d = Loaded \/
   (exists k, d_phase d = Sending true k /\ forall i, i < k -> i < length (d_streams d0) -> notified d0 d i) \/
   (forall i, i < length (d_streams d0) -> notified d0 d i)).

Lemma notified_take (d0 d : Daemon) (i j r : nat) :
  length (d_reloads d0) = length (d_reloads d) ->
  (forall (i r0 r : nat), d_reloads d0 !! i = Some r0 -> d_reloads d !! i = Some r -> r0 <= r) ->
  d_reloads d !! i = Some r ->
  notified d0 d j ->
  notified d0 (mkDaemon (d_shared d) (d_sighup d) (d_early d) (<[i := false]> (d_streams d)) (d_swapped d) (d_phase d)
           (<[i := S r]> (d_reloads d)) (d_cancelled d)) j.
Proof.
  intros Hlen Hle Hr Hn. unfold notified. cbn. destruct (decide (i = j)) as [->|Hne].
  - right. destruct (lookup_lt_is_Some_2 (d_reloads d0) j) as [r0 Hr0]; [rewrite Hlen; by eapply lookup_lt_Some|].
    exists r0, (S r). split; [done|]. split; [|specialize (Hle _ _ _ Hr0 Hr); lia].
    apply list_lookup_insert_eq. by eapply lookup_lt_Some.
  - rewrite !list_lookup_insert_ne by done. done.
Qed.

Lemma notified_send (d0 d : Daemon) (b : bool) (k j : nat) :
  notified d0 d j ->
  notified d0 (mkDaemon (d_shared d) (d_sighup d)
           (if b then d_early d else <[k := true]> (d_early d))
           (if b then <[k := true]> (d_streams d) else d_streams d)
           (d_swapped d) (Sending b (S k)) (d_reloads d) (d_cancelled d)) j.
Proof.
  unfold notified. cbn. intros [Hs|Hr]; [|by right]. left. destruct b; [|done].
  destruct (decide (k = j)) as [->|Hne]; [|by rewrite list_lookup_insert_ne].
  rewrite list_lookup_insert_eq; [done|]. by eapply lookup_lt_Some.
Qed.

Lemma in_flight_step d0 d d' : length (d_reloads d0) = length (d_streams d0) ->
  daemon_step d d' -> in_flight d0 d -> in_flight d0 d'.
Proof.
  intros Hl0 Hs (Hsw & Hl & Hlr & Hle & Hph).
  destruct Hs as [d|d|d local load Hp Hsig|d Hp|d b k Hp Hk|d b k Hp Hk|d Hp Hc|d Hns|d i r _ Hi Hr].
  - repeat split; cbn; try done. right. left. done.
  - repeat split; done.
  - repeat split; cbn; try done. tauto.
  - repeat split; cbn; try done. right. destruct Hph as [Hph|[Hph|[Hph|[(k & Hph & _)|Hph]]]]; try congruence; [by left| |].
    + right. right. left. exists 0. rewrite Hsw. split; [done|]. lia.
    + right. right. right. exact Hph.
  - repeat split; cbn; try done; [destruct b; [by rewrite length_insert|done]|].
    right. destruct Hph as [Hph|[Hph|[Hph|[(k' & Hph & Hn)|Hn]]]]; try congruence; [by left| |].
    + right. right. left. rewrite Hp in Hph. injection Hph as -> ->. exists (S k'). split; [done|]. intros i Hi Hil.
      destruct (decide (i = k')) as [->|Hne].
      * left. cbn. apply list_lookup_insert_eq. by rewrite Hl.
      * apply (notified_send d0 d true k'). apply Hn; [lia|done].
    + right. right. right. intros i Hi. apply notified_send. by apply Hn.
  - repeat split; cbn; try done. right. destruct Hph as [Hph|[Hph|[Hph|[(k' & Hph & Hn)|Hn]]]]; try congruence; [by left| |].
    + right. right. right. rewrite Hp in Hph. injection Hph as -> ->. intros i Hi. apply (Hn i); [lia|done].
    + right. right. right. exact Hn.
  - repeat split; cbn; try done. by left.
  - congruence.
  - repeat split; cbn; try done; [by rewrite length_insert|by rewrite length_insert| |].
    + intros j r0 r' Hr0. destruct (decide (i = j)) as [->|Hne]; [|rewrite list_lookup_insert_ne by done; by apply Hle].
      rewrite list_lookup_insert_eq by (by eapply lookup_lt_Some). intros [= <-]. specialize (Hle _ _ _ Hr0 Hr). lia.
    + destruct Hph as [Hph|[Hph|[Hph|[(k' & Hph & Hn)|Hn]]]]; [by left|right; by left|right; right; by left| |].
      * right. right. right. left. exists k'. split; [done|]. intros j Hj Hjl. apply notified_take; [lia|done|done|by apply Hn].
      * right. right. right. right. intros j Hj. apply notified_take; [lia|done|done|by apply Hn].
Qed.

Lemma daemon_lengths s n d : daemon_run (init_daemon s n) d ->
  length (d_streams d) = n /\ length (d_reloads d) = n /\ length (d_early d) = n.
Proof.
  intros Hr. remember (init_daemon s n) as d0 eqn:E.
  assert (H0 : length (d_streams d0) = n /\ length (d_reloads d0) = n /\ length (d_early d0) = n)
    by (subst; cbn; by rewrite !length_replicate).
  clear E. induction Hr as [|d1 d2 d3 Hs _ IH]; [done|]. apply IH. destruct Hs; cbn; try done.
  - destruct b; by rewrite length_insert.
  - by rewrite !length_insert.
Qed.

Lemma in_flight_run d0 d1 d : length (d_reloads d0) = length (d_streams d0) ->
  daemon_run d1 d -> in_flight d0 d1 -> in_flight d0 d.
Proof. intros Hl. induction 1 as [|d1 d2 d3 Hs _ IH]; [done|]. intros Hi. apply IH. by eapply in_flight_step. Qed.

(** *** The handler on its own *)

(** A step of the handler goroutine: one that moves it.  [load] is what the file loads to. *)
Definition handler_step (load : string + Config) (d d' : Daemon) : Prop :=
  daemon_step d d' /\ d_phase d' <> d_phase d /\
  (d_phase d = Idle -> exists local, d_shared d' = handle_sighup (d_cancelled d) local load (d_shared d)).

(** No other goroutine moves the handler. *)
Lemma handler_step_spec load d d' : handler_step load d d' ->
  d_reloads d' = d_reloads d /\ d_swapped d' = d_swapped d /\ d_cancelled d' = d_cancelled d /\
  forall i, d_streams d !! i = Some true -> d_streams d' !! i = Some true.
Proof.
  intros (Hs & Hp & _). destruct Hs; cbn in *; try done. repeat split; try done. intros i Hi. destruct b; [|done].
  destruct (decide (k = i)) as [->|Hne]; [|by rewrite list_lookup_insert_ne].
  rewrite list_lookup_insert_eq; [done|]. by eapply lookup_lt_Some.
Qed.

(** The handler never waits for a stream. *)
Lemma sending_finishes load d b k : d_phase d = Sending b k ->
  exists d', rtc (handler_step load) d d' /\ d_phase d' = Idle /\ d_sighup d' = d_sighup d.
Proof.
  remember (length (if b then d_streams d else d_early d) - k) as m eqn:Hm. revert d k Hm.
  induction m as [|m IH]; intros d k Hm Hp.
  - eexists. split; [apply rtc_once; split; [apply (handler_done d b k); [done|lia]|by rewrite Hp]|done].
  - destruct (IH (mkDaemon (d_shared d) (d_sighup d) (if b then d_early d else <[k := true]> (d_early d))
      (if b then <[k := true]> (d_streams d) else d_streams d) (d_swapped d) (Sending b (S k)) (d_reloads d) (d_cancelled d)) (S k))
      as (d' & Hr & Hd); [|done|].
    { cbn. destruct b; rewrite length_insert; lia. }
    exists d'. split; [|done]. eapply rtc_l; [|exact Hr]. split; [apply (handler_send d b k); [done|lia]|].
    rewrite Hp. cbn. split; [|done]. intros [= ?]. lia.
Qed.

Lemma loaded_finishes load d : d_phase d = Loaded ->
  exists d', rtc (handler_step load) d d' /\ d_phase d' = Idle /\ d_sighup d' = d_sighup d.
Proof.
  intros Hp. pose proof (handler_range d Hp) as Hs.
  match type of Hs with daemon_step _ ?d1 => destruct (sending_finishes load d1 (d_swapped d) 0 eq_refl) as (d' & Hr & Hd) end.
  exists d'. split; [eapply rtc_l; [split; [exact Hs|by rewrite Hp]|exact Hr]|done].
Qed.

Lemma idle_finishes load d : d_phase d = Idle ->
  exists d', rtc (handler_step load) d d' /\ d_phase d' = Idle /\ d_sighup d' = false.
Proof.
  intros Hp. destruct (d_sighup d) eqn:E; [|by exists d].
  pose proof (handler_take d 0 load Hp E) as Hs.
  match type of Hs with daemon_step _ ?d1 => destruct (loaded_finishes load d1 eq_refl) as (d' & Hr & Hd) end.
  exists d'. split; [eapply rtc_l; [split; [exact Hs|rewrite Hp; split; [done|by exists 0%Z]]|exact Hr]|done].
Qed.

Lemma handler_finishes load d : d_phase d <> Exited ->
  exists d', rtc (handler_step load) d d' /\ d_phase d' = Idle /\ d_sighup d' = false.
Proof.
  intros Hp. assert (H1 : exists d', rtc (handler_step load) d d' /\ d_phase d' = Idle).
  { destruct (d_phase d) as [| |b k|] eqn:E; [by exists d| | |done].
    - destruct (loaded_finishes load d E) as (d' & ? & ? & _). eauto.
    - destruct (sending_finishes load d b k E) as (d' & ? & ? & _). eauto. }
  destruct H1 as (d1 & Hr1 & Hp1). destruct (idle_finishes load d1 Hp1) as (d2 & Hr2 & Hd). exists d2.
  split; [by transitivity d1|done].
Qed.

(** C9: No SIGHUP is lost once the streams run. Take any state in which the signal is waiting or its handler has just loaded the file. At every moment from there on, unless the daemon is stopping and the handler has exited, the handler's own steps alone, with no stream receiving anything, bring it back to its wait with no signal left, whatever the file loads to and however many reload channels are full: its sends never wait for a busy stream. And in every interleaving in which it has come back, each stream has started a reload since the signal or has one waiting in its channel. *)
Theorem sighup_reaches_every_stream s n d0 :
  daemon_run (init_daemon s n) d0 -> d_swapped d0 = true ->
  d_phase d0 <> Exited -> d_sighup d0 = true \/ d_phase d0 = Loaded ->
  (forall d load, daemon_run d0 d -> d_phase d <> Exited ->
     exists d', rtc (handler_step load) d d' /\ d_phase d' = Idle /\ d_sighup d' = false /\ d_reloads d' = d_reloads d) /\
  (forall d, daemon_run d0 d -> d_phase d = Idle -> d_sighup d = false -> forall i, i < n -> notified d0 d i).
Proof.
  intros Hr Hsw Hne Hs. split.
  { intros d load _ Hp. destruct (handler_finishes load d Hp) as (d' & Hd & Hi & Hq). exists d'. repeat split; try done.
    clear Hp Hi Hq. induction Hd as [|d1 d2 d3 H1 _ IH]; [done|]. by destruct (handler_step_spec _ _ _ H1) as [<- _]. }
  intros d Hd Hp Hq i Hi.
  destruct (daemon_lengths _ _ _ Hr) as (L1 & L2 & _).
  assert (Hf : in_flight d0 d0).
  { split; [done|]. split; [done|]. split; [congruence|]. split; [|tauto]. intros j r0 r H1 H2.
    rewrite H1 in H2. injection H2 as ->. done. }
  apply (in_flight_run d0 d0 d) in Hf; [|congruence|done]. destruct Hf as (_ & _ & _ & _ & Hf).
  rewrite Hp, Hq, L1 in Hf. destruct Hf as [Hf|[Hf|[Hf|[(k & Hf & _)|Hf]]]]; try done. by apply Hf.
Qed.

(** *** Before the streams run *)

(** No further signal arrives. *)
Definition quiet_step (d d' : Daemon) : Prop := daemon_step d d' /\ (d_sighup d' = true -> d_sighup d = true).

Lemma before_swap s n d : daemon_run (init_daemon s n) d -> d_swapped d = false ->
  d_streams d = replicate n false /\ d_reloads d = replicate n 0.
Proof.
  intros Hr. remember (init_daemon s n) as d0 eqn:E.
  assert (H0 : d_swapped d0 = false -> d_streams d0 = replicate n false /\ d_reloads d0 = replicate n 0 /\
    forall k, d_phase d0 <> Sending true k) by (by subst).
  clear E. induction Hr as [d|d1 d2 d3 Hs _ IH]; [intros Hsw; by destruct (H0 Hsw) as (? & ? & _)|].
  apply IH. clear IH. intros Hsw. destruct Hs; cbn in *; try (destruct (H0 Hsw) as (Ha & Hb & Hc)); try done.
  - repeat split; try done. rewrite Hsw. done.
  - destruct b; [by destruct (Hc k)|]. repeat split; done.
  - congruence.
Qed.

(** A SIGHUP that arrives during start-up reaches no stream: when it is handled before main installs the streams' reload channels, the shared log, blocklist and chain checker are updated but the notifications go to channels that nobody reads, and unless another signal comes no stream ever reloads. *)
Theorem early_sighup_lost s n d d' :
  daemon_run (init_daemon s n) d -> d_swapped d = false -> d_phase d = Idle -> d_sighup d = false ->
  rtc quiet_step d d' ->
  d_streams d' = replicate n false /\ d_reloads d' = replicate n 0.
Proof.
  intros Hr Hsw Hp Hs Hq. destruct (before_swap _ _ _ Hr Hsw) as [H1 H2]. clear Hr Hsw.
  assert (H3 : d_phase d = Idle \/ d_phase d = Exited) by (by left). clear Hp.
  induction Hq as [|d1 d2 d3 [Hst Hqs] _ IH]; [done|]. apply IH; clear IH; rewrite Hs in Hqs.
  all: destruct Hst; cbn in *; try done; try (destruct H3; congruence); try (specialize (Hqs eq_refl); congruence).
  all: try (exfalso; rewrite H1 in *; match goal with H : replicate _ _ !! _ = Some true |- _ => apply lookup_replicate in H as [? _]; done end).
  all: try tauto.
Qed.

(** *** The shared resources *)

(** What a SIGHUP changes in the shared resources: nothing when the file does not load; otherwise the logger takes the new flags and reopens the operational log at its new path (console only when that fails), the blocklist and chain checker take the new configuration unless the daemon is stopping, and the warnings file is reopened at the path it was started with; a chain checker or warnings file that did not exist at start-up is not created, and one that did is not removed, whatever the new file says. *)
Theorem sighup_updates_shared cancelled local load s :
  let s' := handle_sighup cancelled local load s in
  match load with
  | inl _ => s' = s
  | inr cfg =>
      w_debug (sh_log s') = lg_Debug (c_Logging cfg) /\ w_color (sh_log s') = lg_ConsoleColor (c_Logging cfg) /\
      w_threat (sh_log s') = None /\
      w_oper (sh_log s') =
        (if bool_decide (fs_dir_err (w_fs (sh_log s)) !! ou_OperationalLog (c_Output cfg) = None)
         then match OpenFile (w_fs (sh_log s)) (ou_OperationalLog (c_Output cfg)) with
              | inr (f, _) => Some f | inl _ => None end
         else None) /\
      sh_blocklist s' = (if cancelled then sh_blocklist s else Manager_Update open_db (sh_blocklist s) (c_Blocklist cfg)) /\
      sh_chain s' = (if cancelled then sh_chain s
                     else (fun c => Checker_Update c (ToChainCheckConfig (c_ChainGuard cfg))) <$> sh_chain s) /\
      ww_path <$> sh_warnings s' = ww_path <$> sh_warnings s
  end.
Proof.
  destruct load as [e|cfg]; [done|]. cbn zeta. unfold handle_sighup, reload_shared, Logging.Reload, reload_oper, reload_threat, ensureDir.
  cbn [String.eqb].
  destruct (fs_dir_err (w_fs (sh_log s)) !! ou_OperationalLog (c_Output cfg)) as [e|] eqn:Ed;
    [rewrite bool_decide_eq_false_2 by done
    |rewrite bool_decide_eq_true_2 by done; destruct (OpenFile (w_fs (sh_log s)) (ou_OperationalLog (c_Output cfg))) as [e|[f fs]]];
    cbn [swap_writers]; destruct cancelled, (sh_warnings s) as [ww|]; cbn;
    try (unfold Reopen; destruct (OpenFile _ (ww_path ww)) as [?|[? ?]]); done.
Qed.
End daemon.

(** ** Witnesses *)

Section witnesses.
Notation Daemon' := (@Daemon ex_aho ex_kv).
Notation step' := (@daemon_step ex_colors ex_aho ex_kv (fun _ => Some ∅)).

Definition ex_shared : @Shared ex_aho ex_kv :=
  mkShared (start_world ex_fs) ex_manager None None.

(** A signal, handled with a file that does not load. *)
Definition ex_daemon (sighup : bool) (early streams : list bool) (swapped : bool) (p : HandlerPhase) (r : list nat) : Daemon' :=
  mkDaemon ex_shared sighup early streams swapped p r false.

Lemma ex_signal : rtc step' (init_daemon ex_shared 1) (ex_daemon true [false] [false] true Idle [0]).
Proof.
  eapply rtc_l; [apply main_swap; reflexivity|]. apply rtc_once.
  exact (os_signal _ (ex_daemon false [false] [false] true Idle [0])).
Qed.

Lemma sighup_reaches_every_stream_witness :
  notified (ex_daemon true [false] [false] true Idle [0]) (ex_daemon false [false] [false] true Idle [1]) 0.
Proof.
  apply (@sighup_reaches_every_stream ex_colors ex_aho ex_kv (fun _ => Some ∅) ex_shared 1 _ ex_signal);
    [reflexivity|done|by left| |reflexivity|reflexivity|lia].
  eapply rtc_l; [apply (handler_take _ (ex_daemon true [false] [false] true Idle [0]) 0 (inl "no file")); reflexivity|].
  eapply rtc_l; [apply handler_range; reflexivity|].
  eapply rtc_l; [eapply (handler_send _ _ true 0); [reflexivity|cbn; lia]|].
  eapply rtc_l; [eapply (handler_done _ _ true 1); [reflexivity|cbn; lia]|].
  apply rtc_once. exact (stream_take _ (ex_daemon false [false] [true] true Idle [0]) 0 0 eq_refl eq_refl eq_refl).
Defined.

Lemma ex_early : rtc step' (init_daemon ex_shared 1) (ex_daemon false [true] [false] false Idle [0]).
Proof.
  eapply rtc_l; [apply os_signal|].
  eapply rtc_l; [apply (handler_take _ (ex_daemon true [false] [false] false Idle [0]) 0 (inl "no file")); reflexivity|].
  eapply rtc_l; [apply handler_range; reflexivity|].
  eapply rtc_l; [eapply (handler_send _ _ false 0); [reflexivity|cbn; lia]|].
  apply rtc_once. exact (handler_done _ (ex_daemon false [true] [false] false (Sending false 1) [0]) false 1 eq_refl (le_n 1)).
Qed.

(** The signal was sent to the early channel; the stream's stays empty. *)
Lemma early_sighup_lost_witness :
  d_early (ex_daemon false [true] [false] true Idle [0]) = [true] /\
  d_streams (ex_daemon false [true] [false] true Idle [0]) = [false].
Proof.
  split; [reflexivity|].
  apply (@early_sighup_lost ex_colors ex_aho ex_kv (fun _ => Some ∅) ex_shared 1 _
    (ex_daemon false [true] [false] true Idle [0]) ex_early); [reflexivity|reflexivity|reflexivity|].
  apply rtc_once. split; [|done]. exact (main_swap _ (ex_daemon false [true] [false] false Idle [0]) eq_refl).
Defined.
End witnesses.
