(* ===== verification/Lifecycle.v ===== *)
(** * The goroutines of the daemon and its shutdown (cmd/arxsentinel/main.go)

    From the moment the streams are launched: the metrics server with its shutdown
    goroutine, the transport, the streams, the delayed start of the executors, the
    executors with the queues they read, and main, which waits for the three wait
    groups in turn and detaches the writers before the last.  [life_step] interleaves
    all of them; a step is labelled with what happened. *)

From Stdlib Require Import ZArith Lia Ascii String.
From stdpp Require Import base numbers option list list_numbers strings gmap.
From S2P Require Import Prelude GoJSON Model ExecCommon Waf Format ConfigTypes Wiring.

(** What an executor gets for a message of its queue: [queueEventSource.Pop]. *)
Definition decode (m : string) : option ThreatEvent :=
  match Pop (inr m) with inr (mkEvent _ (PThreat te)) => Some te | _ => None end.

(** Why the goroutine of [Run] that calls [Pop] has returned: the queue has no writer
    and is empty, a message that does not decode, an error of the queue, the context. *)
Inductive PumpEnd := PumpDrained | PumpUndecodable | PumpQueueError | PumpCancelled.

(** A goroutine of [startExecutors]: not started, in its loop, or returned (nil or the
    error of the context, or another error). *)
Inductive ExecPhase := XWaiting | XRunning | XReturned | XFailed.

(** With the queue of its source, the goroutine that pops it ([None]: still popping)
    and the [events] channel between the two; [x_sent] and [x_handled] are the
    histories of both ends. *)
Record ExecTask := mkExecTask {
  x_phase : ExecPhase;
  x_pump : option PumpEnd;
  x_closed : bool;
  x_sent : list string;
  x_queue : list string;
  x_events : list ThreatEvent;
  x_handled : list ThreatEvent
}.

(** The goroutine that starts the executors after a delay: absent without executors,
    asleep, about to start the i-th reader, finished, or stopped by an error. *)
Inductive Starter := NoExecutors | Sleeping | Starting (i : nat) | StartDone | StartFailed.

Inductive MainPhase := WaitMetrics | WaitStreams | Detach | WaitExecutors | MainReturned.

(** [lf_ctx]: a signal has cancelled the context.  The wait groups are their counters. *)
Record Life := mkLife {
  lf_ctx : bool;
  lf_listen : bool;
  lf_shutdown : bool;
  lf_metricsWg : nat;
  lf_streams : nat;
  lf_transport : bool;
  lf_wg : nat;
  lf_starter : Starter;
  lf_execWg : nat;
  lf_execs : list ExecTask;
  lf_main : MainPhase
}.

Definition b2n (b : bool) : nat := if b then 1 else 0.

(** After the streams are launched: both metrics goroutines and the transport as
    configured, a goroutine per stream, a task per source of an executor. *)
Definition launch (cfg : Config) : Life :=
  let metrics := me_Enabled (c_Metrics cfg) in
  let streams := length (c_Streams cfg) in
  let transport := tr_Enabled (c_Transport cfg) in
  mkLife false metrics metrics (2 * b2n metrics) streams transport (b2n transport + streams)
    (if (0 <? length (c_Executors cfg))%nat then Sleeping else NoExecutors) 0
    ((fun _ => mkExecTask XWaiting None false [] [] [] []) <$> (c_Executors cfg ≫= ex_Sources)) WaitMetrics.

(** ** Updates *)

Definition set_ctx (s : Life) : Life :=
  mkLife true (lf_listen s) (lf_shutdown s) (lf_metricsWg s) (lf_streams s) (lf_transport s) (lf_wg s) (lf_starter s)
    (lf_execWg s) (lf_execs s) (lf_main s).
Definition listen_done (s : Life) : Life :=
  mkLife (lf_ctx s) false (lf_shutdown s) (lf_metricsWg s - 1) (lf_streams s) (lf_transport s) (lf_wg s) (lf_starter s)
    (lf_execWg s) (lf_execs s) (lf_main s).
Definition shutdown_done (s : Life) : Life :=
  mkLife (lf_ctx s) (lf_listen s) false (lf_metricsWg s - 1) (lf_streams s) (lf_transport s) (lf_wg s) (lf_starter s)
    (lf_execWg s) (lf_execs s) (lf_main s).
Definition stream_done (s : Life) : Life :=
  mkLife (lf_ctx s) (lf_listen s) (lf_shutdown s) (lf_metricsWg s) (lf_streams s - 1) (lf_transport s) (lf_wg s - 1)
    (lf_starter s) (lf_execWg s) (lf_execs s) (lf_main s).
Definition transport_done (s : Life) : Life :=
  mkLife (lf_ctx s) (lf_listen s) (lf_shutdown s) (lf_metricsWg s) (lf_streams s) false (lf_wg s - 1)
    (lf_starter s) (lf_execWg s) (lf_execs s) (lf_main s).
Definition set_starter (st : Starter) (s : Life) : Life :=
  mkLife (lf_ctx s) (lf_listen s) (lf_shutdown s) (lf_metricsWg s) (lf_streams s) (lf_transport s) (lf_wg s) st
    (lf_execWg s) (lf_execs s) (lf_main s).
Definition set_execs (wg : nat) (l : list ExecTask) (s : Life) : Life :=
  mkLife (lf_ctx s) (lf_listen s) (lf_shutdown s) (lf_metricsWg s) (lf_streams s) (lf_transport s) (lf_wg s)
    (lf_starter s) wg l (lf_main s).
Definition set_main (m : MainPhase) (s : Life) : Life :=
  mkLife (lf_ctx s) (lf_listen s) (lf_shutdown s) (lf_metricsWg s) (lf_streams s) (lf_transport s) (lf_wg s)
    (lf_starter s) (lf_execWg s) (lf_execs s) m.

Definition set_phase (p : ExecPhase) (x : ExecTask) : ExecTask :=
  mkExecTask p (x_pump x) (x_closed x) (x_sent x) (x_queue x) (x_events x) (x_handled x).
Definition close_queue (x : ExecTask) : ExecTask :=
  mkExecTask (x_phase x) (x_pump x) true (x_sent x) (x_queue x) (x_events x) (x_handled x).
Definition push (m : string) (x : ExecTask) : ExecTask :=
  mkExecTask (x_phase x) (x_pump x) (x_closed x) (x_sent x ++ [m]) (x_queue x ++ [m]) (x_events x) (x_handled x).
Definition forward (te : ThreatEvent) (q : list string) (x : ExecTask) : ExecTask :=
  mkExecTask (x_phase x) (x_pump x) (x_closed x) (x_sent x) q (x_events x ++ [te]) (x_handled x).
Definition end_pump (r : PumpEnd) (q : list string) (x : ExecTask) : ExecTask :=
  mkExecTask (x_phase x) (Some r) (x_closed x) (x_sent x) q (x_events x) (x_handled x).
Definition take_event (te : ThreatEvent) (evs : list ThreatEvent) (x : ExecTask) : ExecTask :=
  mkExecTask (x_phase x) (x_pump x) (x_closed x) (x_sent x) (x_queue x) evs (x_handled x ++ [te]).

(** The popping goroutine is there and has not returned; it outlives a [Run] that the
    context ended. *)
Definition pumping (x : ExecTask) : Prop := (x_phase x = XRunning \/ x_phase x = XReturned) /\ x_pump x = None.

(** ** Steps *)

Inductive LifeEvent :=
| Signal | ListenReturns | ShutdownReturns | StreamEnds | TransportEnds
| Emit (i : nat) (m : string) | WriterGone (i : nat)
| WakeUp | StartReader (i : nat) | StartError | StartedAll
| Fetch (i : nat) | PumpEnds (i : nat) (r : PumpEnd) | Handle (i : nat) | ReaderEnds (i : nat) | ReaderFails (i : nat)
| MainStep.

(** A queue reports its end when no writer is left and it is empty, and an error at
    any time; the executors also return when the context is done, and the popping
    goroutine may then drop a message it has taken.  [ListenAndServe] may fail at any
    time; a stream ends with its sources or with the context. *)
Inductive life_step : LifeEvent -> Life -> Life -> Prop :=
| step_signal s : life_step Signal s (set_ctx s)
| step_listen s : lf_listen s = true -> life_step ListenReturns s (listen_done s)
| step_shutdown s : lf_ctx s = true -> lf_shutdown s = true -> life_step ShutdownReturns s (shutdown_done s)
| step_stream s : 0 < lf_streams s -> life_step StreamEnds s (stream_done s)
| step_transport s : lf_transport s = true -> life_step TransportEnds s (transport_done s)
| step_emit s i m x : 0 < lf_streams s -> lf_execs s !! i = Some x -> x_closed x = false ->
    life_step (Emit i m) s (set_execs (lf_execWg s) (<[i := push m x]> (lf_execs s)) s)
| step_writer_gone s i x : lf_execs s !! i = Some x -> x_closed x = false ->
    life_step (WriterGone i) s (set_execs (lf_execWg s) (<[i := close_queue x]> (lf_execs s)) s)
| step_wake s : lf_starter s = Sleeping -> life_step WakeUp s (set_starter (Starting 0) s)
| step_start s i x : lf_starter s = Starting i -> lf_execs s !! i = Some x -> x_phase x = XWaiting ->
    life_step (StartReader i) s
      (set_starter (Starting (S i)) (set_execs (S (lf_execWg s)) (<[i := set_phase XRunning x]> (lf_execs s)) s))
| step_start_error s i : lf_starter s = Starting i -> life_step StartError s (set_starter StartFailed s)
| step_started s i : lf_starter s = Starting i -> lf_execs s !! i = None -> life_step StartedAll s (set_starter StartDone s)
| step_fetch s i x m q te : lf_execs s !! i = Some x -> pumping x -> x_queue x = m :: q -> decode m = Some te ->
    life_step (Fetch i) s (set_execs (lf_execWg s) (<[i := forward te q x]> (lf_execs s)) s)
| step_undecodable s i x m q : lf_execs s !! i = Some x -> pumping x -> x_queue x = m :: q -> decode m = None ->
    life_step (PumpEnds i PumpUndecodable) s
      (set_execs (lf_execWg s) (<[i := end_pump PumpUndecodable q x]> (lf_execs s)) s)
| step_drained s i x : lf_execs s !! i = Some x -> pumping x -> x_closed x = true -> x_queue x = [] ->
    life_step (PumpEnds i PumpDrained) s (set_execs (lf_execWg s) (<[i := end_pump PumpDrained [] x]> (lf_execs s)) s)
| step_queue_error s i x : lf_execs s !! i = Some x -> pumping x ->
    life_step (PumpEnds i PumpQueueError) s
      (set_execs (lf_execWg s) (<[i := end_pump PumpQueueError (x_queue x) x]> (lf_execs s)) s)
| step_pump_cancelled s i x q : lf_ctx s = true -> lf_execs s !! i = Some x -> pumping x ->
    q = x_queue x \/ q = tail (x_queue x) ->
    life_step (PumpEnds i PumpCancelled) s (set_execs (lf_execWg s) (<[i := end_pump PumpCancelled q x]> (lf_execs s)) s)
| step_handle s i x te evs : lf_execs s !! i = Some x -> x_phase x = XRunning -> x_events x = te :: evs ->
    life_step (Handle i) s (set_execs (lf_execWg s) (<[i := take_event te evs x]> (lf_execs s)) s)
| step_reader_ends s i x : lf_execs s !! i = Some x -> x_phase x = XRunning ->
    lf_ctx s = true \/ (x_pump x <> None /\ x_events x = []) ->
    life_step (ReaderEnds i) s (set_execs (lf_execWg s - 1) (<[i := set_phase XReturned x]> (lf_execs s)) s)
| step_reader_fails s i x : lf_execs s !! i = Some x -> x_phase x = XRunning ->
    life_step (ReaderFails i) s (set_execs (lf_execWg s - 1) (<[i := set_phase XFailed x]> (lf_execs s)) s)
| step_metrics_waited s : lf_main s = WaitMetrics -> lf_metricsWg s = 0 -> life_step MainStep s (set_main WaitStreams s)
| step_streams_waited s : lf_main s = WaitStreams -> lf_wg s = 0 -> life_step MainStep s (set_main Detach s)
| step_detach s : lf_main s = Detach ->
    life_step MainStep s (set_main WaitExecutors (set_execs (lf_execWg s) (close_queue <$> lf_execs s) s))
| step_executors_waited s : lf_main s = WaitExecutors -> lf_execWg s = 0 -> life_step MainStep s (set_main MainReturned s).

(** The process ends with main. *)
Inductive life_run : Life -> list LifeEvent -> Life -> Prop :=
| run_nil s : life_run s [] s
| run_step s e s' l s'' : lf_main s <> MainReturned -> life_step e s s' -> life_run s' l s'' -> life_run s (e :: l) s''.

(** ** The invariant *)

Definition is_running (x : ExecTask) : nat := match x_phase x with XRunning => 1 | _ => 0 end.
Definition running (l : list ExecTask) : nat := sum_list_with is_running l.

(** What main has waited for. *)
Definition main_passed (s : Life) : Prop :=
  match lf_main s with
  | WaitMetrics => True
  | WaitStreams => lf_metricsWg s = 0
  | Detach | WaitExecutors | MainReturned => lf_metricsWg s = 0 /\ lf_wg s = 0
  end.

(** What became of the message the popping goroutine ended with. *)
Definition lost_ok (pump : option PumpEnd) (lost : list string) : Prop :=
  match pump with
  | Some PumpUndecodable => exists m, lost = [m] /\ decode m = None
  | Some PumpCancelled => True
  | _ => lost = []
  end.

(** Every message sent is still in the queue, was the last one taken, or was decoded
    and handed on, in order; without a signal a reader returns only when the popping
    goroutine has, and with its channel empty. *)
Record task_ok (ctx : bool) (x : ExecTask) : Prop := {
  to_sent : exists popped lost, x_sent x = popped ++ lost ++ x_queue x /\
    mapM decode popped = Some (x_handled x ++ x_events x) /\ lost_ok (x_pump x) lost;
  to_returned : x_phase x = XReturned -> ctx = false -> x_pump x <> None /\ x_events x = [];
  to_drained : x_pump x = Some PumpDrained -> x_closed x = true /\ x_queue x = [];
  to_cancelled : x_pump x = Some PumpCancelled -> ctx = true
}.

(** The starter walks through the tasks. *)
Definition started (st : Starter) (i : nat) (x : ExecTask) : Prop :=
  match st with
  | NoExecutors | Sleeping => x_phase x = XWaiting
  | Starting j => x_phase x = XWaiting <-> j <= i
  | StartDone => x_phase x <> XWaiting
  | StartFailed => True
  end.

Record life_wf (metrics : bool) (s : Life) : Prop := {
  wf_metrics : lf_metricsWg s = b2n (lf_listen s) + b2n (lf_shutdown s);
  wf_wg : lf_wg s = lf_streams s + b2n (lf_transport s);
  wf_exec : lf_execWg s = running (lf_execs s);
  wf_passed : main_passed s;
  wf_shutdown : metrics = true -> lf_shutdown s = true \/ lf_ctx s = true;
  wf_tasks : forall i x, lf_execs s !! i = Some x -> task_ok (lf_ctx s) x /\ started (lf_starter s) i x
}.

Lemma sum_insert {A} (f : A -> nat) l i x y : l !! i = Some x ->
  sum_list_with f (<[i := y]> l) + f x = sum_list_with f l + f y.
Proof.
  revert i. induction l as [|z l IH]; intros [|i] Hi; [done|done|injection Hi as ->; cbn; lia|].
  specialize (IH i Hi). change (<[S i := y]> (z :: l)) with (z :: <[i := y]> l). cbn [sum_list_with]. lia.
Qed.

Lemma sum_fmap {A} (f : A -> nat) (g : A -> A) l : (forall x, f (g x) = f x) -> sum_list_with f (g <$> l) = sum_list_with f l.
Proof. intros Hf. induction l as [|x l IH]; [done|]. cbn. by rewrite Hf, <- IH. Qed.

Lemma launch_wf cfg : life_wf (me_Enabled (c_Metrics cfg)) (launch cfg).
Proof.
  split; cbn; [destruct (me_Enabled _); reflexivity|lia| |done|auto|].
  - unfold running. induction (c_Executors cfg ≫= ex_Sources) as [|n l IH]; [done|exact IH].
  - intros i x. rewrite list_lookup_fmap. destruct (_ !! i); [|done]. intros [= <-]. split; [|by case_match].
    split; [|done..]. by exists [], [].
Qed.

(** A task that is replaced, and those that stay. *)
Lemma tasks_insert (P : nat -> ExecTask -> Prop) (l : list ExecTask) i y : (forall j x, l !! j = Some x -> j <> i -> P j x) -> P i y ->
  forall j x, <[i := y]> l !! j = Some x -> P j x.
Proof.
  intros Hl Hy j x [(-> & -> & _)|[Hne Hx]]%list_lookup_insert_Some; [done|]. by apply Hl.
Qed.

(** A step that replaces one task: the counter follows its phase, and the other tasks
    keep their state. *)
Lemma task_step metrics s i x y wg st : life_wf metrics s -> lf_execs s !! i = Some x ->
  wg + is_running x = lf_execWg s + is_running y ->
  task_ok (lf_ctx s) y -> started st i y ->
  (forall j z, j <> i -> started (lf_starter s) j z -> started st j z) ->
  life_wf metrics (set_starter st (set_execs wg (<[i := y]> (lf_execs s)) s)).
Proof.
  intros [H1 H2 H3 H4 H5 H6] Hx Hwg Hd Hst Hkeep. split; cbn; try done.
  - pose proof (sum_insert is_running _ _ _ y Hx) as Hsum. unfold running in *. lia.
  - apply (tasks_insert (fun j z => task_ok (lf_ctx s) z /\ started st j z)); [|done].
    intros j z Hj Hne. destruct (H6 j z Hj) as [? ?]. eauto.
Qed.

Lemma keep_starter s : s = set_starter (lf_starter s) s.
Proof. by destruct s. Qed.

(** A reader that leaves its loop. *)
Lemma reader_leaves metrics s i x p : life_wf metrics s -> lf_execs s !! i = Some x -> x_phase x = XRunning ->
  p <> XRunning -> p <> XWaiting -> task_ok (lf_ctx s) (set_phase p x) ->
  life_wf metrics (set_execs (lf_execWg s - 1) (<[i := set_phase p x]> (lf_execs s)) s).
Proof.
  intros Hwf Hx Hp Hr Hw Hd. rewrite (keep_starter (set_execs _ _ _)). pose proof Hwf as [_ _ H3 _ _ H6].
  eapply task_step; [done|exact Hx| |done| |done].
  - assert (Hsum : is_running x <= running (lf_execs s)) by (apply sum_list_with_in; by eapply list_elem_of_lookup_2).
    unfold is_running in *. cbn. rewrite Hp in *. destruct p; cbn; try done; lia.
  - pose proof (proj2 (H6 i x Hx)) as Hs. cbn. destruct (lf_starter s); cbn in *; try congruence.
    split; [done|]. intros Hle%Hs. congruence.
Qed.

(** A wait group that has been waited for stays at zero. *)
Lemma main_passed_mono s s' : lf_main s' = lf_main s -> lf_metricsWg s' <= lf_metricsWg s -> lf_wg s' <= lf_wg s ->
  main_passed s -> main_passed s'.
Proof. unfold main_passed. intros ->. destruct (lf_main s); lia. Qed.

Lemma task_ok_ctx ctx x : task_ok ctx x -> task_ok true x.
Proof. by intros []. Qed.

(** Steps that leave the tasks and main alone. *)
Lemma goroutine_step metrics s s' : life_wf metrics s ->
  lf_execs s' = lf_execs s -> lf_execWg s' = lf_execWg s -> lf_starter s' = lf_starter s -> lf_main s' = lf_main s ->
  lf_metricsWg s' = b2n (lf_listen s') + b2n (lf_shutdown s') -> lf_wg s' = lf_streams s' + b2n (lf_transport s') ->
  lf_metricsWg s' <= lf_metricsWg s -> lf_wg s' <= lf_wg s -> (lf_ctx s = true -> lf_ctx s' = true) ->
  lf_shutdown s' = lf_shutdown s \/ lf_ctx s' = true -> life_wf metrics s'.
Proof.
  intros [H1 H2 H3 H4 H5 H6] Hx Hw Hst Hm Hm1 Hw1 Hm2 Hw2 Hc Hsh. split; [done|done|by rewrite Hx, Hw| | |].
  - by eapply main_passed_mono.
  - intros Hme. destruct Hsh as [->|?]; [|by right]. destruct (H5 Hme); auto.
  - rewrite Hx, Hst. intros i x Hi. destruct (H6 i x Hi) as [Hd Hs]. split; [|done].
    destruct (lf_ctx s); [by rewrite Hc by done|]. destruct (lf_ctx s'); [by eapply task_ok_ctx|done].
Qed.

(** Steps of a queue, of the popping goroutine or of a reader in its loop. *)
Lemma queue_step metrics s i x y : life_wf metrics s -> lf_execs s !! i = Some x -> x_phase y = x_phase x ->
  (task_ok (lf_ctx s) x -> task_ok (lf_ctx s) y) ->
  life_wf metrics (set_execs (lf_execWg s) (<[i := y]> (lf_execs s)) s).
Proof.
  intros Hwf Hx Hp Hn. rewrite (keep_starter (set_execs _ _ _)). destruct (wf_tasks _ _ Hwf i x Hx) as [Hd Hs].
  eapply task_step; [done|exact Hx|unfold is_running; by rewrite Hp|by apply Hn| |done].
  cbn. unfold started in *. by rewrite Hp.
Qed.

Lemma start_ok ctx x : task_ok ctx x -> task_ok ctx (set_phase XRunning x).
Proof. by intros []. Qed.

Lemma push_ok ctx m x : x_closed x = false -> task_ok ctx x -> task_ok ctx (push m x).
Proof.
  intros Hcl [(popped & lost & Hs & Hm & Hl) Hr Hd Hc]. split; cbn; try done.
  - exists popped, lost. split; [|done]. by rewrite Hs, <- !app_assoc.
  - intros Hp. destruct (Hd Hp). congruence.
Qed.

Lemma close_ok ctx x : task_ok ctx x -> task_ok ctx (close_queue x).
Proof. intros [Hs Hr Hd Hc]. split; cbn; try done. intros Hp. by destruct (Hd Hp). Qed.

Lemma forward_ok ctx x m q te : x_pump x = None -> x_queue x = m :: q -> decode m = Some te ->
  task_ok ctx x -> task_ok ctx (forward te q x).
Proof.
  intros Hp Hq Hm [(popped & lost & Hs & Hpop & Hl) Hr Hd Hc]. rewrite Hp in *. cbn in Hl. subst lost.
  split; cbn; try (by rewrite Hp); [|by intros H1 H2; destruct (Hr H1 H2)].
  exists (popped ++ [m]), []. split; [by rewrite Hs, Hq, <- app_assoc|]. split; [|by rewrite Hp].
  rewrite app_assoc. apply mapM_Some. apply mapM_Some in Hpop. apply Forall2_app; [done|]. by repeat constructor.
Qed.

(** The popping goroutine returns; [lost] is the message it had taken. *)
Lemma end_pump_ok ctx r lost q x : x_pump x = None -> x_queue x = lost ++ q -> lost_ok (Some r) lost ->
  (r = PumpDrained -> x_closed x = true /\ q = []) -> (r = PumpCancelled -> ctx = true) ->
  task_ok ctx x -> task_ok ctx (end_pump r q x).
Proof.
  intros Hp Hq Hl Hdr Hca [(popped & lost' & Hs & Hpop & Hl') Hr Hd Hc]. rewrite Hp in *. cbn in Hl'. subst lost'.
  split; cbn; [|by intros H1 H2; destruct (Hr H1 H2)|by intros [= ->]; auto|by intros [= ->]; auto].
  exists popped, lost. by rewrite Hs, Hq.
Qed.

Lemma take_ok ctx x te evs : x_phase x = XRunning -> x_events x = te :: evs -> task_ok ctx x -> task_ok ctx (take_event te evs x).
Proof.
  intros Hp He [(popped & lost & Hs & Hpop & Hl) Hr Hd Hc]. split; cbn; try done; [|by rewrite Hp].
  exists popped, lost. split; [done|]. split; [|done]. by rewrite Hpop, He, <- app_assoc.
Qed.

Lemma starter_step metrics s st : life_wf metrics s ->
  (forall i x, lf_execs s !! i = Some x -> started (lf_starter s) i x -> started st i x) -> life_wf metrics (set_starter st s).
Proof.
  intros [H1 H2 H3 H4 H5 H6] Hst. split; cbn; auto. intros i x Hx. destruct (H6 i x Hx). split; [done|]. by apply Hst.
Qed.

Lemma main_step metrics s m : life_wf metrics s -> main_passed (set_main m s) -> life_wf metrics (set_main m s).
Proof. intros [H1 H2 H3 H4 H5 H6] Hm. by split. Qed.

Lemma detach_step metrics s : life_wf metrics s -> life_wf metrics (set_execs (lf_execWg s) (close_queue <$> lf_execs s) s).
Proof.
  intros [H1 H2 H3 H4 H5 H6]. split; cbn; auto.
  - rewrite H3. unfold running. by rewrite sum_fmap.
  - intros i x. rewrite list_lookup_fmap. destruct (lf_execs s !! i) as [z|] eqn:Hz; [|done]. intros [= <-].
    destruct (H6 i z Hz) as [Hd Hs]. split; [by apply close_ok|done].
Qed.

Lemma life_step_wf metrics e s s' : life_step e s s' -> life_wf metrics s -> life_wf metrics s'.
Proof.
  intros Hs Hwf. pose proof Hwf as [H1 H2 H3 H4 H5 H6].
  destruct Hs as [s|s Hl|s Hc Hl|s Hn|s Hl|s i m x Hn Hx Hcl|s i x Hx Hcl|s Hst|s i x Hst Hx Hp|s i Hst|s i Hst Hx
    |s i x m q te Hx [_ Hp] Hq Hm|s i x m q Hx [_ Hp] Hq Hm|s i x Hx [_ Hp] Hcl Hq|s i x Hx [_ Hp]|s i x q Hc Hx [_ Hp] Hq
    |s i x te evs Hx Hp He|s i x Hx Hp Hend|s i x Hx Hp|s Hm Hw|s Hm Hw|s Hm|s Hm Hw].
  - eapply goroutine_step; [done|..]; cbn; auto.
  - eapply goroutine_step; [done|..]; cbn; auto; rewrite H1, Hl; cbn; lia.
  - eapply goroutine_step; [done|..]; cbn; auto; rewrite H1, Hl; cbn; lia.
  - eapply goroutine_step; [done|..]; cbn; auto; lia.
  - eapply goroutine_step; [done|..]; cbn; auto; rewrite H2, Hl; cbn; lia.
  - eapply queue_step; [done..|by apply push_ok].
  - eapply queue_step; [done..|by apply close_ok].
  - apply starter_step; [done|]. intros i x _. rewrite Hst. cbn. intros ->. split; [lia|done].
  - eapply task_step; [done|exact Hx| |eapply start_ok; by apply H6 in Hx as [? _]|split; cbn; [done|lia]|].
    + unfold is_running. rewrite Hp. cbn. lia.
    + rewrite Hst. cbn. intros j z Hne ->. lia.
  - by apply starter_step.
  - apply starter_step; [done|]. intros j x Hj. rewrite Hst. cbn. intros ->. apply lookup_lt_Some in Hj. apply lookup_ge_None in Hx. lia.
  - eapply queue_step; [done..|by eapply forward_ok].
  - eapply queue_step; [done..|]. apply (end_pump_ok _ _ [m]); try done. by exists m.
  - eapply queue_step; [done..|]. by apply (end_pump_ok _ _ []).
  - eapply queue_step; [done..|]. by apply (end_pump_ok _ _ []).
  - eapply queue_step; [done..|]. destruct Hq as [-> | ->]; [by apply (end_pump_ok _ _ [])|].
    destruct (x_queue x) as [|m q] eqn:Eq; [by apply (end_pump_ok _ _ [])|by apply (end_pump_ok _ _ [m])].
  - eapply queue_step; [done..|by apply take_ok].
  - eapply reader_leaves; [done..|]. destruct (H6 i x Hx) as [[Hs Hr Hd Hc] _]. split; cbn; try done.
    intros _ Hf. destruct Hend as [Hc'|?]; [congruence|done].
  - eapply reader_leaves; [done..|]. by destruct (H6 i x Hx) as [[Hs Hr Hd Hc] _].
  - by apply main_step.
  - apply main_step; [done|]. unfold main_passed in *. rewrite Hm in H4. by cbn.
  - apply main_step; [by apply detach_step|]. unfold main_passed in *. by rewrite Hm in H4.
  - apply main_step; [done|]. unfold main_passed in *. by rewrite Hm in H4.
Qed.

Lemma life_run_wf metrics s l s' : life_run s l s' -> life_wf metrics s -> life_wf metrics s'.
Proof. induction 1 as [|s e s1 l s2 _ Hs _ IH]; [done|]. intros Hwf. apply IH. by eapply life_step_wf. Qed.

(** ** When main has returned *)

(** Main returns when the last executor has. *)
Lemma return_step e s s' : life_step e s s' -> lf_main s <> MainReturned -> lf_main s' = MainReturned -> lf_execWg s' = 0.
Proof. by intros []. Qed.

Lemma return_waited s l s' : life_run s l s' -> lf_main s <> MainReturned -> lf_main s' = MainReturned -> lf_execWg s' = 0.
Proof.
  induction 1 as [|s e s1 l s2 _ Hs Hr IH]; [done|]. intros Hm Hm2. inversion Hr as [|? ? ? ? ? Hm1]; subst; [by eapply return_step|auto].
Qed.

Lemma running_in l i x : l !! i = Some x -> x_phase x = XRunning -> 0 < running l.
Proof.
  intros Hx%list_elem_of_lookup_2 Hp. apply (sum_list_with_in _ is_running) in Hx. unfold is_running in Hx at 1. by rewrite Hp in Hx.
Qed.

(** The messages a run wrote to a queue. *)
Definition emitted (i : nat) (l : list LifeEvent) : list string :=
  omap (fun e => match e with Emit j m => if decide (j = i) then Some m else None | _ => None end) l.

Lemma sent_same (l : list ExecTask) i : x_sent <$> l !! i = (fun x => x_sent x ++ []) <$> l !! i.
Proof. destruct (l !! i); [|done]. cbn. by rewrite app_nil_r. Qed.

Lemma sent_insert (l : list ExecTask) j i x y ms : l !! j = Some x -> x_sent y = x_sent x ++ ms ->
  x_sent <$> <[j := y]> l !! i = (fun x => x_sent x ++ (if decide (j = i) then ms else [])) <$> l !! i.
Proof.
  intros Hx Hy. destruct (decide (j = i)) as [->|Hne].
  - rewrite list_lookup_insert_eq by (by eapply lookup_lt_Some). rewrite Hx. cbn. by rewrite Hy.
  - rewrite list_lookup_insert_ne by done. apply sent_same.
Qed.

Lemma sent_step e s s' i : life_step e s s' ->
  x_sent <$> lf_execs s' !! i = (fun x => x_sent x ++ emitted i [e]) <$> lf_execs s !! i.
Proof.
  intros Hs. pose proof (sent_same (lf_execs s) i) as Hsame.
  assert (Hkeep : forall j x y, lf_execs s !! j = Some x -> x_sent y = x_sent x ->
    x_sent <$> <[j := y]> (lf_execs s) !! i = (fun x => x_sent x ++ []) <$> lf_execs s !! i).
  { intros j x y Hx Hy. rewrite (sent_insert _ _ _ x y [] Hx) by (by rewrite app_nil_r). by destruct (decide _). }
  destruct Hs as [| | | | |s j m x _ Hx _| | | | | | | | | | | | | | | |s|]; try exact Hsame; try (eapply Hkeep; eassumption || reflexivity).
  - rewrite (sent_insert _ _ _ x (push m x) [m] Hx) by done. unfold emitted. cbn. by destruct (decide _).
  - cbn [lf_execs set_main set_execs]. rewrite list_lookup_fmap. etrans; [|exact Hsame]. by destruct (lf_execs s !! i).
Qed.

Lemma emitted_cons i e l : emitted i (e :: l) = emitted i [e] ++ emitted i l.
Proof. unfold emitted. by rewrite <- omap_app. Qed.

Lemma sent_run s l s' i : life_run s l s' -> x_sent <$> lf_execs s' !! i = (fun x => x_sent x ++ emitted i l) <$> lf_execs s !! i.
Proof.
  induction 1 as [|s e s1 l s2 _ Hs _ IH]; [apply sent_same|]. rewrite IH. pose proof (sent_step _ _ _ i Hs) as H1.
  rewrite emitted_cons. destruct (lf_execs s !! i) as [x|], (lf_execs s1 !! i) as [x1|]; cbn in *; try done.
  injection H1 as ->. by rewrite app_assoc.
Qed.


(** ** Termination *)

(** Everything but the environment and the traffic through the queues. *)
Definition progress (e : LifeEvent) : bool :=
  match e with Signal | Emit _ _ | Fetch _ | Handle _ => false | _ => true end.

Definition phase_rank (p : ExecPhase) : nat := match p with XWaiting => 2 | XRunning => 1 | _ => 0 end.
Definition task_rank (x : ExecTask) : nat := phase_rank (x_phase x) + b2n (negb (x_closed x)) +
  match x_pump x with None => 1 | Some _ => 0 end.
Definition starter_rank (st : Starter) : nat := match st with Sleeping => 2 | Starting _ => 1 | _ => 0 end.
Definition main_rank (m : MainPhase) : nat :=
  match m with WaitMetrics => 4 | WaitStreams => 3 | Detach => 2 | WaitExecutors => 1 | MainReturned => 0 end.

Definition life_rank (s : Life) : nat :=
  b2n (lf_listen s) + b2n (lf_shutdown s) + lf_streams s + b2n (lf_transport s) + starter_rank (lf_starter s) +
  sum_list_with task_rank (lf_execs s) + main_rank (lf_main s).

Lemma rank_close l : sum_list_with task_rank (close_queue <$> l) <= sum_list_with task_rank l.
Proof. induction l as [|x l IH]; [done|]. cbn. unfold task_rank at 1 3. cbn. lia. Qed.

Lemma life_step_rank e s s' : life_step e s s' -> life_rank s' + b2n (progress e) <= life_rank s.
Proof.
  intros Hs. pose proof (rank_close (lf_execs s)) as Hclose. unfold life_rank. destruct Hs; cbn -[sum_list_with]; repeat match goal with
  | H : lf_listen _ = true |- _ => rewrite H; clear H
  | H : lf_shutdown _ = true |- _ => rewrite H; clear H
  | H : lf_transport _ = true |- _ => rewrite H; clear H
  | H : lf_starter _ = _ |- _ => rewrite H; clear H
  | H : lf_main _ = _ |- _ => rewrite H; clear H
  | H : lf_execs ?s !! ?i = Some ?x |- context [<[?i := ?y]> (lf_execs ?s)] =>
      pose proof (sum_insert task_rank _ _ _ y H); clear H
  end; unfold task_rank, phase_rank in *; cbn in *; repeat match goal with
  | H : pumping _ |- _ => destruct H as [_ H]
  | H : x_pump _ = _ |- _ => rewrite H in *; clear H
  | H : x_phase _ = _ |- _ => rewrite H in *; clear H
  | H : x_closed _ = _ |- _ => rewrite H in *; clear H
  end; cbn in *; try lia.
Qed.

Lemma life_run_rank s l s' : life_run s l s' -> length (filter (fun e => progress e = true) l) <= life_rank s.
Proof.
  induction 1 as [|s e s1 l s2 _ Hs _ IH]; [cbn; lia|]. apply life_step_rank in Hs. rewrite filter_cons.
  destruct (decide (progress e = true)) as [He|He]; [rewrite He in Hs|apply not_true_is_false in He; rewrite He in Hs]; cbn in *; lia.
Qed.

Lemma running_some l : 0 < running l -> exists i x, l !! i = Some x /\ x_phase x = XRunning.
Proof.
  induction l as [|x l IH]; cbn; [lia|]. unfold running. cbn [sum_list_with]. unfold is_running at 1.
  destruct (x_phase x) eqn:Hp; cbn [plus]; intros Hr; try by exists 0, x.
  all: destruct IH as (i & y & Hy & Hpy); [exact Hr|by exists (S i), y].
Qed.

(** After a signal some goroutine can always go on. *)
Lemma signalled_progress metrics s : life_wf metrics s -> lf_ctx s = true -> lf_main s <> MainReturned ->
  exists e s', progress e = true /\ life_step e s s'.
Proof.
  intros [H1 H2 H3 H4 H5 H6] Hc Hm. destruct (lf_main s) eqn:Em; [| | | |done].
  - destruct (lf_listen s) eqn:El; [by exists ListenReturns, (listen_done s); split; [|constructor]|].
    destruct (lf_shutdown s) eqn:Es; [by exists ShutdownReturns, (shutdown_done s); split; [|constructor]|].
    exists MainStep. eexists. split; [done|by apply step_metrics_waited].
  - destruct (Nat.eq_dec (lf_streams s) 0) as [Hz|Hz]; [|exists StreamEnds; eexists; split; [done|apply step_stream; lia]].
    destruct (lf_transport s) eqn:Et; [by exists TransportEnds, (transport_done s); split; [|constructor]|].
    exists MainStep. eexists. split; [done|]. apply step_streams_waited; [done|]. rewrite H2, Hz, ?Et. reflexivity.
  - exists MainStep. eexists. split; [done|by apply step_detach].
  - destruct (Nat.eq_dec (lf_execWg s) 0) as [Hz|Hz]; [exists MainStep; eexists; split; [done|by apply step_executors_waited]|].
    destruct (running_some (lf_execs s)) as (i & x & Hx & Hp); [lia|].
    exists (ReaderEnds i). eexists. split; [done|]. eapply step_reader_ends; eauto.
Qed.

Lemma ctx_stays s l s' : life_run s l s' -> lf_ctx s = true -> lf_ctx s' = true.
Proof. induction 1 as [|s e s1 l s2 _ Hs _ IH]; [done|]. intros Hc. apply IH. by destruct Hs. Qed.

(** C13: shutdown completes. After a signal, in whatever order the goroutines run and whatever the streams still write, the daemon takes at most as many further steps, apart from the traffic through the queues, as it has goroutines, queues and phases left, and until main returns one of these steps is always possible: no goroutine waits for another in a circle, and a failed start of the executors or a failed metrics server does not block the exit. *)
Theorem shutdown_completes cfg l s : life_run (launch cfg) l s -> lf_ctx s = true ->
  forall l' s', life_run s l' s' ->
    length (filter (fun e => progress e = true) l') <= life_rank s /\
    (lf_main s' = MainReturned \/ exists e s'', progress e = true /\ life_step e s' s'').
Proof.
  intros Hr Hc l' s' Hr'. split; [by eapply life_run_rank|].
  assert (Hwf : life_wf (me_Enabled (c_Metrics cfg)) s')
    by (eapply life_run_wf; [exact Hr'|]; eapply life_run_wf; [exact Hr|apply launch_wf]).
  destruct (decide (main_rank (lf_main s') = 0)) as [Hz|Hz]; [left; by destruct (lf_main s')|right].
  eapply signalled_progress; [done|by eapply ctx_stays|]. by intros Hm; rewrite Hm in Hz.
Qed.

(** ** What an exit can lose *)

(** One stream whose threats one executor reads, with or without metrics. *)
Definition ex_host (metrics : bool) : Config :=
  let c := ex_config [ex_sentinel "bans"] "bans" in
  mkConfig (c_General c) (c_Logging c) (c_Parser c) (c_Scoring c) (c_State c) (c_Detectors c) (c_Whitelist c)
    (c_Output c) (mkMetricsConfig metrics ":9117" "" "") (c_Blocklist c) (c_ChainGuard c) (c_Streams c) (c_Inputs c)
    (c_Outputs c) (c_DeprecatedExecutors c) (c_Executors c) (c_Pipeline c) (c_Transport c).

(** A threat on the wire and a text that is none. *)
Definition ex_threat (ip : string) : string := Marshal (JObject [("ip", JString ip); ("level", JString "THREAT")]).
Definition ex_garbage : string := "203.0.113.7 THREAT".

Ltac life_side :=
  solve [reflexivity | vm_compute; reflexivity | cbn; lia | split; [by left|reflexivity] | right; split; [discriminate|reflexivity] | left; reflexivity].
Ltac life_go := eapply run_step; [discriminate|econstructor; life_side|cbn].

(** Streams that end before the delay of the executors is over: main returns without
    a signal and without having started them, and their queues are lost. *)
Lemma short_run_loses_bans : exists s x,
  life_run (launch (ex_host false)) [Emit 0 (ex_threat "203.0.113.7"); StreamEnds; MainStep; MainStep; MainStep; MainStep] s /\
  lf_main s = MainReturned /\ lf_ctx s = false /\ lf_starter s = Sleeping /\ lf_execs s = [x] /\
  x_phase x = XWaiting /\ x_queue x = [ex_threat "203.0.113.7"].
Proof. do 2 eexists. split; [do 6 life_go; apply run_nil|done]. Qed.

(** The executors share the context of the streams: after a signal they return without
    draining what the streams wrote. *)
Lemma signal_loses_queue : exists s x,
  life_run (launch (ex_host false))
    [WakeUp; StartReader 0; StartedAll; Signal; ReaderEnds 0; Emit 0 (ex_threat "203.0.113.7"); StreamEnds; MainStep; MainStep;
     MainStep; MainStep] s /\
  lf_main s = MainReturned /\ lf_execs s = [x] /\ x_phase x = XReturned /\ x_queue x = [ex_threat "203.0.113.7"].
Proof. do 2 eexists. split; [do 11 life_go; apply run_nil|done]. Qed.

(** One text that does not decode ends an executor for good: it returns as at the end
    of its source while the stream goes on, and the ban written next stays in the queue. *)
Lemma garbage_ends_executor : exists s x,
  life_run (launch (ex_host false))
    [WakeUp; StartReader 0; StartedAll; Emit 0 ex_garbage; PumpEnds 0 PumpUndecodable; ReaderEnds 0; Emit 0 (ex_threat "203.0.113.7")] s /\
  lf_ctx s = false /\ 0 < lf_streams s /\ lf_execs s = [x] /\ x_phase x = XReturned /\ x_handled x = [] /\
  x_queue x = [ex_threat "203.0.113.7"].
Proof. do 2 eexists. split; [do 7 life_go; apply run_nil|]. cbn. repeat split; lia. Qed.

(** ** Witnesses *)

(** A run to the end of its input: the executor drains its queue before main returns. *)
Definition ex_batch : list LifeEvent :=
  [WakeUp; StartReader 0; StartedAll; Emit 0 (ex_threat "203.0.113.7"); Emit 0 (ex_threat "203.0.113.8"); StreamEnds; Fetch 0;
   MainStep; MainStep; MainStep; Fetch 0; Handle 0; PumpEnds 0 PumpDrained; Handle 0; ReaderEnds 0; MainStep].

Lemma ex_batch_run : exists s x, life_run (launch (ex_host false)) ex_batch s /\ lf_main s = MainReturned /\
  lf_ctx s = false /\ lf_execs s !! 0 = Some x /\ x_phase x = XReturned /\ x_pump x = Some PumpDrained.
Proof. do 2 eexists. split; [unfold ex_batch; do 16 life_go; apply run_nil|done]. Qed.


(** A daemon with metrics, one stream and one executor, stopped by a
    signal while the executors are starting. *)
Definition ex_stopped : list LifeEvent := [WakeUp; Emit 0 (ex_threat "203.0.113.7"); Signal].

Lemma ex_stopped_run : exists s, life_run (launch (ex_host true)) ex_stopped s /\ lf_ctx s = true /\ life_rank s = 12.
Proof. eexists. split; [unfold ex_stopped; do 3 life_go; apply run_nil|split; reflexivity]. Qed.

Lemma shutdown_completes_witness : exists s, life_run (launch (ex_host true)) ex_stopped s /\
  forall l' s', life_run s l' s' -> length (filter (fun e => progress e = true) l') <= 12 /\
    (lf_main s' = MainReturned \/ exists e s'', progress e = true /\ life_step e s' s'').
Proof.
  destruct ex_stopped_run as (s & Hr & Hc & Hk). exists s. split; [done|]. rewrite <- Hk.
  exact (shutdown_completes (ex_host true) ex_stopped s Hr Hc).
Defined.
