(* ===== verification/Metrics.v ===== *)
(** * Metrics (internal/sys/metrics/metrics.go, the callbacks of cmd/arxsentinel/main.go, cmd/healthcheck)

    Counter and gauge vectors as maps from label values to numbers, the package
    functions over the default instance, which do nothing before [Init], and the
    probe of the health endpoint.  Label values are in the order of the labels. *)

From Stdlib Require Import ZArith Lia Ascii String.
From stdpp Require Import base numbers option list strings gmap.
From S2P Require Import Prelude GoStrings GoTime Wiring.

(** ** Vectors *)

Abbreviation Vec := (gmap (list string) Z) (only parsing).

(** [WithLabelValues(...).Inc()], [.Set(v)] and [DeleteLabelValues]. *)
Definition Inc (labels : list string) (v : Vec) : Vec := <[labels := (default 0 (v !! labels) + 1)%Z]> v.
Definition SetGauge (labels : list string) (x : Z) (v : Vec) : Vec := <[labels := x]> v.
Definition DeleteLabelValues (labels : list string) (v : Vec) : Vec := delete labels v.

Record Metrics := mkMetrics {
  linesProcessed : Vec;
  threats : Vec;
  detectorHits : Vec;
  trackedIPs : Vec;
  suspiciousIPs : Vec;
  inputLines : Vec;
  outputEvents : Vec;
  outputDropped : Vec;
  blocklistLastRefresh : Vec
}.

(** The collectors [New] registers: name and label names, in the order of the fields. *)
Definition collectors : list (string * list string) :=
  [("arx_sentinel_lines_processed_total", ["stream"; "pipeline"]);
   ("arx_sentinel_threats_total", ["stream"; "pipeline"; "level"]);
   ("arx_sentinel_detector_hits_total", ["stream"; "pipeline"; "detector"]);
   ("arx_sentinel_tracked_ips", ["stream"; "pipeline"]);
   ("arx_sentinel_suspicious_ips", ["stream"; "pipeline"]);
   ("arxsentinel_input_lines_total", ["stream"; "pipeline"; "source"; "source_type"]);
   ("arxsentinel_output_events_total", ["stream"; "pipeline"; "sink"; "sink_type"]);
   ("arxsentinel_output_dropped_total", ["stream"; "pipeline"; "sink"; "reason"]);
   ("arxsentinel_blocklist_last_refresh_timestamp_seconds", ["list"])].

(** [MustRegister] of one name after the other: [None] is the panic on a name that is
    already registered. *)
Fixpoint MustRegister (names : list string) (reg : gset string) : option (gset string) :=
  match names with
  | [] => Some reg
  | n :: rest => if decide (n ∈ reg) then None else MustRegister rest ({[n]} ∪ reg)
  end.

Definition NewMetrics (reg : gset string) : option (Metrics * gset string) :=
  reg' ← MustRegister collectors.*1 reg;
  Some (mkMetrics ∅ ∅ ∅ ∅ ∅ ∅ ∅ ∅ ∅, reg').

Definition RecordLine (stream pipeline : string) (m : Metrics) : Metrics :=
  mkMetrics (Inc [stream; pipeline] (linesProcessed m)) (threats m) (detectorHits m) (trackedIPs m) (suspiciousIPs m)
    (inputLines m) (outputEvents m) (outputDropped m) (blocklistLastRefresh m).
Definition RecordThreat (stream pipeline level : string) (m : Metrics) : Metrics :=
  mkMetrics (linesProcessed m) (Inc [stream; pipeline; level] (threats m)) (detectorHits m) (trackedIPs m)
    (suspiciousIPs m) (inputLines m) (outputEvents m) (outputDropped m) (blocklistLastRefresh m).
Definition RecordDetectorHit (stream pipeline detector : string) (m : Metrics) : Metrics :=
  mkMetrics (linesProcessed m) (threats m) (Inc [stream; pipeline; detector] (detectorHits m)) (trackedIPs m)
    (suspiciousIPs m) (inputLines m) (outputEvents m) (outputDropped m) (blocklistLastRefresh m).
Definition UpdateGauges (stream pipeline : string) (tracked suspicious : Z) (m : Metrics) : Metrics :=
  mkMetrics (linesProcessed m) (threats m) (detectorHits m) (SetGauge [stream; pipeline] tracked (trackedIPs m))
    (SetGauge [stream; pipeline] suspicious (suspiciousIPs m)) (inputLines m) (outputEvents m) (outputDropped m)
    (blocklistLastRefresh m).
Definition RecordInputLine (stream pipeline source sourceType : string) (m : Metrics) : Metrics :=
  mkMetrics (linesProcessed m) (threats m) (detectorHits m) (trackedIPs m) (suspiciousIPs m)
    (Inc [stream; pipeline; source; sourceType] (inputLines m)) (outputEvents m) (outputDropped m)
    (blocklistLastRefresh m).
Definition RecordOutputEvent (stream pipeline sink sinkType : string) (m : Metrics) : Metrics :=
  mkMetrics (linesProcessed m) (threats m) (detectorHits m) (trackedIPs m) (suspiciousIPs m) (inputLines m)
    (Inc [stream; pipeline; sink; sinkType] (outputEvents m)) (outputDropped m) (blocklistLastRefresh m).
Definition RecordOutputDropped (stream pipeline sink reason : string) (m : Metrics) : Metrics :=
  mkMetrics (linesProcessed m) (threats m) (detectorHits m) (trackedIPs m) (suspiciousIPs m) (inputLines m)
    (outputEvents m) (Inc [stream; pipeline; sink; reason] (outputDropped m)) (blocklistLastRefresh m).
(** [unix]: [timeNow().Unix()]. *)
Definition RecordBlocklistRefresh (listName : string) (unix : Z) (m : Metrics) : Metrics :=
  mkMetrics (linesProcessed m) (threats m) (detectorHits m) (trackedIPs m) (suspiciousIPs m) (inputLines m)
    (outputEvents m) (outputDropped m) (SetGauge [listName] unix (blocklistLastRefresh m)).

Definition CleanupSourceLabels (stream pipeline source sourceType : string) (m : Metrics) : Metrics :=
  mkMetrics (linesProcessed m) (threats m) (detectorHits m) (trackedIPs m) (suspiciousIPs m)
    (DeleteLabelValues [stream; pipeline; source; sourceType] (inputLines m)) (outputEvents m) (outputDropped m)
    (blocklistLastRefresh m).
Definition CleanupSinkLabels (stream pipeline sink sinkType : string) (m : Metrics) : Metrics :=
  mkMetrics (linesProcessed m) (threats m) (detectorHits m) (trackedIPs m) (suspiciousIPs m) (inputLines m)
    (DeleteLabelValues [stream; pipeline; sink; sinkType] (outputEvents m)) (outputDropped m) (blocklistLastRefresh m).
Definition CleanupDroppedLabels (stream pipeline sink reason : string) (m : Metrics) : Metrics :=
  mkMetrics (linesProcessed m) (threats m) (detectorHits m) (trackedIPs m) (suspiciousIPs m) (inputLines m)
    (outputEvents m) (DeleteLabelValues [stream; pipeline; sink; reason] (outputDropped m)) (blocklistLastRefresh m).
Definition CleanupBlocklistLabels (listName : string) (m : Metrics) : Metrics :=
  mkMetrics (linesProcessed m) (threats m) (detectorHits m) (trackedIPs m) (suspiciousIPs m) (inputLines m)
    (outputEvents m) (outputDropped m) (DeleteLabelValues [listName] (blocklistLastRefresh m)).

(** ** The default instance *)

(** The package variables and the default registry; [once] is set when [initOnce] has run. *)
Record Package := mkPackage {
  once : bool;
  defPtr : option Metrics;
  registry : gset string
}.

Definition Init (p : Package) : option Package :=
  if once p then Some p
  else '(m, reg) ← NewMetrics (registry p); Some (mkPackage true (Some m) reg).

(** What the engine and the blocklist report, as main.go wires it. *)
Inductive MetricEvent :=
  | EvLine (stream pipeline source sourceType : string)
  | EvThreat (stream pipeline level : string)
  | EvDetectorHit (stream pipeline detector : string)
  | EvOutput (stream pipeline sinkName : string)
  | EvGauges (stream pipeline : string) (tracked suspicious : Z)
  | EvRefresh (listName : string) (unix : Z).

Definition apply_event (e : MetricEvent) (m : Metrics) : Metrics :=
  match e with
  | EvLine s p src st => RecordInputLine s p src st (RecordLine s p m)
  | EvThreat s p l => RecordThreat s p l m
  | EvDetectorHit s p d => RecordDetectorHit s p d m
  | EvOutput s p sinkName => RecordOutputEvent s p sinkName (sinkTypeFromName sinkName) m
  | EvGauges s p t x => UpdateGauges s p t x m
  | EvRefresh l t => RecordBlocklistRefresh l t m
  end.

(** Before [Init] the package functions do nothing. *)
Definition record (p : Package) (e : MetricEvent) : Package :=
  match defPtr p with
  | Some m => mkPackage (once p) (Some (apply_event e m)) (registry p)
  | None => p
  end.

(** *** Counting *)

Definition value (v : Vec) (labels : list string) : Z := default 0%Z (v !! labels).

(** The counters an event increments. *)
Definition line_key (e : MetricEvent) : option (list string) :=
  match e with EvLine s p _ _ => Some [s; p] | _ => None end.
Definition source_key (e : MetricEvent) : option (list string) :=
  match e with EvLine s p src st => Some [s; p; src; st] | _ => None end.
Definition threat_key (e : MetricEvent) : option (list string) :=
  match e with EvThreat s p l => Some [s; p; l] | _ => None end.
Definition hit_key (e : MetricEvent) : option (list string) :=
  match e with EvDetectorHit s p d => Some [s; p; d] | _ => None end.
Definition output_key (e : MetricEvent) : option (list string) :=
  match e with EvOutput s p n => Some [s; p; n; sinkTypeFromName n] | _ => None end.

Definition count (key : MetricEvent -> option (list string)) (labels : list string) (es : list MetricEvent) : Z :=
  Z.of_nat (length (filter (fun e => key e = Some labels) es)).

Lemma value_Inc l l' v : value (Inc l' v) l = (value v l + if decide (l' = l) then 1 else 0)%Z.
Proof.
  unfold value, Inc. destruct (decide (l' = l)) as [->|Hne]; [by rewrite lookup_insert_eq|].
  rewrite lookup_insert_ne by done. lia.
Qed.

Lemma count_cons key l e es : count key l (e :: es) = ((if decide (key e = Some l) then 1 else 0) + count key l es)%Z.
Proof. unfold count. rewrite filter_cons. destruct (decide (key e = Some l)); cbn [length]; lia. Qed.

(** A vector that every event increments at its key. *)
Lemma vec_counts (vec : Metrics -> Vec) key :
  (forall e m l, value (vec (apply_event e m)) l = (value (vec m) l + if decide (key e = Some l) then 1 else 0)%Z) ->
  forall es m l, value (vec (foldl (flip apply_event) m es)) l = (value (vec m) l + count key l es)%Z.
Proof.
  intros Hstep es. induction es as [|e es IH]; intros m l; cbn [foldl flip].
  - unfold count. cbn. lia.
  - rewrite IH. unfold flip. rewrite Hstep, count_cons. lia.
Qed.

Ltac counter_step := intros e m l; destruct e; cbn [apply_event RecordInputLine RecordLine RecordThreat RecordDetectorHit
    RecordOutputEvent UpdateGauges RecordBlocklistRefresh linesProcessed inputLines threats detectorHits outputEvents
    line_key source_key threat_key hit_key output_key]; rewrite ?value_Inc;
  repeat case_decide; simplify_eq; first [lia | exfalso; congruence].

Lemma lines_step e m l : value (linesProcessed (apply_event e m)) l =
  (value (linesProcessed m) l + if decide (line_key e = Some l) then 1 else 0)%Z.
Proof. revert e m l. counter_step. Qed.
Lemma inputs_step e m l : value (inputLines (apply_event e m)) l =
  (value (inputLines m) l + if decide (source_key e = Some l) then 1 else 0)%Z.
Proof. revert e m l. counter_step. Qed.
Lemma threats_step e m l : value (threats (apply_event e m)) l =
  (value (threats m) l + if decide (threat_key e = Some l) then 1 else 0)%Z.
Proof. revert e m l. counter_step. Qed.
Lemma hits_step e m l : value (detectorHits (apply_event e m)) l =
  (value (detectorHits m) l + if decide (hit_key e = Some l) then 1 else 0)%Z.
Proof. revert e m l. counter_step. Qed.
Lemma outputs_step e m l : value (outputEvents (apply_event e m)) l =
  (value (outputEvents m) l + if decide (output_key e = Some l) then 1 else 0)%Z.
Proof. revert e m l. counter_step. Qed.

Lemma record_before p es : defPtr p = None -> foldl record p es = p.
Proof. intros Hp. induction es as [|e es IH]; [done|]. cbn. unfold record at 2. by rewrite Hp. Qed.

Lemma record_after m o reg es :
  foldl record (mkPackage o (Some m) reg) es = mkPackage o (Some (foldl (flip apply_event) m es)) reg.
Proof. revert m. induction es as [|e es IH]; intros m; [done|]. apply IH. Qed.

Lemma MustRegister_fresh names reg : NoDup names -> (forall n, n ∈ names -> n ∉ reg) ->
  MustRegister names reg = Some (list_to_set names ∪ reg).
Proof.
  intros Hn. revert reg. induction Hn as [|n names Hni _ IH]; intros reg Hf; cbn [MustRegister list_to_set].
  - by rewrite (left_id_L ∅ (∪)).
  - rewrite decide_False by (apply Hf; left). rewrite IH; [f_equal; set_solver|].
    intros x Hx. assert (x ∉ reg) by (apply Hf; by right). set_solver.
Qed.

(** No event writes the drop vector. *)
Lemma dropped_never m es : outputDropped (foldl (flip apply_event) m es) = outputDropped m.
Proof. revert m. induction es as [|e es IH]; intros m; [done|]. cbn. rewrite IH. by destruct e. Qed.

(** Initialisation and counting are exact: before Init every report leaves the package as it was; the first Init registers all collectors without a panic when the registry has none of their names, a second Init, which would panic on the names already registered, changes nothing; and after any events each series of processed lines, input lines, threats, detector hits and output events equals the number of its events, while the drop counter has no series. *)
Theorem metrics_exact reg before es :
  (forall n, n ∈ collectors.*1 -> n ∉ reg) ->
  exists p m, Init (foldl record (mkPackage false None reg) before) = Some p /\
    Init (foldl record p es) = Some (foldl record p es) /\ NewMetrics (registry p) = None /\
    defPtr (foldl record p es) = Some m /\ outputDropped m = ∅ /\
    forall l, value (linesProcessed m) l = count line_key l es /\ value (inputLines m) l = count source_key l es /\
    value (threats m) l = count threat_key l es /\ value (detectorHits m) l = count hit_key l es /\
    value (outputEvents m) l = count output_key l es.
Proof.
  intros Hf. rewrite record_before by done. unfold Init at 1, NewMetrics at 1. cbn [once registry].
  rewrite MustRegister_fresh by (done || apply (bool_decide_unpack _); vm_compute; exact I). cbn.
  eexists _, _. split; [done|]. rewrite record_after. split; [done|]. split.
  - unfold NewMetrics. cbn. by rewrite decide_True by set_solver.
  - split; [done|]. split; [apply dropped_never|]. intros l.
    rewrite (vec_counts linesProcessed _ lines_step), (vec_counts inputLines _ inputs_step),
      (vec_counts threats _ threats_step), (vec_counts detectorHits _ hits_step), (vec_counts outputEvents _ outputs_step).
    unfold value. cbn. rewrite lookup_empty. done.
Qed.

Lemma metrics_exact_witness : exists p m,
  Init (foldl record (mkPackage false None ∅) [EvLine "web" "" "a.log" "file"]) = Some p /\
    defPtr (foldl record p [EvLine "web" "" "a.log" "file"; EvThreat "web" "" "THREAT"]) = Some m /\
    value (linesProcessed m) ["web"; ""] = 1%Z.
Proof.
  destruct (metrics_exact ∅ [EvLine "web" "" "a.log" "file"] [EvLine "web" "" "a.log" "file"; EvThreat "web" "" "THREAT"])
    as (p & m & Hi & _ & _ & Hm & _ & Hc); [intros n _; apply not_elem_of_empty|].
  exists p, m. split; [exact Hi|]. split; [exact Hm|]. destruct (Hc ["web"; ""]) as [Hl _]. rewrite Hl. vm_compute. reflexivity.
Defined.

(** ** cmd/healthcheck *)

Definition health_body : string := String (ascii_of_N 123) (String (ascii_of_N 34) "status") +:+
  String (ascii_of_N 34) (String ":" (String (ascii_of_N 34) "ok")) +:+ String (ascii_of_N 34) (String (ascii_of_N 125) EmptyString).

(** The exit code: [dial] succeeds, [resp] is the status and the body of GET /health. *)
Definition healthcheck (dial : bool) (resp : option (Z * string)) : Z :=
  if negb dial then 1
  else match resp with
       | None => 1
       | Some (status, body) =>
           if (negb (status =? 200)%Z || negb (String.eqb (TrimSpace body) health_body))%bool then 1 else 0
       end.
