(* ===== verification/Startup.v ===== *)
(** * Commands and start-up (cmd/arxsentinel/main.go, validate.go, cleanup.go)

    The subcommands and the synchronous part of main, from the parsed flags to the
    running streams or the reason and status of its exit, with the operational log,
    the PID file and the deferred calls.  What is printed on the standard error
    stream before the logger is up is not modelled; the metrics server and the
    command line are in [Entry]. *)

From Stdlib Require Import ZArith Lia Ascii String.
From stdpp Require Import base numbers option list strings gmap.
From S2P Require Import Prelude GoStrings GoValues GoFmt GoTime Blocklist ChainCheck ConfigTypes ConfigEnv ConfigLoad CloudflareExec Wiring Logging Daemon.

(** ** Dispatch *)

Inductive Command :=
  | CmdCleanup (args : list string)
  | CmdLicense
  | CmdValidate (path : string)
  | CmdDaemon (args : list string).

(** [args]: [os.Args[1:]]. *)
Definition dispatch (args : list string) : Command :=
  match args with
  | a :: rest =>
      if String.eqb a "cleanup" then CmdCleanup rest
      else if String.eqb a "license" then CmdLicense
      else if String.eqb a "validate" then CmdValidate (validate_path configPath rest)
      else CmdDaemon args
  | [] => CmdDaemon []
  end.

(** The parsed flags of the daemon. *)
Record Flags := mkFlags {
  fl_input : string;
  fl_output : string;
  fl_config : string
}.

(** ** The PID file *)

(** [os.WriteFile] of one line: the file is created or emptied, then written. *)
Definition WriteFile (fs : FS) (path line : string) : FS * option string :=
  match OpenFile fs path with
  | inl e => (fs, Some e)
  | inr (f, fs) =>
      let fs := match fs_fds fs !! f with
                | Some i => with_data fs (alter (fun _ => []) i (fs_data fs))
                | None => fs
                end in
      match WriteLine fs (Some f) line with
      | inl e => (CloseFile fs (Some f), Some e)
      | inr fs => (CloseFile fs (Some f), None)
      end
  end.

(** [os.Remove]. *)
Definition RemoveFile (fs : FS) (path : string) : FS :=
  mkFS (delete path (fs_names fs)) (fs_data fs) (fs_fds fs) (fs_next fs) (fs_open_err fs) (fs_dir_err fs) (fs_write_err fs).

Definition writePID (pid : Z) (path : string) (w : World) : World * option string :=
  let '(fs, e) := WriteFile (w_fs w) path (Itoa pid) in (set_fs w fs, e).

Definition removePID (path : string) (w : World) : World := set_fs w (RemoveFile (w_fs w) path).

(** ** The start-up lines of the operational log *)

Abbreviation LogLine := (string * string * string)%type (only parsing).

Definition fmt_bool (b : bool) : string := if b then "true" else "false".

Definition stream_lines {UP : UnicodePrint} (cfg : Config) : list LogLine :=
  match c_Streams cfg with
  | [s] => [("CONFIG", "source: " +:+ streamSourceLabel s cfg, "info")]
  | l => ("CONFIG", "streams: " +:+ Itoa (Z.of_nat (length l)), "info") ::
         ((fun s => ("CONFIG", "  stream " +:+ Quote (st_Name s) +:+ ": " +:+ streamSourceLabel s cfg, "info")) <$> l)
  end.

(** A bare port is shown with a host. *)
Definition display_addr (addr : string) : string := if HasPrefix addr ":" then "localhost" +:+ addr else addr.

(** [environ]: [os.Environ()]. *)
Definition startup_lines {UP : UnicodePrint} (version : string) (environ : list string) (cfg : Config) : list LogLine :=
  [("STARTUP", "arxsentinel " +:+ version +:+ " starting", "info");
   ("STARTUP", "cookbook: /usr/share/arxsentinel/cookbook/", "info");
   ("CONFIG", "alert=" +:+ Itoa (sg_AlertThreshold (c_Scoring cfg)) +:+ " ban=" +:+ Itoa (sg_BanThreshold (c_Scoring cfg)) +:+
      " window=" +:+ Duration_String (sg_ObservationWindow (c_Scoring cfg)) +:+ " debug=" +:+ fmt_bool (lg_Debug (c_Logging cfg)), "info")] ++
  stream_lines cfg ++
  match activeEnvOverrides environ with
  | [] => []
  | vars => [("CONFIG", "env overrides: " +:+ Join vars ", ", "info")]
  end ++
  (if me_Enabled (c_Metrics cfg) then
     let addr := display_addr (me_ListenAddr (c_Metrics cfg)) in
     [("CONFIG", "metrics: http://" +:+ addr +:+ "/metrics  health: http://" +:+ addr +:+ "/health", "info")]
   else []).

Section start.
Context {UP : UnicodePrint} {UL : UnicodeLower} {QM : QueueMode} {V : Validator} {CS : ChannelSwitch} {CO : Colors}.
Context {AC : AhoCorasick} {KV : KVStore} `{IO : IORegistry}.
Context {T : Type} (transport_New : TransportConfig -> string + T) (open_db : string -> option DB).
Context (unmarshal : string -> Config -> string + Config) (env : string -> option string)
  (read : string -> ReadResult).

(** [config.LoadConfig] without its warnings. *)
Definition load_config (path : string) : string + Config :=
  '(cfg, _) ← LoadConfig unmarshal env path (read path); mret cfg.

(** [runValidateSubcommand]: the exit status. *)
Definition runValidateSubcommand (path : string) : Z :=
  match load_config path with
  | inl _ => 1
  | inr cfg => match Wiring.validateConfig cfg with [] => 0 | _ => 1 end
  end.

(** Why main ends before the streams run. *)
Inductive StopReason :=
  | StopConfig (e : string)
  | StopPipelines (errs : list SemanticError)
  | StopFlag (e : string)
  | StopLogger (e : string)
  | StopWarnings (e : string)
  | StopTransport (e : string)
  | StopExecutorQueues (e : string)
  | StopSinkQueues (e : string)
  | StopInboundQueues (e : string)
  | StopStreams (e : string)
  (** A queue without a bucket or key: main panics, its deferred calls run. *)
  | StopQueuePanic
  (** A goroutine of the shared resources panics: nothing is deferred for main. *)
  | StopGoroutinePanic.

Record Started := mkStarted {
  su_path : string;
  su_cfg : Config;
  su_shared : Shared;
  su_transport : option T;
  su_switch : Switch;
  su_specs : list StreamSpec
}.

(** The status, the reason, and what the process leaves behind. *)
Inductive Outcome :=
  | Stopped (status : Z) (why : StopReason) (w : World)
  | Running (s : Started).

(** The version of the build, its environment and PID, and the wall clock of the
    start-up lines. *)
Record ProcInfo := mkProcInfo {
  pr_version : string;
  pr_environ : list string;
  pr_pid : Z;
  pr_local : Time
}.

Definition log_lines (local : Time) (lines : list LogLine) (w : World) : World :=
  foldl (fun w l => Log local l.1.1 l.1.2 l.2 w) w lines.

(** The logger, the PID file ([true]: it was written) and the start-up lines. *)
Definition boot (pr : ProcInfo) (cfg : Config) (w : World) : World * bool :=
  let '(w, err) := writePID (pr_pid pr) (ge_PIDFile (c_General cfg)) w in
  let w := match err with
           | Some e => Log (pr_local pr) "STARTUP" ("failed to write PID file " +:+ ge_PIDFile (c_General cfg) +:+ ": " +:+ e) "warn" w
           | None => w
           end in
  (log_lines (pr_local pr) (startup_lines (pr_version pr) (pr_environ pr) cfg) w, bool_decide (err = None)).

(** The deferred calls of a return before the streams run: [removePID] when the file
    was written, then [utils.Close]. *)
Definition deferred (cfg : Config) (pid : bool) (w : World) : World :=
  Close (if pid then removePID (ge_PIDFile (c_General cfg)) w else w).

(** [os.Exit(1)] after an error line; no deferred call runs. *)
Definition fatal (pr : ProcInfo) (what : string) (why : StopReason) (e : string) (w : World) : Outcome :=
  Stopped 1 why (Log (pr_local pr) "STARTUP" (what +:+ ": " +:+ e) "error" w).

(** Blocklist manager and chain guard; [None]: the warnings log does not open. *)
Definition start_shared (cfg : Config) (w : World) : string + Shared :=
  let blMgr := NewManager open_db (c_Blocklist cfg) in
  if cg_Enabled (c_ChainGuard cfg) then
    match NewWarningsWriter (w_fs w) (cg_WarningsLog (c_ChainGuard cfg)) with
    | inl e => inl e
    | inr (ww, fs) =>
        inr (mkShared (set_fs w fs) blMgr (Some (NewChecker (ToChainCheckConfig (c_ChainGuard cfg)))) (Some ww))
    end
  else inr (mkShared w blMgr None None).

(** The deferred calls when main panics after the shared resources are up: the
    warnings file is closed before the calls of [deferred]. *)
Definition unwind (cfg : Config) (pid : bool) (shared : Shared) : World :=
  let w := sh_log shared in
  deferred cfg pid
    match sh_warnings shared with
    | Some ww => set_fs w (CloseWriter (w_fs w) ww).1
    | None => w
    end.

(** The result of a registration of queues: go on, leave by [os.Exit], or panic. *)
Definition on_registered (pr : ProcInfo) (cfg : Config) (pid : bool) (shared : Shared) (what : string)
    (why : string -> StopReason) (r : Switch * RegResult) (next : Switch -> Outcome) : Outcome :=
  match r with
  | (s, Registered) => next s
  | (_, RegFailed e) => fatal pr what (why e) e (sh_log shared)
  | (_, RegPanics) => Stopped 2 StopQueuePanic (unwind cfg pid shared)
  end.

(** Transport, queues and streams. *)
Definition start_streams (pr : ProcInfo) (path : string) (cfg : Config) (pid : bool) (shared : Shared) (s : Switch) : Outcome :=
  let w := sh_log shared in
  match startTransport transport_New cfg with
  | inl e => fatal pr "transport startup" (StopTransport e) e w
  | inr t =>
      on_registered pr cfg pid shared "executor queue pre-registration" StopExecutorQueues (preRegisterExecutorQueues cfg s) (fun s1 =>
      on_registered pr cfg pid shared "sink queue pre-registration" StopSinkQueues (preRegisterSinkQueues cfg s1) (fun s2 =>
      on_registered pr cfg pid shared "inbound queue pre-registration" StopInboundQueues
        (preRegisterInboundTransportQueues cfg s2) (fun s3 =>
      match adaptConfigToStreams cfg with
      | inl e => fatal pr "stream adaptation error" (StopStreams e) e w
      | inr specs => Running (mkStarted path cfg shared t s3 specs)
      end)))
  end.

(** What main has when the shared resources are up. *)
Record Prepared := mkPrepared {
  pp_path : string;
  pp_cfg : Config;
  pp_pid : bool;
  pp_shared : Shared
}.

(** Main up to the shared resources. [w]: the logger before Init. *)
Definition prepare (pr : ProcInfo) (flags : Flags) (config_env : option string) (w : World) : Outcome + Prepared :=
  let path := daemon_path (fl_config flags) config_env in
  match load_config path with
  | inl e => inl (Stopped 1 (StopConfig e) w)
  | inr cfg =>
      match Wiring.validateConfig cfg with
      | err :: errs => inl (Stopped 1 (StopPipelines (err :: errs)) w)
      | [] =>
          match apply_flags (fl_input flags) (fl_output flags) cfg with
          | inl e => inl (Stopped 1 (StopFlag e) w)
          | inr cfg =>
              match Logging.Init (lg_Debug (c_Logging cfg)) (lg_ConsoleColor (c_Logging cfg))
                      (ou_OperationalLog (c_Output cfg)) "" w with
              | (w, Some e) => inl (Stopped 1 (StopLogger e) w)
              | (w, None) =>
                  let '(w, pid) := boot pr cfg w in
                  match start_shared cfg w with
                  | inl e => inl (Stopped 0 (StopWarnings e)
                               (deferred cfg pid (Log (pr_local pr) "STARTUP" ("failed to open warnings log: " +:+ e) "error" w)))
                  | inr shared => inr (mkPrepared path cfg pid shared)
                  end
              end
          end
      end
  end.

Definition start (pr : ProcInfo) (flags : Flags) (config_env : option string) (w : World) (s : Switch) : Outcome :=
  match prepare pr flags config_env w with
  | inl o => o
  | inr p => start_streams pr (pp_path p) (pp_cfg p) (pp_pid p) (pp_shared p) s
  end.

(** The refresh goroutine of the Cloudflare ranges, launched with the shared
    resources, panics when its period is not positive. *)
Definition refresh_panics (shared : Shared) : Prop :=
  exists c d, sh_chain shared = Some c /\ d ∈ chain_periods c /\ NewTicker d = None.

(** How the process can come out of start-up: as main does, or by the panic of that
    goroutine at any moment after its launch, with whatever main has logged by then. *)
Inductive comes_up (pr : ProcInfo) (flags : Flags) (config_env : option string) (w : World) (s : Switch) : Outcome -> Prop :=
  | up_main : comes_up pr flags config_env w s (start pr flags config_env w s)
  | up_panic p lines : prepare pr flags config_env w = inr p -> refresh_panics (pp_shared p) ->
      comes_up pr flags config_env w s
        (Stopped 2 StopGoroutinePanic (log_lines (pr_local pr) lines (sh_log (pp_shared p)))).

(** ** The cleanup subcommand *)

Record CleanupFlags := mkCleanupFlags {
  cl_CF : bool;
  cl_DryRun : bool;
  cl_InstanceID : string;
  cl_ListID : string;
  cl_CfgPath : string
}.

Section cleanup.
Context {JE : JSONErrors} (Net : Type) (http_do : Net -> string -> string -> string -> option string -> Net * Result string).
Context (files : string -> option string) (rnd : option (list N)).

(** The state of the network and the exit status. *)
Definition handleCleanup (f : CleanupFlags) (net : Net) : Net * Z :=
  if negb (cl_CF f) then (net, 1%Z)
  else match load_config (cl_CfgPath f) with
       | inl _ => (net, 1%Z)
       | inr cfg =>
           match extractCFInfo ((fun ec => (ex_Type ec, ex_Config ec)) <$> c_Executors cfg) with
           | None => (net, 1%Z)
           | Some (apiToken, accountID, listName) =>
               let '(net', r) := @runCFCleanup (cfhttp_client Net http_do (NewHTTPCFClient accountID apiToken)) files rnd
                                   listName (cl_DryRun f) (cl_InstanceID f) (cl_ListID f) net in
               (net', match r with Some _ => 0%Z | None => 1%Z end)
           end
       end.

(** A run of the whole command sends what its dry run sends: no item is deleted. *)
Lemma cleanup_command_dry cf inst lst path net :
  handleCleanup (mkCleanupFlags cf false inst lst path) net = handleCleanup (mkCleanupFlags cf true inst lst path) net.
Proof.
  unfold handleCleanup. cbn. destruct cf; [|done]. cbn. destruct (load_config path) as [e|cfg]; [done|].
  destruct (extractCFInfo _) as [[[tok acc] name]|]; [|done].
  destruct (cloudflare_cleanup_deletes_nothing Net http_do (NewHTTPCFClient acc tok) files rnd name inst lst net) as [He _].
  cbv zeta in He. by rewrite He.
Qed.
End cleanup.

(** ** What start-up needs beyond validation *)

(** A queue of a sentinel-threat output has a name, one of a sentinel input an
    address of the channel scheme, and neither lacks its bucket or key. *)
Definition output_named (o : SinkConfig) : Prop :=
  forall q, sk_Queue o = Some q -> sk_Type o = "sentinel-threat" -> sk_Name o <> "" /\ lacks_namespace q = false.
Definition input_named (i : InputConfig) : Prop :=
  forall q, in_Queue i = Some q -> in_Type i = "sentinel" ->
    (HasPrefix (in_Addr i) "ncs://" = true /\ in_Addr i <> "ncs://") /\ lacks_namespace q = false.

#[local] Instance output_named_dec o : Decision (output_named o).
Proof.
  unfold output_named. destruct (sk_Queue o) as [q|]; [|by left].
  destruct (decide (sk_Type o = "sentinel-threat" -> sk_Name o <> "" /\ lacks_namespace q = false)) as [Hd|Hd];
    [left; by intros ? [= <-]|right; intros Hn; by apply Hd, Hn].
Defined.
#[local] Instance input_named_dec i : Decision (input_named i).
Proof.
  unfold input_named. destruct (in_Queue i) as [q|]; [|by left].
  destruct (decide (in_Type i = "sentinel" -> (HasPrefix (in_Addr i) "ncs://" = true /\ in_Addr i <> "ncs://") /\ lacks_namespace q = false)) as [Hd|Hd];
    [left; by intros ? [= <-]|right; intros Hn; by apply Hd, Hn].
Defined.

Definition queues_named (cfg : Config) : Prop :=
  Forall output_named (c_Outputs cfg) /\ Forall input_named (c_Inputs cfg) /\
  Forall (fun s => Forall output_named (st_Outputs s) /\ Forall input_named (st_Inputs s) /\
    Forall (fun p => Forall output_named (pl_Outputs p) /\ Forall input_named (pl_Inputs p)) (st_Pipelines s))
    (c_Streams cfg).

(** No channel is both fed by another node and backed by a queue of this one. *)
Definition channels_unmixed (cfg : Config) : Prop :=
  forall a b, a ∈ executor_sources cfg -> b ∈ executor_sources cfg -> esr_Name a = esr_Name b ->
    is_remote a = true -> is_Some (esr_Queue b) -> is_remote b = true.

(** The environment accepts the configuration; [w] is the state before start-up. *)
Record startable (cfg : Config) (w : World) : Prop := {
  sa_plugins : plugins_available cfg;
  sa_formats : ~ misused_format cfg;
  sa_named : queues_named cfg;
  sa_unmixed : channels_unmixed cfg;
  sa_switch : forall n q s, (RegisterSinkFromConfig n q s).2 = None;
  sa_transport : tr_Enabled (c_Transport cfg) = true -> exists t, transport_New (c_Transport cfg) = inr t;
  sa_warnings : cg_Enabled (c_ChainGuard cfg) = true -> fs_open_err (w_fs w) !! cg_WarningsLog (c_ChainGuard cfg) = None
}.

(** *** Registration never fails *)

Section accept.
Hypothesis accepts : forall n q s, (RegisterSinkFromConfig n q s).2 = None.

Lemma register_accepted pre n q s : lacks_namespace q = false -> exists s', registration pre n q s = (s', Registered).
Proof.
  intros Hq. unfold registration. rewrite Hq. specialize (accepts n q s).
  destruct (RegisterSinkFromConfig n q s) as [s' r]. cbn in accepts. subst. by exists s'.
Qed.

Lemma register_all_accepted l s : Forall (fun x => lacks_namespace x.2 = false) l -> exists s', register_all l s = (s', Registered).
Proof.
  intros Hl. revert s. induction Hl as [|[[pre n] q] l Hq _ IH]; intros s; cbn; [by eexists|].
  destruct (register_accepted pre n q s Hq) as [s' ->]. apply IH.
Qed.

Lemma register_outputs_accepted loc i outs s : Forall output_named outs ->
  exists s', register_outputs loc i outs s = (s', Registered).
Proof.
  intros Hn. revert i s. induction Hn as [|o outs Ho _ IH]; intros i s; cbn; [by eexists|].
  destruct (String.eqb_spec (sk_Type o) "sentinel-threat") as [Ht|]; [|apply IH].
  destruct (sk_Queue o) as [q|] eqn:Eq; [|apply IH]. destruct (Ho q Eq Ht) as [->%String.eqb_neq Hq].
  edestruct register_accepted as [s' ->]; [exact Hq|]. apply IH.
Qed.

Lemma sentinel_name_ok addr : HasPrefix addr "ncs://" = true -> addr <> "ncs://" ->
  exists name, sentinelQueueName addr = inr name.
Proof.
  intros Hp Hn. unfold sentinelQueueName. rewrite Hp. apply HasPrefix_spec in Hp as [r ->]. cbn [negb].
  rewrite TrimPrefix_app. destruct (String.eqb_spec r "") as [->|]; [done|by eexists].
Qed.

Lemma register_inputs_accepted loc i ins s : Forall input_named ins ->
  exists s', register_inputs loc i ins s = (s', Registered).
Proof.
  intros Hn. revert i s. induction Hn as [|x ins Hx _ IH]; intros i s; cbn; [by eexists|].
  destruct (String.eqb_spec (in_Type x) "sentinel") as [Ht|]; [|apply IH].
  destruct (in_Queue x) as [q|] eqn:Eq; [|apply IH].
  destruct (Hx q Eq Ht) as [[Hp Ha] Hq]. destruct (sentinel_name_ok _ Hp Ha) as [n ->].
  edestruct register_accepted as [s' ->]; [exact Hq|]. apply IH.
Qed.

Lemma for_range_accepted {A} (P : A -> Prop) f i (l : list A) s : Forall P l ->
  (forall i x s, P x -> exists s', f i x s = (s', Registered)) -> exists s', for_range f i l s = (s', Registered).
Proof.
  intros Hl Hf. revert i s. induction Hl as [|x l Hx _ IH]; intros i s; cbn; [by eexists|].
  destruct (Hf i x s Hx) as [s' ->]. apply IH.
Qed.

Lemma sink_queues_accepted cfg s : queues_named cfg -> exists s', preRegisterSinkQueues cfg s = (s', Registered).
Proof.
  intros (Ho & _ & Hs). unfold preRegisterSinkQueues.
  destruct (register_outputs_accepted "outputs" 0 _ s Ho) as [s1 ->]. cbn [andThen].
  eapply for_range_accepted; [exact Hs|]. intros i st s2 (Hso & _ & Hp).
  edestruct register_outputs_accepted as [s3 ->]; [exact Hso|]. cbn [andThen].
  eapply for_range_accepted; [exact Hp|]. intros j p s4 [Hpo _]. by apply register_outputs_accepted.
Qed.

Lemma inbound_queues_accepted cfg s : queues_named cfg ->
  exists s', preRegisterInboundTransportQueues cfg s = (s', Registered).
Proof.
  intros (_ & Hi & Hs). unfold preRegisterInboundTransportQueues.
  destruct (register_inputs_accepted "inputs" 0 _ s Hi) as [s1 ->]. cbn [andThen].
  eapply for_range_accepted; [exact Hs|]. intros i st s2 (_ & Hsi & Hp).
  edestruct register_inputs_accepted as [s3 ->]; [exact Hsi|]. cbn [andThen].
  eapply for_range_accepted; [exact Hp|]. intros j p s4 [_ Hpi]. by apply register_inputs_accepted.
Qed.
End accept.

(** *** Files during start-up *)

(** Names are only added, and what fails stays the same. *)
Record grows (fs fs' : FS) : Prop := {
  gr_open : fs_open_err fs' = fs_open_err fs;
  gr_write : fs_write_err fs' = fs_write_err fs;
  gr_names : forall p, is_Some (fs_names fs !! p) -> is_Some (fs_names fs' !! p)
}.

#[local] Instance grows_preorder : PreOrder grows.
Proof. split; [done|]. intros a b c [? ? ?] [? ? ?]. split; [congruence..|auto]. Qed.

Lemma OpenFile_grows fs path f fs' : OpenFile fs path = inr (f, fs') ->
  grows fs fs' /\ is_Some (fs_names fs' !! path) /\ is_Some (fs_fds fs' !! f).
Proof.
  unfold OpenFile. destruct (fs_open_err fs !! path); [done|]. destruct (fs_names fs !! path) as [i|] eqn:E; intros [= <- <-].
  - split; [done|]. cbn. rewrite E, lookup_insert_eq. eauto.
  - cbn. rewrite !lookup_insert_eq. split; [|eauto]. split; [done..|]. cbn. intros p [j Hp].
    destruct (decide (p = path)) as [->|Hne]; [by rewrite lookup_insert_eq|]. rewrite lookup_insert_ne by done. eauto.
Qed.

Lemma OpenFile_ok fs path : fs_open_err fs !! path = None -> exists f fs', OpenFile fs path = inr (f, fs').
Proof. unfold OpenFile. intros ->. destruct (fs_names fs !! path); eauto. Qed.

Lemma WriteLine_grows fs f line fs' : WriteLine fs f line = inr fs' -> grows fs fs'.
Proof. unfold WriteLine. destruct f as [f|]; [|done]. destruct (fs_fds fs !! f); [|done]. destruct (fs_write_err fs); [done|]. by intros [= <-]. Qed.

Lemma CloseFile_grows fs f : grows fs (CloseFile fs f).
Proof. by destruct f. Qed.

Lemma Log_grows local tag msg level w : grows (w_fs w) (w_fs (Log local tag msg level w)).
Proof.
  unfold Log. destruct (suppressed _ _ _); [done|]. cbn. unfold log_file. destruct (w_oper w) as [f|]; [|done].
  destruct (WriteLine _ _ _) eqn:E; [done|]. by apply WriteLine_grows in E.
Qed.

Lemma log_lines_grows local lines w : grows (w_fs w) (w_fs (log_lines local lines w)).
Proof.
  revert w. induction lines as [|l lines IH]; intros w; [done|]. etransitivity; [|apply IH]. apply Log_grows.
Qed.

Lemma Init_grows debug color op w : grows (w_fs w) (w_fs (Logging.Init debug color op "" w).1).
Proof.
  unfold Logging.Init. cbn. destruct (ensureDir _ _); [done|]. destruct (OpenFile (w_fs w) op) as [e|[f fs]] eqn:E; [done|].
  cbn. by apply OpenFile_grows in E as [? _].
Qed.

Lemma WriteFile_grows fs path line : grows fs (WriteFile fs path line).1 /\
  (fs_open_err fs !! path = None -> fs_write_err fs = None ->
   (WriteFile fs path line).2 = None /\ is_Some (fs_names (WriteFile fs path line).1 !! path)).
Proof.
  unfold WriteFile. destruct (OpenFile fs path) as [e|[f fs1]] eqn:E.
  - split; [done|]. intros Ho. unfold OpenFile in E. rewrite Ho in E. by destruct (fs_names fs !! path).
  - destruct (OpenFile_grows _ _ _ _ E) as (Hg & Hn & [i Hi]). rewrite Hi.
    set (fs2 := with_data fs1 _). assert (Hg2 : grows fs fs2) by (destruct Hg; by split).
    destruct (WriteLine fs2 (Some f) line) as [e|fs3] eqn:Ew; cbn.
    + split; [etransitivity; [exact Hg2|apply (CloseFile_grows fs2 (Some f))]|]. intros _ Hw. unfold WriteLine in Ew. change (fs_fds fs2 !! f) with (fs_fds fs1 !! f) in Ew.
      rewrite Hi, (gr_write _ _ Hg2), Hw in Ew. done.
    + pose proof (WriteLine_grows _ _ _ _ Ew) as Hg3. split; [do 2 (etransitivity; [eassumption|]); apply (CloseFile_grows fs3 (Some f))|]. intros _ _. split; [done|]. by apply (gr_names _ _ Hg3).
Qed.

Lemma boot_spec pr cfg w : let '(w', pid) := boot pr cfg w in
  grows (w_fs w) (w_fs w') /\
  (fs_open_err (w_fs w) !! ge_PIDFile (c_General cfg) = None -> fs_write_err (w_fs w) = None ->
   pid = true /\ is_Some (fs_names (w_fs w') !! ge_PIDFile (c_General cfg))).
Proof.
  unfold boot, writePID. pose proof (WriteFile_grows (w_fs w) (ge_PIDFile (c_General cfg)) (Itoa (pr_pid pr))) as [Hg Hp].
  destruct (WriteFile _ _ _) as [fs err]. cbn in Hg, Hp. split.
  - etransitivity; [|apply log_lines_grows]. destruct err; [|exact Hg]. etransitivity; [exact Hg|]. apply (Log_grows _ _ _ _ (set_fs w fs)).
  - intros Ho Hw. destruct (Hp Ho Hw) as [-> Hn]. split; [done|]. by apply (gr_names _ _ (log_lines_grows _ _ (set_fs w fs))).
Qed.

Lemma start_shared_grows cfg w shared : start_shared cfg w = inr shared -> grows (w_fs w) (w_fs (sh_log shared)).
Proof.
  unfold start_shared. destruct (cg_Enabled _); [|by intros [= <-]]. unfold NewWarningsWriter.
  destruct (OpenFile _ _) as [e|[f fs]] eqn:E; [done|]. intros [= <-]. by apply OpenFile_grows in E as [? _].
Qed.

Lemma start_shared_ok cfg w : (cg_Enabled (c_ChainGuard cfg) = true -> fs_open_err (w_fs w) !! cg_WarningsLog (c_ChainGuard cfg) = None) ->
  exists shared, start_shared cfg w = inr shared /\
    (is_Some (sh_chain shared) <-> cg_Enabled (c_ChainGuard cfg) = true) /\
    (is_Some (sh_warnings shared) <-> cg_Enabled (c_ChainGuard cfg) = true).
Proof.
  intros Hw. unfold start_shared, NewWarningsWriter. destruct (cg_Enabled (c_ChainGuard cfg)).
  - destruct (OpenFile_ok _ _ (Hw eq_refl)) as (f & fs & ->). eexists. split; [done|]. cbn. by rewrite !is_Some_alt.
  - eexists. split; [done|]. cbn. by rewrite !is_Some_alt.
Qed.

Lemma deferred_names cfg w : fs_names (w_fs (deferred cfg true w)) = delete (ge_PIDFile (c_General cfg)) (fs_names (w_fs w)).
Proof. unfold deferred, Close, swap_writers, close_files. cbn. by destruct (w_oper w), (w_threat w). Qed.

Lemma apply_flags_general i o cfg cfg' : apply_flags i o cfg = inr cfg' -> c_General cfg' = c_General cfg.
Proof.
  unfold apply_flags. destruct (_ && _)%bool; [by intros [= <-]|]. by intros (outs & _ & [= <-])%bind_ok.
Qed.

(** *** The pieces of [start] *)

Lemma Init_no_error debug color op w : (Logging.Init debug color op "" w).2 = None.
Proof. done. Qed.

Lemma load_config_well_formed path cfg : load_config path = inr cfg -> config_wf cfg.
Proof.
  unfold load_config. intros ([c ws] & Hl & [= <-])%bind_ok. unfold LoadConfig in Hl.
  apply bind_ok in Hl as (c0 & _ & Hf). by apply finish_config_ok in Hf as (_ & _ & _ & _ & Hwf).
Qed.

Lemma validate_subcommand_ok path : runValidateSubcommand path = 0%Z <->
  exists cfg, load_config path = inr cfg /\ Wiring.validateConfig cfg = [].
Proof.
  unfold runValidateSubcommand. destruct (load_config path) as [e|cfg]; [split; [done|by intros (? & ? & _)]|].
  destruct (Wiring.validateConfig cfg) as [|er ers] eqn:E; split; try done; [by exists cfg|].
  intros (c & [= ->] & Hv). congruence.
Qed.

Lemma daemon_path_flag path config_env : path <> "" -> daemon_path path config_env = path.
Proof. intros Hp%String.eqb_neq. unfold daemon_path. by rewrite Hp. Qed.

Lemma validate_path_flag path : validate_path configPath ["--config=" +:+ path] = path.
Proof.
  cbn [validate_path]. assert (Hpre : HasPrefix ("--config=" +:+ path) "--config=" = true) by (apply HasPrefix_spec; by exists path).
  by rewrite Hpre, TrimPrefix_app.
Qed.

Lemma start_streams_runs pr path cfg pid shared s w : config_wf cfg -> Wiring.validateConfig cfg = [] -> startable cfg w ->
  exists t s3 specs, start_streams pr path cfg pid shared s = Running (mkStarted path cfg shared t s3 specs) /\
    (is_Some t <-> tr_Enabled (c_Transport cfg) = true) /\ Forall2 (spec_of_stream cfg) (c_Streams cfg) specs.
Proof.
  intros Hwf Hv [Hpl Hfm Hqn Hmx Hsw Htr _]. unfold start_streams.
  assert (Ht : exists t, startTransport transport_New cfg = inr t /\ (is_Some t <-> tr_Enabled (c_Transport cfg) = true)).
  { unfold startTransport. destruct (tr_Enabled (c_Transport cfg)); cbn.
    - destruct Htr as [t ->]; [done|]. cbn. by exists (Some t).
    - exists None. split; [done|]. split; [by intros []|done]. }
  destruct Ht as (t & -> & Ht). rewrite (startup_checks_agree cfg s) by done.
  destruct (register_all_accepted Hsw (executor_registrations cfg) s) as [s1 ->]; [apply executor_registrations_named|]. cbn [on_registered].
  destruct (sink_queues_accepted Hsw cfg s1 Hqn) as [s2 ->]. cbn [on_registered].
  destruct (inbound_queues_accepted Hsw cfg s2 Hqn) as [s3 ->]. cbn [on_registered].
  destruct (validated_config_adapts cfg Hwf Hpl Hfm) as (specs & -> & Hsp). by exists t, s3, specs.
Qed.

(** The reasons that are found by what validate runs. *)
Definition by_validation (why : StopReason) : Prop :=
  match why with StopConfig _ | StopPipelines _ => True | _ => False end.

(** The failures that leave by [os.Exit] after the PID file was written. *)
Definition late (why : StopReason) : Prop :=
  match why with
  | StopTransport _ | StopExecutorQueues _ | StopSinkQueues _ | StopInboundQueues _ | StopStreams _ => True
  | _ => False
  end.

(** *** Queues without a bucket or key *)

Definition all_outputs (cfg : Config) : list SinkConfig :=
  c_Outputs cfg ++ (c_Streams cfg ≫= (fun s => st_Outputs s ++ (st_Pipelines s ≫= pl_Outputs))).
Definition all_inputs (cfg : Config) : list InputConfig :=
  c_Inputs cfg ++ (c_Streams cfg ≫= (fun s => st_Inputs s ++ (st_Pipelines s ≫= pl_Inputs))).

Definition output_panics (o : SinkConfig) : Prop :=
  sk_Type o = "sentinel-threat" /\ exists q, sk_Queue o = Some q /\ lacks_namespace q = true.
Definition input_panics (i : InputConfig) : Prop :=
  in_Type i = "sentinel" /\ exists q, in_Queue i = Some q /\ lacks_namespace q = true.

Definition unnamed_queue (cfg : Config) : Prop :=
  (exists o, o ∈ all_outputs cfg /\ output_panics o) \/ (exists i, i ∈ all_inputs cfg /\ input_panics i).

Lemma registration_panics pre n q s s' : registration pre n q s = (s', RegPanics) -> lacks_namespace q = true.
Proof. unfold registration. destruct (lacks_namespace q); [done|]. by destruct (RegisterSinkFromConfig n q s) as [? []]. Qed.

Lemma andThen_panics m f s' : andThen m f = (s', RegPanics) ->
  m = (s', RegPanics) \/ exists s, m = (s, Registered) /\ f s = (s', RegPanics).
Proof. unfold andThen. destruct m as [s []]; [right; by exists s|by left..]. Qed.

Lemma register_outputs_panics loc i outs s s' : register_outputs loc i outs s = (s', RegPanics) ->
  exists o, o ∈ outs /\ output_panics o.
Proof.
  revert i s. induction outs as [|o outs IH]; intros i s; cbn; [done|].
  assert (Hrec : forall i s, register_outputs loc i outs s = (s', RegPanics) -> exists x, x ∈ o :: outs /\ output_panics x).
  { intros i' s0 Hp. destruct (IH _ _ Hp) as (x & Hx & ?). exists x. split; [by right|done]. }
  destruct (String.eqb_spec (sk_Type o) "sentinel-threat") as [Ht|]; [|apply Hrec].
  destruct (sk_Queue o) as [q|] eqn:Eq; [|apply Hrec]. destruct (empty (sk_Name o)); [done|].
  intros [Hp%registration_panics|(s1 & _ & Hp)]%andThen_panics; [|by eapply Hrec].
  exists o. split; [left|]. split; [done|]. by exists q.
Qed.

Lemma register_inputs_panics loc i ins s s' : register_inputs loc i ins s = (s', RegPanics) ->
  exists x, x ∈ ins /\ input_panics x.
Proof.
  revert i s. induction ins as [|y ins IH]; intros i s; cbn; [done|].
  assert (Hrec : forall i s, register_inputs loc i ins s = (s', RegPanics) -> exists x, x ∈ y :: ins /\ input_panics x).
  { intros i' s0 Hp. destruct (IH _ _ Hp) as (x & Hx & ?). exists x. split; [by right|done]. }
  destruct (String.eqb_spec (in_Type y) "sentinel") as [Ht|]; [|apply Hrec].
  destruct (in_Queue y) as [q|] eqn:Eq; [|apply Hrec]. destruct (sentinelQueueName _) as [e|n]; [done|].
  intros [Hp%registration_panics|(s1 & _ & Hp)]%andThen_panics; [|by eapply Hrec].
  exists y. split; [left|]. split; [done|]. by exists q.
Qed.

Lemma for_range_panics {A B} (f : nat -> A -> Switch -> Switch * RegResult) (g : A -> list B) (P : B -> Prop) i l s s' :
  (forall i x s, f i x s = (s', RegPanics) -> exists y, y ∈ g x /\ P y) ->
  for_range f i l s = (s', RegPanics) -> exists y, y ∈ l ≫= g /\ P y.
Proof.
  intros Hf. revert i s. induction l as [|x l IH]; intros i s; cbn; [done|].
  intros [(y & Hy & ?)%Hf|(s1 & _ & (y & Hy & ?)%IH)]%andThen_panics; exists y; (split; [apply elem_of_app; tauto|done]).
Qed.

Lemma sink_queues_panic cfg s s' : preRegisterSinkQueues cfg s = (s', RegPanics) -> unnamed_queue cfg.
Proof.
  intros Hp. left. unfold preRegisterSinkQueues in Hp. unfold all_outputs.
  apply andThen_panics in Hp as [(o & Ho & ?)%register_outputs_panics|(s1 & _ & Hp)]; [exists o; rewrite elem_of_app; auto|].
  eapply for_range_panics in Hp as (o & Ho & ?); [exists o; split; [apply elem_of_app; right; exact Ho|done]|].
  intros i st s2 Hq. apply andThen_panics in Hq as [(o & Ho & ?)%register_outputs_panics|(s3 & _ & Hq)]; [exists o; rewrite elem_of_app; auto|].
  eapply for_range_panics in Hq as (o & Ho & ?); [exists o; split; [apply elem_of_app; right; exact Ho|done]|].
  intros j p s4 Hr. by eapply register_outputs_panics.
Qed.

Lemma inbound_queues_panic cfg s s' : preRegisterInboundTransportQueues cfg s = (s', RegPanics) -> unnamed_queue cfg.
Proof.
  intros Hp. right. unfold preRegisterInboundTransportQueues in Hp. unfold all_inputs.
  apply andThen_panics in Hp as [(o & Ho & ?)%register_inputs_panics|(s1 & _ & Hp)]; [exists o; rewrite elem_of_app; auto|].
  eapply for_range_panics in Hp as (o & Ho & ?); [exists o; split; [apply elem_of_app; right; exact Ho|done]|].
  intros i st s2 Hq. apply andThen_panics in Hq as [(o & Ho & ?)%register_inputs_panics|(s3 & _ & Hq)]; [exists o; rewrite elem_of_app; auto|].
  eapply for_range_panics in Hq as (o & Ho & ?); [exists o; split; [apply elem_of_app; right; exact Ho|done]|].
  intros j p s4 Hr. by eapply register_inputs_panics.
Qed.

(** *** The two halves of [start] *)

(** What main has achieved when the shared resources are up. *)
Lemma prepare_ready pr flags config_env w p : prepare pr flags config_env w = inr p ->
  exists cfg, load_config (daemon_path (fl_config flags) config_env) = inr cfg /\ c_General (pp_cfg p) = c_General cfg /\
    (exists w2, start_shared (pp_cfg p) w2 = inr (pp_shared p)) /\
    (fs_open_err (w_fs w) !! ge_PIDFile (c_General cfg) = None -> fs_write_err (w_fs w) = None ->
       pp_pid p = true /\ is_Some (fs_names (w_fs (sh_log (pp_shared p))) !! ge_PIDFile (c_General cfg))).
Proof.
  unfold prepare. destruct (load_config _) as [e|cfg]; [done|]. destruct (Wiring.validateConfig cfg) as [|er ers]; [|done].
  destruct (apply_flags _ _ cfg) as [e|cfg1] eqn:Ef; [done|]. apply apply_flags_general in Ef.
  pose proof (Init_grows (lg_Debug (c_Logging cfg1)) (lg_ConsoleColor (c_Logging cfg1)) (ou_OperationalLog (c_Output cfg1)) w) as Hg.
  destruct (Logging.Init _ _ _ _ _) as [w1 [e|]]; [done|]. cbn in Hg.
  pose proof (boot_spec pr cfg1 w1) as Hb. destruct (boot pr cfg1 w1) as [w2 pid]. destruct Hb as [_ Hpid].
  destruct (start_shared cfg1 w2) as [e|shared] eqn:Es; [done|]. intros [= <-]. exists cfg. cbn. split; [done|]. split; [done|].
  split; [eauto|]. rewrite (gr_open _ _ Hg), (gr_write _ _ Hg), Ef in Hpid. intros Ho Hw. destruct (Hpid Ho Hw) as [-> Hn].
  split; [done|]. by apply (gr_names _ _ (start_shared_grows _ _ _ Es)).
Qed.

(** How main can stop before that. *)
Lemma prepare_stops pr flags config_env w status why w' : prepare pr flags config_env w = inl (Stopped status why w') ->
  (status = 1%Z /\ w' = w /\ match why with StopConfig _ | StopPipelines _ | StopFlag _ => True | _ => False end) \/
  (status = 0%Z /\ (exists e, why = StopWarnings e) /\
   forall cfg, load_config (daemon_path (fl_config flags) config_env) = inr cfg ->
     fs_open_err (w_fs w) !! ge_PIDFile (c_General cfg) = None -> fs_write_err (w_fs w) = None ->
     fs_names (w_fs w') !! ge_PIDFile (c_General cfg) = None).
Proof.
  unfold prepare. destruct (load_config _) as [e|cfg]; [intros [= <- <- <-]; by left|].
  destruct (Wiring.validateConfig cfg) as [|er ers]; [|intros [= <- <- <-]; by left].
  destruct (apply_flags _ _ cfg) as [e|cfg1] eqn:Ef; [intros [= <- <- <-]; by left|]. apply apply_flags_general in Ef.
  pose proof (Init_no_error (lg_Debug (c_Logging cfg1)) (lg_ConsoleColor (c_Logging cfg1)) (ou_OperationalLog (c_Output cfg1)) w) as Hi.
  pose proof (Init_grows (lg_Debug (c_Logging cfg1)) (lg_ConsoleColor (c_Logging cfg1)) (ou_OperationalLog (c_Output cfg1)) w) as Hg.
  destruct (Logging.Init _ _ _ _ _) as [w1 r]. cbn in Hi, Hg. subst r.
  pose proof (boot_spec pr cfg1 w1) as Hb. destruct (boot pr cfg1 w1) as [w2 pid]. destruct Hb as [_ Hpid].
  destruct (start_shared cfg1 w2) as [e|shared] eqn:Es; [|done]. intros [= <- <- <-]. right. split; [done|]. split; [eauto|].
  intros c [= <-]. rewrite (gr_open _ _ Hg), (gr_write _ _ Hg), Ef in Hpid. intros Ho Hw. destruct (Hpid Ho Hw) as [-> _].
  rewrite deferred_names, Ef. apply lookup_delete_eq.
Qed.

Lemma unwind_names cfg shared : fs_names (w_fs (unwind cfg true shared)) !! ge_PIDFile (c_General cfg) = None.
Proof. unfold unwind. rewrite deferred_names. apply lookup_delete_eq. Qed.

Lemma start_streams_stops pr path cfg pid shared s status why w' : start_streams pr path cfg pid shared s = Stopped status why w' ->
  (status = 1%Z /\ late why /\ grows (w_fs (sh_log shared)) (w_fs w')) \/
  (status = 2%Z /\ why = StopQueuePanic /\ w' = unwind cfg pid shared /\ unnamed_queue cfg).
Proof.
  unfold start_streams.
  assert (Hfatal : forall what y e, late y -> fatal pr what y e (sh_log shared) = Stopped status why w' ->
    status = 1%Z /\ late why /\ grows (w_fs (sh_log shared)) (w_fs w')).
  { unfold fatal. intros what y e Hy [= <- <- <-]. split; [done|]. split; [done|]. apply Log_grows. }
  destruct (startTransport _ _) as [e|t]; [intros Hs; left; by refine (Hfatal _ _ _ _ Hs)|].
  destruct (preRegisterExecutorQueues cfg s) as [s1 []] eqn:E1; cbn [on_registered]; [|intros Hs; left; by refine (Hfatal _ _ _ _ Hs)|].
  2: { unfold preRegisterExecutorQueues in E1. destruct (check_wiring _ _); [done|].
       pose proof (register_all_returns _ s (executor_registrations_named cfg)) as Hn. by rewrite E1 in Hn. }
  destruct (preRegisterSinkQueues cfg s1) as [s2 []] eqn:E2; cbn [on_registered]; [|intros Hs; left; by refine (Hfatal _ _ _ _ Hs)|].
  2: { intros [= <- <- <-]. right. by apply sink_queues_panic in E2. }
  destruct (preRegisterInboundTransportQueues cfg s2) as [s3 []] eqn:E3; cbn [on_registered]; [|intros Hs; left; by refine (Hfatal _ _ _ _ Hs)|].
  2: { intros [= <- <- <-]. right. by apply inbound_queues_panic in E3. }
  destruct (adaptConfigToStreams cfg); [intros Hs; left; by refine (Hfatal _ _ _ _ Hs)|done].
Qed.

(** The goroutine panics only for a refresh interval that is not positive. *)
Lemma refresh_panics_cause cfg w shared : start_shared cfg w = inr shared -> refresh_panics shared ->
  let g := c_ChainGuard cfg in
  cg_Enabled g = true /\ cgc_Enabled (cg_Cloudflare g) = true /\ (cgc_RefreshInterval (cg_Cloudflare g) <= 0)%Z.
Proof.
  intros Hs (c & d & Hc & Hd & Hn) g. revert Hs. unfold start_shared. fold g. destruct (cg_Enabled g); [|by intros [= <-]].
  destruct (NewWarningsWriter _ _) as [e|[ww fs]]; [done|]. intros [= <-]. cbn [sh_chain] in Hc. injection Hc as <-.
  split; [done|]. unfold chain_periods, NewChecker in Hd. cbn [ck_cf] in Hd.
  change (cf_Enabled (cc_Cloudflare (ToChainCheckConfig g))) with (cgc_Enabled (cg_Cloudflare g)) in Hd.
  destruct (cgc_Enabled (cg_Cloudflare g)) eqn:Ee; [|by apply elem_of_nil in Hd]. split; [done|].
  assert (Hr : NewTicker (cgc_RefreshInterval (cg_Cloudflare g)) = None).
  { revert Hd. unfold NewCloudflareChecker.
    change (cf_Enabled (cc_Cloudflare (ToChainCheckConfig g))) with (cgc_Enabled (cg_Cloudflare g)). rewrite Ee.
    unfold startRefreshLoop. cbn [cf_running cf_cfg]. intros ->%list_elem_of_singleton. exact Hn. }
  unfold NewTicker in Hr. by destruct (Z.leb_spec (cgc_RefreshInterval (cg_Cloudflare g)) 0).
Qed.


(** C30: How start-up can end. The status is 0 only when the warnings log cannot be opened, where main returns and the service manager sees a clean stop; it is 2 when something panics: main itself, only for an embedded queue without a bucket or a Redis queue without a key at a sentinel-threat output or sentinel input, or the refresh goroutine of the Cloudflare ranges, only for an enabled guard with a refresh interval that is not positive; every other failure exits with status 1. The logger never fails, since the threat log is not opened here; a configuration, pipeline or flag error leaves files and logs as they were. Of a PID file that could be written, the early return and the panic of main remove the name again, while a failure of the transport, of a queue or of a stream, which leaves by os.Exit, and the panic of the goroutine leave the file behind. *)
Theorem startup_exit_status pr flags config_env w s status why w' :
  comes_up pr flags config_env w s (Stopped status why w') ->
  (status = 0%Z \/ status = 1%Z \/ status = 2%Z) /\
  (status = 0%Z <-> exists e, why = StopWarnings e) /\
  (status = 2%Z <-> why = StopQueuePanic \/ why = StopGoroutinePanic) /\
  (why = StopQueuePanic -> exists p, prepare pr flags config_env w = inr p /\ unnamed_queue (pp_cfg p)) /\
  (why = StopGoroutinePanic -> exists p, prepare pr flags config_env w = inr p /\
     let g := c_ChainGuard (pp_cfg p) in
     cg_Enabled g = true /\ cgc_Enabled (cg_Cloudflare g) = true /\ (cgc_RefreshInterval (cg_Cloudflare g) <= 0)%Z) /\
  (forall e, why <> StopLogger e) /\
  (~ late why -> status = 1%Z -> w' = w) /\
  (forall cfg, load_config (daemon_path (fl_config flags) config_env) = inr cfg ->
     fs_open_err (w_fs w) !! ge_PIDFile (c_General cfg) = None -> fs_write_err (w_fs w) = None ->
     (late why \/ why = StopGoroutinePanic -> is_Some (fs_names (w_fs w') !! ge_PIDFile (c_General cfg))) /\
     (status = 0%Z \/ why = StopQueuePanic -> fs_names (w_fs w') !! ge_PIDFile (c_General cfg) = None)).
Proof.
  intros Hup. inversion Hup as [Hs|p lines Hp Hr]; subst.
  - unfold start in Hs. destruct (prepare pr flags config_env w) as [o|p] eqn:Hp.
    + subst o. symmetry in Hs || idtac. apply prepare_stops in Hp as [(-> & -> & Hy)|(-> & [e ->] & Hpid)].
      * destruct why; try done; split_and!; try done; try (by auto); try (by split; [done|naive_solver]);
          intros c _ _ _; (split; [intros [?|?]; done|intros [?|?]; done]).
      * split_and!; try done; [by left|split; [by intros _; exists e|done]|by split; [|intros []]|]. intros c Hc Ho Hw.
        split; [by intros []|]. intros _. by apply Hpid.
    + destruct (prepare_ready _ _ _ _ _ Hp) as (cfg & Hl & Hgen & _ & Hpid).
      apply start_streams_stops in Hs as [(-> & Hlate & Hg)|(-> & -> & -> & Hq)].
      * destruct why; try done; split_and!; try done; try (by auto); try (by split; [done|naive_solver]);
          intros c Hc Ho Hw; rewrite Hl in Hc; injection Hc as <-; (split; [|intros [?|?]; done]);
          intros _; apply (gr_names _ _ Hg); by apply Hpid.
      * split_and!; try done; [by auto|split; [done|by intros [e ?]]|by split; [auto|]|by exists p|]. intros c Hc Ho Hw.
        rewrite Hl in Hc. injection Hc as <-. split; [by intros []|]. intros _. destruct (Hpid Ho Hw) as [-> _].
        rewrite <- Hgen. apply unwind_names.
  - destruct (prepare_ready _ _ _ _ _ Hp) as (cfg & Hl & Hgen & [w2 Hsh] & Hpid).
    split_and!; try done; [by auto|split; [done|by intros [e ?]]|by split; [auto|]| |].
    + intros _. exists p. split; [done|]. by eapply refresh_panics_cause.
    + intros c Hc Ho Hw. rewrite Hl in Hc. injection Hc as <-. split; [|by intros []]. intros _.
      apply (gr_names _ _ (log_lines_grows _ lines _)). by apply Hpid.
Qed.
End start.

(** ** Witnesses *)

Section witnesses.
#[local] Existing Instance output_named_dec.
#[local] Existing Instance input_named_dec.
(** A decoder that returns a file with a stream, a named channel and an executor. *)
Definition ex_unmarshal (_ : string) (_ : Config) : string + Config :=
  inr (ex_config [ex_sentinel "bans"; sink_literal "stdout" "" "json"] "bans").

Abbreviation load' := (@load_config ConfigLoad.ex_print ex_lower ex_queue_mode ex_unmarshal (fun _ => None) (fun _ => ReadData "")).
Abbreviation load_with decode := (@load_config ConfigLoad.ex_print ex_lower ex_queue_mode decode (fun _ => None) (fun _ => ReadData "")).
Definition ex_process : ProcInfo := mkProcInfo "dev" ["HOME=/root"; "ARXSENTINEL_LOGGING_DEBUG=true"] 4711 (of_unix 1775399592).
Abbreviation start_with decode := (@start ConfigLoad.ex_print ex_lower ex_queue_mode ex_validator ex_switch ex_colors ex_aho ex_kv
  ex_parsers ex_registry unit (fun _ => inr tt) (fun _ => Some ∅) decode (fun _ => None) (fun _ => ReadData "")).

Definition ex_loaded : Config := match load' "/etc/a.yaml" with inr c => c | inl _ => defaultConfig end.

Lemma ex_startable : @startable ConfigLoad.ex_print ex_queue_mode ex_switch ex_parsers ex_registry unit (fun _ => inr tt)
  ex_loaded (start_world ex_fs).
Proof.
  split.
  - split; [intros s p i Hs Hp Hi|intros s p o f Hs Hp Ho; by eexists]. vm_compute in Hs.
    apply list_elem_of_singleton in Hs as ->. apply list_elem_of_singleton in Hp as ->.
    apply list_elem_of_singleton in Hi as ->. by eexists.
  - intros (s & p & o & Hs & Hp & Ho & Hf & Ht). vm_compute in Hs. apply list_elem_of_singleton in Hs as ->.
    apply list_elem_of_singleton in Hp as ->. cbn in Ho. apply elem_of_cons in Ho as [->|Ho]; [done|].
    apply list_elem_of_singleton in Ho as ->. done.
  - unfold queues_named. apply (bool_decide_unpack _). vm_compute. exact I.
  - intros a b Ha Hb Hn Hr _. vm_compute in Ha. apply list_elem_of_singleton in Ha as ->. discriminate Hr.
  - done.
  - by eexists.
  - intros _. vm_compute. reflexivity.
Qed.


(** The status and the reason of an outcome, to be computed. *)
Definition stopped {T} (o : @Outcome ex_validator ex_switch ex_aho ex_kv ex_parsers ex_registry T) : option (Z * @StopReason ex_validator) :=
  match o with Stopped status why _ => Some (status, why) | Running _ => None end.

Lemma stopped_world {T} (o : @Outcome ex_validator ex_switch ex_aho ex_kv ex_parsers ex_registry T) status why :
  stopped o = Some (status, why) -> exists w', o = Stopped status why w'.
Proof. destruct o; [intros [= -> ->]; by eexists|done]. Qed.

(** A sink with a format its type does not have: the streams are not built. *)
Definition ex_misused (_ : string) (_ : Config) : string + Config :=
  inr (ex_config [ex_sentinel "bans"; sink_literal "stdout" "" "sentinel-threat"] "bans").

Lemma ex_misused_stops : exists e w',
  start_with ex_misused ex_process (mkFlags "" "" "") None (start_world ex_fs) [] = Stopped 1 (StopStreams e) w'.
Proof. eexists. apply stopped_world. vm_compute. reflexivity. Qed.

Lemma ex_misused_loads : exists cfg, load_with ex_misused configPath = inr cfg /\
  ge_PIDFile (c_General cfg) = ge_PIDFile (c_General defaultConfig).
Proof. eexists. split; vm_compute; reflexivity. Qed.

(** The PID file stays behind. *)
Lemma startup_exit_status_witness : exists e w',
  start_with ex_misused ex_process (mkFlags "" "" "") None (start_world ex_fs) [] = Stopped 1 (StopStreams e) w' /\
  is_Some (fs_names (w_fs w') !! ge_PIDFile (c_General defaultConfig)).
Proof.
  destruct ex_misused_stops as (e & w' & E). exists e, w'. split; [exact E|].
  pose proof (@startup_exit_status ConfigLoad.ex_print ex_lower ex_queue_mode ex_validator ex_switch ex_colors ex_aho ex_kv
    ex_parsers ex_registry unit (fun _ => inr tt) (fun _ => Some ∅) ex_misused (fun _ => None) (fun _ => ReadData "")
    ex_process (mkFlags "" "" "") None (start_world ex_fs) [] 1%Z (StopStreams e) w') as Hexit.
  destruct Hexit as (_ & _ & _ & _ & _ & _ & _ & Hleft); [rewrite <- E; apply up_main|].
  destruct ex_misused_loads as (cfg & El & Hp). rewrite <- Hp.
  apply (Hleft cfg El); [apply lookup_empty|reflexivity|left; exact I].
Defined.

(** A sentinel-threat output with an embedded queue and no bucket passes validation,
    and main panics on it. *)
Definition ex_queued (q : QueueConfig) : SinkConfig :=
  mkSinkConfig "sentinel-threat" "bans" "" "" "" (Some q)
    "" ∅ 0 "" "" "" "" false "" "" "" "" "" "" "" "" "" 0 "" false "" "" "" "" "" "" "" "" "" 0 "" false "" "" "".
Definition ex_unnamed (_ : string) (_ : Config) : string + Config :=
  inr (ex_config [ex_queued (mkQueueConfig "bbolt" "" "" "" "" ∅)] "bans").

Lemma unnamed_sink_queue_panics : exists w',
  @runValidateSubcommand ConfigLoad.ex_print ex_lower ex_queue_mode ex_validator ex_unnamed (fun _ => None) (fun _ => ReadData "") "a.yaml" = 0%Z /\
  start_with ex_unnamed ex_process (mkFlags "" "" "a.yaml") None (start_world ex_fs) [] = Stopped 2 StopQueuePanic w'.
Proof.
  destruct (stopped_world (start_with ex_unnamed ex_process (mkFlags "" "" "a.yaml") None (start_world ex_fs) []) 2 StopQueuePanic)
    as [w' Hw]; [vm_compute; reflexivity|]. exists w'. split; [vm_compute; reflexivity|exact Hw].
Qed.

(** A channel that one source receives from another node and another source backs
    with a local queue passes validation, and the queue registration refuses it. *)
Definition ex_mixed (_ : string) (_ : Config) : string + Config :=
  let c := ex_config [ex_sentinel "bans"] "bans" in
  let c := set_Executors [mkExecutorTopConfig "edge" "cloudflare"
     [mkExecutorSourceRef "x" (Some (mkQueueConfig "transport" "recv" "" "" "" ∅));
      mkExecutorSourceRef "x" (Some (mkQueueConfig "bbolt" "" "" "" "" ∅))] ∅] c in
  inr (mkConfig (c_General c) (c_Logging c) (c_Parser c) (c_Scoring c) (c_State c) (c_Detectors c) (c_Whitelist c)
    (c_Output c) (c_Metrics c) (c_Blocklist c) (c_ChainGuard c) (c_Streams c) (c_Inputs c) (c_Outputs c)
    (c_DeprecatedExecutors c) (c_Executors c) (c_Pipeline c)
    (mkTransportConfig true "/var/lib/arx/id" "/var/lib/arx/known" ":9443" [] "")).

Lemma mixed_channel_fails : exists e w',
  @runValidateSubcommand ConfigLoad.ex_print ex_lower ex_queue_mode ex_validator ex_mixed (fun _ => None) (fun _ => ReadData "") "a.yaml" = 0%Z /\
  start_with ex_mixed ex_process (mkFlags "" "" "a.yaml") None (start_world ex_fs) [] = Stopped 1 (StopExecutorQueues e) w'.
Proof.
  destruct (stopped (start_with ex_mixed ex_process (mkFlags "" "" "a.yaml") None (start_world ex_fs) [])) as [[status why]|] eqn:E;
    [|vm_compute in E; discriminate E]. pose proof (stopped_world _ _ _ E) as [w' Hw]. vm_compute in E. injection E as <- <-.
  eexists _, w'. split; [vm_compute; reflexivity|exact Hw].
Qed.
End witnesses.
