(* ===== verification/Tickers.v ===== *)
(** * Tickers (time.NewTicker in the tracker, the checkers, the lists and the executors)

    [time.NewTicker] panics when its period is not positive, and a panic in a
    goroutine ends the daemon.  The periods of the background loops come from the
    configuration: this file says which configurations that load start every loop
    (the lists always, the Cloudflare ranges and the garbage collectors only when
    their interval is positive), and shows that those that do not are accepted. *)

From Stdlib Require Import ZArith Lia String.
From stdpp Require Import base numbers option list strings gmap fin_maps.
From S2P Require Import Prelude GoStrings GoFmt GoValues GoTime GoJSON Model Tracker Waf ChainCheck Blocklist ConfigTypes ConfigEnv ConfigLoad ExecCommon Detectors NginxExec CloudflareExec Factory Logging Daemon Startup.

(** ** The loops *)

(** One loop per list that is started. *)
Definition list_periods (cfg : BlocklistConfig) : list Duration :=
  lc_RefreshInterval <$> filter (fun lc => listEnabled lc = true) (bc_Lists cfg).

(** One garbage collector per tracker of a factory. *)
Definition gc_periods (f : SecurityFactory) : list Duration := (sf_collectors f).*2.

Definition survives (periods : list Duration) : Prop := Forall (fun d => is_Some (NewTicker d)) periods.

Lemma survives_app l k : survives (l ++ k) <-> survives l /\ survives k.
Proof. apply Forall_app. Qed.

Lemma survives_one d : survives [d] <-> (0 < d)%Z.
Proof. unfold survives. by rewrite Forall_singleton, NewTicker_starts. Qed.

(** ** Which loops start *)

(** Every list of a well-formed configuration. *)
Lemma list_loops_survive cfg : Forall list_wf (bc_Lists cfg) -> survives (list_periods cfg).
Proof.
  intros Hl. apply Forall_fmap, Forall_forall. intros lc [_ Hin]%list_elem_of_filter. cbn. apply NewTicker_starts.
  exact (proj1 (proj2 (proj1 (Forall_forall _ _) Hl lc Hin))).
Qed.

(** A Cloudflare checker that is created or updated runs its loop when enabled. *)
Lemma cf_loop cfg : cf_running (NewCloudflareChecker cfg) = cf_Enabled cfg /\ cf_cfg (NewCloudflareChecker cfg) = cfg /\
  forall cf, cf_running (CF_Update cf cfg) = cf_Enabled cfg /\ cf_cfg (CF_Update cf cfg) = cfg.
Proof. unfold NewCloudflareChecker, CF_Update. by destruct (cf_Enabled cfg). Qed.

(** The loop of the shared checker, created at start-up or updated on SIGHUP. *)
Lemma chain_loop_survives g c : let cfg := ToChainCheckConfig g in
  (survives (chain_periods (NewChecker cfg)) <->
     (cgc_Enabled (cg_Cloudflare g) = true -> 0 < cgc_RefreshInterval (cg_Cloudflare g))%Z) /\
  chain_periods (Checker_Update c cfg) = chain_periods (NewChecker cfg).
Proof.
  cbv zeta. unfold chain_periods, NewChecker, Checker_Update. cbn [ck_cf].
  destruct (cf_loop (cc_Cloudflare (ToChainCheckConfig g))) as (Hr & Hc & Hu).
  change (cgc_Enabled (cg_Cloudflare g)) with (cf_Enabled (cc_Cloudflare (ToChainCheckConfig g))).
  change (cgc_RefreshInterval (cg_Cloudflare g)) with (cf_RefreshInterval (cc_Cloudflare (ToChainCheckConfig g))).
  destruct (cf_Enabled (cc_Cloudflare (ToChainCheckConfig g))); [|split; [split; [done|constructor]|done]].
  rewrite Hr, Hc, survives_one. split; [tauto|]. destruct (ck_cf c) as [cf|]; [|by rewrite Hr, Hc].
  by destruct (Hu cf) as [-> ->].
Qed.

Section factory.
Context {RE : RuleEngine} {UL : UnicodeLower} {UP : UnicodePrint} {DR : DetectorRegistry}.
Context (waf_decode : list (string * GoAny) -> string + WafConfig Tracker).

(** A build that creates the tracker of its group starts a collector with the
    interval of the configuration; one that joins a group starts none. *)
Lemma build_collectors sn pn idx shared f f' b : Build waf_decode sn pn idx shared f = Some (f', inr b) ->
  survives (gc_periods f') <->
  survives (gc_periods f) /\ (sf_trackers f !! bs_group b = None -> 0 < se_GCInterval (c_State (sf_cfg f)))%Z.
Proof.
  intros Hb. apply Build_cases in Hb as [[_ [e He]]|(sc & fb & m & _ & _ & _ & -> & Hr)]; [done|].
  destruct (Hr b eq_refl) as (waf & -> & _). cbn [bs_group assemble]. unfold getOrCreateTracker, gc_periods.
  destruct (sf_trackers f !! _) eqn:E; [by intuition|]. cbn [sf_collectors]. rewrite fmap_app, survives_app.
  change ([(?g, ?d)].*2) with [d]. cbn [fmap list_fmap snd]. rewrite survives_one. tauto.
Qed.

(** The shared loops and the collector of the first pipeline of a daemon whose
    configuration loaded: all start exactly when the two intervals that validation
    does not look at are positive. *)
Theorem loaded_loops_exact `{QueueMode} `{Colors} `{AhoCorasick} `{KVStore} open_db unmarshal env path file cfg ws w sh sn pn idx
    shared f b :
  LoadConfig unmarshal env path file = inr (cfg, ws) -> start_shared open_db cfg w = inr sh ->
  Build waf_decode sn pn idx shared (NewFactory cfg) = Some (f, inr b) ->
  let g := c_ChainGuard cfg in
  survives (list_periods (c_Blocklist cfg)) /\
  (survives (from_option chain_periods [] (sh_chain sh) ++ gc_periods f) <->
     (cg_Enabled g = true -> cgc_Enabled (cg_Cloudflare g) = true -> 0 < cgc_RefreshInterval (cg_Cloudflare g))%Z /\
     (0 < se_GCInterval (c_State cfg))%Z).
Proof.
  intros Hl Hs Hb g. split.
  - apply list_loops_survive. apply bind_ok in Hl as (c0 & _ & Hf). apply (finish_config_ok unmarshal) in Hf as (c1 & _ & _ & _ & Hwf).
    by destruct Hwf as (_ & _ & _ & _ & Hlists & _).
  - rewrite survives_app, (build_collectors _ _ _ _ _ _ _ Hb). cbn [sf_trackers sf_cfg NewFactory].
    assert (Hc : survives (from_option chain_periods [] (sh_chain sh)) <->
      (cg_Enabled g = true -> cgc_Enabled (cg_Cloudflare g) = true -> 0 < cgc_RefreshInterval (cg_Cloudflare g))%Z).
    { revert Hs. unfold start_shared. fold g. destruct (cg_Enabled g).
      - destruct (NewWarningsWriter _ _) as [e|[ww fs]]; [done|]. intros [= <-]. cbn [sh_chain from_option].
        rewrite (proj1 (chain_loop_survives g (mkChecker None None))). tauto.
      - intros [= <-]. cbn. split; [done|constructor]. }
    rewrite Hc, lookup_empty. split; [intros [? [_ Hg]]; auto|intros [? ?]]. split; [done|]. split; [constructor|done].
Qed.
End factory.

(** ** Configurations that load and panic *)

(** The out-of-the-box configuration under some variables. *)
Definition load_env (vars : list (string * string)) : string + (Config * list string) :=
  @LoadConfig ex_print ex_lower ex_queue_mode (fun _ c => inr c) (fun v => (list_to_map vars : gmap string string) !! v)
    "config.yaml" ReadNotExist.

(** A zero collector interval is accepted, and the first tracker ends the daemon. *)
Lemma zero_gc_interval_panics : exists cfg ws, load_env [("ARXSENTINEL_STATE_GC_INTERVAL", "0s")] = inr (cfg, ws) /\
  NewTicker (se_GCInterval (c_State cfg)) = None.
Proof. eexists _, _. split; vm_compute; reflexivity. Qed.

(** So is a negative refresh interval of the Cloudflare ranges: at start-up, or when
    a SIGHUP loads it. *)
Lemma cloudflare_refresh_panics : exists cfg ws,
  load_env [("ARXSENTINEL_CHAIN_GUARD_ENABLED", "true"); ("ARXSENTINEL_CHAIN_GUARD_WARNINGS_LOG", "/tmp/w.log");
            ("ARXSENTINEL_CHAIN_GUARD_CLOUDFLARE_REFRESH_INTERVAL", "-1h")] = inr (cfg, ws) /\
  cg_Enabled (c_ChainGuard cfg) = true /\
  forall c, ~ survives (chain_periods (Checker_Update c (ToChainCheckConfig (c_ChainGuard cfg)))).
Proof.
  eexists _, _. split; [vm_compute; reflexivity|]. split; [done|]. intros c.
  edestruct chain_loop_survives as [Hs Hu]. rewrite Hu, Hs. intros H. specialize (H eq_refl). by vm_compute in H.
Qed.

(** The nginx executor accepts a flush interval of zero and panics when it starts. *)
Lemma nginx_zero_flush_panics : exists e,
  NewNginxExecutor {["list_file" := AnyString "/etc/nginx/bans.conf"; "flush_interval" := AnyString "0s"]} = Some e /\
  forall (MR : MapRange) now fs turns, nginx_Run now e fs turns = None.
Proof. eexists. split; [vm_compute; reflexivity|done]. Qed.

(** The Cloudflare executor too, once it has found its list. *)
Lemma cloudflare_zero_flush_panics `{DedupWindow} : exists e,
  NewCloudflareExecutor (fun _ => None) (Some []) {["api_token" := AnyString "t"; "account_id" := AnyString "a"; "flush_interval" := AnyString "0s"]}
    = Some e /\
  forall (MR : MapRange) (CL : CFClient) now w w' id turns, cf_FindOrCreateList w (fc_ListName (cx_cfg e)) = (w', inr id) ->
    cx_Run now e w turns = Panics.
Proof.
  eexists. split; [vm_compute; reflexivity|]. intros MR CL now w w' id turns Hl. unfold cx_Run. cbn in Hl |- *. rewrite Hl.
  by destruct (cx_syncExisting _ _ _) as [[e2 w2] x].
Qed.
