(* ===== verification/Entry.v ===== *)
(** * The program (cmd/arxsentinel/main.go, cmd/healthcheck)

    The command line with Go's flag package, the choice between the subcommands and
    the daemon, the notification of systemd, the metrics server and the health probe
    that asks it. *)

From Stdlib Require Import ZArith Lia Ascii String.
From stdpp Require Import base numbers option list strings gmap.
From S2P Require Import Prelude GoStrings GoNet GoFmt GoValues GoHTTP Model Blocklist ConfigTypes ConfigEnv ConfigLoad ExecCommon CloudflareExec Wiring Logging Daemon Metrics Startup GoFlag.

(** ** Flags *)

(** [showVersion] is stored by two flags. *)
Abbreviation MainVars := (bool * Flags)%type (only parsing).

Definition main_flags : FlagSet MainVars :=
  [("version", BoolFlag (fun b s => (b, s.2)));
   ("v", BoolFlag (fun b s => (b, s.2)));
   ("input", StringFlag (fun x s => (s.1, mkFlags x (fl_output s.2) (fl_config s.2))));
   ("output", StringFlag (fun x s => (s.1, mkFlags (fl_input s.2) x (fl_config s.2))));
   ("config", StringFlag (fun x s => (s.1, mkFlags (fl_input s.2) (fl_output s.2) x)))].

Definition main_defaults : MainVars := (false, mkFlags "" "" "").

Definition cleanup_flags : FlagSet CleanupFlags :=
  [("cf", BoolFlag (fun b f => mkCleanupFlags b (cl_DryRun f) (cl_InstanceID f) (cl_ListID f) (cl_CfgPath f)));
   ("dry-run", BoolFlag (fun b f => mkCleanupFlags (cl_CF f) b (cl_InstanceID f) (cl_ListID f) (cl_CfgPath f)));
   ("instance-id", StringFlag (fun x f => mkCleanupFlags (cl_CF f) (cl_DryRun f) x (cl_ListID f) (cl_CfgPath f)));
   ("list-id", StringFlag (fun x f => mkCleanupFlags (cl_CF f) (cl_DryRun f) (cl_InstanceID f) x (cl_CfgPath f)));
   ("config", StringFlag (fun x f => mkCleanupFlags (cl_CF f) (cl_DryRun f) (cl_InstanceID f) (cl_ListID f) x))].

Definition cleanup_defaults : CleanupFlags := mkCleanupFlags false false "" "" "/etc/arxsentinel/config.yaml".

(** ** systemd *)

(** The datagrams sent, by address; [dial]: the socket accepts a connection. *)
Definition sdNotify (socket : option string) (dial : string -> bool) (state : string) : list (string * string) :=
  match sd_addr (default "" socket) with
  | None => []
  | Some addr => if dial addr then [(addr, state)] else []
  end.

Definition ready_state (version : string) : string :=
  "READY=1" +:+ String newline ("STATUS=" +:+ version +:+ " running").

(** ** The metrics server *)

Section server.
Context {S : Type} (bcrypt : string -> string -> bool) (prom : S -> Request -> HttpResponse) (cfg : MetricsConfig).

Definition serve_metrics : Handler S := fun s r =>
  (s, Some (if metricsHandler bcrypt (me_Username cfg) (me_PasswordHash cfg) (BasicAuth r)
            then prom s r else http_Error "Unauthorized" 401)).

Definition serve_health : Handler S := fun s _ => (s, Some (mkHttpResponse 200 health_body)).

Definition metrics_mux : ServeMux S := [("/metrics", serve_metrics); ("/health", serve_health)].
End server.

(** ** The probe *)

Definition targetAddr : string := "localhost:9117".

(** [dial]: the connection is accepted; [mux] and [net]: the server behind it and the
    requests that are lost. *)
Definition probe {S} (dial : bool) (mux : ServeMux S) (net : Net S) : Z :=
  healthcheck dial ((fun r => (hr_StatusCode r, hr_Body r)) <$>
    (net_Do ("http://" +:+ targetAddr) mux net "GET" ("http://" +:+ targetAddr +:+ "/health") None "").2).

(** What the server answers, by path and credentials. *)
Lemma metrics_mux_serve {S} bcrypt (prom : S -> Request -> HttpResponse) cfg s r :
  mux_serve (metrics_mux bcrypt prom cfg) s r =
  (s, Some (match path_segments (r_EscapedPath r) with
            | Some segs =>
                if decide (segs = [""; "metrics"]) then
                  if metricsHandler bcrypt (me_Username cfg) (me_PasswordHash cfg) (BasicAuth r) then prom s r
                  else http_Error "Unauthorized" 401
                else if decide (segs = [""; "health"]) then mkHttpResponse 200 health_body else NotFound
            | None => NotFound
            end)).
Proof.
  unfold mux_serve, mux_find. destruct (path_segments (r_EscapedPath r)) as [segs|]; [|done]. cbn [mbind option_bind].
  unfold metrics_mux. cbn [mux_match]. change (pattern_matches segs "/metrics") with (bool_decide (segs = [""; "metrics"])).
  change (pattern_matches segs "/health") with (bool_decide (segs = [""; "health"])).
  destruct (decide (segs = [""; "metrics"])) as [->|Hm]; [done|]. rewrite (bool_decide_eq_false_2 _ Hm).
  destruct (decide (segs = [""; "health"])) as [->|Hh]; [done|]. by rewrite (bool_decide_eq_false_2 _ Hh).
Qed.

(** Neither path is registered as a directory: only an unclean path is redirected. *)
Lemma metrics_mux_redirect {S} bcrypt (prom : S -> Request -> HttpResponse) cfg esc :
  mux_redirect (metrics_mux bcrypt prom cfg) esc = if String.eqb (cleanPath esc) esc then None else Some (cleanPath esc).
Proof.
  unfold mux_redirect. assert (registered (metrics_mux bcrypt prom cfg) (cleanPath esc +:+ "/") = false) as ->; [|by rewrite andb_false_r].
  assert (Hs : HasSuffix (cleanPath esc +:+ "/") "/" = true) by (apply HasSuffix_spec; by eexists).
  unfold registered, metrics_mux. cbn [existsb fst].
  destruct (String.eqb_spec "/metrics" (cleanPath esc +:+ "/")) as [E|_]; [rewrite <- E in Hs; discriminate Hs|].
  destruct (String.eqb_spec "/health" (cleanPath esc +:+ "/")) as [E|_]; [rewrite <- E in Hs; discriminate Hs|done].
Qed.

(** C29: The health probe and the metrics server agree: against the daemon's server, whatever user name and password hash protect the metrics, the probe exits with 0 exactly when the connection is accepted and its request arrives, and with 1 otherwise. To a request for a path (any method but CONNECT) the server answers with a redirect to the cleaned path when the path is not clean, as //health; for a clean path it answers by the path alone: /health always with 200, /metrics with the metrics page exactly when no user is configured or the request carries the configured user and a password that matches the hash and with 401 otherwise, and every other path with 404. *)
Theorem health_probe_exact {S} bcrypt (prom : S -> Request -> HttpResponse) cfg :
  (forall dial net, probe dial (metrics_mux bcrypt prom cfg) net =
     if (dial && negb (default false (head (net_lost net))))%bool then 0%Z else 1%Z) /\
  (forall s r, HasPrefix (r_EscapedPath r) "/" = true -> r_Method r <> "CONNECT" ->
     (cleanPath (r_EscapedPath r) <> r_EscapedPath r ->
        server_reply (metrics_mux bcrypt prom cfg) s r = (s, Some (MovedPermanently (cleanPath (r_EscapedPath r))))) /\
     (cleanPath (r_EscapedPath r) = r_EscapedPath r ->
        exists resp, server_reply (metrics_mux bcrypt prom cfg) s r = (s, Some (Answer resp)) /\
        (path_segments (r_EscapedPath r) = Some [""; "health"] -> resp = mkHttpResponse 200 health_body) /\
        (path_segments (r_EscapedPath r) = Some [""; "metrics"] ->
           (me_Username cfg = "" \/ (exists p, BasicAuth r = Some (me_Username cfg, p) /\ bcrypt (me_PasswordHash cfg) p = true) ->
              resp = prom s r) /\
           (me_Username cfg <> "" -> (forall p, BasicAuth r = Some (me_Username cfg, p) -> bcrypt (me_PasswordHash cfg) p = false) ->
              resp = http_Error "Unauthorized" 401)) /\
        (path_segments (r_EscapedPath r) <> Some [""; "health"] -> path_segments (r_EscapedPath r) <> Some [""; "metrics"] ->
           resp = NotFound))).
Proof.
  split.
  - intros dial [s lost]. unfold probe, net_Do. cbn [net_lost net_server]. destruct dial; [|done]. cbn [andb].
    destruct (default false (head lost)); [done|]. cbn [negb].
    change (http_Do _ (metrics_mux bcrypt prom cfg) s _ _ _ _) with
      (mux_serve (metrics_mux bcrypt prom cfg) s (mkRequest "GET" "/health" "/health" "" None "")).
    by rewrite metrics_mux_serve.
  - intros s r _ _. unfold server_reply. rewrite metrics_mux_redirect. split; [by intros ->%String.eqb_neq|].
    intros ->%String.eqb_eq. eexists. rewrite metrics_mux_serve. split; [done|].
    destruct (path_segments (r_EscapedPath r)) as [segs|]; [|done].
    split; [by intros [= ->]|]. split; [intros [= ->]; cbn|intros Hh Hm; rewrite !decide_False by congruence; done].
    unfold metricsHandler. split.
    + intros [->|(p & -> & Hp)]; [done|]. destruct (String.eqb (me_Username cfg) ""); [done|]. by rewrite String.eqb_refl, Hp.
    + intros ->%String.eqb_neq Hb. destruct (BasicAuth r) as [[u p]|] eqn:Ea; [|done]. cbn [andb].
      destruct (String.eqb_spec u (me_Username cfg)) as [->|]; [|done]. by rewrite (Hb p eq_refl).
Qed.

(** ** What the flags of the daemon mean *)

(** The value a setting gives to a string flag, to a boolean under one of its names. *)
Definition string_setting (name : string) (sf : bool * Form) : option string :=
  match sf.2 with
  | Attached n v | Separate n v => if String.eqb n name then Some v else None
  | Bare _ => None
  end.
Definition bool_setting (names : list string) (sf : bool * Form) : option bool :=
  match sf.2 with
  | Bare n => if existsb (String.eqb n) names then Some true else None
  | Attached n v => if existsb (String.eqb n) names then ParseBool v else None
  | Separate _ _ => None
  end.

(** The last setting counts. *)
Definition last_string (name : string) (l : list (bool * Form)) : string := default "" (last (omap (string_setting name) l)).
Definition wants_version (l : list (bool * Form)) : bool := default false (last (omap (bool_setting ["version"; "v"]) l)).
Definition flags_of (l : list (bool * Form)) : Flags :=
  mkFlags (last_string "input" l) (last_string "output" l) (last_string "config" l).

Lemma last_omap_snoc {A B} (f : A -> option B) d l x :
  default d (last (omap f (l ++ [x]))) = match f x with Some y => y | None => default d (last (omap f l)) end.
Proof. rewrite omap_app. cbn. destruct (f x); [by rewrite last_snoc|by rewrite app_nil_r]. Qed.

Lemma main_effect_snoc l sf e : effect main_flags sf.2 = Some e ->
  e (wants_version l, flags_of l) = (wants_version (l ++ [sf]), flags_of (l ++ [sf])).
Proof.
  unfold wants_version, flags_of, last_string. rewrite !last_omap_snoc.
  destruct sf as [two [n|n v|n v]]; cbn [snd effect]; unfold formal, main_flags; cbn [List.find fst snd fmap option_fmap option_map];
    repeat match goal with
      | |- context [if String.eqb ?a n then _ else _] =>
          destruct (String.eqb_spec a n) as [<-|]; [cbn; try (destruct (ParseBool v); cbn); intros He; by simplify_eq|]
      end; done.
Qed.

Lemma main_effects l es : mapM (fun sf => effect main_flags sf.2) l = Some es ->
  run_effects es main_defaults = (wants_version l, flags_of l).
Proof.
  intros H%mapM_Some. revert es H. induction l as [|sf l IH] using rev_ind; intros es H; [by apply Forall2_nil_inv_l in H as ->|].
  apply Forall2_app_inv_l in H as (es1 & es2 & H1 & H2 & ->). apply Forall2_cons_inv_l in H2 as (e & es3 & He & ->%Forall2_nil_inv_l & ->).
  unfold run_effects. rewrite foldl_app. fold (run_effects es1 main_defaults). rewrite (IH _ H1). by apply main_effect_snoc.
Qed.

Lemma main_names : names_ok main_flags.
Proof. by repeat constructor. Qed.

(** ** The whole program *)

Section program.
Context {UP : UnicodePrint} {UL : UnicodeLower} {QM : QueueMode} {V : Validator} {CS : ChannelSwitch} {CO : Colors}.
Context {AC : AhoCorasick} {KV : KVStore} `{IO : IORegistry}.
Context {T : Type} (transport_New : TransportConfig -> string + T) (open_db : string -> option DB).
Context (unmarshal : string -> Config -> string + Config) (env : string -> option string)
  (read : string -> ReadResult).
Context {JE : JSONErrors} (Wire : Type) (http_do : Wire -> string -> string -> string -> option string -> Wire * Result string).
Context (files : string -> option string) (rnd : option (list N)).

(** A command that ends by itself, or the daemon. *)
Inductive Run :=
  | Exited (status : Z)
  | Served (o : Outcome (T := T)).

(** [args]: [os.Args[1:]]. *)
Definition main (pr : ProcInfo) (args : list string) (w : World) (s : Switch) (net : Wire) : Run :=
  match dispatch args with
  | CmdCleanup rest =>
      match ParseFlags cleanup_flags rest cleanup_defaults with
      | inl e => Exited (exit_on_error e)
      | inr (f, _) => Exited (handleCleanup unmarshal env read Wire http_do files rnd f net).2
      end
  | CmdLicense => Exited 0
  | CmdValidate path => Exited (runValidateSubcommand unmarshal env read path)
  | CmdDaemon rest =>
      match ParseFlags main_flags rest main_defaults with
      | inl e => Exited (exit_on_error e)
      | inr ((true, _), _) => Exited 0
      | inr ((false, flags), _) =>
          Served (start transport_New open_db unmarshal env read pr flags (env "ARXSENTINEL_CONFIG") w s)
      end
  end.

(** C28: The command line of the daemon: when the first word is no subcommand, arguments that are a sequence of settings of the defined flags (one dash or two, the value after an equals sign or in the next argument, booleans bare or with a boolean word), ended by the last argument, a double dash or a word that is no flag, start the daemon with the last value given for each flag, or print the version when that was asked for last; any other arguments end the program with status 0 or 2 before a configuration is read. *)
Theorem command_line_exact pr args w s net : dispatch args = CmdDaemon args ->
  (forall l rest, settings_of args l rest -> Forall (fun sf => is_Some (effect main_flags sf.2)) l ->
     main pr args w s net =
       if wants_version l then Exited 0
       else Served (start transport_New open_db unmarshal env read pr (flags_of l) (env "ARXSENTINEL_CONFIG") w s)) /\
  ((forall l rest, settings_of args l rest -> ~ Forall (fun sf => is_Some (effect main_flags sf.2)) l) ->
     main pr args w s net = Exited 0 \/ main pr args w s net = Exited 2).
Proof.
  intros Hd. unfold main. rewrite Hd. split.
  - intros l rest Hs [es He]%mapM_is_Some_2. rewrite (Parse_grammar _ l es args rest _ main_names He Hs), (main_effects _ _ He).
    by destruct (wants_version l).
  - intros Hno. destruct (ParseFlags main_flags args main_defaults) as [[|m]|[vars rest]] eqn:E; [by left|by right|exfalso].
    apply (Parse_exact _ _ _ _ _ main_names) in E as (l & es & He & Hs & _). apply (Hno l rest Hs). apply mapM_is_Some_1. by rewrite He.
Qed.
End program.


(** The validate command reads only the spelling with two dashes, the daemon both. *)
Lemma validate_ignores_single_dash {UP : UnicodePrint} path : HasPrefix path "--config" = false ->
  dispatch ["validate"; "-config"; path] = CmdValidate configPath /\
  ParseFlags main_flags ["-config"; path] main_defaults = inr ((false, mkFlags "" "" path), []).
Proof.
  intros Hp. split; [|done]. cbn [dispatch String.eqb Ascii.eqb Bool.eqb andb]. f_equal. cbn [validate_path].
  assert (HasPrefix path "--config=" = false /\ String.eqb path "--config" = false) as [-> ->]; [|done].
  split; [|apply String.eqb_neq; by intros ->]. apply not_true_is_false. intros [r ->]%HasPrefix_spec. discriminate Hp.
Qed.

(** ** Witness *)

Definition ex_errors : JSONErrors := {| syntax_error := fun _ => "invalid character"; type_error := fun _ _ => "cannot unmarshal" |}.

Lemma command_line_exact_witness :
  @main ConfigLoad.ex_print ex_lower ex_queue_mode ex_validator ex_switch ex_colors ex_aho ex_kv ex_parsers ex_registry unit
    (fun _ => inr tt) (fun _ => Some ∅) ex_unmarshal (fun _ => None) (fun _ => ReadData "") ex_errors unit
    (fun n _ _ _ _ => (n, inl "offline")) (fun _ => None) None ex_process
    ["-config=/etc/b.yaml"; "--v"; "--config"; "/etc/a.yaml"; "-version=f"; "--"; "-input"] (start_world ex_fs) [] tt =
  Served (@start ConfigLoad.ex_print ex_lower ex_queue_mode ex_validator ex_switch ex_colors ex_aho ex_kv ex_parsers ex_registry unit
    (fun _ => inr tt) (fun _ => Some ∅) ex_unmarshal (fun _ => None) (fun _ => ReadData "") ex_process
    (mkFlags "" "" "/etc/a.yaml") None (start_world ex_fs) []).
Proof.
  destruct (@command_line_exact ConfigLoad.ex_print ex_lower ex_queue_mode ex_validator ex_switch ex_colors ex_aho ex_kv ex_parsers
    ex_registry unit (fun _ => inr tt) (fun _ => Some ∅) ex_unmarshal (fun _ => None) (fun _ => ReadData "") ex_errors unit
    (fun n _ _ _ _ => (n, inl "offline")) (fun _ => None) None ex_process
    ["-config=/etc/b.yaml"; "--v"; "--config"; "/etc/a.yaml"; "-version=f"; "--"; "-input"] (start_world ex_fs) [] tt) as [Hm _];
    [reflexivity|].
  apply (Hm [(false, Attached "config" "/etc/b.yaml"); (true, Bare "v"); (true, Separate "config" "/etc/a.yaml");
             (false, Attached "version" "f")] ["-input"]).
  - exists ["--"; "-input"]. split; [reflexivity|left; reflexivity].
  - repeat constructor; eexists; reflexivity.
Defined.

(** The probe succeeds against a protected server; a doubled slash is redirected, and
    the metrics page is refused without credentials. *)
Definition ex_metrics : MetricsConfig := mkMetricsConfig true ":9117" "ops" "hash".
Definition ex_prom (_ : unit) (_ : Request) : HttpResponse := mkHttpResponse 200 "up 1".
Definition ex_asks (path : string) : Request := mkRequest "GET" path path "" None "".

Lemma health_probe_exact_witness :
  probe true (metrics_mux (fun h p => String.eqb p "secret") ex_prom ex_metrics) (mkNet tt [false]) = 0%Z /\
  server_reply (metrics_mux (fun h p => String.eqb p "secret") ex_prom ex_metrics) tt (ex_asks "//health") =
    (tt, Some (MovedPermanently "/health")) /\
  server_reply (metrics_mux (fun h p => String.eqb p "secret") ex_prom ex_metrics) tt (ex_asks "/metrics") =
    (tt, Some (Answer (http_Error "Unauthorized" 401))).
Proof.
  destruct (health_probe_exact (fun h p => String.eqb p "secret") ex_prom ex_metrics) as [Hp Hs].
  split; [exact (Hp true (mkNet tt [false]))|]. split.
  - destruct (Hs tt (ex_asks "//health")) as [Hr _]; [reflexivity|discriminate|]. apply Hr. discriminate.
  - destruct (Hs tt (ex_asks "/metrics")) as [_ Ha]; [reflexivity|discriminate|].
    destruct Ha as (resp & -> & _ & Hm & _); [reflexivity|]. do 3 f_equal. apply Hm; [reflexivity|discriminate|discriminate].
Defined.
