(* ===== verification/GenPlugins.v ===== *)
(** * The plugin-file generator (tools/gen-plugins/main.go, cmd/arxsentinel/plugins_*.go)

    From a build profile (profiles/<name>.yaml) the file that links its plugins by
    blank imports; the committed files of the iot and minimal profiles are what the
    generator writes.  Reading the YAML files is not modelled. *)

From Stdlib Require Import ZArith Lia Ascii String.
From stdpp Require Import base numbers option list strings gmap sorting.
From S2P Require Import Prelude GoStrings GoFmt Factory.

Definition localModuleRoot : string := "github.com/mr-addams/arxsentinel".

Definition externalModuleRoots (module : string) : option string :=
  if String.eqb module "arx-core" then Some "github.com/mr-addams/arx-core" else None.

Definition kindSingular (kind : string) : option string :=
  if String.eqb kind "sources" then Some "source"
  else if String.eqb kind "sinks" then Some "sink"
  else if String.eqb kind "executors" then Some "executor"
  else if String.eqb kind "processors" then Some "processor"
  else if String.eqb kind "detectors" then Some "detector"
  else None.

Record pluginEntry := mkPluginEntry {
  pe_Name : string;
  pe_Module : string
}.

Record profileSchema := mkProfileSchema {
  pf_Executors : list pluginEntry;
  pf_Processors : list pluginEntry;
  pf_Sinks : list pluginEntry;
  pf_Sources : list pluginEntry;
  pf_Detectors : list pluginEntry
}.

Definition nameToPkgSuffix (key : string) : option string :=
  if String.eqb key "sinks/sentinel-threat" then Some "sentinel"
  else if String.eqb key "detectors/ua" then Some "useragent"
  else None.

Definition pkgSuffix (kind name : string) : string := default name (nameToPkgSuffix (kind +:+ "/" +:+ name)).

Section gen.
Context {UP : UnicodePrint}.

Definition kindPath (kind : string) (e : pluginEntry) : string + string :=
  let suffix := pkgSuffix kind (pe_Name e) in
  match kindSingular kind with
  | None => inl ("unknown plugin kind " +:+ Quote kind)
  | Some singular =>
      let module := if String.eqb (pe_Module e) "" then "arxsentinel" else pe_Module e in
      if String.eqb module "arxsentinel" then mret (localModuleRoot +:+ "/pkg/" +:+ singular +:+ "plugins/" +:+ suffix)
      else match externalModuleRoots module with
           | Some root => mret (root +:+ "/pkg/" +:+ singular +:+ "/" +:+ suffix)
           | None => inl ("plugin " +:+ kind +:+ "/" +:+ pe_Name e +:+ ": unrecognized module " +:+ Quote module)
           end
  end.

(** The three groups of imports: local, detectors, external. *)
Record Imports := mkImports {
  localOther : list string;
  localDetectors : list string;
  external : list string
}.

Definition add_import (kind imp : string) (x : Imports) : Imports :=
  if String.eqb kind "detectors" then mkImports (localOther x) (localDetectors x ++ [imp]) (external x)
  else if HasPrefix imp (localModuleRoot +:+ "/") then mkImports (localOther x ++ [imp]) (localDetectors x) (external x)
  else mkImports (localOther x) (localDetectors x) (external x ++ [imp]).

Fixpoint add_entries (kind : string) (l : list pluginEntry) (x : Imports) : string + Imports :=
  match l with
  | [] => mret x
  | e :: l' => imp ← kindPath kind e; add_entries kind l' (add_import kind imp x)
  end.

(** The kinds in the order of the loop. *)
Definition profile_kinds (p : profileSchema) : list (string * list pluginEntry) :=
  [("executors", pf_Executors p); ("processors", pf_Processors p); ("detectors", pf_Detectors p);
   ("sources", pf_Sources p); ("sinks", pf_Sinks p)].

Fixpoint add_kinds (l : list (string * list pluginEntry)) (x : Imports) : string + Imports :=
  match l with
  | [] => mret x
  | (k, es) :: l' => x' ← add_entries k es x; add_kinds l' x'
  end.

Definition sort_imports (x : Imports) : Imports :=
  mkImports (merge_sort string_le (localOther x)) (merge_sort string_le (localDetectors x))
    (merge_sort string_le (external x)).

Definition collect_imports (p : profileSchema) : string + Imports :=
  x ← add_kinds (profile_kinds p) (mkImports [] [] []); mret (sort_imports x).

(** ** The text *)

Definition nl : string := String newline EmptyString.
Definition tab : string := String (ascii_of_N 9) EmptyString.
Definition dq : string := String dquote EmptyString.

Definition file_header (name : string) : string :=
  "// Code generated by tools/gen-plugins; DO NOT EDIT." +:+ nl +:+ nl +:+
  "//go:build arx_tag && " +:+ name +:+ nl +:+ nl +:+
  "// ========================== Plugin blank-imports — " +:+ name +:+ " profile =======================" +:+ nl +:+
  "//" +:+ nl +:+
  "//" +:+ tab +:+ "Side-effect registration of plugins declared in profiles/" +:+ name +:+ ".yaml." +:+ nl +:+
  "//" +:+ tab +:+ "Active only under build tags: -tags " +:+ dq +:+ "arx_tag " +:+ name +:+ dq +:+ "." +:+ nl +:+
  "//" +:+ tab +:+ "See docs/architecture/adr/003-build-modularity.md and DECISIONS.md Flow 075." +:+ nl +:+
  "package main" +:+ nl +:+ nl +:+
  "import (" +:+ nl.

(** [writeBlock]: the text so far and the number of blocks. *)
Definition writeBlock (header : string) (imps : list string) (b : string * nat) : string * nat :=
  if decide (imps = []) then b
  else
    (b.1 +:+ (if (0 <? b.2)%nat then nl else "") +:+ (if String.eqb header "" then "" else header +:+ nl) +:+
     String.concat "" ((fun imp => tab +:+ "_ " +:+ Quote imp +:+ nl) <$> imps), S b.2).

Definition emit (name : string) (p : profileSchema) : string + string :=
  x ← collect_imports p;
  let b := (file_header name, 0) in
  let b := writeBlock "" (localOther x) b in
  let b := writeBlock (tab +:+ "// Plugin detectors (tree-shakeable side-effect registration, Flow 076)") (localDetectors x) b in
  let b := writeBlock "" (external x) b in
  mret (b.1 +:+ ")" +:+ nl).

Definition countImports (p : profileSchema) : nat :=
  length (pf_Sources p) + length (pf_Sinks p) + length (pf_Executors p) + length (pf_Processors p) + length (pf_Detectors p).

(** [main]: the files of the profiles directory as [os.ReadDir] lists them (name,
    directory or not, content; [None] when it cannot be read), and what
    [yaml.Unmarshal] makes of a content.  The result is what has been written, in
    order, and the message on standard error of a failed run. *)
Record DirEntry := mkDirEntry {
  de_Name : string;
  de_IsDir : bool;
  de_Data : string + string
}.

Section main.
Context (unmarshal : string -> string + profileSchema) (write_err : string -> option string).

Fixpoint read_profiles (entries : list DirEntry) (names : list string) (byName : gmap string profileSchema) :
    string + (list string * gmap string profileSchema) :=
  match entries with
  | [] => mret (names, byName)
  | e :: rest =>
      if (de_IsDir e || negb (HasSuffix (de_Name e) ".yaml"))%bool then read_profiles rest names byName
      else
        let base := TrimSuffix (de_Name e) ".yaml" in
        match de_Data e with
        | inl err => inl ("gen-plugins: read " +:+ de_Name e +:+ ": " +:+ err)
        | inr data =>
            match unmarshal data with
            | inl err => inl ("gen-plugins: parse " +:+ de_Name e +:+ ": " +:+ err)
            | inr p =>
                if String.eqb base "full" then read_profiles rest names byName
                else read_profiles rest (names ++ [base]) (<[base := p]> byName)
            end
        end
  end.

(** The loop over the sorted names; [write_err] is the error of [os.WriteFile]. *)
Fixpoint write_profiles (names : list string) (byName : gmap string profileSchema) (written : list (string * string)) :
    list (string * string) * option string :=
  match names with
  | [] => (written, None)
  | name :: rest =>
      match emit name (default (mkProfileSchema [] [] [] [] []) (byName !! name)) with
      | inl err => (written, Some ("gen-plugins: emit " +:+ name +:+ ": " +:+ err))
      | inr text =>
          let path := "plugins_" +:+ name +:+ ".go" in
          match write_err path with
          | Some err => (written, Some ("gen-plugins: emit " +:+ name +:+ ": " +:+ err))
          | None => write_profiles rest byName (written ++ [(path, text)])
          end
      end
  end.

Definition gen_main (entries : list DirEntry) : list (string * string) * option string :=
  match read_profiles entries [] ∅ with
  | inl err => ([], Some err)
  | inr (names, byName) => write_profiles (merge_sort string_le names) byName []
  end.
End main.

(** ** Completeness *)

Definition all_imports (x : Imports) : list string := localOther x ++ localDetectors x ++ external x.

Lemma add_import_all k imp x : all_imports (add_import k imp x) ≡ₚ imp :: all_imports x.
Proof.
  unfold add_import, all_imports. destruct (String.eqb k "detectors"); [|destruct (HasPrefix _ _)]; cbn; solve_Permutation.
Qed.

Lemma string_le_total : Total string_le.
Proof. intros a b. apply String.leb_total. Qed.

(** The import paths of the entries of one kind. *)
Lemma add_entries_ok k l x y : add_entries k l x = inr y -> exists imps,
  Forall2 (fun e imp => kindPath k e = inr imp) l imps /\ all_imports y ≡ₚ imps ++ all_imports x.
Proof.
  revert x. induction l as [|e l IH]; intros x; cbn [add_entries]; [intros [= <-]; by exists []|].
  intros (imp & Hi & (imps & HF & Hp)%IH)%bind_ok. exists (imp :: imps). split; [by constructor|].
  rewrite Hp, add_import_all. solve_Permutation.
Qed.

Lemma add_kinds_ok l x y : add_kinds l x = inr y -> exists imps,
  Forall2 (fun ke imp => kindPath ke.1 ke.2 = inr imp) (l ≫= (fun '(k, es) => pair k <$> es)) imps /\
  all_imports y ≡ₚ imps ++ all_imports x.
Proof.
  revert x. induction l as [|[k es] l IH]; intros x; cbn [add_kinds]; [intros [= <-]; by exists []|].
  intros (x' & (i1 & H1 & P1)%add_entries_ok & (i2 & H2 & P2)%IH)%bind_ok. exists (i1 ++ i2). split.
  - cbn. apply Forall2_app; [|exact H2]. apply Forall2_fmap_l. eapply Forall2_impl; [exact H1|done].
  - rewrite P2, P1. solve_Permutation.
Qed.

(** The generated file links exactly the profile's plugins: when generation succeeds, its imports are, up to order, one import path for every plugin entry of the profile, as many as the generator reports, and each of the three groups is sorted. *)
Theorem gen_plugins_complete p x : collect_imports p = inr x ->
  (exists imps, Forall2 (fun ke imp => kindPath ke.1 ke.2 = inr imp)
      (profile_kinds p ≫= (fun '(k, es) => pair k <$> es)) imps /\ all_imports x ≡ₚ imps) /\
  length (all_imports x) = countImports p /\
  Sorted string_le (localOther x) /\ Sorted string_le (localDetectors x) /\ Sorted string_le (external x).
Proof.
  unfold collect_imports. intros (y & (imps & HF & Hp)%add_kinds_ok & [= <-])%bind_ok. cbn in Hp. rewrite app_nil_r in Hp.
  assert (Hs : all_imports (sort_imports y) ≡ₚ all_imports y).
  { unfold all_imports, sort_imports. cbn. by rewrite !merge_sort_Permutation. }
  split; [exists imps; split; [done|by rewrite Hs]|]. split.
  - rewrite Hs, Hp, <- (Forall2_length _ _ _ HF). unfold profile_kinds, countImports. cbn.
    rewrite !length_app, !length_fmap. cbn. lia.
  - assert (Ht : Total string_le) by apply string_le_total. cbn. repeat split; by apply Sorted_merge_sort.
Qed.
End gen.

(** ** The committed profiles and files *)

Definition core_plugin (name : string) : pluginEntry := mkPluginEntry name "arx-core".
Definition detector_plugin (name : string) : pluginEntry := mkPluginEntry name "".

(** profiles/iot.yaml and profiles/minimal.yaml, decoded. *)
Definition iot_profile : profileSchema :=
  mkProfileSchema [mkPluginEntry "cloudflare" "arxsentinel"] [] [core_plugin "exec"; core_plugin "stdout"]
    [core_plugin "syslog"; core_plugin "file"] [detector_plugin "probe"; detector_plugin "overflow"].

Definition minimal_profile : profileSchema :=
  mkProfileSchema [mkPluginEntry "cloudflare" "arxsentinel"] [] [core_plugin "stdout"]
    [core_plugin "syslog"; core_plugin "stdin"]
    [detector_plugin "probe"; detector_plugin "rate"; detector_plugin "bruteforce"; detector_plugin "overflow"].

(** cmd/arxsentinel/plugins_iot.go and plugins_minimal.go, byte for byte. *)
Definition plugins_iot_go : string :=
  "// Code generated by tools/gen-plugins; DO NOT EDIT." +:+ nl +:+
  nl +:+
  "//go:build arx_tag && iot" +:+ nl +:+
  nl +:+
  "// ========================== Plugin blank-imports — iot profile =======================" +:+ nl +:+
  "//" +:+ nl +:+
  "//" +:+ tab +:+ "Side-effect registration of plugins declared in profiles/iot.yaml." +:+ nl +:+
  "//" +:+ tab +:+ "Active only under build tags: -tags " +:+ dq +:+ "arx_tag iot" +:+ dq +:+ "." +:+ nl +:+
  "//" +:+ tab +:+ "See docs/architecture/adr/003-build-modularity.md and DECISIONS.md Flow 075." +:+ nl +:+
  "package main" +:+ nl +:+
  nl +:+
  "import (" +:+ nl +:+
  tab +:+ "_ " +:+ dq +:+ "github.com/mr-addams/arxsentinel/pkg/executorplugins/cloudflare" +:+ dq +:+ nl +:+
  nl +:+
  tab +:+ "// Plugin detectors (tree-shakeable side-effect registration, Flow 076)" +:+ nl +:+
  tab +:+ "_ " +:+ dq +:+ "github.com/mr-addams/arxsentinel/pkg/detectorplugins/overflow" +:+ dq +:+ nl +:+
  tab +:+ "_ " +:+ dq +:+ "github.com/mr-addams/arxsentinel/pkg/detectorplugins/probe" +:+ dq +:+ nl +:+
  nl +:+
  tab +:+ "_ " +:+ dq +:+ "github.com/mr-addams/arx-core/pkg/sink/exec" +:+ dq +:+ nl +:+
  tab +:+ "_ " +:+ dq +:+ "github.com/mr-addams/arx-core/pkg/sink/stdout" +:+ dq +:+ nl +:+
  tab +:+ "_ " +:+ dq +:+ "github.com/mr-addams/arx-core/pkg/source/file" +:+ dq +:+ nl +:+
  tab +:+ "_ " +:+ dq +:+ "github.com/mr-addams/arx-core/pkg/source/syslog" +:+ dq +:+ nl +:+
  ")" +:+ nl.

Definition plugins_minimal_go : string :=
  "// Code generated by tools/gen-plugins; DO NOT EDIT." +:+ nl +:+
  nl +:+
  "//go:build arx_tag && minimal" +:+ nl +:+
  nl +:+
  "// ========================== Plugin blank-imports — minimal profile =======================" +:+ nl +:+
  "//" +:+ nl +:+
  "//" +:+ tab +:+ "Side-effect registration of plugins declared in profiles/minimal.yaml." +:+ nl +:+
  "//" +:+ tab +:+ "Active only under build tags: -tags " +:+ dq +:+ "arx_tag minimal" +:+ dq +:+ "." +:+ nl +:+
  "//" +:+ tab +:+ "See docs/architecture/adr/003-build-modularity.md and DECISIONS.md Flow 075." +:+ nl +:+
  "package main" +:+ nl +:+
  nl +:+
  "import (" +:+ nl +:+
  tab +:+ "_ " +:+ dq +:+ "github.com/mr-addams/arxsentinel/pkg/executorplugins/cloudflare" +:+ dq +:+ nl +:+
  nl +:+
  tab +:+ "// Plugin detectors (tree-shakeable side-effect registration, Flow 076)" +:+ nl +:+
  tab +:+ "_ " +:+ dq +:+ "github.com/mr-addams/arxsentinel/pkg/detectorplugins/bruteforce" +:+ dq +:+ nl +:+
  tab +:+ "_ " +:+ dq +:+ "github.com/mr-addams/arxsentinel/pkg/detectorplugins/overflow" +:+ dq +:+ nl +:+
  tab +:+ "_ " +:+ dq +:+ "github.com/mr-addams/arxsentinel/pkg/detectorplugins/probe" +:+ dq +:+ nl +:+
  tab +:+ "_ " +:+ dq +:+ "github.com/mr-addams/arxsentinel/pkg/detectorplugins/rate" +:+ dq +:+ nl +:+
  nl +:+
  tab +:+ "_ " +:+ dq +:+ "github.com/mr-addams/arx-core/pkg/sink/stdout" +:+ dq +:+ nl +:+
  tab +:+ "_ " +:+ dq +:+ "github.com/mr-addams/arx-core/pkg/source/stdin" +:+ dq +:+ nl +:+
  tab +:+ "_ " +:+ dq +:+ "github.com/mr-addams/arx-core/pkg/source/syslog" +:+ dq +:+ nl +:+
  ")" +:+ nl.

Lemma emit_iot `{UnicodePrint} : emit "iot" iot_profile = inr plugins_iot_go.
Proof. vm_compute. reflexivity. Qed.

Lemma emit_minimal `{UnicodePrint} : emit "minimal" minimal_profile = inr plugins_minimal_go.
Proof. vm_compute. reflexivity. Qed.

(** The committed plugin files are current: whatever the hand-maintained full profile holds, a run whose writes succeed over the profiles directory of the repository succeeds and writes exactly plugins_iot.go and plugins_minimal.go, each byte for byte as committed. *)
Theorem generated_files_current `{UnicodePrint} unmarshal write_err full fullp iot minimal :
  (forall path, write_err path = None) ->
  unmarshal full = inr fullp -> unmarshal iot = inr iot_profile -> unmarshal minimal = inr minimal_profile ->
  gen_main unmarshal write_err
    [mkDirEntry "full.yaml" false (inr full); mkDirEntry "iot.yaml" false (inr iot);
     mkDirEntry "minimal.yaml" false (inr minimal)] =
  ([("plugins_iot.go", plugins_iot_go); ("plugins_minimal.go", plugins_minimal_go)], None).
Proof.
  intros Hw Hf Hi Hm. unfold gen_main.
  assert (read_profiles unmarshal
    [mkDirEntry "full.yaml" false (inr full); mkDirEntry "iot.yaml" false (inr iot);
     mkDirEntry "minimal.yaml" false (inr minimal)] [] ∅ =
    inr (["iot"; "minimal"], <["minimal" := minimal_profile]> (<["iot" := iot_profile]> ∅))) as ->.
  { cbn. by rewrite Hf, Hi, Hm. }
  replace (merge_sort string_le ["iot"; "minimal"]) with ["iot"; "minimal"] by (vm_compute; reflexivity). cbn [write_profiles].
  rewrite lookup_insert_ne, lookup_insert by done. cbn [default].
  rewrite emit_iot, lookup_insert. cbn [default]. by rewrite emit_minimal, !Hw.
Qed.

Definition ex_print : UnicodePrint := {| unicode_print := fun _ => true |}.
Definition ex_unmarshal (data : string) : string + profileSchema :=
  if String.eqb data "i" then mret iot_profile else mret minimal_profile.

Lemma generated_files_current_witness : (gen_main (UP := ex_print) ex_unmarshal (fun _ => None)
    [mkDirEntry "full.yaml" false (inr "f"); mkDirEntry "iot.yaml" false (inr "i");
     mkDirEntry "minimal.yaml" false (inr "m")]).2 = None.
Proof. rewrite (generated_files_current (H := ex_print) ex_unmarshal (fun _ => None) "f" minimal_profile "i" "m"); reflexivity. Defined.

Lemma gen_plugins_complete_witness : exists x, collect_imports (UP := ex_print) iot_profile = inr x /\ length (all_imports x) = 7.
Proof.
  destruct (collect_imports (UP := ex_print) iot_profile) as [e|x] eqn:E; [vm_compute in E; discriminate E|].
  exists x. split; [reflexivity|]. pose proof (gen_plugins_complete (UP := ex_print) iot_profile x E) as (_ & -> & _). reflexivity.
Defined.
