(* ===== verification/Registration.v ===== *)
(** * Plugin registration (init functions, manifests, plugins_full.go)

    What the packages of the plugins register when they are linked, their manifests
    and display names, and what a build profile runs: the imports of the generator
    (GenPlugins.v) select the init functions, these fill the registry, and the
    registry builds the detectors of a pipeline (Factory.v).  The registries
    themselves belong to the core module and are parameters. *)

From Stdlib Require Import ZArith Lia Ascii String.
From stdpp Require Import base numbers option list strings gmap fin_maps.
From S2P Require Import Prelude GoFloat GoStrings GoFmt GoValues GoTime Model Tracker Scorer Detectors Crawler Whitelist Waf ExecCommon NginxExec MikrotikExec OpenwrtExec OpnsenseExec CloudflareExec ConfigTypes ConfigEnv ConfigLoad Factory Wiring GenPlugins.

(** ** Manifests *)

(** The constants of pkg/plugin that [Validator] does not name. *)
Class PluginRoles := { RoleDetector : string; RoleExecutor : string; TypeNone : string }.

Section manifests.
Context `{Validator} `{PluginRoles}.

(** The literals share their roles and data types. *)
Definition detector_literal (id version : string) (tags : list string) : Manifest :=
  mkManifest id version RoleDetector TypeStructured TypeStructured tags [].
Definition executor_literal (id version : string) (tags : list string) : Manifest :=
  mkManifest id version RoleExecutor TypeScoredEvent TypeNone tags [].
Definition processor_literal (id version : string) (tags : list string) (produces : list (string * FieldType)) : Manifest :=
  mkManifest id version RoleProcessor TypeStructured TypeStructured tags produces.

Definition badbot_Manifest : Manifest := detector_literal "badbot" "1.0.0" ["http"; "blocklist-based"; "bad-bot"].
Definition bruteforce_Manifest : Manifest := detector_literal "bruteforce" "1.0.0" ["http"; "rate-based"; "bruteforce"].
Definition crawler_Manifest : Manifest := detector_literal "crawler" "1.0.0" ["http"; "path-based"; "sequential"].
Definition noasset_Manifest : Manifest := detector_literal "noasset" "1.0.0" ["http"; "path-based"; "no-asset"].
Definition overflow_Manifest : Manifest := detector_literal "overflow" "1.0.0" ["http"; "payload-based"; "overflow"].
Definition probe_Manifest : Manifest := detector_literal "probe" "1.0.0" ["http"; "path-based"; "sensitive-paths"].
Definition rate_Manifest : Manifest := detector_literal "rate" "1.0.0" ["http"; "rate-based"; "dos"].
Definition useragent_Manifest : Manifest := detector_literal "useragent" "1.0.0" ["http"; "signature-based"; "user-agent"].

Definition cloudflare_Manifest : Manifest := executor_literal "cloudflare" "1.0.0" ["cloudflare"; "waf"; "api"].
Definition mikrotik_Manifest : Manifest :=
  executor_literal "mikrotik" "1.0.0" ["routeros-v7"; "v7.18.2+"; "rest-api"; "embedded-capable"].
Definition nginx_Manifest : Manifest := executor_literal "nginx" "1.1.0" ["nginx"; "file-based"].
Definition openwrt_Manifest : Manifest := executor_literal "openwrt" "1.0.0" ["ubus"; "fw4"; "nftables"; "uci"].
Definition opnsense_Manifest : Manifest := executor_literal "opnsense" "1.0.0" ["rest"; "pf"; "alias_util"; "freebsd"].

Definition chaincheck_Manifest : Manifest :=
  processor_literal "chaincheck" "1.0.0" ["enrichment"; "proxy-chain"; "infrastructure"] [].
Definition waf_Manifest : Manifest := processor_literal "waf" "1.0.0" ["waf"; "rules"; "security"] waf_Produces.
Definition whitelist_Manifest : Manifest :=
  processor_literal "whitelist" "" ["filter"; "whitelist"; "bot-verification"] [].
End manifests.

(** ** Display names *)

Definition mikrotik_Name (cfg : MikrotikConfig) : string :=
  if negb (String.eqb (mc_ListName cfg) "") then mc_ListName cfg else "mikrotik".
Definition openwrt_Name (cfg : OpenwrtConfig) : string :=
  if negb (String.eqb (oc_IPSetName cfg) "") then oc_IPSetName cfg else "openwrt".
Definition opnsense_Name (cfg : OpnsenseConfig) : string :=
  if negb (String.eqb (pc_AliasName cfg) "") then pc_AliasName cfg else "opnsense".

(** ** The init functions *)

Definition local_package (kind name : string) : string := localModuleRoot +:+ "/pkg/" +:+ kind +:+ "plugins/" +:+ name.

(** [plugin.Executor]: the executors behind the interface. *)
Inductive Executor `{DedupWindow} :=
| ExCloudflare (e : CloudflareExecutor)
| ExMikroTik (e : MikroTikExecutor)
| ExNginx (e : NginxExecutor)
| ExOpenwrt (e : OpenwrtExecutor)
| ExOpnsense (e : OpnsenseExecutor).

(** What [executor.Register] and [executor.RegisterManifest] store for a type. *)
Record ExecutorEntry `{DedupWindow} := mkExecutorEntry {
  ee_Type : string;
  ee_Factory : Params -> option Executor;
  ee_Manifest : Manifest
}.
Arguments mkExecutorEntry {_}.

Section executors.
Context `{DedupWindow} `{Validator} `{PluginRoles}.
(** The files of the host and its random bytes, for the instance id. *)
Variable files : string -> option string.
Variable rnd : option (list N).

Definition newCloudflareFactory (raw : Params) : option Executor := ExCloudflare <$> NewCloudflareExecutor files rnd raw.
Definition newMikroTikFactory (raw : Params) : option Executor := ExMikroTik <$> NewMikroTikExecutor raw.
Definition newNginxFactory (raw : Params) : option Executor := ExNginx <$> NewNginxExecutor raw.
Definition newOpenwrtFactory (raw : Params) : option Executor := ExOpenwrt <$> NewOpenwrtExecutor raw.
Definition newOpnsenseFactory (raw : Params) : option Executor := ExOpnsense <$> NewOpnsenseExecutor raw.

Definition cloudflare_init : ExecutorEntry := mkExecutorEntry "cloudflare" newCloudflareFactory cloudflare_Manifest.
Definition mikrotik_init : ExecutorEntry := mkExecutorEntry "mikrotik" newMikroTikFactory mikrotik_Manifest.
Definition nginx_init : ExecutorEntry := mkExecutorEntry "nginx" newNginxFactory nginx_Manifest.
Definition openwrt_init : ExecutorEntry := mkExecutorEntry "openwrt" newOpenwrtFactory openwrt_Manifest.
Definition opnsense_init : ExecutorEntry := mkExecutorEntry "opnsense" newOpnsenseFactory opnsense_Manifest.

(** By import path. *)
Definition executor_inits : list (string * ExecutorEntry) := [
  (local_package "executor" "cloudflare", cloudflare_init); (local_package "executor" "mikrotik", mikrotik_init);
  (local_package "executor" "nginx", nginx_init); (local_package "executor" "openwrt", openwrt_init);
  (local_package "executor" "opnsense", opnsense_init)].
End executors.

(** [detector.Register]: the name a package registers its factory under. *)
Definition detector_inits : list (string * string) := [
  (local_package "detector" "badbot", "badbot");
  (local_package "detector" "bruteforce", "bruteforce");
  (local_package "detector" "crawler", "crawler");
  (local_package "detector" "noasset", "noasset");
  (local_package "detector" "overflow", "overflow");
  (local_package "detector" "probe", "probe");
  (local_package "detector" "rate", "rate");
  (local_package "detector" "useragent", "ua")].

(** The names registered by the packages among the imports. *)
Definition linked {A} (inits : list (string * A)) (imports : list string) : list A :=
  snd <$> filter (fun pn => pn.1 ∈ imports) inits.

(** plugins_full.go. *)
Definition plugins_full : Imports :=
  mkImports
    [local_package "executor" "cloudflare"; local_package "executor" "mikrotik"; local_package "executor" "nginx";
     local_package "executor" "openwrt"; local_package "executor" "opnsense";
     local_package "processor" "chaincheck"; local_package "processor" "whitelist"]
    (local_package "detector" <$> ["badbot"; "bruteforce"; "crawler"; "noasset"; "overflow"; "probe"; "rate"; "useragent"])
    (append "github.com/mr-addams/arx-core/pkg/" <$>
      ["sink/datadog"; "sink/exec"; "sink/loki"; "sink/sentinel"; "sink/splunk"; "sink/stdout"; "source/exec";
       "source/file"; "source/http"; "source/sentinel"; "source/stdin"; "source/syslog"]).

(** profiles/full.yaml, decoded. *)
Definition full_profile : profileSchema :=
  let own name := mkPluginEntry name "arxsentinel" in
  mkProfileSchema (own <$> ["cloudflare"; "mikrotik"; "nginx"; "openwrt"; "opnsense"]) (own <$> ["chaincheck"; "whitelist"])
    [core_plugin "datadog"; core_plugin "exec"; core_plugin "loki"; own "sentinel-threat"; core_plugin "splunk"; core_plugin "stdout"]
    [core_plugin "exec"; core_plugin "file"; core_plugin "http"; own "sentinel"; core_plugin "stdin"; core_plugin "syslog"]
    (detector_plugin <$> ["probe"; "rate"; "bruteforce"; "noasset"; "overflow"; "crawler"; "badbot"; "ua"]).

(** ** The whitelist factory (processorplugins/whitelist/register.go) *)

(** The two type assertions on the parameters as their results. *)
Definition whitelist_factory `{UnicodePrint} (whitelist_config : option WhitelistConfig) (resolver : option Resolver)
  : string + WhitelistProcessor :=
  match whitelist_config, resolver with
  | None, _ => inl ("whitelist: param " +:+ Quote "whitelist_config" +:+ " missing or type-assert fails")
  | Some _, None => inl ("whitelist: param " +:+ Quote "resolver" +:+ " missing or type-assert fails")
  | Some wc, Some _ =>
      NewWhitelistProcessor (wl_Bots wc) (wl_Custom wc) (dn_PositiveTTL (wl_DNSCache wc)) (dn_NegativeTTL (wl_DNSCache wc))
  end.

(** ** Coherence of the full build *)

(** Every executor is registered under its manifest's id and takes what the scorer
    produces, and the full build registers all five. *)
Lemma executor_manifests_coherent `{DedupWindow} `{Validator} `{PluginRoles} files rnd :
  let entries := linked (executor_inits files rnd) (all_imports plugins_full) in
  Forall (fun en => mf_PluginID (ee_Manifest en) = ee_Type en /\ mf_Role (ee_Manifest en) = RoleExecutor /\
    mf_InputType (ee_Manifest en) = mf_OutputType scorerManifest) entries /\
  ee_Type <$> entries = ["cloudflare"; "mikrotik"; "nginx"; "openwrt"; "opnsense"].
Proof.
  cbv zeta. unfold linked, executor_inits. set (imports := all_imports plugins_full).
  repeat (rewrite filter_cons_True; [|apply (bool_decide_unpack _); vm_compute; exact I]). rewrite filter_nil.
  cbn [fmap list_fmap snd]. split; [|done]. repeat (apply Forall_cons_2; [done|]); apply Forall_nil_2.
Qed.

(** The full build registers every detector of the global section. *)
Lemma full_build_detectors : linked detector_inits (all_imports plugins_full) = global_detector_names.
Proof. reflexivity. Qed.

(** The full profile names the module of the sentinel plugins differently from the
    file that is maintained by hand: its imports are not packages of the module. *)
Lemma full_profile_differs `{UnicodePrint} : exists x, collect_imports full_profile = inr x /\
  local_package "sink" "sentinel" ∈ all_imports x /\ local_package "source" "sentinel" ∈ all_imports x /\
  local_package "sink" "sentinel" ∉ all_imports plugins_full /\ local_package "source" "sentinel" ∉ all_imports plugins_full.
Proof. eexists. split; [vm_compute; reflexivity|]. repeat split; apply (bool_decide_unpack _); vm_compute; exact I. Qed.

(** ** From a profile to the running detectors *)

Section profiles.
Context {UP : UnicodePrint}.

(** An entry of the profile links the package of a detector. *)
Definition profile_links (p : profileSchema) (name : string) : bool :=
  existsb (fun e => ((String.eqb (pe_Module e) "" || String.eqb (pe_Module e) "arxsentinel") &&
                     String.eqb (pkgSuffix "detectors" (pe_Name e)) (pkgSuffix "detectors" name))%bool) (pf_Detectors p).

Lemma kindPath_detector k e suffix : kindPath k e = inr (local_package "detector" suffix) <->
  k = "detectors" /\ (pe_Module e = "" \/ pe_Module e = "arxsentinel") /\ pkgSuffix k (pe_Name e) = suffix.
Proof.
  unfold kindPath, kindSingular, local_package. split.
  - destruct (String.eqb_spec k "detectors") as [->|Hk].
    + cbn [String.eqb Ascii.eqb Bool.eqb]. cbv zeta.
      destruct (String.eqb_spec (pe_Module e) "") as [Hm|Hm]; cbn [String.eqb Ascii.eqb Bool.eqb].
      { intros [= Hp]. by repeat split; [left|]. }
      destruct (String.eqb_spec (pe_Module e) "arxsentinel") as [Hm'|Hm'].
      { intros [= Hp]. by repeat split; [right|]. }
      unfold externalModuleRoots. destruct (String.eqb _ _); [discriminate|]. discriminate.
    + intros Hp. exfalso. revert Hp.
      destruct (String.eqb k "sources"); [|destruct (String.eqb k "sinks"); [|destruct (String.eqb k "executors");
        [|destruct (String.eqb k "processors"); [|by destruct (String.eqb_spec k "detectors")]]]];
        (destruct (String.eqb (if _ : bool then _ else _) _); [discriminate|]);
        unfold externalModuleRoots; (destruct (String.eqb _ _); discriminate).
  - intros (-> & Hm & <-). cbn [String.eqb Ascii.eqb Bool.eqb]. cbv zeta. by destruct Hm as [-> | ->].
Qed.

(** A package is imported when an entry of the profile maps to it. *)
Lemma imports_spec p x path : collect_imports p = inr x ->
  path ∈ all_imports x <-> exists k es e, (k, es) ∈ profile_kinds p /\ e ∈ es /\ kindPath k e = inr path.
Proof.
  intros ((imps & HF & Hp) & _)%gen_plugins_complete. rewrite Hp. split.
  - intros Hin. destruct (list_elem_of_lookup_1 _ _ Hin) as [i Hi].
    destruct (Forall2_lookup_r _ _ _ _ _ HF Hi) as ([k e] & Hke & Hk). apply list_elem_of_lookup_2 in Hke.
    apply list_elem_of_bind in Hke as ([k' es] & Hke & Hkes). apply list_elem_of_fmap in Hke as (e' & [= -> ->] & He). by exists k', es, e'.
  - intros (k & es & e & Hk & He & Hkp).
    assert (Hin : (k, e) ∈ profile_kinds p ≫= (fun '(k, es) => pair k <$> es)).
    { apply list_elem_of_bind. exists (k, es). split; [|done]. by apply list_elem_of_fmap_2. }
    destruct (list_elem_of_lookup_1 _ _ Hin) as [i Hi]. destruct (Forall2_lookup_l _ _ _ _ _ HF Hi) as (imp & Himp & Hk').
    cbn in Hk'. rewrite Hkp in Hk'. injection Hk' as ->. by eapply list_elem_of_lookup_2.
Qed.

Lemma profile_package p x suffix : collect_imports p = inr x ->
  local_package "detector" suffix ∈ all_imports x <->
  exists e, e ∈ pf_Detectors p /\ (pe_Module e = "" \/ pe_Module e = "arxsentinel") /\ pkgSuffix "detectors" (pe_Name e) = suffix.
Proof.
  intros Hx. rewrite (imports_spec p x _ Hx). split.
  - intros (k & es & e & Hk & He & (-> & Hm & Hs)%kindPath_detector). exists e. split; [|done].
    unfold profile_kinds in Hk. repeat (apply elem_of_cons in Hk as [Hk|Hk]; [first [discriminate Hk | injection Hk as ->; done]|]). by apply elem_of_nil in Hk.
  - intros (e & He & Hm & Hs). exists "detectors", (pf_Detectors p), e. split; [|split; [done|by apply kindPath_detector]].
    do 2 apply list_elem_of_further. left.
Qed.

Lemma profile_links_spec p name : profile_links p name = true <->
  exists e, e ∈ pf_Detectors p /\ (pe_Module e = "" \/ pe_Module e = "arxsentinel") /\
    pkgSuffix "detectors" (pe_Name e) = pkgSuffix "detectors" name.
Proof.
  unfold profile_links. rewrite existsb_exists. setoid_rewrite andb_true_iff. setoid_rewrite orb_true_iff.
  setoid_rewrite String.eqb_eq. by setoid_rewrite list_elem_of_In.
Qed.

(** The registry of a build knows the detectors the profile asks for. *)
Lemma profile_registers p x name : collect_imports p = inr x -> name ∈ global_detector_names ->
  name ∈ linked detector_inits (all_imports x) <-> profile_links p name = true.
Proof.
  intros Hx Hn. rewrite profile_links_spec, <- (profile_package p x _ Hx).
  unfold linked. rewrite list_elem_of_fmap. split.
  - intros ([path n] & -> & [Hin Hp]%list_elem_of_filter). cbn [fst snd] in *. unfold detector_inits in Hp.
    repeat (apply elem_of_cons in Hp as [[= -> ->]|Hp]; [exact Hin|]). by apply elem_of_nil in Hp.
  - intros Hin. exists (local_package "detector" (pkgSuffix "detectors" name), name). split; [done|].
    apply list_elem_of_filter. split; [exact Hin|]. unfold global_detector_names in Hn.
    repeat (apply elem_of_cons in Hn as [->|Hn]; [apply (bool_decide_unpack _); vm_compute; exact I|]). by apply elem_of_nil in Hn.
Qed.

Section running.
Context {UL : UnicodeLower} {MR : MapRange} {DP : DetectorParams} {DR : DetectorRegistry}.
(** The getters of the core module, as in Factory.v. *)
Context (as_config : DetectorSpec -> Detectors.DetectorConfig).
Hypothesis GetInt_present : forall s k z d, spec_Params s !! k = Some (AnyInt z) -> GetInt (as_config s) k d = z.
Hypothesis GetFloat64_present : forall s k x d, spec_Params s !! k = Some (AnyFloat x) -> GetFloat64 (as_config s) k d = x.
Hypothesis GetBool_present : forall s k b d, spec_Params s !! k = Some (AnyBool b) -> GetBool (as_config s) k d = b.
Hypothesis GetDuration_present : forall s k str x d, spec_Params s !! k = Some (AnyString str) ->
  ParseDuration str = Some x -> GetDuration (as_config s) k d = x.
Hypothesis GetStrings_present : forall s k l d, spec_Params s !! k = Some (AnyStrings l) ->
  l <> [] \/ d = [] -> GetStrings (as_config s) k d = l.

(** The registry of a build with these imports: a name that an init function
    registered is built by its factory, for another name nothing is built. *)
Variable imports : list string.
Hypothesis build_linked : forall name factory s sh, name ∈ linked detector_inits imports ->
  registered as_config name = Some factory -> spec_Exec s = "" ->
  detector_Build name s sh = if spec_Enabled s then d ← factory s sh; mret (Some d) else mret None.
Hypothesis build_unlinked : forall name s sh d, name ∉ linked detector_inits imports -> spec_Exec s = "" ->
  detector_Build name s sh <> inr (Some d).

Lemma built_linked cfg sh name : name ∈ global_detector_names ->
  built_detector (globalDetectorSpecs cfg) sh name =
    if bool_decide (name ∈ linked detector_inits imports) then registered_detector as_config (globalDetectorSpecs cfg) sh name
    else None.
Proof.
  intros Hn. unfold built_detector, registered_detector.
  destruct (globalDetectorSpecs cfg !! name) as [s|] eqn:Hs; [|by case_bool_decide]. cbn [mbind option_bind].
  pose proof (global_no_exec _ _ _ Hs) as He. case_bool_decide as Hl.
  - destruct (global_registered as_config _ Hn) as [factory Hr]. rewrite Hr, (build_linked _ _ _ _ Hl Hr He).
    cbn [mbind option_bind]. destruct (spec_Enabled s); [|done]. by destruct (factory s sh).
  - destruct (detector_Build name s sh) as [e|[d|]] eqn:Hb; [done| |done]. by destruct (build_unlinked _ _ _ _ Hl He Hb).
Qed.

End running.
End profiles.

(** ** Concrete instances *)

(** The registry of a build with the given imports. *)
Definition ex_build_registry (imports : list string) : DetectorRegistry :=
  {| detector_Build := fun name s sh =>
       if bool_decide (name ∈ linked detector_inits imports) then
         match ex_registered name with
         | Some factory => if spec_Enabled s then d ← factory s sh; mret (Some d) else mret None
         | None => inl ("unknown detector " +:+ name)
         end
       else inl ("unknown detector " +:+ name) |}.

Definition iot_imports : list string :=
  match @collect_imports ConfigLoad.ex_print iot_profile with inr x => all_imports x | inl _ => [] end.

